(* ===== verification/_CoqProject ===== *)
-Q . S2P
Prelude.v
Text.v
Json.v
Proc.v
Shared.v
MuxState.v
MuxWorld.v
MuxClient.v
MuxServer.v
MuxManager.v
Heartbeat.v
MuxDesk.v
MuxSystem.v
MuxLiveness.v
Status.v
Proxy.v
Paths.v
Disk.v
Config.v
Scan.v
Rewire.v
Shell.v
MuxGen.v
Danger.v
WizardServices.v
Wizard.v
WizardRun.v
Ipc.v
Summaries.v
Endpoints.v
Wire.v
ScanCmd.v
Runner.v
Prisms.v
Launch.v
ConsoleConfig.v
Runs.v
RunFiles.v
ConsoleApp.v
ConsoleView.v
Screen.v
ConsoleScreen.v
WizardScreen.v
MuxDash.v
ConsoleLaunch.v
Console.v
ConsoleProps.v
Tray.v
Agents.v
Witnesses.v
ToolWitnesses.v
ConsoleWitnesses.v
TrayWitnesses.v
RunnerWitnesses.v
Testing.v
RuntimeTests.v
ToolTests.v
WizardTests.v
ConsoleTests.v
BoardTests.v
AgentTests.v
