(* ===== verification/Prelude.v ===== *)
(** * Operator workspace: a verification library

    The workspace runs a multiplexer for MCP servers ([mux-agent]) and the tools around
    it.  One MCP server, a child process that speaks JSON-RPC on its standard streams,
    is shared by many clients over a Unix socket; the tools find the servers that the
    installed clients are configured with, generate the multiplexer's configuration,
    rewrite the clients' files, and let an operator start agents and watch their runs
    ([tui-agent]), with an agent in the menu bar beside them ([tray-agent]).

    ** How the parts interact

    A client's stdio proxy connects to the socket of a mux.  [handle_client] gives the
    connection a number, holds its requests back until the client is initialized, and
    sends each request to the server under a global identifier; the server manager
    writes them to the child, restarts it when it fails, and the router sends each
    response to the client its identifier names, under the identifier that client
    used.  A reaper expires requests, a heartbeat probes the child, snapshots of the
    state go to a status file and to the subscribers of a control socket.  All these
    tasks share one [MuxState] behind a mutex.

    The setup wizard scans the clients' files, lets the operator tick sources and servers
    and runs one of three strategies over [MuxGen] and [Danger].  The console reads the
    state directory, the muxes' status files and the prisms on every refresh, and starts
    commands behind the launch gate; the tray and the shell agent ([shell-agent/ffi]) talk to
    the control socket.  The binary [rust-mux] turns its command line into one of these
    jobs, and [run_mux] or [run_mux_multi] take the sockets and start the tasks.

    ** Files

    - [Prelude]: record update, machine integers, results, lists, sorting, the
      [operator] hint database and the tactics.  [Text]: strings as bytes (trimming,
      splitting, padding, numbers).  [Json]: JSON values and the class [Platform] of what
      comes from outside the repository (serialized length, [Debug] of strings, Unicode
      lower case, the iteration order of hash maps).  [Proc]: tasks as trees of atomic
      actions, their sequential execution [run], their interleavings [sys_step], and the
      two proof rules [safe] (rely and guarantee) and [sys_invariant].
    - [Shared] ([multi.rs], [ipc/event.rs]), [MuxState] ([state.rs]), [MuxWorld] (the
      asynchronous half of [state.rs], the channels, the clock), [MuxClient]
      ([runtime/client.rs]), [MuxServer] ([runtime/server.rs], router and reaper of
      [runtime/mod.rs]), [MuxManager] (the schedule of the restarts), [Heartbeat]
      ([runtime/heartbeat.rs]), [MuxDesk] (the abstract specification of a mux: a desk
      that issues tickets to visitors, as a step relation on its events, and the relation
      between desk and state), [MuxSystem] (all tasks of one mux interleaved: [mux_task]
      says which tasks there are, [mux_env] what the outside may do, [reachable] which
      configurations occur after a number of steps), [MuxLiveness] (infinite runs of a mux,
      what is fair to its reaper, and what then becomes of a request).
    - [Status] ([runtime/status.rs]), [Proxy] ([runtime/proxy.rs]), [Ipc] ([ipc/]),
      [Endpoints] (the status endpoint and its client, the writer of the status file, the
      accept loop of the control socket, [bin/rust-mux-proxy.rs]).  [Wire]: the JSON of the
      control protocol, by the derived formats of [ipc/command.rs], [ipc/event.rs] and the
      snapshot.
    - [ScanCmd] (the scan command of [scan.rs], in a small monad of file tree, output and
      error) and [Runner] ([bin/rust-mux.rs], the runner of [lib.rs], the set-up in
      [runtime/mod.rs]: the command line, sockets, tasks, many muxes in one process).
    - [Paths] and [Config] ([config.rs], the builder of [lib.rs]), [Scan] and [Rewire]
      ([scan.rs]), [MuxGen] ([mux_gen.rs]), [Danger] ([danger.rs]).
    - [WizardServices] ([wizard/services.rs], [types.rs]): sources, services and what runs
      already.  [Wizard] ([wizard/keys.rs]): the five steps, key by key, with their
      invariant.  [WizardRun] ([wizard/mod.rs], [persist.rs]): the strategies and whole
      sessions.
    - [Disk]: what the console asks the file system.  [Summaries]
      ([tui-agent/src/mux.rs], the writer of [runtime/status.rs]), [Prisms]
      ([polarize.rs]), [Shell] (specifications of shell words and KDL strings), [Launch]
      ([launch.rs], [skills_catalog.rs]), [ConsoleConfig] ([config.rs]), [Runs] and
      [RunFiles] ([state.rs]: the board, and the formats of the files behind it).
    - [ConsoleApp] ([app.rs]: the state and its pure operations), [ConsoleView] ([app.rs]:
      the panels' text), [ConsoleLaunch] ([lib.rs]: running a command in the console's
      terminal), [Console] ([lib.rs], [app.rs]: keys, looking, archiving, the viewer, the
      loop, the terminal around it), [ConsoleProps] (what the console keeps to).
    - [Screen]: styled text, widgets and frames as ratatui's drawing calls make them, over a
      class [Layout] of what its solver promises (as many rectangles as constraints, inside
      the area).  [ConsoleScreen] ([tui-agent/src/ui.rs]), [WizardScreen] ([wizard/ui.rs]),
      [MuxDash] ([multi_tui.rs], [tray.rs], [tray_dashboard.rs]).
    - [Tray] ([tray-agent/src/]), [Agents] ([shell-agent/ffi/src/lib.rs], the cells and the
      requests of the tray, and the connection between them and the control socket).
    - [Witnesses], [ToolWitnesses], [ConsoleWitnesses], [TrayWitnesses], [RunnerWitnesses]:
      every property with hypotheses at a concrete input.
    - [Testing] (assertions, a reader and a writer of JSON text), [RuntimeTests],
      [ToolTests], [WizardTests], [ConsoleTests], [BoardTests], [AgentTests]: the
      repository's own tests as boolean definitions over the model.

    ** Correspondence

    A definition has the name of the Rust item it models; a piece of a long function has
    a name of its own and is used by the definition of the function in the place where
    the code has it.  Integers are [N] with their wrap-around or saturation written
    where they are computed; times and durations are nanoseconds.  A [HashMap] is a
    [gmap], whose iteration order is [hash_iter] of the [Platform], of which only that
    it is a permutation is known; a JSON object is an association list in key order, as
    [serde_json] keeps it.  Errors are [result]s with the message of the code's context.

    A task is a [proc]: every action runs atomically on the [World], and a task can only be
    interrupted between two actions.  One critical section of the mutex is one action,
    enabled while nobody holds the lock; a guard that lives across an [.await] sets
    [lock_held] and so disables the others.  What the outside decides (frames, socket
    writes that fail, the exit of the child, ticks) is an argument of the task, a list of
    events that the theorems quantify over; a task whose events are used up waits.
    The console and the wizard are sequential: a state passed along, with what they find
    outside as a function of what they did so far ([Console.world], over a log of deeds)
    or as an argument of the step ([Surroundings], [Aftermath]), and what they do as a log.
    Loops over such lists are structural, so no fuel is needed; where there is fuel
    ([split_name], [ensure_unique_from], [read_loop], [unused_backup], [collect_prisms],
    [wait_loop], [lift]) it is bounded by the length of the path, the number of used names,
    the number of events, the thousand names and the seven levels the code tries, the
    turns of 100 ms before the deadline and the distance of the index from zero, and lemmas beside the definitions show that it is
    enough or that the code gives up at that point.

    ** What is shown

    - Routing: a request comes back to the client that sent it, under its own identifier
      ([request_response_roundtrip]); global identifiers are never reused in any
      interleaving ([global_ids_are_fresh]); a response reaches its client only; resets,
      expiry and refusals are answered; the initialize response is cached; notifications
      reach every client.
    - Refinement: whatever the tasks of a mux do, in any interleaving, is a sequence of events
      at the desk ([mux_refines_the_desk]); so every request is issued once, to a client
      that had joined, and settled at most once, and the pending map holds exactly what was
      issued and not yet settled ([every_request_is_settled_once]).
    - Handshake: requests are held back until the client is initialized and flushed in
      order, and in every reachable configuration a pending request belongs to a client
      that has completed its handshake or to an [initialize].
    - Bounds: in every interleaving the pending map, the queue to the server and the published
      queue depth stay within their limits; the restart delays follow the capped doubling;
      all this holds of what [run_mux] sets up, for its whole life.
    - Progress: in every infinite run in which the reaper gets its turn within a bound, an
      expired request is gone after its next two turns and never comes back, unless the mux
      has frozen.
    - Defects, as theorems on the code as it is: the waiting list of concurrent
      initializations is never used, no heartbeat is ever answered, reaching the restart
      limit freezes the mux, [initialized] is forwarded once in a lifetime, a client
      whose frame does not decode stays registered, an idle proxy outlives its client,
      merged names can collide, the muxes of one process take the control socket from each
      other, a restart that is asked for is never served, the documented command line is
      refused beside a configuration file.
    - Files: merging loses nothing; the generated files agree with each other and with
      what the daemon resolves from them; per-client files do not collide; rewriting keeps
      everything that was not discovered, touches planned files only and can be rolled
      back, by commands that a shell reads as intended.
    - The wizard: nothing is written and no daemon started before the operator confirmed,
      with a server ticked and not in a dry run; the danger strategy touches only files of
      ticked sources, for servers shaped like a ticked one; the unified strategy serves
      what is ticked, and the daemon it starts runs exactly these servers; the summary
      names every file that then changes (for the per-client strategy it does not).
    - The scan command changes the files it names only, and its manifest starts the servers
      that it found.
    - Drawing: whatever the console's state, its frame is defined, every widget lies on the
      screen and every selection in its list; the lists show the state's entries in order;
      the dashboard's keys command the server that is highlighted, and its tray menu is
      updated to what building it again would show exactly while no server comes or goes.
    - Operation: the report of the status endpoint is complete; the pane of a launched agent
      runs the intended command whatever the prompt contains; the gate in front of a
      launch stops exactly when a server bypasses the mux; the board shows the live runs
      of the state directory, classified and ordered.
    - The console: over whole sessions its indices stay in range and its board is the
      filtered view of some look at the disk; nothing is launched, written or copied
      without the key that means it; the viewer stays inside the selected run's root; an
      archived run leaves the board; waiting for a session ends after at most twenty
      probes, and a success was one; the console reads back what a mux wrote; the
      subscription gives up after ten refusals in a row; the newest prisms are shown.
    - Formats: commands, events, snapshots and responses of the control protocol survive
      their JSON, so what the shell agent shows is the mux's state; a run file may be
      spelled either way ([either_spelling_reads_the_same]), but for its session.
    - Agreement with the authors: the tests of the repository hold of the model
      ([runtime_tests_pass] and its siblings, 189 tests).
    - The tray: its subscription ends after ten connections whatever happens, every item of
      the menu does what it says, and the icon is painted inside its picture.

    ** Not modelled

    The text of JSON, TOML and YAML is a parameter, as are the words that clap parses and
    what [ps] prints; the formats that the code derives from its own types are
    definitions ([Scan.de_raw_server], [Summaries], [Wire], [RunFiles]).  What the
    operating system does (a child, a socket, a signal, a terminal that fails, a change the
    file watcher reports) is an input.  Logging, the cells that ratatui fills with text,
    the platform's tray and its event loop, reading PNG files and the generated Swift
    bindings are left out: there is no code of the repository in them to read.
    [mux-agent/src/main.rs] and [common.rs] are older copies that nothing builds or uses;
    [ManagedServer] and [TuiMuxState] of [multi.rs] have no user.  Of the tests, those of
    byte streams, real processes, PNG files and of the unused copies are left out, and the
    one that compares the skill catalogue with a directory outside the repository. *)
From stdpp Require Export base tactics numbers option list gmap strings pretty.
From Stdlib Require Export Lia.

(** ** Record update

    [r <| f := v |>] is the record [r] with its field [f] replaced, the way the
    code assigns one field of a struct behind a [&mut].  A record type opts in
    by giving its eta expansion as an instance of [Eta]. *)
Class Eta (R : Type) := eta_of : R → R.
Class Setter {R E : Type} (proj : R → E) := set_with : (E → E) → R → R.
#[global] Arguments set_with {R E} proj {_} _ _ : simpl nomatch.

Ltac build_setter :=
  lazymatch goal with
  | |- @Setter ?R ?E ?proj =>
      let eta := eval cbv delta [eta_of] in (@eta_of R _) in
      let eta := eval hnf in eta in
      exact (fun (f : E → E) (r : R) =>
        ltac:(let body := eval cbv beta in (eta r) in
              let pat := eval pattern (proj r) in body in
              lazymatch pat with
              | ?g _ => let t := eval cbv beta in (g (f (proj r))) in exact t
              end))
  end.
#[export] Hint Extern 0 (Setter _) => build_setter : typeclass_instances.

Declare Scope operator_scope.
Delimit Scope operator_scope with op.
Notation "r <| p := v |>" := (set_with p (fun _ => v) r)
  (at level 1, left associativity, p at level 9) : operator_scope.
Notation "r <| p ::= f |>" := (set_with p f r)
  (at level 1, left associativity, p at level 9) : operator_scope.
#[global] Open Scope operator_scope.

(** ** Machine integers

    [u64], [u32] and [usize] values are [N]; [usize] is 64 bits wide, as on every
    target the workspace is built for.  [n as u64] and the release-build [+]
    keep the low bits; [saturating_sub] is [N.sub]. *)
Definition U64_MODULUS : N := 2 ^ 64.
Definition U64_MAX : N := U64_MODULUS - 1.
Definition U32_MODULUS : N := 2 ^ 32.
Definition U32_MAX : N := U32_MODULUS - 1.

Definition U16_MODULUS : N := 2 ^ 16.

Definition as_u64 (n : N) : N := n `mod` U64_MODULUS.
Definition as_u32 (n : N) : N := n `mod` U32_MODULUS.
Definition as_u16 (n : N) : N := n `mod` U16_MODULUS.
Definition u64_add (a b : N) : N := as_u64 (a + b).
Definition u32_add (a b : N) : N := as_u32 (a + b).
Definition u16_add (a b : N) : N := as_u16 (a + b).
(** [Ord::clamp]. *)
Definition clamp (n lo hi : N) : N := N.max lo (N.min n hi).
Definition u64_saturating_add (a b : N) : N := N.min (a + b) U64_MAX.

(** [Instant]s and [Duration]s count nanoseconds; [Instant::elapsed] and
    [duration_since] saturate at zero, as [N.sub] does. *)
Definition from_millis (ms : N) : N := ms * 1000000.
Definition from_secs (s : N) : N := s * 1000000000.
Definition as_millis (d : N) : N := d / 1000000.

Lemma as_u64_small n : (n < U64_MODULUS)%N → as_u64 n = n.
Proof. apply N.mod_small. Qed.

Lemma as_u64_lt n : (as_u64 n < U64_MODULUS)%N.
Proof. by apply N.mod_lt. Qed.

Lemma as_u32_small n : (n < U32_MODULUS)%N → as_u32 n = n.
Proof. apply N.mod_small. Qed.

Lemma u64_add_small a b : (a + b < U64_MODULUS)%N → u64_add a b = (a + b)%N.
Proof. apply as_u64_small. Qed.

Lemma u64_saturating_add_le a b : (u64_saturating_add a b ≤ U64_MAX)%N.
Proof. unfold u64_saturating_add. lia. Qed.

Lemma u64_saturating_add_small a b :
  (a + b ≤ U64_MAX)%N → u64_saturating_add a b = (a + b)%N.
Proof. unfold u64_saturating_add. lia. Qed.

Lemma as_millis_from_millis ms : as_millis (from_millis ms) = ms.
Proof. unfold as_millis, from_millis. by rewrite N.div_mul. Qed.

(** ** Options

    [opt_or] is [Option::or] / [or_else]; [unwrap_or] the method of that name. *)
Definition opt_or {A} (a b : option A) : option A :=
  match a with Some x => Some x | None => b end.
Definition unwrap_or {A} (a : option A) (d : A) : A := default d a.
Definition is_some {A} (a : option A) : bool :=
  match a with Some _ => true | None => false end.
Definition is_none {A} (a : option A) : bool := negb (is_some a).
(** [Option::filter]. *)
Definition opt_filter {A} (f : A → bool) (a : option A) : option A :=
  match a with Some x => if f x then Some x else None | None => None end.

Lemma opt_or_None_r {A} (a : option A) : opt_or a None = a.
Proof. by destruct a. Qed.
Lemma opt_or_Some {A} (x : A) b : opt_or (Some x) b = Some x.
Proof. done. Qed.
Lemma opt_or_assoc {A} (a b c : option A) : opt_or a (opt_or b c) = opt_or (opt_or a b) c.
Proof. by destruct a. Qed.
Lemma is_some_true {A} (a : option A) : is_some a = true ↔ is_Some a.
Proof. destruct a; simpl; split; [eauto | done | done | by intros []]. Qed.
Lemma is_some_false {A} (a : option A) : is_some a = false ↔ a = None.
Proof. by destruct a. Qed.

(** ** Results

    [anyhow::Result]: the error is the message the code builds. *)
Inductive result (E A : Type) : Type :=
| Ok (a : A)
| Err (e : E).
Arguments Ok {E A} a.
Arguments Err {E A} e.

Definition result_ok {E A} (r : result E A) : option A :=
  match r with Ok a => Some a | Err _ => None end.
Definition result_bind {E A B} (r : result E A) (k : A → result E B) : result E B :=
  match r with Ok a => k a | Err e => Err e end.
Definition result_map {E A B} (f : A → B) (r : result E A) : result E B :=
  match r with Ok a => Ok (f a) | Err e => Err e end.
Notation "f <$$> r" := (result_map f r) (at level 61, left associativity) : operator_scope.
Definition ok_or {E A} (o : option A) (e : E) : result E A :=
  match o with Some a => Ok a | None => Err e end.
(** The [?] operator. *)
Notation "'try!' x ':=' r 'in' k" := (result_bind r (fun x => k))
  (at level 10, x name, r at level 100, k at level 200) : operator_scope.

Lemma result_bind_Ok_inv {E A B} (r : result E A) (k : A → result E B) b :
  result_bind r k = Ok b → ∃ a, r = Ok a ∧ k a = Ok b.
Proof. destruct r; simpl; [eauto | done]. Qed.
Lemma ok_or_Ok {E A} (o : option A) (e : E) a : ok_or o e = Ok a ↔ o = Some a.
Proof. destruct o; simpl; split; congruence. Qed.

(** ** Lists *)
Section lists.
Context {A : Type}.

(** [Iterator::any], [all], [position] and [Vec::retain] with a boolean test. *)
Definition any (f : A → bool) (l : list A) : bool := existsb f l.
Definition retain (f : A → bool) (l : list A) : list A := List.filter f l.
Fixpoint position (f : A → bool) (l : list A) : option nat :=
  match l with
  | [] => None
  | x :: l => if f x then Some 0 else S <$> position f l
  end.

Lemma any_true f (l : list A) : any f l = true ↔ ∃ x, x ∈ l ∧ f x = true.
Proof.
  unfold any. rewrite existsb_exists. by setoid_rewrite list_elem_of_In.
Qed.

Lemma any_false f (l : list A) : any f l = false ↔ ∀ x, x ∈ l → f x = false.
Proof.
  rewrite <- not_true_iff_false, any_true. split.
  - intros H x Hx. destruct (f x) eqn:E; [|done]. destruct H; eauto.
  - intros H (x & Hx & E). rewrite H in E; done.
Qed.

Lemma elem_of_retain f (l : list A) x : x ∈ retain f l ↔ x ∈ l ∧ f x = true.
Proof. unfold retain. rewrite !list_elem_of_In. apply filter_In. Qed.

Lemma retain_all f (l : list A) : (∀ x, x ∈ l → f x = true) → retain f l = l.
Proof.
  induction l as [|y l IH]; intros H; simpl; [done|].
  rewrite H by set_solver. f_equal. apply IH. set_solver.
Qed.

Lemma retain_none f (l : list A) : (∀ x, x ∈ l → f x = false) → retain f l = [].
Proof.
  induction l as [|y l IH]; intros H; simpl; [done|].
  rewrite H by set_solver. apply IH. set_solver.
Qed.

Lemma retain_length f (l : list A) : (length (retain f l) ≤ length l)%nat.
Proof. induction l as [|y l IH]; simpl; [done|]. destruct (f y); simpl; lia. Qed.

Lemma retain_disjoint f g (l : list A) :
  (∀ x, f x = true → g x = true → False) →
  (length (retain f l) + length (retain g l) ≤ length l)%nat.
Proof.
  intros Hd. unfold retain. induction l as [|x l IH]; simpl; [done|]. specialize (Hd x).
  destruct (f x), (g x); simpl; (lia || naive_solver).
Qed.

Lemma retain_app f (l k : list A) : retain f (l ++ k) = retain f l ++ retain f k.
Proof. apply List.filter_app. Qed.

#[export] Instance retain_Permutation f : Proper ((≡ₚ) ==> (≡ₚ)) (retain f).
Proof.
  unfold retain. induction 1; simpl; repeat case_match; eauto using Permutation.
Qed.

Lemma position_Some f (l : list A) i :
  position f l = Some i → ∃ x, l !! i = Some x ∧ f x = true.
Proof.
  revert i. induction l as [|y l IH]; intros i; simpl; [done|].
  destruct (f y) eqn:E; [intros [= <-]; eauto|].
  destruct (position f l) as [j|] eqn:Ej; simpl; [|done].
  intros [= <-]. by apply IH.
Qed.

Lemma position_lt f (l : list A) i : position f l = Some i → (i < length l)%nat.
Proof. intros (x & Hx & _)%position_Some. by eapply lookup_lt_Some. Qed.
End lists.

Lemma retain_fmap {A B} (g : A → B) f (l : list A) :
  retain f (g <$> l) = g <$> retain (λ x, f (g x)) l.
Proof. unfold retain. induction l as [|x l IH]; [done|]. csimpl. rewrite IH. by case_match. Qed.

Lemma NoDup_fmap_retain {A B} (g : A → B) f (l : list A) :
  NoDup (g <$> l) → NoDup (g <$> retain f l).
Proof.
  induction l as [|x l IH]; [done|]. rewrite fmap_cons, NoDup_cons. intros [Hn Hnd].
  unfold retain in *. cbn [List.filter]. destruct (f x); [|by apply IH].
  rewrite fmap_cons. apply NoDup_cons. split; [|by apply IH]. intros Hin. apply Hn.
  apply list_elem_of_fmap in Hin as (y & -> & Hy). apply list_elem_of_fmap_2.
  by apply (elem_of_retain f) in Hy as [? _].
Qed.

Lemma seq_nth_last {A} (l : list A) (x : A) : (l ++ [x]) !! length l = Some x.
Proof. by rewrite lookup_app_r, Nat.sub_diag by lia. Qed.

(** ** Sorting

    [sort_by] is stable: [le x y] answers whether [x] may stay before [y]. *)
Section sorting.
Context {A : Type} (le : A → A → bool).

Fixpoint insert_sorted (x : A) (l : list A) : list A :=
  match l with
  | [] => [x]
  | y :: l' => if le x y then x :: l else y :: insert_sorted x l'
  end.
Definition sort_by (l : list A) : list A := foldr insert_sorted [] l.

(** Neighbours are in order. *)
Fixpoint ordered (l : list A) : Prop :=
  match l with
  | x :: (y :: _) as l' => le x y = true ∧ ordered l'
  | _ => True
  end.

Lemma insert_sorted_perm x l : insert_sorted x l ≡ₚ x :: l.
Proof.
  induction l as [|y l IH]; simpl; [done|]. case_match; [done|].
  rewrite IH. apply Permutation_swap.
Qed.

Lemma sort_by_perm l : sort_by l ≡ₚ l.
Proof. induction l as [|x l IH]; simpl; [done|]. by rewrite insert_sorted_perm, IH. Qed.

Context (le_total : ∀ x y, le x y = true ∨ le y x = true).

Lemma insert_sorted_ordered x l : ordered l → ordered (insert_sorted x l).
Proof using le_total.
  induction l as [|y l IH]; [done|]. intros Hl. cbn [insert_sorted].
  destruct (le x y) eqn:Hxy; [done|].
  assert (le y x = true) as Hyx by (destruct (le_total x y); congruence).
  destruct l as [|z l]; [done|]. destruct Hl as [Hyz Hl]. specialize (IH Hl).
  cbn [insert_sorted] in *. destruct (le x z); done.
Qed.

Lemma sort_by_ordered l : ordered (sort_by l).
Proof using le_total. induction l as [|x l IH]; [done|]. by apply insert_sorted_ordered. Qed.

Lemma sort_by_id l : ordered l → sort_by l = l.
Proof using.
  induction l as [|x l IH]; intros Hl; [done|]. simpl.
  destruct l as [|y l]; [done|]. destruct Hl as [Hxy Hl]. rewrite (IH Hl).
  simpl. by rewrite Hxy.
Qed.
(** What the order guarantees of neighbours holds of any two, the first no later. *)
Lemma ordered_later (R : A → A → Prop) `{!PreOrder R} l i j x y :
  (∀ x y, le x y = true → R x y) →
  ordered l → l !! i = Some x → l !! j = Some y → (i ≤ j)%nat → R x y.
Proof using.
  intros HR. revert i j x. induction l as [|a l IH]; intros i j x Ho Hi Hj Hle; [done|].
  destruct j as [|j]; [replace i with 0%nat in Hi by lia; naive_solver|].
  destruct l as [|b l]; [done|]. destruct Ho as [Hab Ho].
  destruct i as [|i]; [|by apply (IH i j); [..|lia]].
  simplify_eq/=. transitivity b; [by apply HR|]. by apply (IH 0%nat j); [..|lia].
Qed.

(** The first [n] of an ordered list leave out only what may stand after all of them. *)
Lemma ordered_take (R : A → A → Prop) `{!PreOrder R} l n x :
  (∀ x y, le x y = true → R x y) → ordered l → x ∈ l →
  x ∈ take n l ∨ length (take n l) = n ∧ Forall (λ y, R y x) (take n l).
Proof using.
  intros HR Ho [j Hj]%list_elem_of_lookup. destruct (decide (j < n)%nat) as [?|Hge].
  - left. apply list_elem_of_lookup. exists j. by rewrite lookup_take_lt.
  - right. pose proof (lookup_lt_Some _ _ _ Hj). split; [rewrite length_take; lia|].
    apply Forall_lookup. intros i y [Hi ?]%lookup_take_Some.
    eapply (ordered_later R l i j); [done|done|done|done|lia].
Qed.
End sorting.

(** ** Finite maps *)
Lemma size_insert_le {K V : Type} `{Countable K} (m : gmap K V) k v :
  (size (<[k:=v]> m) ≤ S (size m))%nat.
Proof. rewrite map_size_insert. case_match; simpl; lia. Qed.

(** ** Hint databases and tactics *)
Create HintDb operator discriminated.
#[export] Hint Resolve as_u64_lt u64_saturating_add_le : operator.

(** Case analysis on every [match] of a hypothesis or the goal, discharging the
    cases that are contradictory. *)
Ltac split_matches := repeat (case_match; simplify_eq/=; try done).

(** Closes goals that only compute. *)
Ltac by_compute := vm_compute; repeat split; (reflexivity || discriminate || lia || auto).
