(* ===== verification/Text.v ===== *)
(** * Text: the string operations the workspace uses

    A Rust [str] is the list of its UTF-8 bytes, here a [string] of 8-bit
    characters; [==], [cmp], [starts_with], [contains], [strip_prefix],
    [to_ascii_lowercase], [trim], [lines] and [join] are the byte-level functions of
    the standard library.  [trim] removes every character with the Unicode
    property White_Space, in its UTF-8 encoding. *)
From S2P Require Import Prelude.
From Stdlib Require Import Ascii.

#[global] Open Scope string_scope.
#[global] Open Scope list_scope.
#[global] Arguments String.append : simpl nomatch.

Fixpoint str_forall (P : ascii → bool) (s : string) : bool :=
  match s with
  | EmptyString => true
  | String c s => P c && str_forall P s
  end.

Fixpoint str_map (f : ascii → ascii) (s : string) : string :=
  match s with
  | EmptyString => EmptyString
  | String c s => String (f c) (str_map f s)
  end.

Fixpoint str_filter (f : ascii → bool) (s : string) : string :=
  match s with
  | EmptyString => EmptyString
  | String c s => if f c then String c (str_filter f s) else str_filter f s
  end.

Definition str_is_empty (s : string) : bool :=
  match s with EmptyString => true | _ => false end.

Definition str_eqb (a b : string) : bool := bool_decide (a = b).

Definition starts_with (s p : string) : bool := String.prefix p s.

Fixpoint strip_prefix (p s : string) : option string :=
  match p, s with
  | EmptyString, _ => Some s
  | String a p, String b s => if bool_decide (a = b) then strip_prefix p s else None
  | String _ _, EmptyString => None
  end.

(** [hay.contains(needle)]. *)
Fixpoint contains (hay needle : string) : bool :=
  starts_with hay needle ||
  match hay with
  | EmptyString => false
  | String _ hay => contains hay needle
  end.

(** ** Character classes *)
Definition code (c : ascii) : N := N_of_ascii c.
Definition in_range (lo hi n : N) : bool := (lo <=? n)%N && (n <=? hi)%N.
Definition is_ascii_digit (c : ascii) : bool := in_range 48 57 (code c).
Definition is_ascii_uppercase (c : ascii) : bool := in_range 65 90 (code c).
Definition is_ascii_lowercase (c : ascii) : bool := in_range 97 122 (code c).
Definition is_ascii_alphanumeric (c : ascii) : bool :=
  is_ascii_digit c || is_ascii_uppercase c || is_ascii_lowercase c.
Definition is_ascii (c : ascii) : bool := (code c <? 128)%N.

Definition ascii_lower (c : ascii) : ascii :=
  if is_ascii_uppercase c then ascii_of_N (code c + 32) else c.
Definition to_ascii_lowercase (s : string) : string := str_map ascii_lower s.

(** ** White space

    The code points with White_Space: U+0009..U+000D, U+0020 (one byte);
    U+0085, U+00A0 (two bytes); U+1680, U+2000..U+200A, U+2028, U+2029, U+202F,
    U+205F, U+3000 (three bytes). *)
Definition ws1 (a : ascii) : bool := in_range 9 13 (code a) || (code a =? 32)%N.
Definition ws2 (a b : ascii) : bool :=
  (code a =? 0xC2)%N && ((code b =? 0x85)%N || (code b =? 0xA0)%N).
Definition ws3 (a b c : ascii) : bool :=
  ((code a =? 0xE1)%N && (code b =? 0x9A)%N && (code c =? 0x80)%N) ||
  ((code a =? 0xE2)%N && (code b =? 0x80)%N &&
     (in_range 0x80 0x8A (code c) || in_range 0xA8 0xA9 (code c) || (code c =? 0xAF)%N)) ||
  ((code a =? 0xE2)%N && (code b =? 0x81)%N && (code c =? 0x9F)%N) ||
  ((code a =? 0xE3)%N && (code b =? 0x80)%N && (code c =? 0x80)%N).

Fixpoint trim_start (s : string) : string :=
  match s with
  | String a s1 =>
      if ws1 a then trim_start s1 else
      match s1 with
      | String b s2 =>
          if ws2 a b then trim_start s2 else
          match s2 with
          | String c s3 => if ws3 a b c then trim_start s3 else s
          | EmptyString => s
          end
      | EmptyString => s
      end
  | EmptyString => EmptyString
  end.

(** [trim_end] on the reversed bytes: the bytes of a character come last first. *)
Fixpoint trim_start_rev (s : string) : string :=
  match s with
  | String a s1 =>
      if ws1 a then trim_start_rev s1 else
      match s1 with
      | String b s2 =>
          if ws2 b a then trim_start_rev s2 else
          match s2 with
          | String c s3 => if ws3 c b a then trim_start_rev s3 else s
          | EmptyString => s
          end
      | EmptyString => s
      end
  | EmptyString => EmptyString
  end.

Fixpoint str_rev_app (s acc : string) : string :=
  match s with
  | EmptyString => acc
  | String c s => str_rev_app s (String c acc)
  end.
Definition str_rev (s : string) : string := str_rev_app s "".

Definition trim_end (s : string) : string := str_rev (trim_start_rev (str_rev s)).
Definition trim (s : string) : string := trim_end (trim_start s).
(** [s.trim().is_empty()]. *)
Definition is_blank (s : string) : bool := str_is_empty (trim s).

(** ** Splitting and joining *)
Fixpoint join (sep : string) (l : list string) : string :=
  match l with
  | [] => ""
  | [x] => x
  | x :: l => x +:+ sep +:+ join sep l
  end.

(** [s.split(c)]: always at least one piece. *)
Fixpoint split_on (c : ascii) (s : string) : list string :=
  match s with
  | EmptyString => [""]
  | String a s =>
      if bool_decide (a = c) then "" :: split_on c s
      else match split_on c s with
           | [] => [String a ""]
           | p :: ps => String a p :: ps
           end
  end.

(** [s.replace(c, by)] for a one-character pattern. *)
Fixpoint replace_char (c : ascii) (by_ : string) (s : string) : string :=
  match s with
  | EmptyString => ""
  | String a s =>
      if bool_decide (a = c) then by_ +:+ replace_char c by_ s
      else String a (replace_char c by_ s)
  end.

Definition newline : ascii := ascii_of_N 10.
Definition carriage_return : ascii := ascii_of_N 13.
Definition dquote : ascii := ascii_of_N 34.
Definition squote : ascii := ascii_of_N 39.
Definition backslash : ascii := ascii_of_N 92.
Definition colon : ascii := ":"%char.

(** Drops one trailing carriage return, as [lines] does. *)
Fixpoint strip_cr (s : string) : string :=
  match s with
  | EmptyString => ""
  | String c EmptyString => if bool_decide (c = carriage_return) then "" else s
  | String c s => String c (strip_cr s)
  end.

(** [s.lines()]: the pieces between newlines, with no last empty piece. *)
Definition str_lines (s : string) : list string :=
  let pieces := split_on newline s in
  let pieces := match last pieces with
                | Some "" => removelast pieces
                | _ => pieces
                end in
  (* only a piece that was ended by a newline loses its carriage return *)
  match last (split_on newline s) with
  | Some "" => strip_cr <$> pieces
  | Some p => (strip_cr <$> removelast pieces) ++ [p]
  | None => []
  end.

(** [s.chars()]: a byte 10xxxxxx continues the character before it. *)
Definition continues (c : ascii) : bool := in_range 128 191 (code c).
Fixpoint chars (s : string) : list string :=
  match s with
  | EmptyString => []
  | String a s =>
      match chars s with
      | String c u :: cs => if continues c then String a (String c u) :: cs
                            else String a "" :: String c u :: cs
      | _ => [String a ""]
      end
  end.
Definition of_chars (l : list string) : string := String.concat "" l.
(** [s.pop()]. *)
Definition str_pop (s : string) : string := of_chars (removelast (chars s)).

Definition is_whitespace (c : string) : bool :=
  match c with
  | String a EmptyString => ws1 a
  | String a (String b EmptyString) => ws2 a b
  | String a (String b (String c EmptyString)) => ws3 a b c
  | _ => false
  end.
(** [s.split(f)], [s.split_whitespace()] and [s.splitn(2, f)] on characters. *)
Fixpoint split_chars (f : string → bool) (l : list string) : list (list string) :=
  match l with
  | [] => [[]]
  | c :: l =>
      if f c then [] :: split_chars f l
      else match split_chars f l with
           | p :: ps => (c :: p) :: ps
           | [] => [[c]]
           end
  end.
Definition split_whitespace (s : string) : list string :=
  List.filter (λ w, negb (str_is_empty w)) (of_chars <$> split_chars is_whitespace (chars s)).
Fixpoint split_first (f : string → bool) (l : list string) : option (list string * list string) :=
  match l with
  | [] => None
  | c :: l =>
      if f c then Some ([], l)
      else match split_first f l with Some (a, b) => Some (c :: a, b) | None => None end
  end.
(** What follows the first occurrence of a needle: [&s[s.find(needle)? + needle.len()..]]. *)
Fixpoint after_first (needle s : string) : option string :=
  match strip_prefix needle s with
  | Some r => Some r
  | None => match s with EmptyString => None | String _ s => after_first needle s end
  end.
Fixpoint take_while {A} (f : A → bool) (l : list A) : list A :=
  match l with
  | [] => []
  | x :: l => if f x then x :: take_while f l else []
  end.

(** ** Ordering *)

(** [a.cmp(&b) != Greater]. *)
Definition str_leb (a b : string) : bool :=
  match String.compare a b with Gt => false | _ => true end.

(** ** Padding: [{:<n}], [{:>n}] and [{:^n}] count characters, i.e. the bytes that do not
    continue one. *)
Definition char_count (s : string) : nat :=
  String.length (str_filter (λ c, negb (in_range 128 191 (code c))) s).
Fixpoint spaces (n : nat) : string :=
  match n with O => "" | S n => String " "%char (spaces n) end.
Definition pad_left (n : nat) (s : string) : string := s +:+ spaces (n - char_count s).
Definition pad_right (n : nat) (s : string) : string := spaces (n - char_count s) +:+ s.
Definition pad_center (n : nat) (s : string) : string :=
  let pad := n - char_count s in
  spaces (pad / 2) +:+ s +:+ spaces (pad - pad / 2).

(** ** Numbers: [s.parse::<u64>()] and [s.parse::<i64>()] accept a sign, need a digit and
    fail outside the type's range. *)
Fixpoint digits_value (acc : N) (s : string) : option N :=
  match s with
  | EmptyString => Some acc
  | String c s =>
      if is_ascii_digit c then digits_value (10 * acc + (code c - 48)) s else None
  end.
Definition parse_digits (s : string) : option N :=
  if str_is_empty s then None else digits_value 0 s.
Definition strip_plus (s : string) : string :=
  match s with
  | String c s1 => if bool_decide (c = "+"%char) then s1 else s
  | EmptyString => s
  end.
Definition parse_u64 (s : string) : option N :=
  opt_filter (λ n, (n <? U64_MODULUS)%N) (parse_digits (strip_plus s)).
Definition parse_u32 (s : string) : option N :=
  opt_filter (λ n, (n <? 2 ^ 32)%N) (parse_digits (strip_plus s)).
Definition parse_i64 (s : string) : option Z :=
  match strip_prefix "-" s with
  | Some s => opt_filter (λ i, (- 2 ^ 63 <=? i)%Z) ((λ n, - Z.of_N n)%Z <$> parse_digits s)
  | None => opt_filter (λ i, (i <? 2 ^ 63)%Z) (Z.of_N <$> parse_digits (strip_plus s))
  end.

Example parse_demo :
  parse_i64 "-12" = Some (-12)%Z ∧ parse_i64 "+7" = Some 7%Z ∧ parse_i64 "" = None ∧
  parse_i64 "--1" = None ∧ parse_i64 "1x" = None ∧ parse_u64 "18446744073709551616" = None ∧
  parse_i64 "-9223372036854775808" = Some (- 2 ^ 63)%Z.
Proof. by_compute. Qed.

(** ** Laws *)
Lemma str_app_nil_r s : s +:+ "" = s.
Proof. induction s as [|c s IH]; [done|]. simpl. by f_equal. Qed.

Lemma str_app_assoc a b c : a +:+ (b +:+ c) = (a +:+ b) +:+ c.
Proof. induction a as [|x a IH]; [done|]. simpl. by f_equal. Qed.

Lemma str_rev_app_app a b acc : str_rev_app (a +:+ b) acc = str_rev_app b (str_rev_app a acc).
Proof. revert acc. induction a as [|c a IH]; intros acc; [done|]. apply IH. Qed.

Lemma str_app_inj_l a b c : a +:+ b = a +:+ c → b = c.
Proof. induction a as [|x a IH]; [done|]. intros [=]. auto. Qed.

Lemma starts_with_spec s p : starts_with s p = true ↔ ∃ r, s = p +:+ r.
Proof.
  unfold starts_with. revert s. induction p as [|a p IH]; intros s; simpl.
  - split; [eauto | by destruct s].
  - destruct s as [|b s]; simpl; [split; [discriminate | intros (r & E); discriminate]|].
    case_match; [|split; [discriminate | intros (r & E); injection E; congruence]].
    subst. rewrite IH. split; intros (r & E).
    + exists r. by rewrite E.
    + exists r. by injection E.
Qed.

Lemma strip_prefix_spec p s r : strip_prefix p s = Some r ↔ s = p +:+ r.
Proof.
  revert s. induction p as [|a p IH]; intros s; simpl; [by split; [intros [= ->] | intros ->]|].
  destruct s as [|b s]; [done|]. case_bool_decide as E.
  - subst. rewrite IH. split; [by intros -> | by intros [= ->]].
  - split; [done | by intros [= ->]].
Qed.

Lemma contains_spec hay needle :
  contains hay needle = true ↔ ∃ a b, hay = a +:+ needle +:+ b.
Proof.
  induction hay as [|c hay IH]; cbn [contains]; rewrite orb_true_iff, starts_with_spec.
  - split; [intros [[r ->]|]; [by exists "", r | done]|].
    intros ([|? ?] & b & H); [left; by exists b | done].
  - rewrite IH. split.
    + intros [(r & ->)|(a & b & ->)]; [by exists "", r | by exists (String c a), b].
    + intros ([|x a] & b & H); [left; by exists b|].
      injection H as -> ->. right; eauto.
Qed.

Lemma str_forall_app P a b : str_forall P (a +:+ b) = str_forall P a && str_forall P b.
Proof. induction a as [|c a IH]; [done|]. simpl. by rewrite IH, andb_assoc. Qed.

Lemma str_forall_impl (P Q : ascii → bool) s :
  (∀ c, P c = true → Q c = true) → str_forall P s = true → str_forall Q s = true.
Proof.
  intros H. induction s as [|c s IH]; [done|]. simpl. rewrite !andb_true_iff. naive_solver.
Qed.

(** [Ord for str] is the lexicographic order of the bytes. *)
Lemma str_compare_refl s : String.compare s s = Eq.
Proof.
  pose proof (String.compare_antisym s s) as E. by destruct (String.compare s s).
Qed.

Lemma str_compare_eq s t : String.compare s t = Eq ↔ s = t.
Proof. split; [apply String.compare_eq_iff | intros ->; apply str_compare_refl]. Qed.

(** A delimiter that occurs in neither left part splits a string uniquely. *)
Lemma delimiter_inj (P : ascii → bool) d a b x y :
  P d = false → str_forall P a = true → str_forall P b = true →
  a +:+ String d x = b +:+ String d y → a = b ∧ x = y.
Proof.
  intros Hd. revert b. induction a as [|c a IH]; intros [|e b]; simpl; intros Ha Hb E.
  - injection E as ->. done.
  - injection E as <- _. rewrite Hd in Hb. done.
  - injection E as -> _. rewrite Hd in Ha. done.
  - injection E as -> E. apply andb_true_iff in Ha as [_ Ha], Hb as [_ Hb].
    destruct (IH b Ha Hb E) as [-> ->]. done.
Qed.

(** ** Decimal numerals: [format!("{n}")] is [pretty n]. *)
Lemma pretty_N_char_digit n : (n < 10)%N → is_ascii_digit (pretty_N_char n) = true.
Proof. intros H. destruct n as [|p]; [done|]. do 4 (destruct p as [p|p|]; [| |done]); try done; lia. Qed.

Lemma pretty_N_go_digits n s :
  str_forall is_ascii_digit s = true → str_forall is_ascii_digit (pretty_N_go n s) = true.
Proof.
  revert s. induction (N.lt_wf_0 n) as [n _ IH]; intros s Hs.
  destruct (decide (0 < n)%N) as [Hn|Hn].
  - rewrite pretty_N_go_step by done. apply IH; [by apply N.div_lt|].
    cbn [str_forall]. rewrite pretty_N_char_digit, Hs; [done | by apply N.mod_lt].
  - assert (n = 0%N) as -> by lia. by rewrite pretty_N_go_0.
Qed.

Lemma pretty_N_digits (n : N) : str_forall is_ascii_digit (pretty n) = true.
Proof.
  unfold pretty, pretty_N. case_decide; [done|]. by apply pretty_N_go_digits.
Qed.

Lemma pretty_N_char_value n : (n < 10)%N → (code (pretty_N_char n) - 48)%N = n.
Proof. intros H. destruct n as [|p]; [done|]. do 4 (destruct p as [p|p|]; [| |done]); try done; lia. Qed.

Lemma digits_value_pretty n s : digits_value 0 (pretty_N_go n s) = digits_value n s.
Proof.
  revert s. induction (N.lt_wf_0 n) as [n _ IH]. intros s.
  destruct (decide (n = 0%N)) as [->|Hn]; [by rewrite pretty_N_go_0|].
  rewrite pretty_N_go_step by lia.
  assert (n `mod` 10 < 10)%N by (by apply N.mod_lt).
  rewrite IH by (apply N.div_lt; lia). cbn [digits_value].
  rewrite pretty_N_char_digit, pretty_N_char_value by done. f_equal.
  symmetry. apply N.div_mod'.
Qed.

(** What [{}] prints of a [u64], [parse::<u64>] reads back. *)
Lemma parse_u64_pretty (n : N) : (n < U64_MODULUS)%N → parse_u64 (pretty n) = Some n.
Proof.
  intros Hn. unfold parse_u64.
  assert (strip_plus (pretty n) = pretty n ∧ str_is_empty (pretty n) = false ∧
    digits_value 0 (pretty n) = Some n) as (-> & He & Hv).
  { pose proof (pretty_N_digits n) as Hd. split_and!.
    - destruct (pretty n) as [|c s] eqn:E; [done|]. cbn [strip_plus]. case_bool_decide; [|done].
      subst c. done.
    - unfold pretty, pretty_N. case_decide; [done|]. destruct (pretty_N_go n "") eqn:E; [|done].
      pose proof (digits_value_pretty n "") as Hv. rewrite E in Hv. naive_solver.
    - unfold pretty, pretty_N. case_decide; [by subst|]. by rewrite digits_value_pretty. }
  unfold parse_digits. rewrite He, Hv. cbn. apply N.ltb_lt in Hn. by rewrite Hn.
Qed.

Lemma digits_no_colon (n : N) : str_forall (λ c, negb (bool_decide (c = colon))) (pretty n) = true.
Proof.
  eapply str_forall_impl; [|apply pretty_N_digits].
  intros c Hc. case_bool_decide; [by subst | done].
Qed.

(** ** Case and white space *)
Example trim_demo : trim " 	a b
 " = "a b" ∧ is_blank "  " = true ∧ is_blank " x" = false.
Proof. by_compute. Qed.
Example lines_demo : str_lines "" = [] ∧ length (str_lines "a

b
") = 3%nat ∧ length (str_lines "a
b") = 2%nat.
Proof. by_compute. Qed.

(** ** The order of strings is total *)
Lemma str_leb_total a b : str_leb a b = true ∨ str_leb b a = true.
Proof.
  unfold str_leb. pose proof (String.compare_antisym a b) as E.
  destruct (String.compare a b); [auto..|]. destruct (String.compare b a); simpl in E; auto; discriminate.
Qed.

Lemma str_leb_refl a : str_leb a a = true.
Proof. unfold str_leb. by rewrite str_compare_refl. Qed.

Lemma str_compare_lt_trans a b c :
  String.compare a b = Lt → String.compare b c = Lt → String.compare a c = Lt.
Proof.
  revert b c. induction a as [|x a IH]; intros [|y b] [|z c]; simpl; try done.
  destruct (Ascii.compare x y) eqn:Exy; [| |done]; destruct (Ascii.compare y z) eqn:Eyz; try done.
  - apply Ascii.compare_eq_iff in Exy as ->. rewrite Eyz. apply IH.
  - apply Ascii.compare_eq_iff in Exy as ->. by rewrite Eyz.
  - apply Ascii.compare_eq_iff in Eyz as ->. by rewrite Exy.
  - assert (Ascii.compare x z = Lt) as ->; [|done].
    unfold Ascii.compare in *. rewrite N.compare_lt_iff in *. by etrans.
Qed.

Lemma str_compare_gt a b : String.compare a b = Gt ↔ String.compare b a = Lt.
Proof.
  pose proof (String.compare_antisym a b) as E.
  destruct (String.compare a b), (String.compare b a); simpl in E; split; congruence.
Qed.

Example words_demo :
  split_whitespace " a  b	c " = ["a"; "b"; "c"] ∧ chars "aé•" = ["a"; "é"; "•"] ∧
  str_pop "x•" = "x" ∧ str_pop "" = "" ∧ after_first "b-" "ab-b-c" = Some "b-c".
Proof. by_compute. Qed.

Lemma chars_nonempty s c : c ∈ chars s → c ≠ "".
Proof.
  revert c. induction s as [|a s IH]; intros c; cbn [chars]; [by intros ?%elem_of_nil|].
  destruct (chars s) as [|[|b u] cs];
    [by intros ->%list_elem_of_singleton|by intros ->%list_elem_of_singleton|].
  destruct (continues b); rewrite !elem_of_cons.
  - intros [->|Hc]; [done|]. apply IH. by right.
  - intros [->|[->|Hc]]; [done|done|]. apply IH. by right.
Qed.

(** The characters of a string are the string. *)
Lemma chars_concat s : of_chars (chars s) = s.
Proof.
  unfold of_chars. induction s as [|a s IH]; cbn [chars]; [done|].
  assert (∀ c l, String.concat "" (c :: l) = c +:+ String.concat "" l) as Hcons.
  { intros c [|d l]; cbn [String.concat]; [by rewrite str_app_nil_r|done]. }
  destruct (chars s) as [|c cs] eqn:E.
  - simpl in *. by rewrite <- IH.
  - destruct c as [|b u].
    { exfalso. apply (chars_nonempty s ""); [rewrite E; by left|done]. }
    rewrite Hcons in IH. destruct (continues b); rewrite !Hcons; cbn [String.append]; by rewrite <- IH.
Qed.
