(* ===== verification/Json.v ===== *)
(** * Json: [serde_json::Value] as the workspace uses it, and the platform

    A JSON object is a [serde_json::Map], a [BTreeMap] (the [preserve_order] feature
    is off): an association list in increasing key order.  A number is an unsigned
    integer, a negative integer or a float (kept as its bits, which no code looks
    at).  [Platform] gathers what the code takes from outside the repository. *)
From S2P Require Import Prelude Text.
From Stdlib Require Import Ascii.

Inductive Number :=
| PosInt (n : N)
| NegInt (i : Z)
| Float (bits : N).

Inductive Value :=
| JNull
| JBool (b : bool)
| JNumber (n : Number)
| JString (s : string)
| JArray (l : list Value)
| JObject (m : list (string * Value)).

#[export] Instance Number_eq_dec : EqDecision Number.
Proof. solve_decision. Defined.
#[export] Instance Value_eq_dec : EqDecision Value.
Proof.
  refine (fix go (a b : Value) : Decision (a = b) :=
    let _ : EqDecision Value := @go in
    match a, b with
    | JNull, JNull => left eq_refl
    | JBool x, JBool y => cast_if (decide (x = y))
    | JNumber x, JNumber y => cast_if (decide (x = y))
    | JString x, JString y => cast_if (decide (x = y))
    | JArray x, JArray y => cast_if (decide (x = y))
    | JObject x, JObject y => cast_if (decide (x = y))
    | _, _ => right _
    end); abstract (congruence || done).
Defined.

(** ** Objects *)
Fixpoint obj_get (k : string) (m : list (string * Value)) : option Value :=
  match m with
  | [] => None
  | (k', v) :: m => if bool_decide (k = k') then Some v else obj_get k m
  end.

(** [BTreeMap::insert]. *)
Fixpoint obj_insert (k : string) (v : Value) (m : list (string * Value)) :
    list (string * Value) :=
  match m with
  | [] => [(k, v)]
  | (k', v') :: m' =>
      match String.compare k k' with
      | Eq => (k, v) :: m'
      | Lt => (k, v) :: m
      | Gt => (k', v') :: obj_insert k v m'
      end
  end.

Definition obj_of_list (l : list (string * Value)) : list (string * Value) :=
  fold_left (λ m kv, obj_insert kv.1 kv.2 m) l [].

(** ** The accessors of [Value] *)
Definition value_get (k : string) (v : Value) : option Value :=
  match v with JObject m => obj_get k m | _ => None end.
Definition as_object (v : Value) : option (list (string * Value)) :=
  match v with JObject m => Some m | _ => None end.
Definition as_str (v : Value) : option string :=
  match v with JString s => Some s | _ => None end.
Definition is_null (v : Value) : bool :=
  match v with JNull => true | _ => false end.
Definition as_i64 (v : Value) : option Z :=
  match v with
  | JNumber (PosInt n) => if (n <? 2 ^ 63)%N then Some (Z.of_N n) else None
  | JNumber (NegInt i) => Some i
  | _ => None
  end.
Definition value_as_u64 (v : Value) : option N :=
  match v with JNumber (PosInt n) => Some n | _ => None end.

(** ** Laws *)
Section laws.
Implicit Types (k : string) (v : Value) (m : list (string * Value)).

Lemma obj_get_in k v m : obj_get k m = Some v → (k, v) ∈ m.
Proof.
  induction m as [|[k' v'] m IH]; cbn [obj_get]; [done|]. rewrite elem_of_cons.
  case_bool_decide; [intros [= ->]; subst; by left|auto].
Qed.
Lemma obj_get_elem (m : list (string * Value)) k v :
  NoDup m.*1 → obj_get k m = Some v ↔ (k, v) ∈ m.
Proof.
  induction m as [|[k' v'] m IH]; intros Hnd; cbn [obj_get].
  - by rewrite elem_of_nil.
  - rewrite fmap_cons, NoDup_cons in Hnd. destruct Hnd as [Hn Hnd].
    rewrite elem_of_cons. case_bool_decide as E.
    + subst. split; [intros [= ->]; by left|]. intros [[= ->]|Hin]; [done|].
      destruct Hn. apply list_elem_of_fmap. by exists (k', v).
    + rewrite IH by done. naive_solver.
Qed.
Lemma obj_get_insert_eq k v m : obj_get k (obj_insert k v m) = Some v.
Proof.
  induction m as [|[k' v'] m IH]; cbn [obj_insert obj_get].
  - by rewrite bool_decide_true.
  - destruct (String.compare k k') eqn:E; cbn [obj_get].
    + by rewrite bool_decide_true.
    + by rewrite bool_decide_true.
    + rewrite bool_decide_false, IH; [done|]. intros ->.
      by rewrite str_compare_refl in E.
Qed.

Lemma obj_get_insert_ne k k' v m : k ≠ k' → obj_get k' (obj_insert k v m) = obj_get k' m.
Proof.
  intros Hne. induction m as [|[k2 v2] m IH]; cbn [obj_insert obj_get].
  - by rewrite bool_decide_false.
  - destruct (String.compare k k2) eqn:E; cbn [obj_get].
    + apply str_compare_eq in E as <-. by rewrite !bool_decide_false.
    + by rewrite (bool_decide_false (k' = k)) by done.
    + by rewrite IH.
Qed.

Lemma obj_insert_insert k v v' m :
  obj_insert k v' (obj_insert k v m) = obj_insert k v' m.
Proof.
  induction m as [|[k2 v2] m IH]; cbn [obj_insert]; [by rewrite str_compare_refl|].
  destruct (String.compare k k2) eqn:E; cbn [obj_insert];
    rewrite ?str_compare_refl, ?E; [done..|]. by rewrite IH.
Qed.
End laws.

(** ** The platform

    What the code relies on and the repository does not contain: the length of a
    value's compact serialization ([serde_json::to_vec]), [<str as Debug>], Unicode
    [str::to_lowercase], and the iteration order of a [HashMap], of which only
    that it visits every entry once is known. *)
Class Platform := {
  json_len : Value → N;
  str_debug : string → string;
  str_to_lowercase : string → string;
  str_to_lowercase_ascii :
    ∀ s, str_forall is_ascii s = true → str_to_lowercase s = to_ascii_lowercase s;
  hash_iter : ∀ {K V : Type} `{Countable K}, gmap K V → list (K * V);
  hash_iter_perm : ∀ {K V : Type} `{Countable K} (m : gmap K V),
    hash_iter m ≡ₚ map_to_list m;
}.

(** A concrete platform, on which witnesses are evaluated: the serializer writes
    every string without escapes, which fixes lengths of plain ASCII messages. *)
Fixpoint compact_len (v : Value) : N :=
  match v with
  | JNull => 4
  | JBool b => if b then 4 else 5
  | JNumber (PosInt n) => N.of_nat (String.length (pretty n))
  | JNumber (NegInt i) => N.of_nat (String.length (pretty i))
  | JNumber (Float _) => 3
  | JString s => 2 + N.of_nat (String.length s)
  | JArray l =>
      (2 + N.of_nat (length l - 1) + fold_right (λ v n, compact_len v + n) 0 l)%N
  | JObject m =>
      (2 + N.of_nat (length m - 1) +
       fold_right (λ kv n, 3 + N.of_nat (String.length (fst kv)) + compact_len (snd kv) + n) 0 m)%N
  end.

#[refine] Definition reference_platform : Platform := {|
  json_len := compact_len;
  str_debug s := String dquote (s +:+ String dquote "");
  str_to_lowercase := to_ascii_lowercase;
  hash_iter K V _ _ m := map_to_list m;
|}.
Proof. all: done. Defined.

Lemma hash_iter_elem `{Platform} {K V : Type} `{Countable K} (m : gmap K V) k v :
  (k, v) ∈ hash_iter m ↔ m !! k = Some v.
Proof. by rewrite hash_iter_perm, elem_of_map_to_list. Qed.

Lemma hash_iter_length `{Platform} {K V : Type} `{Countable K} (m : gmap K V) :
  length (hash_iter m) = size m.
Proof. by rewrite hash_iter_perm, length_map_to_list. Qed.
