(* ===== verification/Proc.v ===== *)
(** * Proc: asynchronous tasks over a shared world

    An [async fn] is a process: a tree of atomic actions on a shared world [W].
    An action is what a task does between two points where the scheduler may run
    another task: one critical section of a [Mutex], one channel operation.  It
    answers [None] when it has to wait (a held lock, a full channel), else the new
    world and the rest of the task.

    [run] executes a process with no interference; [sys_step] interleaves any
    number of them with the steps of an environment.  [safe] is the proof rule:
    an invariant each action of a task preserves, whatever ran in between, holds
    of every interleaving ([sys_invariant]). *)
From S2P Require Import Prelude.
From stdpp Require Import relations.

Section proc.
Context {W : Type}.

Inductive proc (A : Type) : Type :=
| Ret (a : A)
| Atomic (f : W → option (W * proc A)).
#[global] Arguments Ret {A} a.
#[global] Arguments Atomic {A} f.

(** Induction over the rest of a task after each of its actions. *)
Fixpoint proc_rect_deep {A} (P : proc A → Prop)
    (HR : ∀ a, P (Ret a))
    (HA : ∀ f, (∀ w w' p', f w = Some (w', p') → P p') → P (Atomic f))
    (p : proc A) : P p :=
  match p with
  | Ret a => HR a
  | Atomic f => HA f (λ w,
      match f w as o return ∀ w' p', o = Some (w', p') → P p' with
      | Some (w1, p1) => λ w' p' E,
          match E in _ = o return match o with Some (_, q) => P q | None => True end with
          | eq_refl => proc_rect_deep P HR HA p1
          end
      | None => λ w' p' E,
          match E in _ = o return match o with Some (_, q) => P q | None => True end with
          | eq_refl => Logic.I
          end
      end)
  end.

Fixpoint bind {A B} (p : proc A) (k : A → proc B) : proc B :=
  match p with
  | Ret a => k a
  | Atomic f => Atomic (λ w,
      match f w with
      | Some (w', p') => Some (w', bind p' k)
      | None => None
      end)
  end.

(** [returns P p]: whatever the world does to it, the task [p] answers with [P]. *)
Inductive returns {A} (P : A → Prop) : proc A → Prop :=
| returns_ret a : P a → returns P (Ret a)
| returns_atomic f :
    (∀ w w' p, f w = Some (w', p) → returns P p) → returns P (Atomic f).

Lemma returns_bind {A B} (P : A → Prop) (Q : B → Prop) (p : proc A) (k : A → proc B) :
  returns P p → (∀ a, P a → returns Q (k a)) → returns Q (bind p k).
Proof.
  intros Hp Hk. induction p as [a|f IH] using proc_rect_deep; inversion Hp as [|? Hf]; subst;
    simpl; [auto|]. constructor. intros w w' p'.
  destruct (f w) as [[w1 p1]|] eqn:E; [|done]. intros [= <- <-]. eauto.
Qed.

Lemma returns_any {A} (p : proc A) : returns (λ _, True) p.
Proof. induction p using proc_rect_deep; constructor; eauto. Qed.

Lemma returns_mono {A} (P Q : A → Prop) (p : proc A) :
  (∀ a, P a → Q a) → returns P p → returns Q p.
Proof.
  intros HPQ Hp. induction p as [a|f IH] using proc_rect_deep; inversion Hp; subst;
    constructor; eauto.
Qed.

(** One action; [await] may have to wait, [act] never does. *)
Definition await {A} (f : W → option (W * A)) : proc A :=
  Atomic (λ w, match f w with Some (w', a) => Some (w', Ret a) | None => None end).
Definition act {A} (f : W → W * A) : proc A := await (λ w, Some (f w)).

(** [for x in l { body(x).await }]. *)
Fixpoint for_each {A} (l : list A) (body : A → proc unit) : proc unit :=
  match l with
  | [] => Ret tt
  | x :: l => bind (body x) (λ _, for_each l body)
  end.

(** ** Execution without interference *)
Fixpoint run {A} (p : proc A) (w : W) : option (W * A) :=
  match p with
  | Ret a => Some (w, a)
  | Atomic f => match f w with Some (w', p') => run p' w' | None => None end
  end.

Lemma run_bind {A B} (p : proc A) (k : A → proc B) w :
  run (bind p k) w = match run p w with Some (w', a) => run (k a) w' | None => None end.
Proof.
  revert w. induction p as [a|f IH] using proc_rect_deep; intros w; simpl; [done|].
  destruct (f w) as [[w' p']|] eqn:E; [|done]. by eapply IH.
Qed.

Lemma run_await {A} (f : W → option (W * A)) w : run (await f) w = f w.
Proof. simpl. by destruct (f w) as [[]|]. Qed.

Lemma run_act {A} (f : W → W * A) w : run (act f) w = Some (f w).
Proof. exact (run_await (λ w, Some (f w)) w). Qed.

Lemma run_for_each_cons {A} (x : A) l body w :
  run (for_each (x :: l) body) w =
  match run (body x) w with Some (w', _) => run (for_each l body) w' | None => None end.
Proof. simpl. by rewrite run_bind. Qed.

(** ** Interleaving

    [spawnable] are the tasks the program may start, [env] what the world does on
    its own (time passes, the other end of a channel reads). *)
Definition config : Type := W * list (proc unit).

Section system.
Context (spawnable : proc unit → Prop) (env : W → W → Prop).

Inductive sys_step : config → config → Prop :=
| step_task i f w w' p' ts :
    ts !! i = Some (Atomic f) → f w = Some (w', p') →
    sys_step (w, ts) (w', <[i := p']> ts)
| step_spawn p w ts :
    spawnable p → sys_step (w, ts) (w, ts ++ [p])
| step_env w w' ts :
    env w w' → sys_step (w, ts) (w', ts).

(** Executing one schedule: the task of each number takes a step in turn. *)
Definition step_at (i : nat) (c : config) : option config :=
  match c.2 !! i with
  | Some (Atomic f) =>
      match f c.1 with Some (w', p') => Some (w', <[i := p']> c.2) | None => None end
  | _ => None
  end.
Fixpoint schedule (l : list nat) (c : config) : option config :=
  match l with
  | [] => Some c
  | i :: l => match step_at i c with Some c' => schedule l c' | None => None end
  end.

Lemma schedule_nsteps l c c' : schedule l c = Some c' → nsteps sys_step (length l) c c'.
Proof using.
  revert c. induction l as [|i l IH]; intros [w ts]; cbn [schedule length].
  - intros [= <-]. constructor.
  - unfold step_at. cbn [fst snd]. destruct (ts !! i) as [[|f]|] eqn:Ei; [done| |done].
    destruct (f w) as [[w' p']|] eqn:Ef; [|done]. intros Hs.
    econstructor; [by eapply step_task|by apply IH].
Qed.

(** ** Invariants of every interleaving

    [I n w] is an invariant that may depend on the number [n] of steps taken, below
    a bound [B] (below [2^64] a counter has not wrapped).  [R w w'] is what every
    step guarantees to the other tasks: what a task has seen of [w0] it may still
    rely on in any [w] with [R w0 w].  [safe w0 p] says that the task [p], started
    when the world was [w0], keeps [I] and [R] at each of its actions. *)
Context (B : N) (I : nat → W → Prop) (R : W → W → Prop) `{!PreOrder R}.

Inductive safe {A} : W → proc A → Prop :=
| safe_ret w0 a : safe w0 (Ret a)
| safe_atomic w0 f :
    (∀ n w w' p', (N.of_nat (S n) < B)%N → R w0 w → I n w → f w = Some (w', p') →
       I (S n) w' ∧ R w w' ∧ safe w' p') →
    safe w0 (Atomic f).

Lemma safe_mono {A} (p : proc A) w0 w1 : R w0 w1 → safe w0 p → safe w1 p.
Proof using PreOrder0.
  intros Hr Hs. inversion Hs as [|? f Hf]; subst; constructor.
  intros n w w' p' Hn Hw. apply (Hf n w w' p' Hn). by etrans.
Qed.

Lemma safe_bind {A C} (p : proc A) (k : A → proc C) w0 :
  safe w0 p → (∀ w a, R w0 w → safe w (k a)) → safe w0 (bind p k).
Proof using PreOrder0.
  revert w0. induction p as [a|f IH] using proc_rect_deep; intros w0 Hp Hk; simpl; [by apply Hk|].
  inversion Hp as [|? ? Hf]; subst. constructor. intros n w w' p' Hn Hw HI.
  destruct (f w) as [[w1 p1]|] eqn:E; [|done]. intros [= <- <-].
  destruct (Hf _ _ _ _ Hn Hw HI E) as (? & ? & ?). split_and!; [done..|].
  eapply IH; [done..|]. intros w2 a Hw2. apply Hk. etrans; [done|]. by etrans.
Qed.

(** The same for a task of which the answer is known. *)
Lemma safe_bind_returns {A C} (P : A → Prop) (p : proc A) (k : A → proc C) w0 :
  safe w0 p → returns P p → (∀ w a, R w0 w → P a → safe w (k a)) → safe w0 (bind p k).
Proof using PreOrder0.
  revert w0. induction p as [a|f IH] using proc_rect_deep; intros w0 Hp HP Hk; simpl.
  { apply Hk; [done|]. by inversion HP. }
  inversion Hp as [|? ? Hf]; inversion HP as [|? HPf]; subst.
  constructor. intros n w w' p' Hn Hw HI.
  destruct (f w) as [[w1 p1]|] eqn:E; [|done]. intros [= <- <-].
  destruct (Hf _ _ _ _ Hn Hw HI E) as (? & ? & ?). split_and!; [done..|].
  eapply IH; [done..|by eapply HPf|]. intros w2 a Hw2. apply Hk. etrans; [done|]. by etrans.
Qed.

(** One action, whose answer the rest of the task may rely on. *)
Lemma safe_bind_await {A C} (f : W → option (W * A)) (k : A → proc C) w0 :
  (∀ n w w' a, (N.of_nat (S n) < B)%N → R w0 w → I n w → f w = Some (w', a) →
     I (S n) w' ∧ R w w' ∧ safe w' (k a)) →
  safe w0 (bind (await f) k).
Proof using.
  intros H. simpl. constructor. intros n w w' p' Hn Hw HI.
  destruct (f w) as [[w1 a]|] eqn:E; [|done]. intros [= <- <-]. eauto.
Qed.

Lemma safe_await {A} (f : W → option (W * A)) w0 :
  (∀ n w w' a, (N.of_nat (S n) < B)%N → R w0 w → I n w → f w = Some (w', a) →
     I (S n) w' ∧ R w w') →
  safe w0 (await f).
Proof using.
  intros H. constructor. intros n w w' p' Hn Hw HI.
  destruct (f w) as [[w1 a]|] eqn:E; [|done]. intros [= <- <-].
  destruct (H _ _ _ _ Hn Hw HI E). split_and!; [done..|constructor].
Qed.

Lemma safe_act {A} (f : W → W * A) w0 :
  (∀ n w, (N.of_nat (S n) < B)%N → R w0 w → I n w → I (S n) (f w).1 ∧ R w (f w).1) →
  safe w0 (act f).
Proof using.
  intros H. apply safe_await. intros n w w' a Hn Hw HI [= E].
  specialize (H n w Hn Hw HI). by rewrite E in H.
Qed.

Lemma safe_for_each {A} (l : list A) (body : A → proc unit) w0 :
  (∀ w x, R w0 w → safe w (body x)) → safe w0 (for_each l body).
Proof using PreOrder0.
  revert w0. induction l as [|x l IH]; intros w0 Hb; simpl; [constructor|].
  apply safe_bind; [by apply Hb|]. intros w _ Hw. apply IH.
  intros w2 y Hw2. apply Hb. by etrans.
Qed.

(** The rule: every interleaving of safe tasks keeps the invariant. *)
Context (Hspawn : ∀ w p, spawnable p → safe w p).
Context (Henv : ∀ n w w', (N.of_nat (S n) < B)%N → I n w → env w w' → I (S n) w' ∧ R w w').
Context (Hmono : ∀ n w, I n w → I (S n) w).

Lemma sys_step_invariant n c c' :
  (N.of_nat (S n) < B)%N → I n c.1 → Forall (safe c.1) c.2 → sys_step c c' →
  I (S n) c'.1 ∧ R c.1 c'.1 ∧ Forall (safe c'.1) c'.2.
Proof using All.
  intros Hn HI Hts Hs. destruct Hs as [i f w w' p' ts Hi Hf|p w ts Hp|w w' ts Hw]; simpl in *.
  - pose proof (Forall_lookup_1 _ _ _ _ Hts Hi) as Hsafe.
    inversion Hsafe as [|? ? H]; subst.
    destruct (H n w w' p' Hn ltac:(done) HI Hf) as (? & ? & ?). split_and!; [done..|].
    apply Forall_insert; [|done]. eapply Forall_impl; [exact Hts|]. intros q. by apply safe_mono.
  - split_and!; [by apply Hmono|done|]. apply Forall_app; split; [done|].
    apply Forall_singleton. by apply Hspawn.
  - destruct (Henv n w w') as [? ?]; [done..|]. split_and!; [done..|].
    eapply Forall_impl; [exact Hts|]. intros q. by apply safe_mono.
Qed.

Theorem sys_invariant m n c c' :
  (N.of_nat (m + n) < B)%N → I m c.1 → Forall (safe c.1) c.2 → nsteps sys_step n c c' →
  I (m + n) c'.1 ∧ R c.1 c'.1 ∧ Forall (safe c'.1) c'.2.
Proof using All.
  intros Hb HI Hts Hn. revert m Hb HI Hts. induction Hn as [c|n c c1 c' Hs _ IH]; intros m Hb HI Hts.
  - rewrite Nat.add_0_r. by split_and!.
  - destruct (sys_step_invariant m c c1) as (HI1 & HR1 & Hts1); [lia|done..|].
    replace (m + S n) with (S m + n) in * by lia.
    destruct (IH (S m)) as (? & ? & ?); [done..|]. split_and!; [done| |done]. by etrans.
Qed.

(** ** One task among steps of the environment

    [exec n p w w' a]: the task [p] runs to its end, answering [a], in [n] steps of
    which some are the environment's. *)
Inductive exec {A} : nat → proc A → W → W → A → Prop :=
| exec_ret w a : exec 0 (Ret a) w w a
| exec_env n p w w1 w' a : env w w1 → exec n p w1 w' a → exec (S n) p w w' a
| exec_atomic n f w w1 p w' a :
    f w = Some (w1, p) → exec n p w1 w' a → exec (S n) (Atomic f) w w' a.

Lemma exec_bind_inv {A C} n (p : proc A) (k : A → proc C) w w' c :
  exec n (bind p k) w w' c →
  ∃ n1 n2 w1 a, n = n1 + n2 ∧ exec n1 p w w1 a ∧ exec n2 (k a) w1 w' c.
Proof using.
  intros He. remember (bind p k) as q eqn:Hq. revert p Hq.
  induction He as [w c|n q w w1 w' c Hw _ IH|n f w w1 q w' c Hf Hx IH]; intros p Hq.
  - destruct p as [a|]; [|done]. simpl in Hq. exists 0, 0, w, a.
    split_and!; [done|constructor|]. rewrite <- Hq. constructor.
  - destruct (IH p Hq) as (n1 & n2 & w2 & a & -> & ? & ?).
    exists (S n1), n2, w2, a. split_and!; [done|eapply exec_env; eassumption|done].
  - destruct p as [a|g]; simpl in Hq.
    + exists 0, (S n), w, a. split_and!; [done|constructor|].
      rewrite <- Hq. eapply exec_atomic; eassumption.
    + injection Hq as Hg. rewrite Hg in Hf.
      destruct (g w) as [[w2 p2]|] eqn:E; [|done]. injection Hf as -> <-.
      destruct (IH p2 eq_refl) as (n1 & n2 & w3 & a & -> & ? & ?).
      exists (S n1), n2, w3, a. split_and!; [done|eapply exec_atomic; eassumption|done].
Qed.

Lemma run_exec {A} (p : proc A) w w' a :
  run p w = Some (w', a) → ∃ n, exec n p w w' a.
Proof using.
  revert w. induction p as [b|f IH] using proc_rect_deep; simpl; intros w.
  - intros [= -> ->]. exists 0. constructor.
  - destruct (f w) as [[w1 p1]|] eqn:E; [|done]. intros Hr.
    destruct (IH _ _ _ E w1 Hr) as [n Hn]. exists (S n). eapply exec_atomic; eassumption.
Qed.

Lemma exec_safe {A} (p : proc A) m n w w' a :
  (N.of_nat (m + n) < B)%N → I m w → safe w p → exec n p w w' a → I (m + n) w' ∧ R w w'.
Proof using PreOrder0 Henv.
  intros HB HI Hs He. revert m HB HI Hs.
  induction He as [w a|n p w w1 w' a Hw _ IH|n f w w1 p w' a Hf _ IH]; intros m HB HI Hs.
  - by rewrite Nat.add_0_r.
  - destruct (Henv m w w1) as [HI1 HR1]; [lia|done..|].
    destruct (IH (S m)) as [? ?]; [lia|done|by eapply safe_mono|].
    replace (m + S n) with (S m + n) by lia. split; [done|by etrans].
  - inversion Hs as [|? ? H]; subst.
    destruct (H m w w1 p ltac:(lia) ltac:(done) HI Hf) as (? & ? & ?).
    destruct (IH (S m)) as [? ?]; [lia|done..|].
    replace (m + S n) with (S m + n) by lia. split; [done|by etrans].
Qed.
End system.
End proc.

#[global] Arguments proc W A : clear implicits.
#[global] Arguments config W : clear implicits.
#[export] Hint Constructors safe : operator.

Notation "'let!' x ':=' p 'in' k" := (bind p (fun x => k))
  (at level 10, x pattern, p at level 100, k at level 200) : operator_scope.
Notation "p ';;!' k" := (bind p (fun _ => k))
  (at level 100, k at level 200, right associativity) : operator_scope.

(** Splits the safety of a process along its binds. *)
Ltac safe_split :=
  repeat first
    [ apply safe_ret
    | apply safe_bind; [|intros ? ? ?]
    | apply safe_for_each; intros ? ? ?
    | case_match ].
