(* ===== verification/Shared.v ===== *)
(** * Shared: the types and helpers the mux modules exchange

    [multi.rs] (status levels, the per-server status line, [format_uptime]) and
    [ipc/event.rs] (the events broadcast to subscribers). *)
From S2P Require Import Prelude Text.

Module StatusLevel.
Inductive StatusLevel := Ok | Warn | Error | Lazy.
End StatusLevel.

Module ServerCommand.
Inductive ServerCommand := Start | Stop | Restart.
End ServerCommand.

#[export] Instance StatusLevel_eq_dec : EqDecision StatusLevel.StatusLevel.
Proof. solve_decision. Defined.

Record MultiServerStatus := mkMultiServerStatus {
  mss_name : string;
  mss_level : StatusLevel.StatusLevel;
  mss_status_text : string;
  mss_connected_clients : N;
  mss_active_clients : N;
  mss_max_active_clients : N;
  mss_pending_requests : N;
  mss_restarts : N;
  mss_uptime_ms : N;
  mss_in_backoff : bool;
  mss_heartbeat_latency_ms : option N;
}.

Inductive IpcEvent :=
| StateChange (service from to : string)
| RouteUpdate (client server : string) (count p99_ms : N)
| ServerHealth (name : string) (rss_mb restarts : N) (last_error : option string)
| ClientDrift (client : string) (non_mux_paths : list string).

(** Format uptime in human-readable form ([multi.rs]). *)
Definition format_uptime (ms : N) : string :=
  let secs := (ms / 1000)%N in
  let mins := (secs / 60)%N in
  let hours := (mins / 60)%N in
  let days := (hours / 24)%N in
  if (0 <? days)%N then pretty days +:+ "d " +:+ pretty (hours `mod` 24)%N +:+ "h"
  else if (0 <? hours)%N then pretty hours +:+ "h " +:+ pretty (mins `mod` 60)%N +:+ "m"
  else if (0 <? mins)%N then pretty mins +:+ "m " +:+ pretty (secs `mod` 60)%N +:+ "s"
  else pretty secs +:+ "s".

Example format_uptime_seconds : format_uptime 45000 = "45s". Proof. by_compute. Qed.
Example format_uptime_minutes : format_uptime 125000 = "2m 5s". Proof. by_compute. Qed.
Example format_uptime_hours : format_uptime 7500000 = "2h 5m". Proof. by_compute. Qed.
Example format_uptime_days : format_uptime 90000000 = "1d 1h". Proof. by_compute. Qed.

(** The time a rendered uptime denotes, in seconds: what the two printed numbers
    add up to in their units. *)
Inductive uptime_reading : string → N → N → Prop :=
| read_days d h : (h < 24)%N →
    uptime_reading (pretty d +:+ "d " +:+ pretty h +:+ "h") (86400 * d + 3600 * h) 3600
| read_hours h m : (m < 60)%N →
    uptime_reading (pretty h +:+ "h " +:+ pretty m +:+ "m") (3600 * h + 60 * m) 60
| read_mins m s : (s < 60)%N →
    uptime_reading (pretty m +:+ "m " +:+ pretty s +:+ "s") (60 * m + s) 1
| read_secs s : (s < 60)%N → uptime_reading (pretty s +:+ "s") s 1.

(** Every uptime is printed in the two largest units that fit, and the printed
    value is the uptime rounded down to the smaller of them. *)
Lemma format_uptime_reading ms :
  ∃ secs unit, uptime_reading (format_uptime ms) secs unit ∧
    (secs * 1000 ≤ ms < (secs + unit) * 1000)%N.
Proof.
  unfold format_uptime.
  pose proof (N.div_mod ms 1000 ltac:(done)) as H1. pose proof (N.mod_lt ms 1000 ltac:(done)) as L1.
  remember (ms / 1000)%N as secs eqn:Esecs; clear Esecs.
  pose proof (N.div_mod secs 60 ltac:(done)) as H2. pose proof (N.mod_lt secs 60 ltac:(done)) as L2.
  remember (secs / 60)%N as mins eqn:Emins; clear Emins.
  pose proof (N.div_mod mins 60 ltac:(done)) as H3. pose proof (N.mod_lt mins 60 ltac:(done)) as L3.
  remember (mins / 60)%N as hours eqn:Ehours; clear Ehours.
  pose proof (N.div_mod hours 24 ltac:(done)) as H4. pose proof (N.mod_lt hours 24 ltac:(done)) as L4.
  remember (hours / 24)%N as days eqn:Edays; clear Edays.
  generalize dependent (ms `mod` 1000)%N. generalize dependent (secs `mod` 60)%N.
  generalize dependent (mins `mod` 60)%N. generalize dependent (hours `mod` 24)%N. intros.
  destruct (N.ltb_spec 0 days); [|destruct (N.ltb_spec 0 hours); [|destruct (N.ltb_spec 0 mins)]].
  - eexists _, _. split; [by apply read_days | lia].
  - eexists _, _. split; [by apply read_hours | lia].
  - eexists _, _. split; [by apply read_mins | lia].
  - eexists _, _. split; [apply read_secs; lia | lia].
Qed.
