(* ===== verification/MuxState.v ===== *)
(** * MuxState: the central runtime state of one mux ([mux-agent/src/state.rs])

    The record [MuxState] that every task of a mux shares behind a mutex, its
    operations, and the snapshot taken of it for status files and the control
    socket.  A channel's sender is a [TxHandle]; the channels themselves live in
    the world of [MuxWorld]. *)
From S2P Require Import Prelude Text Json Shared.

Definition TxHandle : Type := N.

Module ServerStatus.
Inductive ServerStatus :=
| Starting
| Running
| Restarting
| Failed (reason : string)
| Stopped
| Lazy
| Backoff.
End ServerStatus.

#[export] Instance ServerStatus_eq_dec : EqDecision ServerStatus.ServerStatus.
Proof. solve_decision. Defined.

Definition HANDSHAKE_TIMEOUT : N := from_secs 10.

Record Pending := mkPending {
  p_client_id : N;
  p_local_id : Value;
  p_is_initialize : bool;
  p_started_at : N;
}.

Record HeartbeatMetrics := mkHeartbeatMetrics {
  enabled : bool;
  latency_ms : option N;
  last_heartbeat_ms : option N;
  avg_response_ms : option N;
  total_success : N;
  total_failures : N;
  consecutive_failures : N;
}.
#[export] Instance HeartbeatMetrics_eta : Eta HeartbeatMetrics := fun r =>
  mkHeartbeatMetrics (enabled r) (latency_ms r) (last_heartbeat_ms r) (avg_response_ms r)
    (total_success r) (total_failures r) (consecutive_failures r).

Definition HeartbeatMetrics_default : HeartbeatMetrics :=
  mkHeartbeatMetrics false None None None 0 0 0.

Record ClientHandshake := mkClientHandshake {
  connected_at : N;
  initialized : bool;
  initialize_pending : bool;
  buffered_messages : list Value;
}.
#[export] Instance ClientHandshake_eta : Eta ClientHandshake := fun r =>
  mkClientHandshake (connected_at r) (initialized r) (initialize_pending r)
    (buffered_messages r).

Record MuxState := mkMuxState {
  next_client_id : N;
  next_global_id : N;
  clients : gmap N TxHandle;
  pending : gmap string Pending;
  cached_initialize : option Value;
  init_waiting : list (N * Value);
  initializing : bool;
  server_status : ServerStatus.ServerStatus;
  restarts : N;
  last_reset : option string;
  max_active_clients : N;
  service_name : string;
  max_request_bytes : N;
  request_timeout : N;
  restart_backoff : N;
  restart_backoff_max : N;
  max_restarts : N;
  queue_depth : N;
  child_pid : option N;
  heartbeat_metrics : HeartbeatMetrics;
  client_handshakes : gmap N ClientHandshake;
  server_initialized : bool;
  started_at : option N;
  in_backoff : bool;
  event_tx : option TxHandle;
}.
#[export] Instance MuxState_eta : Eta MuxState := fun r =>
  mkMuxState (next_client_id r) (next_global_id r) (clients r) (pending r)
    (cached_initialize r) (init_waiting r) (initializing r) (server_status r) (restarts r)
    (last_reset r) (max_active_clients r) (service_name r) (max_request_bytes r)
    (request_timeout r) (restart_backoff r) (restart_backoff_max r) (max_restarts r)
    (queue_depth r) (child_pid r) (heartbeat_metrics r) (client_handshakes r)
    (server_initialized r) (started_at r) (in_backoff r) (event_tx r).

Record MuxStateConfig := mkMuxStateConfig {
  cfg_max_active_clients : N;
  cfg_service_name : string;
  cfg_max_request_bytes : N;
  cfg_request_timeout : N;
  cfg_restart_backoff : N;
  cfg_restart_backoff_max : N;
  cfg_max_restarts : N;
  cfg_queue_depth : N;
  cfg_child_pid : option N;
  cfg_event_tx : option TxHandle;
}.

(** ** Operations *)
Definition new (config : MuxStateConfig) : MuxState := {|
  next_client_id := 1;
  next_global_id := 1;
  clients := ∅;
  pending := ∅;
  cached_initialize := None;
  init_waiting := [];
  initializing := false;
  server_status := ServerStatus.Starting;
  restarts := 0;
  last_reset := None;
  max_active_clients := cfg_max_active_clients config;
  service_name := cfg_service_name config;
  max_request_bytes := cfg_max_request_bytes config;
  request_timeout := cfg_request_timeout config;
  restart_backoff := cfg_restart_backoff config;
  restart_backoff_max := cfg_restart_backoff_max config;
  max_restarts := cfg_max_restarts config;
  queue_depth := cfg_queue_depth config;
  child_pid := cfg_child_pid config;
  heartbeat_metrics := HeartbeatMetrics_default;
  client_handshakes := ∅;
  server_initialized := false;
  started_at := None;
  in_backoff := false;
  event_tx := cfg_event_tx config;
|}.

(** [now] is the reading of [Instant::now()]. *)
Definition register_client (now : N) (tx : TxHandle) (st : MuxState) : MuxState * N :=
  let id := next_client_id st in
  (st <| next_client_id := u64_add id 1 |>
      <| clients ::= <[id := tx]> |>
      <| client_handshakes ::=
           <[id := {| connected_at := now; initialized := false;
                      initialize_pending := false; buffered_messages := [] |}]> |>,
   id).

Definition unregister_client (client_id : N) (st : MuxState) : MuxState :=
  st <| clients ::= delete client_id |>
     <| client_handshakes ::= delete client_id |>
     <| pending ::= filter (λ kp, p_client_id kp.2 ≠ client_id) |>
     <| init_waiting ::= retain (λ cv, negb (cv.1 =? client_id)%N) |>.

Definition next_request_id (st : MuxState) : MuxState * N :=
  let id := next_global_id st in
  (st <| next_global_id := u64_add id 1 |>, id).

Definition mark_handshake_complete (client_id : N) (st : MuxState) : MuxState * list Value :=
  match client_handshakes st !! client_id with
  | Some handshake =>
      (st <| client_handshakes ::=
             <[client_id := handshake <| initialized := true |>
                                      <| buffered_messages := [] |>]> |>,
       buffered_messages handshake)
  | None => (st, [])
  end.

Definition complete_handshake (client_id : N) (st : MuxState) : MuxState * list Value :=
  mark_handshake_complete client_id st.

Definition is_handshake_complete (client_id : N) (st : MuxState) : bool :=
  match client_handshakes st !! client_id with
  | Some handshake => initialized handshake
  | None => true
  end.

Definition is_handshake_timed_out (now client_id : N) (st : MuxState) : bool :=
  match client_handshakes st !! client_id with
  | Some handshake =>
      negb (initialized handshake) && (HANDSHAKE_TIMEOUT <? now - connected_at handshake)%N
  | None => false
  end.

Definition buffer_message (client_id : N) (msg : Value) (st : MuxState) : MuxState :=
  match client_handshakes st !! client_id with
  | Some handshake =>
      st <| client_handshakes ::=
            <[client_id := handshake <| buffered_messages ::= λ l, l ++ [msg] |>]> |>
  | None => st
  end.

(** [get_handshake_mut(id).map(f)]: the update through the mutable reference. *)
Definition get_handshake_mut (client_id : N) (f : ClientHandshake → ClientHandshake)
    (st : MuxState) : MuxState :=
  st <| client_handshakes ::= alter f client_id |>.

(** ** Messages *)
Definition set_id (msg id : Value) : Value :=
  match msg with
  | JObject obj => JObject (obj_insert "id" id obj)
  | _ => msg
  end.

Definition error_response (id : Value) (message : string) : Value :=
  JObject (obj_of_list [
    ("jsonrpc", JString "2.0");
    ("id", id);
    ("error", JObject (obj_of_list [
       ("code", JNumber (NegInt (-32000)));
       ("message", JString message)]))]).

(** ** Snapshots *)
Record StatusSnapshot := mkStatusSnapshot {
  snap_service_name : string;
  snap_name : string;
  snap_server_status : ServerStatus.ServerStatus;
  snap_status_text : string;
  snap_level : StatusLevel.StatusLevel;
  snap_restarts : N;
  snap_connected_clients : N;
  snap_active_clients : N;
  snap_max_active_clients : N;
  snap_pending_requests : N;
  snap_cached_initialize : bool;
  snap_initializing : bool;
  snap_last_reset : option string;
  snap_queue_depth : N;
  snap_child_pid : option N;
  snap_max_request_bytes : N;
  snap_health_status : ServerStatus.ServerStatus;
  snap_heartbeat_latency_ms : option N;
  snap_heartbeat : HeartbeatMetrics;
  snap_uptime_ms : N;
  snap_in_backoff : bool;
  snap_restart_backoff_ms : N;
  snap_restart_backoff_max_ms : N;
  snap_max_restarts : N;
}.

Section snapshot.
Context `{Platform}.

(** [format!("{:?}", status)]: the derived [Debug]. *)
Definition debug_status (s : ServerStatus.ServerStatus) : string :=
  match s with
  | ServerStatus.Starting => "Starting"
  | ServerStatus.Running => "Running"
  | ServerStatus.Restarting => "Restarting"
  | ServerStatus.Failed r => "Failed(" +:+ str_debug r +:+ ")"
  | ServerStatus.Stopped => "Stopped"
  | ServerStatus.Lazy => "Lazy"
  | ServerStatus.Backoff => "Backoff"
  end.

Definition snapshot_for_state (now : N) (st : MuxState) (active_clients : N) :
    StatusSnapshot := {|
  snap_service_name := service_name st;
  snap_name := service_name st;
  snap_server_status := server_status st;
  snap_status_text := debug_status (server_status st);
  snap_level := StatusLevel.Ok;
  snap_restarts := restarts st;
  snap_connected_clients := N.of_nat (size (clients st));
  snap_active_clients := active_clients;
  snap_max_active_clients := max_active_clients st;
  snap_pending_requests := N.of_nat (size (pending st));
  snap_cached_initialize := is_some (cached_initialize st);
  snap_initializing := initializing st;
  snap_last_reset := last_reset st;
  snap_queue_depth := queue_depth st;
  snap_child_pid := child_pid st;
  snap_max_request_bytes := max_request_bytes st;
  snap_health_status := server_status st;
  snap_heartbeat_latency_ms := latency_ms (heartbeat_metrics st);
  snap_heartbeat := heartbeat_metrics st;
  snap_uptime_ms :=
    match started_at st with
    | Some t => as_u64 (as_millis (now - t))
    | None => 0
    end;
  snap_in_backoff := in_backoff st;
  snap_restart_backoff_ms := as_u64 (as_millis (restart_backoff st));
  snap_restart_backoff_max_ms := as_u64 (as_millis (restart_backoff_max st));
  snap_max_restarts := max_restarts st;
|}.
End snapshot.

(** ** Laws of the operations *)
Lemma set_id_get msg id m : msg = JObject m → value_get "id" (set_id msg id) = Some id.
Proof. intros ->. apply obj_get_insert_eq. Qed.

(** Restoring an identifier: only the last one written is visible. *)
Lemma set_id_set_id msg a b : set_id (set_id msg a) b = set_id msg b.
Proof. destruct msg; try done. simpl. by rewrite obj_insert_insert. Qed.

Lemma set_id_other msg id k : k ≠ "id" → value_get k (set_id msg id) = value_get k msg.
Proof. intros Hk. destruct msg; try done. simpl. by rewrite obj_get_insert_ne. Qed.

Lemma value_get_is_object k v x : value_get k v = Some x → ∃ m, v = JObject m.
Proof. destruct v; try done. eauto. Qed.

Lemma unregister_pending client_id st gid p :
  pending (unregister_client client_id st) !! gid = Some p ↔
  pending st !! gid = Some p ∧ p_client_id p ≠ client_id.
Proof. apply map_lookup_filter_Some. Qed.

Lemma complete_handshake_is_complete client_id st :
  is_handshake_complete client_id (complete_handshake client_id st).1 = true.
Proof.
  unfold is_handshake_complete, complete_handshake, mark_handshake_complete.
  destruct (client_handshakes st !! client_id) eqn:E; simpl.
  - by rewrite lookup_insert_eq.
  - by rewrite E.
Qed.
