(* ===== verification/MuxWorld.v ===== *)
(** * MuxWorld: what the tasks of one mux share ([state.rs], async operations)

    The [World] holds the [MuxState] behind its mutex, the channels between the
    tasks and the clock.  [publish_status] and [reset_state] of [state.rs] are here:
    they lock the state and then send to the other tasks. *)
From S2P Require Import Prelude Text Json Proc Shared MuxState.

(** The unbounded channel to one client's writer task: what the task has taken from
    it, what it has still to receive. *)
Record Chan := mkChan { received : list Value; queue : list Value; rx_alive : bool }.
#[export] Instance Chan_eta : Eta Chan := fun r => mkChan (received r) (queue r) (rx_alive r).

Module ServerEvent.
Inductive ServerEvent := Message (v : Value) | Reset (reason : string).
End ServerEvent.

Module HeartbeatEvent.
Inductive HeartbeatEvent := Response (id : string).
End HeartbeatEvent.

(** [runtime/types.rs]. *)
Definition MAX_QUEUE : N := 1024.
Definition MAX_PENDING : N := 2048.

Record World := mkWorld {
  st : MuxState;              (* behind the mutex *)
  lock_held : bool;           (* a guard outlives the current action *)
  chans : gmap TxHandle Chan; (* the clients' channels *)
  next_tx : TxHandle;
  to_server : list Value;     (* bounded by MAX_QUEUE *)
  to_server_open : bool;      (* its receiver is alive *)
  permits : N;                (* available permits of active_clients *)
  status : option StatusSnapshot;  (* last value of the watch channel *)
  bus : list IpcEvent;        (* events handed to the broadcast channel *)
  server_events : list ServerEvent.ServerEvent;
  heartbeat_events : list HeartbeatEvent.HeartbeatEvent;
  heartbeat_restarts : list string;
  child_stdin : list Value;   (* messages received to the MCP server *)
  slept : list N;             (* delays the server manager has waited *)
  now : N;                    (* Instant::now() *)
  shutdown : bool;
}.
#[export] Instance World_eta : Eta World := fun r =>
  mkWorld (st r) (lock_held r) (chans r) (next_tx r) (to_server r) (to_server_open r)
    (permits r) (status r) (bus r) (server_events r) (heartbeat_events r)
    (heartbeat_restarts r) (child_stdin r) (slept r) (now r) (shutdown r).

(** ** Channels *)

(** [mpsc::unbounded_channel()]. *)
Definition unbounded_channel (w : World) : World * TxHandle :=
  let tx := next_tx w in
  (w <| next_tx ::= N.succ |> <| chans ::= <[tx := mkChan [] [] true]> |>, tx).

(** [tx.send(v).ok()]: lost when the receiver is gone. *)
Definition send_to (tx : TxHandle) (v : Value) (w : World) : World :=
  match chans w !! tx with
  | Some ch =>
      if rx_alive ch then w <| chans ::= <[tx := ch <| queue ::= λ q, q ++ [v] |>]> |> else w
  | None => w
  end.

(** [if let Some(tx) = st.clients.get(&cid) { tx.send(v).ok(); }]. *)
Definition send_client (cid : N) (v : Value) (w : World) : World :=
  match clients (st w) !! cid with
  | Some tx => send_to tx v w
  | None => w
  end.

(** [mpsc::Sender::capacity] of the channel to the server. *)
Definition capacity (w : World) : N := (MAX_QUEUE - N.of_nat (length (to_server w)))%N.

Definition push_server (v : Value) (w : World) : World := w <| to_server ::= λ q, q ++ [v] |>.

Section actions.
Context `{Platform}.

(** A critical section that no [.await] interrupts: it runs when the mutex is free. *)
Definition locked {A} (f : World → World * A) : proc World A :=
  await (λ w, if lock_held w then None else Some (f w)).
Definition update_st (f : MuxState → MuxState) : World → World * unit :=
  λ w, (w <| st ::= f |>, tt).
Definition lock {A} (f : MuxState → MuxState * A) : proc World A :=
  locked (λ w, let '(s, a) := f (st w) in (w <| st := s |>, a)).
Definition lock_ (f : MuxState → MuxState) : proc World unit := locked (update_st f).

(** [to_server_tx.send(v).await]: waits for a free slot; fails when the receiver
    was dropped. *)
Definition to_server_send (v : Value) : proc World (result string unit) :=
  await (λ w,
    if negb (to_server_open w) then Some (w, Err "server channel closed")
    else if (0 <? capacity w)%N then Some (push_server v w, Ok tt)
    else None).

(** [to_server_tx.try_send(v)]: the error is [Closed] or [Full]. *)
Definition to_server_try_send (v : Value) : proc World (result string unit) :=
  act (λ w,
    if negb (to_server_open w) then (w, Err "channel closed")
    else if (0 <? capacity w)%N then (push_server v w, Ok tt)
    else (w, Err "no available capacity")).

(** ** [publish_status] and [reset_state] *)
Definition publish_status : proc World unit :=
  let! snapshot := locked (λ w,
    let active := (max_active_clients (st w) - permits w)%N in
    let snapshot := snapshot_for_state (now w) (st w) active in
    let w := match event_tx (st w) with
             | Some _ => w <| bus ::= λ b, b ++
                 [StateChange (service_name (st w)) "Unknown"
                    (debug_status (server_status (st w)))] |>
             | None => w
             end in
    (w, snapshot)) in
  act (λ w, (w <| status := Some snapshot |>, tt)).

(** What [reset_state] takes out of the state and clears in it. *)
Definition reset_fields (reason : string) (s : MuxState) : MuxState :=
  s <| pending := ∅ |>
    <| init_waiting := [] |>
    <| cached_initialize := None |>
    <| initializing := false |>
    <| last_reset := Some reason |>
    <| queue_depth := 0%N |>
    <| child_pid := None |>.

Definition reset_section (reason : string) (w : World) : World :=
  let taken := hash_iter (pending (st w)) in
  let waiters := init_waiting (st w) in
  let w := w <| st ::= reset_fields reason |> in
  let w := fold_left (λ w kp,
    send_client (p_client_id kp.2) (error_response (p_local_id kp.2) reason) w) taken w in
  fold_left (λ w cv, send_client cv.1 (error_response cv.2 reason) w) waiters w.

Definition reset_state (reason : string) : proc World unit :=
  locked (λ w, (reset_section reason w, tt)) ;;!
  publish_status.
End actions.

(** ** The state is only changed by what assigns it *)
Lemma send_to_st tx v w : st (send_to tx v w) = st w.
Proof. unfold send_to. by repeat case_match. Qed.

Lemma send_client_st cid v w : st (send_client cid v w) = st w.
Proof. unfold send_client. case_match; [apply send_to_st | done]. Qed.

Lemma fold_send_st {A} (cid : A → N) (v : A → Value) l w :
  st (fold_left (λ w x, send_client (cid x) (v x) w) l w) = st w.
Proof. revert w. induction l as [|x l IH]; intros w; [done|]. simpl. by rewrite IH, send_client_st. Qed.

Lemma fold_send_lock {A} (cid : A → N) (v : A → Value) l w :
  lock_held (fold_left (λ w x, send_client (cid x) (v x) w) l w) = lock_held w.
Proof.
  revert w. induction l as [|x l IH]; intros w; [done|]. simpl. rewrite IH.
  unfold send_client, send_to. by repeat case_match.
Qed.

(** ** Delivery

    [delivered c w] are the messages sent to client [c] so far. *)
Definition delivered (cid : N) (w : World) : list Value :=
  match clients (st w) !! cid with
  | Some tx => match chans w !! tx with Some ch => received ch ++ queue ch | None => [] end
  | None => []
  end.

(** Client [cid] is connected, through a channel that no other client has. *)
Definition connected (cid : N) (w : World) : Prop :=
  ∃ tx o q, clients (st w) !! cid = Some tx ∧ chans w !! tx = Some (mkChan o q true) ∧
    ∀ c, clients (st w) !! c = Some tx → c = cid.

Lemma send_client_connected cid c v w :
  connected cid w → connected cid (send_client c v w).
Proof.
  intros (tx & o & q & Hc & Hq & Hu). unfold connected. rewrite send_client_st.
  unfold send_client, send_to.
  destruct (clients (st w) !! c) as [tx'|]; [|by exists tx, o, q].
  destruct (chans w !! tx') as [ch|] eqn:E; [|by exists tx, o, q].
  destruct (rx_alive ch) eqn:Ea; [|by exists tx, o, q]. simpl.
  destruct (decide (tx' = tx)) as [->|].
  - exists tx, (received ch), (queue ch ++ [v]). rewrite lookup_insert_eq.
    destruct ch; simpl in *. subst. done.
  - exists tx, o, q. by rewrite lookup_insert_ne.
Qed.

Lemma send_client_delivered cid v w :
  connected cid w → delivered cid (send_client cid v w) = delivered cid w ++ [v].
Proof.
  intros (tx & o & q & Hc & Hq & Hu). unfold delivered. rewrite send_client_st, Hc, Hq.
  unfold send_client, send_to. rewrite Hc, Hq. simpl. rewrite lookup_insert_eq. simpl.
  by rewrite <- app_assoc.
Qed.

Lemma send_client_delivered_ne cid c v w :
  connected cid w → c ≠ cid → delivered cid (send_client c v w) = delivered cid w.
Proof.
  intros (tx & o & q & Hc & Hq & Hu) Hne. unfold delivered. rewrite send_client_st, Hc, Hq.
  unfold send_client, send_to.
  destruct (clients (st w) !! c) as [tx'|] eqn:Ec; [|by rewrite Hq].
  destruct (chans w !! tx') as [ch|] eqn:E; [|by rewrite Hq].
  destruct (rx_alive ch); [|by rewrite Hq]. simpl.
  rewrite lookup_insert_ne, Hq; [done|]. intros ->. naive_solver.
Qed.

(** A loop of sends delivers to each client its own messages, in order. *)
Lemma fold_send_delivered {A} (cid : A → N) (v : A → Value) (l : list A) c w :
  connected c w →
  connected c (fold_left (λ w x, send_client (cid x) (v x) w) l w) ∧
  delivered c (fold_left (λ w x, send_client (cid x) (v x) w) l w) =
    delivered c w ++ (v <$> retain (λ x, (cid x =? c)%N) l).
Proof.
  revert w. induction l as [|x l IH]; intros w Hc; simpl; [by rewrite app_nil_r|].
  destruct (IH (send_client (cid x) (v x) w)) as [? ->]; [by apply send_client_connected|].
  split; [done|]. destruct (N.eqb_spec (cid x) c) as [->|Hne].
  - rewrite send_client_delivered by done. simpl. by rewrite <- app_assoc.
  - by rewrite send_client_delivered_ne.
Qed.

Create Rewrite HintDb operator.
#[export] Hint Rewrite send_to_st send_client_st @fold_send_st : operator.

(** ** Running without interference *)
Section running.
Context `{Platform}.

Lemma run_locked {A} (f : World → World * A) w :
  lock_held w = false → run (locked f) w = Some (f w).
Proof. intros Hl. unfold locked. rewrite run_await. by rewrite Hl. Qed.

Lemma run_lock {A} (f : MuxState → MuxState * A) w :
  lock_held w = false → run (lock f) w = Some (w <| st := (f (st w)).1 |>, (f (st w)).2).
Proof. intros Hl. unfold lock. rewrite run_locked by done. by destruct (f (st w)). Qed.

Lemma run_lock_ f w : lock_held w = false → run (lock_ f) w = Some (w <| st ::= f |>, tt).
Proof. intros Hl. unfold lock_. by rewrite run_locked. Qed.

(** What [publish_status] changes: the watch value and the event bus. *)
Definition publish (w : World) : World :=
  let snapshot := snapshot_for_state (now w) (st w) (max_active_clients (st w) - permits w)%N in
  let ev := StateChange (service_name (st w)) "Unknown" (debug_status (server_status (st w))) in
  (if is_some (event_tx (st w)) then w <| bus ::= λ b, b ++ [ev] |> else w)
    <| status := Some snapshot |>.

Lemma run_publish_status w :
  lock_held w = false → run publish_status w = Some (publish w, tt).
Proof.
  intros Hl. unfold publish_status. rewrite run_bind, run_locked, run_act by done.
  unfold publish. by destruct (event_tx (st w)).
Qed.

Lemma publish_fields w :
  st (publish w) = st w ∧ lock_held (publish w) = lock_held w ∧ chans (publish w) = chans w ∧
  to_server (publish w) = to_server w ∧ to_server_open (publish w) = to_server_open w ∧
  now (publish w) = now w ∧ permits (publish w) = permits w ∧
  heartbeat_restarts (publish w) = heartbeat_restarts w ∧ slept (publish w) = slept w ∧
  child_stdin (publish w) = child_stdin w ∧ server_events (publish w) = server_events w ∧
  shutdown (publish w) = shutdown w ∧ heartbeat_events (publish w) = heartbeat_events w.
Proof. unfold publish. by destruct (event_tx (st w)). Qed.

Lemma run_to_server_send v w :
  to_server_open w = true → (0 < capacity w)%N →
  run (to_server_send v) w = Some (push_server v w, Ok tt).
Proof.
  intros Ho Hc. unfold to_server_send. rewrite run_await, Ho. simpl.
  by rewrite (proj2 (N.ltb_lt _ _) Hc).
Qed.

Lemma run_to_server_try_send v w :
  to_server_open w = true → (0 < capacity w)%N →
  run (to_server_try_send v) w = Some (push_server v w, Ok tt).
Proof.
  intros Ho Hc. unfold to_server_try_send. rewrite run_act, Ho. simpl.
  by rewrite (proj2 (N.ltb_lt _ _) Hc).
Qed.

Lemma send_to_fields tx v w :
  lock_held (send_to tx v w) = lock_held w ∧ to_server (send_to tx v w) = to_server w ∧
  to_server_open (send_to tx v w) = to_server_open w ∧ now (send_to tx v w) = now w.
Proof. unfold send_to. by repeat case_match. Qed.

Lemma send_client_fields c v w :
  lock_held (send_client c v w) = lock_held w ∧
  to_server (send_client c v w) = to_server w ∧
  to_server_open (send_client c v w) = to_server_open w ∧
  now (send_client c v w) = now w.
Proof. unfold send_client. case_match; [apply send_to_fields | done]. Qed.
End running.

(** Runs the next action of a task whose locks are free. *)
Ltac run_steps :=
  repeat first
    [ rewrite run_bind
    | rewrite run_publish_status by done
    | rewrite run_locked by done
    | rewrite run_lock by done
    | rewrite run_lock_ by done
    | rewrite run_act
    | rewrite run_to_server_send by done
    | rewrite run_to_server_try_send by done
    | progress cbn [run] ].
