(* ===== verification/MuxClient.v ===== *)
(** * MuxClient: one client connection ([mux-agent/src/runtime/client.rs])

    [handle_client] owns a connection: its writer task, its reader loop and, for each
    frame, [handle_client_message], which holds requests back until the handshake is
    complete and sends them to the MCP server under an identifier that names the
    client. *)
From S2P Require Import Prelude Text Json Proc Shared MuxState MuxWorld.

(** [format!("c{client_id}:{}", n)]. *)
Definition format_gid (client_id n : N) : string :=
  "c" +:+ pretty client_id +:+ String colon (pretty n).

(** [msg.get("method").and_then(|m| m.as_str()).unwrap_or_default()]. *)
Definition method_of (msg : Value) : string :=
  unwrap_or (value_get "method" msg ≫= as_str) "".

Definition OVERLOADED : string := "mux overloaded (too many pending)".

(** The body of the [if st.pending.len() >= MAX_PENDING] check. *)
Definition overloaded (s : MuxState) : bool := (MAX_PENDING <=? N.of_nat (size (pending s)))%N.

(** [st.next_request_id()] and the insertion of the [Pending] entry. *)
Definition insert_pending (client_id : N) (local_id : Value) (init : bool) (t : N)
    (s : MuxState) : MuxState * string :=
  let '(s, n) := next_request_id s in
  let gid := format_gid client_id n in
  (s <| pending ::= <[gid := mkPending client_id local_id init t]> |>, gid).

Section client.
Context `{Platform}.

Definition update_queue_depth : proc World unit :=
  locked (λ w, (w <| st ::= λ s, s <| queue_depth := (MAX_QUEUE - capacity w)%N |> |>, tt)).

(** ** Forwarding a request *)

(** The critical section of [forward_request]: the global identifier, or [None]
    when the client was told that the mux is overloaded. *)
Definition forward_section (client_id : N) (local_id : Value) (w : World) :
    World * option string :=
  if overloaded (st w)
  then (send_client client_id (error_response local_id OVERLOADED) w, None)
  else let '(s, gid) := insert_pending client_id local_id false (now w) (st w) in
       (w <| st := s |>, Some gid).

(** [set_id; to_server_tx.send(msg).await?; update_queue_depth; publish_status]. *)
Definition send_request (msg : Value) (gid : string) : proc World (result string unit) :=
  let! sent := to_server_send (set_id msg (JString gid)) in
  match sent with
  | Err e => Ret (Err e)
  | Ok _ => update_queue_depth ;;! publish_status ;;! Ret (Ok tt)
  end.

Definition forward_request (client_id : N) (msg : Value) : proc World (result string unit) :=
  match value_get "id" msg with
  | None => Ret (Err "missing id")
  | Some local_id =>
      let! gid := locked (forward_section client_id local_id) in
      match gid with
      | None => Ret (Ok tt)
      | Some gid => send_request msg gid
      end
  end.

(** ** The messages of a client *)

(** The critical section of an [initialize] request. *)
Definition initialize_section (client_id : N) (local_id : Value) (w : World) :
    World * option string :=
  let w := w <| st ::= get_handshake_mut client_id
                        (λ h, h <| initialize_pending := true |>) |> in
  match cached_initialize (st w) with
  | Some cached => (send_client client_id (set_id cached local_id) w, None)
  | None =>
      if initializing (st w)
      then (w <| st ::= λ s, s <| init_waiting ::= λ l, l ++ [(client_id, local_id)] |> |>, None)
      else if overloaded (st w)
      then (send_client client_id (error_response local_id OVERLOADED) w, None)
      else let '(s, gid) := insert_pending client_id local_id true (now w) (st w) in
           (w <| st := s |>, Some gid)
  end.

(** The first [notifications/initialized] since the mux started is forwarded. *)
Definition claim_initialized (s : MuxState) : MuxState * bool :=
  if negb (server_initialized s) then (s <| server_initialized := true |>, true)
  else (s, false).

Definition handle_initialized (client_id : N) (msg : Value) : proc World (result string unit) :=
  let! should_forward := lock claim_initialized in
  (if should_forward then to_server_try_send msg ;;! Ret tt else Ret tt) ;;!
  let! buffered := lock (complete_handshake client_id) in
  for_each buffered (λ m, forward_request client_id m ;;! Ret tt) ;;!
  update_queue_depth ;;!
  publish_status ;;!
  Ret (Ok tt).

Definition handle_notification (msg : Value) : proc World (result string unit) :=
  to_server_try_send msg ;;!
  update_queue_depth ;;!
  publish_status ;;!
  Ret (Ok tt).

Definition handle_initialize (client_id : N) (msg local_id : Value) :
    proc World (result string unit) :=
  let! gid := locked (initialize_section client_id local_id) in
  match gid with
  | None => Ret (Ok tt)
  | Some gid => send_request msg gid
  end.

(** A request other than [initialize]. *)
Definition handle_request (client_id : N) (msg : Value) : proc World (result string unit) :=
  let! complete := lock (λ s, (s, is_handshake_complete client_id s)) in
  if negb complete then
    lock_ (buffer_message client_id msg) ;;! Ret (Ok tt)
  else forward_request client_id msg.

Definition handle_client_message (client_id : N) (msg : Value) (max_request_bytes : N) :
    proc World (result string unit) :=
  if (max_request_bytes <? json_len msg)%N then
    locked (λ w, (send_client client_id
      (error_response (unwrap_or (value_get "id" msg) JNull) "request too large") w, tt)) ;;!
    Ret (Ok tt)
  else if str_eqb (method_of msg) "notifications/initialized" then
    handle_initialized client_id msg
  else match value_get "id" msg with
  | None => handle_notification msg
  | Some local_id =>
      if str_eqb (method_of msg) "initialize" then handle_initialize client_id msg local_id
      else handle_request client_id msg
  end.

(** ** The connection *)

(** What [handle_client] waits for: the branches of its [select!], with what the
    socket reader answers. *)
Inductive ClientEvent :=
| ShutdownCancelled
| CheckTick
| Frame (frame : option (result string Value)).

Definition HANDSHAKE_ERROR : string :=
  "handshake timeout: initialize/initialized sequence not completed".

Inductive LoopEnd := LoopBreak | LoopError (e : string).

(** The reader loop, on the events that wake it; it waits forever when there are
    no more. *)
Fixpoint reader_loop (client_id : N) (events : list ClientEvent) : proc World LoopEnd :=
  match events with
  | [] => await (λ _, None)
  | ShutdownCancelled :: _ => await (λ w, if shutdown w then Some (w, LoopBreak) else None)
  | CheckTick :: events =>
      let! timed_out := locked (λ w, (w, is_handshake_timed_out (now w) client_id (st w))) in
      if timed_out : bool then
        locked (λ w, (send_client client_id (error_response JNull HANDSHAKE_ERROR) w, LoopBreak))
      else reader_loop client_id events
  | Frame None :: _ => Ret LoopBreak
  | Frame (Some (Err e)) :: _ => Ret (LoopError e)
  | Frame (Some (Ok msg)) :: events =>
      let! max_request_bytes := lock (λ s, (s, max_request_bytes s)) in
      handle_client_message client_id msg max_request_bytes ;;!
      reader_loop client_id events
  end.

(** [client_rx.recv().await]: [None] once no sender is left (the one in the client map;
    a copy that a router action holds for one send is not counted). *)
Definition client_recv (tx : TxHandle) : proc World (option Value) :=
  await (λ w,
    match chans w !! tx with
    | Some ch =>
        if negb (rx_alive ch) then None
        else match queue ch with
        | v :: q =>
            Some (w <| chans ::= <[tx := ch <| queue := q |> <| received ::= λ o, o ++ [v] |>]> |>,
                  Some v)
        | [] => if bool_decide (map_Exists (λ _ t, t = tx) (clients (st w)))
                then None else Some (w, None)
        end
    | None => None
    end).

(** The loop of the writer task; [sends] are the outcomes of the socket writes. *)
Fixpoint writer_loop (tx : TxHandle) (sends : list (result string unit)) : proc World unit :=
  let! msg := client_recv tx in
  match msg with
  | None => Ret tt
  | Some _ =>
      match sends with
      | [] => await (λ _, None)
      | Err _ :: _ => Ret tt
      | Ok _ :: sends => writer_loop tx sends
      end
  end.

(** The receiver of a task that ended or was aborted is dropped. *)
Definition drop_rx (tx : TxHandle) (w : World) : World :=
  w <| chans ::= alter (λ ch, ch <| rx_alive := false |>) tx |>.

Definition writer_task (client_id : N) (tx : TxHandle) (sends : list (result string unit)) :
    proc World unit :=
  writer_loop tx sends ;;!
  lock_ (unregister_client client_id) ;;!
  publish_status ;;!
  act (λ w, (drop_rx tx w, tt)).

(** The semaphore permit held for the whole connection. *)
Definition acquire_permit : proc World unit :=
  await (λ w, if (0 <? permits w)%N then Some (w <| permits ::= N.pred |>, tt) else None).
Definition release_permit : proc World unit :=
  act (λ w, (w <| permits ::= N.succ |>, tt)).

Definition handle_client (events : list ClientEvent) : proc World (result string unit) :=
  acquire_permit ;;!
  let! client_tx := act unbounded_channel in
  let! client_id := locked (λ w,
    let '(s, id) := register_client (now w) client_tx (st w) in (w <| st := s |>, id)) in
  publish_status ;;!
  (* the writer task is spawned here *)
  let! ended := reader_loop client_id events in
  match ended with
  | LoopError e => release_permit ;;! Ret (Err e)
  | LoopBreak =>
      lock_ (unregister_client client_id) ;;!
      publish_status ;;!
      act (λ w, (drop_rx client_tx w, tt)) ;;!
      release_permit ;;!
      Ret (Ok tt)
  end.
End client.

(** ** Identifiers *)
Lemma format_gid_inj c n c' n' : format_gid c n = format_gid c' n' → c = c' ∧ n = n'.
Proof.
  intros E. unfold format_gid in E. apply str_app_inj_l in E.
  destruct (delimiter_inj _ colon _ _ _ _ eq_refl (digits_no_colon c) (digits_no_colon c') E)
    as [E1 E2].
  by split; apply pretty_N_inj.
Qed.

Section runs.
Context `{Platform}.

(** ** What the actions of a client do without interference *)
Definition with_depth (w : World) : World :=
  w <| st ::= λ s, s <| queue_depth := (MAX_QUEUE - capacity w)%N |> |>.

Lemma run_update_queue_depth w :
  lock_held w = false → run update_queue_depth w = Some (with_depth w, tt).
Proof. intros Hl. unfold update_queue_depth. by rewrite run_locked. Qed.

(** The world after [send_request]. *)
Definition sent (msg : Value) (gid : string) (w : World) : World :=
  publish (with_depth (push_server (set_id msg (JString gid)) w)).

Lemma run_send_request msg gid w :
  lock_held w = false → to_server_open w = true → (0 < capacity w)%N →
  run (send_request msg gid) w = Some (sent msg gid w, Ok tt).
Proof.
  intros Hl Ho Hc. unfold send_request. rewrite run_bind, run_to_server_send by done.
  rewrite run_bind, run_update_queue_depth by done. by run_steps.
Qed.

Lemma sent_fields msg gid w :
  lock_held (sent msg gid w) = lock_held w ∧ chans (sent msg gid w) = chans w ∧
  to_server (sent msg gid w) = to_server w ++ [set_id msg (JString gid)] ∧
  to_server_open (sent msg gid w) = to_server_open w ∧ now (sent msg gid w) = now w ∧
  ∃ d, st (sent msg gid w) = (st w) <| queue_depth := d |>.
Proof.
  unfold sent. pose proof (publish_fields (with_depth (push_server (set_id msg (JString gid)) w))) as F.
  destruct_and! F. repeat (match goal with E : _ = _ |- _ => rewrite !E; clear E end).
  split_and!; try done. by eexists.
Qed.

(** The world after an unhindered [forward_request]. *)
Definition forwarded (client_id : N) (msg local_id : Value) (w : World) : World :=
  let r := insert_pending client_id local_id false (now w) (st w) in
  sent msg r.2 (w <| st := r.1 |>).

Lemma run_forward_request cid msg lid w :
  lock_held w = false → to_server_open w = true → (0 < capacity w)%N →
  value_get "id" msg = Some lid → overloaded (st w) = false →
  run (forward_request cid msg) w = Some (forwarded cid msg lid w, Ok tt).
Proof.
  intros Hl Ho Hc Hid Hp. unfold forward_request, forwarded. rewrite Hid.
  rewrite run_bind, run_locked by done. unfold forward_section. rewrite Hp.
  destruct (insert_pending cid lid false (now w) (st w)) as [s gid]. cbn [fst snd].
  by rewrite run_send_request.
Qed.

Lemma forwarded_fields cid msg lid w :
  let gid := format_gid cid (next_global_id (st w)) in
  lock_held (forwarded cid msg lid w) = lock_held w ∧
  chans (forwarded cid msg lid w) = chans w ∧
  to_server (forwarded cid msg lid w) = to_server w ++ [set_id msg (JString gid)] ∧
  to_server_open (forwarded cid msg lid w) = to_server_open w ∧
  now (forwarded cid msg lid w) = now w ∧
  pending (st (forwarded cid msg lid w)) =
    <[gid := mkPending cid lid false (now w)]> (pending (st w)) ∧
  next_global_id (st (forwarded cid msg lid w)) = u64_add (next_global_id (st w)) 1 ∧
  clients (st (forwarded cid msg lid w)) = clients (st w) ∧
  client_handshakes (st (forwarded cid msg lid w)) = client_handshakes (st w).
Proof.
  unfold forwarded.
  destruct (sent_fields msg (insert_pending cid lid false (now w) (st w)).2
    (w <| st := (insert_pending cid lid false (now w) (st w)).1 |>)) as (H1 & H2 & H3 & H4 & H5 & d & H6).
  rewrite H1, H2, H3, H4, H5, H6. done.
Qed.

(** The requests [msgs] of a client under the identifiers from [n] on. *)
Definition renumbered (client_id n : N) (msgs : list Value) : list Value :=
  imap (λ i m, set_id m (JString (format_gid client_id (n + N.of_nat i)))) msgs.

Lemma renumbered_cons cid n m msgs :
  renumbered cid n (m :: msgs) =
  set_id m (JString (format_gid cid n)) :: renumbered cid (n + 1) msgs.
Proof.
  unfold renumbered. simpl. rewrite N.add_0_r. f_equal.
  apply imap_ext. intros i x _. simpl. by replace (n + N.of_nat (S i))%N with (n + 1 + N.of_nat i)%N by lia.
Qed.

(** There is room for [k] more requests, and their numbers do not wrap. *)
Definition room (k : nat) (w : World) : Prop :=
  lock_held w = false ∧ to_server_open w = true ∧
  (N.of_nat (length (to_server w) + k) ≤ MAX_QUEUE)%N ∧
  (N.of_nat (size (pending (st w)) + k) ≤ MAX_PENDING)%N ∧
  (next_global_id (st w) + N.of_nat k < U64_MODULUS)%N.

Lemma room_capacity k w : room (S k) w → (0 < capacity w)%N ∧ overloaded (st w) = false.
Proof.
  intros (_ & _ & Hq & Hp & _). unfold capacity, overloaded. split; [lia|]. apply N.leb_gt. lia.
Qed.

Lemma room_forwarded k cid msg lid w :
  room (S k) w → room k (forwarded cid msg lid w).
Proof.
  intros (Hl & Ho & Hq & Hp & Hn). unfold room.
  destruct (forwarded_fields cid msg lid w) as (-> & _ & -> & -> & _ & -> & -> & _).
  rewrite length_app. simpl. rewrite u64_add_small by lia.
  match goal with |- context [<[?k:=?p]> ?m] => pose proof (size_insert_le m k p) end.
  split_and!; try done; lia.
Qed.

(** The flush loop of [handle_initialized]. *)
Lemma run_flush cid bs w :
  room (length bs) w → Forall (λ m, is_Some (value_get "id" m)) bs →
  ∃ w', run (for_each bs (λ m, forward_request cid m ;;! Ret tt)) w = Some (w', tt) ∧
    lock_held w' = false ∧ chans w' = chans w ∧
    client_handshakes (st w') = client_handshakes (st w) ∧
    to_server w' = to_server w ++ renumbered cid (next_global_id (st w)) bs ∧
    (∀ i m lid, bs !! i = Some m → value_get "id" m = Some lid →
       pending (st w') !! format_gid cid (next_global_id (st w) + N.of_nat i) =
         Some (mkPending cid lid false (now w))) ∧
    (∀ g, (∀ i, (i < length bs)%nat → g ≠ format_gid cid (next_global_id (st w) + N.of_nat i)) →
       pending (st w') !! g = pending (st w) !! g).
Proof.
  revert w. induction bs as [|m bs IH]; intros w Hroom Hids.
  { exists w. destruct Hroom as [Hl _]. rewrite app_nil_r. by split_and!. }
  apply Forall_cons in Hids as [[lid Hid] Hids]. simpl in Hroom.
  destruct (room_capacity _ _ Hroom) as [Hc Ho]. pose proof Hroom as (Hl & Hop & _ & _ & Hn).
  rewrite run_for_each_cons, run_bind, (run_forward_request cid m lid) by done. cbn [run].
  destruct (forwarded_fields cid m lid w) as (_ & Fc & Fs & _ & Fn & Fp & Fg & _ & Fh).
  destruct (IH (forwarded cid m lid w)) as (w' & Hr & ? & ? & ? & Hs & Hin & Hold); [by apply room_forwarded|done|].
  rewrite u64_add_small in Fg by lia. rewrite Fg, Fp, Fn in *. rewrite Fc, Fs, Fh in *.
  exists w'. split_and!; [done|done|congruence|congruence|..].
  - rewrite Hs, renumbered_cons, <- app_assoc. done.
  - intros [|i] x l Hx Hl'; simpl in Hx.
    + injection Hx as <-. rewrite N.add_0_r, Hold.
      * assert (l = lid) as -> by congruence. by rewrite lookup_insert_eq.
      * intros i _ [_ E]%format_gid_inj. lia.
    + specialize (Hin i x l Hx Hl').
      by replace (next_global_id (st w) + N.of_nat (S i))%N
        with (next_global_id (st w) + 1 + N.of_nat i)%N by lia.
  - intros g Hg. rewrite Hold.
    + apply lookup_insert_ne. intros <-. apply (Hg 0%nat); simpl; [lia|]. by rewrite N.add_0_r.
    + intros i Hi ->. apply (Hg (S i)); simpl; [lia|]. f_equal. lia.
Qed.
End runs.

(** ** Properties *)
Section properties.
Context `{Platform}.

(** A request that arrives before the client's handshake is complete is neither
    forwarded nor lost: it becomes the last message of the client's buffer and nothing
    else of the mux changes. *)
Theorem request_held_until_handshake cid msg lid max h w :
  lock_held w = false → (json_len msg ≤ max)%N → value_get "id" msg = Some lid →
  method_of msg ≠ "notifications/initialized" → method_of msg ≠ "initialize" →
  client_handshakes (st w) !! cid = Some h → initialized h = false →
  ∃ w', run (handle_client_message cid msg max) w = Some (w', Ok tt) ∧
    to_server w' = to_server w ∧ chans w' = chans w ∧ pending (st w') = pending (st w) ∧
    client_handshakes (st w') =
      <[cid := h <| buffered_messages := buffered_messages h ++ [msg] |>]>
        (client_handshakes (st w)).
Proof.
  intros Hl Hlen Hid Hm1 Hm2 Hh Hi. unfold handle_client_message, str_eqb.
  rewrite (proj2 (N.ltb_ge _ _) Hlen), !bool_decide_false, Hid by done.
  unfold handle_request. rewrite run_bind, run_lock by done. cbn [fst snd].
  unfold is_handshake_complete at 1. rewrite Hh, Hi. cbn [negb].
  rewrite run_bind, run_lock_ by done. eexists. split; [done|]. simpl.
  unfold buffer_message. by rewrite Hh.
Qed.


(** C11: A request the mux will not forward, because it is too large or because
    [MAX_PENDING] requests wait already, is answered at once with an error that
    carries the request's own identifier; no entry is made for it. *)
Theorem refused_requests_are_answered cid msg lid max w :
  lock_held w = false → connected cid w → value_get "id" msg = Some lid →
  (max < json_len msg)%N ∨
    (json_len msg ≤ max)%N ∧ overloaded (st w) = true ∧
    method_of msg ≠ "notifications/initialized" ∧
    (if decide (method_of msg = "initialize")
     then cached_initialize (st w) = None ∧ initializing (st w) = false
     else is_handshake_complete cid (st w) = true) →
  ∃ w' reason, run (handle_client_message cid msg max) w = Some (w', Ok tt) ∧
    delivered cid w' = delivered cid w ++ [error_response lid reason] ∧
    pending (st w') = pending (st w) ∧ to_server w' = to_server w.
Proof.
  intros Hl Hc Hid Hcase. unfold handle_client_message, str_eqb.
  destruct Hcase as [Hlen|(Hlen & Ho & Hm & Hcase)].
  { rewrite (proj2 (N.ltb_lt _ _) Hlen), Hid. change (unwrap_or (Some lid) JNull) with lid.
    rewrite run_bind, run_locked by done.
    eexists _, "request too large". split; [done|].
    rewrite send_client_delivered, send_client_st by done.
    by destruct (send_client_fields cid (error_response lid "request too large") w) as (_ & -> & _). }
  rewrite (proj2 (N.ltb_ge _ _) Hlen), bool_decide_false, Hid by done.
  case_decide as Hi.
  - rewrite bool_decide_true by done. destruct Hcase as [Hcache Hinit].
    unfold handle_initialize. rewrite run_bind, run_locked by done.
    unfold initialize_section.
    match goal with |- context [w <| st ::= ?f |>] => set (w1 := w <| st ::= f |>) end.
    replace (cached_initialize (st w1)) with (cached_initialize (st w)) by done.
    replace (initializing (st w1)) with (initializing (st w)) by done.
    replace (overloaded (st w1)) with (overloaded (st w)) by done.
    rewrite Hcache, Hinit, Ho. cbn iota. eexists _, OVERLOADED. split; [done|].
    rewrite send_client_delivered, send_client_st by exact Hc.
    by destruct (send_client_fields cid (error_response lid OVERLOADED) w1) as (_ & -> & _).
  - rewrite bool_decide_false by done. unfold handle_request.
    rewrite run_bind, run_lock by done. cbn [fst snd]. rewrite Hcase. cbn [negb].
    unfold forward_request. rewrite Hid, run_bind, run_locked by done.
    unfold forward_section. cbn [st]. 
    match goal with |- context [overloaded ?s] => replace (overloaded s) with true by done end.
    eexists _, OVERLOADED. split; [done|].
    match goal with |- context [send_client cid ?v ?w] => set (w1 := w) end.
    rewrite send_client_delivered, send_client_st by exact Hc.
    by destruct (send_client_fields cid (error_response lid OVERLOADED) w1) as (_ & -> & _).
Qed.

(** A frame that does not decode ends the connection without its clean-up: the
    client stays registered, with its handshake record, although its reader is gone
    and its permit was given back. *)
Theorem decode_error_leaves_client_registered e w :
  lock_held w = false → (0 < permits w)%N →
  ∃ w' cid, run (handle_client [Frame (Some (Err e))]) w = Some (w', Err e) ∧
    cid = next_client_id (st w) ∧ is_Some (clients (st w') !! cid) ∧
    is_Some (client_handshakes (st w') !! cid) ∧ permits w' = permits w.
Proof.
  intros Hl Hp. unfold handle_client, acquire_permit.
  rewrite run_bind, run_await, (proj2 (N.ltb_lt _ _) Hp). rewrite run_bind, run_act.
  cbn [unbounded_channel]. rewrite run_bind, run_locked by done. cbn [register_client fst snd].
  rewrite run_bind, run_publish_status by done.
  match goal with |- context [publish ?w] => set (w1 := w) end.
  cbn [reader_loop bind run]. unfold release_permit. rewrite run_bind, run_act. cbn [run].
  destruct (publish_fields w1) as (Hst & _ & _ & _ & _ & _ & Hperm & _).
  generalize dependent (publish w1). intros w2 Hst Hperm.
  exists (w2 <| permits ::= N.succ |>), (next_client_id (st w)). split; [done|].
  simpl. rewrite Hst, Hperm. subst w1. simpl. rewrite !lookup_insert_eq.
  split_and!; eauto. lia.
Qed.
End properties.
