(* ===== verification/MuxServer.v ===== *)
(** * MuxServer: the MCP server's side of one mux
    ([mux-agent/src/runtime/server.rs], the router and the reaper of
    [mux-agent/src/runtime/mod.rs])

    [handle_server_message] routes what the child writes back to the clients,
    [handle_server_events_with_heartbeat] feeds it, [server_manager] starts, feeds and
    restarts the child, [reap_timeouts] expires requests. *)
From S2P Require Import Prelude Text Json Proc Shared MuxState MuxWorld MuxClient.

Definition is_heartbeat_response (id : string) : bool := starts_with id "__heartbeat_".

(** The string form of a response's identifier; the text of the error is only logged. *)
Definition id_string (id_val : Value) : option string :=
  opt_or (as_str id_val)
    (opt_or (pretty <$> as_i64 id_val) (pretty <$> value_as_u64 id_val)).

Section server.
Context `{Platform}.

(** ** Routing one message *)

(** [for tx in st.clients.values() { tx.send(msg.clone()).ok(); }]. *)
Definition broadcast (msg : Value) (w : World) : World :=
  fold_left (λ w kv, send_to kv.2 msg w) (hash_iter (clients (st w))) w.

Definition take_pending (id_str : string) (s : MuxState) : MuxState * option Pending :=
  (s <| pending ::= delete id_str |>, pending s !! id_str).

(** The cache is filled and the waiting [initialize] callers are answered. *)
Definition cache_section (msg : Value) (w : World) : World :=
  let waiters := init_waiting (st w) in
  let w := w <| st ::= λ s, s <| cached_initialize := Some msg |> <| initializing := false |>
                              <| init_waiting := [] |> |> in
  fold_left (λ w cv, send_client cv.1 (set_id msg cv.2) w) waiters w.

Definition handle_server_message (msg : Value) : proc World (result string unit) :=
  match value_get "id" msg with
  | None => locked (λ w, (broadcast msg w, tt)) ;;! Ret (Ok tt)
  | Some id_val =>
      if is_null id_val then locked (λ w, (broadcast msg w, tt)) ;;! Ret (Ok tt)
      else match id_string id_val with
      | None => Ret (Err "unsupported id type")
      | Some id_str =>
          let! pending := lock (take_pending id_str) in
          match pending with
          | None => Ret (Ok tt)
          | Some pending =>
              (if p_is_initialize pending then locked (λ w, (cache_section msg w, tt))
               else Ret tt) ;;!
              let! target_tx := lock (λ s, (s, clients s !! p_client_id pending)) in
              match target_tx with
              | Some tx => act (λ w, (send_to tx (set_id msg (p_local_id pending)) w, tt))
              | None => Ret tt
              end ;;!
              publish_status ;;!
              Ret (Ok tt)
          end
      end
  end.

(** ** The router *)
Definition server_event_recv : proc World ServerEvent.ServerEvent :=
  await (λ w, match server_events w with
              | e :: q => Some (w <| server_events := q |>, e)
              | [] => None
              end).

Definition route_event (evt : ServerEvent.ServerEvent) : proc World unit :=
  match evt with
  | ServerEvent.Message msg =>
      match opt_filter is_heartbeat_response (value_get "id" msg ≫= as_str) with
      | Some id =>
          act (λ w, (w <| heartbeat_events ::= λ q, q ++ [HeartbeatEvent.Response id] |>, tt))
      | None => handle_server_message msg ;;! Ret tt
      end
  | ServerEvent.Reset reason => reset_state reason
  end.

(** [n] rounds of [while let Some(evt) = rx.recv().await]. *)
Fixpoint handle_server_events_with_heartbeat (n : nat) : proc World unit :=
  match n with
  | O => await (λ _, None)
  | S n => let! evt := server_event_recv in
           route_event evt ;;!
           handle_server_events_with_heartbeat n
  end.

(** ** The reaper *)
Definition expired_at (t timeout : N) (p : Pending) : bool :=
  (timeout <? t - p_started_at p)%N.

(** [pending.retain(..)], with the entries it drops. *)
Definition reap_section (timeout : N) (w : World) : World * list (N * Value) :=
  let dropped := retain (λ kp, expired_at (now w) timeout kp.2) (hash_iter (pending (st w))) in
  (w <| st ::= λ s, s <| pending ::=
          filter (λ kp, expired_at (now w) timeout kp.2 = false) |> |>,
   (λ kp, (p_client_id kp.2, p_local_id kp.2)) <$> dropped).

Definition reap_tick : proc World unit :=
  let! timeout := lock (λ s, (s, request_timeout s)) in
  let! expired := locked (reap_section timeout) in
  (if negb (bool_decide (length expired = 0%nat)) then
     locked (λ w, (fold_left (λ w cv,
       send_client cv.1 (error_response cv.2 "request timeout") w) expired w, tt))
   else Ret tt) ;;!
  publish_status.

(** [true] stands for a tick of the interval, [false] for the cancelled token. *)
Fixpoint reap_timeouts (events : list bool) : proc World unit :=
  match events with
  | [] => await (λ _, None)
  | true :: events => reap_tick ;;! reap_timeouts events
  | false :: _ => await (λ w, if shutdown w then Some (w, tt) else None)
  end.

(** ** The server manager *)
Inductive ExitStatus := Exited | WaitError (e : string) | JoinError.

(** What wakes the monitor loop, with the outcome of the write to the child. *)
Inductive MonitorEvent :=
| MessageToServer (write : result string unit)
| ChildExit (status : ExitStatus)
| HeartbeatRestart
| MonitorShutdown.

(** One run of the child: [spawn] answers its pid, and the first held message is
    written with [first_write]. *)
Record Incarnation := mkIncarnation {
  spawn : result string (option N);
  first_write : result string unit;
  wakeups : list MonitorEvent;
}.

Record ServerManagerConfig := mkServerManagerConfig {
  sm_lazy_start : bool;
  sm_restart_backoff : N;
  sm_restart_backoff_max : N;
  sm_max_restarts : N;
}.

(** [to_server_rx.recv()]: the manager holds a sender itself ([to_server_meter]), so
    the channel is never closed. *)
Definition to_server_recv : proc World (option Value) :=
  await (λ w, match to_server w with
              | v :: q => Some (w <| to_server := q |>, Some v)
              | [] => None
              end).

Definition write_child (v : Value) (outcome : result string unit) : proc World (result string unit) :=
  act (λ w, (match outcome with
             | Ok _ => w <| child_stdin ::= λ l, l ++ [v] |>
             | Err _ => w
             end, outcome)).

Definition is_cancelled : proc World bool := act (λ w, (w, shutdown w)).

(** The assignments to [server_status] and [last_reset] of a failure. *)
Definition set_failed (status reset : string) (s : MuxState) : MuxState :=
  s <| server_status := ServerStatus.Failed status |> <| last_reset := Some reset |>.

(** The monitor loop; the answer is [should_restart]. *)
Fixpoint monitor (events : list MonitorEvent) : proc World bool :=
  let! cancelled := is_cancelled in
  if cancelled : bool then Ret true else
  match events with
  | [] => await (λ _, None)
  | MessageToServer write :: events =>
      let! maybe_msg := to_server_recv in
      match maybe_msg with
      | None => update_queue_depth ;;! Ret false
      | Some msg =>
          update_queue_depth ;;!
          let! outcome := write_child msg write in
          match outcome with
          | Err e =>
              lock_ (set_failed e "write failure") ;;!
              publish_status ;;!
              Ret true
          | Ok _ => monitor events
          end
      end
  | ChildExit exit :: _ =>
      (* the guard of the error branch lives to the end of its match arm *)
      match exit with
      | WaitError e => lock_ (set_failed e "wait error")
      | Exited | JoinError => Ret tt
      end ;;!
      publish_status ;;!
      Ret true
  | HeartbeatRestart :: _ =>
      let! reason := await (λ w, match heartbeat_restarts w with
                                 | r :: q => Some (w <| heartbeat_restarts := q |>, r)
                                 | [] => None
                                 end) in
      lock_ (set_failed reason reason) ;;!
      publish_status ;;!
      Ret true
  | MonitorShutdown :: _ =>
      await (λ w, if shutdown w then Some (w, true) else None)
  end.

(** [sleep(d).await]. *)
Definition sleep (d : N) : proc World unit :=
  let! deadline := act (λ w, (w <| slept ::= λ l, l ++ [d] |>, now w + d)%N) in
  await (λ w, if (deadline <=? now w)%N then Some (w, tt) else None).

(** The [max_restarts] branch: [publish_status] is called with the guard [st] alive,
    which is released at the end of the branch. *)
Definition give_up_restarting : proc World unit :=
  locked (λ w, (w <| st ::= λ s, set_failed "max restarts reached" "max restarts reached" s
                              <| child_pid := None |> |>
                  <| lock_held := true |>, tt)) ;;!
  publish_status ;;!
  act (λ w, (w <| lock_held := false |>, tt)).

(** The clean-up after the monitor loop, on the fields of the state. *)
Definition settle (stopped : bool) (s : MuxState) : MuxState :=
  let s := s <| cached_initialize := None |> <| initializing := false |>
             <| child_pid := None |> in
  if stopped then s <| server_status := ServerStatus.Stopped |>
  else s <| server_status := ServerStatus.Restarting |>
         <| restarts ::= λ r, u64_saturating_add r 1 |>.

(** From the spawned child to the decision to restart. *)
Definition run_child (first_msg : option Value) (inc : Incarnation) (pid : option N) :
    proc World bool :=
  lock_ (λ s, s <| server_status := ServerStatus.Running |> <| child_pid := pid |>) ;;!
  publish_status ;;!
  match first_msg with
  | Some msg => write_child msg (first_write inc) ;;! Ret tt
  | None => Ret tt
  end ;;!
  let! should_restart := monitor (wakeups inc) in
  act (λ w, (w <| server_events ::= λ q,
                   q ++ [ServerEvent.Reset "MCP server restarted"] |>, tt)) ;;!
  locked (λ w, (w <| st ::= settle (shutdown w || negb should_restart) |>, tt)) ;;!
  update_queue_depth ;;!
  publish_status ;;!
  let! cancelled := is_cancelled in
  Ret (negb (cancelled || negb should_restart)).

(** The lazy start: [None] when the loop must end, else the message to write first.
    When the token is cancelled the loop ends whichever branch of the [select!] won. *)
Definition lazy_first (config : ServerManagerConfig) (restarts : N) :
    proc World (option (option Value)) :=
  if sm_lazy_start config && (restarts =? 0)%N then
    let! first := await (λ w,
      if shutdown w then Some (w, None) else
      match to_server w with
      | v :: q => Some (w <| to_server := q |>, Some v)
      | [] => None
      end) in
    let! cancelled := is_cancelled in
    if cancelled : bool then Ret None else
    match first with
    | Some msg => update_queue_depth ;;! Ret (Some (Some msg))
    | None => Ret None
    end
  else Ret (Some None).

(** The loop of [server_manager], on the incarnations of the child; it is still
    running when they are exhausted. *)
Fixpoint manager_loop (config : ServerManagerConfig) (backoff restarts : N)
    (incs : list Incarnation) : proc World (result string unit) :=
  let! cancelled := is_cancelled in
  if cancelled : bool then Ret (Ok tt) else
  let! first := lazy_first config restarts in
  match first with
  | None => Ret (Ok tt)
  | Some first_msg =>
      if (0 <? sm_max_restarts config)%N && (sm_max_restarts config <=? restarts)%N then
        give_up_restarting ;;! Ret (Ok tt)
      else match incs with
      | [] => await (λ _, None)
      | inc :: incs =>
          match spawn inc with
          | Err _ => Ret (Err "failed to spawn MCP server")
          | Ok pid =>
              let! restart := run_child first_msg inc pid in
              if restart : bool then
                sleep backoff ;;!
                manager_loop config
                  (N.min (backoff * 2) (sm_restart_backoff_max config))
                  (u64_saturating_add restarts 1) incs
              else Ret (Ok tt)
          end
      end
  end.

(** The receivers of the manager are dropped when it returns. *)
Definition server_manager (config : ServerManagerConfig) (incs : list Incarnation) :
    proc World (result string unit) :=
  let! res := manager_loop config (sm_restart_backoff config) 0 incs in
  act (λ w, (w <| to_server_open := false |>, tt)) ;;!
  Ret res.
End server.

(** ** Delivery *)
Section delivery.
Context `{Platform}.

Lemma fold_send_to_clients (l : list (N * TxHandle)) msg w :
  (∀ kv, kv ∈ l → clients (st w) !! kv.1 = Some kv.2) →
  fold_left (λ w kv, send_to kv.2 msg w) l w =
  fold_left (λ w kv, send_client kv.1 msg w) l w.
Proof.
  revert w. induction l as [|kv l IH]; intros w Hl; [done|]. simpl.
  assert (clients (st w) !! kv.1 = Some kv.2) as E by (apply Hl, elem_of_cons; by left).
  rewrite IH; [|intros kv' Hin; rewrite send_to_st; apply Hl, elem_of_cons; by right].
  f_equal. unfold send_client. by rewrite E.
Qed.

(** How often a client occurs in the client map's iteration: once. *)
Lemma hash_iter_key {V} (m : gmap N V) k v :
  m !! k = Some v → retain (λ kv, (kv.1 =? k)%N) (hash_iter m) = [(k, v)].
Proof.
  intros Hk.
  assert (NoDup (hash_iter m).*1) as Hnd.
  { rewrite hash_iter_perm. apply NoDup_fst_map_to_list. }
  assert ((k, v) ∈ hash_iter m) as Hin by by apply hash_iter_elem.
  induction (hash_iter m) as [|[k' v'] l IH]; [by apply elem_of_nil in Hin|].
  apply NoDup_cons in Hnd as [Hni Hnd]. simpl.
  destruct (N.eqb_spec k' k) as [->|Hne].
  - apply elem_of_cons in Hin as [[= <-]|Hin].
    + f_equal. apply retain_none. intros [k2 v2] Hin2. apply N.eqb_neq. simpl. intros ->.
      apply Hni, list_elem_of_fmap. by exists (k, v2).
    + destruct Hni. apply list_elem_of_fmap. by exists (k, v).
  - apply IH; [done|]. apply elem_of_cons in Hin as [[= ? ?]|?]; [by subst|done].
Qed.

Lemma broadcast_delivered msg w c :
  connected c w → delivered c (broadcast msg w) = delivered c w ++ [msg].
Proof.
  intros Hc. unfold broadcast.
  rewrite fold_send_to_clients by (intros [k v]; apply hash_iter_elem).
  destruct (fold_send_delivered fst (λ _, msg) (hash_iter (clients (st w))) c w Hc) as [_ ->].
  destruct Hc as (tx & o & q & Hc & _). by rewrite (hash_iter_key _ _ _ Hc).
Qed.

Lemma broadcast_st msg w : st (broadcast msg w) = st w.
Proof.
  unfold broadcast. generalize (hash_iter (clients (st w))). intros l.
  revert w. induction l as [|kv l IH]; intros w; [done|]. simpl. by rewrite IH, send_to_st.
Qed.

Lemma connected_ext c w w' :
  clients (st w') = clients (st w) → chans w' = chans w → connected c w → connected c w'.
Proof. unfold connected. by intros -> ->. Qed.

Lemma delivered_ext c w w' :
  clients (st w') = clients (st w) → chans w' = chans w → delivered c w' = delivered c w.
Proof. unfold delivered. by intros -> ->. Qed.

Lemma connected_publish c w : connected c w → connected c (publish w).
Proof. destruct (publish_fields w) as (E & _ & E' & _). apply connected_ext; by rewrite ?E. Qed.

Lemma delivered_publish c w : delivered c (publish w) = delivered c w.
Proof. destruct (publish_fields w) as (E & _ & E' & _). apply delivered_ext; by rewrite ?E. Qed.

(** [send_to] through the looked up sender is [send_client]. *)
Lemma send_to_client c tx v w :
  clients (st w) !! c = Some tx → send_to tx v w = send_client c v w.
Proof. unfold send_client. by intros ->. Qed.
End delivery.

(** ** Properties *)
Section properties.
Context `{Platform}.

(** The part of [handle_server_message] behind the lookup of the pending entry. *)
Lemma run_response msg gid p w :
  lock_held w = false → value_get "id" msg = Some (JString gid) →
  pending (st w) !! gid = Some p → connected (p_client_id p) w →
  ∃ w1, run (handle_server_message msg) w = Some (publish (send_client (p_client_id p)
          (set_id msg (p_local_id p)) w1), Ok tt) ∧
    w1 = (let w0 := w <| st ::= λ s, s <| pending ::= delete gid |> |> in
          if p_is_initialize p then cache_section msg w0 else w0).
Proof.
  intros Hl Hid Hp Hc. unfold handle_server_message. rewrite Hid. cbn [is_null id_string as_str opt_or].
  rewrite run_bind, run_lock by done. cbn [take_pending fst snd]. rewrite Hp.
  eexists. split; [|reflexivity]. cbn zeta.
  match goal with |- context [run _ ?w] => set (w0 := w) end.
  assert (lock_held w0 = false ∧ connected (p_client_id p) w0) as [Hl0 Hc0].
  { split; [done|]. by apply (connected_ext _ w). }
  set (w1 := if p_is_initialize p then cache_section msg w0 else w0).
  assert (run (if p_is_initialize p then locked (λ w, (cache_section msg w, tt)) else Ret tt) w0
    = Some (w1, tt)) as Hr1.
  { subst w1. destruct (p_is_initialize p); [by rewrite run_locked|done]. }
  assert (lock_held w1 = false ∧ connected (p_client_id p) w1) as [Hl1 Hc1].
  { subst w1. destruct (p_is_initialize p); [|done]. unfold cache_section.
    match goal with |- context [fold_left _ ?l ?w] =>
      set (w2 := w); destruct (fold_send_delivered fst (λ cv, set_id msg cv.2) l
        (p_client_id p) w2) as [? _]; [by apply (connected_ext _ w0)|] end.
    split; [|done]. by rewrite fold_send_lock. }
  rewrite run_bind, Hr1. rewrite run_bind, run_lock by done. cbn [fst snd].
  assert (Hw1 : w1 <| st := st w1 |> = w1) by (by destruct w1).
  destruct Hc1 as (tx & o & q & Hcl & Hrest). rewrite Hcl, Hw1.
  rewrite run_bind, run_act, run_bind, run_publish_status.
  - cbn [run]. by rewrite (send_to_client (p_client_id p)).
  - by destruct (send_to_fields tx (set_id msg (p_local_id p)) w1) as [-> _].
Qed.

(** C5: A response goes to the client that asked, once, under the identifier the client
    had used; its entry is removed and no other client hears of it. *)
Theorem response_routed_to_its_client msg gid p w :
  lock_held w = false → value_get "id" msg = Some (JString gid) →
  pending (st w) !! gid = Some p → p_is_initialize p = false → connected (p_client_id p) w →
  ∃ w', run (handle_server_message msg) w = Some (w', Ok tt) ∧
    delivered (p_client_id p) w' = delivered (p_client_id p) w ++ [set_id msg (p_local_id p)] ∧
    value_get "id" (set_id msg (p_local_id p)) = Some (p_local_id p) ∧
    pending (st w') = delete gid (pending (st w)) ∧
    (∀ c, connected c w → c ≠ p_client_id p → delivered c w' = delivered c w).
Proof.
  intros Hl Hid Hp Hi Hc. destruct (run_response msg gid p w) as (w1 & Hr & ->); [done..|].
  rewrite Hi in Hr. cbn zeta in Hr.
  match type of Hr with context [send_client _ _ ?w] => set (w0 := w) in * end.
  assert (∀ c, connected c w → connected c w0) as Hc0 by (intros c; by apply connected_ext).
  eexists. split; [exact Hr|]. destruct (value_get_is_object _ _ _ Hid) as [m Hm].
  destruct (publish_fields (send_client (p_client_id p) (set_id msg (p_local_id p)) w0)) as [-> _].
  rewrite delivered_publish, send_client_delivered, send_client_st by auto.
  split_and!; [done|by apply (set_id_get _ _ m)|done|].
  intros c Hcc Hne. by rewrite delivered_publish, send_client_delivered_ne by auto.
Qed.

(** The answer to [initialize] is kept for later clients, and every client that was
    waiting for it, the one that asked included, gets it under its own identifier. *)
Theorem initialize_response_cached msg gid p w c :
  lock_held w = false → value_get "id" msg = Some (JString gid) →
  pending (st w) !! gid = Some p → p_is_initialize p = true →
  connected (p_client_id p) w → connected c w →
  ∃ w', run (handle_server_message msg) w = Some (w', Ok tt) ∧
    cached_initialize (st w') = Some msg ∧ initializing (st w') = false ∧
    init_waiting (st w') = [] ∧ pending (st w') = delete gid (pending (st w)) ∧
    delivered c w' = delivered c w ++
      ((λ cv, set_id msg cv.2) <$> retain (λ cv, (cv.1 =? c)%N) (init_waiting (st w))) ++
      (if (p_client_id p =? c)%N then [set_id msg (p_local_id p)] else []).
Proof.
  intros Hl Hid Hp Hi Hc Hcc. destruct (run_response msg gid p w) as (w1 & Hr & ->); [done..|].
  rewrite Hi in Hr. cbn zeta in Hr. unfold cache_section in Hr.
  match type of Hr with context [fold_left _ ?l ?w] => set (w0 := w) in * end.
  match type of Hr with context [send_client _ _ ?w] => set (w1 := w) in * end.
  destruct (fold_send_delivered fst (λ cv, set_id msg cv.2) (init_waiting (st w)) c w0) as [Hc1 Hd1];
    [by apply (connected_ext _ w)|].
  change (fold_left _ (init_waiting (st w)) w0) with w1 in Hc1, Hd1.
  assert (st w1 = st w0) as Hst by (subst w1; by rewrite fold_send_st).
  eexists. split; [exact Hr|].
  destruct (publish_fields (send_client (p_client_id p) (set_id msg (p_local_id p)) w1)) as [-> _].
  rewrite send_client_st, Hst, delivered_publish. split_and!; try done.
  rewrite app_assoc. rewrite (delivered_ext c w w0) in Hd1 by done. rewrite <- Hd1.
  destruct (N.eqb_spec (p_client_id p) c) as [->|Hne].
  - by rewrite send_client_delivered.
  - by rewrite send_client_delivered_ne, app_nil_r.
Qed.

(** A notification, or a response with a null identifier, reaches every connected
    client exactly once and changes nothing in the mux. *)
Theorem notification_broadcast msg c w :
  lock_held w = false → connected c w →
  match value_get "id" msg with None => True | Some v => v = JNull end →
  ∃ w', run (handle_server_message msg) w = Some (w', Ok tt) ∧
    delivered c w' = delivered c w ++ [msg] ∧ st w' = st w.
Proof.
  intros Hl Hc Hid. exists (broadcast msg w).
  rewrite broadcast_delivered, broadcast_st by done. split; [|done].
  unfold handle_server_message.
  destruct (value_get "id" msg) as [v|]; [subst v; cbn [is_null]|];
    by rewrite run_bind, run_locked by done.
Qed.

(** The reaper removes exactly the requests older than the timeout, and each of them
    is answered with an error under the client's identifier. *)
Theorem reaper_expires_exactly_the_old c w :
  lock_held w = false → connected c w →
  ∃ w', run reap_tick w = Some (w', tt) ∧
    (∀ gid p, pending (st w') !! gid = Some p ↔
       pending (st w) !! gid = Some p ∧ (now w - p_started_at p ≤ request_timeout (st w))%N) ∧
    ∃ expired, delivered c w' = delivered c w ++ expired ∧
      expired ≡ₚ (λ kp, error_response (p_local_id kp.2) "request timeout") <$>
        retain (λ kp, (p_client_id kp.2 =? c)%N)
          (retain (λ kp, expired_at (now w) (request_timeout (st w)) kp.2)
             (map_to_list (pending (st w)))).
Proof.
  intros Hl Hc. unfold reap_tick. rewrite run_bind, run_lock by done. cbn [fst snd].
  replace (w <| st := st w |>) with w by (by destruct w).
  rewrite run_bind, run_locked by done. unfold reap_section.
  set (t := request_timeout (st w)).
  set (dropped := retain (λ kp : string * Pending, expired_at (now w) t kp.2) (hash_iter (pending (st w)))).
  set (expired := (λ kp : string * Pending, (p_client_id kp.2, p_local_id kp.2)) <$> dropped).
  match goal with |- context [bind _ _] => idtac end.
  match goal with |- context [run _ ?w] => set (w1 := w) end.
  set (w2 := fold_left (λ w cv, send_client cv.1 (error_response cv.2 "request timeout") w) expired w1).
  assert (run (if negb (bool_decide (length expired = 0%nat)) then
     locked (λ w, (fold_left (λ w cv, send_client cv.1 (error_response cv.2 "request timeout") w)
       expired w, tt)) else Ret tt) w1 = Some (w2, tt)) as Hr.
  { case_bool_decide as E; simpl negb; cbn iota; [|by rewrite run_locked].
    subst w2. apply length_zero_iff_nil in E. by rewrite E. }
  rewrite run_bind, Hr, run_publish_status by (subst w2; by rewrite fold_send_lock).
  eexists. split; [done|].
  destruct (fold_send_delivered fst (λ cv, error_response cv.2 "request timeout") expired c w1) as [_ Hd];
    [by apply (connected_ext _ w)|]. fold w2 in Hd.
  destruct (publish_fields w2) as [-> _]. rewrite delivered_publish, Hd.
  rewrite (delivered_ext c w w1) by done.
  assert (st w2 = st w1) as -> by (subst w2; by rewrite fold_send_st).
  split.
  - intros gid p. subst w1. simpl. rewrite map_lookup_filter_Some. simpl.
    unfold expired_at. by rewrite N.ltb_ge.
  - eexists. split; [done|]. subst expired dropped. rewrite retain_fmap. rewrite <- list_fmap_compose.
    by rewrite hash_iter_perm.
Qed.

(** C9: The reset event that announces a restart leaves no request without an answer: the
    router sees to it that every pending request and every waiting [initialize] gets an
    error under its own identifier, exactly once, and the state forgets them. *)
Theorem reset_answers_everything reason c w :
  lock_held w = false → connected c w →
  ∃ w' answers, run (route_event (ServerEvent.Reset reason)) w = Some (w', tt) ∧
    pending (st w') = ∅ ∧ init_waiting (st w') = [] ∧ cached_initialize (st w') = None ∧
    initializing (st w') = false ∧ last_reset (st w') = Some reason ∧
    delivered c w' = delivered c w ++ answers ∧
    answers ≡ₚ
      ((λ kp, error_response (p_local_id kp.2) reason) <$>
        retain (λ kp, (p_client_id kp.2 =? c)%N) (map_to_list (pending (st w)))) ++
      ((λ cv, error_response cv.2 reason) <$>
        retain (λ cv, (cv.1 =? c)%N) (init_waiting (st w))).
Proof.
  intros Hl Hc. cbn [route_event]. unfold reset_state. rewrite run_bind, run_locked by done.
  unfold reset_section.
  set (w0 := w <| st ::= reset_fields reason |>).
  set (w1 := fold_left _ (hash_iter (pending (st w))) w0).
  set (w2 := fold_left _ (init_waiting (st w)) w1).
  destruct (fold_send_delivered (λ kp : string * Pending, p_client_id kp.2)
    (λ kp, error_response (p_local_id kp.2) reason) (hash_iter (pending (st w))) c w0) as [Hc1 Hd1];
    [by apply (connected_ext _ w)|]. fold w1 in Hc1, Hd1.
  destruct (fold_send_delivered fst (λ cv, error_response cv.2 reason)
    (init_waiting (st w)) c w1 Hc1) as [_ Hd2]. fold w2 in Hd2.
  assert (st w2 = reset_fields reason (st w)) as Hst
    by (subst w2 w1; by rewrite !fold_send_st).
  rewrite run_publish_status by (subst w2 w1; by rewrite !fold_send_lock).
  do 2 eexists. split; [done|]. destruct (publish_fields w2) as [-> _].
  rewrite Hst, delivered_publish, Hd2, Hd1, (delivered_ext c w w0), <- app_assoc by done.
  split_and!; [done..|]. by rewrite hash_iter_perm.
Qed.

End properties.
