(* ===== verification/MuxManager.v ===== *)
(** * MuxManager: the restart discipline of [server_manager]

    The delays between the incarnations of the child, in every execution, and what
    happens when the manager gives up. *)
From S2P Require Import Prelude Text Json Proc Shared MuxState MuxWorld MuxClient MuxServer.

(** ** The delays *)

(** The first [k] delays when the first one is [b]: each doubles the one before, up to
    [max]. *)
Fixpoint backoffs (b max : N) (k : nat) : list N :=
  match k with
  | O => []
  | S k => b :: backoffs (N.min (b * 2) max) max k
  end.

Lemma backoffs_nth b max k i :
  (b ≤ max)%N → (i < k)%nat → backoffs b max k !! i = Some (N.min (b * 2 ^ N.of_nat i) max).
Proof.
  revert b i. induction k as [|k IH]; intros b [|i] Hb Hi; [lia..| |]; cbn [backoffs lookup list_lookup].
  - change (N.of_nat 0) with 0%N. by rewrite N.pow_0_r, N.mul_1_r, N.min_l.
  - rewrite IH by lia. f_equal. rewrite Nat2N.inj_succ, N.pow_succ_r'.
    destruct (N.le_gt_cases (b * 2) max).
    + rewrite (N.min_l (b * 2)) by lia. by rewrite N.mul_assoc.
    + rewrite (N.min_r (b * 2)) by lia.
      assert (1 ≤ 2 ^ N.of_nat i)%N by (apply N.lt_pred_le, N.neq_0_lt_0; by apply N.pow_nonzero).
      assert (max * 1 ≤ max * 2 ^ N.of_nat i)%N by (by apply N.mul_le_mono_l).
      assert (b * 2 * 1 ≤ b * 2 * 2 ^ N.of_nat i)%N by (by apply N.mul_le_mono_l).
      rewrite N.mul_assoc. rewrite !N.min_r by lia. done.
Qed.

#[local] Instance true_preorder : PreOrder (λ _ _ : World, True).
Proof. by split. Qed.

Section schedule.
Context `{Platform}.

(** A task that leaves [slept] alone, whatever its surroundings do to the rest. *)
Definition keeps_slept {A} (p : proc World A) : Prop :=
  ∀ B l w, safe B (λ _ w, slept w = l) (λ _ _, True) w p.

Lemma keeps_bind {A C} (p : proc World A) (k : A → proc World C) :
  keeps_slept p → (∀ a, keeps_slept (k a)) → keeps_slept (bind p k).
Proof. intros Hp Hk B l w. apply safe_bind; [tc_solve|apply Hp|]. intros w' a _. apply Hk. Qed.

Lemma keeps_await {A} (f : World → option (World * A)) :
  (∀ w w' a, f w = Some (w', a) → slept w' = slept w) → keeps_slept (await f).
Proof. intros Hf B l w. apply safe_await. intros n w1 w2 a _ _ <- E. by apply Hf in E. Qed.

Lemma keeps_ret {A} (a : A) : keeps_slept (Ret a).
Proof. intros B l w. constructor. Qed.

Lemma keeps_locked {A} (f : World → World * A) :
  (∀ w, slept (f w).1 = slept w) → keeps_slept (locked f).
Proof.
  intros Hf. apply keeps_await. intros w w' a. case_match; [done|].
  intros [= E]. by rewrite <- (Hf w), E.
Qed.

Lemma keeps_act {A} (f : World → World * A) :
  (∀ w, slept (f w).1 = slept w) → keeps_slept (act f).
Proof. intros Hf. apply keeps_await. intros w w' a [= E]. by rewrite <- (Hf w), E. Qed.

Lemma keeps_lock_ f : keeps_slept (lock_ f).
Proof. by apply keeps_locked. Qed.

Lemma keeps_publish_status : keeps_slept publish_status.
Proof.
  apply keeps_bind; [|intros a; by apply keeps_act].
  apply keeps_locked. intros w. simpl. by case_match.
Qed.

Lemma keeps_update_queue_depth : keeps_slept update_queue_depth.
Proof. by apply keeps_locked. Qed.

Lemma keeps_never {A} : keeps_slept (await (λ _ : World, @None (World * A))).
Proof. by apply keeps_await. Qed.

Lemma keeps_is_cancelled : keeps_slept is_cancelled.
Proof. by apply keeps_act. Qed.

Lemma keeps_write_child v o : keeps_slept (write_child v o).
Proof. apply keeps_act. intros w. simpl. by case_match. Qed.

Hint Resolve @keeps_ret keeps_lock_ keeps_publish_status keeps_update_queue_depth
  @keeps_never keeps_is_cancelled keeps_write_child : operator.

Ltac keeps_steps :=
  repeat first
    [ solve [eauto with operator]
    | apply keeps_bind; [|intros ?]
    | case_match
    | apply keeps_await; intros ? ? ? ?; simplify_eq/=; split_matches ].

Lemma keeps_monitor evs : keeps_slept (monitor evs).
Proof. induction evs as [|ev evs IH]; cbn [monitor]; keeps_steps. Qed.

Lemma keeps_run_child first inc pid : keeps_slept (run_child first inc pid).
Proof.
  unfold run_child. pose proof keeps_monitor. keeps_steps.
Qed.

Lemma keeps_lazy_first config restarts : keeps_slept (lazy_first config restarts).
Proof. unfold lazy_first. keeps_steps. Qed.

Lemma keeps_give_up : keeps_slept give_up_restarting.
Proof. unfold give_up_restarting. keeps_steps. Qed.
End schedule.

Section delays.
Context `{Platform} (env : World → World → Prop).
Context (env_slept : ∀ w w', env w w' → slept w' = slept w).

Lemma exec_keeps {A} (p : proc World A) n w w' a :
  keeps_slept p → exec env n p w w' a → slept w' = slept w.
Proof using env_slept.
  intros Hp He.
  destruct (exec_safe env (N.of_nat (S n)) (λ _ v, slept v = slept w) (λ _ _, True)
    ltac:(intros ? ? ? _ <- ?; split; [by apply env_slept|done]) p 0 n w w' a) as [? _];
    [lia|done|apply Hp|done|done].
Qed.

Lemma exec_sleep n d w w' a : exec env n (sleep d) w w' a → slept w' = slept w ++ [d].
Proof using env_slept.
  intros (n1 & n2 & w1 & t & _ & H1 & H2)%exec_bind_inv.
  assert (slept w1 = slept w ++ [d]) as <-.
  { clear H2. remember (act _) as p eqn:Hp. induction H1 as [|? ? ? ? ? ? Hw _ IH|? f ? w2 p' ? ? Hf Hx].
    - done.
    - rewrite IH by done. by rewrite (env_slept _ _ Hw).
    - injection Hp as ->. injection Hf as <- <-. 
      by rewrite (exec_keeps _ _ _ _ _ (keeps_ret _) Hx). }
  eapply exec_keeps; [|exact H2]. apply keeps_await. intros ? ? ? ?. split_matches.
Qed.

(** The delays waited from [l] to [l'], by a loop that enters with [backoff] and
    [restarts] and has [len] incarnations at most. *)
Definition delayed (config : ServerManagerConfig) (backoff restarts : N) (len : nat)
    (l l' : list N) : Prop :=
  ∃ k, l' = l ++ backoffs backoff (sm_restart_backoff_max config) k ∧ (k ≤ len)%nat ∧
    ((0 < sm_max_restarts config)%N → (restarts ≤ sm_max_restarts config)%N →
     (N.of_nat k + restarts ≤ sm_max_restarts config)%N).

Lemma delayed_none config backoff restarts len l l' :
  l' = l → delayed config backoff restarts len l l'.
Proof using. intros ->. exists 0%nat. rewrite app_nil_r. split_and!; [done|lia..]. Qed.

(** The ends of the loop wait for nothing. *)
Ltac ends_here He :=
  apply delayed_none; refine (exec_keeps _ _ _ _ _ _ He);
  repeat first [ apply keeps_ret | apply keeps_never | apply keeps_give_up
               | apply keeps_bind; [|intros ?] ].
(** The next part of the loop waits for nothing either. *)
Ltac part_keeps He lem :=
  let E := fresh in
  apply exec_bind_inv in He as (? & ? & ? & ? & _ & E & He);
  apply (exec_keeps _ _ _ _ _ lem) in E; rewrite <- E; clear E.

Lemma manager_loop_delays config incs backoff restarts n w w' a :
  (sm_max_restarts config ≤ U64_MAX)%N →
  exec env n (manager_loop config backoff restarts incs) w w' a →
  delayed config backoff restarts (length incs) (slept w) (slept w').
Proof using env_slept.
  intros Hmax. revert backoff restarts n w.
  induction incs as [|inc incs IH]; intros backoff restarts n w He; cbn [manager_loop] in He.
  all: part_keeps He keeps_is_cancelled; case_match; [ends_here He|].
  all: part_keeps He (keeps_lazy_first config restarts); case_match; [|ends_here He].
  all: destruct ((0 <? sm_max_restarts config)%N && _) eqn:Hgive; [ends_here He|].
  { ends_here He. }
  destruct (spawn inc) as [pid|]; [|ends_here He].
  part_keeps He (keeps_run_child o inc pid); case_match; [|ends_here He].
  apply exec_bind_inv in He as (n7 & n8 & w4 & [] & _ & E1 & He).
  apply exec_sleep in E1. apply IH in He as (k & Hk & Hlen & Hle).
  exists (S k). rewrite Hk, E1, <- app_assoc. split_and!; [done|simpl; lia|].
  intros Hpos Hr. apply andb_false_iff in Hgive. rewrite N.ltb_ge, N.leb_gt in Hgive.
  rewrite u64_saturating_add_small in Hle by lia. lia.
Qed.

(** C27: In every execution of the server manager, whatever ended the child each time and
    whatever the other tasks did, the delays it waited are the start of the doubling
    schedule that begins with [restart_backoff], and there are never more of them
    than [max_restarts] when that limit is set. *)
Theorem manager_delays_follow_schedule config incs n w w' a :
  (sm_max_restarts config ≤ U64_MAX)%N →
  exec env n (server_manager config incs) w w' a →
  ∃ k, slept w' = slept w ++
         backoffs (sm_restart_backoff config) (sm_restart_backoff_max config) k ∧
    ((0 < sm_max_restarts config)%N → (N.of_nat k ≤ sm_max_restarts config)%N).
Proof using env_slept.
  intros Hmax He. unfold server_manager in He.
  apply exec_bind_inv in He as (n1 & n2 & w1 & r & _ & H1 & H2).
  apply (manager_loop_delays _ _ _ _ _ _ _ _ Hmax) in H1 as (k & Hk & _ & Hle).
  exists k. rewrite <- Hk. split.
  - eapply exec_keeps; [|exact H2]. apply keeps_bind; [by apply keeps_act|].
    intros. apply keeps_ret.
  - intros Hpos. specialize (Hle Hpos (N.le_0_l _)). lia.
Qed.
End delays.
