(* ===== verification/Heartbeat.v ===== *)
(** * Heartbeat: the health probe ([mux-agent/src/runtime/heartbeat.rs])

    The inspector task probes the MCP server, records the outcome and asks the server
    manager for a restart after [max_failures] consecutive failures. *)
From S2P Require Import Prelude Text Json Proc Shared MuxState MuxWorld.

Definition RESPONSE_TIME_SAMPLES : nat := 10.

Record HeartbeatConfig := mkHeartbeatConfig {
  hb_interval : N;
  hb_timeout : N;
  hb_max_failures : N;
  hb_enabled : bool;
}.
#[export] Instance HeartbeatConfig_eta : Eta HeartbeatConfig := fun r =>
  mkHeartbeatConfig (hb_interval r) (hb_timeout r) (hb_max_failures r) (hb_enabled r).

Definition HeartbeatConfig_default : HeartbeatConfig :=
  mkHeartbeatConfig (from_secs 30) (from_secs 30) 3 true.
Definition HeartbeatConfig_new (interval timeout : N) : HeartbeatConfig :=
  mkHeartbeatConfig interval timeout 3 true.
Definition HeartbeatConfig_disabled : HeartbeatConfig :=
  HeartbeatConfig_default <| hb_enabled := false |>.

(** A [oneshot] channel, by what its receiver finds. *)
Inductive Oneshot := Waiting | Fired | Closed.

(** [hb_pending] maps a probe to its start and its one-shot sender; the inspector is
    the only task that holds the senders. *)
Record HeartbeatState := mkHeartbeatState {
  response_times : list N;
  metrics : HeartbeatMetrics;
  hb_config : HeartbeatConfig;
  next_heartbeat_id : N;
  hb_pending : gmap string (N * N);
}.
#[export] Instance HeartbeatState_eta : Eta HeartbeatState := fun r =>
  mkHeartbeatState (response_times r) (metrics r) (hb_config r) (next_heartbeat_id r)
    (hb_pending r).

Definition HeartbeatState_new (c : HeartbeatConfig) : HeartbeatState :=
  mkHeartbeatState [] (HeartbeatMetrics_default <| enabled := hb_enabled c |>) c 1 ∅.

Definition next_id (hb : HeartbeatState) : HeartbeatState * string :=
  let id := next_heartbeat_id hb in
  (hb <| next_heartbeat_id := u64_add id 1 |>, "__heartbeat_" +:+ pretty id).

(** [iter().sum::<u64>()]. *)
Definition sum_u64 (l : list N) : N := foldl u64_add 0%N l.

(** [wall_ms] is the wall-clock time in milliseconds since the epoch. *)
Definition record_success (wall_ms response_time_ms : N) (hb : HeartbeatState) : HeartbeatState :=
  let times := response_times hb in
  let times := if (RESPONSE_TIME_SAMPLES <=? length times)%nat then tail times else times in
  let times := times ++ [response_time_ms] in
  let avg := (sum_u64 times / N.of_nat (length times))%N in
  hb <| response_times := times |>
     <| metrics ::= λ m,
          m <| last_heartbeat_ms := Some (as_u64 wall_ms) |>
            <| avg_response_ms := Some avg |>
            <| consecutive_failures := 0%N |>
            <| total_success ::= λ n, u64_add n 1 |> |>.

Definition record_failure (hb : HeartbeatState) : HeartbeatState :=
  hb <| metrics ::= λ m,
          m <| consecutive_failures ::= λ n, u32_add n 1 |>
            <| total_failures ::= λ n, u64_add n 1 |> |>.

Definition should_restart (hb : HeartbeatState) : bool :=
  (hb_max_failures (hb_config hb) <=? consecutive_failures (metrics hb))%N.

Definition get_metrics (hb : HeartbeatState) : HeartbeatMetrics := metrics hb.

Definition probe (hb_id : string) : Value :=
  JObject (obj_of_list [
    ("jsonrpc", JString "2.0");
    ("id", JString hb_id);
    ("method", JString "ping");
    ("params", JObject [])]).

Definition restart_reason (failures : N) : string :=
  "heartbeat timeout (" +:+ pretty failures +:+ " consecutive failures)".

Section inspector.
Context `{Platform}.

Definition update_state_metrics (hb : HeartbeatState) : proc World unit :=
  lock_ (λ s, s <| heartbeat_metrics := get_metrics hb |>) ;;!
  publish_status.

Definition check_restart (hb : HeartbeatState) : proc World unit :=
  if should_restart hb then
    act (λ w, (w <| heartbeat_restarts ::= λ q,
                     q ++ [restart_reason (consecutive_failures (metrics hb))] |>, tt))
  else Ret tt.

(** Whether a probe is sent: the server runs and some client finished the handshake. *)
Definition probe_wanted (s : MuxState) : bool :=
  bool_decide (server_status s = ServerStatus.Running) && server_initialized s.

(** [timeout(config.timeout, response_rx).await]: [Some (Some t)] is a response,
    noticed at [t], [Some None] a dropped sender and [None] the timeout.  The state of
    the one-shot channel cannot change meanwhile: its sender is in [hb_pending]. *)
Definition wait_response (timeout : N) (o : Oneshot) : proc World (option (option N)) :=
  match o with
  | Fired => act (λ w, (w, Some (Some (now w))))
  | Closed => Ret (Some None)
  | Waiting =>
      let! deadline := act (λ w, (w, now w + timeout)%N) in
      await (λ w, if (deadline <=? now w)%N then Some (w, None) else None)
  end.

(** What wakes the inspector; a tick comes with the wall clock. *)
Inductive InspectorEvent :=
| HbShutdown
| HbTick (wall_ms : N)
| HbEvent.

(** The body of the tick branch, after the checks. *)
Definition tick_probe (wall_ms : N) (hb : HeartbeatState) (oneshots : gmap N Oneshot) :
    proc World (HeartbeatState * gmap N Oneshot) :=
  let '(hb, hb_id) := next_id hb in
  let! started_at := act (λ w, (w, now w)) in
  let chan := N.of_nat (size oneshots) in
  let oneshots := <[chan := Waiting]> oneshots in
  let hb := hb <| hb_pending ::= <[hb_id := (started_at, chan)]> |> in
  let! sent := to_server_send (probe hb_id) in
  match sent with
  | Err _ =>
      let hb := record_failure (hb <| hb_pending ::= delete hb_id |>) in
      update_state_metrics hb ;;!
      check_restart hb ;;!
      Ret (hb, <[chan := Closed]> oneshots)
  | Ok _ =>
      let! outcome := wait_response (hb_timeout (hb_config hb)) (default Closed (oneshots !! chan)) in
      let hb := hb <| hb_pending ::= delete hb_id |> in
      let hb := match outcome with
                | Some (Some t) => record_success wall_ms (as_u64 (as_millis (t - started_at))) hb
                | Some None => record_failure hb
                | None => record_failure hb
                end in
      update_state_metrics hb ;;!
      check_restart hb ;;!
      Ret (hb, oneshots)
  end.

(** The response branch: it fires the probe's one-shot channel. *)
Definition take_response (id : string) (hb : HeartbeatState) (oneshots : gmap N Oneshot) :
    HeartbeatState * gmap N Oneshot :=
  match hb_pending hb !! id with
  | Some (_, chan) => (hb <| hb_pending ::= delete id |>, <[chan := Fired]> oneshots)
  | None => (hb, oneshots)
  end.

Definition heartbeat_recv : proc World HeartbeatEvent.HeartbeatEvent :=
  await (λ w, match heartbeat_events w with
              | e :: q => Some (w <| heartbeat_events := q |>, e)
              | [] => None
              end).

(** The loop of the inspector on the events that wake it. *)
Fixpoint inspector_loop (events : list InspectorEvent) (hb : HeartbeatState)
    (oneshots : gmap N Oneshot) : proc World unit :=
  match events with
  | [] => await (λ _, None)
  | HbShutdown :: _ => await (λ w, if shutdown w then Some (w, tt) else None)
  | HbTick wall_ms :: events =>
      let! wanted := lock (λ s, (s, probe_wanted s)) in
      if negb wanted then inspector_loop events hb oneshots
      else let! r := tick_probe wall_ms hb oneshots in
           inspector_loop events r.1 r.2
  | HbEvent :: events =>
      let! event := heartbeat_recv in
      match event with
      | HeartbeatEvent.Response id =>
          let r := take_response id hb oneshots in
          inspector_loop events r.1 r.2
      end
  end.

Definition spawn_heartbeat_inspector (c : HeartbeatConfig) (events : list InspectorEvent) :
    proc World unit :=
  if negb (hb_enabled c) then Ret tt
  else inspector_loop events (HeartbeatState_new c) ∅.
End inspector.

(** ** The counters *)

(** The last [k] elements of a list. *)
Definition last_n {A} (k : nat) (l : list A) : list A := drop (length l - k) l.

Lemma tail_drop {A} (l : list A) n : tail (drop n l) = drop (S n) l.
Proof. revert n. induction l as [|x l IH]; intros [|n]; simpl; [done..|]. apply IH. Qed.

Lemma last_n_app {A} k (l : list A) x :
  last_n (S k) (l ++ [x]) =
  (if (S k <=? length (last_n (S k) l))%nat then tail (last_n (S k) l) else last_n (S k) l) ++ [x].
Proof.
  unfold last_n. rewrite length_drop, length_app. cbn [length].
  destruct (Nat.leb_spec (S k) (length l - (length l - S k))) as [Hk|Hk].
  - rewrite tail_drop. replace (length l + 1 - S k) with (S (length l - S k)) by lia.
    apply drop_app_le. lia.
  - replace (length l + 1 - S k) with 0 by lia. replace (length l - S k) with 0 by lia. done.
Qed.

Lemma foldl_u64_add acc l :
  (acc + foldr N.add 0 l < U64_MODULUS)%N → foldl u64_add acc l = (acc + foldr N.add 0 l)%N.
Proof.
  revert acc. induction l as [|x l IH]; intros acc Hs; simpl in *; [lia|].
  rewrite u64_add_small by lia. rewrite IH by lia. lia.
Qed.

(** The state after a run of successful probes, given as (wall clock, response time). *)
Definition record_all (samples : list (N * N)) (hb : HeartbeatState) : HeartbeatState :=
  foldl (λ hb s, record_success s.1 s.2 hb) hb samples.

Lemma record_all_window c samples :
  response_times (record_all samples (HeartbeatState_new c)) =
  last_n RESPONSE_TIME_SAMPLES (samples.*2).
Proof.
  induction samples as [|s samples IH] using rev_ind; [done|].
  unfold record_all. rewrite foldl_app. simpl. fold (record_all samples (HeartbeatState_new c)).
  rewrite IH, fmap_app. cbn [fmap list_fmap]. exact (eq_sym (last_n_app 9 _ _)).
Qed.

(** The reported average response time is the mean, rounded down, of the last ten
    responses (of all of them when there are fewer), and no response older than that
    is remembered. *)
Theorem average_over_last_ten c samples wall ms :
  let window := last_n RESPONSE_TIME_SAMPLES (samples.*2 ++ [ms]) in
  let hb := record_all (samples ++ [(wall, ms)]) (HeartbeatState_new c) in
  (foldr N.add 0 window < U64_MODULUS)%N →
  response_times hb = window ∧ (length window ≤ RESPONSE_TIME_SAMPLES)%nat ∧
  avg_response_ms (metrics hb) =
    Some (foldr N.add 0 window / N.of_nat (length window))%N ∧
  consecutive_failures (metrics hb) = 0%N.
Proof.
  intros window hb Hs.
  assert (response_times hb = window) as Hw.
  { unfold hb, window. rewrite record_all_window, fmap_app. done. }
  split; [done|]. split; [unfold window, last_n; rewrite length_drop; lia|].
  assert (hb = record_success wall ms (record_all samples (HeartbeatState_new c))) as Hhb
    by (unfold hb, record_all; by rewrite foldl_app).
  split; [|by rewrite Hhb].
  assert (avg_response_ms (metrics hb) =
    Some (sum_u64 (response_times hb) / N.of_nat (length (response_times hb)))%N) as ->
    by by rewrite Hhb.
  rewrite Hw. unfold sum_u64. by rewrite foldl_u64_add by lia.
Qed.

(** From its start or from the last success, the inspector asks for a restart exactly
    when [max_failures] probes in a row have failed. *)
Theorem restart_after_max_failures hb n :
  consecutive_failures (metrics hb) = 0%N → (N.of_nat n < U32_MODULUS)%N →
  should_restart (Nat.iter n record_failure hb) = true ↔
  (hb_max_failures (hb_config hb) ≤ N.of_nat n)%N.
Proof.
  intros H0 Hn.
  assert (consecutive_failures (metrics (Nat.iter n record_failure hb)) = N.of_nat n ∧
    hb_config (Nat.iter n record_failure hb) = hb_config hb) as [Hc Hcfg].
  { induction n as [|n IH]; [done|]. destruct IH as [IH ?]; [lia|].
    split; [|done]. simpl. rewrite IH. unfold u32_add. rewrite as_u32_small by lia. lia. }
  unfold should_restart. rewrite Hc, Hcfg. apply N.leb_le.
Qed.
