(* ===== verification/MuxDesk.v ===== *)
(** * MuxDesk: what a mux promises, without its tasks

    Seen from outside, a mux is a desk at which clients draw numbered tickets.  This file
    has the desk, the events that happen at it, what every sequence of them satisfies, and
    when the state of [MuxState] shows a given desk.  [MuxSystem] proves that the tasks of
    a mux, in every interleaving, do nothing that is not such a sequence. *)
From S2P Require Import Prelude Text Json MuxState MuxWorld MuxClient.
From stdpp Require Import gmap sets fin_maps fin_sets.

(** ** The desk *)

(** A request that waits for the server: the identifier its client gave it, and whether
    it is the [initialize] that opens the client's session. *)
Record Ticket := mkTicket { local : Value; opening : bool }.
#[export] Instance Ticket_eq_dec : EqDecision Ticket.
Proof. solve_decision. Defined.

(** Tickets are filed under the client that holds them and their serial number. *)
Record Desk := mkDesk {
  next_visitor : N;
  next_serial : N;
  greeting : gset N;
  filed : gmap (N * N) Ticket;
}.
#[export] Instance Desk_eta : Eta Desk := fun d =>
  mkDesk (next_visitor d) (next_serial d) (greeting d) (filed d).

Inductive DeskEvent :=
| Enter (c : N)
| Ready (c : N)
| Issue (ck : N * N) (t : Ticket)
| Settle (ck : N * N)
| Leave (c : N).
#[export] Instance DeskEvent_eq_dec : EqDecision DeskEvent.
Proof. solve_decision. Defined.

Definition desk_open : Desk := mkDesk 1 1 ∅ ∅.

(** Visitors and tickets are numbered in order; who is still being greeted can only ask
    for an opening; a ticket is settled at most once; who leaves has nothing filed. *)
Definition desk_step (e : DeskEvent) (d : Desk) : option Desk :=
  match e with
  | Enter c =>
      guard (c = next_visitor d) ;;
      Some (d <| next_visitor := (c + 1)%N |> <| greeting ::= λ g, {[c]} ∪ g |>)
  | Ready c => guard (c ∈ greeting d) ;; Some (d <| greeting ::= λ g, g ∖ {[c]} |>)
  | Issue ck t =>
      guard (ck.2 = next_serial d) ;; guard (1 ≤ ck.1 < next_visitor d)%N ;;
      guard (opening t = true ∨ ck.1 ∉ greeting d) ;;
      guard (N.of_nat (size (filed d)) < MAX_PENDING)%N ;;
      Some (d <| next_serial := (ck.2 + 1)%N |> <| filed ::= <[ck := t]> |>)
  | Settle ck =>
      guard (filed d !! ck ≠ None) ;; Some (d <| filed ::= delete ck |>)
  | Leave c =>
      guard (1 ≤ c < next_visitor d)%N ;;
      guard (map_Forall (λ ck _, ck.1 ≠ c) (filed d)) ;;
      Some (d <| greeting ::= λ g, g ∖ {[c]} |>)
  end.

Fixpoint desk_run (es : list DeskEvent) (d : Desk) : option Desk :=
  match es with
  | [] => Some d
  | e :: es => desk_step e d ≫= desk_run es
  end.

Lemma guard_Some P `{Decision P} {A} (o : option A) a :
  (guard P ;; o) = Some a ↔ P ∧ o = Some a.
Proof. case_guard; simpl; naive_solver. Qed.

Lemma desk_run_app es fs d : desk_run (es ++ fs) d = desk_run es d ≫= desk_run fs.
Proof.
  revert d. induction es as [|e es IH]; intros d; simpl; [done|].
  destruct (desk_step e d); simpl; [apply IH|done].
Qed.

Lemma desk_run_trans es fs d d' d'' :
  desk_run es d = Some d' → desk_run fs d' = Some d'' → desk_run (es ++ fs) d = Some d''.
Proof. intros H1 H2. by rewrite desk_run_app, H1. Qed.

(** What is filed can be settled, all of it or a part. *)
Lemma desk_settle d m :
  m ⊆ filed d → ∃ es, desk_run es d = Some (d <| filed := m |>).
Proof.
  intros Hm. assert (∀ x o, x ##ₘ o → ∃ es,
    desk_run es (d <| filed := x ∪ o |>) = Some (d <| filed := o |>)) as Hx.
  { intros x o. induction x as [|ck t x Hn IH] using map_ind; intros Hd.
    { exists []. by rewrite (left_id_L ∅ (∪)). }
    apply map_disjoint_insert_l in Hd as [Ho Hd]. destruct (IH Hd) as [es Hes].
    exists (Settle ck :: es). simpl. rewrite option_guard_True.
    2:{ simpl. rewrite lookup_union, lookup_insert_eq. by destruct (o !! ck). }
    simpl. cbn [mbind option_bind]. rewrite <- Hes. f_equal.
    unfold set_with. cbn. f_equal. rewrite delete_union, delete_insert_id by done.
    by rewrite (delete_id o). }
  destruct (Hx (filed d ∖ m) m) as [es Hes]; [by apply map_disjoint_difference_l1|].
  exists es. rewrite <- Hes. destruct d as [a b g f]. unfold set_with. cbn in *.
  do 2 f_equal. rewrite map_union_comm by by apply map_disjoint_difference_l1.
  by rewrite map_difference_union.
Qed.

(** ** What every sequence of events satisfies *)
Definition issued (es : list DeskEvent) : list N :=
  omap (λ e, match e with Issue ck _ => Some ck.2 | _ => None end) es.
Definition settled (es : list DeskEvent) : list (N * N) :=
  omap (λ e, match e with Settle ck => Some ck | _ => None end) es.

Lemma elem_of_issued k es : k ∈ issued es ↔ ∃ c t, Issue (c, k) t ∈ es.
Proof.
  unfold issued. rewrite list_elem_of_omap. split.
  - intros ([| |[c k'] t| |] & He & Hk); simplify_eq/=; eauto.
  - intros (c & t & He). by exists (Issue (c, k) t).
Qed.

Lemma elem_of_settled ck es : ck ∈ settled es ↔ Settle ck ∈ es.
Proof.
  unfold settled. rewrite list_elem_of_omap. split.
  - intros ([] & He & Hk); by simplify_eq/=.
  - intros He. by exists (Settle ck).
Qed.

(** What a desk remembers of the events since it was opened. *)
Record history (es : list DeskEvent) (d : Desk) : Prop := {
  hist_joined c : Enter c ∈ es ↔ (1 ≤ c < next_visitor d)%N;
  hist_greeting c : c ∈ greeting d ↔ Enter c ∈ es ∧ Ready c ∉ es ∧ Leave c ∉ es;
  hist_serial k : k ∈ issued es ↔ (1 ≤ k < next_serial d)%N;
  hist_issued : NoDup (issued es);
  hist_settled : NoDup (settled es);
  hist_filed ck t : filed d !! ck = Some t ↔ Issue ck t ∈ es ∧ Settle ck ∉ es;
  hist_known c : Ready c ∈ es ∨ Leave c ∈ es → Enter c ∈ es;
  hist_joined_first ck t : Issue ck t ∈ es → Enter ck.1 ∈ es;
  hist_issued_first ck : Settle ck ∈ es → ∃ t, Issue ck t ∈ es;
  hist_numbers : (1 ≤ next_visitor d)%N ∧ (1 ≤ next_serial d)%N;
  hist_size : (N.of_nat (size (filed d)) ≤ MAX_PENDING)%N;
}.

Lemma history_open : history [] desk_open.
Proof.
  split; simpl; try done; try (intros; set_solver by lia); try constructor; try lia.
Qed.

Lemma elem_of_snoc (e x : DeskEvent) es : x ∈ es ++ [e] ↔ x ∈ es ∨ x = e.
Proof. by rewrite elem_of_app, list_elem_of_singleton. Qed.

Lemma history_serials es d d' e :
  history es d → next_serial d' = next_serial d → issued [e] = [] →
  (∀ k, k ∈ issued (es ++ [e]) ↔ (1 ≤ k < next_serial d')%N) ∧ NoDup (issued (es ++ [e])).
Proof.
  intros [] Hn He. unfold issued in *. rewrite omap_app, He, app_nil_r, Hn. done.
Qed.

Lemma history_settled es d e :
  history es d → settled [e] = [] → NoDup (settled (es ++ [e])).
Proof. intros [] He. unfold settled in *. by rewrite omap_app, He, app_nil_r. Qed.

(** Events of another kind do not matter to what was there. *)
Lemma elem_of_snoc_ne (e x : DeskEvent) es : x ≠ e → x ∈ es ++ [e] ↔ x ∈ es.
Proof. rewrite elem_of_snoc. naive_solver. Qed.

Ltac snoc :=
  repeat match goal with
  | |- context [?x ∈ ?es ++ [?e]] => rewrite (elem_of_snoc_ne e x es) by discriminate
  | H : context [?x ∈ ?es ++ [?e]] |- _ => rewrite (elem_of_snoc_ne e x es) in H by discriminate
  | H : ?x ∈ ?es ++ [?e] |- _ => apply elem_of_snoc in H as [H|[= ->]]
  end.

Lemma history_join es d c d' :
  history es d → desk_step (Enter c) d = Some d' → history (es ++ [Enter c]) d'.
Proof.
  intros Hh. unfold desk_step. case_guard as Hc; simpl; [|done]. intros [= <-].
  destruct (history_serials es d (d <| next_visitor := (c + 1)%N |>) (Enter c) Hh) as [? ?]; [done..|].
  pose proof (history_settled es d (Enter c) Hh eq_refl). destruct Hh. subst c.
  split; intros; simpl in *; snoc; try done; rewrite ?elem_of_snoc.
  - rewrite hist_joined0. split; [intros [?|[= ->]]; lia|].
    destruct (decide (c = next_visitor d)) as [->|]; [by right|left; lia].
  - rewrite elem_of_union, elem_of_singleton, hist_greeting0.
    assert (Enter (next_visitor d) ∉ es) by (rewrite hist_joined0; lia).
    split; [intros [->|(?&?&?)]|intros ([?|[= ->]]&?&?)]; try tauto.
    split_and!; [by right|intros ?; naive_solver..].
  - left. eauto.
  - left. eauto.
  - destruct (hist_issued_first0 _ H2) as [t ?]. exists t. by snoc.
  - lia.
Qed.

Lemma history_greeted es d e c d' :
  history es d → Enter c ∈ es → (e = Ready c ∨ e = Leave c) →
  d' = d <| greeting ::= λ g, g ∖ {[c]} |> → history (es ++ [e]) d'.
Proof.
  intros Hh Hj He ->.
  destruct (history_serials es d (d <| greeting ::= λ g, g ∖ {[c]} |>) e Hh) as [? ?];
    [done|by destruct He as [->| ->]|].
  pose proof (history_settled es d e Hh ltac:(by destruct He as [->| ->])). destruct Hh.
  destruct He as [->| ->]; split; intros; simpl in *; snoc; try done; eauto.
  all: try by destruct H2; snoc; eauto.
  all: try by destruct (hist_issued_first0 _ H2) as [t ?]; exists t; snoc.
  all: rewrite elem_of_difference, elem_of_singleton, hist_greeting0, elem_of_snoc; naive_solver.
Qed.

Lemma desk_issue ck t d d' :
  desk_step (Issue ck t) d = Some d' ↔
  ck.2 = next_serial d ∧ (1 ≤ ck.1 < next_visitor d)%N ∧ (opening t = true ∨ ck.1 ∉ greeting d) ∧
  (N.of_nat (size (filed d)) < MAX_PENDING)%N ∧
  Some (d <| next_serial := (ck.2 + 1)%N |> <| filed ::= <[ck := t]> |>) = Some d'.
Proof. unfold desk_step. by rewrite !guard_Some. Qed.

Lemma desk_leave c d d' :
  desk_step (Leave c) d = Some d' ↔
  (1 ≤ c < next_visitor d)%N ∧ map_Forall (λ ck _, ck.1 ≠ c) (filed d) ∧
  Some (d <| greeting ::= λ g, g ∖ {[c]} |>) = Some d'.
Proof. unfold desk_step. by rewrite !guard_Some. Qed.

Lemma history_issue es d ck t d' :
  history es d → desk_step (Issue ck t) d = Some d' → history (es ++ [Issue ck t]) d'.
Proof.
  intros Hh (Hk & Hc & Ho & Hm & [= <-])%desk_issue.
  pose proof (history_settled es d (Issue ck t) Hh eq_refl).
  destruct Hh, ck as [c k]. simpl in *. subst k.
  assert (∀ c t, Issue (c, next_serial d) t ∉ es) as Hfresh.
  { intros c' t' Hin. assert (next_serial d ∈ issued es) as []%hist_serial0
      by (apply elem_of_issued; eauto). lia. }
  assert (Settle (c, next_serial d) ∉ es) as Hns
    by (intros [t' Hin]%hist_issued_first0; by eapply Hfresh).
  split; intros; simpl in *; snoc; try done; eauto.
  - unfold issued. rewrite omap_app. fold (issued es). rewrite elem_of_app, hist_serial0. simpl.
    rewrite list_elem_of_singleton. lia.
  - unfold issued. rewrite omap_app. fold (issued es). apply NoDup_app. split_and!; [done| |apply NoDup_singleton].
    intros k Hk%hist_serial0 ->%list_elem_of_singleton. simpl in Hk. lia.
  - rewrite elem_of_snoc, lookup_insert_Some, hist_filed0.
    destruct (decide ((c, next_serial d) = ck)) as [<-|Hck]; naive_solver.
  - by apply hist_joined0.
  - destruct (hist_issued_first0 _ H0) as [t' ?]. exists t'. apply elem_of_snoc. by left.
  - lia.
  - rewrite map_size_insert_None; [lia|].
    apply eq_None_not_Some. intros [t' [Hin _]%hist_filed0]. by eapply Hfresh.
Qed.

Lemma history_settle es d ck d' :
  history es d → desk_step (Settle ck) d = Some d' → history (es ++ [Settle ck]) d'.
Proof.
  intros Hh. unfold desk_step. case_guard as Hck; simpl; [|done]. intros [= <-].
  destruct (history_serials es d (d <| filed ::= delete ck |>) (Settle ck) Hh) as [? ?]; [done..|].
  destruct Hh, (filed d !! ck) as [t|] eqn:Ht; [|done]. apply hist_filed0 in Ht as [Hi Hs].
  split; intros; simpl in *; snoc; try done; eauto.
  - unfold settled. rewrite omap_app. fold (settled es). apply NoDup_app.
    split_and!; [done| |apply NoDup_singleton].
    intros k Hk%elem_of_settled ->%list_elem_of_singleton. done.
  - rewrite elem_of_snoc, lookup_delete_Some, hist_filed0.
    destruct (decide (ck = ck0)) as [<-|Hck']; naive_solver.
  - destruct (hist_issued_first0 _ H1) as [t' ?]. exists t'. by snoc.
  - exists t. by snoc.
  - etrans; [|done]. apply N2Z.inj_le. pose proof (map_subseteq_size _ _ (delete_subseteq (filed d) ck)). lia.
Qed.

Lemma history_step es d e d' :
  history es d → desk_step e d = Some d' → history (es ++ [e]) d'.
Proof.
  intros Hh Hs. destruct e as [c|c|ck t|ck|c].
  - by eapply history_join.
  - revert Hs. unfold desk_step. case_guard as Hc; simpl; [|done]. intros [= <-].
    eapply history_greeted; eauto. by apply (hist_greeting _ _ Hh).
  - by eapply history_issue.
  - by eapply history_settle.
  - apply desk_leave in Hs as (Hc & Hl & [= <-]).
    eapply history_greeted; eauto. by apply (hist_joined _ _ Hh).
Qed.

Lemma history_run es d : desk_run es desk_open = Some d → history es d.
Proof.
  revert d. induction es as [|e es IH] using rev_ind; intros d.
  - intros [= <-]. apply history_open.
  - rewrite desk_run_app. destruct (desk_run es desk_open) as [d0|] eqn:E; [|done]. simpl.
    intros (d1 & Hs & [= <-])%bind_Some. by apply history_step with d0; [apply IH|].
Qed.

(** The order in which things happen, from the guards of the steps. *)
Lemma desk_run_at es e fs d d' :
  desk_run (es ++ e :: fs) d = Some d' →
  ∃ d1 d2, desk_run es d = Some d1 ∧ desk_step e d1 = Some d2 ∧ desk_run fs d2 = Some d'.
Proof.
  rewrite desk_run_app. intros (d1 & H1 & H2)%bind_Some. simpl in H2.
  apply bind_Some in H2 as (d2 & H2 & H3). eauto.
Qed.

(** A ticket is for a client that has joined, and unless it is an opening, for one that is
    greeted (or has left). *)
Lemma issue_in_order es c k t fs d :
  desk_run (es ++ Issue (c, k) t :: fs) desk_open = Some d →
  Enter c ∈ es ∧ (opening t = false → Ready c ∈ es ∨ Leave c ∈ es).
Proof.
  intros (d1 & d2 & H1%history_run & (_ & Hc & Ho & _)%desk_issue & _)%desk_run_at.
  assert (Enter c ∈ es) as Hj by by apply (hist_joined _ _ H1). split; [done|].
  intros Ht. destruct Ho as [Ho|Ho]; simpl in Ho; [congruence|].
  destruct (decide (Ready c ∈ es)); [by left|]. destruct (decide (Leave c ∈ es)); [by right|].
  destruct Ho. by apply (hist_greeting _ _ H1).
Qed.

(** Who leaves has had every ticket settled. *)
Lemma leave_in_order es c fs d k t :
  desk_run (es ++ Leave c :: fs) desk_open = Some d → Issue (c, k) t ∈ es → Settle (c, k) ∈ es.
Proof.
  intros (d1 & d2 & H1%history_run & (_ & Hf & _)%desk_leave & _)%desk_run_at Hi.
  destruct (decide (Settle (c, k) ∈ es)) as [|Hn]; [done|].
  destruct (Hf (c, k) t); [|done]. by apply (hist_filed _ _ H1).
Qed.

(** ** The state and the desk it shows *)
Definition gid_of (ck : N * N) : string := format_gid ck.1 ck.2.
#[export] Instance gid_of_inj : Inj (=) (=) gid_of.
Proof. intros [c k] [c' k'] [E1 E2]%format_gid_inj. simpl in *. congruence. Qed.

Definition ticket_of (p : Pending) : Ticket := mkTicket (p_local_id p) (p_is_initialize p).

(** The pending map is the file: under each global identifier the ticket of that client
    and serial number. *)
Record shows (s : MuxState) (d : Desk) : Prop := {
  shows_visitor : next_visitor d = next_client_id s;
  shows_serial : next_serial d = next_global_id s;
  shows_greeting c : c ∈ greeting d ↔ is_handshake_complete c s = false;
  shows_known c : c ∈ greeting d → (1 ≤ c < next_visitor d)%N;
  shows_filed : kmap gid_of (filed d) = ticket_of <$> pending s;
  shows_holder gid p : pending s !! gid = Some p → ∃ k, gid = gid_of (p_client_id p, k);
}.

Lemma shows_ticket s d c k t :
  shows s d →
  filed d !! (c, k) = Some t ↔
  ∃ p, pending s !! format_gid c k = Some p ∧ p_client_id p = c ∧ ticket_of p = t.
Proof.
  intros []. change (format_gid c k) with (gid_of (c, k)).
  rewrite <- (lookup_kmap gid_of (filed d)), shows_filed0, lookup_fmap, fmap_Some. split.
  - intros (p & Hp & ->). destruct (shows_holder0 _ _ Hp) as [k' [= -> ->]%gid_of_inj]. eauto.
  - intros (p & Hp & _ & <-). eauto.
Qed.

Lemma shows_size s d : shows s d → size (filed d) = size (pending s).
Proof.
  intros []. rewrite <- (map_size_fmap ticket_of), <- shows_filed0.
  by rewrite <- !length_map_to_list, (map_to_list_kmap gid_of), length_fmap.
Qed.

(** Forward simulation: what the state does is a sequence of events at the desk. *)
Definition simulates (s s' : MuxState) : Prop :=
  ∀ d, shows s d → ∃ es d', desk_run es d = Some d' ∧ shows s' d'.

#[export] Instance simulates_preorder : PreOrder simulates.
Proof.
  split; [intros s d Hd; by exists [], d|].
  intros s1 s2 s3 H1 H2 d Hd. destruct (H1 d Hd) as (es & d1 & He & Hd1).
  destruct (H2 d1 Hd1) as (fs & d2 & Hf & Hd2). exists (es ++ fs), d2.
  split; [by eapply desk_run_trans|done].
Qed.

(** *** The updates of the state, as events *)
Lemma complete_ext c s s' :
  client_handshakes s' = client_handshakes s →
  is_handshake_complete c s' = is_handshake_complete c s.
Proof. unfold is_handshake_complete. by intros ->. Qed.

Lemma simulates_fields s s' :
  next_client_id s' = next_client_id s → next_global_id s' = next_global_id s →
  pending s' = pending s → (∀ c, is_handshake_complete c s' = is_handshake_complete c s) →
  simulates s s'.
Proof.
  intros E1 E2 E3 E4 d []. exists [], d. split; [done|].
  split; rewrite ?E1, ?E2, ?E3; try done. intros c. by rewrite E4.
Qed.

(** Entries that are removed are settled. *)
Lemma simulates_pending s s' :
  next_client_id s' = next_client_id s → next_global_id s' = next_global_id s →
  pending s' ⊆ pending s → (∀ c, is_handshake_complete c s' = is_handshake_complete c s) →
  simulates s s'.
Proof.
  intros E1 E2 Hp E4 d [].
  set (m := filter (λ ckt, is_Some (pending s' !! gid_of ckt.1)) (filed d)).
  destruct (desk_settle d m) as [es Hes]; [apply map_filter_subseteq|].
  eexists es, _. split; [exact Hes|].
  split; simpl; rewrite ?E1, ?E2; try done.
  - intros c. by rewrite E4.
  - apply map_eq. intros gid. apply option_eq. intros t.
    rewrite lookup_kmap_Some, lookup_fmap, fmap_Some by tc_solve. unfold m. split.
    + intros (ck & -> & [Ht [p Hp']]%map_lookup_filter_Some). simpl in Hp'. exists p. split; [done|].
      assert (kmap gid_of (filed d) !! gid_of ck = Some t) as Hk by by rewrite lookup_kmap by tc_solve.
      rewrite shows_filed0, lookup_fmap in Hk.
      rewrite (lookup_weaken _ _ _ _ Hp' Hp) in Hk. by injection Hk.
    + intros (p & Hp' & ->). pose proof (lookup_weaken _ _ _ _ Hp' Hp) as Hps.
      destruct (shows_holder0 _ _ Hps) as [k ->]. exists (p_client_id p, k). split; [done|].
      apply map_lookup_filter_Some. split; [|eauto].
      rewrite <- (lookup_kmap gid_of), shows_filed0, lookup_fmap. by rewrite Hps.
  - intros gid p Hp'. apply shows_holder0. by eapply lookup_weaken.
Qed.

(** A client's session: only that client's greeting may end. *)
Lemma shows_ungreet s s' d c :
  next_client_id s' = next_client_id s → next_global_id s' = next_global_id s →
  pending s' = pending s → is_handshake_complete c s' = true →
  (∀ c', c' ≠ c → is_handshake_complete c' s' = is_handshake_complete c' s) →
  shows s d → shows s' (d <| greeting ::= λ g, g ∖ {[c]} |>).
Proof.
  intros E1 E2 E3 Hc E4 []. split; simpl; rewrite ?E1, ?E2, ?E3; try done.
  - intros c'. rewrite elem_of_difference, elem_of_singleton, shows_greeting0.
    destruct (decide (c' = c)) as [->|Hne]; [rewrite Hc; naive_solver|].
    rewrite E4 by done. naive_solver.
  - intros c' [? _]%elem_of_difference. auto.
Qed.

Lemma simulates_ready s s' c :
  next_client_id s' = next_client_id s → next_global_id s' = next_global_id s →
  pending s' = pending s → is_handshake_complete c s' = true →
  (∀ c', c' ≠ c → is_handshake_complete c' s' = is_handshake_complete c' s) →
  simulates s s'.
Proof.
  intros E1 E2 E3 Hc E4. destruct (is_handshake_complete c s) eqn:E.
  - apply simulates_fields; try done. intros c'. destruct (decide (c' = c)); [congruence|auto].
  - intros d Hd. exists [Ready c]. eexists. split; [|by eapply shows_ungreet].
    simpl. rewrite option_guard_True; [done|]. by apply (shows_greeting _ _ Hd).
Qed.

Lemma simulates_complete_handshake c s : simulates s (complete_handshake c s).1.
Proof.
  pose proof (complete_handshake_is_complete c s) as Hc. revert Hc.
  unfold complete_handshake, mark_handshake_complete.
  destruct (client_handshakes s !! c) as [h|] eqn:E; [|done]. intros Hc.
  apply simulates_ready with c; try done. intros c' Hne. unfold is_handshake_complete. simpl.
  by rewrite lookup_insert_ne.
Qed.

Lemma simulates_unregister c s : simulates s (unregister_client c s).
Proof.
  set (s1 := s <| pending ::= filter (λ kp, p_client_id kp.2 ≠ c) |>).
  transitivity s1; [by apply simulates_pending; [..|apply map_filter_subseteq|]|].
  intros d Hd. assert (shows (unregister_client c s) (d <| greeting ::= λ g, g ∖ {[c]} |>)) as Hd'.
  { apply shows_ungreet with s1; try done; unfold is_handshake_complete; simpl;
      [by rewrite lookup_delete_eq|intros c' Hne; by rewrite lookup_delete_ne]. }
  destruct (decide (1 ≤ c < next_visitor d)%N) as [Hk|Hk].
  - exists [Leave c]. eexists. split; [|exact Hd']. simpl. rewrite !option_guard_True; [done| |done].
    intros [c' k] t (p & Hp & Hpc & _)%(shows_ticket _ _ _ _ _ Hd). simpl.
    apply map_lookup_filter_Some in Hp as [_ Hne]. simpl in Hne. congruence.
  - exists [], d. split; [done|]. replace d with (d <| greeting ::= λ g, g ∖ {[c]} |>); [done|].
    destruct d as [a b g f]. unfold set_with. simpl. f_equal.
    apply difference_disjoint_L, disjoint_singleton_r. intros Hg%(shows_known _ _ Hd). done.
Qed.

Lemma simulates_register now tx s :
  (1 ≤ next_client_id s)%N → (next_client_id s < U64_MAX)%N →
  simulates s (register_client now tx s).1.
Proof.
  intros H1 Hn d []. unfold U64_MAX in Hn.
  exists [Enter (next_client_id s)]. eexists. split; [simpl; by rewrite option_guard_True|].
  assert (∀ c, is_handshake_complete c (register_client now tx s).1 =
    if decide (c = next_client_id s) then false else is_handshake_complete c s) as Hc.
  { intros c. unfold is_handshake_complete. simpl. case_decide as Hc.
    - subst. by rewrite lookup_insert_eq.
    - by rewrite lookup_insert_ne. }
  split; try (simpl; rewrite ?u64_add_small by lia; done).
  - intros c. rewrite Hc. simpl. rewrite elem_of_union, elem_of_singleton, shows_greeting0. case_decide; naive_solver.
  - intros c. simpl. intros [->%elem_of_singleton|Hg%shows_known0]%elem_of_union; lia.
Qed.

Lemma simulates_insert_pending s c lid init t :
  (next_global_id s < U64_MAX)%N → overloaded s = false → (1 ≤ c < next_client_id s)%N →
  (init = false → is_handshake_complete c s = true) →
  simulates s (insert_pending c lid init t s).1.
Proof.
  intros Hn Ho%N.leb_gt Hc Hi d Hd. pose proof (shows_size _ _ Hd). destruct Hd. unfold U64_MAX in Hn.
  exists [Issue (c, next_global_id s) (mkTicket lid init)]. eexists. split.
  { simpl. rewrite !option_guard_True; [done|lia| |simpl; lia|done].
    simpl. destruct init; [by left|right]. rewrite shows_greeting0, Hi by done. done. }
  split; simpl; rewrite ?u64_add_small by lia; try done.
  - rewrite (kmap_insert gid_of), fmap_insert, shows_filed0. done.
  - intros gid p [[<- <-]|[_ Hp]]%lookup_insert_Some; [by eexists|eauto].
Qed.
