(* ===== verification/MuxSystem.v ===== *)
(** * MuxSystem: every interleaving of one mux's tasks ([runtime/mod.rs])

    [run_mux_internal_with_status] spawns the router, the server manager, the heartbeat
    inspector, the reaper and one handler per client; all share the [World].  The
    invariant and the guarantee below hold of every interleaving of them. *)
From S2P Require Import Prelude Text Json Proc Shared MuxState MuxWorld MuxClient.
From S2P Require Import MuxServer Heartbeat MuxDesk.
From stdpp Require Import relations.

(** ** The invariant on the state

    [n] steps have been taken: each moves a counter by one at most. *)
Record state_inv (n : nat) (s : MuxState) : Prop := {
  inv_next_global : (1 ≤ next_global_id s ≤ N.of_nat n + 1)%N;
  inv_next_client : (1 ≤ next_client_id s ≤ N.of_nat n + 1)%N;
  inv_gid : ∀ gid p, pending s !! gid = Some p →
    ∃ k, gid = format_gid (p_client_id p) k ∧ (k < next_global_id s)%N;
  inv_owner : ∀ gid p, pending s !! gid = Some p →
    (p_client_id p < next_client_id s)%N ∧
    (p_is_initialize p = false → is_handshake_complete (p_client_id p) s = true);
  inv_pending_size : (N.of_nat (size (pending s)) ≤ MAX_PENDING)%N;
  inv_depth : (queue_depth s ≤ MAX_QUEUE)%N;
  inv_no_waiters : init_waiting s = [] ∧ initializing s = false;
  inv_no_success : total_success (heartbeat_metrics s) = 0%N;
}.

(** What a step may do to the state, as far as other tasks rely on it. *)
Record state_rel (s s' : MuxState) : Prop := {
  rel_next_client : (next_client_id s ≤ next_client_id s')%N;
  rel_complete : ∀ c, (c < next_client_id s)%N →
    is_handshake_complete c s = true → is_handshake_complete c s' = true;
  rel_initialized : server_initialized s = true → server_initialized s' = true;
  rel_timeout : request_timeout s' = request_timeout s;
  rel_next_global : (next_global_id s ≤ next_global_id s')%N;
  rel_old : ∀ gid p, pending s' !! gid = Some p →
    pending s !! gid = Some p ∨ ∃ c k, gid = format_gid c k ∧ (next_global_id s ≤ k)%N;
  rel_desk : simulates s s';
}.

#[export] Instance state_rel_preorder : PreOrder state_rel.
Proof.
  split; [split; try done; auto|].
  intros a b c [H1 H2 H3 H4 H5 H6 H7] [K1 K2 K3 K4 K5 K6 K7].
  split; [lia| |auto|congruence|lia| |by etrans].
  - intros k Hk Hc. apply K2; [lia|auto].
  - intros gid p Hp. destruct (K6 gid p Hp) as [|(x & k & -> & ?)]; [by apply H6|].
    right. exists x, k. split; [done|lia].
Qed.

(** Updates of other fields. *)
Lemma state_rel_fields s s' :
  next_client_id s' = next_client_id s → next_global_id s' = next_global_id s →
  pending s' = pending s → client_handshakes s' = client_handshakes s →
  request_timeout s' = request_timeout s →
  (server_initialized s = true → server_initialized s' = true) → state_rel s s'.
Proof.
  intros E1 E2 E3 E4 E5 Hi. split; rewrite ?E1, ?E2, ?E3, ?E5; try done; auto.
  - intros c _. unfold is_handshake_complete. by rewrite E4.
  - apply simulates_fields; try done. intros c. by apply complete_ext.
Qed.

(** What is gone does not come back: an identifier that was given out is not used again. *)
Lemma state_rel_gone s s' c k :
  state_rel s s' → (k < next_global_id s)%N → pending s !! format_gid c k = None →
  pending s' !! format_gid c k = None.
Proof.
  intros Hr Hk Hn. destruct (pending s' !! format_gid c k) as [p|] eqn:E; [|done].
  destruct (rel_old _ _ Hr _ _ E) as [|(c' & k' & [_ <-]%format_gid_inj & ?)]; [congruence|lia].
Qed.

(** Updates that touch none of the fields the invariant reads. *)
Record untouched (s s' : MuxState) : Prop := {
  un_global : next_global_id s' = next_global_id s;
  un_client : next_client_id s' = next_client_id s;
  un_pending : pending s' = pending s;
  un_handshakes : client_handshakes s' = client_handshakes s;
  un_waiting : init_waiting s' = init_waiting s;
  un_initializing : initializing s' = initializing s;
  un_depth : queue_depth s' = queue_depth s;
  un_metrics : heartbeat_metrics s' = heartbeat_metrics s;
  un_timeout : request_timeout s' = request_timeout s;
}.

Lemma state_inv_S n s : state_inv n s → state_inv (S n) s.
Proof. intros []. split; try done; lia. Qed.

Lemma state_inv_untouched n s s' : untouched s s' → state_inv n s → state_inv n s'.
Proof.
  intros [E1 E2 E3 E4 E5 E6 E7 E8 E9] []. split;
    rewrite ?E1, ?E2, ?E3, ?E5, ?E6, ?E7, ?E8; try done; try lia.
  intros gid p Hp. rewrite (complete_ext _ _ _ E4). eauto.
Qed.

Lemma state_rel_untouched s s' :
  untouched s s' → (server_initialized s = true → server_initialized s' = true) →
  state_rel s s'.
Proof.
  intros [] Hi. by apply state_rel_fields.
Qed.

(** ** The updates of the state *)
Definition keeps_state (f : MuxState → MuxState) : Prop :=
  ∀ n s, (N.of_nat (S n) < U64_MAX)%N → state_inv n s →
    state_inv (S n) (f s) ∧ state_rel s (f s).

(** The same of an update that moves no counter. *)
Definition keeps_fields (f : MuxState → MuxState) : Prop :=
  ∀ n s, state_inv n s → state_inv n (f s) ∧ state_rel s (f s).

Lemma keeps_fields_state f : keeps_fields f → keeps_state f.
Proof. intros Hf n s _ Hs. destruct (Hf n s Hs). split; [by apply state_inv_S|done]. Qed.

Lemma keeps_untouched f :
  (∀ s, untouched s (f s)) →
  (∀ s, server_initialized s = true → server_initialized (f s) = true) → keeps_fields f.
Proof.
  intros Hf Hi n s Hs. split; [by eapply state_inv_untouched|].
  apply state_rel_untouched; auto.
Qed.

(** Removing pending entries. *)
Lemma keeps_pending f :
  (∀ s, client_handshakes (f s) = client_handshakes s ∧ next_client_id (f s) = next_client_id s ∧
    next_global_id (f s) = next_global_id s ∧ server_initialized (f s) = server_initialized s ∧
    heartbeat_metrics (f s) = heartbeat_metrics s ∧
    request_timeout (f s) = request_timeout s ∧
    pending (f s) ⊆ pending s ∧ (queue_depth (f s) ≤ queue_depth s)%N ∧
    (init_waiting s = [] → init_waiting (f s) = []) ∧
    (initializing s = false → initializing (f s) = false)) → keeps_fields f.
Proof.
  intros Hf n s []. destruct (Hf s) as (E1 & E2 & E3 & E4 & E5 & E6 & Hp & Hd & Hw & Hi).
  split; split; rewrite ?E2, ?E3, ?E4, ?E5; try done; try lia.
  - intros gid p Hg. apply inv_gid0. by eapply lookup_weaken.
  - intros gid p Hg. rewrite (complete_ext _ _ _ E1). apply inv_owner0 with gid.
    by eapply lookup_weaken.
  - etrans; [|exact inv_pending_size0]. apply map_subseteq_size in Hp. lia.
  - split; [apply Hw|apply Hi]; tauto.
  - intros c _. by rewrite (complete_ext _ _ _ E1).
  - intros gid p Hg. left. by eapply lookup_weaken.
  - apply simulates_pending; try done. intros c. by apply complete_ext.
Qed.

(** Changing one client's handshake without undoing it. *)
Lemma keeps_handshakes f :
  (∀ s, next_client_id (f s) = next_client_id s ∧ next_global_id (f s) = next_global_id s ∧
    server_initialized (f s) = server_initialized s ∧
    heartbeat_metrics (f s) = heartbeat_metrics s ∧ queue_depth (f s) = queue_depth s ∧
    request_timeout (f s) = request_timeout s ∧
    pending (f s) ⊆ pending s ∧ (init_waiting s = [] → init_waiting (f s) = []) ∧
    initializing (f s) = initializing s ∧
    simulates s (f s) ∧
    ∀ c, is_handshake_complete c s = true → is_handshake_complete c (f s) = true) →
  keeps_fields f.
Proof.
  intros Hf n s []. destruct (Hf s) as (E1 & E2 & E3 & E4 & E5 & E7 & Hp & Hw & E6 & Hsim & Hc).
  split; split; rewrite ?E1, ?E2, ?E3, ?E4, ?E5, ?E6; try done; try lia.
  - intros gid p Hg. apply inv_gid0. by eapply lookup_weaken.
  - intros gid p Hg. destruct (inv_owner0 gid p) as [? ?]; [by eapply lookup_weaken|]. auto.
  - etrans; [|exact inv_pending_size0]. apply map_subseteq_size in Hp. lia.
  - split; [apply Hw|]; tauto.
  - intros c _. apply Hc.
  - intros gid p Hg. left. by eapply lookup_weaken.
Qed.

Lemma keeps_unregister c : keeps_fields (unregister_client c).
Proof.
  apply keeps_handshakes. intros s. split_and!; try done.
  - apply map_filter_subseteq.
  - by intros E; simpl; rewrite E.
  - apply simulates_unregister.
  - intros d. unfold is_handshake_complete. simpl.
    destruct (decide (c = d)) as [->|]; [by rewrite lookup_delete_eq|].
    by rewrite lookup_delete_ne.
Qed.

Lemma keeps_complete_handshake c : keeps_fields (λ s, (complete_handshake c s).1).
Proof.
  apply keeps_handshakes. intros s. pose proof (simulates_complete_handshake c s) as Hsim. revert Hsim.
  unfold complete_handshake, mark_handshake_complete.
  destruct (client_handshakes s !! c) as [h|] eqn:E; intros Hsim; [|by split_and!].
  split_and!; try done. intros d. unfold is_handshake_complete. simpl.
  destruct (decide (c = d)) as [->|]; [by rewrite lookup_insert_eq|].
  by rewrite lookup_insert_ne.
Qed.

Lemma keeps_alter_handshake c f :
  (∀ h, initialized (f h) = initialized h) → keeps_fields (get_handshake_mut c f).
Proof.
  intros Hf. apply keeps_handshakes. intros s.
  assert (∀ d, is_handshake_complete d (get_handshake_mut c f s) = is_handshake_complete d s) as Hd.
  { intros d. unfold is_handshake_complete, get_handshake_mut. simpl.
    destruct (decide (c = d)) as [->|]; [|by rewrite lookup_alter_ne].
    rewrite lookup_alter_eq. destruct (client_handshakes s !! d) as [h|]; simpl; [|done].
    by rewrite Hf. }
  split_and!; try done; [by apply simulates_fields|]. intros d. by rewrite Hd.
Qed.

Lemma keeps_buffer_message c m : keeps_fields (buffer_message c m).
Proof.
  apply keeps_handshakes. intros s.
  assert (∀ d, is_handshake_complete d (buffer_message c m s) = is_handshake_complete d s) as Hd.
  { intros d. unfold is_handshake_complete, buffer_message.
    destruct (client_handshakes s !! c) as [h|] eqn:E; [|done]. simpl.
    destruct (decide (c = d)) as [->|]; [|by rewrite lookup_insert_ne].
    by rewrite lookup_insert_eq, E. }
  revert Hd. unfold buffer_message. destruct (client_handshakes s !! c) as [h|]; intros Hd.
  - split_and!; try done; [by apply simulates_fields|]. intros d. by rewrite Hd.
  - by split_and!.
Qed.

Lemma keeps_register now tx : keeps_state (λ s, (register_client now tx s).1).
Proof.
  intros n s Hn Hs. assert (simulates s (register_client now tx s).1) as Hsim.
  { destruct Hs. apply simulates_register; lia. }
  destruct Hs. unfold register_client, U64_MAX in *. simpl in *.
  assert (u64_add (next_client_id s) 1 = next_client_id s + 1)%N as Hadd
    by (apply u64_add_small; lia).
  assert (∀ c, (c < next_client_id s)%N → is_handshake_complete c
    (register_client now tx s).1 = is_handshake_complete c s) as Hc.
  { intros c Hc. unfold is_handshake_complete. simpl. rewrite lookup_insert_ne by lia. done. }
  rewrite Hadd in Hsim.
  split; split; simpl; rewrite ?Hadd; try done; try lia.
  - intros gid p Hp. destruct (inv_owner0 gid p Hp) as [Hlt Hi]. split; [lia|].
    intros Hni. rewrite <- (Hi Hni). by apply Hc.
  - intros c Hlt Hcc. rewrite <- Hcc. by apply Hc.
  - auto.
Qed.

(** A new entry: its identifier is fresh, its owner known. *)
Lemma insert_pending_fresh n s c :
  state_inv n s → pending s !! format_gid c (next_global_id s) = None.
Proof.
  intros []. destruct (pending s !! format_gid c (next_global_id s)) as [p|] eqn:E; [|done].
  destruct (inv_gid0 _ _ E) as (k & [_ <-]%format_gid_inj & Hk). lia.
Qed.

Lemma keeps_insert_pending n s c lid init t :
  (N.of_nat (S n) < U64_MAX)%N → state_inv n s → overloaded s = false →
  (1 ≤ c < next_client_id s)%N → (init = false → is_handshake_complete c s = true) →
  state_inv (S n) (insert_pending c lid init t s).1 ∧
  state_rel s (insert_pending c lid init t s).1.
Proof.
  intros Hn Hs Ho Hc Hi. pose proof (insert_pending_fresh n s c Hs) as Hfresh.
  assert (simulates s (insert_pending c lid init t s).1) as Hsim.
  { apply simulates_insert_pending; try done. destruct Hs. lia. }
  destruct Hs. unfold insert_pending, next_request_id, overloaded, U64_MAX in *. simpl in *.
  apply N.leb_gt in Ho.
  assert (u64_add (next_global_id s) 1 = next_global_id s + 1)%N as Hadd
    by (apply u64_add_small; lia).
  rewrite Hadd in Hsim. split.
  2:{ split; simpl; rewrite ?Hadd; try done; try lia.
      intros gid p [[<- <-]|[Hne Hp]]%lookup_insert_Some; [right; by eexists _, _|by left]. }
  split; simpl; rewrite ?Hadd; try done; try lia.
  - intros gid p [[<- <-]|[Hne Hp]]%lookup_insert_Some; simpl; [exists (next_global_id s); split; [done|lia]|].
    destruct (inv_gid0 _ _ Hp) as (k & -> & Hk). exists k. split; [done|lia].
  - intros gid p [[<- <-]|[Hne Hp]]%lookup_insert_Some; simpl; [by split; [lia|]|].
    destruct (inv_owner0 _ _ Hp) as [? Hi']. split; [done|]. intros Hp'. by apply Hi'.
  - rewrite map_size_insert_None by done. lia.
Qed.

(** ** Worlds *)
Definition mux_inv (n : nat) (w : World) : Prop :=
  state_inv n (st w) ∧ (N.of_nat (length (to_server w)) ≤ MAX_QUEUE)%N.

(** While a guard outlives an action, nobody changes the state; the clock goes forward. *)
Definition mux_rel (w w' : World) : Prop :=
  state_rel (st w) (st w') ∧
  (lock_held w = true → lock_held w' = true ∧ st w' = st w) ∧
  (now w ≤ now w')%N.

#[export] Instance mux_rel_preorder : PreOrder mux_rel.
Proof.
  split; [intros a; split; [done|split; [auto|lia]]|]. intros a b c (H1 & H2 & H5) (H3 & H4 & H6).
  split_and!; [by etrans| |by etrans].
  intros Ha. destruct (H2 Ha) as [Hb E]. destruct (H4 Hb) as [? E2]. by rewrite E2.
Qed.

Notation msafe := (safe U64_MAX mux_inv mux_rel).

(** Actions that leave the state, the lock and the queue alone. *)
Definition aside (w w' : World) : Prop :=
  st w' = st w ∧ lock_held w' = lock_held w ∧ to_server w' = to_server w ∧ now w' = now w.

Lemma aside_inv n w w' : aside w w' → mux_inv n w → mux_inv (S n) w' ∧ mux_rel w w'.
Proof.
  intros (E1 & E2 & E3 & E4) [Hs Hq]. unfold mux_inv, mux_rel. rewrite E1, E2, E3, E4.
  split; [split; [by apply state_inv_S|done]|done].
Qed.

Lemma aside_send_client c v w w' : aside w w' → aside w (send_client c v w').
Proof.
  intros (E1 & E2 & E3 & E4). unfold aside. rewrite send_client_st.
  by destruct (send_client_fields c v w') as (-> & -> & _ & ->).
Qed.

Lemma aside_send_to tx v w w' : aside w w' → aside w (send_to tx v w').
Proof.
  intros (E1 & E2 & E3 & E4). unfold aside. rewrite send_to_st.
  by destruct (send_to_fields tx v w') as (-> & -> & _ & ->).
Qed.

Lemma aside_fold {A} (f : World → A → World) l w w' :
  (∀ w w' x, aside w w' → aside w (f w' x)) → aside w w' → aside w (fold_left f l w').
Proof. intros Hf. revert w'. induction l as [|x l IH]; intros w' Ha; simpl; [done|]. apply IH; auto. Qed.

Section safety.
Context `{Platform}.

Lemma msafe_await_aside {A} (f : World → option (World * A)) w0 :
  (∀ w w' a, f w = Some (w', a) → aside w w') → msafe w0 (await f).
Proof.
  intros Hf. apply safe_await. intros n w w' a _ _ HI E. apply aside_inv; eauto.
Qed.

Lemma msafe_act_aside {A} (f : World → World * A) w0 :
  (∀ w, aside w (f w).1) → msafe w0 (act f).
Proof.
  intros Hf. apply msafe_await_aside. intros w w' a [= E]. specialize (Hf w). by rewrite E in Hf.
Qed.

Lemma msafe_never {A} w0 : msafe w0 (await (λ _ : World, @None (World * A))).
Proof. by apply msafe_await_aside. Qed.

(** A critical section, seen by the rest of the task. *)
Lemma msafe_bind_locked {A C} (f : World → World * A) (k : A → proc World C) w0 :
  (∀ n w, (N.of_nat (S n) < U64_MAX)%N → mux_rel w0 w → state_inv n (st w) →
     lock_held w = false → (to_server (f w).1, now (f w).1) = (to_server w, now w) ∧
     state_inv (S n) (st (f w).1) ∧ state_rel (st w) (st (f w).1) ∧ msafe (f w).1 (k (f w).2)) →
  msafe w0 (bind (locked f) k).
Proof.
  intros Hf. apply safe_bind_await. intros n w w' a Hn Hw [Hs Hq].
  destruct (lock_held w) eqn:Hl; [done|]. intros [= E].
  destruct (Hf n w Hn Hw Hs Hl) as ([= E1 E5] & E2 & E3 & E4). rewrite E in E1, E2, E3, E4, E5.
  simpl in *.
  split_and!; [split; [done|by rewrite E1]|split; [done|split; [by rewrite Hl|by rewrite E5]]|done].
Qed.

Lemma msafe_locked {A} (f : World → World * A) w0 :
  (∀ n w, (N.of_nat (S n) < U64_MAX)%N → mux_rel w0 w → state_inv n (st w) →
     lock_held w = false → (to_server (f w).1, now (f w).1) = (to_server w, now w) ∧
     state_inv (S n) (st (f w).1) ∧ state_rel (st w) (st (f w).1)) →
  msafe w0 (locked f).
Proof.
  intros Hf. apply safe_await. intros n w w' a Hn Hw [Hs Hq].
  destruct (lock_held w) eqn:Hl; [done|]. intros [= E].
  destruct (Hf n w Hn Hw Hs Hl) as ([= E1 E5] & E2 & E3). rewrite E in E1, E2, E3, E5. simpl in *.
  split_and!; [split; [done|by rewrite E1]|split; [done|split; [by rewrite Hl|by rewrite E5]]].
Qed.

Lemma msafe_lock_ f w0 : keeps_state f → msafe w0 (lock_ f).
Proof. intros Hf. apply msafe_locked. intros n w Hn _ Hs _. split; [done|]. by apply Hf. Qed.

Lemma msafe_lock {A} (f : MuxState → MuxState * A) w0 :
  keeps_state (λ s, (f s).1) → msafe w0 (lock f).
Proof.
  intros Hf. apply msafe_locked. intros n w Hn _ Hs _. destruct (f (st w)) as [s a] eqn:E.
  simpl. split; [done|]. specialize (Hf n (st w) Hn Hs). cbv beta in Hf. rewrite E in Hf. exact Hf.
Qed.

Lemma msafe_locked_aside {A} (f : World → World * A) w0 :
  (∀ w, aside w (f w).1) → msafe w0 (locked f).
Proof.
  intros Hf. apply msafe_await_aside. intros w w' a. case_match; [done|]. intros [= E].
  specialize (Hf w). by rewrite E in Hf.
Qed.

(** ** The shared actions *)
Lemma msafe_publish_status w0 : msafe w0 publish_status.
Proof.
  apply safe_bind; [tc_solve| |intros w a _; by apply msafe_act_aside].
  apply msafe_locked_aside. intros w. simpl. by case_match.
Qed.

Lemma msafe_update_queue_depth w0 : msafe w0 update_queue_depth.
Proof.
  apply msafe_locked. intros n w _ _ [] _. split; [done|].
  split; [split; try done; simpl; try lia|by apply state_rel_fields].
Qed.

Lemma push_server_inv n v w :
  (0 < capacity w)%N → mux_inv n w → mux_inv (S n) (push_server v w) ∧ mux_rel w (push_server v w).
Proof.
  intros Hc [Hs Hq]. unfold capacity in Hc. split; [|by split; [|split]].
  split; [by apply state_inv_S|]. simpl. rewrite length_app. simpl. lia.
Qed.

Lemma msafe_to_server_send v w0 : msafe w0 (to_server_send v).
Proof.
  apply safe_await. intros n w w' a _ _ HI. destruct (to_server_open w); simpl.
  - destruct (N.ltb_spec 0 (capacity w)); [|done]. intros [= <- <-]. by apply push_server_inv.
  - intros [= <- <-]. by apply aside_inv.
Qed.

Lemma msafe_to_server_try_send v w0 : msafe w0 (to_server_try_send v).
Proof.
  apply safe_act. intros n w _ _ HI. destruct (to_server_open w); simpl.
  - destruct (N.ltb_spec 0 (capacity w)); [by apply push_server_inv|by apply aside_inv].
  - by apply aside_inv.
Qed.
End safety.
#[export] Hint Resolve msafe_publish_status msafe_update_queue_depth msafe_to_server_send
  msafe_to_server_try_send @msafe_never : operator.
#[export] Hint Extern 1 (safe _ _ _ _ (Ret _)) => constructor : operator.

(** Splits the safety of a task along its structure; what is left are its critical
    sections. *)
Ltac msafe_steps :=
  repeat first
    [ solve [eauto with operator]
    | apply safe_bind; [tc_solve| |intros ? ? ?]
    | case_match ].

(** What a task knows of a client it serves, and keeps knowing. *)
Definition known (c : N) (w : World) : Prop := (1 ≤ c < next_client_id (st w))%N.
Definition completed (c : N) (w : World) : Prop :=
  known c w ∧ is_handshake_complete c (st w) = true.

Lemma known_rel c w w' : mux_rel w w' → known c w → known c w'.
Proof. intros [[] _] Hk. unfold known in *. lia. Qed.
Lemma completed_rel c w w' : mux_rel w w' → completed c w → completed c w'.
Proof.
  intros Hr [Hk Hc]. split; [by eapply known_rel|]. destruct Hr as [[] _], Hk. auto.
Qed.
#[export] Hint Resolve known_rel completed_rel : operator.

Section tasks.
Context `{Platform}.

(** ** The client's tasks *)
Lemma msafe_send_request msg gid w0 : msafe w0 (send_request msg gid).
Proof. unfold send_request. msafe_steps. Qed.
Hint Resolve msafe_send_request : operator.

Lemma msafe_forward_request cid msg w0 :
  completed cid w0 → msafe w0 (forward_request cid msg).
Proof.
  intros Hc. unfold forward_request. destruct (value_get "id" msg) as [lid|]; [|by constructor].
  apply msafe_bind_locked. intros n w Hn Hw Hs _. apply (completed_rel _ _ _ Hw) in Hc as [Hk Hc].
  unfold forward_section. destruct (overloaded (st w)) eqn:Ho.
  - destruct (send_client_fields cid (error_response lid OVERLOADED) w) as (_ & E & _ & E').
    simpl. rewrite E, E', send_client_st. split_and!; [done|by apply state_inv_S|done|constructor].
  - destruct (keeps_insert_pending n (st w) cid lid false (now w) Hn Hs Ho Hk) as [? ?]; [done|].
    destruct (insert_pending _ _ _ _ _). split_and!; try done. apply msafe_send_request.
Qed.

Lemma msafe_handle_initialize cid msg lid w0 :
  known cid w0 → msafe w0 (handle_initialize cid msg lid).
Proof.
  intros Hc. unfold handle_initialize.
  apply msafe_bind_locked. intros n w Hn Hw Hs _. apply (known_rel _ _ _ Hw) in Hc.
  unfold initialize_section.
  set (w1 := w <| st ::= get_handshake_mut cid (λ h, h <| initialize_pending := true |>) |>).
  assert (state_inv n (st w1) ∧ state_rel (st w) (st w1)) as [Hs1 Hr1]
    by by apply keeps_alter_handshake.
  assert (Haside : ∀ v,
    (to_server (send_client cid v w1), now (send_client cid v w1)) = (to_server w, now w) ∧
    state_inv (S n) (st (send_client cid v w1)) ∧ state_rel (st w) (st (send_client cid v w1))).
  { intros v. rewrite send_client_st. destruct (send_client_fields cid v w1) as (_ & -> & _ & ->).
    split_and!; [done|by apply state_inv_S|done]. }
  destruct (cached_initialize (st w1)) as [cached|].
  { destruct (Haside (set_id cached lid)) as (? & ? & ?). split_and!; try done. constructor. }
  destruct (inv_no_waiters _ _ Hs1) as [_ ->]. destruct (overloaded (st w1)) eqn:Ho.
  { destruct (Haside (error_response lid OVERLOADED)) as (? & ? & ?). split_and!; try done. constructor. }
  destruct (keeps_insert_pending n (st w1) cid lid true (now w) Hn Hs1 Ho Hc) as [? ?]; [done|].
  change (now w1) with (now w). destruct (insert_pending _ _ _ _ _).
  split_and!; [done|done|by etrans|apply msafe_send_request].
Qed.

Lemma msafe_handle_initialized cid msg w0 :
  known cid w0 → msafe w0 (handle_initialized cid msg).
Proof.
  intros Hc. unfold handle_initialized.
  apply safe_bind; [tc_solve| |intros w1 fwd Hw1].
  { apply msafe_lock, keeps_fields_state, keeps_untouched; intros s; unfold claim_initialized;
      by destruct (server_initialized s) eqn:E. }
  apply safe_bind; [tc_solve|msafe_steps|intros w2 _ Hw2].
  unfold lock. apply msafe_bind_locked. intros n w Hn Hw Hs _.
  assert (known cid w) as Hk by (do 2 (eapply known_rel; [eassumption|]); by eapply known_rel).
  destruct (complete_handshake cid (st w)) as [s buffered] eqn:E. cbn [fst snd].
  assert (state_inv n s ∧ state_rel (st w) s) as [Hs1 Hr1].
  { destruct (keeps_complete_handshake cid n (st w) Hs) as [H1 H2]. by rewrite E in H1, H2. }
  split_and!; [done|by apply state_inv_S|done|].
  assert (completed cid (w <| st := s |>)) as Hcomp.
  { split; [unfold known in *; simpl; pose proof (rel_next_client _ _ Hr1); lia|]. simpl.
    replace s with (complete_handshake cid (st w)).1 by by rewrite E.
    apply complete_handshake_is_complete. }
  msafe_steps. apply safe_for_each; [tc_solve|]. intros w3 m Hw3.
  apply safe_bind; [tc_solve| |by constructor].
  apply msafe_forward_request. by eapply completed_rel.
Qed.

Lemma msafe_handle_request cid msg w0 : known cid w0 → msafe w0 (handle_request cid msg).
Proof.
  intros Hc. unfold handle_request, lock. apply msafe_bind_locked. intros n w Hn Hw Hs _.
  cbn [fst snd]. replace (w <| st := st w |>) with w by by destruct w.
  split_and!; [done|by apply state_inv_S|done|].
  destruct (is_handshake_complete cid (st w)) eqn:E; cbn [negb].
  - apply msafe_forward_request. split; [by eapply known_rel|done].
  - apply safe_bind; [tc_solve| |by constructor].
    apply msafe_lock_, keeps_fields_state, keeps_buffer_message.
Qed.

Lemma msafe_handle_client_message cid msg max w0 :
  known cid w0 → msafe w0 (handle_client_message cid msg max).
Proof.
  intros Hc. unfold handle_client_message. case_match.
  { apply safe_bind; [tc_solve| |by constructor]. apply msafe_locked_aside. intros w.
    by apply aside_send_client. }
  case_match; [by apply msafe_handle_initialized|].
  case_match; [|unfold handle_notification; msafe_steps].
  case_match; [by apply msafe_handle_initialize|by apply msafe_handle_request].
Qed.

Lemma msafe_reader_loop cid evs w0 : known cid w0 → msafe w0 (reader_loop cid evs).
Proof.
  revert w0. induction evs as [|ev evs IH]; intros w0 Hc; cbn [reader_loop]; [apply msafe_never|].
  destruct ev as [| |[[msg|e]|]]; try by constructor.
  - apply msafe_await_aside. intros w w' a. case_match; [|done]. by intros [= <- <-].
  - apply safe_bind; [tc_solve|by apply msafe_locked_aside|intros w1 b Hw1].
    destruct b; [|by eapply IH, known_rel].
    apply msafe_locked_aside. intros w. by apply aside_send_client.
  - apply safe_bind; [tc_solve| |intros w1 max Hw1].
    { apply msafe_lock, keeps_fields_state. by intros n s Hs. }
    apply safe_bind; [tc_solve| |intros w2 r Hw2].
    + apply msafe_handle_client_message. by eapply known_rel.
    + eapply IH, known_rel; [eassumption|]. by eapply known_rel.
Qed.

Lemma msafe_unregister cid w0 : msafe w0 (lock_ (unregister_client cid)).
Proof. apply msafe_lock_, keeps_fields_state, keeps_unregister. Qed.
Hint Resolve msafe_unregister : operator.

Lemma msafe_drop_rx tx w0 : msafe w0 (act (λ w, (drop_rx tx w, tt))).
Proof. by apply msafe_act_aside. Qed.
Lemma msafe_release_permit w0 : msafe w0 release_permit.
Proof. by apply msafe_act_aside. Qed.
Hint Resolve msafe_drop_rx msafe_release_permit : operator.

Lemma msafe_writer_task cid tx sends w0 : msafe w0 (writer_task cid tx sends).
Proof.
  unfold writer_task. apply safe_bind; [tc_solve| |intros; msafe_steps].
  revert w0. induction sends as [|s sends IH]; intros w0; cbn [writer_loop];
    (apply safe_bind; [tc_solve| |intros w1 m Hw1]); [| destruct m; msafe_steps | | destruct m; msafe_steps].
  all: apply msafe_await_aside; intros w w' a; split_matches; by intros [= <- <-].
Qed.

Lemma msafe_handle_client evs w0 : msafe w0 (handle_client evs).
Proof.
  unfold handle_client. apply safe_bind; [tc_solve| |intros w1 _ Hw1].
  { apply msafe_await_aside. intros w w' a. case_match; [|done]. by intros [= <- <-]. }
  apply safe_bind; [tc_solve|by apply msafe_act_aside|intros w2 tx Hw2].
  apply msafe_bind_locked. intros n w Hn Hw Hs _.
  destruct (keeps_register (now w) tx n (st w) Hn Hs) as [Hs' Hr'].
  destruct (register_client (now w) tx (st w)) as [s id] eqn:E. cbn [fst snd] in *.
  split_and!; [done|done|done|].
  assert (known id (w <| st := s |>)) as Hk.
  { injection E as <- <-. unfold known. simpl. destruct Hs. unfold U64_MAX in *.
    rewrite u64_add_small by lia. lia. }
  apply safe_bind; [tc_solve|apply msafe_publish_status|intros w3 _ Hw3].
  apply safe_bind; [tc_solve| |intros w4 ended Hw4; msafe_steps].
  apply msafe_reader_loop. by eapply known_rel.
Qed.

(** ** The server's tasks *)
Lemma aside_broadcast msg w : aside w (broadcast msg w).
Proof. apply aside_fold; [|done]. intros w1 w2 x. apply aside_send_to. Qed.

Lemma msafe_handle_server_message msg w0 : msafe w0 (handle_server_message msg).
Proof.
  unfold handle_server_message.
  assert (∀ w0, msafe w0 (locked (λ w, (broadcast msg w, tt)) ;;! Ret (Ok tt) : proc World (result string unit))) as Hb.
  { intros w1. apply safe_bind; [tc_solve| |by constructor].
    apply msafe_locked_aside. intros w. apply aside_broadcast. }
  destruct (value_get "id" msg) as [id|]; [|done]. destruct (is_null id); [done|].
  destruct (id_string id) as [gid|]; [|by constructor].
  apply safe_bind; [tc_solve| |intros w1 p Hw1].
  { apply msafe_lock, keeps_fields_state, keeps_pending. intros s. split_and!; try done.
    apply delete_subseteq. }
  destruct p as [p|]; [|by constructor].
  apply safe_bind; [tc_solve| |intros w2 _ Hw2].
  { case_match; [|by constructor]. apply msafe_locked. intros n w Hn Hw Hs _. simpl.
    unfold cache_section. match goal with |- context [fold_left _ _ ?w] => set (w1' := w) end.
    assert (aside w1' (fold_left (λ w cv, send_client cv.1 (set_id msg cv.2) w) (init_waiting (st w)) w1'))
      as (-> & _ & -> & ->) by (apply aside_fold; [intros; by apply aside_send_client|done]).
    split; [done|]. apply (keeps_fields_state (λ s, s <| cached_initialize := Some msg |>
      <| initializing := false |> <| init_waiting := [] |>)); [|done|done].
    apply keeps_pending. intros s. by split_and!. }
  apply safe_bind; [tc_solve| |intros w3 target Hw3].
  { apply msafe_lock, keeps_fields_state. by intros n s Hs. }
  msafe_steps. apply msafe_act_aside. intros w. by apply aside_send_to.
Qed.

Lemma msafe_reset_state reason w0 : msafe w0 (reset_state reason).
Proof.
  unfold reset_state. apply safe_bind; [tc_solve| |intros; apply msafe_publish_status].
  apply msafe_locked. intros n w Hn Hw Hs _. simpl. unfold reset_section.
  set (w1 := w <| st ::= reset_fields reason |>).
  match goal with |- context [fold_left ?g _ (fold_left ?f _ w1)] =>
    assert (aside w1 (fold_left g (init_waiting (st w)) (fold_left f (hash_iter (pending (st w))) w1)))
      as (-> & _ & -> & ->) by (repeat apply aside_fold; try done; intros; by apply aside_send_client) end.
  split; [done|]. apply (keeps_fields_state (reset_fields reason)); [|done|done].
  apply keeps_pending. intros s. split_and!; try done; [apply map_empty_subseteq|simpl; lia].
Qed.

Lemma msafe_router n w0 : msafe w0 (handle_server_events_with_heartbeat n).
Proof.
  revert w0. induction n as [|n IH]; intros w0; cbn [handle_server_events_with_heartbeat];
    [apply msafe_never|].
  apply safe_bind; [tc_solve| |intros w1 evt Hw1].
  { apply msafe_await_aside. intros w w' a. split_matches. by intros [= <- <-]. }
  apply safe_bind; [tc_solve| |intros w2 _ Hw2; apply IH].
  destruct evt as [msg|reason]; cbn [route_event]; [|apply msafe_reset_state].
  case_match; [by apply msafe_act_aside|].
  apply safe_bind; [tc_solve|apply msafe_handle_server_message|by constructor].
Qed.

Lemma msafe_reap_tick w0 : msafe w0 reap_tick.
Proof.
  unfold reap_tick. apply safe_bind; [tc_solve| |intros w1 t Hw1].
  { apply msafe_lock, keeps_fields_state. by intros n s Hs. }
  apply safe_bind; [tc_solve| |intros w2 expired Hw2].
  - apply msafe_locked. intros n w Hn Hw Hs _. split; [done|].
    apply (keeps_fields_state (λ s, s <| pending ::=
      filter (λ kp, expired_at (now w) t kp.2 = false) |>)); [|done|done].
    apply keeps_pending. intros s. split_and!; try done. apply map_filter_subseteq.
  - msafe_steps. apply msafe_locked_aside. intros w. apply aside_fold; [|done].
    intros. by apply aside_send_client.
Qed.

Lemma msafe_reap_timeouts evs w0 : msafe w0 (reap_timeouts evs).
Proof.
  revert w0. induction evs as [|[] evs IH]; intros w0; cbn [reap_timeouts]; [apply msafe_never| |].
  - apply safe_bind; [tc_solve|apply msafe_reap_tick|intros; apply IH].
  - apply msafe_await_aside. intros w w' a. case_match; [|done]. by intros [= <- <-].
Qed.
End tasks.

(** What a task does after [publish_status] never happens while a guard is alive. *)
Lemma msafe_publish_blocked `{Platform} {A} (k : unit → proc World A) w0 :
  lock_held w0 = true → msafe w0 (bind publish_status k).
Proof.
  intros Hl. unfold publish_status, locked, await. cbn [bind]. constructor.
  intros n w w' p' _ (_ & Hr & _) _. destruct (Hr Hl) as [-> _]. done.
Qed.

Section manager.
Context `{Platform}.
Hint Resolve msafe_publish_status msafe_update_queue_depth : operator.

Lemma msafe_give_up w0 : msafe w0 give_up_restarting.
Proof.
  unfold give_up_restarting. apply msafe_bind_locked. intros n w Hn Hw Hs _.
  split; [done|]. cbn [fst snd].
  destruct (keeps_fields_state (λ s, set_failed "max restarts reached" "max restarts reached" s
    <| child_pid := None |>) ltac:(by apply keeps_untouched) n (st w) Hn Hs) as [? ?].
  split_and!; [done|done|]. by apply msafe_publish_blocked.
Qed.

Lemma pop_server_inv n w v q :
  to_server w = v :: q → mux_inv n w →
  mux_inv (S n) (w <| to_server := q |>) ∧ mux_rel w (w <| to_server := q |>).
Proof.
  intros Hq [Hs Hl]. split; [|by split; [|split]]. split; [by apply state_inv_S|].
  rewrite Hq in Hl. simpl in *. lia.
Qed.

Lemma msafe_is_cancelled w0 : msafe w0 is_cancelled.
Proof. by apply msafe_act_aside. Qed.

Lemma msafe_set_failed a b w0 : msafe w0 (lock_ (set_failed a b)).
Proof. apply msafe_lock_, keeps_fields_state. by apply keeps_untouched. Qed.

Lemma msafe_write_child v o w0 : msafe w0 (write_child v o).
Proof. apply msafe_act_aside. intros w. simpl. by case_match. Qed.
Hint Resolve msafe_is_cancelled msafe_set_failed msafe_write_child : operator.

Lemma msafe_monitor evs w0 : msafe w0 (monitor evs).
Proof.
  revert w0. induction evs as [|ev evs IH]; intros w0; cbn [monitor]; msafe_steps.
  - apply safe_await. intros n v v' x _ _ HI. destruct (to_server v) as [|m q] eqn:E; [done|].
    intros [= <- <-]. by eapply pop_server_inv.
  - apply msafe_await_aside. intros v v' x. case_match; [done|]. by intros [= <- <-].
  - apply msafe_await_aside. intros v v' x. case_match; [|done]. by intros [= <- <-].
Qed.

Lemma msafe_run_child first inc pid w0 : msafe w0 (run_child first inc pid).
Proof.
  unfold run_child. pose proof msafe_monitor. msafe_steps.
  - apply msafe_lock_, keeps_fields_state. by apply keeps_untouched.
  - by apply msafe_act_aside.
  - apply msafe_locked. intros n v Hn _ Hs _. split; [done|]. simpl.
    match goal with |- context [settle ?b] =>
      apply (keeps_fields_state (settle b)); [|done|done]; generalize b end.
    intros b. apply keeps_pending. intros s. unfold settle. by destruct b; split_and!.
Qed.

Lemma msafe_lazy_first config restarts w0 : msafe w0 (lazy_first config restarts).
Proof.
  unfold lazy_first. msafe_steps. apply safe_await. intros n v v' x _ _ HI.
  case_match; [intros [= <- <-]; by apply aside_inv|].
  destruct (to_server v) as [|m q] eqn:E; [done|]. intros [= <- <-]. by eapply pop_server_inv.
Qed.

Lemma msafe_sleep d w0 : msafe w0 (sleep d).
Proof.
  unfold sleep. msafe_steps; [by apply msafe_act_aside|].
  apply msafe_await_aside. intros v v' x. case_match; [|done]. by intros [= <- <-].
Qed.
Hint Resolve msafe_lazy_first msafe_sleep msafe_run_child msafe_give_up : operator.

Lemma msafe_manager_loop config incs backoff restarts w0 :
  msafe w0 (manager_loop config backoff restarts incs).
Proof.
  revert backoff restarts w0.
  induction incs as [|inc incs IH]; intros backoff restarts w0; cbn [manager_loop]; msafe_steps.
Qed.

Lemma msafe_server_manager config incs w0 : msafe w0 (server_manager config incs).
Proof.
  unfold server_manager. apply safe_bind; [tc_solve|apply msafe_manager_loop|intros w1 r Hw1].
  msafe_steps. by apply msafe_act_aside.
Qed.

(** ** The heartbeat inspector

    Its own count of successes stays zero: a probe's one-shot channel can only be fired
    by the inspector itself, which is waiting for it. *)
Lemma msafe_update_state_metrics hb w0 :
  total_success (metrics hb) = 0%N → msafe w0 (update_state_metrics hb).
Proof.
  intros Hz. unfold update_state_metrics. msafe_steps.
  apply msafe_lock_, keeps_fields_state. intros n s []. split; [|by apply state_rel_fields].
  by split.
Qed.

Lemma msafe_check_restart hb w0 : msafe w0 (check_restart hb).
Proof. unfold check_restart. msafe_steps. by apply msafe_act_aside. Qed.
Hint Resolve msafe_update_state_metrics msafe_check_restart : operator.

Lemma record_failure_success hb :
  total_success (metrics (record_failure hb)) = total_success (metrics hb).
Proof. done. Qed.

Definition no_success (r : HeartbeatState * gmap N Oneshot) : Prop :=
  total_success (metrics r.1) = 0%N.

Lemma tick_probe_no_success wall hb oneshots :
  total_success (metrics hb) = 0%N → returns no_success (tick_probe wall hb oneshots).
Proof.
  intros Hz. unfold tick_probe. cbn [next_id].
  eapply returns_bind; [apply returns_any|intros t0 _].
  eapply returns_bind; [apply returns_any|intros [[]|e] _].
  - rewrite lookup_insert_eq. change (default Closed (Some Waiting)) with Waiting.
    cbn [wait_response].
    eapply (returns_bind (λ o, o = None)); [|intros ? ->].
    + eapply returns_bind; [apply returns_any|intros dl _]. constructor.
      intros w w' p.
      destruct (dl <=? now w)%N; [|done]. intros [= <- <-]. by constructor.
    + do 2 (eapply returns_bind; [apply returns_any|intros _ _]). constructor. exact Hz.
  - do 2 (eapply returns_bind; [apply returns_any|intros _ _]). constructor. exact Hz.
Qed.

Lemma msafe_tick_probe wall hb oneshots w0 :
  total_success (metrics hb) = 0%N → msafe w0 (tick_probe wall hb oneshots).
Proof.
  intros Hz. unfold tick_probe. cbn [next_id].
  apply safe_bind; [tc_solve|by apply msafe_act_aside|intros w1 t0 Hw1].
  apply safe_bind; [tc_solve|apply msafe_to_server_send|intros w2 [[]|e] Hw2]; [|msafe_steps].
  rewrite lookup_insert_eq. change (default Closed (Some Waiting)) with Waiting.
    cbn [wait_response].
  eapply (safe_bind_returns _ _ _ (λ o, o = None)).
  - msafe_steps; [by apply msafe_act_aside|].
    apply msafe_await_aside. intros v v' x. case_match; [|done]. by intros [= <- <-].
  - eapply returns_bind; [apply returns_any|intros dl _]. constructor.
    intros w w' p.
    destruct (dl <=? now w)%N; [|done]. intros [= <- <-]. by constructor.
  - intros w3 ? Hw3 ->. msafe_steps.
Qed.

Lemma msafe_inspector_loop evs hb oneshots w0 :
  total_success (metrics hb) = 0%N → msafe w0 (inspector_loop evs hb oneshots).
Proof.
  revert hb oneshots w0. induction evs as [|ev evs IH]; intros hb oneshots w0 Hz;
    cbn [inspector_loop]; [apply msafe_never|].
  destruct ev as [|wall|].
  - apply msafe_await_aside. intros w w' a. case_match; [|done]. by intros [= <- <-].
  - apply safe_bind; [tc_solve| |intros w1 b Hw1].
    { apply msafe_lock, keeps_fields_state. by intros n s Hs. }
    case_match; [by apply IH|].
    eapply (safe_bind_returns _ _ _ no_success); [by apply msafe_tick_probe
      |by apply tick_probe_no_success|intros w2 r Hw2 Hr]. by apply IH.
  - apply safe_bind; [tc_solve| |intros w1 [id] Hw1].
    { apply msafe_await_aside. intros w w' a. split_matches. by intros [= <- <-]. }
    apply IH. unfold take_response. by repeat case_match.
Qed.
End manager.

(** ** The system *)
Section system.
Context `{Platform}.

(** The tasks [run_mux_internal_with_status] spawns. *)
Inductive mux_task : proc World unit → Prop :=
| task_client evs : mux_task (handle_client evs ;;! Ret tt)
| task_writer cid tx sends : mux_task (writer_task cid tx sends)
| task_router n : mux_task (handle_server_events_with_heartbeat n)
| task_manager config incs : mux_task (server_manager config incs ;;! Ret tt)
| task_heartbeat c evs : mux_task (spawn_heartbeat_inspector c evs)
| task_reaper evs : mux_task (reap_timeouts evs).

(** What happens around them: time passes, the child writes, the shutdown token is
    cancelled. *)
Inductive mux_env : World → World → Prop :=
| env_time w t : (now w ≤ t)%N → mux_env w (w <| now := t |>)
| env_child w v :
    mux_env w (w <| server_events ::= λ q, q ++ [ServerEvent.Message v] |>)
| env_shutdown w : mux_env w (w <| shutdown := true |>).

(** The world [run_mux_internal_with_status] sets up, at time [t0]. *)
Definition initial_state (cfg : MuxStateConfig) (heartbeat_enabled : bool) : MuxState :=
  (new (mkMuxStateConfig (cfg_max_active_clients cfg) (cfg_service_name cfg)
         (cfg_max_request_bytes cfg) (cfg_request_timeout cfg) (cfg_restart_backoff cfg)
         (cfg_restart_backoff_max cfg) (cfg_max_restarts cfg) 0 None (cfg_event_tx cfg)))
    <| heartbeat_metrics ::= λ m, m <| enabled := heartbeat_enabled |> |>.
Definition mux_start (t0 : N) (cfg : MuxStateConfig) (heartbeat_enabled : bool) : World :=
  let s := initial_state cfg heartbeat_enabled in
  mkWorld s false ∅ 0%N [] true (cfg_max_active_clients cfg) (Some (snapshot_for_state t0 s 0))
    [] [] [] [] [] [] t0 false.

Definition mux_steps : nat → config World → config World → Prop :=
  nsteps (sys_step mux_task mux_env).

(** [reachable n c]: the configuration [c] of world and tasks is reached in [n] steps,
    fewer than a 64-bit counter can count. *)
Definition reachable (n : nat) (c : config World) : Prop :=
  ∃ t0 cfg hb, mux_steps n (mux_start t0 cfg hb, []) c ∧ (N.of_nat n < U64_MAX)%N.

Lemma mux_task_safe w p : mux_task p → msafe w p.
Proof.
  destruct 1.
  - apply safe_bind; [tc_solve|apply msafe_handle_client|by constructor].
  - apply msafe_writer_task.
  - apply msafe_router.
  - apply safe_bind; [tc_solve|apply msafe_server_manager|by constructor].
  - unfold spawn_heartbeat_inspector. case_match; [by constructor|]. by apply msafe_inspector_loop.
  - apply msafe_reap_timeouts.
Qed.

Lemma mux_env_safe n w w' :
  (N.of_nat (S n) < U64_MAX)%N → mux_inv n w → mux_env w w' → mux_inv (S n) w' ∧ mux_rel w w'.
Proof.
  intros _ HI He. destruct He; try by apply aside_inv.
  destruct HI as [HI Hq]. split; [split; [by apply state_inv_S|done]|by split; [|split]].
Qed.

Lemma mux_inv_S n w : mux_inv n w → mux_inv (S n) w.
Proof. intros [? ?]. split; [by apply state_inv_S|done]. Qed.

Lemma mux_start_inv t0 cfg hb : mux_inv 0 (mux_start t0 cfg hb).
Proof. split; [|done]. split; try done; simpl; lia. Qed.

Lemma reachable_inv n c :
  reachable n c → mux_inv n c.1 ∧ Forall (msafe c.1) c.2.
Proof.
  intros (t0 & cfg & hb & Hs & Hn).
  destruct (sys_invariant mux_task mux_env U64_MAX mux_inv mux_rel mux_task_safe mux_env_safe
    mux_inv_S 0 n (mux_start t0 cfg hb, []) c) as (? & _ & ?); [done|apply mux_start_inv|by constructor|done..].
Qed.

Lemma reachable_rel n m c c' :
  reachable n c → mux_steps m c c' → (N.of_nat (n + m) < U64_MAX)%N → mux_rel c.1 c'.1.
Proof.
  intros Hr Hs Hn. destruct (reachable_inv n c Hr) as [HI Hts].
  by destruct (sys_invariant mux_task mux_env U64_MAX mux_inv mux_rel mux_task_safe mux_env_safe
    mux_inv_S n m c c') as (_ & ? & _).
Qed.

Lemma mux_start_shows t0 cfg hb : shows (st (mux_start t0 cfg hb)) desk_open.
Proof. by split. Qed.

Lemma reachable_shows n c :
  reachable n c → ∃ es d, desk_run es desk_open = Some d ∧ shows (st c.1) d.
Proof.
  intros (t0 & cfg & hb & Hs & Hn).
  assert (reachable 0 (mux_start t0 cfg hb, [])) as Hr by (exists t0, cfg, hb; split; [constructor|done]).
  destruct (reachable_rel 0 n _ _ Hr Hs Hn) as [[] _]. apply rel_desk0, mux_start_shows.
Qed.



Lemma gid_not_heartbeat c k : is_heartbeat_response (format_gid c k) = false.
Proof. done. Qed.

(** C4: Under every interleaving of the clients, the router, the manager, the reaper and
    the inspector, a request's global identifier is never in use when it is given out:
    no pending entry is ever overwritten, each names the client it belongs to, and none
    can be mistaken for a heartbeat. *)
Theorem global_ids_are_fresh n c :
  reachable n c →
  (∀ cid, pending (st c.1) !! format_gid cid (next_global_id (st c.1)) = None) ∧
  (∀ gid p, pending (st c.1) !! gid = Some p →
     (∃ k, gid = format_gid (p_client_id p) k ∧ (k < next_global_id (st c.1))%N) ∧
     is_heartbeat_response gid = false).
Proof.
  intros [[Hs _] _]%reachable_inv. split; [intros cid; by eapply insert_pending_fresh|].
  intros gid p Hp. destruct (inv_gid _ _ Hs _ _ Hp) as (k & -> & ?).
  split; [eauto|apply gid_not_heartbeat].
Qed.

(** C6: No interleaving lets a request other than [initialize] through before its
    client's handshake: whenever one is pending, its client's handshake is complete (or
    the client is gone). *)
Theorem pending_requests_follow_handshake n c gid p :
  reachable n c → pending (st c.1) !! gid = Some p → p_is_initialize p = false →
  is_handshake_complete (p_client_id p) (st c.1) = true.
Proof. intros [[Hs _] _]%reachable_inv Hp Hi. by apply (inv_owner _ _ Hs _ _ Hp). Qed.


(** The code that shares one [initialize] between waiting clients never runs: in
    every reachable state [initializing] is false and no client is on the waiting
    list. *)
Theorem initialize_waiters_never_used n c :
  reachable n c → initializing (st c.1) = false ∧ init_waiting (st c.1) = [].
Proof. intros [[[] ?] _]%reachable_inv. tauto. Qed.

(** The inspector never records a successful probe: it waits for the answer in the
    same task that would have to receive it. *)
Theorem heartbeat_never_succeeds n c :
  reachable n c → total_success (heartbeat_metrics (st c.1)) = 0%N.
Proof. intros [[[] ?] _]%reachable_inv. done. Qed.

(** C39: The manager that has reached [max_restarts] stops the whole mux: it publishes
    the status while it holds the state's lock, and from then on no step of any task
    changes the state or takes the lock. *)
Theorem max_restarts_freezes_mux :
  (∀ w, lock_held w = false → ∃ f w' p, give_up_restarting = Atomic f ∧
     f w = Some (w', p) ∧ lock_held w' = true ∧
     server_status (st w') = ServerStatus.Failed "max restarts reached") ∧
  (∀ n m c c', reachable n c → lock_held c.1 = true → mux_steps m c c' →
     (N.of_nat (n + m) < U64_MAX)%N → lock_held c'.1 = true ∧ st c'.1 = st c.1).
Proof.
  split.
  - intros w Hl. unfold give_up_restarting, locked, await. cbn [bind].
    eexists _, _, _. split; [done|]. cbv beta. rewrite Hl. split; [done|]. done.
  - intros n m c c' Hr Hl Hs Hn. destruct (reachable_rel n m c c' Hr Hs Hn) as (_ & Hrel & _). auto.
Qed.

(** The server's own handshake is never replayed: once one client's
    [notifications/initialized] was claimed for forwarding, no later one is, even when
    the child has been restarted since. *)
Theorem initialized_forwarded_once n m c c' :
  reachable n c → server_initialized (st c.1) = true → mux_steps m c c' →
  (N.of_nat (n + m) < U64_MAX)%N → (claim_initialized (st c'.1)).2 = false.
Proof.
  intros Hr Hi Hs Hn. destruct (reachable_rel n m c c' Hr Hs Hn) as [[_ _ Hrel _ _ _ _] _].
  unfold claim_initialized. by rewrite (Hrel Hi).
Qed.
End system.
