(* ===== verification/MuxLiveness.v ===== *)
(** * MuxLiveness: expired requests do not wait forever ([runtime/mod.rs])

    [reap_timeouts] runs beside all other tasks of a mux.  In every run in which the
    scheduler does not starve it, it takes a request that has expired out of the pending
    map, whatever the clients, the server and the manager do meanwhile; the one thing that
    can stop it is the lock that a mux which has given up never lets go. *)
From S2P Require Import Prelude Text Json Proc Shared MuxState MuxWorld MuxClient.
From S2P Require Import MuxServer Heartbeat MuxSystem.
From stdpp Require Import relations.

Section liveness.
Context `{Platform}.

(** ** Runs and fairness *)

(** An infinite run of the system: each configuration is a step after the one before. *)
Definition run_of (σ : nat → config World) : Prop :=
  ∀ k, sys_step mux_task mux_env (σ k) (σ (S k)).

(** The task [i] is not starved: among any [d] steps in a row there is one that the task
    takes, or one at which it could not run. *)
Definition fair (i d : nat) (σ : nat → config World) : Prop :=
  ∀ k, ∃ j, k ≤ j < k + d ∧ (step_at i (σ j) = Some (σ (S j)) ∨ step_at i (σ j) = None).

Lemma run_of_steps σ k m : run_of σ → mux_steps m (σ k) (σ (k + m)).
Proof.
  intros Hσ. induction m as [|m IH]; [rewrite Nat.add_0_r; constructor|].
  rewrite Nat.add_succ_r. eapply nsteps_r; [exact IH|apply Hσ].
Qed.

(** A step is the task's own or leaves the task alone. *)
Lemma step_cases i q c c' :
  sys_step mux_task mux_env c c' → c.2 !! i = Some q →
  c'.2 !! i = Some q ∨ step_at i c = Some c'.
Proof.
  intros Hs Hi. destruct Hs as [j f w w' p' ts Hj Hf|p w ts Hp|w w' ts Hw]; simpl in *; [|left..].
  - destruct (decide (j = i)) as [->|].
    + right. unfold step_at. simpl. by rewrite Hj, Hf.
    + left. by rewrite list_lookup_insert_ne.
  - rewrite lookup_app_l; [done|]. by eapply lookup_lt_Some.
  - done.
Qed.

(** ** The stages of a tick *)

(** The reaper once it has read the timeout. *)
Definition after_timeout (t : N) (evs : list bool) : proc World unit :=
  (let! expired := locked (reap_section t) in
   (if negb (bool_decide (length expired = 0%nat)) then
      locked (λ w, (fold_left (λ w cv,
        send_client cv.1 (error_response cv.2 "request timeout") w) expired w, tt))
    else Ret tt) ;;!
   publish_status) ;;!
  reap_timeouts evs.

Lemma step_timeout i evs c :
  c.2 !! i = Some (reap_timeouts (true :: evs)) →
  match step_at i c with
  | Some c' => c'.2 !! i = Some (after_timeout (request_timeout (st c.1)) evs)
  | None => lock_held c.1 = true
  end.
Proof.
  intros Hi. unfold step_at. rewrite Hi. cbn.
  destruct (lock_held c.1); [done|]. apply list_lookup_insert_eq. by eapply lookup_lt_Some.
Qed.

Lemma step_reap i t evs c :
  c.2 !! i = Some (after_timeout t evs) →
  match step_at i c with
  | Some c' => st c'.1 = st (reap_section t c.1).1
  | None => lock_held c.1 = true
  end.
Proof. intros Hi. unfold step_at. rewrite Hi. cbn. by destruct (lock_held c.1). Qed.

(** The section drops what has expired. *)
Lemma reap_section_drops t w gid p :
  pending (st w) !! gid = Some p → expired_at (now w) t p = true →
  pending (st (reap_section t w).1) !! gid = None.
Proof.
  intros Hp He. apply map_lookup_filter_None. right. intros q Hq. simpl.
  assert (q = p) as -> by congruence. by rewrite He.
Qed.

(** ** What the reaper is waited for *)
Section expired.
Context (i : nat) (evs : list bool) (c0 : config World) (n0 : nat).
Context (gid : string) (p : Pending).
Context (Hreach : reachable n0 c0) (Hp : pending (st c0.1) !! gid = Some p).
Context (Hexp : expired_at (now c0.1) (request_timeout (st c0.1)) p = true).

(** Where the reaper and the request stand: the tick has not begun, the timeout is read,
    the request is gone. *)
Definition waiting_tick (c : config World) : Prop := c.2 !! i = Some (reap_timeouts (true :: evs)).
Definition waiting_reap (c : config World) : Prop :=
  c.2 !! i = Some (after_timeout (request_timeout (st c0.1)) evs).
Definition gone (c : config World) : Prop := pending (st c.1) !! gid = None.

(** What holds of [c], [m] steps after [c0]. *)
Definition later (m : nat) (c : config World) : Prop :=
  mux_steps m c0 c ∧ (N.of_nat (n0 + m) < U64_MAX)%N.

Lemma later_rel m c : later m c → mux_rel c0.1 c.1.
Proof using Hreach. intros [Hs Hn]. by eapply reachable_rel. Qed.

(** The request is still the same one and still expired, unless it is gone. *)
Lemma still_expired m c :
  later m c → gone c ∨ pending (st c.1) !! gid = Some p ∧
    expired_at (now c.1) (request_timeout (st c0.1)) p = true.
Proof using Hreach Hp Hexp.
  intros Hl. destruct (later_rel _ _ Hl) as (Hr & _ & Hnow).
  unfold gone. destruct (pending (st c.1) !! gid) as [q|] eqn:E; [right|by left].
  destruct (reachable_inv _ _ Hreach) as [[Hinv _] _].
  destruct (inv_gid _ _ Hinv _ _ Hp) as (k & -> & Hk).
  destruct (rel_old _ _ Hr _ _ E) as [Hq|(c' & k' & [_ <-]%format_gid_inj & ?)]; [|lia].
  split; [congruence|]. unfold expired_at in *. apply N.ltb_lt in Hexp. apply N.ltb_lt. lia.
Qed.

Lemma gone_stays m c c' : later m c → later (S m) c' → gone c →
  sys_step mux_task mux_env c c' → gone c'.
Proof using Hreach Hp.
  intros Hl Hl' Hg Hs. unfold gone in *.
  destruct (reachable_inv _ _ Hreach) as [[Hinv _] _].
  destruct (inv_gid _ _ Hinv _ _ Hp) as (k & -> & Hk).
  assert (mux_rel c.1 c'.1) as [Hr _].
  { destruct Hreach as (t0 & cfg & hb & Hs0 & Hn0). destruct Hl as [Hl Hn], Hl' as [Hl' Hn'].
    eapply (reachable_rel (n0 + m) 1 c c').
    - exists t0, cfg, hb. split; [by eapply nsteps_trans|done].
    - by apply nsteps_once.
    - by replace (n0 + m + 1) with (n0 + S m) by lia. }
  eapply state_rel_gone; [done| |done].
  destruct (later_rel _ _ Hl) as [[] _]. lia.
Qed.

(** One step: what has been reached is kept, and the reaper's own step goes on to the next
    stage; it is only held up by the lock. *)
Definition reading (c : config World) : Prop := waiting_reap c ∨ gone c.
Definition ticking (c : config World) : Prop := waiting_tick c ∨ reading c.

Lemma own_reap m c c' : later m c → waiting_reap c → step_at i c = Some c' → gone c'.
Proof using Hreach Hp Hexp.
  intros Hl Hw Hs. pose proof (step_reap _ _ _ _ Hw) as Hr. rewrite Hs in Hr. unfold gone.
  rewrite Hr. destruct (still_expired _ _ Hl) as [Hg|[Hq He]].
  - apply map_lookup_filter_None. by left.
  - by eapply reap_section_drops.
Qed.

Lemma own_tick m c c' : later m c → waiting_tick c → step_at i c = Some c' → waiting_reap c'.
Proof using Hreach.
  intros Hl Hw Hs. pose proof (step_timeout _ _ _ Hw) as Hr. rewrite Hs in Hr.
  destruct (later_rel _ _ Hl) as [Hrel _]. unfold waiting_reap.
  by rewrite <- (rel_timeout _ _ Hrel).
Qed.

Lemma reading_step m c c' :
  later m c → later (S m) c' → sys_step mux_task mux_env c c' → reading c →
  reading c' ∧ (step_at i c = Some c' → gone c').
Proof using Hreach Hp Hexp.
  intros Hl Hl' Hs [Hw|Hg].
  - split; [|intros; by apply (own_reap m c c')].
    destruct (step_cases _ _ _ _ Hs Hw) as [|]; [by left|right; by apply (own_reap m c c')].
  - assert (gone c') by by apply (gone_stays m c c'). split; [by right|done].
Qed.

Lemma ticking_step m c c' :
  later m c → later (S m) c' → sys_step mux_task mux_env c c' → ticking c →
  ticking c' ∧ (step_at i c = Some c' → reading c').
Proof using Hreach Hp Hexp.
  intros Hl Hl' Hs [Hw|Hr].
  - split; [|intros; left; by apply (own_tick m c c')].
    destruct (step_cases _ _ _ _ Hs Hw) as [|]; [by left|right; left; by apply (own_tick m c c')].
  - destruct (reading_step _ _ _ Hl Hl' Hs Hr). split; [by right|done].
Qed.

Lemma held_up c : ticking c → step_at i c = None → lock_held c.1 = true ∨ gone c.
Proof using.
  intros [Hw|[Hw|Hg]] Hs; [left..|by right].
  - pose proof (step_timeout _ _ _ Hw) as Hr. by rewrite Hs in Hr.
  - pose proof (step_reap _ _ _ _ Hw) as Hr. by rewrite Hs in Hr.
Qed.

(** ** Along a run *)
Context (σ : nat → config World) (Hrun : run_of σ) (H0 : σ 0 = c0).

Lemma later_run k : (N.of_nat (n0 + k) < U64_MAX)%N → later k (σ k).
Proof using Hrun H0. split; [|done]. rewrite <- H0. by apply (run_of_steps σ 0). Qed.

(** A property that steps keep is kept. *)
Lemma kept (P : config World → Prop) k m :
  (∀ m c c', later m c → later (S m) c' → sys_step mux_task mux_env c c' → P c → P c') →
  k ≤ m → (N.of_nat (n0 + m) < U64_MAX)%N → P (σ k) → P (σ m).
Proof using Hrun H0.
  intros HP Hle. induction Hle as [|m Hle IH]; [done|]. intros Hm Hk.
  apply (HP m (σ m)); [apply later_run; lia|by apply later_run|apply Hrun|apply IH; [lia|done]].
Qed.

Lemma gone_kept k m :
  gone (σ k) → k ≤ m → (N.of_nat (n0 + m) < U64_MAX)%N → gone (σ m).
Proof using Hreach Hp Hrun H0. intros Hg Hk Hm. eapply (kept gone); eauto using gone_stays. Qed.

(** The two turns of the reaper fall within [2 * d] steps. *)
Context (d : nat) (Hfair : fair i d σ) (Htick : waiting_tick c0).
Context (Hbound : (N.of_nat (n0 + 2 * d) < U64_MAX)%N).
Lemma reaped_in_time : ∃ k, k ≤ 2 * d ∧ (lock_held (σ k).1 = true ∨ gone (σ k)).
Proof using All.
  destruct (Hfair 0) as (j & Hj & Hturn).
  assert (ticking (σ j)) as Ht.
  { apply (kept ticking 0); [|lia|lia|left; by rewrite H0].
    intros m c c' Hl Hl' Hs Ht. by apply (ticking_step m c c'). }
  destruct Hturn as [Hturn|Hb]; [|exists j; split; [lia|by apply held_up]].
  assert (reading (σ (S j))) as Hr.
  { eapply (ticking_step j); [apply later_run; lia|apply later_run; lia|apply Hrun|done..]. }
  destruct (Hfair (S j)) as (l & Hl & Hturn').
  assert (reading (σ l)) as Hrl.
  { apply (kept reading (S j)); [|lia|lia|done].
    intros m c c' H1 H2 Hs Ht'. by apply (reading_step m c c'). }
  destruct Hturn' as [Hturn'|Hb]; [|exists l; split; [lia|apply held_up; [by right|done]]].
  exists (S l). split; [lia|]. right.
  eapply (reading_step l); [apply later_run; lia|apply later_run; lia|apply Hrun|done..].
Qed.
End expired.

(** C10: A request that has expired does not stay: in every run of a mux, under every
    scheduler that lets the reaper take a step at least once in [d] when it can, the request
    leaves the pending map within [2 * d] steps of the reaper's tick and never comes back,
    whatever the other tasks do; or else the mux has given up and holds its lock. *)
Theorem expired_requests_are_reaped σ n i d evs gid p :
  run_of σ → fair i d σ → reachable n (σ 0) →
  (σ 0).2 !! i = Some (reap_timeouts (true :: evs)) →
  pending (st (σ 0).1) !! gid = Some p →
  expired_at (now (σ 0).1) (request_timeout (st (σ 0).1)) p = true →
  (N.of_nat (n + 2 * d) < U64_MAX)%N →
  ∃ k, k ≤ 2 * d ∧ (lock_held (σ k).1 = true ∨
    ∀ j, k ≤ j → (N.of_nat (n + j) < U64_MAX)%N → pending (st (σ j).1) !! gid = None).
Proof.
  intros Hrun Hfair Hreach Htick Hp Hexp Hb.
  destruct (reaped_in_time i evs (σ 0) n gid p Hreach Hp Hexp σ Hrun eq_refl d Hfair Htick Hb)
    as (k & Hk & [Hl|Hg]).
  - exists k. auto.
  - exists k. split; [done|]. right. intros j Hj Hn. by eapply gone_kept.
Qed.

(** ** A fair scheduler: it prefers the reaper, and lets time stand still when it waits *)
Definition prefer (i : nat) (c : config World) : config World :=
  match step_at i c with Some c' => c' | None => (c.1 <| now ::= λ t, t |>, c.2) end.
Definition preferring (i : nat) (c : config World) (k : nat) : config World := Nat.iter k (prefer i) c.

Lemma preferring_runs i c : run_of (preferring i c).
Proof.
  intros k. unfold preferring. simpl. generalize (Nat.iter k (prefer i) c). intros [w ts].
  unfold prefer. destruct (step_at i (w, ts)) as [c'|] eqn:E; [|by apply step_env, env_time].
  unfold step_at in E. simpl in E. destruct (ts !! i) as [[|f]|] eqn:Ei; [done| |done].
  destruct (f w) as [[w' p']|] eqn:Ef; [|done]. injection E as <-. by eapply step_task.
Qed.

Lemma preferring_fair i c : fair i 1 (preferring i c).
Proof.
  intros k. exists k. split; [lia|]. unfold preferring. simpl. unfold prefer at 2.
  destruct (step_at i (Nat.iter k (prefer i) c)) eqn:E; [by left|by right].
Qed.
End liveness.
