(* ===== verification/Status.v ===== *)
(** * Status: the daemon's status endpoint ([mux-agent/src/runtime/status.rs],
    [mux-agent/src/multi.rs])

    [collect_status] reads every server's state and builds the report that
    [print_status_table] shows. *)
From S2P Require Import Prelude Text Json Shared MuxState.

Definition DEFAULT_STATUS_SOCKET : string := "/tmp/rust-mux.status.sock".

Record DaemonStatus := mkDaemonStatus {
  ds_version : string;
  ds_uptime_ms : N;
  ds_uptime : string;
  ds_server_count : N;
  ds_running_count : N;
  ds_error_count : N;
  ds_servers : list MultiServerStatus;
}.

(** What is read of a server: its state and the free permits of its semaphore. *)
Record ServerRef := mkServerRef {
  sr_name : string;
  sr_state : MuxState;
  sr_available_permits : N;
  sr_max_active_clients : N;
}.

Record StatusState := mkStatusState {
  ss_servers : gmap string ServerRef;
  ss_start_time : N;
}.
#[export] Instance StatusState_eta : Eta StatusState := fun r =>
  mkStatusState (ss_servers r) (ss_start_time r).

Definition StatusState_new (now : N) : StatusState := mkStatusState ∅ now.

Definition register_server (r : ServerRef) (s : StatusState) : StatusState :=
  s <| ss_servers ::= <[sr_name r := r]> |>.

(** The level and the text of a server, from its status and its heartbeat. *)
Definition level_and_text (st : MuxState) : StatusLevel.StatusLevel * string :=
  match server_status st with
  | ServerStatus.Running =>
      if (0 <? consecutive_failures (heartbeat_metrics st))%N
      then (StatusLevel.Warn, "Running (heartbeat issues)")
      else (StatusLevel.Ok, "Running")
  | ServerStatus.Starting => (StatusLevel.Ok, "Starting")
  | ServerStatus.Restarting => (StatusLevel.Warn, "Restarting")
  | ServerStatus.Failed reason => (StatusLevel.Error, "Failed: " +:+ reason)
  | ServerStatus.Stopped => (StatusLevel.Lazy, "Stopped")
  | ServerStatus.Lazy => (StatusLevel.Lazy, "Lazy (not started)")
  | ServerStatus.Backoff => (StatusLevel.Error, "Backoff (restarting)")
  end.

(** Which of the two counters the [match] of [collect_status] moves. *)
Definition counts_running (s : ServerStatus.ServerStatus) : bool :=
  match s with
  | ServerStatus.Running | ServerStatus.Starting | ServerStatus.Restarting => true
  | _ => false
  end.
Definition counts_error (s : ServerStatus.ServerStatus) : bool :=
  match s with
  | ServerStatus.Failed _ | ServerStatus.Backoff => true
  | _ => false
  end.

(** The entry of one server. *)
Definition server_entry (now : N) (name : string) (r : ServerRef) : MultiServerStatus :=
  let st := sr_state r in
  let '(level, status_text) := level_and_text st in
  {| mss_name := name;
     mss_level := level;
     mss_status_text := status_text;
     mss_connected_clients := N.of_nat (size (clients st));
     mss_active_clients := (sr_max_active_clients r - sr_available_permits r)%N;
     mss_max_active_clients := sr_max_active_clients r;
     mss_pending_requests := N.of_nat (size (pending st));
     mss_restarts := restarts st;
     mss_uptime_ms := match started_at st with
                      | Some t => as_u64 (as_millis (now - t))
                      | None => 0%N
                      end;
     mss_in_backoff := in_backoff st;
     mss_heartbeat_latency_ms := avg_response_ms (heartbeat_metrics st) |}.

(** The accumulators of the loop over the servers. *)
Record Collected := mkCollected {
  col_servers : list MultiServerStatus;
  col_running : N;
  col_error : N;
}.

Definition collect_one (now : N) (acc : Collected) (kv : string * ServerRef) : Collected :=
  let status := server_status (sr_state kv.2) in
  mkCollected (col_servers acc ++ [server_entry now kv.1 kv.2])
    (if counts_running status then col_running acc + 1 else col_running acc)%N
    (if counts_error status then col_error acc + 1 else col_error acc)%N.

Definition by_name (a b : MultiServerStatus) : bool := str_leb (mss_name a) (mss_name b).

Section status.
Context `{Platform}.

(** [version] is [env!("CARGO_PKG_VERSION")]. *)
Definition collect_status (version : string) (now : N) (s : StatusState) : DaemonStatus :=
  let col := fold_left (collect_one now) (hash_iter (ss_servers s)) (mkCollected [] 0 0) in
  let uptime_ms := as_u64 (as_millis (now - ss_start_time s)) in
  {| ds_version := version;
     ds_uptime_ms := uptime_ms;
     ds_uptime := format_uptime uptime_ms;
     ds_server_count := N.of_nat (size (ss_servers s));
     ds_running_count := col_running col;
     ds_error_count := col_error col;
     ds_servers := sort_by by_name (col_servers col) |}.
End status.

(** ** The table *)
Definition short_status (status : string) : string :=
  if starts_with status "Running" then "UP"
  else if starts_with status "Starting" then "START"
  else if starts_with status "Lazy" then "LAZY"
  else if starts_with status "Failed" then "FAIL"
  else if starts_with status "Backoff" then "BACK"
  else if starts_with status "Restarting" then "RSTRT"
  else if starts_with status "Stopped" then "STOP"
  else status.

Definition state_icon (l : StatusLevel.StatusLevel) : string :=
  match l with
  | StatusLevel.Ok => "✓"
  | StatusLevel.Warn => "⚠"
  | StatusLevel.Error => "✗"
  | StatusLevel.Lazy => "○"
  end.

Fixpoint str_repeat (n : nat) (s : string) : string :=
  match n with O => "" | S n => s +:+ str_repeat n s end.
Definition table_rule : string := str_repeat 72 "─".

(** One row of six columns. *)
Definition table_row (a b c d e f : string) : string :=
  pad_left 20 a +:+ " " +:+ pad_center 8 b +:+ " " +:+ pad_right 8 c +:+ " " +:+
  pad_right 8 d +:+ " " +:+ pad_right 10 e +:+ " " +:+ pad_right 10 f.

Definition server_row (server : MultiServerStatus) : string :=
  table_row (mss_name server)
    (state_icon (mss_level server) +:+ " " +:+ short_status (mss_status_text server))
    (pretty (mss_active_clients server) +:+ "/" +:+ pretty (mss_max_active_clients server))
    (pretty (mss_pending_requests server))
    (pretty (mss_restarts server))
    (match mss_heartbeat_latency_ms server with
     | Some ms => pretty ms +:+ "ms"
     | None => "-"
     end).

(** The lines [print_status_table] prints. *)
Definition print_status_table (status : DaemonStatus) : list string :=
  ["rust-mux v" +:+ ds_version status +:+ " | uptime: " +:+ ds_uptime status;
   table_rule;
   table_row "Server" "State" "Clients" "Pending" "Restarts" "Heartbeat";
   table_rule] ++
  (server_row <$> ds_servers status) ++
  [table_rule;
   "Total: " +:+ pretty (ds_server_count status) +:+ " servers (" +:+
   pretty (ds_running_count status) +:+ " running, " +:+
   pretty (ds_error_count status) +:+ " errors)"].

Example short_status_mapping :
  short_status "Running (heartbeat issues)" = "UP" ∧
  short_status "Lazy (not started)" = "LAZY" ∧ short_status "Failed: timeout" = "FAIL".
Proof. by_compute. Qed.

(** ** Properties *)
Lemma fold_collect now l acc :
  let col := fold_left (collect_one now) l acc in
  col_servers col = col_servers acc ++ ((λ kv, server_entry now kv.1 kv.2) <$> l) ∧
  col_running col = (col_running acc +
    N.of_nat (length (retain (λ kv, counts_running (server_status (sr_state kv.2))) l)))%N ∧
  col_error col = (col_error acc +
    N.of_nat (length (retain (λ kv, counts_error (server_status (sr_state kv.2))) l)))%N.
Proof.
  revert acc. induction l as [|kv l IH]; intros acc; [rewrite app_nil_r; simpl; split_and!; lia || done|].
  simpl. destruct (IH (collect_one now acc kv)) as (-> & -> & ->).
  cbn [collect_one col_servers col_running col_error]. rewrite <- app_assoc.
  split_and!; [done|..]; case_match; simpl; lia.
Qed.

Section properties.
Context `{Platform}.

(** The daemon's report is complete and ordered: every registered server has exactly
    one entry, entries are in the order of their names, and the two counters are the
    numbers of servers that run and that are in an error state. *)
Theorem report_is_complete version now s :
  let report := collect_status version now s in
  ds_servers report ≡ₚ (λ kv, server_entry now kv.1 kv.2) <$> map_to_list (ss_servers s) ∧
  ordered by_name (ds_servers report) ∧
  N.of_nat (length (ds_servers report)) = ds_server_count report ∧
  ds_running_count report = N.of_nat (length (retain
    (λ kv, counts_running (server_status (sr_state kv.2))) (map_to_list (ss_servers s)))) ∧
  ds_error_count report = N.of_nat (length (retain
    (λ kv, counts_error (server_status (sr_state kv.2))) (map_to_list (ss_servers s)))) ∧
  (ds_running_count report + ds_error_count report ≤ ds_server_count report)%N.
Proof.
  intros report.
  destruct (fold_collect now (hash_iter (ss_servers s)) (mkCollected [] 0 0)) as (E1 & E2 & E3).
  assert (ds_servers report ≡ₚ (λ kv, server_entry now kv.1 kv.2) <$> map_to_list (ss_servers s)) as Hp.
  { subst report. unfold collect_status. cbn [ds_servers]. rewrite sort_by_perm, E1. simpl.
    by rewrite hash_iter_perm. }
  assert (ds_running_count report = N.of_nat (length (retain
    (λ kv, counts_running (server_status (sr_state kv.2))) (map_to_list (ss_servers s))))) as Hr.
  { subst report. unfold collect_status. cbn [ds_running_count]. rewrite E2. simpl.
    by rewrite hash_iter_perm. }
  assert (ds_error_count report = N.of_nat (length (retain
    (λ kv, counts_error (server_status (sr_state kv.2))) (map_to_list (ss_servers s))))) as He.
  { subst report. unfold collect_status. cbn [ds_error_count]. rewrite E3. simpl.
    by rewrite hash_iter_perm. }
  split_and!; [done| |by rewrite Hp, length_fmap, length_map_to_list|done|done|].
  - apply sort_by_ordered. intros a b. apply str_leb_total.
  - rewrite Hr, He. subst report. cbn [collect_status ds_server_count].
    rewrite <- (length_map_to_list (ss_servers s)).
    pose proof (retain_disjoint (λ kv : string * ServerRef, counts_running (server_status (sr_state kv.2)))
      (λ kv, counts_error (server_status (sr_state kv.2))) (map_to_list (ss_servers s))) as Hd.
    assert (∀ x : string * ServerRef, counts_running (server_status (sr_state x.2)) = true →
      counts_error (server_status (sr_state x.2)) = true → False) as Hx
      by (intros x; by destruct (server_status (sr_state x.2))).
    specialize (Hd Hx). lia.
Qed.
End properties.
