(* ===== verification/Proxy.v ===== *)
(** * Proxy: the STDIO bridge ([mux-agent/src/runtime/proxy.rs])

    [run_proxy] copies JSON-RPC messages between its standard streams and the mux's
    socket, and counts the requests that still wait for an answer. *)
From S2P Require Import Prelude Text Json.

(** What a framed reader yields: a message, a decoding error or the end. *)
Inductive Frame := Item (v : Value) | DecodeError | Eof.

(** The branch of the [select!] that fired, with the outcome of its write. *)
Inductive ProxyEvent :=
| StdinNext (msg : Frame) (write_ok : bool)
| SockNext (msg : Frame) (write_ok : bool).

Record ProxyState := mkProxyState {
  pending_requests : N;
  stdin_closed : bool;
  sock_out : list Value;    (* written to the socket *)
  stdout_out : list Value;  (* written to the standard output *)
}.
#[export] Instance ProxyState_eta : Eta ProxyState := fun r =>
  mkProxyState (pending_requests r) (stdin_closed r) (sock_out r) (stdout_out r).

Definition proxy_init : ProxyState := mkProxyState 0 false [] [].

Definition has (k : string) (v : Value) : bool := is_some (value_get k v).
Definition is_request (v : Value) : bool := has "id" v && has "method" v.
Definition is_response (v : Value) : bool := has "id" v && negb (has "method" v).

(** One round of the loop: [Err s] when it breaks in the state [s], and [None] when the
    branch is disabled (standard input after its end). *)
Definition proxy_step (ev : ProxyEvent) (s : ProxyState) :
    option (result ProxyState ProxyState) :=
  match ev with
  | StdinNext msg write_ok =>
      if stdin_closed s then None else Some
      match msg with
      | Item v =>
          let s := if is_request v then s <| pending_requests ::= λ n, u64_add n 1 |> else s in
          if write_ok then Ok (s <| sock_out ::= λ l, l ++ [v] |>) else Err s
      | DecodeError => Ok (s <| stdin_closed := true |>)
      | Eof => Ok (s <| stdin_closed := true |>)
      end
  | SockNext msg write_ok => Some
      match msg with
      | Item v =>
          let s := if is_response v then s <| pending_requests ::= N.pred |> else s in
          if negb write_ok then Err s else
          let s := s <| stdout_out ::= λ l, l ++ [v] |> in
          if stdin_closed s && (pending_requests s =? 0)%N then Err s else Ok s
      | DecodeError => Err s
      | Eof => Err s
      end
  end.

(** The loop on the events of a run: [Ok] when it is still waiting after them. *)
Fixpoint run_proxy (events : list ProxyEvent) (s : ProxyState) :
    option (result ProxyState ProxyState) :=
  match events with
  | [] => Some (Ok s)
  | ev :: events =>
      match proxy_step ev s with
      | Some (Ok s) => run_proxy events s
      | Some (Err s) => match events with [] => Some (Err s) | _ => None end
      | None => None
      end
  end.

(** ** What passes through *)
Definition from_stdin (events : list ProxyEvent) : list Value :=
  omap (λ ev, match ev with StdinNext (Item v) true => Some v | _ => None end) events.
Definition from_sock (events : list ProxyEvent) : list Value :=
  omap (λ ev, match ev with SockNext (Item v) true => Some v | _ => None end) events.

Definition final (r : result ProxyState ProxyState) : ProxyState :=
  match r with Ok s => s | Err s => s end.

(** What one round does to the counters and the outputs. *)
Lemma proxy_step_effect ev s r :
  proxy_step ev s = Some r →
  sock_out (final r) = sock_out s ++ from_stdin [ev] ∧
  stdout_out (final r) = stdout_out s ++ from_sock [ev].
Proof.
  unfold proxy_step. intros E.
  repeat (case_match; simplify_eq/=; try done); by rewrite ?app_nil_r.
Qed.

Lemma run_proxy_outputs events s r :
  run_proxy events s = Some r →
  sock_out (final r) = sock_out s ++ from_stdin events ∧
  stdout_out (final r) = stdout_out s ++ from_sock events.
Proof.
  revert s. induction events as [|ev events IH]; intros s; cbn [run_proxy].
  { intros [= <-]. by rewrite !app_nil_r. }
  destruct (proxy_step ev s) as [[s'|s']|] eqn:E; [| |done].
  - intros Hr. destruct (IH s' Hr) as [-> ->].
    destruct (proxy_step_effect _ _ _ E) as [E1 E2]. simpl in E1, E2. rewrite E1, E2, <- !app_assoc.
    by destruct ev as [[] []|[] []].
  - destruct events; [|done]. intros [= <-]. by apply proxy_step_effect.
Qed.

(** The balance of requests and answers: what an event asks and answers. *)
Definition asked (ev : ProxyEvent) : N :=
  match ev with StdinNext (Item v) true => if is_request v then 1 else 0 | _ => 0 end.
Definition answered (ev : ProxyEvent) : N :=
  match ev with SockNext (Item v) true => if is_response v then 1 else 0 | _ => 0 end.
Definition requests (events : list ProxyEvent) : N := foldr (λ ev n, asked ev + n)%N 0%N events.
Definition responses (events : list ProxyEvent) : N := foldr (λ ev n, answered ev + n)%N 0%N events.

Definition write_succeeds (ev : ProxyEvent) : bool :=
  match ev with StdinNext (Item _) ok | SockNext (Item _) ok => ok | _ => true end.

(** From [waiting] unanswered requests on, the server never answers more than was asked,
    and all writes succeed. *)
Fixpoint answers_asked (waiting : N) (events : list ProxyEvent) : Prop :=
  match events with
  | [] => True
  | ev :: events =>
      write_succeeds ev = true ∧ (answered ev ≤ waiting)%N ∧
      answers_asked (waiting + asked ev - answered ev) events
  end.

Lemma proxy_step_balance ev s r :
  proxy_step ev s = Some r → write_succeeds ev = true → (answered ev ≤ pending_requests s)%N →
  (pending_requests s + asked ev < U64_MODULUS)%N →
  pending_requests (final r) = (pending_requests s + asked ev - answered ev)%N.
Proof.
  intros E Hw Ha Hb. destruct ev as [[v| |] ok|[v| |] ok]; cbn in E, Hw; subst;
    cbn [asked answered] in *.
  - destruct (stdin_closed s); [done|]. injection E as <-.
    destruct (is_request v); simpl; [rewrite u64_add_small by done|]; lia.
  - destruct (stdin_closed s); [done|]. injection E as <-. simpl. lia.
  - destruct (stdin_closed s); [done|]. injection E as <-. simpl. lia.
  - injection E as <-. destruct (is_response v); simpl; case_match; simpl; lia.
  - injection E as <-. simpl. lia.
  - injection E as <-. simpl. lia.
Qed.

Lemma balance events s r :
  run_proxy events s = Some r → answers_asked (pending_requests s) events →
  (pending_requests s + requests events < U64_MODULUS)%N →
  (pending_requests (final r) + responses events = pending_requests s + requests events)%N.
Proof.
  revert s. induction events as [|ev events IH]; intros s; cbn [run_proxy answers_asked requests responses foldr].
  { intros [= <-] _ _. simpl. lia. }
  intros Hr (Hw & Ha & Hrest) Hb.
  fold (requests events) in *. fold (responses events) in *.
  destruct (proxy_step ev s) as [r1|] eqn:E; [|done].
  pose proof (proxy_step_balance ev s r1 E Hw Ha ltac:(lia)) as Hp.
  destruct r1 as [s'|s']; simpl in Hp.
  - rewrite <- Hp in Hrest. pose proof (IH s' Hr Hrest ltac:(lia)). lia.
  - destruct events; [|done]. injection Hr as <-. simpl. unfold requests, responses. simpl. lia.
Qed.

(** C40: The proxy passes every message on, in order and unchanged, in both directions;
    and while the server answers only what was asked, the counter it decides its end
    by is exactly the number of requests not answered yet. *)
Theorem proxy_conserves_messages events r :
  run_proxy events proxy_init = Some r →
  sock_out (final r) = from_stdin events ∧ stdout_out (final r) = from_sock events ∧
  (answers_asked 0 events → (requests events < U64_MODULUS)%N →
   (pending_requests (final r) + responses events = requests events)%N).
Proof.
  intros Hr. destruct (run_proxy_outputs _ _ _ Hr) as [-> ->]. split_and!; [done..|].
  intros Ha Hb. by apply (balance events proxy_init r).
Qed.

(** When standard input ends with nothing left to answer, the proxy goes on waiting:
    the end does not stop the loop, it does not shut the socket's write side, and after
    it only the socket can wake the loop. *)
Theorem idle_eof_keeps_proxy_running s :
  stdin_closed s = false → pending_requests s = 0%N →
  ∃ s', proxy_step (StdinNext Eof true) s = Some (Ok s') ∧ pending_requests s' = 0%N ∧
    sock_out s' = sock_out s ∧ ∀ msg ok, proxy_step (StdinNext msg ok) s' = None.
Proof. intros Hc Hp. unfold proxy_step. rewrite Hc. eexists. by split_and!. Qed.
