(* ===== verification/Paths.v ===== *)
(** * Paths: [std::path] on the byte strings the workspace passes around, and the
    vetted file accesses of [mux-agent/src/config.rs]

    A path is its string.  The file tree is the map from canonical paths to the
    contents of regular files; how a path resolves to its canonical form (symbolic
    links, the working directory) is the parameter [canon]. *)
From S2P Require Import Prelude Text.
From Stdlib Require Import Ascii.

Definition slash : ascii := "/"%char.
Definition dot : ascii := "."%char.

Definition is_absolute (p : string) : bool := starts_with p "/".
Definition ends_with_slash (p : string) : bool := starts_with (str_rev p) "/".

(** [Path::join]. *)
Definition path_join (a b : string) : string :=
  if is_absolute b || str_is_empty a then b
  else if ends_with_slash a then a +:+ b
  else a +:+ "/" +:+ b.

(** [s.rsplit_once(c)]. *)
Fixpoint rsplit_once (c : ascii) (s : string) : option (string * string) :=
  match s with
  | EmptyString => None
  | String a s' =>
      match rsplit_once c s' with
      | Some (l, r) => Some (String a l, r)
      | None => if bool_decide (a = c) then Some ("", s') else None
      end
  end.

(** The last normal component, with what stands before it (its separator included). *)
Fixpoint split_name (fuel : nat) (p : string) : option (string * string) :=
  match fuel with
  | O => None
  | S fuel =>
      match rsplit_once slash p with
      | None =>
          if str_eqb p "" || str_eqb p "." || str_eqb p ".." then None else Some ("", p)
      | Some (d, n) =>
          if str_eqb n "" || str_eqb n "." then split_name fuel d
          else if str_eqb n ".." then None
          else Some (d +:+ "/", n)
      end
  end.
Definition dir_and_name (p : string) : option (string * string) :=
  split_name (S (String.length p)) p.

Lemma rsplit_once_length c s l r :
  rsplit_once c s = Some (l, r) → (String.length l < String.length s)%nat.
Proof.
  revert l r. induction s as [|a s IH]; intros l r; cbn [rsplit_once]; [done|].
  destruct (rsplit_once c s) as [[l' r']|].
  - intros [= <- <-]. simpl. specialize (IH _ _ eq_refl). lia.
  - case_bool_decide; [|done]. intros [= <- <-]. simpl. lia.
Qed.

(** Every round drops a separator: the length of the path is enough. *)
Lemma split_name_fuel f g p :
  (String.length p < f)%nat → (String.length p < g)%nat → split_name f p = split_name g p.
Proof.
  revert g p. induction f as [|f IH]; intros [|g] p Hf Hg; try lia. cbn [split_name].
  destruct (rsplit_once slash p) as [[d n]|] eqn:E; [|done].
  apply rsplit_once_length in E. by rewrite (IH g d) by lia.
Qed.

Definition file_name (p : string) : option string := snd <$> dir_and_name p.

(** [file_stem] and [extension] of a name: a leading dot starts no extension. *)
Definition stem_and_extension (name : string) : string * option string :=
  match rsplit_once dot name with
  | Some ("", _) => (name, None)
  | Some (stem, ext) => (stem, Some ext)
  | None => (name, None)
  end.
Definition extension (p : string) : option string :=
  file_name p ≫= λ n, snd (stem_and_extension n).
Definition file_stem (p : string) : option string :=
  (λ n, fst (stem_and_extension n)) <$> file_name p.

(** [Path::with_extension]. *)
Definition with_extension (p ext : string) : string :=
  match dir_and_name p with
  | None => p
  | Some (d, n) =>
      let stem := fst (stem_and_extension n) in
      d +:+ stem +:+ (if str_is_empty ext then "" else "." +:+ ext)
  end.

Fixpoint strip_slashes (fuel : nat) (p : string) : string :=
  match fuel with
  | O => p
  | S fuel =>
      match rsplit_once slash p with
      | Some ("", "") => "/"
      | Some (d, "") => strip_slashes fuel d
      | _ => p
      end
  end.
Lemma strip_slashes_fuel f g p :
  (String.length p < f)%nat → (String.length p < g)%nat → strip_slashes f p = strip_slashes g p.
Proof.
  revert g p. induction f as [|f IH]; intros [|g] p Hf Hg; try lia. cbn [strip_slashes].
  destruct (rsplit_once slash p) as [[d n]|] eqn:E; [|done].
  apply rsplit_once_length in E. by rewrite (IH g d) by lia.
Qed.

(** [Path::parent] of a path that ends in a normal component. *)
Definition parent (p : string) : option string :=
  (λ dn, strip_slashes (S (String.length p)) (fst dn)) <$> dir_and_name p.

Example path_demo :
  file_name "/a/b.sock" = Some "b.sock" ∧ with_extension "/h/.claude.json" "bak" = "/h/.claude.bak" ∧
  with_extension "/h/config.toml" "tmp" = "/h/config.tmp" ∧ parent "/h/x/y" = Some "/h/x" ∧
  parent "/h" = Some "/" ∧ parent "h" = Some "" ∧ extension ".bashrc" = None ∧
  path_join "/s" "n.sock" = "/s/n.sock" ∧ file_name "/a/.." = None ∧ file_name "a/./" = Some "a".
Proof. by_compute. Qed.

(** A name that is joined to a directory is the file name of the path. *)
Definition has_no (c : ascii) (s : string) : bool := str_forall (λ a, negb (bool_decide (a = c))) s.

Lemma rsplit_once_none c s : has_no c s = true → rsplit_once c s = None.
Proof.
  unfold has_no. induction s as [|a s IH]; [done|]. cbn [str_forall rsplit_once].
  intros [Ha Hs]%andb_true_iff. rewrite IH by done. by destruct (bool_decide (a = c)).
Qed.

Lemma rsplit_once_app c a b : has_no c b = true → rsplit_once c (a +:+ String c b) = Some (a, b).
Proof.
  intros Hb. induction a as [|x a IH]; cbn [String.append rsplit_once].
  - rewrite rsplit_once_none by done. by rewrite bool_decide_true.
  - by rewrite IH.
Qed.

Lemma ends_with_slash_inv d : ends_with_slash d = true → ∃ d', d = d' +:+ "/".
Proof.
  assert (d = "" ∨ ∃ d' c, d = d' +:+ String c "") as [->|(d' & c & ->)].
  { induction d as [|a d [->|(d' & c & ->)]]; [by left|right; by exists "", a|right].
    by exists (String a d'), c. }
  - done.
  - unfold ends_with_slash, str_rev. rewrite str_rev_app_app. cbn [str_rev_app starts_with].
    unfold starts_with. cbn [String.prefix].
    destruct (ascii_dec "/" c) as [<-|]; [by exists d'|done].
Qed.

Lemma file_name_join d n :
  has_no slash n = true → is_absolute n = false → n ≠ "" → n ≠ "." → n ≠ ".." →
  file_name (path_join d n) = Some n.
Proof.
  intros Hs Ha H1 H2 H3. unfold path_join, file_name, dir_and_name. rewrite Ha. cbn [orb].
  assert (∀ a f, split_name (S f) (a +:+ String slash n) = Some (a +:+ "/", n)) as Hsplit.
  { intros a f. cbn [split_name]. rewrite rsplit_once_app by done. unfold str_eqb.
    by rewrite !bool_decide_false. }
  destruct (str_is_empty d) eqn:Ed; [|destruct (ends_with_slash d) eqn:Es].
  - cbn [split_name]. rewrite rsplit_once_none by done. unfold str_eqb. by rewrite !bool_decide_false.
  - apply ends_with_slash_inv in Es as [d' ->]. rewrite <- str_app_assoc. cbn [String.append].
    by rewrite Hsplit.
  - cbn [String.append]. by rewrite Hsplit.
Qed.

(** ** [expand_path]; [home] is the value of [HOME], if set. *)
Definition expand_path (home : option string) (raw : string) : string :=
  match strip_prefix "~/" raw, home with
  | Some stripped, Some home => path_join home stripped
  | _, _ => raw
  end.

(** The components of a path; a leading slash is one. *)
Definition components (p : string) : list string :=
  (if is_absolute p then ["/"] else []) ++
  retain (λ c, negb (str_eqb c "") && negb (str_eqb c ".")) (split_on slash p).
(** [Path::starts_with]. *)
Definition path_starts_with (p base : string) : bool :=
  bool_decide (take (length (components base)) (components p) = components base).

(** [Path::cmp] compares the components: a root before [..] before a name. *)
Definition component_rank (c : string) : N :=
  if str_eqb c "/" then 0 else if str_eqb c ".." then 1 else 2.
Definition compare_component (a b : string) : comparison :=
  match (component_rank a ?= component_rank b)%N with
  | Eq => String.compare a b
  | c => c
  end.
Fixpoint compare_components (a b : list string) : comparison :=
  match a, b with
  | [], [] => Eq
  | [], _ :: _ => Lt
  | _ :: _, [] => Gt
  | x :: a, y :: b => match compare_component x y with Eq => compare_components a b | c => c end
  end.
Definition path_compare (p q : string) : comparison := compare_components (components p) (components q).
Definition path_leb (p q : string) : bool :=
  match path_compare p q with Gt => false | _ => true end.

(** ** Files *)
Definition FileTree : Type := gmap string string.

Definition has_parent_component (p : string) : bool :=
  any (λ c, str_eqb c "..") (split_on slash p).

Section files.
Context (canon : string → string).

Definition path_exists (p : string) (fs : FileTree) : bool := is_some (fs !! canon p).

Definition reject_parent_components (p : string) : result string unit :=
  if has_parent_component p
  then Err ("refusing path with parent traversal component: " +:+ p) else Ok tt.

Definition vetted_existing_file (p : string) (fs : FileTree) : result string string :=
  try! _ := reject_parent_components p in
  match fs !! canon p with
  | Some _ => Ok (canon p)
  | None => Err ("failed to canonicalize " +:+ p)
  end.

Definition safe_read_to_string (p : string) (fs : FileTree) : result string string :=
  try! safe_path := vetted_existing_file p fs in
  ok_or (fs !! safe_path) ("failed to open " +:+ safe_path).

(** The parent directory is created and resolved, and the name is kept. *)
Definition vetted_output_file (p : string) : result string string :=
  try! _ := reject_parent_components p in
  match parent p, file_name p with
  | Some dir, Some name => Ok (path_join (canon dir) name)
  | None, _ => Err ("output path has no parent: " +:+ p)
  | _, None => Err ("output path has no file name: " +:+ p)
  end.

Definition safe_copy_file (src dst : string) (fs : FileTree) : result string FileTree :=
  try! safe_src := vetted_existing_file src fs in
  try! safe_dst := vetted_output_file dst in
  try! data := ok_or (fs !! safe_src) ("failed to open " +:+ safe_src) in
  Ok (<[safe_dst := data]> fs).

(** No path with a [..] component is ever read or written. *)
Lemma safe_read_no_parent p fs s :
  safe_read_to_string p fs = Ok s → has_parent_component p = false ∧ fs !! canon p = Some s.
Proof.
  unfold safe_read_to_string, vetted_existing_file, reject_parent_components.
  destruct (has_parent_component p); [done|]. simpl.
  destruct (fs !! canon p) as [d|] eqn:E; simpl; [|done]. rewrite E. by intros [= <-].
Qed.

Lemma safe_copy_copies src dst fs fs' :
  safe_copy_file src dst fs = Ok fs' →
  ∃ target data, vetted_output_file dst = Ok target ∧ fs !! canon src = Some data ∧
    fs' = <[target := data]> fs.
Proof.
  unfold safe_copy_file, vetted_existing_file, reject_parent_components.
  destruct (has_parent_component src); [done|]. simpl.
  destruct (fs !! canon src) as [d|] eqn:E; [|done]. simpl.
  destruct (vetted_output_file dst) as [t|]; [|done]. simpl. rewrite E. intros [= <-]. eauto.
Qed.
End files.
