(* ===== verification/Disk.v ===== *)
(** * Disk: what the operator console asks the file system

    The console only looks: every question of [std::fs] it asks is a field, answered by
    the disk as it is at that moment.  [Err] carries the error's text. *)
From S2P Require Import Prelude Text Paths.

Module FileKind.
Inductive FileKind := File | Dir | Symlink | Other.
End FileKind.
#[export] Instance FileKind_eq_dec : EqDecision FileKind.FileKind.
Proof. solve_decision. Defined.

Record Disk := mkDisk {
  lstat : string → result string FileKind.FileKind;  (* symlink_metadata *)
  stat : string → result string FileKind.FileKind;   (* metadata: links are followed *)
  canonicalize_path : string → result string string;
  list_dir : string → result string (list (result string string));
  read_text : string → result string string;
  modified : string → option Z;
}.

Section disk.
Context (d : Disk).

Definition has_kind (r : result string FileKind.FileKind) (k : FileKind.FileKind) : bool :=
  match r with Ok k' => bool_decide (k' = k) | Err _ => false end.

(** [Path::is_file] and [Path::is_dir]. *)
Definition is_file_path (p : string) : bool := has_kind (stat d p) FileKind.File.
Definition is_dir_path (p : string) : bool := has_kind (stat d p) FileKind.Dir.
(** A regular file or a directory that no link stands for. *)
Definition is_plain_file (p : string) : bool := has_kind (lstat d p) FileKind.File.
Definition is_plain_dir (p : string) : bool := has_kind (lstat d p) FileKind.Dir.
(** [entries.flatten()] and [filter_map(|e| e.ok())] of a directory that could be read. *)
Definition entries_of (p : string) : list string :=
  match list_dir d p with
  | Ok entries => omap result_ok entries
  | Err _ => []
  end.
End disk.

(** At most the first lines of a text, with a last line that says so. *)
Definition preview (limit : nat) (text : string) : list string :=
  let lines := str_lines text in
  take limit lines ++ (if bool_decide (limit < length lines)%nat then ["[truncated after " +:+ pretty (N.of_nat limit) +:+ " lines]"] else []).

(** ** Lists without repetition

    [seen.insert(x)] with the elements in the order of their first occurrence. *)
Section unseen.
Context {A : Type} (same : A → A → bool).

Definition push_unseen (out : list A) (x : A) : list A :=
  if any (same x) out then out else out ++ [x].
Definition push_all_unseen (out l : list A) : list A := foldl push_unseen out l.

(** The reference: every element that has no equal before it. *)
Fixpoint first_occurrences (l : list A) : list A :=
  match l with
  | [] => []
  | x :: l => x :: retain (λ y, negb (same y x)) (first_occurrences l)
  end.

Context (same_refl : ∀ x, same x x = true).
Context (same_sym : ∀ x y, same x y = same y x).
Context (same_trans : ∀ x y z, same x y = true → same y z = true → same x z = true).

Lemma same_cong x y z : same x y = true → same x z = same y z.
Proof using same_sym same_trans.
  intros E. destruct (same x z) eqn:E1, (same y z) eqn:E2; try done.
  - rewrite (same_sym x y) in E. by rewrite (same_trans y x z) in E2.
  - by rewrite (same_trans x y z) in E1.
Qed.

Lemma any_retain_same x y l :
  same x y = false → any (same x) (retain (λ z, negb (same z y)) l) = any (same x) l.
Proof using same_sym same_trans.
  intros Hn. apply eq_true_iff_eq. rewrite !any_true. setoid_rewrite elem_of_retain. split.
  - intros (z & [? _] & ?). eauto.
  - intros (z & Hz & E). exists z. split_and!; [done| |done]. apply negb_true_iff, not_true_iff_false.
    intros Hzy. by rewrite (same_trans x z y) in Hn.
Qed.

Lemma retain_comm (f g : A → bool) l : retain f (retain g l) = retain g (retain f l).
Proof using.
  unfold retain. induction l as [|x l IH]; [done|]. cbn [List.filter].
  destruct (g x) eqn:Eg, (f x) eqn:Ef; cbn [List.filter]; rewrite ?Eg, ?Ef, IH; done.
Qed.

Lemma first_occurrences_any x l : any (same x) (first_occurrences l) = any (same x) l.
Proof using same_sym same_trans.
  induction l as [|y l IH]; [done|]. cbn [first_occurrences any existsb].
  unfold any in *. cbn [existsb]. destruct (same x y) eqn:E; [done|].
  fold (any (same x) (retain (λ z, negb (same z y)) (first_occurrences l))).
  by rewrite any_retain_same.
Qed.

Lemma first_occurrences_snoc l x :
  first_occurrences (l ++ [x]) =
  if any (same x) l then first_occurrences l else first_occurrences l ++ [x].
Proof using same_sym.
  induction l as [|y l IH]; [done|]. cbn [app first_occurrences]. rewrite IH.
  unfold any. cbn [existsb]. fold (any (same x) l).
  destruct (same x y) eqn:E; cbn [orb].
  - destruct (any (same x) l); [done|]. rewrite retain_app. unfold retain at 2. cbn [List.filter].
    rewrite E. cbn [negb]. by rewrite app_nil_r.
  - destruct (any (same x) l); [done|]. rewrite retain_app. unfold retain at 2. cbn [List.filter].
    by rewrite E.
Qed.

Lemma push_all_unseen_spec l : push_all_unseen [] l = first_occurrences l.
Proof using same_sym same_trans.
  unfold push_all_unseen. induction l as [|x l IH] using rev_ind; [done|].
  rewrite foldl_app. cbn [foldl]. rewrite IH, first_occurrences_snoc. unfold push_unseen.
  by rewrite first_occurrences_any.
Qed.

(** No two elements of the result are equal, and every element has an equal in it. *)
Lemma first_occurrences_distinct l i j x y :
  first_occurrences l !! i = Some x → first_occurrences l !! j = Some y → same x y = true → i = j.
Proof using same_refl same_sym same_trans.
  revert i j x y. induction l as [|z l IH]; intros i j x y; [done|]. cbn [first_occurrences].
  assert (∀ k w, retain (λ y, negb (same y z)) (first_occurrences l) !! k = Some w → same w z = false)
    as Hf.
  { intros k w Hk%list_elem_of_lookup_2. apply elem_of_retain in Hk as [_ Hk].
    by apply negb_true_iff in Hk. }
  assert (∀ m i j x y, (∀ i j x y, m !! i = Some x → m !! j = Some y → same x y = true → i = j) →
    retain (λ y, negb (same y z)) m !! i = Some x → retain (λ y, negb (same y z)) m !! j = Some y →
    same x y = true → i = j) as Hret.
  { clear. intros m. unfold retain. induction m as [|w m IHm]; intros i j x y Hm; [done|].
    cbn [List.filter].
    assert (∀ i j x y, m !! i = Some x → m !! j = Some y → same x y = true → i = j) as Hm'.
    { intros i' j' x' y' Hx Hy E. specialize (Hm (S i') (S j') x' y' Hx Hy E). lia. }
    assert (∀ k v, List.filter (λ y, negb (same y z)) m !! k = Some v → v ∈ m) as Hin.
    { intros k v Hk%list_elem_of_lookup_2%list_elem_of_In. apply filter_In in Hk as [Hk _].
      by apply list_elem_of_In. }
    destruct (negb (same w z)); [|by apply IHm].
    destruct i as [|i], j as [|j]; cbn [lookup list_lookup]; intros Hx Hy E; [done| | |].
    - injection Hx as ->. apply Hin in Hy as [k Hk]%list_elem_of_lookup.
      specialize (Hm 0%nat (S k) x y eq_refl Hk E). lia.
    - injection Hy as ->. apply Hin in Hx as [k Hk]%list_elem_of_lookup.
      specialize (Hm (S k) 0%nat x y Hk eq_refl E). lia.
    - f_equal. by eapply IHm. }
  destruct i as [|i], j as [|j]; cbn [lookup list_lookup].
  - done.
  - intros [= <-] Hy E. apply Hf in Hy. rewrite same_sym in E. congruence.
  - intros Hx [= <-] E. apply Hf in Hx. by rewrite E in Hx.
  - intros Hx Hy E. f_equal. exact (Hret _ i j x y IH Hx Hy E).
Qed.
End unseen.
