(* ===== verification/Config.v ===== *)
(** * Config: configuration files, command line and library builder
    ([mux-agent/src/config.rs], [mux-agent/src/lib.rs])

    A mux is started from [ResolvedParams], which come from the command line together
    with one service of a configuration file ([resolve_params]), from every selected
    service ([resolve_params_multi]), or from the builder [MuxConfig]. *)
From S2P Require Import Prelude Text Json Paths.
From Stdlib Require Import Ascii.

Record ServerConfig := mkServerConfig {
  sc_socket : option string;
  sc_cmd : option string;
  sc_args : option (list string);
  sc_cwd : option string;
  sc_max_active_clients : option N;
  sc_tray : option bool;
  sc_service_name : option string;
  sc_log_level : option string;
  sc_lazy_start : option bool;
  sc_max_request_bytes : option N;
  sc_request_timeout_ms : option N;
  sc_restart_backoff_ms : option N;
  sc_restart_backoff_max_ms : option N;
  sc_max_restarts : option N;
  sc_status_file : option string;
  sc_env : option (gmap string string);
  sc_heartbeat_interval_ms : option N;
  sc_heartbeat_timeout_ms : option N;
  sc_heartbeat_max_failures : option N;
  sc_heartbeat_enabled : option bool;
}.

Record Config := mkConfig { servers : gmap string ServerConfig }.
Definition Config_default : Config := mkConfig ∅.

Record ResolvedParams := mkResolvedParams {
  rp_socket : string;
  rp_cmd : string;
  rp_args : list string;
  rp_cwd : option string;
  rp_max_clients : N;
  rp_tray_enabled : bool;
  rp_log_level : string;
  rp_service_name : string;
  rp_lazy_start : bool;
  rp_max_request_bytes : N;
  rp_request_timeout : N;
  rp_restart_backoff : N;
  rp_restart_backoff_max : N;
  rp_max_restarts : N;
  rp_status_file : option string;
  rp_env : option (gmap string string);
  rp_heartbeat_interval : N;
  rp_heartbeat_timeout : N;
  rp_heartbeat_max_failures : N;
  rp_heartbeat_enabled : bool;
}.

(** The getters of a [CliOptions] object. *)
Record CliOptions := mkCliOptions {
  cli_socket : option string;
  cli_cmd : option string;
  cli_args : list string;
  cli_max_active_clients : N;
  cli_lazy_start : option bool;
  cli_max_request_bytes : option N;
  cli_request_timeout_ms : option N;
  cli_restart_backoff_ms : option N;
  cli_restart_backoff_max_ms : option N;
  cli_max_restarts : option N;
  cli_log_level : string;
  cli_tray : bool;
  cli_service_name : option string;
  cli_service : option string;
  cli_status_file : option string;
  cli_heartbeat_interval_ms : option N;
  cli_heartbeat_timeout_ms : option N;
  cli_heartbeat_max_failures : option N;
  cli_heartbeat_enabled : option bool;
  cli_only : option (list string);
  cli_except : option (list string);
}.
#[export] Instance CliOptions_eta : Eta CliOptions := fun r =>
  mkCliOptions (cli_socket r) (cli_cmd r) (cli_args r) (cli_max_active_clients r)
    (cli_lazy_start r) (cli_max_request_bytes r) (cli_request_timeout_ms r)
    (cli_restart_backoff_ms r) (cli_restart_backoff_max_ms r) (cli_max_restarts r)
    (cli_log_level r) (cli_tray r) (cli_service_name r) (cli_service r) (cli_status_file
    r) (cli_heartbeat_interval_ms r) (cli_heartbeat_timeout_ms r)
    (cli_heartbeat_max_failures r) (cli_heartbeat_enabled r) (cli_only r) (cli_except
    r).

(** [socket.file_name().and_then(|n| n.split('.').next())]. *)
Definition name_of_socket (socket : string) : option string :=
  file_name socket ≫= λ n, head (split_on dot n).

Section resolve.
Context (home : option string).

(** The value of a setting: the command line, then the service's entry, then the
    default. *)
Definition cli_first {A} (cli cfg : option A) (d : A) : A := unwrap_or (opt_or cli cfg) d.

Definition resolve_params (cli : CliOptions) (config : option Config) :
    result string ResolvedParams :=
  try! service_cfg :=
    match config, cli_service cli with
    | Some cfg, Some name =>
        match servers cfg !! name with
        | Some found => Ok (Some found)
        | None => Err ("service '" +:+ name +:+ "' not found in config")
        end
    | _, _ => Ok None
    end in
  if is_some config && is_none (cli_service cli)
  then Err "--service is required when using --config" else
  let cfg {A} (f : ServerConfig → option A) : option A := service_cfg ≫= f in
  try! socket := ok_or (opt_or (cli_socket cli) (expand_path home <$> cfg sc_socket))
                   "socket path not provided (use --socket or config)" in
  try! cmd := ok_or (opt_or (cli_cmd cli) (cfg sc_cmd))
                "cmd not provided (use --cmd or config)" in
  Ok {|
    rp_socket := socket;
    rp_cmd := cmd;
    rp_args := match cli_args cli with
               | [] => unwrap_or (cfg sc_args) []
               | args => args
               end;
    rp_cwd := expand_path home <$> cfg sc_cwd;
    rp_max_clients := unwrap_or (cfg sc_max_active_clients) (cli_max_active_clients cli);
    rp_tray_enabled := if cli_tray cli then true else unwrap_or (cfg sc_tray) false;
    rp_log_level := unwrap_or (cfg sc_log_level) (cli_log_level cli);
    rp_service_name :=
      unwrap_or (opt_or (cli_service_name cli)
                   (opt_or (cfg sc_service_name) (name_of_socket socket))) "rust_mux";
    rp_lazy_start := cli_first (cli_lazy_start cli) (cfg sc_lazy_start) false;
    rp_max_request_bytes :=
      cli_first (cli_max_request_bytes cli) (cfg sc_max_request_bytes) 1048576%N;
    rp_request_timeout :=
      from_millis (cli_first (cli_request_timeout_ms cli) (cfg sc_request_timeout_ms) 30000%N);
    rp_restart_backoff :=
      from_millis (cli_first (cli_restart_backoff_ms cli) (cfg sc_restart_backoff_ms) 1000%N);
    rp_restart_backoff_max :=
      from_millis (cli_first (cli_restart_backoff_max_ms cli)
                     (cfg sc_restart_backoff_max_ms) 30000%N);
    rp_max_restarts := cli_first (cli_max_restarts cli) (cfg sc_max_restarts) 5%N;
    rp_status_file := opt_or (cli_status_file cli) (expand_path home <$> cfg sc_status_file);
    rp_env := cfg sc_env;
    rp_heartbeat_interval :=
      from_millis (cli_first (cli_heartbeat_interval_ms cli)
                     (cfg sc_heartbeat_interval_ms) 30000%N);
    rp_heartbeat_timeout :=
      from_millis (cli_first (cli_heartbeat_timeout_ms cli)
                     (cfg sc_heartbeat_timeout_ms) 30000%N);
    rp_heartbeat_max_failures :=
      cli_first (cli_heartbeat_max_failures cli) (cfg sc_heartbeat_max_failures) 3%N;
    rp_heartbeat_enabled :=
      cli_first (cli_heartbeat_enabled cli) (cfg sc_heartbeat_enabled) true;
  |}.

(** [SingleCli]: the parent's options with one service selected. *)
Definition SingleCli (parent : CliOptions) (service : string) : CliOptions :=
  parent <| cli_service := Some service |> <| cli_only := None |> <| cli_except := None |>.

Definition selected (cli : CliOptions) (name : string) : bool :=
  match cli_only cli with
  | Some only_list => any (str_eqb name) only_list
  | None => true
  end &&
  match cli_except cli with
  | Some except_list => negb (any (str_eqb name) except_list)
  | None => true
  end.

(** The loop over the names, up to the first error. *)
Fixpoint resolve_all (cli : CliOptions) (config : Config) (names : list string) :
    result string (list ResolvedParams) :=
  match names with
  | [] => Ok []
  | name :: names =>
      if negb (selected cli name) then resolve_all cli config names else
      try! p := resolve_params (SingleCli cli name) (Some config) in
      try! ps := resolve_all cli config names in
      Ok (p :: ps)
  end.

Definition resolve_params_multi `{Platform} (cli : CliOptions) (config : Config) :
    result string (list ResolvedParams) :=
  resolve_all cli config (fst <$> hash_iter (servers config)).

(** ** Configuration files

    The deserializers of the three formats are parameters. *)
Context (canon : string → string).
Context (from_yaml from_toml from_json : string → option Config).

Definition load_config (path : string) (fs : FileTree) : result string (option Config) :=
  if negb (path_exists canon path fs) then Ok None else
  match safe_read_to_string canon path fs with
  | Err _ => Err ("failed to read config at " +:+ path)
  | Ok data =>
      let ext := to_ascii_lowercase (unwrap_or (extension path) "") in
      if str_eqb ext "yaml" || str_eqb ext "yml" then
        Some <$$> ok_or (from_yaml data) ("failed to parse yaml config " +:+ path)
      else if str_eqb ext "toml" then
        Some <$$> ok_or (from_toml data) ("failed to parse toml config " +:+ path)
      else Some <$$> ok_or (from_json data) ("failed to parse json config " +:+ path)
  end.

(** The parser that the extension of a path selects. *)
Definition parser_of (path : string) : string → option Config :=
  let ext := to_ascii_lowercase (unwrap_or (extension path) "") in
  if str_eqb ext "yaml" || str_eqb ext "yml" then from_yaml
  else if str_eqb ext "toml" then from_toml else from_json.

Lemma load_config_reads path fs data config :
  has_parent_component path = false → fs !! canon path = Some data →
  parser_of path data = Some config → load_config path fs = Ok (Some config).
Proof using.
  intros Hp Hd Hc. unfold load_config, path_exists, safe_read_to_string, vetted_existing_file,
    reject_parent_components, parser_of in *. rewrite Hp, Hd. cbn [is_some negb result_bind].
  rewrite Hd. cbn [ok_or]. cbv zeta in *. by repeat (case_match; [by rewrite Hc|]); rewrite Hc.
Qed.
End resolve.

(** ** The library's builder *)
Record MuxConfig := mkMuxConfig {
  mc_socket : string;
  mc_cmd : string;
  mc_args : list string;
  mc_env : gmap string string;
  mc_max_clients : N;
  mc_service_name : option string;
  mc_log_level : string;
  mc_lazy_start : bool;
  mc_max_request_bytes : N;
  mc_request_timeout : N;
  mc_restart_backoff : N;
  mc_restart_backoff_max : N;
  mc_max_restarts : N;
  mc_status_file : option string;
  mc_tray_enabled : bool;
  mc_heartbeat_interval : N;
  mc_heartbeat_timeout : N;
  mc_heartbeat_max_failures : N;
  mc_heartbeat_enabled : bool;
}.
#[export] Instance MuxConfig_eta : Eta MuxConfig := fun r =>
  mkMuxConfig (mc_socket r) (mc_cmd r) (mc_args r) (mc_env r) (mc_max_clients r)
    (mc_service_name r) (mc_log_level r) (mc_lazy_start r) (mc_max_request_bytes r)
    (mc_request_timeout r) (mc_restart_backoff r) (mc_restart_backoff_max r)
    (mc_max_restarts r) (mc_status_file r) (mc_tray_enabled r) (mc_heartbeat_interval r)
    (mc_heartbeat_timeout r) (mc_heartbeat_max_failures r) (mc_heartbeat_enabled r).

Definition MuxConfig_new (socket cmd : string) : MuxConfig := {|
  mc_socket := socket;
  mc_cmd := cmd;
  mc_args := [];
  mc_env := ∅;
  mc_max_clients := 5;
  mc_service_name := None;
  mc_log_level := "info";
  mc_lazy_start := false;
  mc_max_request_bytes := 1048576;
  mc_request_timeout := from_secs 30;
  mc_restart_backoff := from_secs 1;
  mc_restart_backoff_max := from_secs 30;
  mc_max_restarts := 5;
  mc_status_file := None;
  mc_tray_enabled := false;
  mc_heartbeat_interval := from_secs 30;
  mc_heartbeat_timeout := from_secs 30;
  mc_heartbeat_max_failures := 3;
  mc_heartbeat_enabled := true;
|}.

Definition with_args (args : list string) (self : MuxConfig) : MuxConfig :=
  self <| mc_args := args |>.
Definition with_env (env : gmap string string) (self : MuxConfig) : MuxConfig :=
  self <| mc_env := env |>.
Definition with_env_var (key value : string) (self : MuxConfig) : MuxConfig :=
  self <| mc_env ::= <[key := value]> |>.
Definition with_max_clients (max : N) (self : MuxConfig) : MuxConfig :=
  self <| mc_max_clients := max |>.
Definition with_service_name (name : string) (self : MuxConfig) : MuxConfig :=
  self <| mc_service_name := Some name |>.
Definition with_log_level (level : string) (self : MuxConfig) : MuxConfig :=
  self <| mc_log_level := level |>.
Definition with_lazy_start (lazy : bool) (self : MuxConfig) : MuxConfig :=
  self <| mc_lazy_start := lazy |>.
Definition with_max_request_bytes (bytes : N) (self : MuxConfig) : MuxConfig :=
  self <| mc_max_request_bytes := bytes |>.
Definition with_request_timeout (timeout : N) (self : MuxConfig) : MuxConfig :=
  self <| mc_request_timeout := timeout |>.
Definition with_restart_backoff (initial max : N) (self : MuxConfig) : MuxConfig :=
  self <| mc_restart_backoff := initial |> <| mc_restart_backoff_max := max |>.
Definition with_max_restarts (max : N) (self : MuxConfig) : MuxConfig :=
  self <| mc_max_restarts := max |>.
Definition with_status_file (path : string) (self : MuxConfig) : MuxConfig :=
  self <| mc_status_file := Some path |>.
Definition with_tray (enabled : bool) (self : MuxConfig) : MuxConfig :=
  self <| mc_tray_enabled := enabled |>.
Definition with_heartbeat (interval timeout : N) (self : MuxConfig) : MuxConfig :=
  self <| mc_heartbeat_interval := interval |> <| mc_heartbeat_timeout := timeout |>.
Definition with_heartbeat_max_failures (max_failures : N) (self : MuxConfig) : MuxConfig :=
  self <| mc_heartbeat_max_failures := max_failures |>.
Definition with_heartbeat_enabled (enabled : bool) (self : MuxConfig) : MuxConfig :=
  self <| mc_heartbeat_enabled := enabled |>.

Definition MuxConfig_service_name (self : MuxConfig) : string :=
  unwrap_or (opt_or (mc_service_name self) (name_of_socket (mc_socket self))) "rust_mux".

(** [impl From<MuxConfig> for ResolvedParams]. *)
Definition from_MuxConfig (cfg : MuxConfig) : ResolvedParams := {|
  rp_socket := mc_socket cfg;
  rp_cmd := mc_cmd cfg;
  rp_args := mc_args cfg;
  rp_cwd := None;
  rp_env := None;
  rp_max_clients := mc_max_clients cfg;
  rp_tray_enabled := mc_tray_enabled cfg;
  rp_log_level := mc_log_level cfg;
  rp_service_name := MuxConfig_service_name cfg;
  rp_lazy_start := mc_lazy_start cfg;
  rp_max_request_bytes := mc_max_request_bytes cfg;
  rp_request_timeout := mc_request_timeout cfg;
  rp_restart_backoff := mc_restart_backoff cfg;
  rp_restart_backoff_max := mc_restart_backoff_max cfg;
  rp_max_restarts := mc_max_restarts cfg;
  rp_status_file := mc_status_file cfg;
  rp_heartbeat_interval := from_secs 30;
  rp_heartbeat_timeout := from_secs 30;
  rp_heartbeat_max_failures := 3;
  rp_heartbeat_enabled := true;
|}.

(** ** Properties *)

(** What the parameters of one service are made from. *)
Definition setting (config : Config) (name : string) {A} (f : ServerConfig → option A) : option A :=
  servers config !! name ≫= f.

Lemma resolve_params_Ok home cli config name :
  cli_service cli = Some name →
  (∃ p, resolve_params home cli (Some config) = Ok p) ↔
  is_Some (servers config !! name) ∧
  is_Some (opt_or (cli_socket cli) (setting config name sc_socket)) ∧
  is_Some (opt_or (cli_cmd cli) (setting config name sc_cmd)).
Proof.
  intros Hn. unfold resolve_params, setting. rewrite Hn.
  destruct (servers config !! name) as [sc|]; simpl.
  2:{ split; [intros [? [=]]|intros [[? [=]] _]]. }
  destruct (cli_socket cli); simpl; [|destruct (sc_socket sc); simpl].
  all: destruct (cli_cmd cli); simpl; [|destruct (sc_cmd sc); simpl].
  all: split; [intros [? [=]]; split_and!; eauto|intros (? & [? [=]] & [? [=]]); eauto].
Qed.

(** One service of a configuration file resolves exactly when the service is in the
    file and a socket and a command are given by the command line or by the file; the
    command line wins for both, and all other settings have defaults. *)
Theorem resolve_service_total home cli config name :
  cli_service cli = Some name →
  ((∃ p, resolve_params home cli (Some config) = Ok p) ↔
     is_Some (servers config !! name) ∧
     is_Some (opt_or (cli_socket cli) (setting config name sc_socket)) ∧
     is_Some (opt_or (cli_cmd cli) (setting config name sc_cmd))) ∧
  (∀ p, resolve_params home cli (Some config) = Ok p →
     Some (rp_socket p) =
       opt_or (cli_socket cli) (expand_path home <$> setting config name sc_socket) ∧
     Some (rp_cmd p) = opt_or (cli_cmd cli) (setting config name sc_cmd) ∧
     rp_restart_backoff p = from_millis (default 1000%N
       (opt_or (cli_restart_backoff_ms cli) (setting config name sc_restart_backoff_ms))) ∧
     rp_max_clients p =
       default (cli_max_active_clients cli) (setting config name sc_max_active_clients) ∧
     rp_env p = setting config name sc_env).
Proof.
  intros Hn. split; [by apply resolve_params_Ok|]. intros p.
  unfold resolve_params, setting. rewrite Hn.
  destruct (servers config !! name) as [sc|]; simpl; [|done].
  destruct (opt_or (cli_socket cli) _) as [sock|]; simpl; [|done].
  destruct (opt_or (cli_cmd cli) _) as [cmd|]; simpl; [|done].
  intros [= <-]. by split_and!.
Qed.

Lemma resolve_all_Ok home cli config names ps :
  resolve_all home cli config names = Ok ps →
  Forall2 (λ name p, resolve_params home (SingleCli cli name) (Some config) = Ok p)
    (retain (selected cli) names) ps.
Proof.
  revert ps. induction names as [|name names IH]; intros ps; cbn [resolve_all].
  - intros [= <-]. constructor.
  - unfold retain. simpl. destruct (selected cli name); simpl; [|apply IH].
    intros (p & Hp & (ps' & Hps & [= <-])%result_bind_Ok_inv)%result_bind_Ok_inv.
    constructor; [done|by apply IH].
Qed.

(** Starting several services at once gives each selected service of the file its own
    parameters, once: the services named by [--only] when it is given, without those
    named by [--except], and nothing else. *)
Theorem multi_resolves_the_selected `{Platform} home cli config ps :
  resolve_params_multi home cli config = Ok ps →
  ∃ names, NoDup names ∧
    (∀ name, name ∈ names ↔ is_Some (servers config !! name) ∧ selected cli name = true) ∧
    Forall2 (λ name p, resolve_params home (SingleCli cli name) (Some config) = Ok p) names ps.
Proof.
  intros Hps%resolve_all_Ok.
  exists (retain (selected cli) (fst <$> hash_iter (servers config))).
  split_and!; [|..|done].
  - unfold retain. apply NoDup_ListNoDup, List.NoDup_filter, NoDup_ListNoDup.
    rewrite hash_iter_perm. apply NoDup_fst_map_to_list.
  - intros name. rewrite elem_of_retain, list_elem_of_fmap. split.
    + intros [([n sc] & -> & Hin%hash_iter_elem) ?]. eauto.
    + intros [[sc Hsc] ?]. split; [|done]. exists (name, sc). by rewrite hash_iter_elem.
Qed.

(** The conversion of the builder's configuration forgets part of it: whatever
    environment and heartbeat settings were given, the mux runs with none of the
    variables and with the default heartbeat. *)
Theorem builder_settings_lost cfg :
  rp_env (from_MuxConfig cfg) = None ∧
  rp_heartbeat_interval (from_MuxConfig cfg) = from_secs 30 ∧
  rp_heartbeat_timeout (from_MuxConfig cfg) = from_secs 30 ∧
  rp_heartbeat_max_failures (from_MuxConfig cfg) = 3%N ∧
  rp_heartbeat_enabled (from_MuxConfig cfg) = true ∧
  ∀ k v enabled,
    from_MuxConfig (with_heartbeat_enabled enabled (with_env_var k v cfg)) = from_MuxConfig cfg.
Proof. by split_and!. Qed.
