(* ===== verification/Scan.v ===== *)
(** * Scan: finding and merging the MCP servers of the installed clients
    ([mux-agent/src/scan.rs])

    Every client keeps its servers in a file of its own, in one of four schemas.
    [scan_host_file] reads one, [merge_services] combines them, [build_manifest] and
    [generate_snippet] write what the mux and the clients need, [rewire_host] rewrites
    one client's file. *)
From S2P Require Import Prelude Text Json Paths Config.
From Stdlib Require Import Ascii.

(** ** Data *)
Module HostKind.
Inductive HostKind :=
| Codex | Claude | ClaudeDesktop | Junie | Gemini | Cursor | VSCode | JetBrains
| Custom | Unknown.
End HostKind.
#[export] Instance HostKind_eq_dec : EqDecision HostKind.HostKind.
Proof. solve_decision. Defined.

Definition as_label (k : HostKind.HostKind) : string :=
  match k with
  | HostKind.Codex => "codex"
  | HostKind.Claude => "claude"
  | HostKind.ClaudeDesktop => "claude-desktop"
  | HostKind.Junie => "junie"
  | HostKind.Gemini => "gemini"
  | HostKind.Cursor => "cursor"
  | HostKind.VSCode => "vscode"
  | HostKind.JetBrains => "jetbrains"
  | HostKind.Custom => "custom"
  | HostKind.Unknown => "unknown"
  end.

Definition display_name (k : HostKind.HostKind) : string :=
  match k with
  | HostKind.Codex => "Codex CLI"
  | HostKind.Claude => "Claude Code"
  | HostKind.ClaudeDesktop => "Claude Desktop"
  | HostKind.Junie => "Junie"
  | HostKind.Gemini => "Gemini CLI"
  | HostKind.Cursor => "Cursor"
  | HostKind.VSCode => "VS Code"
  | HostKind.JetBrains => "JetBrains IDEs"
  | HostKind.Custom => "Custom"
  | HostKind.Unknown => "Unknown"
  end.

Module HostFormat.
Inductive HostFormat := Toml | Json.
End HostFormat.
Module ConfigSchema.
Inductive ConfigSchema := McpServersJson | ServersJson | McpServersToml | AutoJson.
End ConfigSchema.
Module Confidence.
Inductive Confidence := High | Medium | Low.
End Confidence.

Record HostFile := mkHostFile {
  kind : HostKind.HostKind;
  path : string;
  format : HostFormat.HostFormat;
  schema : ConfigSchema.ConfigSchema;
  confidence : Confidence.Confidence;
  writable : bool;
  eligible_for_danger : bool;
}.

Record HostService := mkHostService {
  name : string;
  command : string;
  args : list string;
  cwd : option string;
  socket : option string;
  env : option (gmap string string);
  service_enabled : option bool;
}.
#[export] Instance HostService_eta : Eta HostService := fun r =>
  mkHostService (name r) (command r) (args r) (cwd r) (socket r) (env r) (service_enabled r).

Record ScanResult := mkScanResult { host : HostFile; services : list HostService }.

Record ConflictVariant := mkConflictVariant {
  source_path : string;
  source_kind : HostKind.HostKind;
  variant_service : HostService;
}.
Record ConflictReport := mkConflictReport {
  conflict_name : string;
  variants : list ConflictVariant;
}.
Record MergeOutcome := mkMergeOutcome {
  merged_services : list HostService;
  conflicts : list ConflictReport;
}.
Record RewireOutcome := mkRewireOutcome {
  rewired_path : string;
  backup : option string;
  file_written : bool;
}.

(** ** Sources *)
Definition default_sources (home : option string) : list HostFile := [
  mkHostFile HostKind.Claude (expand_path home "~/.claude.json")
    HostFormat.Json ConfigSchema.McpServersJson Confidence.High true true;
  mkHostFile HostKind.ClaudeDesktop (expand_path home "~/Library/Application Support/Claude/claude_desktop_config.json")
    HostFormat.Json ConfigSchema.McpServersJson Confidence.High true true;
  mkHostFile HostKind.Codex (expand_path home "~/.codex/config.toml")
    HostFormat.Toml ConfigSchema.McpServersToml Confidence.High true true;
  mkHostFile HostKind.Junie (expand_path home "~/.junie/mcp/mcp.json")
    HostFormat.Json ConfigSchema.McpServersJson Confidence.High true true;
  mkHostFile HostKind.Junie (expand_path home "~/.agents/mcp.json")
    HostFormat.Json ConfigSchema.AutoJson Confidence.Medium true true;
  mkHostFile HostKind.Junie (expand_path home "~/.ai/mcp.json")
    HostFormat.Json ConfigSchema.AutoJson Confidence.Medium true true;
  mkHostFile HostKind.Gemini (expand_path home "~/.gemini/settings.json")
    HostFormat.Json ConfigSchema.AutoJson Confidence.Medium true false;
  mkHostFile HostKind.Cursor (expand_path home "~/Library/Application Support/Cursor/User/settings.json")
    HostFormat.Json ConfigSchema.AutoJson Confidence.Medium true true;
  mkHostFile HostKind.Cursor (expand_path home "~/.config/Cursor/User/settings.json")
    HostFormat.Json ConfigSchema.AutoJson Confidence.Medium true true;
  mkHostFile HostKind.VSCode (expand_path home "~/Library/Application Support/Code/User/settings.json")
    HostFormat.Json ConfigSchema.AutoJson Confidence.Medium true true;
  mkHostFile HostKind.VSCode (expand_path home "~/.config/Code/User/settings.json")
    HostFormat.Json ConfigSchema.AutoJson Confidence.Medium true true;
  mkHostFile HostKind.JetBrains (expand_path home "~/Library/Application Support/JetBrains/LLM/mcp.json")
    HostFormat.Json ConfigSchema.AutoJson Confidence.Medium true true
].

Definition host_file_from_custom_path (p : string) : HostFile :=
  let format := match to_ascii_lowercase <$> extension p with
                | Some "toml" => HostFormat.Toml
                | _ => HostFormat.Json
                end in
  let schema := match format with
                | HostFormat.Toml => ConfigSchema.McpServersToml
                | HostFormat.Json => ConfigSchema.AutoJson
                end in
  mkHostFile HostKind.Custom p format schema Confidence.Medium true true.

(** ** Parsing *)
Record RawServer := mkRawServer {
  raw_command : option string;
  raw_args : option (list string);
  raw_cwd : option string;
  raw_socket : option string;
  raw_env : option (gmap string string);
  raw_enabled : option bool;
}.

(** The derived [Deserialize] of [RawServer] on a JSON value: an object, of which
    absent and null fields are [None] and unknown ones are ignored, or a sequence of
    the six fields. *)
Definition de_string (v : Value) : option string := as_str v.
Definition de_bool (v : Value) : option bool :=
  match v with JBool b => Some b | _ => None end.
Definition de_strings (v : Value) : option (list string) :=
  match v with JArray l => mapM as_str l | _ => None end.
Definition de_string_map (v : Value) : option (gmap string string) :=
  match v with
  | JObject m => list_to_map <$> mapM (λ kv, (λ s, (kv.1, s)) <$> as_str kv.2) m
  | _ => None
  end.
Definition de_option {A} (de : Value → option A) (v : option Value) : option (option A) :=
  match v with
  | None | Some JNull => Some None
  | Some v => Some <$> de v
  end.
Definition raw_server_of (c a w s e b : option Value) : option RawServer :=
  c ← de_option de_string c;
  a ← de_option de_strings a;
  w ← de_option de_string w;
  s ← de_option de_string s;
  e ← de_option de_string_map e;
  b ← de_option de_bool b;
  Some (mkRawServer c a w s e b).
Definition de_raw_server (v : Value) : option RawServer :=
  match v with
  | JObject m =>
      let f k := obj_get k m in
      raw_server_of (f "command") (f "args") (f "cwd") (f "socket") (f "env") (f "enabled")
  | JArray [c; a; w; s; e; b] =>
      raw_server_of (Some c) (Some a) (Some w) (Some s) (Some e) (Some b)
  | _ => None
  end.

(** The service of an entry, unless it is not MCP-shaped. *)
Definition service_of (nm : string) (raw : option RawServer) : option HostService :=
  match raw with
  | Some r =>
      match raw_command r with
      | Some command =>
          Some (mkHostService nm command (unwrap_or (raw_args r) []) (raw_cwd r)
                  (raw_socket r) (raw_env r) (raw_enabled r))
      | None => None
      end
  | None => None
  end.

Section scan.
Context `{Platform} (home : option string) (canon : string → string).
(** [serde_json::from_str]; and the entries of a TOML file's [mcp_servers] table, each
    decoded as a [RawServer] when it has that shape: [None] when the file does not
    parse, [Some None] when it has no such table. *)
Context (json_from_str : string → option Value).
Context (toml_mcp_servers : string → option (option (list (string * option RawServer)))).

Definition discover_hosts (fs : FileTree) : list HostFile :=
  retain (λ hf, path_exists canon (path hf) fs) (default_sources home).

Definition parse_json_servers_under_key (data path key : string) (require_present : bool) :
    result string (list HostService) :=
  match json_from_str data with
  | None => Err ("failed to parse json " +:+ path)
  | Some root =>
      match value_get key root with
      | Some (JObject m) => Ok (omap (λ kv, service_of kv.1 (de_raw_server kv.2)) m)
      | Some _ => Err ("`" +:+ key +:+ "` is not an object in " +:+ path)
      | None =>
          if require_present then Err ("missing `" +:+ key +:+ "` in " +:+ path) else Ok []
      end
  end.

Definition parse_toml_mcp_servers (data path : string) : result string (list HostService) :=
  match toml_mcp_servers data with
  | None => Err ("failed to parse toml " +:+ path)
  | Some None => Ok []
  | Some (Some table) => Ok (omap (λ kv, service_of kv.1 kv.2) table)
  end.

Definition scan_host_file (file : HostFile) (fs : FileTree) : result string ScanResult :=
  match safe_read_to_string canon (path file) fs with
  | Err _ => Err ("failed to read " +:+ path file)
  | Ok data =>
      mkScanResult file <$$>
      match format file, schema file with
      | HostFormat.Json, ConfigSchema.McpServersJson =>
          parse_json_servers_under_key data (path file) "mcpServers" true
      | HostFormat.Json, ConfigSchema.ServersJson =>
          parse_json_servers_under_key data (path file) "servers" true
      | HostFormat.Json, ConfigSchema.AutoJson
      | HostFormat.Json, ConfigSchema.McpServersToml =>
          try! primary := parse_json_servers_under_key data (path file) "mcpServers" false in
          match primary with
          | [] => parse_json_servers_under_key data (path file) "servers" false
          | _ => Ok primary
          end
      | HostFormat.Toml, _ => parse_toml_mcp_servers data (path file)
      end
  end.

(** Sources that fail are skipped. *)
Definition scan_hosts (fs : FileTree) : list ScanResult :=
  omap (λ hf, result_ok (scan_host_file hf fs)) (discover_hosts fs).
End scan.

(** ** Merging *)
Definition env_equal (a b : option (gmap string string)) : bool :=
  match a, b with
  | None, None => true
  | Some am, Some bm => bool_decide (am = bm)
  | _, _ => false
  end.

Definition services_equivalent (a b : HostService) : bool :=
  str_eqb (command a) (command b) &&
  bool_decide (args a = args b) &&
  bool_decide (cwd a = cwd b) &&
  env_equal (env a) (env b) &&
  bool_decide (socket a = socket b).

(** The loop of [ensure_unique], with the number of counters it may try. *)
Fixpoint ensure_unique_from (fuel : nat) (used : gset string) (candidate : string)
    (counter : N) : option string :=
  match fuel with
  | O => None
  | S fuel =>
      let next := candidate +:+ "-" +:+ pretty counter in
      if bool_decide (next ∈ used) then ensure_unique_from fuel used candidate (counter + 1)
      else Some next
  end.
Definition ensure_unique (used : gset string) (candidate : string) : string :=
  if bool_decide (candidate ∈ used)
  then default candidate (ensure_unique_from (S (size used)) used candidate 2)
  else candidate.

(** The entries of a name, in the order of the names ([BTreeMap]) and of the scans. *)
Definition Variant : Type := HostFile * HostService.
Fixpoint add_variant (nm : string) (v : Variant) (m : list (string * list Variant)) :
    list (string * list Variant) :=
  match m with
  | [] => [(nm, [v])]
  | (nm', vs) :: m' =>
      match String.compare nm nm' with
      | Eq => (nm', vs ++ [v]) :: m'
      | Lt => (nm, [v]) :: m
      | Gt => (nm', vs) :: add_variant nm v m'
      end
  end.
Definition all_variants (scans : list ScanResult) : list Variant :=
  scans ≫= λ scan, (λ svc, (host scan, svc)) <$> services scan.
Definition group_by_name (scans : list ScanResult) : list (string * list Variant) :=
  foldl (λ m v, add_variant (name v.2) v m) [] (all_variants scans).

(** Identical entries collapse into the first. *)
Definition push_unique (unique : list Variant) (v : Variant) : list Variant :=
  if any (λ u, services_equivalent u.2 v.2) unique then unique else unique ++ [v].
Definition collapse (variants : list Variant) : list Variant := foldl push_unique [] variants.

(** The names handed out so far, the services and the conflicts. *)
Record Merging := mkMerging {
  used_names : gset string;
  out_services : list HostService;
  out_conflicts : list ConflictReport;
}.

(** One conflicting variant under its new name. *)
Definition push_renamed (nm : string) (acc : Merging) (v : Variant) : Merging :=
  let candidate := nm +:+ "-from-" +:+ as_label (kind v.1) in
  let unique_name := ensure_unique (used_names acc) candidate in
  mkMerging ({[unique_name]} ∪ used_names acc)
    (out_services acc ++ [v.2 <| name := unique_name |>]) (out_conflicts acc).

(** Several distinct variants: all are reported and kept under new names. *)
Definition merge_conflict (nm : string) (unique : list Variant) (acc : Merging) : Merging :=
  let report := mkConflictReport nm
    ((λ v, mkConflictVariant (path v.1) (kind v.1) v.2) <$> unique) in
  foldl (push_renamed nm)
    (mkMerging (used_names acc) (out_services acc) (out_conflicts acc ++ [report])) unique.

Definition merge_group (acc : Merging) (group : string * list Variant) : Merging :=
  let '(nm, vs) := group in
  let unique := collapse vs in
  match unique with
  | [v] => mkMerging ({[nm]} ∪ used_names acc) (out_services acc ++ [v.2]) (out_conflicts acc)
  | _ => merge_conflict nm unique acc
  end.

Definition merge_services (scans : list ScanResult) : MergeOutcome :=
  let acc := foldl merge_group (mkMerging ∅ [] []) (group_by_name scans) in
  mkMergeOutcome (out_services acc) (out_conflicts acc).

Lemma scan_host_file_host canon json_from_str toml_mcp_servers src fs scan :
  scan_host_file canon json_from_str toml_mcp_servers src fs = Ok scan → host scan = src.
Proof.
  unfold scan_host_file. destruct (safe_read_to_string _ _ _); [|done].
  match goal with |- (_ <$$> ?r) = _ → _ => destruct r; [|done] end. by intros [= <-].
Qed.

(** ** Facts about the pieces of the merge *)
Lemma env_equal_spec a b : env_equal a b = true ↔ a = b.
Proof.
  destruct a, b; simpl; try (split; congruence). rewrite bool_decide_eq_true. split; congruence.
Qed.

(** Two services are equivalent when they differ at most in their name and their
    [enabled] flag. *)
Lemma services_equivalent_spec a b :
  services_equivalent a b = true ↔
  command a = command b ∧ args a = args b ∧ cwd a = cwd b ∧ env a = env b ∧ socket a = socket b.
Proof.
  unfold services_equivalent, str_eqb.
  rewrite !andb_true_iff, !bool_decide_eq_true, env_equal_spec. tauto.
Qed.

Lemma services_equivalent_refl a : services_equivalent a a = true.
Proof. by rewrite services_equivalent_spec. Qed.

(** *** [ensure_unique] *)
Lemma candidate_inj (c : string) (i j : N) :
  c +:+ "-" +:+ pretty i = c +:+ "-" +:+ pretty j → i = j.
Proof. intros E%str_app_inj_l. apply str_app_inj_l in E. by apply pretty_N_inj. Qed.

Lemma ensure_unique_from_None fuel used c k :
  ensure_unique_from fuel used c k = None → (fuel ≤ size used)%nat.
Proof.
  intros Hn.
  assert (∀ i, (i < fuel)%nat → c +:+ "-" +:+ pretty (k + N.of_nat i)%N ∈ used) as Hall.
  { revert k Hn. induction fuel as [|fuel IH]; intros k Hn i Hi; [lia|].
    cbn [ensure_unique_from] in Hn. case_bool_decide as Hin; [|done].
    destruct i as [|i]; [by rewrite N.add_0_r|].
    replace (k + N.of_nat (S i))%N with (k + 1 + N.of_nat i)%N by lia. apply IH; [done|lia]. }
  set (l := (λ i, c +:+ "-" +:+ pretty (k + N.of_nat i)%N) <$> seq 0 fuel).
  assert (NoDup l) as Hnd.
  { apply NoDup_fmap_2; [|apply NoDup_seq]. intros i j E%candidate_inj. lia. }
  assert (list_to_set l ⊆ used) as Hsub.
  { intros x Hx. apply elem_of_list_to_set, list_elem_of_fmap in Hx as (i & -> & Hi).
    apply Hall. apply elem_of_seq in Hi. lia. }
  apply subseteq_size in Hsub. rewrite size_list_to_set in Hsub by done.
  unfold l in Hsub. by rewrite length_fmap, length_seq in Hsub.
Qed.

Lemma ensure_unique_from_Some fuel used c k s :
  ensure_unique_from fuel used c k = Some s → s ∉ used ∧ ∃ i : N, s = c +:+ "-" +:+ pretty i.
Proof.
  revert k. induction fuel as [|fuel IH]; intros k; cbn [ensure_unique_from]; [done|].
  case_bool_decide; [apply IH|]. intros [= <-]. eauto.
Qed.

Lemma ensure_unique_fresh used c :
  ensure_unique used c ∉ used ∧ ∃ suffix, ensure_unique used c = c +:+ suffix.
Proof.
  unfold ensure_unique. case_bool_decide as Hin.
  - destruct (ensure_unique_from _ _ _ _) as [s|] eqn:E; simpl.
    + apply ensure_unique_from_Some in E as [? [i ->]]. eauto.
    + apply ensure_unique_from_None in E. lia.
  - split; [done|]. exists "". by rewrite str_app_nil_r.
Qed.

(** *** [collapse] *)
Lemma collapse_covers vs v :
  v ∈ vs → ∃ u, u ∈ collapse vs ∧ services_equivalent u.2 v.2 = true.
Proof.
  unfold collapse. induction vs as [|w vs IH] using rev_ind; intros Hv; [by apply elem_of_nil in Hv|].
  rewrite foldl_app. simpl. unfold push_unique at 1.
  destruct (any (λ u, services_equivalent u.2 w.2) (foldl push_unique [] vs)) eqn:E.
  - apply elem_of_app in Hv as [Hv|Hv%list_elem_of_singleton]; [auto|subst].
    apply any_true in E as (u & ? & ?). eauto.
  - apply elem_of_app in Hv as [Hv|Hv%list_elem_of_singleton].
    + destruct (IH Hv) as (u & ? & ?). exists u. rewrite elem_of_app. eauto.
    + subst. exists w. rewrite elem_of_app, list_elem_of_singleton.
      split; [by right|apply services_equivalent_refl].
Qed.

Lemma collapse_subset vs u : u ∈ collapse vs → u ∈ vs.
Proof.
  unfold collapse. induction vs as [|w vs IH] using rev_ind; intros Hu; [done|].
  rewrite foldl_app in Hu. simpl in Hu. unfold push_unique at 1 in Hu.
  rewrite elem_of_app. case_match; [auto|].
  apply elem_of_app in Hu as [Hu|Hu]; auto.
Qed.

(** *** [group_by_name] *)
Lemma add_variant_elem nm v m k u :
  (∃ vs, (k, vs) ∈ add_variant nm v m ∧ u ∈ vs) ↔
  (k = nm ∧ u = v) ∨ ∃ vs, (k, vs) ∈ m ∧ u ∈ vs.
Proof.
  induction m as [|[nm' vs'] m IH]; cbn [add_variant].
  - split.
    + intros (vs & [= -> ->]%list_elem_of_singleton & Hu%list_elem_of_singleton). auto.
    + intros [[-> ->]|(vs & [] % elem_of_nil & _)]. exists [v]. by rewrite !list_elem_of_singleton.
  - destruct (String.compare nm nm') eqn:E.
    + apply str_compare_eq in E as <-. setoid_rewrite elem_of_cons. split.
      * intros (vs & [[= -> ->]|Hin] & Hu); [|by right; eauto].
        apply elem_of_app in Hu as [Hu|Hu%list_elem_of_singleton]; [right|by left].
        exists vs'. auto.
      * intros [[-> ->]|(vs & [[= -> ->]|Hin] & Hu)].
        -- exists (vs' ++ [v]). rewrite elem_of_app, list_elem_of_singleton. auto.
        -- exists (vs' ++ [v]). rewrite elem_of_app. auto.
        -- exists vs. auto.
    + setoid_rewrite elem_of_cons. split.
      * intros (vs & [[= -> ->]|Hin] & Hu); [left; split; [done|by apply list_elem_of_singleton in Hu]|].
        right. exists vs. setoid_rewrite elem_of_cons in Hin. auto.
      * intros [[-> ->]|(vs & Hin & Hu)]; [exists [v]; rewrite list_elem_of_singleton; auto|].
        exists vs. rewrite elem_of_cons. auto.
    + setoid_rewrite elem_of_cons. split.
      * intros (vs & [[= -> ->]|Hin] & Hu); [right; eauto|].
        destruct (proj1 IH (ex_intro _ vs (conj Hin Hu))) as [?|(vs2 & ? & ?)]; [by left|right; eauto].
      * intros [Heq|(vs & [[= -> ->]|Hin] & Hu)].
        -- destruct (proj2 IH (or_introl Heq)) as (vs2 & ? & ?). eauto.
        -- eauto.
        -- destruct (proj2 IH (or_intror (ex_intro _ vs (conj Hin Hu)))) as (vs2 & ? & ?). eauto.
Qed.

Lemma group_by_name_elem scans k u :
  (∃ vs, (k, vs) ∈ group_by_name scans ∧ u ∈ vs) ↔ u ∈ all_variants scans ∧ name u.2 = k.
Proof.
  unfold group_by_name. induction (all_variants scans) as [|v vs IH] using rev_ind.
  - simpl. split; [intros (vs & []%elem_of_nil & _)|intros [[]%elem_of_nil _]].
  - rewrite foldl_app. cbn [foldl]. rewrite add_variant_elem, IH, elem_of_app, list_elem_of_singleton.
    split; [intros [[-> ->]|[? ?]]; auto|intros [[?| ->] <-]; auto].
Qed.

Lemma elem_of_all_variants scans scan svc :
  scan ∈ scans → svc ∈ services scan → (host scan, svc) ∈ all_variants scans.
Proof.
  intros Hs Hv. unfold all_variants. apply list_elem_of_bind. exists scan.
  rewrite list_elem_of_fmap. split; [by exists svc|done].
Qed.

(** Groups are in strictly increasing order of their names. *)
Fixpoint keys_sorted (m : list (string * list Variant)) : Prop :=
  match m with
  | [] => True
  | (k, _) :: m => (∀ p, p ∈ m → String.compare k p.1 = Lt) ∧ keys_sorted m
  end.

Lemma add_variant_keys nm v m p :
  p ∈ add_variant nm v m → p.1 = nm ∨ ∃ q, q ∈ m ∧ q.1 = p.1.
Proof.
  induction m as [|[nm' vs'] m IH]; cbn [add_variant].
  - intros ->%list_elem_of_singleton. by left.
  - destruct (String.compare nm nm'); setoid_rewrite elem_of_cons.
    + intros [->|Hp]; right; [exists (nm', vs')|exists p]; auto.
    + intros [->|Hp]; [by left|right; exists p; split; [by apply elem_of_cons|done]].
    + intros [->|Hp]; [right; exists (nm', vs'); auto|].
      destruct (IH Hp) as [?|(q & ? & ?)]; [by left|right; eauto].
Qed.

Lemma add_variant_sorted nm v m : keys_sorted m → keys_sorted (add_variant nm v m).
Proof.
  induction m as [|[nm' vs'] m IH]; cbn [add_variant keys_sorted]; [by split; [intros ? []%elem_of_nil|]|].
  intros [Hlt Hm]. destruct (String.compare nm nm') eqn:E; cbn [keys_sorted]; [done| |].
  - split; [|done]. intros p [->|Hp]%elem_of_cons; [done|].
    eapply str_compare_lt_trans; [done|by apply Hlt].
  - split; [|by apply IH]. intros p Hp. apply add_variant_keys in Hp as [->|(q & Hq & <-)].
    + by apply str_compare_gt.
    + by apply Hlt.
Qed.

Lemma group_by_name_sorted scans : keys_sorted (group_by_name scans).
Proof.
  unfold group_by_name. induction (all_variants scans) as [|v vs IH] using rev_ind; [done|].
  rewrite foldl_app. by apply add_variant_sorted.
Qed.

Lemma keys_sorted_NoDup m : keys_sorted m → NoDup (m.*1).
Proof.
  induction m as [|[k vs] m IH]; intros Hm; [constructor|]. destruct Hm as [Hlt Hm].
  cbn [fmap list_fmap]. apply NoDup_cons. split; [|by apply IH].
  intros (p & E & Hp)%list_elem_of_fmap. specialize (Hlt p Hp). simpl in E. rewrite <- E in Hlt.
  by rewrite str_compare_refl in Hlt.
Qed.

(** *** One group *)

(** [o] is the service of the variant [v] of the name [nm], under that name or under a
    [-from-] name. *)
Definition renamed_from (nm : string) (v : Variant) (o : HostService) : Prop :=
  services_equivalent o v.2 = true ∧ ∃ suffix, name o = nm +:+ "-from-" +:+ suffix.
Definition stands_for (o svc : HostService) : Prop :=
  services_equivalent o svc = true ∧
  (name o = name svc ∨ ∃ suffix, name o = name svc +:+ "-from-" +:+ suffix).

Lemma fold_renamed nm unique acc :
  ∃ news, let acc' := foldl (push_renamed nm) acc unique in
    out_services acc' = out_services acc ++ news ∧
    used_names acc' = list_to_set (name <$> news) ∪ used_names acc ∧
    NoDup (name <$> news) ∧ (∀ n, n ∈ name <$> news → n ∉ used_names acc) ∧
    Forall2 (renamed_from nm) unique news.
Proof.
  revert acc. induction unique as [|v unique IH]; intros acc.
  - exists []. simpl. rewrite app_nil_r. split_and!; try done; [set_solver|constructor|].
    intros n Hn. by apply elem_of_nil in Hn.
  - cbn [foldl]. destruct (IH (push_renamed nm acc v)) as (news & Ho & Hu & Hnd & Hni & Hf).
    set (cand := nm +:+ "-from-" +:+ as_label (kind v.1)) in *.
    destruct (ensure_unique_fresh (used_names acc) cand) as [Hfresh [suffix Hsuffix]].
    exists (v.2 <| name := ensure_unique (used_names acc) cand |> :: news).
    cbn zeta in *. rewrite Ho, Hu. cbn [push_renamed out_services used_names] in *.
    fold cand in Hni. fold cand.
    split_and!.
    + by rewrite <- app_assoc.
    + cbn [fmap list_fmap list_to_set]. simpl. set_solver.
    + cbn [fmap list_fmap]. apply NoDup_cons. split; [|done]. intros Hin. apply (Hni _ Hin).
      simpl. set_solver.
    + cbn [fmap list_fmap]. intros n [->|Hn]%elem_of_cons; [done|]. specialize (Hni n Hn). set_solver.
    + constructor; [|done]. split; [by apply services_equivalent_spec|].
      exists (as_label (kind v.1) +:+ suffix).
      transitivity (ensure_unique (used_names acc) cand); [done|]. rewrite Hsuffix. unfold cand.
      by rewrite <- !str_app_assoc.
Qed.

(** What a group of variants of one name adds to the merge. *)
Record group_news (nm : string) (vs : list Variant) (used : gset string)
    (news : list HostService) : Prop := {
  news_names : news = [] ∨ (∃ o, news = [o] ∧ name o = nm) ∨
    NoDup (name <$> news) ∧
    (∀ n, n ∈ name <$> news → n ∉ used ∧ contains n "-from-" = true);
  news_cover v : v ∈ vs → ∃ o, o ∈ news ∧ stands_for o v.2;
  news_stem o : o ∈ news → ∃ v, v ∈ vs ∧ stands_for o v.2;
}.

Lemma merge_group_one nm vs acc v :
  (∀ v, v ∈ vs → name v.2 = nm) → collapse vs = [v] → group_news nm vs (used_names acc) [v.2].
Proof.
  intros Hnm Hv. pose proof (λ v, collapse_covers vs v) as Hcov.
  pose proof (collapse_subset vs) as Hsub. rewrite Hv in *.
  assert (name v.2 = nm) as Hname by (apply Hnm, Hsub; by left).
  split.
  - right; left; eauto.
  - intros w Hw. destruct (Hcov w Hw) as (u & ->%list_elem_of_singleton & He).
    exists v.2. rewrite list_elem_of_singleton. split; [done|]. split; [done|left].
    by rewrite Hname, (Hnm w).
  - intros o ->%list_elem_of_singleton. exists v. split; [apply Hsub; by left|].
    split; [apply services_equivalent_refl|by left].
Qed.

Lemma merge_group_many nm vs used news :
  (∀ v, v ∈ vs → name v.2 = nm) →
  NoDup (name <$> news) → (∀ n, n ∈ name <$> news → n ∉ used) →
  Forall2 (renamed_from nm) (collapse vs) news →
  group_news nm vs used news.
Proof.
  intros Hnm Hnd Hni Hf. split.
  - right. right. split; [done|]. intros n Hn. split; [by apply Hni|].
    apply list_elem_of_fmap in Hn as (o & -> & Hin). apply list_elem_of_lookup in Hin as [i Hi].
    destruct (Forall2_lookup_r _ _ _ _ _ Hf Hi) as (v & _ & _ & suffix & ->).
    apply contains_spec. eauto.
  - intros v Hv. destruct (collapse_covers vs v Hv) as (u & Hu' & He).
    pose proof (collapse_subset vs u Hu') as Hu2. apply list_elem_of_lookup in Hu' as [i Hi].
    destruct (Forall2_lookup_l _ _ _ _ _ Hf Hi) as (o & Hoi & He' & suffix & Hs).
    exists o. split; [by eapply list_elem_of_lookup_2|]. split.
    + rewrite services_equivalent_spec in *. naive_solver congruence.
    + right. rewrite (Hnm v Hv). eauto.
  - intros o Ho'. apply list_elem_of_lookup in Ho' as [i Hi].
    destruct (Forall2_lookup_r _ _ _ _ _ Hf Hi) as (v & Hvi & He & suffix & Hs).
    apply list_elem_of_lookup_2, collapse_subset in Hvi as Hvs. exists v. split; [done|].
    split; [done|right]. rewrite (Hnm v Hvs). eauto.
Qed.

Lemma merge_group_spec nm vs acc :
  (∀ v, v ∈ vs → name v.2 = nm) →
  ∃ news, let acc' := merge_group acc (nm, vs) in
    out_services acc' = out_services acc ++ news ∧
    used_names acc' = list_to_set (name <$> news) ∪ used_names acc ∧
    group_news nm vs (used_names acc) news.
Proof.
  intros Hnm.
  assert ((∃ v, collapse vs = [v]) ∨ ¬ ∃ v, collapse vs = [v]) as [[v Hv]|Hmany].
  { destruct (collapse vs) as [|v [|v' l]]; [right|left; eauto|right]; by intros [? [=]]. }
  - exists [v.2]. pose proof (merge_group_one nm vs acc v Hnm Hv) as Hg.
    cbn [merge_group]. cbn zeta. rewrite Hv. simpl. split_and!; [done| |done].
    assert (v ∈ vs) as Hin by (apply collapse_subset; rewrite Hv; by left).
    rewrite (Hnm v Hin). set_solver.
  - assert (merge_group acc (nm, vs) = merge_conflict nm (collapse vs) acc) as ->.
    { cbn [merge_group]. cbn zeta. destruct (collapse vs) as [|v [|v' l]]; try done.
      destruct Hmany. eauto. }
    unfold merge_conflict.
    match goal with |- context [foldl _ ?a (collapse vs)] => set (acc1 := a) end.
    destruct (fold_renamed nm (collapse vs) acc1) as (news & Ho & Hu & Hnd & Hni & Hf).
    exists news. split_and!; [done|done|]. by apply merge_group_many.
Qed.

(** *** All groups *)
Lemma fold_merge_spec groups acc :
  (∀ k vs v, (k, vs) ∈ groups → v ∈ vs → name v.2 = k) →
  ∃ news, out_services (foldl merge_group acc groups) = out_services acc ++ news ∧
    (∀ k vs v, (k, vs) ∈ groups → v ∈ vs → ∃ o, o ∈ news ∧ stands_for o v.2) ∧
    (∀ o, o ∈ news → ∃ k vs v, (k, vs) ∈ groups ∧ v ∈ vs ∧ stands_for o v.2).
Proof.
  revert acc. induction groups as [|[k vs] groups IH]; intros acc Hk.
  - exists []. rewrite app_nil_r. split_and!; [done|intros ? ? ? []%elem_of_nil|intros ? []%elem_of_nil].
  - destruct (merge_group_spec k vs acc) as (news1 & Ho1 & _ & [_ Hc1 Hs1]).
    { intros v Hv. eapply Hk; [by left|done]. }
    destruct (IH (merge_group acc (k, vs))) as (news2 & Ho2 & Hc2 & Hs2).
    { intros k' vs' v' Hin. apply (Hk k' vs'). by right. }
    exists (news1 ++ news2). cbn [foldl]. cbn zeta in Ho1. rewrite Ho2, Ho1, <- app_assoc.
    split_and!; [done|..].
    + intros k' vs' v' [[= -> ->]|Hin]%elem_of_cons Hv.
      * destruct (Hc1 v' Hv) as (o & ? & ?). exists o. rewrite elem_of_app. auto.
      * destruct (Hc2 k' vs' v' Hin Hv) as (o & ? & ?). exists o. rewrite elem_of_app. auto.
    + intros o [Ho|Ho]%elem_of_app.
      * destruct (Hs1 o Ho) as (v & ? & ?). exists k, vs, v. rewrite elem_of_cons. auto.
      * destruct (Hs2 o Ho) as (k' & vs' & v & ? & ? & ?). exists k', vs', v. rewrite elem_of_cons. auto.
Qed.

(** The names of a merge without [-from-] names among the scanned ones. *)
Lemma fold_merge_names groups acc :
  keys_sorted groups →
  (∀ k vs v, (k, vs) ∈ groups → v ∈ vs → name v.2 = k) →
  (∀ k vs, (k, vs) ∈ groups → contains k "-from-" = false ∧ k ∉ used_names acc) →
  used_names acc = list_to_set (name <$> out_services acc) → NoDup (name <$> out_services acc) →
  NoDup (name <$> out_services (foldl merge_group acc groups)).
Proof.
  revert acc. induction groups as [|[k vs] groups IH]; intros acc Hsort Hk Hfree Hused Hnd; [done|].
  destruct Hsort as [Hlt Hsort]. cbn [foldl].
  destruct (merge_group_spec k vs acc) as (news & Ho & Hu & [Hnews _ _]).
  { intros v Hv. eapply Hk; [by left|done]. }
  cbn zeta in Ho, Hu.
  destruct (Hfree k vs ltac:(by left)) as [Hkfree Hknew].
  assert (NoDup (name <$> news) ∧ ∀ n, n ∈ name <$> news →
    n ∉ used_names acc ∧ (n = k ∨ contains n "-from-" = true)) as [Hnd2 Hn2].
  { destruct Hnews as [->|[(o & -> & Hname)|[? Hn]]].
    - split; [constructor|intros ? []%elem_of_nil].
    - split; [apply NoDup_singleton|]. intros n ->%list_elem_of_singleton. rewrite Hname. auto.
    - split; [done|]. intros n Hin. destruct (Hn n Hin). auto. }
  apply IH; [done|..].
  - intros k' vs' v' Hin. apply (Hk k' vs'). by right.
  - intros k' vs' Hin. destruct (Hfree k' vs' ltac:(by right)) as [Hf' Hu'].
    split; [done|]. rewrite Hu, elem_of_union, elem_of_list_to_set. intros [Hin'|?]; [|done].
    destruct (Hn2 _ Hin') as [_ [->|?]]; [|congruence].
    specialize (Hlt _ Hin). simpl in Hlt. by rewrite str_compare_refl in Hlt.
  - rewrite Ho, Hu, Hused, fmap_app, list_to_set_app_L. set_solver.
  - rewrite Ho, fmap_app. apply NoDup_app. split_and!; [done| |done].
    intros n Hn Hn'. destruct (Hn2 n Hn') as [Hni _]. apply Hni.
    by rewrite Hused, elem_of_list_to_set.
Qed.

Lemma group_names scans k vs v :
  (k, vs) ∈ group_by_name scans → v ∈ vs → name v.2 = k.
Proof. intros Hin Hv. by apply (group_by_name_elem scans k v); eauto. Qed.

Lemma group_nonempty scans k vs : (k, vs) ∈ group_by_name scans → ∃ v, v ∈ vs.
Proof.
  unfold group_by_name. revert k vs.
  induction (all_variants scans) as [|w ws IH] using rev_ind; intros k vs; [intros []%elem_of_nil|].
  rewrite foldl_app. cbn [foldl]. generalize dependent (foldl (λ m v, add_variant (name v.2) v m) [] ws).
  intros m. induction m as [|[k' vs'] m IHm]; intros Hm; cbn [add_variant].
  - intros [= -> ->]%list_elem_of_singleton. exists w. by left.
  - destruct (String.compare (name w.2) k').
    + intros [[= -> ->]|Hin]%elem_of_cons; [exists w; apply elem_of_app; right; by left|].
      apply (Hm k vs). by right.
    + intros [[= -> ->]|Hin]%elem_of_cons; [exists w; by left|by apply (Hm k vs)].
    + intros [[= -> ->]|Hin]%elem_of_cons; [apply (Hm k' vs'); by left|].
      apply IHm; [|done]. intros k2 vs2 H2. apply (Hm k2 vs2). by right.
Qed.

(** ** Properties of the merge *)

Lemma merge_covers scans scan svc :
  scan ∈ scans → svc ∈ services scan →
  ∃ o, o ∈ merged_services (merge_services scans) ∧ stands_for o svc.
Proof.
  intros Hscan Hsvc.
  destruct (fold_merge_spec (group_by_name scans) (mkMerging ∅ [] []) (group_names scans))
    as (news & Ho & Hc & _).
  unfold merge_services. cbn [merged_services]. rewrite Ho. simpl.
  destruct (proj2 (group_by_name_elem scans (name svc) (host scan, svc))) as (vs & Hin & Hv).
  { split; [by apply elem_of_all_variants|done]. }
  by apply (Hc _ _ _ Hin) in Hv.
Qed.

Lemma merge_sound scans o :
  o ∈ merged_services (merge_services scans) →
  ∃ scan svc, scan ∈ scans ∧ svc ∈ services scan ∧ stands_for o svc.
Proof.
  destruct (fold_merge_spec (group_by_name scans) (mkMerging ∅ [] []) (group_names scans))
    as (news & Ho & _ & Hs).
  unfold merge_services. cbn [merged_services]. rewrite Ho. simpl.
  intros Hin. destruct (Hs o Hin) as (k & vs & v & Hg & Hv & Hst).
  destruct (proj1 (group_by_name_elem scans k v) ltac:(eauto)) as [Hall _].
  unfold all_variants in Hall. apply list_elem_of_bind in Hall as (scan & Hm & Hscan).
  apply list_elem_of_fmap in Hm as (svc & -> & Hsvc). exists scan, svc. auto.
Qed.

(** Merging loses no server and invents none: every scanned server is represented by
    one with the same command, arguments, directory, environment and socket, under its
    own name or that name with a [-from-] suffix, and every merged server stands for a
    scanned one. *)
Theorem merge_keeps_every_service scans :
  (∀ scan svc, scan ∈ scans → svc ∈ services scan →
     ∃ o, o ∈ merged_services (merge_services scans) ∧ stands_for o svc) ∧
  (∀ o, o ∈ merged_services (merge_services scans) →
     ∃ scan svc, scan ∈ scans ∧ svc ∈ services scan ∧ stands_for o svc).
Proof. split; [apply merge_covers | apply merge_sound]. Qed.

(** As long as no scanned server has a name with [-from-] in it, the merged names are
    all different, so that every merged server keeps an entry of its own in the
    generated configuration. *)
Theorem merge_names_distinct scans :
  (∀ scan svc, scan ∈ scans → svc ∈ services scan → contains (name svc) "-from-" = false) →
  NoDup (name <$> merged_services (merge_services scans)).
Proof.
  intros Hfree. apply fold_merge_names; [apply group_by_name_sorted|apply group_names| |done|constructor].
  intros k vs Hin. split; [|set_solver].
  destruct (group_nonempty _ _ _ Hin) as [v Hv].
  destruct (proj1 (group_by_name_elem scans k v)) as [Hall <-]; [eauto|].
  unfold all_variants in Hall. apply list_elem_of_bind in Hall as (scan & Hm & Hscan).
  apply list_elem_of_fmap in Hm as (svc & -> & Hsvc). by apply (Hfree scan).
Qed.

(** Three scans: two clients disagree on [m], and a third server is called
    [m-from-claude]. *)
Definition colliding_scans : list ScanResult :=
  let file k := mkHostFile k "/f" HostFormat.Json ConfigSchema.McpServersJson
                  Confidence.High true true in
  let svc n c := mkHostService n c [] None None None None in
  [mkScanResult (file HostKind.Claude) [svc "m" "a"; svc "m-from-claude" "c"];
   mkScanResult (file HostKind.Codex) [svc "m" "b"]].

(** The names of a merge can collide: a server that is called like the renamed variant
    of another is added under the same name, because only conflicting variants are
    checked against the names in use. *)
Theorem merge_name_collision :
  ∃ scans, ¬ NoDup (name <$> merged_services (merge_services scans)).
Proof.
  exists colliding_scans. intros Hnd.
  assert (name <$> merged_services (merge_services colliding_scans) =
    ["m-from-claude"; "m-from-codex"; "m-from-claude"]) as E by (by vm_compute).
  rewrite E in Hnd. apply NoDup_cons in Hnd as [Hn _]. apply Hn. by right; left.
Qed.
