(* ===== verification/Rewire.v ===== *)
(** * Rewire: manifests, snippets and the rewriting of one client's file
    ([mux-agent/src/scan.rs], second half) *)
From S2P Require Import Prelude Text Json Paths Config Scan.
From Stdlib Require Import Ascii.

Definition format_for_host (h : HostFile) : string :=
  match format h with HostFormat.Json => "json" | HostFormat.Toml => "toml" end.

(** [svc.socket], or [<socket_dir>/<name>.sock]. *)
Definition service_socket (socket_dir : string) (svc : HostService) : string :=
  unwrap_or (socket svc) (path_join socket_dir (name svc +:+ ".sock")).

(** ** The mux's configuration *)
Definition manifest_entry (socket_dir : string) (svc : HostService) : ServerConfig := {|
  sc_socket := Some (service_socket socket_dir svc);
  sc_cmd := Some (command svc);
  sc_args := Some (args svc);
  sc_cwd := cwd svc;
  sc_max_active_clients := Some 5%N;
  sc_tray := Some false;
  sc_service_name := Some (name svc);
  sc_log_level := Some "info";
  sc_lazy_start := Some false;
  sc_max_request_bytes := Some 1048576%N;
  sc_request_timeout_ms := Some 30000%N;
  sc_restart_backoff_ms := Some 1000%N;
  sc_restart_backoff_max_ms := Some 30000%N;
  sc_max_restarts := Some 5%N;
  sc_status_file := None;
  sc_env := env svc;
  sc_heartbeat_interval_ms := Some 30000%N;
  sc_heartbeat_timeout_ms := Some 30000%N;
  sc_heartbeat_max_failures := Some 3%N;
  sc_heartbeat_enabled := Some true;
|}.

Definition build_manifest (scans : list ScanResult) (socket_dir : string) : Config :=
  mkConfig (foldl (λ m svc, <[name svc := manifest_entry socket_dir svc]> m) ∅
              (merged_services (merge_services scans))).

Section rewire.
Context `{Platform} (home : option string) (canon : string → string).
Context (json_from_str : string → option Value) (json_to_string_pretty : Value → string).
Context (toml_mcp_servers : string → option (option (list (string * option RawServer)))).

(** ** The clients' snippet *)
Definition snippet_entry (socket_dir proxy_cmd : string) (proxy_args : list string)
    (svc : HostService) : Value :=
  let args := proxy_args ++ ["--socket"; service_socket socket_dir svc] in
  let server := [] in
  let server := obj_insert "command" (JString proxy_cmd) server in
  let server := obj_insert "args" (JArray (JString <$> args)) server in
  let server := match cwd svc with
                | Some cwd => obj_insert "cwd" (JString cwd) server
                | None => server
                end in
  let server := match env svc with
                | Some env => obj_insert "env"
                    (JObject (obj_of_list ((λ kv, (kv.1, JString kv.2)) <$> hash_iter env))) server
                | None => server
                end in
  JObject server.

Definition snippet_servers (scans : list ScanResult) (socket_dir proxy_cmd : string)
    (proxy_args : list string) : list (string * Value) :=
  foldl (λ m svc, obj_insert (name svc) (snippet_entry socket_dir proxy_cmd proxy_args svc) m) []
    (merged_services (merge_services scans)).

(** The map from the kinds of the scanned hosts to the snippet, the same for all. *)
Definition generate_snippet (scans : list ScanResult) (socket_dir proxy_cmd : string)
    (proxy_args : list string) (k : HostKind.HostKind) : option Value :=
  let servers := snippet_servers scans socket_dir proxy_cmd proxy_args in
  let snippet_value := JObject (obj_insert "mcpServers" (JObject servers) []) in
  if any (λ scan, bool_decide (kind (host scan) = k)) scans then Some snippet_value else None.

(** ** Writing *)

(** The new tree and the path of the backup. *)
Definition write_with_backup (p contents : string) (dry_run : bool) (fs : FileTree) :
    result string (FileTree * option string) :=
  if dry_run then Ok (fs, None) else
  let backup := with_extension p "bak" in
  try! fs := (if path_exists canon p fs then
                match safe_copy_file canon p backup fs with
                | Ok fs => Ok fs
                | Err _ => Err ("failed to create backup " +:+ backup)
                end
              else Ok fs) in
  Ok (<[canon p := contents]> fs, Some backup).

(** TOML values are abstract: what the code uses of the [toml] crate. *)
Context {Toml : Type} (toml_from_str : string → option Toml)
  (toml_to_string_pretty : Toml → option string) (toml_get : string → Toml → option Toml)
  (toml_insert : string → Toml → Toml → option Toml) (toml_empty : Toml).
(** The snippet as TOML and YAML text. *)
Context (json_as_toml json_as_yaml : Value → option string).

Definition serialize_snippet (snippet : Value) (fmt : string) : result string string :=
  if str_eqb fmt "json" then Ok (json_to_string_pretty snippet)
  else if str_eqb fmt "yaml" || str_eqb fmt "yml" then
    ok_or (json_as_yaml snippet) "serialize snippet yaml"
  else if str_eqb fmt "toml" then ok_or (json_as_toml snippet) "serialize snippet toml"
  else Err ("unsupported format " +:+ fmt).

Definition merge_json (p data snippet_text : string) : result string string :=
  try! root := ok_or (json_from_str data) ("failed to parse json " +:+ p) in
  try! obj := ok_or (as_object root) "host json must be an object" in
  try! snippet_json := ok_or (json_from_str snippet_text) "parse snippet json" in
  let mcp := unwrap_or (value_get "mcpServers" snippet_json) (JObject []) in
  Ok (json_to_string_pretty (JObject (obj_insert "mcpServers" mcp obj))).

Definition merge_toml (k : HostKind.HostKind) (p data snippet_text : string) :
    result string string :=
  try! root := ok_or (toml_from_str data) ("failed to parse toml " +:+ p) in
  try! snippet_toml := ok_or (toml_from_str snippet_text) "parse snippet toml" in
  let mcp := unwrap_or (toml_get "mcpServers" snippet_toml) toml_empty in
  let target_key := if bool_decide (k = HostKind.Codex) then "mcp_servers" else "mcpServers" in
  try! root := ok_or (toml_insert target_key mcp root) "host toml must be a table" in
  ok_or (toml_to_string_pretty root) "serialize merged toml".

Definition rewire_host (h : HostFile) (socket_dir proxy_cmd : string)
    (proxy_args : list string) (dry_run : bool) (fs : FileTree) :
    result string (FileTree * RewireOutcome) :=
  try! scan := scan_host_file canon json_from_str toml_mcp_servers h fs in
  try! snippet := ok_or (generate_snippet [scan] socket_dir proxy_cmd proxy_args (kind h))
                    "no snippet generated for host" in
  try! snippet_text := serialize_snippet snippet (format_for_host h) in
  try! data := safe_read_to_string canon (path h) fs in
  try! merged := match format h with
                 | HostFormat.Json => merge_json (path h) data snippet_text
                 | HostFormat.Toml => merge_toml (kind h) (path h) data snippet_text
                 end in
  try! r := write_with_backup (path h) merged dry_run fs in
  Ok (r.1, mkRewireOutcome (path h) r.2 (negb dry_run)).

(** ** Choosing the host *)
Record RewireArgs := mkRewireArgs {
  ra_path : option string;
  ra_host : option string;
  ra_socket_dir : string;
  ra_proxy_cmd : string;
  ra_proxy_args : list string;
  ra_dry_run : bool;
}.
Record StatusArgs := mkStatusArgs {
  sa_path : option string;
  sa_host : option string;
  sa_proxy_cmd : string;
}.

Definition resolve_host_from_args (a : RewireArgs) (fs : FileTree) : result string HostFile :=
  match ra_path a with
  | Some p => Ok (host_file_from_custom_path p)
  | None =>
      match discover_hosts home canon fs with
      | [] => Err "no host configs found"
      | first :: _ as discovered =>
          match ra_host a with
          | Some h =>
              let lower := to_ascii_lowercase h in
              ok_or (List.find (λ f, str_eqb (as_label (kind f)) lower) discovered)
                ("host " +:+ h +:+ " not found")
          | None => Ok first
          end
      end
  end.

Definition resolve_status_host (a : StatusArgs) (fs : FileTree) : result string HostFile :=
  resolve_host_from_args
    (mkRewireArgs (sa_path a) (sa_host a) "" (sa_proxy_cmd a) [] false) fs.

Definition run_rewire_cmd (a : RewireArgs) (fs : FileTree) : result string (FileTree * string) :=
  try! target := resolve_host_from_args a fs in
  let socket_dir := expand_path home (ra_socket_dir a) in
  try! r := rewire_host target socket_dir (ra_proxy_cmd a) (ra_proxy_args a) (ra_dry_run a) fs in
  Ok (r.1, (if ra_dry_run a then "Would have " else "") +:+ "rewired " +:+ rewired_path r.2 +:+
           " (backup: " +:+ unwrap_or (backup r.2) "none" +:+ ")").

(** [{:?}] of a list of strings. *)
Definition debug_strings (l : list string) : string :=
  "[" +:+ join ", " (str_debug <$> l) +:+ "]".

(** The lines [run_status_cmd] prints. *)
Definition run_status_cmd (a : StatusArgs) (fs : FileTree) : result string (list string) :=
  try! target := resolve_status_host a fs in
  try! scan := scan_host_file canon json_from_str toml_mcp_servers target fs in
  match services scan with
  | [] => Ok [path target +:+ ": no services found in config"]
  | svcs => Ok (("Checking " +:+ path target +:+ " (" +:+ as_label (kind target) +:+ ")") ::
      ((λ svc, if str_eqb (command svc) (sa_proxy_cmd a)
               then " - " +:+ name svc +:+ ": OK (via " +:+ command svc +:+ ")"
               else " - " +:+ name svc +:+ ": NOT rewired (command='" +:+ command svc +:+
                    "', args=" +:+ debug_strings (args svc) +:+ ")") <$> svcs))
  end.

(** ** Properties *)
Lemma snippet_servers_get scans dir cmd pargs nm v :
  obj_get nm (snippet_servers scans dir cmd pargs) = Some v →
  ∃ svc, svc ∈ merged_services (merge_services scans) ∧ name svc = nm ∧
    v = snippet_entry dir cmd pargs svc.
Proof.
  unfold snippet_servers. generalize (merged_services (merge_services scans)). intros l.
  induction l as [|svc l IH] using rev_ind; [done|]. rewrite foldl_app. cbn [foldl].
  destruct (decide (name svc = nm)) as [<-|Hne].
  - rewrite obj_get_insert_eq. intros [= <-]. exists svc. rewrite elem_of_app, list_elem_of_singleton. auto.
  - rewrite obj_get_insert_ne by done. intros Hv. destruct (IH Hv) as (s & ? & ? & ?).
    exists s. rewrite elem_of_app. auto.
Qed.

Lemma snippet_servers_covers scans dir cmd pargs svc :
  svc ∈ merged_services (merge_services scans) →
  is_Some (obj_get (name svc) (snippet_servers scans dir cmd pargs)).
Proof.
  unfold snippet_servers. generalize (merged_services (merge_services scans)). intros l.
  induction l as [|s l IH] using rev_ind; [by intros []%elem_of_nil|].
  rewrite foldl_app. cbn [foldl].
  destruct (decide (name s = name svc)) as [->|Hne].
  - rewrite obj_get_insert_eq. eauto.
  - rewrite obj_get_insert_ne by done. intros [?|Hs%list_elem_of_singleton]%elem_of_app; [auto|].
    by subst.
Qed.

(** The snippet sends every merged server's client through the proxy: there is an entry
    for each name, and each entry runs the proxy command on the socket of a server of
    that name. *)
Theorem snippet_points_to_proxy scans dir cmd pargs svc :
  svc ∈ merged_services (merge_services scans) →
  ∃ v svc', obj_get (name svc) (snippet_servers scans dir cmd pargs) = Some v ∧
    svc' ∈ merged_services (merge_services scans) ∧ name svc' = name svc ∧
    value_get "command" v = Some (JString cmd) ∧
    value_get "args" v =
      Some (JArray (JString <$> pargs ++ ["--socket"; service_socket dir svc'])).
Proof.
  intros Hin. destruct (snippet_servers_covers scans dir cmd pargs svc Hin) as [v Hv].
  destruct (snippet_servers_get _ _ _ _ _ _ Hv) as (svc' & Hin' & Hn & ->).
  eexists _, svc'. split_and!; [exact Hv|done|done|..]; unfold snippet_entry; cbn [value_get];
    destruct (cwd svc'), (env svc');
    repeat rewrite obj_get_insert_ne by done; by rewrite obj_get_insert_eq.
Qed.

(** Rewriting a file is undoable: its contents before the write are in the backup, the
    new contents are in its place, and no other file changes; a dry run changes
    nothing. *)
Theorem write_with_backup_saves p contents fs fs' b old :
  fs !! canon p = Some old →
  write_with_backup p contents false fs = Ok (fs', b) →
  vetted_output_file canon (with_extension p "bak") ≠ Ok (canon p) →
  ∃ target, vetted_output_file canon (with_extension p "bak") = Ok target ∧
    b = Some (with_extension p "bak") ∧
    fs' !! canon p = Some contents ∧ fs' !! target = Some old ∧
    (∀ q, q ≠ canon p → q ≠ target → fs' !! q = fs !! q) ∧
    write_with_backup p contents true fs = Ok (fs, None).
Proof using.
  intros Hold Hw Hne. unfold write_with_backup in *. unfold path_exists in Hw.
  rewrite Hold in Hw. cbn [is_some] in Hw.
  destruct (safe_copy_file canon p (with_extension p "bak") fs) as [fs1|] eqn:E; [|done].
  apply safe_copy_copies in E as (target & data & Ht & Hd & ->).
  cbn [result_bind] in Hw. injection Hw as <- <-.
  assert (data = old) as -> by congruence. assert (target ≠ canon p) as Hne' by congruence.
  exists target. split_and!; [done|done|apply lookup_insert_eq| | |done].
  - etrans; [by apply lookup_insert_ne|]. apply lookup_insert_eq.
  - intros q Hq Hq2. etrans; [by apply lookup_insert_ne|]. by apply lookup_insert_ne.
Qed.
End rewire.
