(* ===== verification/Shell.v ===== *)
(** * Shell: how a POSIX shell and KDL read the text the workspace quotes for them

    Two specifications that no code of the workspace contains: splitting a command
    line into words with quote removal, and reading a quoted KDL string.  Both refuse
    ([None]) the text whose meaning depends on more than quoting: expansions,
    operators, escapes by code point. *)
From S2P Require Import Prelude Text.
From Stdlib Require Import Ascii.

(** ** Words *)
Inductive Quoting := Bare | Single | Double.

(** The characters that are not literal outside quotes, and inside double quotes. *)
Definition special_bare (c : ascii) : bool :=
  bool_decide (c ∈ ["|"; "&"; ";"; "<"; ">"; "("; ")"; "$"; "`"; "*"; "?"; "["; "#"; "="; "%"; "!"; "{"; "}"]%char) ||
  (code c <? 32)%N.
Definition special_double (c : ascii) : bool :=
  bool_decide (c ∈ ["$"; "`"; "!"]%char) || bool_decide (c = backslash).

Definition push_char (c : ascii) (ws : list string) : list string :=
  match ws with w :: ws => String c w :: ws | [] => [] end.

(** The words of [s] from inside the first one.  One blank separates two words. *)
Fixpoint lex (q : Quoting) (s : string) : option (list string) :=
  match s with
  | "" => match q with Bare => Some [""] | _ => None end
  | String c s1 =>
      match q with
      | Single =>
          if bool_decide (c = squote) then lex Bare s1 else push_char c <$> lex Single s1
      | Double =>
          if bool_decide (c = dquote) then lex Bare s1
          else if special_double c then None else push_char c <$> lex Double s1
      | Bare =>
          if bool_decide (c = squote) then lex Single s1
          else if bool_decide (c = dquote) then lex Double s1
          else if bool_decide (c = backslash) then
            match s1 with
            | String e s2 => if bool_decide (e = newline) then None else push_char e <$> lex Bare s2
            | "" => None
            end
          else if bool_decide (c = " "%char) then
            match s1 with
            | String e _ =>
                if bool_decide (e ∈ [" "; "~"]%char) then None else cons "" <$> lex Bare s1
            | "" => None
            end
          else if special_bare c then None
          else push_char c <$> lex Bare s1
      end
  end.

Definition shell_words (s : string) : option (list string) :=
  match s with
  | "" => Some []
  | String c _ => if bool_decide (c ∈ [" "; "~"]%char) then None else lex Bare s
  end.

Example shell_words_demo :
  shell_words "cp -p 'a b'\''c' x" = Some ["cp"; "-p"; "a b'c"; "x"] ∧
  shell_words "a $b" = None ∧ shell_words "'' b" = Some [""; "b"].
Proof. by_compute. Qed.

(** A word quoted by [quote] is read as [w], whatever follows. *)
Definition reads_as (quoted w : string) : Prop :=
  ∀ rest, lex Bare (quoted +:+ rest) = (λ ws, match ws with v :: ws => (w +:+ v) :: ws | [] => [] end)
                                        <$> lex Bare rest.

Lemma lex_nonempty q s ws : lex q s = Some ws → ws ≠ [].
Proof.
  assert (∀ c l, push_char c l = [] → l = []) as Hp by (by intros c []).
  remember (String.length s) as n eqn:Hn. assert (String.length s ≤ n)%nat as Hle by lia. clear Hn.
  revert q s Hle ws. induction n as [|n IH]; intros q s Hle ws; destruct s as [|c s1]; simpl in *.
  - destruct q; by intros [= <-].
  - lia.
  - destruct q; by intros [= <-].
  - assert (∀ q e, (λ l, push_char e l) <$> lex q s1 = Some ws → ws ≠ []) as H1.
    { intros q' e. destruct (lex q' s1) eqn:E; simpl; [|done]. intros [= <-] E'%Hp.
      by eapply (IH q' s1); [lia|done|]. }
    destruct q; repeat case_bool_decide; eauto; try (apply IH; lia).
    + destruct s1 as [|e s2]; [done|]. case_bool_decide; [done|].
      destruct (lex Bare s2) eqn:E; simpl; [|done]. intros [= <-] E'%Hp.
      eapply (IH Bare s2); [simpl in *; lia|done|done].
    + destruct s1 as [|e s2]; [done|]. case_bool_decide; [done|].
      destruct (lex Bare (String e s2)); simpl; [|done]. by intros [= <-].
    + destruct (special_bare c); eauto.
    + destruct (special_double c); eauto.
Qed.

(** ** Words in a row *)
Lemma reads_as_words quoted w : reads_as quoted w → lex Bare quoted = Some [w].
Proof.
  intros H. specialize (H ""). rewrite str_app_nil_r in H. rewrite H. simpl.
  by rewrite str_app_nil_r.
Qed.

Lemma lex_sep quoted w rest ws c r :
  reads_as quoted w → rest = String c r → c ∉ [" "; "~"]%char → lex Bare rest = Some ws →
  lex Bare (quoted +:+ " " +:+ rest) = Some (w :: ws).
Proof.
  intros H -> Hc Hr. rewrite H. cbn [String.append].
  change (lex Bare (String " " (String c r))) with
    (if bool_decide (c ∈ [" "; "~"]%char) then None else cons "" <$> lex Bare (String c r)).
  rewrite bool_decide_false, Hr by done. simpl. by rewrite str_app_nil_r.
Qed.

(** A quoting function whose results start with a quote mark joins into a line that is
    read back word by word. *)
Lemma join_words (quote : string → string) (l : list string) :
  (∀ w, reads_as (quote w) w) → (∀ w, ∃ r, quote w = String squote r) →
  shell_words (join " " (quote <$> l)) = Some l.
Proof.
  intros Hq Hs. destruct l as [|w l]; [done|].
  assert (∀ w l, lex Bare (join " " (quote <$> w :: l)) = Some (w :: l)) as Hall.
  { intros w0 l0. revert w0. induction l0 as [|w2 l0 IH]; intros w1;
      [exact (reads_as_words _ _ (Hq w1))|].
    change (join " " (quote <$> w1 :: w2 :: l0)) with
      (quote w1 +:+ " " +:+ join " " (quote <$> w2 :: l0)).
    destruct (Hs w2) as [r Hr].
    assert (∃ r', join " " (quote <$> w2 :: l0) = String squote r') as [r' Hr'].
    { destruct l0; [eauto|]. exists (r +:+ " " +:+ join " " (quote <$> s :: l0)).
      change (join " " (quote <$> w2 :: s :: l0)) with
        (quote w2 +:+ " " +:+ join " " (quote <$> s :: l0)). by rewrite Hr. }
    eapply lex_sep; [done|exact Hr'| |apply IH].
    apply (bool_decide_eq_false (squote ∈ [" "; "~"]%char)). by vm_compute. }
  specialize (Hall w l). destruct (Hs w) as [r Hr].
  assert (∃ r', join " " (quote <$> w :: l) = String squote r') as [r' Hr'].
  { destruct l as [|w2 l]; [eauto|]. exists (r +:+ " " +:+ join " " (quote <$> w2 :: l)).
    change (join " " (quote <$> w :: w2 :: l)) with
      (quote w +:+ " " +:+ join " " (quote <$> w2 :: l)). by rewrite Hr. }
  rewrite Hr' in *. exact Hall.
Qed.

(** ** Single quotes with an escape for the quote mark itself *)
Lemma squoted_reads_as (esc : string) p :
  (∀ rest, lex Single (esc +:+ rest) = push_char squote <$> lex Single rest) →
  reads_as ("'" +:+ replace_char squote esc p +:+ "'") p.
Proof.
  intros He rest.
  change (("'" +:+ replace_char squote esc p +:+ "'") +:+ rest) with
    (String squote ((replace_char squote esc p +:+ "'") +:+ rest)).
  rewrite <- str_app_assoc. change ("'" +:+ rest) with (String squote rest).
  change (lex Bare (String squote (replace_char squote esc p +:+ String squote rest))) with
    (lex Single (replace_char squote esc p +:+ String squote rest)).
  induction p as [|c p IH].
  - change (lex Single (replace_char squote esc "" +:+ String squote rest)) with (lex Bare rest).
    destruct (lex Bare rest) as [[|w ws]|]; done.
  - cbn [replace_char]. case_bool_decide as E.
    + subst. rewrite <- str_app_assoc, He, IH. by destruct (lex Bare rest) as [[|w ws]|].
    + change (String c (replace_char squote esc p) +:+ String squote rest) with
        (String c (replace_char squote esc p +:+ String squote rest)).
      cbn [lex]. rewrite bool_decide_false, IH by done. by destruct (lex Bare rest) as [[|w ws]|].
Qed.

(** ** KDL strings *)
Definition kdl_escape (c : ascii) : option ascii :=
  if bool_decide (c = "n"%char) then Some newline
  else if bool_decide (c = "r"%char) then Some carriage_return
  else if bool_decide (c = "t"%char) then Some (ascii_of_N 9)
  else if bool_decide (c = backslash) || bool_decide (c = "/"%char) || bool_decide (c = dquote)
  then Some c
  else if bool_decide (c = "b"%char) then Some (ascii_of_N 8)
  else if bool_decide (c = "f"%char) then Some (ascii_of_N 12)
  else None.

(** The value of the string literal whose text [s] starts inside, and what follows it. *)
Fixpoint kdl_body (s : string) : option (string * string) :=
  match s with
  | "" => None
  | String c s1 =>
      if bool_decide (c = dquote) then Some ("", s1)
      else if bool_decide (c = backslash) then
        match s1 with
        | String e s2 =>
            match kdl_escape e with
            | Some v => (λ r, (String v r.1, r.2)) <$> kdl_body s2
            | None => None
            end
        | "" => None
        end
      else (λ r, (String c r.1, r.2)) <$> kdl_body s1
  end.
Definition kdl_string (s : string) : option (string * string) :=
  match s with
  | String c s1 => if bool_decide (c = dquote) then kdl_body s1 else None
  | "" => None
  end.
