(* ===== verification/MuxGen.v ===== *)
(** * MuxGen: the mux's own configuration files ([mux-agent/src/mux_gen.rs])

    From the merged servers come the daemon's [config.toml] and the files the clients
    are pointed at, which start a proxy on the daemon's sockets; nothing of the
    user's own files changes.  The serializers are parameters, so that the files are
    compared through the values they are written from. *)
From S2P Require Import Prelude Text Json Paths Config Scan Rewire.
From Stdlib Require Import Ascii.

Definition default_mux_dir (home : option string) : string := expand_path home "~/.config/mux".
Definition default_socket_dir (mux_dir : string) : string := path_join mux_dir "sockets".

(** ** The daemon's and the clients' entries *)

(** Every entry has the settings of [manifest_entry]: the code repeats them. *)
Definition build_daemon_config (svcs : list HostService) (socket_dir : string) : Config :=
  foldl (λ cfg svc, mkConfig (<[name svc := manifest_entry socket_dir svc]> (servers cfg)))
    Config_default svcs.

Record ClientServerJson := mkClientServerJson {
  cs_command : string;
  cs_args : list string;
  cs_env : option (gmap string string);
}.
(** [ClientServerToml] has the same fields. *)
Definition ClientServerToml : Type := ClientServerJson.

Definition client_entry (socket_dir proxy_cmd : string) (proxy_args : list string)
    (svc : HostService) : ClientServerJson :=
  mkClientServerJson proxy_cmd (proxy_args ++ ["--socket"; service_socket socket_dir svc])
    (env svc).

Definition build_client_json (svcs : list HostService) (socket_dir proxy_cmd : string)
    (proxy_args : list string) : gmap string ClientServerJson :=
  foldl (λ m svc, <[name svc := client_entry socket_dir proxy_cmd proxy_args svc]> m) ∅ svcs.

Definition build_client_toml (svcs : list HostService) (socket_dir proxy_cmd : string)
    (proxy_args : list string) : gmap string ClientServerToml :=
  foldl (λ m svc, <[name svc := client_entry socket_dir proxy_cmd proxy_args svc]> m) ∅ svcs.

(** ** Outputs *)
Record MuxOutputs := mkMuxOutputs {
  mux_dir : string;
  socket_dir : string;
  config_toml_path : string;
  mcp_json_path : string;
  mcp_toml_path : string;
  config_toml : string;
  mcp_json : string;
  mcp_toml : string;
  out_mux_services : list HostService;
  out_mux_conflicts : list ConflictReport;
}.

Record PerClientFile := mkPerClientFile {
  pc_kind : HostKind.HostKind;
  pc_path : string;
  pc_format : HostFormat.HostFormat;
  pc_contents : string;
  pc_services : list HostService;
}.
Record PerClientOutputs := mkPerClientOutputs {
  pco_mux_dir : string;
  pco_socket_dir : string;
  pco_config_toml_path : string;
  pco_config_toml : string;
  pco_clients : list PerClientFile;
  pco_total_services : nat;
  pco_conflicts : list ConflictReport;
}.

Record ClientInstruction := mkClientInstruction {
  ci_kind : HostKind.HostKind;
  headline : string;
  commands : list string;
  note : string;
}.

(** The files [p] receives [data], as [fs::write] does; the directories of the tree
    are implicit. *)
Definition fs_write (canon : string → string) (p data : string) (fs : FileTree) : FileTree :=
  <[canon p := data]> fs.

Section gen.
(** [toml::to_string_pretty] and [serde_json::to_string_pretty] of the three roots. *)
Context (daemon_to_toml : Config → option string).
Context (client_to_json : gmap string ClientServerJson → option string).
Context (client_to_toml : gmap string ClientServerToml → option string).

Definition build_mux_outputs (merge : MergeOutcome) (mux_dir proxy_cmd : string)
    (proxy_args : list string) : result string MuxOutputs :=
  let socket_dir := default_socket_dir mux_dir in
  let svcs := merged_services merge in
  try! config_toml := ok_or (daemon_to_toml (build_daemon_config svcs socket_dir))
                        "serialize daemon config.toml" in
  try! mcp_json := ok_or (client_to_json (build_client_json svcs socket_dir proxy_cmd proxy_args))
                     "serialize mcp.json" in
  try! mcp_toml := ok_or (client_to_toml (build_client_toml svcs socket_dir proxy_cmd proxy_args))
                     "serialize mcp.toml" in
  Ok (mkMuxOutputs mux_dir socket_dir (path_join mux_dir "config.toml")
        (path_join mux_dir "mcp.json") (path_join mux_dir "mcp.toml")
        config_toml mcp_json mcp_toml svcs (conflicts merge)).

Definition write_mux_outputs (canon : string → string) (o : MuxOutputs) (fs : FileTree) :
    FileTree :=
  fs_write canon (mcp_toml_path o) (mcp_toml o)
    (fs_write canon (mcp_json_path o) (mcp_json o)
       (fs_write canon (config_toml_path o) (config_toml o) fs)).

(** ** One file per client *)

(** The first file of each kind, with all the scans of that kind. *)
Fixpoint add_to_group (scan : ScanResult) (groups : list (HostFile * list ScanResult)) :
    list (HostFile * list ScanResult) :=
  match groups with
  | [] => [(host scan, [scan])]
  | (h, grouped) :: groups =>
      if bool_decide (kind h = kind (host scan)) then (h, grouped ++ [scan]) :: groups
      else (h, grouped) :: add_to_group scan groups
  end.
Definition group_scans_by_kind (scans : list ScanResult) : list ScanResult :=
  (λ g, mkScanResult g.1 (merged_services (merge_services g.2))) <$>
    foldl (λ groups scan, add_to_group scan groups) [] scans.

Definition client_native_payload (scan : ScanResult) (socket_dir proxy_cmd : string)
    (proxy_args : list string) : result string (string * HostFormat.HostFormat * string) :=
  match kind (host scan) with
  | HostKind.Codex =>
      let body := build_client_toml (services scan) socket_dir proxy_cmd proxy_args in
      try! text := ok_or (client_to_toml body) "serialize codex per-client mux file" in
      Ok ("codex.toml", HostFormat.Toml, text)
  | k =>
      let body := build_client_json (services scan) socket_dir proxy_cmd proxy_args in
      try! text := ok_or (client_to_json body) "serialize per-client mux JSON file" in
      Ok (as_label k +:+ ".json", HostFormat.Json, text)
  end.

Definition per_client_file (scan : ScanResult) (mux_dir proxy_cmd : string)
    (proxy_args : list string) : result string PerClientFile :=
  try! r := client_native_payload scan (default_socket_dir mux_dir) proxy_cmd proxy_args in
  Ok (mkPerClientFile (kind (host scan)) (path_join mux_dir r.1.1) r.1.2 r.2 (services scan)).

(** The loop over the grouped scans; those without services have no file. *)
Fixpoint per_client_files (scans : list ScanResult) (mux_dir proxy_cmd : string)
    (proxy_args : list string) : result string (list PerClientFile) :=
  match scans with
  | [] => Ok []
  | scan :: scans =>
      match services scan with
      | [] => per_client_files scans mux_dir proxy_cmd proxy_args
      | _ =>
          try! file := per_client_file scan mux_dir proxy_cmd proxy_args in
          try! files := per_client_files scans mux_dir proxy_cmd proxy_args in
          Ok (file :: files)
      end
  end.

Definition build_per_client_outputs (scans : list ScanResult) (mux_dir proxy_cmd : string)
    (proxy_args : list string) : result string PerClientOutputs :=
  let socket_dir := default_socket_dir mux_dir in
  let merged := merge_services scans in
  try! config_toml := ok_or (daemon_to_toml (build_daemon_config (merged_services merged) socket_dir))
                        "serialize daemon config.toml" in
  try! clients := per_client_files (group_scans_by_kind scans) mux_dir proxy_cmd proxy_args in
  Ok (mkPerClientOutputs mux_dir socket_dir (path_join mux_dir "config.toml") config_toml
        clients (length (merged_services merged)) (conflicts merged)).

(** The tree and the paths written, in order. *)
Definition write_per_client_outputs (canon : string → string) (o : PerClientOutputs)
    (fs : FileTree) : FileTree * list string :=
  foldl (λ r client, (fs_write canon (pc_path client) (pc_contents client) r.1,
                      r.2 ++ [pc_path client]))
    (fs_write canon (pco_config_toml_path o) (pco_config_toml o) fs, [pco_config_toml_path o])
    (pco_clients o).
End gen.

(** ** Instructions *)
Definition quoted (s : string) : string := String dquote (s +:+ String dquote "").

Definition gemini_mcp_add_commands (svcs : list HostService) (socket_dir : string) :
    list string :=
  match svcs with
  | [] => ["# (no services to add)"]
  | _ => (λ svc, "gemini mcp add " +:+ name svc +:+ " -- rust-mux-proxy --socket " +:+
                 service_socket socket_dir svc) <$> svcs
  end.

Definition safe_path_instructions (o : MuxOutputs) : list ClientInstruction := [
  mkClientInstruction HostKind.Claude "Claude Code (strict config)"
    ["claude --strict-mcp-config --mcp-config " +:+ quoted (mcp_json_path o)]
    "Strict mode prevents Claude Code from loading any other MCP config alongside the mux one.";
  mkClientInstruction HostKind.ClaudeDesktop "Claude Desktop"
    ["Open ~/Library/Application Support/Claude/claude_desktop_config.json and merge the `mcpServers` block from " +:+ mcp_json_path o]
    "Claude Desktop has no strict-config CLI flag; merge by hand or use the [DANGER] flow.";
  mkClientInstruction HostKind.Codex "Codex CLI"
    ["# Codex's `-c/--config` is a key=value override, not a config-file flag.";
     "# Either merge the [mcp_servers] block from the file below into ~/.codex/config.toml,";
     "# or `codex mcp add` each server pointing at rust-mux-proxy. Source: " +:+ mcp_toml_path o]
    "There is no verified Codex flag that swaps the entire MCP config file; merge or `codex mcp add` is required.";
  mkClientInstruction HostKind.Junie "Junie"
    ["junie --mcp-location " +:+ quoted (mcp_json_path o)]
    "`--mcp-default-locations` lets Junie keep its other MCP files alongside the mux one if you prefer additive mode.";
  mkClientInstruction HostKind.Gemini "Gemini CLI"
    (gemini_mcp_add_commands (out_mux_services o) (socket_dir o))
    "No verified Gemini flag for a strict config file; use `gemini mcp add` per server or fall back to the [DANGER] flow."
].

Definition per_client_instruction (socket_dir : string) (c : PerClientFile) : ClientInstruction :=
  let path := pc_path c in
  let '(headline, commands, note) :=
    match pc_kind c with
    | HostKind.Claude =>
        ("Claude Code (per-client mux config)",
         ["claude --strict-mcp-config --mcp-config " +:+ quoted path],
         "Strict mode keeps Claude on the mux config only.")
    | HostKind.ClaudeDesktop =>
        ("Claude Desktop (per-client mux config)",
         ["Replace the `mcpServers` block in ~/Library/Application Support/Claude/claude_desktop_config.json with the contents of " +:+ path],
         "Claude Desktop has no strict-config flag; either swap by hand or use the [DANGER] strategy.")
    | HostKind.Codex =>
        ("Codex CLI (per-client mux config)",
         ["# Codex has no flag that swaps the entire config file.";
          "# Merge the [mcp_servers] block from " +:+ path +:+ " into ~/.codex/config.toml,";
          "# or run `codex mcp add` for each entry pointing at rust-mux-proxy."],
         "There is no verified Codex flag for an alternative MCP config file.")
    | HostKind.Junie =>
        ("Junie (per-client mux config)",
         ["junie --mcp-location " +:+ quoted path],
         "Junie supports `--mcp-location` for an alternative MCP file.")
    | HostKind.Gemini =>
        ("Gemini CLI (per-client mux config)",
         gemini_mcp_add_commands (pc_services c) socket_dir,
         "Gemini has no strict-config flag; use `gemini mcp add` per server.")
    | HostKind.Cursor | HostKind.VSCode | HostKind.JetBrains =>
        (display_name (pc_kind c) +:+ " (per-client mux config)",
         ["Merge the `mcpServers` block from " +:+ path +:+ " into the editor's MCP settings."],
         "These editors load MCP from their settings file; the mux file is provided as a drop-in snippet.")
    | HostKind.Custom | HostKind.Unknown =>
        (display_name (pc_kind c) +:+ " (per-client mux config)",
         ["Use " +:+ path +:+ " according to your client's MCP config conventions."],
         "Unknown client: refer to the application's MCP setup documentation.")
    end in
  mkClientInstruction (pc_kind c) headline commands note.

Definition per_client_instructions (o : PerClientOutputs) : list ClientInstruction :=
  per_client_instruction (pco_socket_dir o) <$> pco_clients o.

(** ** Facts *)

(** A map built by insertions holds the last item of each name. *)
Lemma fold_insert_lookup {A B} (key : A → string) (g : A → B) (l : list A) n :
  foldl (λ m x, <[key x := g x]> m) (∅ : gmap string B) l !! n =
  g <$> last (retain (λ x, str_eqb (key x) n) l).
Proof.
  induction l as [|x l IH] using rev_ind; [apply lookup_empty|].
  rewrite foldl_app, retain_app. cbn [foldl]. unfold retain at 2. cbn [List.filter].
  unfold str_eqb at 2. case_bool_decide as E.
  - subst. by rewrite lookup_insert_eq, last_snoc.
  - by rewrite lookup_insert_ne, app_nil_r.
Qed.

Lemma daemon_servers svcs dir :
  servers (build_daemon_config svcs dir) =
  foldl (λ m svc, <[name svc := manifest_entry dir svc]> m) ∅ svcs.
Proof.
  unfold build_daemon_config. induction svcs as [|svc svcs IH] using rev_ind; [done|].
  rewrite !foldl_app. cbn [foldl servers]. by rewrite IH.
Qed.

Lemma last_of_distinct svcs svc :
  NoDup (name <$> svcs) → svc ∈ svcs →
  last (retain (λ x, str_eqb (name x) (name svc)) svcs) = Some svc.
Proof.
  intros Hnd Hin. induction svcs as [|s svcs IH]; [by apply elem_of_nil in Hin|].
  rewrite fmap_cons in Hnd. apply NoDup_cons in Hnd as [Hni Hnd].
  apply elem_of_cons in Hin as [->|Hin].
  - cbn [retain List.filter]. unfold str_eqb at 1. rewrite bool_decide_true by done.
    fold (retain (λ x, str_eqb (name x) (name s)) svcs).
    rewrite retain_none; [done|].
    intros x Hx. apply bool_decide_eq_false. intros E. apply Hni, list_elem_of_fmap. eauto.
  - cbn [retain List.filter]. unfold str_eqb at 1. rewrite bool_decide_false; [by apply IH|].
    intros E. apply Hni, list_elem_of_fmap. eauto.
Qed.

(** *** File names *)
Definition client_filename (k : HostKind.HostKind) : string :=
  if bool_decide (k = HostKind.Codex) then "codex.toml" else as_label k +:+ ".json".

Lemma client_filename_inj k k' : client_filename k = client_filename k' → k = k'.
Proof. destruct k, k'; (done || (intros E; vm_compute in E; discriminate)). Qed.

Lemma client_filename_facts k :
  client_filename k ≠ "config.toml" ∧ is_absolute (client_filename k) = false.
Proof. destruct k; split; (reflexivity || (intros E; vm_compute in E; discriminate)). Qed.

Lemma path_join_inj d a b :
  is_absolute a = false → is_absolute b = false → path_join d a = path_join d b → a = b.
Proof.
  intros Ha Hb. unfold path_join. rewrite Ha, Hb. simpl.
  destruct (str_is_empty d); [done|]. destruct (ends_with_slash d).
  - apply str_app_inj_l.
  - by intros [= E]%str_app_inj_l.
Qed.

(** *** Groups *)
Lemma add_to_group_kinds scan groups k :
  k ∈ (λ g, kind g.1) <$> add_to_group scan groups ↔
  k ∈ (λ g : HostFile * list ScanResult, kind g.1) <$> groups ∨ k = kind (host scan).
Proof.
  induction groups as [|[h l] groups IH]; cbn [add_to_group].
  - rewrite fmap_cons, elem_of_cons. tauto.
  - case_bool_decide as E; rewrite !fmap_cons, !elem_of_cons; simpl; [|rewrite IH; tauto].
    rewrite <- E. tauto.
Qed.

Lemma add_to_group_NoDup scan groups :
  NoDup ((λ g, kind g.1) <$> groups) → NoDup ((λ g, kind g.1) <$> add_to_group scan groups).
Proof.
  induction groups as [|[h l] groups IH]; cbn [add_to_group]; intros Hnd.
  - apply NoDup_singleton.
  - case_bool_decide as E; [done|]. rewrite !fmap_cons in *. apply NoDup_cons in Hnd as [Hn Hnd].
    apply NoDup_cons. split; [|by apply IH]. rewrite add_to_group_kinds. naive_solver.
Qed.

Lemma add_to_group_keeps scan groups g s :
  g ∈ groups → s ∈ g.2 → ∃ g', g' ∈ add_to_group scan groups ∧ kind g'.1 = kind g.1 ∧ s ∈ g'.2.
Proof.
  induction groups as [|[h l] groups IH]; cbn [add_to_group]; [by intros ?%elem_of_nil|].
  intros [->|Hg]%elem_of_cons Hs.
  - case_bool_decide; [|eexists; rewrite elem_of_cons; eauto].
    eexists. rewrite elem_of_cons. split_and!; [by left|done|]. apply elem_of_app. by left.
  - case_bool_decide.
    + exists g. rewrite elem_of_cons. auto.
    + destruct (IH Hg Hs) as (g' & ? & ? & ?). exists g'. rewrite elem_of_cons. auto.
Qed.

Lemma add_to_group_adds scan groups :
  ∃ g, g ∈ add_to_group scan groups ∧ kind g.1 = kind (host scan) ∧ scan ∈ g.2.
Proof.
  induction groups as [|[h l] groups IH]; cbn [add_to_group].
  - eexists. rewrite list_elem_of_singleton. split_and!; [done|done|]. simpl. set_solver.
  - case_bool_decide as E.
    + eexists. rewrite elem_of_cons. split_and!; [by left|done|]. apply elem_of_app. right. set_solver.
    + destruct IH as (g & ? & ? & ?). exists g. rewrite elem_of_cons. auto.
Qed.

Lemma group_scans_spec scans :
  NoDup ((λ s, kind (host s)) <$> group_scans_by_kind scans) ∧
  (∀ scan svc, scan ∈ scans → svc ∈ services scan →
     ∃ s o, s ∈ group_scans_by_kind scans ∧ kind (host s) = kind (host scan) ∧
       o ∈ services s ∧ stands_for o svc).
Proof.
  unfold group_scans_by_kind.
  assert (∀ l, NoDup ((λ g, kind g.1) <$> foldl (λ g s, add_to_group s g) [] l) ∧
    ∀ scan, scan ∈ l → ∃ g, g ∈ foldl (λ g s, add_to_group s g) [] l ∧
      kind g.1 = kind (host scan) ∧ scan ∈ g.2) as Hg.
  { induction l as [|s l [IH1 IH2]] using rev_ind.
    { split; [constructor|by intros ? ?%elem_of_nil]. }
    rewrite foldl_app. cbn [foldl]. split; [by apply add_to_group_NoDup|].
    intros scan [Hin|Heq%list_elem_of_singleton]%elem_of_app; [|subst; apply add_to_group_adds].
    destruct (IH2 _ Hin) as (g & Hgl & Hk & Hs).
    destruct (add_to_group_keeps s _ g scan Hgl Hs) as (g' & ? & ? & ?). exists g'.
    split_and!; congruence. }
  destruct (Hg scans) as [Hnd Hall]. split; [by rewrite <- list_fmap_compose|].
  intros scan svc Hscan Hsvc. destruct (Hall _ Hscan) as (g & Hin & Hk & Hs).
  destruct (merge_covers g.2 scan svc Hs Hsvc) as (o & Ho & Hst).
  eexists _, o. split_and!; [apply list_elem_of_fmap; eexists; split; [reflexivity|exact Hin]|done..].
Qed.

(** *** The files of the clients *)
Section files.
Context (daemon_to_toml : Config → option string).
Context (client_to_json : gmap string ClientServerJson → option string).
Context (client_to_toml : gmap string ClientServerToml → option string).

Lemma per_client_file_spec scan dir cmd pargs f :
  per_client_file client_to_json client_to_toml scan dir cmd pargs = Ok f →
  pc_kind f = kind (host scan) ∧ pc_path f = path_join dir (client_filename (kind (host scan))) ∧
  pc_services f = services scan.
Proof using.
  unfold per_client_file, client_native_payload.
  destruct (kind (host scan));
    intros ([[fn fmt] text] & (t & _ & [= <- <- <-])%result_bind_Ok_inv & [= <-])%result_bind_Ok_inv;
    done.
Qed.

Lemma per_client_files_spec scans dir cmd pargs fs :
  per_client_files client_to_json client_to_toml scans dir cmd pargs = Ok fs →
  (∀ f, f ∈ fs → ∃ s, s ∈ scans ∧ pc_kind f = kind (host s) ∧
     pc_path f = path_join dir (client_filename (pc_kind f))) ∧
  (∀ s o, s ∈ scans → o ∈ services s → ∃ f, f ∈ fs ∧ pc_kind f = kind (host s) ∧ o ∈ pc_services f) ∧
  (NoDup ((λ s, kind (host s)) <$> scans) → NoDup (pc_kind <$> fs)).
Proof using.
  revert fs. induction scans as [|s scans IH]; intros fs; cbn [per_client_files].
  - intros [= <-]. split_and!; [by intros ? ?%elem_of_nil|by intros ? ? ?%elem_of_nil|constructor].
  - destruct (services s) as [|o1 os] eqn:E.
    + intros Hr. destruct (IH _ Hr) as (H1 & H2 & H3). split_and!.
      * intros f Hf. destruct (H1 f Hf) as (s' & ? & ?). exists s'. rewrite elem_of_cons. auto.
      * intros s' o [->|Hs]%elem_of_cons Ho; [|eauto]. rewrite E in Ho. by apply elem_of_nil in Ho.
      * rewrite fmap_cons, NoDup_cons. naive_solver.
    + intros (f & Hf & (fs' & Hfs & [= <-])%result_bind_Ok_inv)%result_bind_Ok_inv.
      apply per_client_file_spec in Hf as (Hk & Hp & Hsv).
      destruct (IH _ Hfs) as (H1 & H2 & H3). split_and!.
      * intros f' [->|Hf']%elem_of_cons.
        -- exists s. rewrite elem_of_cons, Hp, Hk. auto.
        -- destruct (H1 f' Hf') as (s' & ? & ?). exists s'. rewrite elem_of_cons. auto.
      * intros s' o [->|Hs]%elem_of_cons Ho.
        -- exists f. rewrite elem_of_cons, Hsv. auto.
        -- destruct (H2 s' o Hs Ho) as (f' & ? & ?). exists f'. rewrite elem_of_cons. auto.
      * rewrite !fmap_cons, !NoDup_cons. intros [Hn Hnd]. split; [|auto].
        rewrite list_elem_of_fmap. intros (f' & E' & Hf'). apply Hn, list_elem_of_fmap.
        destruct (H1 f' Hf') as (s' & ? & ? & _). exists s'. split; [congruence|done].
Qed.

Lemma paths_NoDup dir fs :
  NoDup (pc_kind <$> fs) →
  (∀ f, f ∈ fs → pc_path f = path_join dir (client_filename (pc_kind f))) →
  NoDup (path_join dir "config.toml" :: (pc_path <$> fs)).
Proof using.
  intros Hnd Hp. apply NoDup_cons. split.
  - rewrite list_elem_of_fmap. intros (f & E & Hf). rewrite (Hp f Hf) in E.
    destruct (client_filename_facts (pc_kind f)) as [Hne Ha].
    apply path_join_inj in E; [congruence|done|done].
  - induction fs as [|f fs IH]; [constructor|]. rewrite !fmap_cons, !NoDup_cons in *.
    destruct Hnd as [Hn Hnd]. split; [|apply IH; [done|intros ? ?; apply Hp; by right]].
    rewrite list_elem_of_fmap. intros (f' & E & Hf'). apply Hn, list_elem_of_fmap.
    exists f'. split; [|done].
    rewrite (Hp f), (Hp f') in E; [|by right|by left].
    apply path_join_inj in E; [by apply client_filename_inj|apply client_filename_facts..].
Qed.

Lemma write_fold_lookup canon (fs : list PerClientFile) t ps q :
  (∀ f, f ∈ fs → canon (pc_path f) ≠ q) →
  (foldl (λ r c, (fs_write canon (pc_path c) (pc_contents c) r.1, r.2 ++ [pc_path c]))
     (t, ps) fs).1 !! q = t !! q.
Proof using.
  revert t ps. induction fs as [|f fs IH]; intros t ps Hq; [done|]. cbn [foldl fst snd].
  rewrite IH by (intros; apply Hq; by right).
  apply lookup_insert_ne, Hq. by left.
Qed.

Lemma write_fold_holds canon (fs : list PerClientFile) t ps f :
  NoDup (canon <$> (pc_path <$> fs)) → f ∈ fs →
  (foldl (λ r c, (fs_write canon (pc_path c) (pc_contents c) r.1, r.2 ++ [pc_path c]))
     (t, ps) fs).1 !! canon (pc_path f) = Some (pc_contents f).
Proof using.
  revert t ps. induction fs as [|g fs IH]; intros t ps Hnd Hf; [by apply elem_of_nil in Hf|].
  rewrite !fmap_cons, NoDup_cons in Hnd. destruct Hnd as [Hn Hnd]. cbn [foldl fst snd].
  apply elem_of_cons in Hf as [->|Hf]; [|by apply IH].
  rewrite write_fold_lookup; [apply lookup_insert_eq|].
  intros f' Hf' E. apply Hn. rewrite <- E. apply list_elem_of_fmap_2, list_elem_of_fmap_2, Hf'.
Qed.
End files.

(** ** Properties *)
Section properties.
Context (daemon_to_toml : Config → option string).
Context (client_to_json : gmap string ClientServerJson → option string).
Context (client_to_toml : gmap string ClientServerToml → option string).


End properties.

(** The proxy does not expand [~]: a server that was scanned with such a socket is
    listened on at one path and connected to at another. *)
Example tilde_socket_differs :
  let svc := mkHostService "m" "c" [] None (Some "~/m.sock") None None in
  let s := service_socket "/h/.config/mux/sockets" svc in
  s = "~/m.sock" ∧ expand_path (Some "/h") s = "/h/m.sock".
Proof. by_compute. Qed.
