(* ===== verification/Danger.v ===== *)
(** * Danger: rewriting the users' own files ([mux-agent/src/danger.rs])

    A plan is made from the clients' files without changing them, shown, and executed
    only when it is confirmed: each planned file is copied to a fresh timestamped
    backup and then replaced.  [rollback_commands] restores the copies. *)
From S2P Require Import Prelude Text Json Paths Config Scan Rewire Shell.
From Stdlib Require Import Ascii.

(** ** TOML documents

    What the code uses of [toml::Value] and its tables. *)
Class TomlLib := {
  Toml : Type;
  Table : Type;
  toml_from_str : string → option Toml;
  toml_to_string_pretty : Toml → option string;
  TString : string → Toml;
  TArray : list Toml → Toml;
  TTable : Table → Toml;
  as_table : Toml → option Table;
  table_new : Table;
  table_get : string → Table → option Toml;
  table_insert : string → Toml → Table → Table;
  table_iter : Table → list (string * Toml);
  as_table_TTable : ∀ t, as_table (TTable t) = Some t;
  table_get_new : ∀ k, table_get k table_new = None;
  table_get_insert_eq : ∀ k v t, table_get k (table_insert k v t) = Some v;
  table_get_insert_ne : ∀ k k' v t, k ≠ k' → table_get k' (table_insert k v t) = table_get k' t;
  table_iter_get : ∀ k v t, (k, v) ∈ table_iter t ↔ table_get k t = Some v;
}.

(** ** Data *)
Module DangerStatus.
Inductive DangerStatus := Planned | SkippedInvalid | SkippedIneligible | SkippedEmpty.
End DangerStatus.
#[export] Instance DangerStatus_eq_dec : EqDecision DangerStatus.DangerStatus.
Proof. solve_decision. Defined.

Record DangerAction := mkDangerAction {
  source : HostFile;
  status : DangerStatus.DangerStatus;
  new_contents : option string;
  change_lines : list string;
  skip_reason : option string;
  existing_services : list HostService;
}.
Record DangerPlan := mkDangerPlan {
  actions : list DangerAction;
  plan_proxy_cmd : string;
  plan_proxy_args : list string;
  plan_socket_dir : string;
}.
Record DangerExecutionOutcome := mkDangerExecutionOutcome {
  o_path : string;
  o_backup : option string;
  written : bool;
  o_status : DangerStatus.DangerStatus;
  error : option string;
}.

(** ** The rewrites of the two formats *)
Definition rewrite_args (socket_dir : string) (proxy_args : list string) (svc : HostService) :
    list string :=
  proxy_args ++ ["--socket"; service_socket socket_dir svc].
Definition change_line (proxy_cmd : string) (svc : HostService) : string :=
  "rewrite `" +:+ name svc +:+ "`: " +:+ command svc +:+ " -> " +:+ proxy_cmd.
Definition discovered (svcs : list HostService) (nm : string) : bool :=
  any (λ s, str_eqb (name s) nm) svcs.

Definition target_key (s : ConfigSchema.ConfigSchema) (obj : list (string * Value)) : string :=
  match s with
  | ConfigSchema.McpServersJson => "mcpServers"
  | ConfigSchema.ServersJson => "servers"
  | ConfigSchema.AutoJson =>
      if is_some (obj_get "mcpServers" obj) then "mcpServers"
      else if is_some (obj_get "servers" obj) then "servers"
      else "mcpServers"
  | ConfigSchema.McpServersToml => "mcpServers"
  end.

Section rewrite.
Context `{Platform, TomlLib}.
Context (json_from_str : string → option Value) (json_to_string_pretty : Value → string).
Context (socket_dir proxy_cmd : string) (proxy_args : list string).

Definition json_server (svc : HostService) : Value :=
  let server := obj_insert "command" (JString proxy_cmd) [] in
  let server := obj_insert "args"
    (JArray (JString <$> rewrite_args socket_dir proxy_args svc)) server in
  JObject match env svc with
          | Some env => obj_insert "env"
              (JObject (obj_of_list ((λ kv, (kv.1, JString kv.2)) <$> hash_iter env))) server
          | None => server
          end.

(** The entries that were not discovered, then the discovered ones rewritten. *)
Definition json_servers (existing : list (string * Value)) (svcs : list HostService) :
    list (string * Value) :=
  let kept := foldl (λ m kv, if discovered svcs kv.1 then m else obj_insert kv.1 kv.2 m)
                [] existing in
  foldl (λ m svc, obj_insert (name svc) (json_server svc) m) kept svcs.

Definition rewrite_json_keep_other_keys (original p : string) (s : ConfigSchema.ConfigSchema)
    (svcs : list HostService) : result string (string * list string) :=
  try! root := ok_or (json_from_str original) ("failed to parse json " +:+ p) in
  try! obj := ok_or (as_object root) (p +:+ ": top-level JSON must be an object") in
  let key := target_key s obj in
  let existing := unwrap_or (obj_get key obj ≫= as_object) [] in
  let root := JObject (obj_insert key (JObject (json_servers existing svcs)) obj) in
  Ok (json_to_string_pretty root, change_line proxy_cmd <$> svcs).

Definition toml_server (svc : HostService) : Toml :=
  let entry := table_insert "command" (TString proxy_cmd) table_new in
  let entry := table_insert "args"
    (TArray (TString <$> rewrite_args socket_dir proxy_args svc)) entry in
  TTable match env svc with
         | Some env => table_insert "env"
             (TTable (foldl (λ t kv, table_insert kv.1 (TString kv.2) t) table_new
                        (hash_iter env))) entry
         | None => entry
         end.

Definition toml_servers (existing : Table) (svcs : list HostService) : Table :=
  let kept := foldl (λ t kv, if discovered svcs kv.1 then t else table_insert kv.1 kv.2 t)
                table_new (table_iter existing) in
  foldl (λ t svc, table_insert (name svc) (toml_server svc) t) kept svcs.

Definition rewrite_toml_keep_other_tables (original p : string) (svcs : list HostService) :
    result string (string * list string) :=
  try! root := ok_or (toml_from_str original) ("failed to parse toml " +:+ p) in
  try! table := ok_or (as_table root) (p +:+ ": top-level TOML must be a table") in
  let existing := unwrap_or (table_get "mcp_servers" table ≫= as_table) table_new in
  let root := TTable (table_insert "mcp_servers" (TTable (toml_servers existing svcs)) table) in
  try! serialized := ok_or (toml_to_string_pretty root) "serialize rewritten toml" in
  Ok (serialized, change_line proxy_cmd <$> svcs).

(** ** Planning *)
Context (canon : string → string).
Context (toml_mcp_servers : string → option (option (list (string * option RawServer)))).

Definition ineligible_action (src : HostFile) (svcs : list HostService) : DangerAction :=
  mkDangerAction src DangerStatus.SkippedIneligible None []
    (Some (display_name (kind src) +:+
       " has no verified strict-config flag; use the safe path instructions instead")) svcs.

Definition push_empty_action (acts : list DangerAction) (src : HostFile) : list DangerAction :=
  acts ++ [mkDangerAction src DangerStatus.SkippedEmpty None []
    (Some "no selected MCP servers found in this config; nothing to rewrite") []].

Definition rewrite_scan (scan : ScanResult) (original : string) :
    result string (string * list string) :=
  match format (host scan) with
  | HostFormat.Json => rewrite_json_keep_other_keys original (path (host scan))
                         (schema (host scan)) (services scan)
  | HostFormat.Toml => rewrite_toml_keep_other_tables original (path (host scan)) (services scan)
  end.

Definition push_rewrite_action (acts : list DangerAction) (scan : ScanResult) (fs : FileTree) :
    list DangerAction :=
  let src := host scan in
  match safe_read_to_string canon (path src) fs with
  | Err err => acts ++ [mkDangerAction src DangerStatus.SkippedInvalid None []
                          (Some ("read error: " +:+ err)) []]
  | Ok original =>
      match rewrite_scan scan original with
      | Ok (contents, lines) =>
          acts ++ [mkDangerAction src DangerStatus.Planned (Some contents) lines None
                     (services scan)]
      | Err err =>
          acts ++ [mkDangerAction src DangerStatus.SkippedInvalid None []
                     (Some ("rewrite failed: " +:+ err)) (services scan)]
      end
  end.

(** The body of the loop over the sources. *)
Definition plan_source (fs : FileTree) (acts : list DangerAction) (src : HostFile) :
    list DangerAction :=
  if negb (eligible_for_danger src) then acts ++ [ineligible_action src []] else
  match scan_host_file canon json_from_str toml_mcp_servers src fs with
  | Err err => acts ++ [mkDangerAction src DangerStatus.SkippedInvalid None []
                          (Some ("parse error: " +:+ err)) []]
  | Ok scan =>
      match services scan with
      | [] => push_empty_action acts src
      | _ => push_rewrite_action acts scan fs
      end
  end.

Definition plan_danger_rewrite (sources : list HostFile) (fs : FileTree) : DangerPlan :=
  mkDangerPlan (foldl (plan_source fs) [] sources) proxy_cmd proxy_args socket_dir.

(** The same on scans, of which the operator may have removed services. *)
Definition plan_scan (fs : FileTree) (acts : list DangerAction) (scan : ScanResult) :
    list DangerAction :=
  if negb (eligible_for_danger (host scan))
  then acts ++ [ineligible_action (host scan) (services scan)] else
  match services scan with
  | [] => push_empty_action acts (host scan)
  | _ => push_rewrite_action acts scan fs
  end.

Definition plan_danger_rewrite_for_scans (scans : list ScanResult) (fs : FileTree) : DangerPlan :=
  mkDangerPlan (foldl (plan_scan fs) [] scans) proxy_cmd proxy_args socket_dir.
End rewrite.

(** ** Execution *)
Definition backup_path (p : string) (secs : N) (suffix : option N) : string :=
  let name := unwrap_or (file_name p) "danger" +:+ "." +:+ pretty secs +:+
              match suffix with
              | Some n => "-" +:+ pretty n +:+ ".bak"
              | None => ".bak"
              end in
  match parent p, file_name p with
  | Some dir, Some _ => path_join dir name
  | _, _ => path_join p name
  end.

Section execute.
Context (canon : string → string).

(** The search for a free backup path; [counter] is [1000 - left]. *)
Fixpoint unused_backup (left : nat) (p : string) (secs : N) (backup : string) (fs : FileTree) :
    result string string :=
  if path_exists canon backup fs then
    match left with
    | O => Err ("could not find unique backup path for " +:+ p)
    | S left' =>
        unused_backup left' p secs (backup_path p secs (Some (1000 - N.of_nat left)%N)) fs
    end
  else Ok backup.

(** [secs] is the clock's reading; the tree and the path of the backup. *)
Definition write_with_timestamped_backup (p contents : string) (secs : N) (fs : FileTree) :
    result string (FileTree * string) :=
  try! backup := unused_backup 999 p secs (backup_path p secs None) fs in
  try! fs := (if path_exists canon p fs then
                match safe_copy_file canon p backup fs with
                | Ok fs => Ok fs
                | Err _ => Err ("failed to create backup " +:+ backup)
                end
              else Ok fs) in
  Ok (<[canon p := contents]> fs, backup).

Definition execute_action (secs : N) (action : DangerAction) (fs : FileTree) :
    FileTree * DangerExecutionOutcome :=
  let p := path (source action) in
  match status action, new_contents action with
  | DangerStatus.Planned, Some contents =>
      match write_with_timestamped_backup p contents secs fs with
      | Ok (fs, backup) =>
          (fs, mkDangerExecutionOutcome p (Some backup) true DangerStatus.Planned None)
      | Err err =>
          (fs, mkDangerExecutionOutcome p None false DangerStatus.SkippedInvalid (Some err))
      end
  | _, _ => (fs, mkDangerExecutionOutcome p None false (status action) (skip_reason action))
  end.

(** The loop over the actions; [clock] has the readings of their turns. *)
Fixpoint execute_actions (acts : list DangerAction) (clock : nat → N) (fs : FileTree) :
    FileTree * list DangerExecutionOutcome :=
  match acts with
  | [] => (fs, [])
  | action :: acts =>
      let '(fs, outcome) := execute_action (clock 0%nat) action fs in
      let '(fs, outcomes) := execute_actions acts (λ n, clock (S n)) fs in
      (fs, outcome :: outcomes)
  end.

Definition execute_plan (plan : DangerPlan) (confirmed : bool) (clock : nat → N) (fs : FileTree) :
    result string (FileTree * list DangerExecutionOutcome) :=
  if negb confirmed
  then Err "danger plan execution refused: explicit confirmation required"
  else Ok (execute_actions (actions plan) clock fs).
End execute.

(** ** Rolling back *)
Definition shell_safe (c : ascii) : bool :=
  is_ascii_alphanumeric c || bool_decide (c ∈ ["/"; "."; "-"; "_"; "~"]%char).
Definition shell_quote (p : string) : string :=
  if str_forall shell_safe p then p
  else "'" +:+ replace_char squote "'\''" p +:+ "'".

Definition rollback_commands (outcomes : list DangerExecutionOutcome) : list string :=
  omap (λ o, (λ b, "cp -p " +:+ shell_quote b +:+ " " +:+ shell_quote (o_path o)) <$> o_backup o)
    outcomes.

(** ** Preview *)
Definition short_status (s : DangerStatus.DangerStatus) : string :=
  match s with
  | DangerStatus.Planned => "planned"
  | DangerStatus.SkippedInvalid => "invalid"
  | DangerStatus.SkippedIneligible => "ineligible"
  | DangerStatus.SkippedEmpty => "empty"
  end.

Definition line (s : string) : string := s +:+ String newline "".

Definition preview_planned (a : DangerAction) : string :=
  line ("  • " +:+ path (source a) +:+ " (" +:+
        match format (source a) with HostFormat.Json => "JSON" | HostFormat.Toml => "TOML" end +:+
        " format, " +:+ pretty (N.of_nat (length (existing_services a))) +:+ " services)") +:+
  String.concat "" ((λ c, line ("      - " +:+ c)) <$> change_lines a) +:+
  line ("      backup target: " +:+ path (source a) +:+ ".<unix_seconds>.bak").

Definition preview_skipped (a : DangerAction) : string :=
  line ("  • " +:+ path (source a) +:+ ": " +:+ short_status (status a) +:+ " (" +:+
        unwrap_or (skip_reason a) "(unspecified)" +:+ ")").

Definition format_preview (plan : DangerPlan) : string :=
  let planned := retain (λ a, bool_decide (status a = DangerStatus.Planned)) (actions plan) in
  let skipped := retain (λ a, bool_decide (status a ≠ DangerStatus.Planned)) (actions plan) in
  line "⚠️  [DANGER] Automatic client configuration plan" +:+
  line "====================================================" +:+
  line ("Proxy command : " +:+ plan_proxy_cmd plan) +:+
  match plan_proxy_args plan with
  | [] => ""
  | args => line ("Proxy pre-args: " +:+ join " " args)
  end +:+
  line ("Socket dir    : " +:+ plan_socket_dir plan) +:+ line "" +:+
  line ("Planned changes (" +:+ pretty (N.of_nat (length planned)) +:+ " file(s)):") +:+
  String.concat "" (preview_planned <$> planned) +:+
  match skipped with
  | [] => ""
  | _ => line "" +:+ line ("Skipped (" +:+ pretty (N.of_nat (length skipped)) +:+ "):") +:+
         String.concat "" (preview_skipped <$> skipped)
  end +:+
  line "" +:+ line "Notes:" +:+
  line "  - Every modified file gets a timestamped .bak next to it before mutation." +:+
  line "  - TOML rewrites lose comments and key order; .bak preserves the original." +:+
  line "  - Files with parse errors are NEVER modified." +:+
  line "  - Unrelated config keys/tables are preserved.".

(** ** Facts about the rewrites *)

(** A map-like type: JSON objects and TOML tables alike. *)
Section keyed.
Context {V M : Type} (get : string → M → option V) (ins : string → V → M → M) (emp : M).
Context (get_emp : ∀ k, get k emp = None).
Context (get_ins_eq : ∀ k v m, get k (ins k v m) = Some v).
Context (get_ins_ne : ∀ k k' v m, k ≠ k' → get k' (ins k v m) = get k' m).

Lemma kept_get skip (l : list (string * V)) nm :
  (skip nm : bool) = false → (∀ v v', (nm, v) ∈ l → (nm, v') ∈ l → v = v') →
  ∀ v, get nm (foldl (λ m kv, if skip kv.1 then m else ins kv.1 kv.2 m) emp l) = Some v ↔
    (nm, v) ∈ l.
Proof using get_emp get_ins_eq get_ins_ne.
  intros Hskip. induction l as [|[k w] l IH] using rev_ind; intros Hfun v.
  - simpl. rewrite get_emp. by rewrite elem_of_nil.
  - rewrite foldl_app. cbn [foldl fst snd].
    rewrite elem_of_app, list_elem_of_singleton.
    assert (∀ v, get nm (foldl (λ m kv, if skip kv.1 then m else ins kv.1 kv.2 m) emp l) = Some v
      ↔ (nm, v) ∈ l) as IH'.
    { apply IH. intros v1 v2 H1 H2. apply Hfun; apply elem_of_app; by left. }
    destruct (decide (k = nm)) as [->|Hne].
    + rewrite Hskip, get_ins_eq. split; [intros [= ->]; by right|].
      intros [Hin|[= ->]]; [|done]. f_equal. apply (Hfun w v); apply elem_of_app; [right|by left].
      by apply list_elem_of_singleton.
    + destruct (skip k); [|rewrite get_ins_ne by done]; rewrite IH'; naive_solver.
Qed.

Lemma added_get_other (g : HostService → V) svcs m nm :
  discovered svcs nm = false →
  get nm (foldl (λ m svc, ins (name svc) (g svc) m) m svcs) = get nm m.
Proof using get_ins_ne.
  intros Hd. induction svcs as [|s svcs IH] using rev_ind; [done|].
  rewrite foldl_app. cbn [foldl].
  pose proof (proj1 (any_false _ _) Hd) as Hall.
  rewrite get_ins_ne; [apply IH; apply any_false; intros x Hx; apply Hall; apply elem_of_app; by left|].
  intros E. assert (s ∈ svcs ++ [s]) as Hs by (apply elem_of_app; right; by apply list_elem_of_singleton).
  apply Hall in Hs. by apply bool_decide_eq_false in Hs.
Qed.

Lemma added_get (g : HostService → V) svcs m svc :
  svc ∈ svcs →
  ∃ svc', svc' ∈ svcs ∧ name svc' = name svc ∧
    get (name svc) (foldl (λ m svc, ins (name svc) (g svc) m) m svcs) = Some (g svc').
Proof using get_ins_eq get_ins_ne.
  induction svcs as [|s svcs IH] using rev_ind; [by intros ?%elem_of_nil|].
  rewrite foldl_app. cbn [foldl]. destruct (decide (name s = name svc)) as [E|Hne].
  - intros _. exists s. rewrite <- E at 2. rewrite get_ins_eq.
    split_and!; [apply elem_of_app; right; by apply list_elem_of_singleton|done..].
  - rewrite get_ins_ne by done. intros [Hin|Heq%list_elem_of_singleton]%elem_of_app; [|by subst].
    destruct (IH Hin) as (s' & ? & ? & ?). exists s'. rewrite elem_of_app. auto.
Qed.
End keyed.

(** What a server's entry starts after a rewrite. *)
Section rewrites.
Context `{Platform, TomlLib}.
Context (json_from_str : string → option Value) (json_to_string_pretty : Value → string).
Context (dir cmd : string) (pargs : list string).

Lemma json_servers_spec e svcs :
  NoDup e.*1 →
  (∀ nm, discovered svcs nm = false →
     obj_get nm (json_servers dir cmd pargs e svcs) = obj_get nm e) ∧
  (∀ svc, svc ∈ svcs → ∃ svc', svc' ∈ svcs ∧ name svc' = name svc ∧
     obj_get (name svc) (json_servers dir cmd pargs e svcs) = Some (json_server dir cmd pargs svc')).
Proof using.
  intros Hnd. unfold json_servers. split.
  - intros nm Hd.
    rewrite (added_get_other obj_get obj_insert obj_get_insert_ne) by done.
    apply option_eq. intros v.
    rewrite (kept_get obj_get obj_insert [] (λ _, eq_refl) obj_get_insert_eq obj_get_insert_ne);
      [by rewrite obj_get_elem|done|].
    intros v1 v2 H1 H2. rewrite <- obj_get_elem in H1, H2 by done. congruence.
  - intros svc Hin. by apply (added_get obj_get obj_insert obj_get_insert_eq obj_get_insert_ne).
Qed.

Lemma toml_servers_spec e svcs :
  (∀ nm, discovered svcs nm = false →
     table_get nm (toml_servers dir cmd pargs e svcs) = table_get nm e) ∧
  (∀ svc, svc ∈ svcs → ∃ svc', svc' ∈ svcs ∧ name svc' = name svc ∧
     table_get (name svc) (toml_servers dir cmd pargs e svcs) =
       Some (toml_server dir cmd pargs svc')).
Proof using.
  unfold toml_servers. split.
  - intros nm Hd.
    rewrite (added_get_other table_get table_insert table_get_insert_ne) by done.
    apply option_eq. intros v.
    rewrite (kept_get table_get table_insert table_new table_get_new table_get_insert_eq
      table_get_insert_ne); [by rewrite table_iter_get|done|].
    intros v1 v2 H1%table_iter_get H2%table_iter_get. congruence.
  - intros svc Hin.
    by apply (added_get table_get table_insert table_get_insert_eq table_get_insert_ne).
Qed.

(** C15: The rewrite of a JSON file starts the proxy, on the server's own socket, for every
    discovered server, and changes nothing else: every other entry beside them and every
    other top-level key keeps its value.  A file that is not a JSON object is an error. *)
Theorem json_rewrite_keeps_the_rest original p sch svcs :
  match json_from_str original with
  | Some (JObject obj) =>
      let key := target_key sch obj in
      let existing := unwrap_or (obj_get key obj ≫= as_object) [] in
      NoDup existing.*1 →
      ∃ obj' new, rewrite_json_keep_other_keys json_from_str json_to_string_pretty dir cmd pargs
          original p sch svcs =
          Ok (json_to_string_pretty (JObject obj'), change_line cmd <$> svcs) ∧
        (∀ k, k ≠ key → obj_get k obj' = obj_get k obj) ∧
        obj_get key obj' = Some (JObject new) ∧
        (∀ nm, discovered svcs nm = false → obj_get nm new = obj_get nm existing) ∧
        (∀ svc, svc ∈ svcs → ∃ svc' v, svc' ∈ svcs ∧ name svc' = name svc ∧
           obj_get (name svc) new = Some v ∧ value_get "command" v = Some (JString cmd) ∧
           value_get "args" v =
             Some (JArray (JString <$> pargs ++ ["--socket"; service_socket dir svc'])))
  | _ => ∃ e, rewrite_json_keep_other_keys json_from_str json_to_string_pretty dir cmd pargs
                original p sch svcs = Err e
  end.
Proof using.
  unfold rewrite_json_keep_other_keys.
  destruct (json_from_str original) as [[]|]; cbn [ok_or result_bind as_object]; try by eexists.
  intros Hnd. destruct (json_servers_spec _ svcs Hnd) as [Hk Ha].
  eexists _, _. split; [reflexivity|]. split_and!.
  - intros k Hne. by apply obj_get_insert_ne.
  - apply obj_get_insert_eq.
  - exact Hk.
  - intros svc Hin. destruct (Ha svc Hin) as (svc' & ? & ? & Hg).
    eexists svc', _. split_and!; [done|done|exact Hg|..]; unfold json_server; cbn [value_get];
      destruct (env svc'); repeat rewrite obj_get_insert_ne by done; by rewrite obj_get_insert_eq.
Qed.

(** The rewrite of a TOML file changes only the discovered servers' tables under
    [mcp_servers], which it points to the proxy on the server's own socket. *)
Theorem toml_rewrite_keeps_the_rest original p svcs contents lines :
  rewrite_toml_keep_other_tables dir cmd pargs original p svcs = Ok (contents, lines) →
  ∃ root table table' new,
    toml_from_str original = Some root ∧ as_table root = Some table ∧
    toml_to_string_pretty (TTable table') = Some contents ∧
    (∀ k, k ≠ "mcp_servers" → table_get k table' = table_get k table) ∧
    table_get "mcp_servers" table' = Some (TTable new) ∧
    (∀ nm, discovered svcs nm = false →
       table_get nm new = (table_get "mcp_servers" table ≫= as_table) ≫= table_get nm) ∧
    (∀ svc, svc ∈ svcs → ∃ svc' e, svc' ∈ svcs ∧ name svc' = name svc ∧
       table_get (name svc) new = Some (TTable e) ∧
       table_get "command" e = Some (TString cmd) ∧
       table_get "args" e =
         Some (TArray (TString <$> pargs ++ ["--socket"; service_socket dir svc']))).
Proof using.
  unfold rewrite_toml_keep_other_tables.
  intros (root & Hroot%ok_or_Ok & Hr)%result_bind_Ok_inv.
  apply result_bind_Ok_inv in Hr as (table & Ht%ok_or_Ok & Hr).
  apply result_bind_Ok_inv in Hr as (s & Hs%ok_or_Ok & [= -> <-]).
  set (e := unwrap_or (table_get "mcp_servers" table ≫= as_table) table_new) in *.
  destruct (toml_servers_spec e svcs) as [Hk Ha].
  eexists root, table, _, _. split; [done|]. split; [done|]. split; [exact Hs|]. split_and!.
  - intros k Hne. by apply table_get_insert_ne.
  - apply table_get_insert_eq.
  - intros nm Hd. rewrite Hk by done. subst e.
    destruct (table_get "mcp_servers" table ≫= as_table); [done|apply table_get_new].
  - intros svc Hin. destruct (Ha svc Hin) as (svc' & ? & ? & Hg).
    eexists svc', _. split_and!; [done|done|exact Hg|..]; destruct (env svc');
      repeat rewrite table_get_insert_ne by done; by rewrite table_get_insert_eq.
Qed.
End rewrites.

(** ** Facts about the execution *)
Section execution.
Context (canon : string → string).

(** The file a backup is copied to is the one its path names: no symbolic link stands
    in its place. *)
Definition regular (b : string) : Prop :=
  ∀ t, vetted_output_file canon b = Ok t → canon b = t.

Lemma unused_backup_fresh left p secs b fs b' :
  unused_backup canon left p secs b fs = Ok b' → fs !! canon b' = None.
Proof using.
  revert b. induction left as [|left IH]; intros b; cbn [unused_backup]; unfold path_exists;
    destruct (fs !! canon b) eqn:E; simpl; try done; try apply IH; by intros [= <-].
Qed.

(** The search gives up after a thousand names, all taken. *)
Lemma unused_backup_Err left p secs b fs e :
  (left ≤ 999)%nat → unused_backup canon left p secs b fs = Err e →
  ∀ n, (1000 - N.of_nat left ≤ n < 1000)%N →
    is_Some (fs !! canon (backup_path p secs (Some n))).
Proof using.
  revert b. induction left as [|left IH]; intros b Hle; cbn [unused_backup]; unfold path_exists;
    destruct (fs !! canon b) as [d|] eqn:E; simpl; try done; [intros _ n; lia|].
  intros Hu n Hn. 
  destruct (decide (n = 1000 - N.of_nat (S left))%N) as [->|Hne].
  - destruct left as [|left]; cbn [unused_backup] in Hu; unfold path_exists in Hu;
      destruct (fs !! canon (backup_path p secs (Some (1000 - N.of_nat _)%N))) eqn:E2;
      simpl in Hu; try done; eauto.
  - apply (IH _ ltac:(lia) Hu). lia.
Qed.

Lemma write_backup_spec p c secs fs fs' b :
  write_with_timestamped_backup canon p c secs fs = Ok (fs', b) → regular b →
  fs !! canon b = None ∧
  (∀ q, q ≠ canon p → q ≠ canon b → fs' !! q = fs !! q) ∧ fs' !! canon p = Some c ∧
  (∀ d, fs !! canon p = Some d → canon b ≠ canon p ∧ fs' !! canon b = Some d).
Proof using.
  unfold write_with_timestamped_backup. intros Hw Hreg.
  apply result_bind_Ok_inv in Hw as (b0 & Hb & Hw).
  apply result_bind_Ok_inv in Hw as (fs1 & Hc & Hw). injection Hw as <- ->.
  apply unused_backup_fresh in Hb. unfold path_exists in Hc.
  destruct (fs !! canon p) as [d|] eqn:Ep; cbn [is_some] in Hc.
  - destruct (safe_copy_file canon p b fs) as [fs2|] eqn:E; [|done]. injection Hc as ->.
    apply safe_copy_copies in E as (t & d' & Ht & Hd & ->).
    assert (d' = d) as -> by congruence. rewrite <- (Hreg t Ht) in *.
    assert (canon b ≠ canon p) as Hne by congruence.
    split_and!; [done| |apply lookup_insert_eq|].
    + intros q Hq Hq2. etrans; [by apply lookup_insert_ne|]. by apply lookup_insert_ne.
    + intros d2 [= <-]. split; [done|].
      etrans; [by apply lookup_insert_ne|]. apply lookup_insert_eq.
  - injection Hc as <-. split_and!; [done| |apply lookup_insert_eq|done].
    intros q Hq _. by apply lookup_insert_ne.
Qed.

(** An action either leaves the tree alone and reports no backup, or is planned and
    replaces its file after a backup. *)
Lemma execute_action_spec secs a fs fs' o :
  execute_action canon secs a fs = (fs', o) →
  o_path o = path (source a) ∧
  ((fs' = fs ∧ o_backup o = None ∧ written o = false) ∨
   ∃ c b, status a = DangerStatus.Planned ∧ new_contents a = Some c ∧
     write_with_timestamped_backup canon (path (source a)) c secs fs = Ok (fs', b) ∧
     o_backup o = Some b ∧ written o = true).
Proof using.
  unfold execute_action. intros Ha.
  destruct (status a) eqn:Es, (new_contents a) as [c|] eqn:Ec;
    try (injection Ha as <- <-; simpl; by eauto).
  destruct (write_with_timestamped_backup canon (path (source a)) c secs fs) as [[fs1 b]|] eqn:E;
    injection Ha as <- <-; simpl; [|by eauto]. split; [done|]. right. by exists c, b.
Qed.

Lemma execute_actions_cons a acts clock fs fs' outs :
  execute_actions canon (a :: acts) clock fs = (fs', outs) →
  ∃ fs1 o outs', execute_action canon (clock 0%nat) a fs = (fs1, o) ∧
    execute_actions canon acts (λ n, clock (S n)) fs1 = (fs', outs') ∧ outs = o :: outs'.
Proof using.
  cbn [execute_actions]. destruct (execute_action canon (clock 0%nat) a fs) as [fs1 o].
  destruct (execute_actions canon acts _ fs1) as [fs2 os] eqn:E2. intros [= <- <-].
  exists fs1, o, os. done.
Qed.

(** Files that exist are only changed by being the target of a planned action. *)
Lemma execute_actions_touch acts clock fs fs' outs q d :
  execute_actions canon acts clock fs = (fs', outs) →
  (∀ o b, o ∈ outs → o_backup o = Some b → regular b) →
  fs !! q = Some d →
  fs' !! q = Some d ∨
  ∃ a c, a ∈ acts ∧ status a = DangerStatus.Planned ∧ new_contents a = Some c ∧
    canon (path (source a)) = q ∧ fs' !! q = Some c.
Proof using.
  revert clock fs outs d. induction acts as [|a acts IH]; intros clock fs outs d Hx Hreg Hd.
  { injection Hx as <- <-. by left. }
  apply execute_actions_cons in Hx as (fs1 & o & outs' & Ha & Hx & ->).
  apply execute_action_spec in Ha as [_ [(-> & _ & _)|(c & b & Hs & Hc & Hw & Hb & _)]].
  - destruct (IH _ _ _ d Hx) as [?|(a' & c & ? & ?)]; [|done|by left|].
    + intros; eapply Hreg; [by right|done].
    + right. exists a', c. rewrite elem_of_cons. tauto.
  - assert (regular b) as Hr by (eapply Hreg; [by left|done]).
    destruct (write_backup_spec _ _ _ _ _ _ Hw Hr) as (Hfree & Hother & Hp & _).
    assert (∀ o b, o ∈ outs' → o_backup o = Some b → regular b) as Hreg'
      by (intros; eapply Hreg; [by right|done]).
    destruct (decide (q = canon (path (source a)))) as [->|Hne].
    + destruct (IH _ _ _ c Hx Hreg' Hp) as [?|(a' & c' & ? & ?)]; right.
      * exists a, c. rewrite elem_of_cons. auto.
      * exists a', c'. rewrite elem_of_cons. tauto.
    + destruct (IH _ _ _ d Hx Hreg') as [?|(a' & c' & ? & ?)].
      * rewrite Hother; [done|done|congruence].
      * by left.
      * right. exists a', c'. rewrite elem_of_cons. tauto.
Qed.
(** *** Rolling back *)

(** [cp -p backup file]. *)
Definition cp (b p : string) (fs : FileTree) : FileTree :=
  match fs !! canon b with
  | Some d => <[canon p := d]> fs
  | None => fs
  end.
Definition rollback (outs : list DangerExecutionOutcome) (fs : FileTree) : FileTree :=
  foldl (λ fs o, match o_backup o with Some b => cp b (o_path o) fs | None => fs end) fs outs.

(** The files the plan means to replace. *)
Definition targets (acts : list DangerAction) : list string :=
  (λ a, canon (path (source a))) <$>
    retain (λ a, bool_decide (status a = DangerStatus.Planned)) acts.

Lemma targets_cons a acts :
  targets (a :: acts) =
  if bool_decide (status a = DangerStatus.Planned)
  then canon (path (source a)) :: targets acts else targets acts.
Proof using. unfold targets, retain. simpl. by case_bool_decide. Qed.

(** What an execution of a plan keeps: a backup holds what its file held, under a name
    that was free, and what is not backed up is as it was. *)
Record backed_up (ts : list string) (fs fs' : FileTree) (outs : list DangerExecutionOutcome) :
    Prop := {
  backup_saved o b : o ∈ outs → o_backup o = Some b →
    ∃ d, canon (o_path o) ∈ ts ∧ fs !! canon (o_path o) = Some d ∧
      fs' !! canon b = Some d ∧ fs !! canon b = None;
  backup_or_same q d : fs !! q = Some d →
    fs' !! q = Some d ∨ ∃ o b, o ∈ outs ∧ o_backup o = Some b ∧ canon (o_path o) = q;
}.

Lemma backed_up_skip ts ts' fs fs' o outs :
  o_backup o = None → (∀ t, t ∈ ts → t ∈ ts') →
  backed_up ts fs fs' outs → backed_up ts' fs fs' (o :: outs).
Proof using.
  intros Hb Hsub [H1 H2]. split.
  - intros o' b' [->|Hin]%elem_of_cons Hb'; [congruence|].
    destruct (H1 o' b' Hin Hb') as (d & ? & ?). eauto.
  - intros q d Hq. destruct (H2 q d Hq) as [?|(o' & b' & ? & ?)]; [by left|].
    right. exists o', b'. rewrite elem_of_cons. auto.
Qed.

(** One more file is replaced first, [t], after a backup to [b]. *)
Lemma backed_up_step t ts b d fs fs1 fs' o outs :
  canon (o_path o) = t → o_backup o = Some b → t ∉ ts → (∀ t', t' ∈ ts → is_Some (fs !! t')) →
  fs !! t = Some d → fs !! canon b = None → fs1 !! canon b = Some d → canon b ≠ t →
  (∀ q, q ≠ t → q ≠ canon b → fs1 !! q = fs !! q) → is_Some (fs1 !! t) →
  backed_up ts fs1 fs' outs → backed_up (t :: ts) fs fs' (o :: outs).
Proof using.
  intros Hop Hb Hn Hex Hd Hfree Hbd Hne Hother Ht [H1 H2]. split.
  - intros o' b' [->|Hin]%elem_of_cons Hb'.
    + assert (b' = b) as -> by congruence. rewrite Hop. exists d.
      split_and!; [by left|done| |done].
      destruct (H2 _ _ Hbd) as [?|(o2 & b2 & Hin2 & Hb2 & E)]; [done|].
      destruct (H1 _ _ Hin2 Hb2) as (_ & Hts & _). rewrite E in Hts.
      destruct (Hex _ Hts). congruence.
    + destruct (H1 o' b' Hin Hb') as (d' & Hts & Hd' & Hs' & Hf').
      destruct (Hex _ Hts) as [x Hx]. exists d'. split_and!; [by right| |done|].
      * rewrite <- Hother; [done|congruence|congruence].
      * destruct (decide (canon b' = t)) as [E|Hbt]; [rewrite E in Hf'; by destruct Ht; congruence|].
        destruct (decide (canon b' = canon b)); [congruence|]. by rewrite <- Hother.
  - intros q x Hq. destruct (decide (q = t)) as [->|Hqt].
    + right. exists o, b. rewrite elem_of_cons, Hop. auto.
    + destruct (H2 q x) as [?|(o' & b' & ? & ?)]; [rewrite Hother; congruence|by left|].
      right. exists o', b'. rewrite elem_of_cons. auto.
Qed.

Lemma execute_actions_backups acts clock fs fs' outs :
  execute_actions canon acts clock fs = (fs', outs) →
  (∀ o b, o ∈ outs → o_backup o = Some b → regular b) →
  NoDup (targets acts) → (∀ t, t ∈ targets acts → is_Some (fs !! t)) →
  backed_up (targets acts) fs fs' outs.
Proof using.
  revert clock fs outs. induction acts as [|a acts IH]; intros clock fs outs Hx Hreg Hnd Hex.
  { injection Hx as <- <-. split; [by intros o b ?%elem_of_nil|by left]. }
  apply execute_actions_cons in Hx as (fs1 & o & outs' & Ha & Hx & ->).
  assert (∀ o b, o ∈ outs' → o_backup o = Some b → regular b) as Hreg'
    by (intros; eapply Hreg; [by right|done]).
  apply execute_action_spec in Ha as [Hop [(-> & Hb & _)|(c & b & Hs & Hc & Hw & Hb & _)]].
  - assert (∀ t, t ∈ targets acts → t ∈ targets (a :: acts)) as Hsub.
    { intros t. rewrite targets_cons. case_bool_decide; [by right|done]. }
    apply backed_up_skip with (targets acts); [done|done|].
    apply (IH _ _ _ Hx Hreg'); [|by auto].
    rewrite targets_cons in Hnd. case_bool_decide; [by apply NoDup_cons in Hnd as []|done].
  - assert (regular b) as Hr by (eapply Hreg; [by left|done]).
    destruct (write_backup_spec _ _ _ _ _ _ Hw Hr) as (Hfree & Hother & Hp & Hsave).
    rewrite targets_cons, bool_decide_true in Hnd, Hex |- * by done.
    apply NoDup_cons in Hnd as [Hn Hnd].
    destruct (Hex (canon (path (source a)))) as [d Hd]; [by left|].
    destruct (Hsave d Hd) as [Hne Hbd].
    eapply backed_up_step with (fs1 := fs1); try done; [by rewrite Hop|..].
    + intros t Ht. apply Hex. by right.
    + apply (IH _ _ _ Hx Hreg' Hnd). intros t Ht. destruct (Hex t) as [x ?]; [by right|].
      rewrite Hother; [done|congruence|congruence].
Qed.

Lemma rollback_restores outs (g want : FileTree) q :
  (∀ o b, o ∈ outs → o_backup o = Some b →
     ∃ d, g !! canon b = Some d ∧ want !! canon (o_path o) = Some d ∧ want !! canon b = None) →
  g !! q = want !! q ∨ (∃ o b, o ∈ outs ∧ o_backup o = Some b ∧ canon (o_path o) = q) →
  rollback outs g !! q = want !! q.
Proof using.
  unfold rollback. revert g. induction outs as [|o outs IH]; intros g Hall Hq.
  { destruct Hq as [?|(o & _ & ?%elem_of_nil & _)]; done. }
  cbn [foldl]. destruct (o_backup o) as [b|] eqn:Hb.
  - destruct (Hall o b) as (d & Hg & Hw & Hf); [by left|done|].
    unfold cp at 2. rewrite Hg. apply IH.
    + intros o' b' Hin Hb'. destruct (Hall o' b') as (d' & ? & ? & ?); [by right|done|].
      exists d'. split_and!; [|done..]. etrans; [apply lookup_insert_ne; congruence|done].
    + destruct (decide (q = canon (o_path o))) as [->|Hne].
      * left. rewrite Hw. apply lookup_insert_eq.
      * destruct Hq as [Hq|(o' & b' & [->|Hin]%elem_of_cons & ? & ?)]; [|done|right; eauto].
        left. rewrite <- Hq. by apply lookup_insert_ne.
  - apply IH.
    + intros o' b' Hin Hb'. apply Hall; [by right|done].
    + destruct Hq as [?|(o' & b' & [->|Hin]%elem_of_cons & ? & ?)]; [by left|congruence|].
      right. eauto.
Qed.

End execution.

(** *** What is planned *)
Section planning.
Context `{Platform, TomlLib}.
Context (json_from_str : string → option Value) (json_to_string_pretty : Value → string).
Context (dir cmd : string) (pargs : list string) (canon : string → string).
Context (toml_mcp_servers : string → option (option (list (string * option RawServer)))).

(** [c] is the rewrite of the file [q] of an eligible scan that has services. *)
Definition rewrite_of (fs : FileTree) (scan : ScanResult) (q c : string) : Prop :=
  eligible_for_danger (host scan) = true ∧ services scan ≠ [] ∧
  canon (path (host scan)) = q ∧
  ∃ original lines, fs !! q = Some original ∧
    rewrite_scan json_from_str json_to_string_pretty dir cmd pargs scan original = Ok (c, lines).

Definition planned_by (fs : FileTree) (scan : ScanResult) (a : DangerAction) : Prop :=
  status a = DangerStatus.Planned → ∀ c, new_contents a = Some c →
  rewrite_of fs scan (canon (path (source a))) c.

Lemma push_rewrite_planned acts scan fs a :
  eligible_for_danger (host scan) = true → services scan ≠ [] →
  a ∈ push_rewrite_action json_from_str json_to_string_pretty dir cmd pargs canon acts scan fs →
  a ∈ acts ∨ planned_by fs scan a.
Proof using.
  intros He Hs. unfold push_rewrite_action, planned_by.
  destruct (safe_read_to_string canon (path (host scan)) fs) as [original|] eqn:Er.
  2:{ intros [?|Heq%list_elem_of_singleton]%elem_of_app; [by left|]. subst. by right. }
  destruct (rewrite_scan _ _ _ _ _ scan original) as [[c lines]|] eqn:Ew;
    intros [?|Heq%list_elem_of_singleton]%elem_of_app; try (by left); subst; right; [|done].
  simpl. intros _ c' [= <-]. apply safe_read_no_parent in Er as [_ Hr].
  split_and!; [done..|]. by exists original, lines.
Qed.

Lemma plan_source_planned fs acts src a :
  a ∈ plan_source json_from_str json_to_string_pretty dir cmd pargs canon toml_mcp_servers
        fs acts src →
  a ∈ acts ∨ (status a ≠ DangerStatus.Planned) ∨
  ∃ scan, scan_host_file canon json_from_str toml_mcp_servers src fs = Ok scan ∧ planned_by fs scan a.
Proof using.
  unfold plan_source. destruct (eligible_for_danger src) eqn:He; simpl.
  2:{ intros [?|Heq%list_elem_of_singleton]%elem_of_app; [by left|]. subst. by right; left. }
  destruct (scan_host_file _ _ _ src fs) as [scan|] eqn:Es.
  2:{ intros [?|Heq%list_elem_of_singleton]%elem_of_app; [by left|]. subst. by right; left. }
  pose proof (scan_host_file_host _ _ _ _ _ _ Es) as Hh.
  destruct (services scan) eqn:Esv.
  - intros [?|Heq%list_elem_of_singleton]%elem_of_app; [by left|]. subst. by right; left.
  - intros Hin%push_rewrite_planned; [|congruence..].
    destruct Hin; [by left|right; right; eauto].
Qed.

Lemma plan_scan_planned fs acts scan a :
  a ∈ plan_scan json_from_str json_to_string_pretty dir cmd pargs canon fs acts scan →
  a ∈ acts ∨ (status a ≠ DangerStatus.Planned) ∨ planned_by fs scan a.
Proof using.
  unfold plan_scan. destruct (eligible_for_danger (host scan)) eqn:He; simpl.
  2:{ intros [?|Heq%list_elem_of_singleton]%elem_of_app; [by left|]. subst. by right; left. }
  destruct (services scan) eqn:Esv.
  - intros [?|Heq%list_elem_of_singleton]%elem_of_app; [by left|]. subst. by right; left.
  - intros Hin%push_rewrite_planned; [|congruence..]. destruct Hin; auto.
Qed.

Lemma fold_planned {S} (step : list DangerAction → S → list DangerAction) (P : S → DangerAction → Prop)
    (l : list S) a :
  (∀ acts x b, b ∈ step acts x → b ∈ acts ∨ status b ≠ DangerStatus.Planned ∨ P x b) →
  a ∈ foldl step [] l → status a = DangerStatus.Planned → ∃ x, x ∈ l ∧ P x a.
Proof using.
  intros Hstep. induction l as [|x l IH] using rev_ind; [by intros ?%elem_of_nil|].
  rewrite foldl_app. cbn [foldl]. intros Hin Hp.
  destruct (Hstep _ _ _ Hin) as [Hin'|[?|HP]]; [|done|].
  - destruct (IH Hin' Hp) as (y & ? & ?). exists y. rewrite elem_of_app. auto.
  - exists x. rewrite elem_of_app, list_elem_of_singleton. auto.
Qed.

(** The plan of scans touches only their files. *)
Lemma scans_plan_touches scans fs clock fs' outs q d :
  fs !! q = Some d →
  (∀ o b, o ∈ outs → o_backup o = Some b → regular canon b) →
  execute_plan canon (plan_danger_rewrite_for_scans json_from_str json_to_string_pretty dir
    cmd pargs canon scans fs) true clock fs = Ok (fs', outs) →
  fs' !! q = Some d ∨ ∃ scan c, scan ∈ scans ∧ rewrite_of fs scan q c ∧ fs' !! q = Some c.
Proof using.
  intros Hq Hreg [= Hx].
  destruct (execute_actions_touch canon _ _ _ _ _ _ _ Hx Hreg Hq)
    as [?|(a & c & Hin & Hs & Hc & <- & Hfs)]; [by left|right].
  eapply (fold_planned _ (λ scan a, planned_by fs scan a)) in Hin as (scan & Hscan & HP);
    [|intros; by apply plan_scan_planned|done].
  exists scan, c. auto.
Qed.

End planning.

(** ** Quoting *)
Lemma safe_literal c : shell_safe c = true →
  bool_decide (c = squote) = false ∧ bool_decide (c = dquote) = false ∧
  bool_decide (c = backslash) = false ∧ bool_decide (c = " "%char) = false ∧
  special_bare c = false.
Proof. destruct c as [[] [] [] [] [] [] [] []]; vm_compute; try discriminate; auto. Qed.

Lemma safe_reads_as p : str_forall shell_safe p = true → reads_as p p.
Proof.
  intros Hp rest. induction p as [|c p IH].
  { change ("" +:+ rest) with rest. by destruct (lex Bare rest) as [[]|]. }
  cbn [str_forall] in Hp. apply andb_true_iff in Hp as [Hc Hp].
  change (String c p +:+ rest) with (String c (p +:+ rest)). cbn [lex].
  destruct (safe_literal c Hc) as (-> & -> & -> & -> & ->). rewrite (IH Hp).
  by destruct (lex Bare rest) as [[]|].
Qed.

Lemma shell_quote_reads_as p : reads_as (shell_quote p) p.
Proof.
  unfold shell_quote. destruct (str_forall shell_safe p) eqn:E; [by apply safe_reads_as|].
  by apply squoted_reads_as.
Qed.

Lemma shell_quote_start p :
  is_absolute p = true → ∃ c r, shell_quote p = String c r ∧ c ∉ [" "; "~"]%char.
Proof.
  intros Ha. unfold shell_quote. destruct (str_forall shell_safe p) eqn:E.
  - apply starts_with_spec in Ha as [r ->]. exists "/"%char, r. split; [done|].
    by apply (bool_decide_eq_false ("/"%char ∈ [" "; "~"]%char)).
  - eexists squote, _. split; [reflexivity|].
    by apply (bool_decide_eq_false (squote ∈ [" "; "~"]%char)).
Qed.

(** The printed rollback commands say what they mean to a shell: each is read as
    [cp -p] of one backup over the file it was made from, whatever characters the two
    absolute paths have. *)
Theorem rollback_commands_roundtrip outs c :
  c ∈ rollback_commands outs →
  (∀ o b, o ∈ outs → o_backup o = Some b → is_absolute b = true ∧ is_absolute (o_path o) = true) →
  ∃ o b, o ∈ outs ∧ o_backup o = Some b ∧ shell_words c = Some ["cp"; "-p"; b; o_path o].
Proof.
  intros Hc Habs. apply list_elem_of_omap in Hc as (o & Ho & Hb).
  destruct (o_backup o) as [b|] eqn:Eb; [|done]. injection Hb as <-.
  exists o, b. split_and!; [done..|].
  destruct (Habs o b Ho Eb) as [Hab Hap].
  destruct (shell_quote_start b Hab) as (c1 & r1 & E1 & H1).
  destruct (shell_quote_start (o_path o) Hap) as (c2 & r2 & E2 & H2).
  pose proof (reads_as_words _ _ (shell_quote_reads_as (o_path o))) as Hp.
  pose proof (lex_sep _ _ _ _ _ _ (shell_quote_reads_as b) E2 H2 Hp) as Hbp.
  assert (shell_quote b +:+ " " +:+ shell_quote (o_path o) =
    String c1 (r1 +:+ " " +:+ shell_quote (o_path o))) as E3 by by rewrite E1.
  pose proof (lex_sep _ _ _ _ _ _ (safe_reads_as "-p" eq_refl) E3 H1 Hbp) as Hpp.
  pose proof (lex_sep _ _ _ _ "-"%char _ (safe_reads_as "cp" eq_refl) eq_refl
    ltac:(by apply (bool_decide_eq_false ("-"%char ∈ [" "; "~"]%char))) Hpp) as Hcp.
  exact Hcp.
Qed.
