(* ===== verification/WizardServices.v ===== *)
(** * WizardServices: what the setup wizard works on ([mux-agent/src/wizard/])

    The state of the wizard ([types.rs]) and how its list of servers comes about
    ([services.rs], [mod.rs]): the merge of the selected sources, the first-party server
    that may be installed, the processes that run already.  What the wizard finds around
    it is a parameter ([Surroundings]). *)
From S2P Require Import Prelude Text Json Paths Config Scan Rewire MuxGen Danger.
From Stdlib Require Import Ascii.

(** ** Data ([wizard/types.rs]) *)
Module WizardStep.
Inductive WizardStep :=
| DiscoverySources | ServerReview | StrategyChoice | SummaryConfirm | ResultAndTray.
End WizardStep.
Module Strategy.
Inductive Strategy := Unified | PerClient | AutoRewire.
End Strategy.
Module SummaryAction.
Inductive SummaryAction := Confirm | Back | Cancel.
End SummaryAction.
Module TrayChoice.
Inductive TrayChoice := StartNow | No.
End TrayChoice.
Module PendingAction.
Inductive PendingAction := GenerateUnified | GeneratePerClient | AutoRewire | StartTrayDaemon.
End PendingAction.
#[export] Instance WizardStep_eq_dec : EqDecision WizardStep.WizardStep.
Proof. solve_decision. Defined.
#[export] Instance PendingAction_eq_dec : EqDecision PendingAction.PendingAction.
Proof. solve_decision. Defined.

Module ServiceSource.
Inductive ServiceSource :=
| Client (kind : HostKind.HostKind) (path : string)
| Default (label : string) (path : option string)
| DetectedRunning.
End ServiceSource.
Module HealthStatus.
Inductive HealthStatus := Unknown | Healthy | Unhealthy.
End HealthStatus.
Module SourceStatus.
Inductive SourceStatus :=
| Ok (servers_found : nat) | Empty | InvalidFormat (details : string) | Missing.
End SourceStatus.

Definition source_short_label (s : ServiceSource.ServiceSource) : string :=
  match s with
  | ServiceSource.Client kind _ => as_label kind
  | ServiceSource.Default _ _ => "default"
  | ServiceSource.DetectedRunning => "running"
  end.
Definition status_short_label (s : SourceStatus.SourceStatus) : string :=
  match s with
  | SourceStatus.Ok n => pretty (N.of_nat n) +:+ " servers"
  | SourceStatus.Empty => "empty"
  | SourceStatus.InvalidFormat _ => "invalid"
  | SourceStatus.Missing => "not found"
  end.

Record SourceEntry := mkSourceEntry {
  host_file : HostFile;
  source_status : SourceStatus.SourceStatus;
  source_selected : bool;
}.
#[export] Instance SourceEntry_eta : Eta SourceEntry := fun r =>
  mkSourceEntry (host_file r) (source_status r) (source_selected r).

Record ServiceEntry := mkServiceEntry {
  se_name : string;
  se_config : ServerConfig;
  se_health : HealthStatus.HealthStatus;
  se_source : ServiceSource.ServiceSource;
  se_pid : option N;
  se_selected : bool;
}.
#[export] Instance ServiceEntry_eta : Eta ServiceEntry := fun r =>
  mkServiceEntry (se_name r) (se_config r) (se_health r) (se_source r) (se_pid r) (se_selected r).

(** The buffer is its characters, each in UTF-8. *)
Record CustomPathInput := mkCustomPathInput {
  buffer : list string;
  editing : bool;
  input_status : option string;
}.
#[export] Instance CustomPathInput_eta : Eta CustomPathInput := fun r =>
  mkCustomPathInput (buffer r) (editing r) (input_status r).

Record AppState := mkAppState {
  wizard_step : WizardStep.WizardStep;
  config_path : string;
  sources : list SourceEntry;
  selected_source : nat;
  custom_path : CustomPathInput;
  app_services : list ServiceEntry;
  selected_service : nat;
  strategy : Strategy.Strategy;
  summary_action : SummaryAction.SummaryAction;
  tray_choice : TrayChoice.TrayChoice;
  message : string;
  dry_run : bool;
  pending_action : option PendingAction.PendingAction;
  strategy_result : option string;
}.
#[export] Instance AppState_eta : Eta AppState := fun r =>
  mkAppState (wizard_step r) (config_path r) (sources r) (selected_source r) (custom_path r)
    (app_services r) (selected_service r) (strategy r) (summary_action r) (tray_choice r)
    (message r) (dry_run r) (pending_action r) (strategy_result r).

(** ** The first-party server ([scan.rs]) *)
Module DiscoveredMcpSource.
Inductive DiscoveredMcpSource := VibecraftedMcpDevPath | VibecraftedMcpPipInstall.
End DiscoveredMcpSource.
Record DiscoveredMcp := mkDiscoveredMcp {
  dm_name : string;
  dm_source : DiscoveredMcpSource.DiscoveredMcpSource;
  dm_command : string;
  dm_args : list string;
  dm_cwd : option string;
}.
Definition into_host_service (d : DiscoveredMcp) : HostService :=
  mkHostService (dm_name d) (dm_command d) (dm_args d) (dm_cwd d) None None None.

(** One process of [ps], as [list_running_mcp_processes] describes it. *)
Record RunningMcpProcess := mkRunningMcpProcess {
  proc_pid : N;
  proc_cmd : string;
  proc_args : list string;
  synthetic_name : string;
}.

(** *** The process list ([wizard/services.rs]) *)
Definition MCP_PATTERNS : list string :=
  ["@modelcontextprotocol/"; "mcp-server-"; "-mcp-server"; "mcp_server"; "/mcp-"; "-mcp/";
   "/loctree-mcp"; "/aicx-mcp"; "claude-mcp"].

Section processes.
(** [char::is_alphanumeric] of the standard library, on Unicode. *)
Context (is_alphanumeric : string → bool).

Definition name_char (c : string) : bool :=
  is_alphanumeric c || str_eqb c "-" || str_eqb c "_".
(** The name that follows a marker, if there is one. *)
Definition name_after (marker cmdline : string) : option string :=
  opt_filter (λ n, negb (str_is_empty n))
    ((λ rest, of_chars (take_while name_char (chars rest))) <$> after_first marker cmdline).
Definition extract_service_name (cmdline : string) : string :=
  match name_after "@modelcontextprotocol/" cmdline with
  | Some n => n
  | None =>
      match name_after "mcp-server-" cmdline with
      | Some n => "mcp-" +:+ n
      | None => default "detected-mcp" (name_after "server-" cmdline)
      end
  end.

(** [a.rsplit('/').next()]. *)
Definition tail_of (a : string) : string :=
  match rsplit_once slash a with Some (_, t) => t | None => a end.
Definition extract_cmd_and_args (cmdline : string) : string * list string :=
  match split_whitespace cmdline with
  | [] => ("unknown", [])
  | cmd :: args => (tail_of cmd, args)
  end.

(** The loop of [ensure_unique_name] is that of [ensure_unique] in [scan.rs]. *)
Definition ensure_unique_name (used : gset string) (candidate : string) : string :=
  ensure_unique used candidate.

(** One line of [ps -eo pid,args]. *)
Definition ps_line (raw : string) : option (N * string) :=
  let line := trim raw in
  if starts_with line "PID" then None else
  match split_first is_whitespace (chars line) with
  | None => None
  | Some (pid, rest) =>
      pid ← parse_u32 (trim (of_chars pid));
      let cmdline := trim (of_chars rest) in
      if negb (any (contains cmdline) MCP_PATTERNS) then None
      else if contains cmdline "rust-mux" || contains cmdline "rmcp_mux" then None
      else Some (pid, cmdline)
  end.

Definition push_process (acc : gset string * list RunningMcpProcess) (p : N * string) :
    gset string * list RunningMcpProcess :=
  let '(seen, out) := acc in
  let unique := ensure_unique_name seen (extract_service_name p.2) in
  let '(cmd, args) := extract_cmd_and_args p.2 in
  ({[unique]} ∪ seen, out ++ [mkRunningMcpProcess p.1 cmd args unique]).

(** [ps]: the lines of its output up to one that is not UTF-8, if it succeeded. *)
Definition list_running_mcp_processes (ps : option (list string)) : list RunningMcpProcess :=
  match ps with
  | None => []
  | Some lines => (foldl push_process (∅, []) (omap ps_line lines)).2
  end.

(** The listed processes have distinct names. *)
Lemma process_names_distinct ps :
  NoDup (synthetic_name <$> list_running_mcp_processes ps).
Proof using.
  destruct ps as [lines|]; [|constructor]. cbn [list_running_mcp_processes].
  set (acc := foldl push_process (∅, []) (omap ps_line lines)).
  assert (NoDup (synthetic_name <$> acc.2) ∧ ∀ n, n ∈ synthetic_name <$> acc.2 → n ∈ acc.1) as [? _];
    [|done].
  subst acc. induction (omap ps_line lines) as [|p ps IH] using rev_ind.
  { split; [constructor|]. by intros n ?%elem_of_nil. }
  rewrite foldl_app. cbn [foldl]. destruct (foldl push_process (∅, []) ps) as [seen out].
  destruct IH as [Hnd Hin]. unfold push_process. simpl in *.
  destruct (extract_cmd_and_args p.2) as [cmd args]. simpl. rewrite fmap_app. simpl. split.
  - apply NoDup_app. split_and!; [done| |apply NoDup_singleton].
    intros n Hn ->%list_elem_of_singleton. apply (ensure_unique_fresh seen (extract_service_name p.2)).
    by apply Hin.
  - intros n [Hn| ->%list_elem_of_singleton]%elem_of_app; set_solver.
Qed.
End processes.

(** ** Services ([wizard/services.rs]) *)

(** The configuration of an entry: the upstream command and the same settings as in a
    manifest, without a socket of its own. *)
Definition entry_config (svc : HostService) : ServerConfig := {|
  sc_socket := socket svc;
  sc_cmd := Some (command svc);
  sc_args := Some (args svc);
  sc_cwd := cwd svc;
  sc_max_active_clients := Some 5%N;
  sc_tray := Some false;
  sc_service_name := Some (name svc);
  sc_log_level := Some "info";
  sc_lazy_start := Some false;
  sc_max_request_bytes := Some 1048576%N;
  sc_request_timeout_ms := Some 30000%N;
  sc_restart_backoff_ms := Some 1000%N;
  sc_restart_backoff_max_ms := Some 30000%N;
  sc_max_restarts := Some 5%N;
  sc_status_file := None;
  sc_env := env svc;
  sc_heartbeat_interval_ms := Some 30000%N;
  sc_heartbeat_timeout_ms := Some 30000%N;
  sc_heartbeat_max_failures := Some 3%N;
  sc_heartbeat_enabled := Some true;
|}.

Definition cmds_equivalent (a b : string) : bool :=
  str_eqb a b || str_eqb (tail_of a) (tail_of b).

Definition proc_matches_entry (p : RunningMcpProcess) (svc : ServiceEntry) : bool :=
  let svc_cmd := unwrap_or (sc_cmd (se_config svc)) "" in
  let svc_args := unwrap_or (sc_args (se_config svc)) [] in
  if negb (cmds_equivalent (proc_cmd p) svc_cmd) then false else
  match List.find (λ a, negb (str_is_empty a)) svc_args with
  | Some probe => any (λ a, contains a probe) (proc_args p)
  | None => true
  end.

(** The first matching entry gets the pid; a process nobody matches becomes an entry
    that is not selected. *)
Fixpoint stamp_pid (p : RunningMcpProcess) (svcs : list ServiceEntry) : option (list ServiceEntry) :=
  match svcs with
  | [] => None
  | svc :: svcs =>
      if proc_matches_entry p svc then Some (svc <| se_pid := Some (proc_pid p) |> :: svcs)
      else cons svc <$> stamp_pid p svcs
  end.
Definition orphan (p : RunningMcpProcess) : ServiceEntry :=
  mkServiceEntry (synthetic_name p)
    (entry_config (mkHostService (synthetic_name p) (proc_cmd p) (proc_args p) None None None None))
    HealthStatus.Healthy ServiceSource.DetectedRunning (Some (proc_pid p)) false.
Definition enrich_running_state (running : list RunningMcpProcess) (svcs : list ServiceEntry) :
    list ServiceEntry :=
  foldl (λ svcs p, default (svcs ++ [orphan p]) (stamp_pid p svcs)) svcs running.

Definition append_default_services (discovered : option DiscoveredMcp)
    (svcs : list ServiceEntry) : list ServiceEntry :=
  match discovered with
  | None => svcs
  | Some d =>
      let label := match dm_source d with
                   | DiscoveredMcpSource.VibecraftedMcpDevPath => "vibecrafted-mcp dev path"
                   | DiscoveredMcpSource.VibecraftedMcpPipInstall => "vibecrafted-mcp pip install"
                   end in
      let svc := into_host_service d in
      svcs ++ [mkServiceEntry (name svc) (entry_config svc) HealthStatus.Unknown
                 (ServiceSource.Default label (dm_cwd d)) None true]
  end.

Section services.
Context `{Platform} (home : option string) (canon : string → string).
Context (json_from_str : string → option Value).
Context (toml_mcp_servers : string → option (option (list (string * option RawServer)))).

(** [svc_key]: the command, the arguments and the environment in key order. *)
Definition env_entries (env : option (gmap string string)) : list (string * string) :=
  match env with
  | None => []
  | Some env => sort_by (λ a b, str_leb a.1 b.1) (hash_iter env)
  end.
Definition env_signature (env : option (gmap string string)) : string :=
  join "," ((λ kv, kv.1 +:+ "=" +:+ kv.2) <$> env_entries env).
Definition svc_key (svc : HostService) : string :=
  command svc +:+ "|" +:+ join " " (args svc) +:+ "|" +:+ env_signature (env svc).

(** The first source that has a service with this key. *)
Definition origin_of (scans : list ScanResult) (svc : HostService) : ServiceSource.ServiceSource :=
  match List.find (λ v, str_eqb (svc_key v.2) (svc_key svc)) (all_variants scans) with
  | Some v => ServiceSource.Client (kind v.1) (Scan.path v.1)
  | None => ServiceSource.DetectedRunning
  end.

Definition build_services_from_scans (scans : list ScanResult) : list ServiceEntry :=
  (λ svc, mkServiceEntry (name svc) (entry_config svc) HealthStatus.Unknown (origin_of scans svc)
            None true) <$> merged_services (merge_services scans).

(** [toml_project_name]: the [project.name] of a TOML document; [pip_installed]: what
    [pip show] answers. *)
Definition discover_vibecrafted_mcp_with (toml_project_name : string → option string)
    (search_root : string) (pip_installed : bool) (fs : FileTree) : option DiscoveredMcp :=
  match (fs !! canon (path_join search_root "pyproject.toml")) ≫= toml_project_name with
  | Some "vibecrafted-mcp" =>
      Some (mkDiscoveredMcp "vibecrafted-mcp" DiscoveredMcpSource.VibecraftedMcpDevPath "python"
              ["-m"; "vibecrafted_mcp"] (Some search_root))
  | _ =>
      if pip_installed
      then Some (mkDiscoveredMcp "vibecrafted-mcp" DiscoveredMcpSource.VibecraftedMcpPipInstall
                   "vibecrafted-mcp" [] None)
      else None
  end.

Definition discover_vibecrafted_mcp (toml_project_name : string → option string)
    (pip_installed : bool) (fs : FileTree) : option DiscoveredMcp :=
  discover_vibecrafted_mcp_with toml_project_name
    (expand_path home "~/Libraxis/vibecrafted/vibecrafted-mcp") pip_installed fs.

(** What the wizard finds around it. *)
Record Surroundings := mkSurroundings {
  files : FileTree;
  discovered_mcp : option DiscoveredMcp;
  running : list RunningMcpProcess;
  connects : string → bool;
}.
Context (around : Surroundings).

Definition check_health (config : ServerConfig) : HealthStatus.HealthStatus :=
  match sc_socket config with
  | None => HealthStatus.Unknown
  | Some s => if connects around (expand_path home s) then HealthStatus.Healthy
              else HealthStatus.Unhealthy
  end.

Definition classify_source (h : HostFile) : SourceStatus.SourceStatus :=
  if negb (path_exists canon (Scan.path h) (files around)) then SourceStatus.Missing else
  match scan_host_file canon json_from_str toml_mcp_servers h (files around) with
  | Ok scan => match Scan.services scan with
               | [] => SourceStatus.Empty
               | l => SourceStatus.Ok (length l)
               end
  | Err err => SourceStatus.InvalidFormat err
  end.

Definition is_ok (s : SourceStatus.SourceStatus) : bool :=
  match s with SourceStatus.Ok _ => true | _ => false end.

Definition initial_source (h : HostFile) : SourceEntry :=
  let status := classify_source h in
  mkSourceEntry h status match status with SourceStatus.Missing => false | _ => true end.
Definition build_initial_sources (imports : list string) : list SourceEntry :=
  (initial_source <$> default_sources home) ++
  ((λ p, let h := host_file_from_custom_path p in mkSourceEntry h (classify_source h) true)
     <$> imports).

(** The sources that are scanned: selected ones whose file parsed. *)
Definition scans_of (srcs : list SourceEntry) : list ScanResult :=
  omap (λ s, result_ok (scan_host_file canon json_from_str toml_mcp_servers (host_file s) (files around)))
    (retain (λ s, source_selected s && is_ok (source_status s)) srcs).

Definition build_services_for_selected_sources (srcs : list SourceEntry) : list ServiceEntry :=
  let svcs := build_services_from_scans (scans_of srcs) in
  let svcs := append_default_services (discovered_mcp around) svcs in
  let svcs := enrich_running_state (running around) svcs in
  (λ svc, svc <| se_health := check_health (se_config svc) |>) <$> svcs.
End services.
