(* ===== verification/Wizard.v ===== *)
(** * Wizard: the five steps of the setup ([mux-agent/src/wizard/keys.rs])

    Each key press is a function of the state and of what the wizard finds around it;
    the key loop folds them until one ends it.  [wf] is the loop's invariant. *)
From S2P Require Import Prelude Text Json Paths Config Scan Rewire MuxGen Danger WizardServices.
From Stdlib Require Import Ascii.

Inductive KeyCode := Esc | Enter | Backspace | Up | Down | Left | Right | Char (c : string) | OtherKey.
#[global] Instance KeyCode_eq_dec : EqDecision KeyCode.
Proof using. solve_decision. Defined.
(** [key] is one of the patterns of an arm. *)
Definition key_is (key : KeyCode) (pats : list KeyCode) : bool := bool_decide (key ∈ pats).

Definition count {A} (f : A → bool) (l : list A) : nat := length (retain f l).
Definition show_nat (n : nat) : string := pretty (N.of_nat n).

Definition EDIT_MESSAGE : string :=
  "Editing custom path… type a path, Enter to add, Esc to cancel.".
Definition update_step1_message (app : AppState) : AppState :=
  if editing (custom_path app) then app <| message := EDIT_MESSAGE |>
  else app <| message := "STEP 1: " +:+ show_nat (count source_selected (sources app)) +:+ "/" +:+
                show_nat (length (sources app)) +:+
                " sources selected | Space toggle | i custom path | n next | q quit" |>.
Definition update_step2_message (app : AppState) : AppState :=
  app <| message := "STEP 2: " +:+ show_nat (count se_selected (app_services app)) +:+ "/" +:+
           show_nat (length (app_services app)) +:+
           " servers selected | Space toggle | n next | p prev | q quit" |>.
Definition update_step3_message (app : AppState) : AppState :=
  app <| message := "STEP 3: Up/Down to choose strategy | 1/2/3 quick pick | n next | p prev" |>.
Definition update_step4_message (app : AppState) : AppState :=
  app <| message := "STEP 4: Up/Down to pick action | Enter to do it | p back | q quit" |>.

Section keys.
Context `{Platform} (home : option string) (canon : string → string).
Context (json_from_str : string → option Value).
Context (toml_mcp_servers : string → option (option (list (string * option RawServer)))).
Context (around : Surroundings).

Definition add_custom_source (raw_path : string) (app : AppState) : AppState :=
  let h := host_file_from_custom_path (expand_path home raw_path) in
  let status := classify_source canon json_from_str toml_mcp_servers around h in
  let app := app <| custom_path ::= λ c, c <| input_status :=
               Some ("Added " +:+ Scan.path h +:+ ": " +:+ status_short_label status) |> |> in
  let app := app <| sources ::= λ l, l ++ [mkSourceEntry h status true] |> in
  app <| selected_source := (length (sources app) - 1)%nat |>.

Definition advance_to_step2 (app : AppState) : AppState :=
  update_step2_message
    (app <| app_services := build_services_for_selected_sources home canon json_from_str
                               toml_mcp_servers around (sources app) |>
         <| selected_service := 0%nat |>
         <| wizard_step := WizardStep.ServerReview |>).

(** [true]: leave the loop. *)
Definition handle_step1 (app : AppState) (key : KeyCode) : AppState * bool :=
  if editing (custom_path app) then
    (match key with
     | Esc => update_step1_message (app <| custom_path ::= λ c, c <| editing := false |> |>)
     | Enter =>
         let path := String.concat "" (buffer (custom_path app)) in
         let app := app <| custom_path ::= λ c, c <| buffer := [] |> <| editing := false |> |> in
         let app := if is_blank path
                    then app <| custom_path ::= λ c, c <| input_status := Some "Path was empty." |> |>
                    else add_custom_source path app in
         update_step1_message app
     | Backspace => app <| custom_path ::= λ c, c <| buffer ::= λ b, removelast b |> |>
     | Char c => app <| custom_path ::= λ p, p <| buffer ::= λ b, b ++ [c] |> |>
     | _ => app
     end, false)
  else
    if key_is key [Char "q"] then (app, true) else
    (if key_is key [Char "i"] then
       app <| custom_path ::= λ c, c <| editing := true |> |> <| message := EDIT_MESSAGE |>
     else if key_is key [Up] && bool_decide (0 < selected_source app)%nat then
       app <| selected_source ::= Nat.pred |>
     else if key_is key [Down] && bool_decide (selected_source app + 1 < length (sources app))%nat then
       app <| selected_source ::= S |>
     else if key_is key [Char " "] && bool_decide (sources app ≠ []) then
       let idx := Nat.min (selected_source app) (length (sources app) - 1) in
       update_step1_message (app <| sources ::= alter (λ s, s <| source_selected ::= negb |>) idx |>)
     else if key_is key [Char "n"; Enter; Right] then advance_to_step2 app
     else app, false).

Definition handle_step2 (app : AppState) (key : KeyCode) : AppState * bool :=
  if key_is key [Char "q"] then (app, true) else
  (if key_is key [Up] && bool_decide (0 < selected_service app)%nat then
     app <| selected_service ::= Nat.pred |>
   else if key_is key [Down] && bool_decide (selected_service app + 1 < length (app_services app))%nat then
     app <| selected_service ::= S |>
   else if key_is key [Char " "] && bool_decide (app_services app ≠ []) then
     let idx := Nat.min (selected_service app) (length (app_services app) - 1) in
     update_step2_message (app <| app_services ::= alter (λ s, s <| se_selected ::= negb |>) idx |>)
   else if key_is key [Char "n"; Right; Enter] then
     if bool_decide (count se_selected (app_services app) = 0)%nat
     then app <| message := "Select at least one server (Space) before continuing." |>
     else update_step3_message (app <| wizard_step := WizardStep.StrategyChoice |>)
   else if key_is key [Char "p"; Left] then
     update_step1_message (app <| wizard_step := WizardStep.DiscoverySources |>)
   else app, false).

(** The choice above and below, in the order of the list on the screen. *)
Definition strategy_above (s : Strategy.Strategy) : Strategy.Strategy :=
  match s with Strategy.AutoRewire => Strategy.PerClient | _ => Strategy.Unified end.
Definition strategy_below (s : Strategy.Strategy) : Strategy.Strategy :=
  match s with Strategy.Unified => Strategy.PerClient | _ => Strategy.AutoRewire end.

Definition handle_step3 (app : AppState) (key : KeyCode) : AppState * bool :=
  if key_is key [Char "q"] then (app, true) else
  (if key_is key [Up] then app <| strategy ::= strategy_above |>
   else if key_is key [Down] then app <| strategy ::= strategy_below |>
   else if key_is key [Char "1"] then app <| strategy := Strategy.Unified |>
   else if key_is key [Char "2"] then app <| strategy := Strategy.PerClient |>
   else if key_is key [Char "3"] then app <| strategy := Strategy.AutoRewire |>
   else if key_is key [Char "n"; Right; Enter] then
     update_step4_message (app <| wizard_step := WizardStep.SummaryConfirm |>
                               <| summary_action := SummaryAction.Confirm |>)
   else if key_is key [Char "p"; Left] then
     update_step2_message (app <| wizard_step := WizardStep.ServerReview |>)
   else app, false).

Definition action_above (a : SummaryAction.SummaryAction) : SummaryAction.SummaryAction :=
  match a with SummaryAction.Cancel => SummaryAction.Back | _ => SummaryAction.Confirm end.
Definition action_below (a : SummaryAction.SummaryAction) : SummaryAction.SummaryAction :=
  match a with SummaryAction.Confirm => SummaryAction.Back | _ => SummaryAction.Cancel end.

Definition queue_pending_for_strategy (app : AppState) : AppState :=
  app <| pending_action := Some match strategy app with
                                | Strategy.Unified => PendingAction.GenerateUnified
                                | Strategy.PerClient => PendingAction.GeneratePerClient
                                | Strategy.AutoRewire => PendingAction.AutoRewire
                                end |>.

Definition back_to_step3 (app : AppState) : AppState :=
  update_step3_message (app <| wizard_step := WizardStep.StrategyChoice |>).

Definition handle_step4 (app : AppState) (key : KeyCode) : AppState * bool :=
  if key_is key [Char "q"] then (app, true)
  else if key_is key [Up] then (app <| summary_action ::= action_above |>, false)
  else if key_is key [Down] then (app <| summary_action ::= action_below |>, false)
  else if key_is key [Char "p"; Left] then (back_to_step3 app, false)
  else if key_is key [Enter] then
    match summary_action app with
    | SummaryAction.Confirm => (queue_pending_for_strategy app, true)
    | SummaryAction.Back => (back_to_step3 app, false)
    | SummaryAction.Cancel => (app, true)
    end
  else (app, false).

Definition handle_step5 (app : AppState) (key : KeyCode) : AppState * bool :=
  if key_is key [Char "q"] then (app, true)
  else if key_is key [Up] then (app <| tray_choice := TrayChoice.StartNow |>, false)
  else if key_is key [Down] then (app <| tray_choice := TrayChoice.No |>, false)
  else if key_is key [Enter] then
    match tray_choice app with
    | TrayChoice.StartNow => (app <| pending_action := Some PendingAction.StartTrayDaemon |>, true)
    | TrayChoice.No => (app, true)
    end
  else (app, false).

Definition handle_key (app : AppState) (key : KeyCode) : AppState * bool :=
  match wizard_step app with
  | WizardStep.DiscoverySources => handle_step1 app key
  | WizardStep.ServerReview => handle_step2 app key
  | WizardStep.StrategyChoice => handle_step3 app key
  | WizardStep.SummaryConfirm => handle_step4 app key
  | WizardStep.ResultAndTray => handle_step5 app key
  end.

End keys.

(** The key loop of [run_tui] and of [advance_to_step5]: each key with what the wizard
    finds around it then.  The state when a key ends the loop, or none when the keys
    are used up. *)
Section loop.
Context `{Platform} (home : option string) (canon : string → string).
Context (json_from_str : string → option Value).
Context (toml_mcp_servers : string → option (option (list (string * option RawServer)))).

Definition press (app : AppState) (key : Surroundings * KeyCode) : AppState * bool :=
  handle_key home canon json_from_str toml_mcp_servers key.1 app key.2.

Fixpoint key_loop (app : AppState) (keys : list (Surroundings * KeyCode)) : option AppState :=
  match keys with
  | [] => None
  | key :: keys =>
      let '(app, stop) := press app key in
      if stop : bool then Some app else key_loop app keys
  end.
End loop.

(** ** The key loop's invariant *)

(** The states of the first key loop: nothing is queued, the marks are on rows that
    exist, and past the review there is a server to work on. *)
Record wf (app : AppState) : Prop := {
  wf_pending : pending_action app = None;
  wf_step : wizard_step app ≠ WizardStep.ResultAndTray;
  wf_source : (selected_source app < Nat.max 1 (length (sources app)))%nat;
  wf_service : (selected_service app < Nat.max 1 (length (app_services app)))%nat;
  wf_selected :
    wizard_step app = WizardStep.StrategyChoice ∨ wizard_step app = WizardStep.SummaryConfirm →
    count se_selected (app_services app) ≠ 0%nat;
}.

Section invariant.
Context `{Platform} (home : option string) (canon : string → string).
Context (json_from_str : string → option Value).
Context (toml_mcp_servers : string → option (option (list (string * option RawServer)))).
Notation press := (press home canon json_from_str toml_mcp_servers).
Notation key_loop := (key_loop home canon json_from_str toml_mcp_servers).

(** The state after keys none of which ended the loop. *)
Fixpoint still_open (app : AppState) (keys : list (Surroundings * KeyCode)) : option AppState :=
  match keys with
  | [] => Some app
  | key :: keys =>
      let '(app, stop) := press app key in
      if stop : bool then None else still_open app keys
  end.

Lemma key_loop_split app keys app' :
  key_loop app keys = Some app' →
  ∃ before key rest app1, keys = before ++ key :: rest ∧
    still_open app before = Some app1 ∧ press app1 key = (app', true).
Proof using.
  revert app. induction keys as [|key keys IH]; intros app; [done|]. cbn [Wizard.key_loop].
  destruct (press app key) as [app1 []] eqn:E.
  - intros [= <-]. by exists [], key, keys, app.
  - intros (before & k & rest & app2 & -> & Ho & Hp)%IH.
    exists (key :: before), k, rest, app2. split; [done|]. cbn [still_open]. by rewrite E.
Qed.

(** What the keys of a step leave alone, and when they end the loop with an action. *)
Definition step_ok (app : AppState) (key : KeyCode) (r : AppState * bool) : Prop :=
  dry_run r.1 = dry_run app ∧ config_path r.1 = config_path app ∧
  if r.2 then
    r.1 = app ∨
    (wizard_step app = WizardStep.SummaryConfirm ∧ key = Enter ∧
     summary_action app = SummaryAction.Confirm ∧ r.1 = queue_pending_for_strategy app)
  else wf r.1.

Lemma key_is_one key k : key_is key [k] = true → key = k.
Proof using. intros E%bool_decide_eq_true. by apply list_elem_of_singleton in E. Qed.

Ltac step_tac :=
  repeat match goal with |- context [if ?b then _ else _] => destruct b eqn:? end;
  repeat case_match; rewrite ?andb_true_iff, ?bool_decide_eq_true, ?bool_decide_eq_false in *;
  split_and!; try done; try (by left); try (by eauto);
  constructor; simpl in *; rewrite ?length_app, ?length_alter; simpl; try done; try lia;
  try (by intros [?|?]); auto.

Lemma step1_ok around app key :
  wf app → wizard_step app = WizardStep.DiscoverySources →
  step_ok app key (handle_step1 home canon json_from_str toml_mcp_servers around app key).
Proof using.
  intros [] Hs. destruct app; simpl in *; subst.
  unfold step_ok, handle_step1, advance_to_step2, add_custom_source, update_step1_message,
    update_step2_message. simpl. step_tac.
Qed.
Lemma step2_ok app key :
  wf app → wizard_step app = WizardStep.ServerReview → step_ok app key (handle_step2 app key).
Proof using.
  intros [] Hs. destruct app; simpl in *; subst.
  unfold step_ok, handle_step2, update_step1_message, update_step2_message, update_step3_message.
  simpl. step_tac.
Qed.
Lemma step3_ok app key :
  wf app → wizard_step app = WizardStep.StrategyChoice → step_ok app key (handle_step3 app key).
Proof using.
  intros [] Hs. destruct app; simpl in *; subst.
  unfold step_ok, handle_step3, update_step2_message, update_step4_message. simpl. step_tac.
Qed.
Lemma step4_ok app key :
  wf app → wizard_step app = WizardStep.SummaryConfirm → step_ok app key (handle_step4 app key).
Proof using.
  intros [] Hs. destruct app as [? ? ? ? ? ? ? ? action ? ? ? ? ?]; simpl in *; subst.
  unfold step_ok, handle_step4, back_to_step3, update_step3_message. simpl.
  destruct (key_is key [Enter]) eqn:He.
  - apply key_is_one in He as ->. destruct action; simpl; try (split_and!; auto; done).
    all: step_tac.
  - step_tac.
Qed.

Lemma press_ok app key : wf app → step_ok app key.2 (press app key).
Proof using.
  intros Hwf. unfold Wizard.press, handle_key. pose proof (wf_step _ Hwf).
  destruct (wizard_step app) eqn:Hs; [by apply step1_ok|by apply step2_ok|by apply step3_ok|
    by apply step4_ok|done].
Qed.

Lemma still_open_ok app keys app' :
  wf app → still_open app keys = Some app' →
  wf app' ∧ dry_run app' = dry_run app ∧ config_path app' = config_path app.
Proof using.
  revert app. induction keys as [|key keys IH]; intros app Hwf; [by intros [= <-]|].
  cbn [still_open]. pose proof (press_ok app key Hwf) as (Hd & Hc & Hr).
  destruct (press app key) as [app1 []]; [done|]. intros Ho. simpl in *.
  destruct (IH _ Hr Ho) as (? & ? & ?). split_and!; congruence.
Qed.

(** Step 5 is left by ending the loop only. *)
Lemma step5_dry app keys app' :
  wizard_step app = WizardStep.ResultAndTray → key_loop app keys = Some app' →
  dry_run app' = dry_run app.
Proof using.
  revert app. induction keys as [|key keys IH]; intros app Hs; [done|]. cbn [Wizard.key_loop].
  unfold Wizard.press at 1, handle_key. rewrite Hs. unfold handle_step5.
  destruct (key_is key.2 [Char "q"]); [by intros [= <-]|].
  destruct (key_is key.2 [Up]); [by intros ->%IH|].
  destruct (key_is key.2 [Down]); [by intros ->%IH|].
  destruct (key_is key.2 [Enter]); [|by intros ->%IH].
  by destruct (tray_choice app); intros [= <-].
Qed.
End invariant.
