(* ===== verification/WizardRun.v ===== *)
(** * WizardRun: from the confirmed choice to the files ([mux-agent/src/wizard/])

    After the key loop the chosen strategy runs on the file tree ([persist.rs]) and the
    session goes on to step 5 ([mod.rs]).  The properties say what a session changes, and
    for which of the listed servers. *)
From S2P Require Import Prelude Text Json Paths Config Scan Rewire MuxGen Danger WizardServices Wizard.
From Stdlib Require Import Ascii.

(** ** What the operator selected ([wizard/persist.rs]) *)
Record ServiceShapeKey := mkServiceShapeKey {
  shape_command : string;
  shape_args : list string;
  shape_socket : option string;
  shape_env : list (string * string);
}.
Record ServiceExactKey := mkServiceExactKey { exact_name : string; shape : ServiceShapeKey }.
#[export] Instance ServiceShapeKey_eq_dec : EqDecision ServiceShapeKey.
Proof. solve_decision. Defined.
#[export] Instance ServiceExactKey_eq_dec : EqDecision ServiceExactKey.
Proof. solve_decision. Defined.
Record SelectedServiceFilter := mkSelectedServiceFilter {
  exact : list ServiceExactKey;
  conflict_shapes : list ServiceShapeKey;
}.

Section select.
Context `{Platform} (canon : string → string).
Context (json_from_str : string → option Value).
Context (toml_mcp_servers : string → option (option (list (string * option RawServer)))).

(** [sorted_env]: the entries in key order; no environment is an empty one. *)
Definition entry_shape (svc : ServiceEntry) : ServiceShapeKey :=
  mkServiceShapeKey (unwrap_or (sc_cmd (se_config svc)) "") (unwrap_or (sc_args (se_config svc)) [])
    (sc_socket (se_config svc)) (env_entries (sc_env (se_config svc))).
Definition service_shape (svc : HostService) : ServiceShapeKey :=
  mkServiceShapeKey (command svc) (args svc) (socket svc) (env_entries (env svc)).

(** The two sets, as lists. *)
Definition from_app (app : AppState) : SelectedServiceFilter :=
  let svcs := retain se_selected (app_services app) in
  mkSelectedServiceFilter
    ((λ svc, mkServiceExactKey (se_name svc) (entry_shape svc)) <$> svcs)
    (entry_shape <$> retain (λ svc, contains (se_name svc) "-from-") svcs).
Definition matches (f : SelectedServiceFilter) (svc : HostService) : bool :=
  bool_decide (mkServiceExactKey (name svc) (service_shape svc) ∈ exact f) ||
  bool_decide (service_shape svc ∈ conflict_shapes f).

(** The selected sources again, without the services that were unticked. *)
Definition selected_scans (app : AppState) (fs : FileTree) : list ScanResult :=
  (λ scan, mkScanResult (host scan) (retain (matches (from_app app)) (Scan.services scan))) <$>
    scans_of canon json_from_str toml_mcp_servers (mkSurroundings fs None [] (λ _, false))
      (sources app).
Definition selected_danger_scans (app : AppState) (fs : FileTree) : list ScanResult :=
  retain (λ scan, eligible_for_danger (host scan)) (selected_scans app fs).

Definition selected_service_of (svc : ServiceEntry) : HostService :=
  mkHostService (se_name svc) (unwrap_or (sc_cmd (se_config svc)) "")
    (unwrap_or (sc_args (se_config svc)) []) (sc_cwd (se_config svc)) (sc_socket (se_config svc))
    (sc_env (se_config svc)) None.
Definition build_merge_from_services (app : AppState) : MergeOutcome :=
  mkMergeOutcome (selected_service_of <$> retain se_selected (app_services app)) [].
End select.

(** ** The strategies *)
Definition instruction_text (inst : ClientInstruction) : string :=
  line ("• " +:+ headline inst +:+ " (" +:+ as_label (ci_kind inst) +:+ ")") +:+
  String.concat "" ((λ cmd, line ("    " +:+ cmd)) <$> commands inst) +:+
  line ("    note: " +:+ note inst) +:+ line "".

Section strategies.
Context `{Platform, TomlLib} (home : option string) (canon : string → string).
Context (json_from_str : string → option Value) (json_to_string_pretty : Value → string).
Context (toml_mcp_servers : string → option (option (list (string * option RawServer)))).
Context (daemon_to_toml : Config → option string).
Context (client_to_json : gmap string ClientServerJson → option string).
Context (client_to_toml : gmap string ClientServerToml → option string).

Definition unified_dry_summary (o : MuxOutputs) : string :=
  line "(dry-run) Would generate:" +:+ line ("  - " +:+ config_toml_path o) +:+
  line ("  - " +:+ mcp_json_path o) +:+ line ("  - " +:+ mcp_toml_path o) +:+
  "Per-client setup commands would be printed on completion.".
Definition unified_summary (o : MuxOutputs) : string :=
  line ("Wrote rust-mux config under " +:+ mux_dir o +:+ ":") +:+
  line ("  - " +:+ config_toml_path o +:+ " (daemon truth)") +:+
  line ("  - " +:+ mcp_json_path o +:+ " (client JSON)") +:+
  line ("  - " +:+ mcp_toml_path o +:+ " (client TOML)") +:+ line "" +:+
  line "Start the mux:" +:+ line ("  rust-mux --config " +:+ config_toml_path o) +:+ line "" +:+
  line "Use it from your AI clients:" +:+
  String.concat "" (instruction_text <$> safe_path_instructions o) +:+
  match out_mux_conflicts o with
  | [] => ""
  | l => line ("⚠️  " +:+ show_nat (length l) +:+
           " server-name conflict(s) surfaced — review the config.toml entries.")
  end.

Definition run_unified_generate (app : AppState) (fs : FileTree) :
    result string (FileTree * string) :=
  let merge := build_merge_from_services app in
  match merged_services merge with
  | [] => Ok (fs, "No services selected — nothing generated.")
  | _ =>
      try! o := build_mux_outputs daemon_to_toml client_to_json client_to_toml merge
                  (default_mux_dir home) "rust-mux-proxy" [] in
      if dry_run app then Ok (fs, unified_dry_summary o)
      else Ok (write_mux_outputs canon o fs, unified_summary o)
  end.

Definition client_line (c : PerClientFile) : string :=
  line ("  - " +:+ pc_path c +:+ " (" +:+ show_nat (length (pc_services c)) +:+ " servers)").
Definition per_client_dry_summary (o : PerClientOutputs) : string :=
  line ("(dry-run) Would write under " +:+ pco_mux_dir o +:+ ":") +:+
  line ("  - " +:+ pco_config_toml_path o +:+ " (daemon truth)") +:+
  String.concat "" (client_line <$> pco_clients o).
Definition per_client_summary (o : PerClientOutputs) : string :=
  line ("Wrote rust-mux per-client configs under " +:+ pco_mux_dir o +:+ ":") +:+
  line ("  - " +:+ pco_config_toml_path o +:+ " (daemon truth, " +:+
        show_nat (pco_total_services o) +:+ " unique servers)") +:+
  String.concat "" (client_line <$> pco_clients o) +:+ line "" +:+
  line "Start the mux:" +:+ line ("  rust-mux --config " +:+ pco_config_toml_path o) +:+ line "" +:+
  line "Use the per-client mux files from each AI client:" +:+
  String.concat "" (instruction_text <$> per_client_instructions o) +:+
  match pco_conflicts o with
  | [] => ""
  | l => line ("⚠️  " +:+ show_nat (length l) +:+ " server-name conflict(s) surfaced across clients — daemon config kept the variants apart with -from-<kind> suffixes.")
  end.

Definition run_per_client_generate (app : AppState) (fs : FileTree) :
    result string (FileTree * string) :=
  let scans := selected_scans canon json_from_str toml_mcp_servers app fs in
  if forallb (λ scan, match Scan.services scan with [] => true | _ => false end) scans
  then Ok (fs, "No selected services parsed cleanly — nothing generated.") else
  try! o := build_per_client_outputs daemon_to_toml client_to_json client_to_toml scans
              (default_mux_dir home) "rust-mux-proxy" [] in
  if dry_run app then Ok (fs, per_client_dry_summary o)
  else Ok ((write_per_client_outputs canon o fs).1, per_client_summary o).

(** The plan that is shown and, once confirmed, executed. *)
Definition danger_plan (scans : list ScanResult) (fs : FileTree) : DangerPlan :=
  plan_danger_rewrite_for_scans json_from_str json_to_string_pretty
    (expand_path home "~/.config/mux/sockets") "rust-mux-proxy" [] canon scans fs.

(** [{:?}]. *)
Definition debug_danger_status (s : DangerStatus.DangerStatus) : string :=
  match s with
  | DangerStatus.Planned => "Planned"
  | DangerStatus.SkippedInvalid => "SkippedInvalid"
  | DangerStatus.SkippedIneligible => "SkippedIneligible"
  | DangerStatus.SkippedEmpty => "SkippedEmpty"
  end.
Definition was_written (o : DangerExecutionOutcome) : bool :=
  bool_decide (o_status o = DangerStatus.Planned) && written o.
Definition outcome_line (o : DangerExecutionOutcome) : string :=
  if was_written o
  then line ("  ✓ wrote " +:+ o_path o +:+ " (backup: " +:+ unwrap_or (o_backup o) "(none)" +:+ ")")
  else let err := unwrap_or (error o) "" in
       line ("  · " +:+ o_path o +:+ " skipped (" +:+ debug_danger_status (o_status o) +:+ ")" +:+
             (if str_is_empty err then "" else ": " +:+ err)).

Definition CONFIRM_PROMPT : string :=
  line "Type CONFIRM (uppercase) and press Enter to apply the rewrite, anything else to cancel:" +:+
  "> ".
Definition confirmed (input : string) : bool := str_eqb (trim input) "CONFIRM".

Definition danger_results (outs : list DangerExecutionOutcome) : string :=
  line "" +:+ line "Results:" +:+ String.concat "" (outcome_line <$> outs) +:+
  match rollback_commands outs with
  | [] => ""
  | cmds => line "" +:+ line "Rollback (paste any line to restore that file):" +:+
            String.concat "" ((λ c, line ("  " +:+ c)) <$> cmds)
  end.

(** [input]: the line that is read after the prompt.  The tree, what is printed and the
    summary. *)
Definition run_danger_auto_configure (app : AppState) (input : result string string)
    (clock : nat → N) (fs : FileTree) : result string (FileTree * string * string) :=
  match merged_services (build_merge_from_services app) with
  | [] => Ok (fs, "", "No services selected — danger flow has nothing to do.")
  | _ =>
  match selected_danger_scans canon json_from_str toml_mcp_servers app fs with
  | [] => Ok (fs, "",
      "No selected sources are eligible for danger rewrite (or none parsed cleanly).")
  | scans =>
      let plan := danger_plan scans fs in
      let preview := line "" +:+ line (format_preview plan) in
      if negb (any (λ a, bool_decide (status a = DangerStatus.Planned)) (actions plan)) then
        Ok (fs, preview +:+ line "(no files planned for change — nothing to confirm)" +:+ line "",
            "No eligible files to rewrite.")
      else if dry_run app then
        Ok (fs, preview +:+ line "(dry-run) plan above would have been executed; no files modified." +:+ line "",
            "Dry-run: danger plan rendered, no writes performed.")
      else
        match input with
        | Err _ => Err "read confirmation prompt"
        | Ok input =>
            if negb (confirmed input) then
              Ok (fs, preview +:+ CONFIRM_PROMPT +:+ line "Cancelled — no files modified." +:+ line "",
                  "Danger flow cancelled by operator.")
            else
              try! r := execute_plan canon plan true clock fs in
              Ok (r.1, preview +:+ CONFIRM_PROMPT +:+ danger_results r.2,
                  "Auto-rewire applied to " +:+ show_nat (count was_written r.2) +:+
                  " file(s); see terminal for details and rollback commands.")
        end
  end end.

(** [beside]: the [rust-mux] next to the running program, if it is there; [spawn]: the
    pid of the started process.  What was started, and the summary. *)
Definition start_tray_daemon (beside : option string)
    (spawn : string → list string → result string N) (app : AppState) (fs : FileTree) :
    list (string * list string) * string :=
  if dry_run app then ([], "(dry-run) tray daemon would be started in the background.") else
  let mux_config := path_join (default_mux_dir home) "config.toml" in
  let config_arg := if path_exists canon mux_config fs then mux_config else config_path app in
  let bin := default "rust-mux" beside in
  let args := ["--tray"; "--config"; config_arg] in
  match spawn bin args with
  | Ok pid => ([(bin, args)],
      "Started tray daemon (pid " +:+ pretty pid +:+ ") using config " +:+ config_arg)
  | Err err => ([],
      "Could not start tray daemon: " +:+ err +:+ ". Run manually: rust-mux --tray --config " +:+
      config_arg)
  end.
End strategies.

(** ** The session ([wizard/mod.rs]) *)
Record WizardArgs := mkWizardArgs {
  wa_config : option string;
  wa_dry_run : bool;
  wa_strategy : option Strategy.Strategy;
  import_configs : list string;
}.

(** What a session did outside the alternate screen. *)
Record Session := mkSession {
  s_app : AppState;
  s_files : FileTree;
  s_printed : string;
  s_spawned : list (string * list string);
}.

(** What happens between and after the key loops: the tree the strategy finds, the answer
    at its prompt, the clock, the keys of step 5, and how a start of the daemon goes. *)
Record Aftermath := mkAftermath {
  a_files : FileTree;
  a_input : result string string;
  a_clock : nat → N;
  a_keys : list (Surroundings * KeyCode);
  a_beside : option string;
  a_spawn : string → list string → result string N;
}.

Section session.
Context `{Platform, TomlLib} (home : option string) (canon : string → string).
Context (json_from_str : string → option Value) (json_to_string_pretty : Value → string).
Context (toml_mcp_servers : string → option (option (list (string * option RawServer)))).
Context (daemon_to_toml : Config → option string).
Context (client_to_json : gmap string ClientServerJson → option string).
Context (client_to_toml : gmap string ClientServerToml → option string).

Definition blank_app (step : WizardStep.WizardStep) (config_path : string)
    (srcs : list SourceEntry) (svcs : list ServiceEntry) (strategy : Strategy.Strategy)
    (dry_run : bool) : AppState :=
  mkAppState step config_path srcs 0 (mkCustomPathInput [] false None) svcs 0 strategy
    SummaryAction.Confirm TrayChoice.No "" dry_run None None.

(** The state [run_wizard] hands to the key loop. *)
Definition initial_app (around : Surroundings) (a : WizardArgs) : AppState :=
  update_step1_message (blank_app WizardStep.DiscoverySources
    (unwrap_or (wa_config a) (expand_path home "~/.codex/mcp-mux.toml"))
    (build_initial_sources home canon json_from_str toml_mcp_servers around (import_configs a)) []
    (unwrap_or (wa_strategy a) Strategy.Unified) (wa_dry_run a)).

(** What a strategy does to the tree, what it prints and its summary. *)
Definition run_strategy (s : Strategy.Strategy) (app : AppState) (after : Aftermath) :
    result string (FileTree * string * string) :=
  match s with
  | Strategy.Unified =>
      (λ r, (r.1, "", r.2)) <$$> run_unified_generate home canon daemon_to_toml client_to_json
        client_to_toml app (a_files after)
  | Strategy.PerClient =>
      (λ r, (r.1, "", r.2)) <$$> run_per_client_generate home canon json_from_str toml_mcp_servers
        daemon_to_toml client_to_json client_to_toml app (a_files after)
  | Strategy.AutoRewire =>
      run_danger_auto_configure home canon json_from_str json_to_string_pretty toml_mcp_servers
        app (a_input after) (a_clock after) (a_files after)
  end.

Definition tray (app : AppState) (after : Aftermath) (fs : FileTree) (out : string) : Session :=
  let '(spawned, summary) := start_tray_daemon home canon (a_beside after) (a_spawn after) app fs in
  mkSession app fs (out +:+ line "" +:+ line summary +:+ line "") spawned.

(** The state step 5 begins in. *)
Definition step5 (app : AppState) (summary : string) : AppState :=
  app <| wizard_step := WizardStep.ResultAndTray |> <| tray_choice := TrayChoice.No |>
      <| strategy_result := Some summary |>
      <| message := "STEP 5: Up/Down to choose, Enter to confirm, q to quit." |>.

(** None: step 5 still waits for a key. *)
Definition advance_to_step5 (app : AppState) (summary : string) (after : Aftermath)
    (fs : FileTree) (out : string) : option Session :=
  app ← key_loop home canon json_from_str toml_mcp_servers (step5 app summary) (a_keys after);
  let pending := pending_action app in
  let app := app <| pending_action := None |> in
  Some (if bool_decide (pending = Some PendingAction.StartTrayDaemon) then tray app after fs out
        else mkSession app fs out []).

Definition strategy_of (a : PendingAction.PendingAction) : option Strategy.Strategy :=
  match a with
  | PendingAction.GenerateUnified => Some Strategy.Unified
  | PendingAction.GeneratePerClient => Some Strategy.PerClient
  | PendingAction.AutoRewire => Some Strategy.AutoRewire
  | PendingAction.StartTrayDaemon => None
  end.

Definition drain_pending_actions (app : AppState) (after : Aftermath) :
    option (result string Session) :=
  match pending_action app with
  | None => Some (Ok (mkSession app (a_files after) "" []))
  | Some action =>
      let app := app <| pending_action := None |> in
      match strategy_of action with
      | Some s =>
          match run_strategy s app after with
          | Err err => Some (Err err)
          | Ok (fs, out, summary) =>
              Ok <$> advance_to_step5 app summary after fs (out +:+ line "" +:+ line summary)
          end
      | None => Some (Ok (tray app after (a_files after) ""))
      end
  end.

(** None: the session still waits for a key. *)
Definition run_tui (app : AppState) (keys : list (Surroundings * KeyCode)) (after : Aftermath) :
    option (result string Session) :=
  app ← key_loop home canon json_from_str toml_mcp_servers app keys;
  drain_pending_actions app after.

Definition service_list (svcs : list ServiceEntry) : string :=
  line "Selected services:" +:+
  String.concat "" ((λ s, line ("  - " +:+ se_name s +:+ " [" +:+ source_short_label (se_source s) +:+ "]"))
    <$> retain se_selected svcs) +:+ line "".

(** A preview without a terminal: the tree and what is printed. *)
Definition run_noninteractive_dry_run (around : Surroundings) (a : WizardArgs) (cfg : string)
    (s : Strategy.Strategy) (after : Aftermath) : result string (FileTree * string) :=
  let srcs := build_initial_sources home canon json_from_str toml_mcp_servers around
                (import_configs a) in
  let svcs := build_services_for_selected_sources home canon json_from_str toml_mcp_servers around srcs in
  let app := blank_app WizardStep.SummaryConfirm cfg srcs svcs s true in
  try! r := run_strategy s app after in
  Ok (r.1.1, service_list svcs +:+ r.1.2 +:+ line r.2).

Definition run_wizard (tty : bool) (around : Surroundings) (a : WizardArgs)
    (keys : list (Surroundings * KeyCode)) (after : Aftermath) :
    option (result string (FileTree * string)) :=
  if negb tty then
    if wa_dry_run a then
      Some (run_noninteractive_dry_run around a
        (unwrap_or (wa_config a) (expand_path home "~/.codex/mcp-mux.toml"))
        (unwrap_or (wa_strategy a) Strategy.Unified) after)
    else Some (Err "wizard requires an interactive TTY; use the CLI subcommands (scan / rewire / health) for non-interactive mode")
  else result_map (λ s, (s_files s, s_printed s)) <$> run_tui (initial_app around a) keys after.
End session.

(** ** Properties *)
Section properties.
Context `{Platform, TomlLib} (home : option string) (canon : string → string).
Context (json_from_str : string → option Value) (json_to_string_pretty : Value → string).
Context (toml_mcp_servers : string → option (option (list (string * option RawServer)))).
Context (daemon_to_toml : Config → option string).
Context (client_to_json : gmap string ClientServerJson → option string).
Context (client_to_toml : gmap string ClientServerToml → option string).
Notation run_strategy := (run_strategy home canon json_from_str json_to_string_pretty
  toml_mcp_servers daemon_to_toml client_to_json client_to_toml).
Notation run_tui := (run_tui home canon json_from_str json_to_string_pretty
  toml_mcp_servers daemon_to_toml client_to_json client_to_toml).
Notation initial_app := (initial_app home canon json_from_str toml_mcp_servers).
Notation still_open := (still_open home canon json_from_str toml_mcp_servers).
Notation drain_pending_actions := (drain_pending_actions home canon json_from_str
  json_to_string_pretty toml_mcp_servers daemon_to_toml client_to_json client_to_toml).
Notation run_danger := (run_danger_auto_configure home canon json_from_str json_to_string_pretty
  toml_mcp_servers).

Lemma initial_app_wf around a : wf (initial_app around a).
Proof using. constructor; simpl; try done; try lia. by intros [|]. Qed.

(** The plan that is shown before the prompt. *)
Definition shown_plan (app : AppState) (fs : FileTree) : DangerPlan :=
  danger_plan home canon json_from_str json_to_string_pretty
    (selected_danger_scans canon json_from_str toml_mcp_servers app fs) fs.

(** The danger strategy changes the tree only by executing the shown plan, after the
    answer [CONFIRM] and not in a dry run. *)
Lemma run_danger_changes app input clock fs fs' out summary :
  run_danger app input clock fs = Ok (fs', out, summary) → fs' ≠ fs →
  dry_run app = false ∧ (∃ i, input = Ok i ∧ trim i = "CONFIRM") ∧
  ∃ outs, execute_plan canon (shown_plan app fs) true clock fs = Ok (fs', outs).
Proof using.
  unfold run_danger_auto_configure, shown_plan.
  destruct (merged_services _); [by intros [= <-]|].
  destruct (selected_danger_scans _ _ _ app fs) as [|scan scans]; [by intros [= <-]|].
  destruct (any _ _); cbn [negb]; [|by intros [= <-]].
  destruct (dry_run app); [by intros [= <-]|]. destruct input as [i|]; [|done].
  destruct (confirmed i) eqn:Hc; cbn [negb]; [|by intros [= <-]].
  intros (r & Hr & Heq)%result_bind_Ok_inv _. injection Heq as <- _ _. split_and!; [done| |].
  - exists i. split; [done|]. by apply bool_decide_eq_true in Hc.
  - exists r.2. rewrite Hr. by destruct r.
Qed.

Lemma run_strategy_dry s app after fs out summary :
  run_strategy s app after = Ok (fs, out, summary) → dry_run app = true → fs = a_files after.
Proof using.
  intros Hr Hd. destruct s; simpl in Hr.
  - destruct (run_unified_generate _ _ _ _ _ app _) as [[]|] eqn:E; [|done].
    injection Hr as <- <- <-. unfold run_unified_generate in E. rewrite Hd in E.
    destruct (merged_services _); [by injection E as <- <-|].
    apply result_bind_Ok_inv in E as (o & _ & E). by injection E as <- <-.
  - destruct (run_per_client_generate _ _ _ _ _ _ _ app _) as [[]|] eqn:E; [|done].
    injection Hr as <- <- <-. unfold run_per_client_generate in E. rewrite Hd in E.
    destruct (forallb _ _); [by injection E as <- <-|].
    apply result_bind_Ok_inv in E as (o & _ & E). by injection E as <- <-.
  - destruct (decide (fs = a_files after)) as [|Hne]; [done|].
    destruct (run_danger_changes _ _ _ _ _ _ _ Hr Hne) as (? & _). congruence.
Qed.

(** What follows a confirmation is the chosen strategy on the confirmed state. *)
Lemma drain_confirmed app after :
  pending_action app = None →
  drain_pending_actions (queue_pending_for_strategy app) after =
  match run_strategy (strategy app) app after with
  | Err err => Some (Err err)
  | Ok (fs, out, summary) =>
      Ok <$> advance_to_step5 home canon json_from_str toml_mcp_servers app summary after fs
               (out +:+ line "" +:+ line summary)
  end.
Proof using.
  intros Hp. destruct app as [? ? ? ? ? ? ? chosen ? ? ? ? ? ?]; simpl in Hp; subst.
  unfold drain_pending_actions. by destruct chosen.
Qed.

Lemma step5_spec app summary after fs out s :
  advance_to_step5 home canon json_from_str toml_mcp_servers app summary after fs out = Some s →
  s_files s = fs ∧ (s_spawned s ≠ [] → dry_run app = false).
Proof using.
  unfold advance_to_step5. intros (app' & Hk & [= <-])%bind_Some.
  apply step5_dry in Hk; [|done]. change (dry_run (step5 app summary)) with (dry_run app) in Hk.
  case_bool_decide; [|done]. unfold tray, start_tray_daemon. simpl. rewrite Hk.
  destruct (dry_run app); [by split|]. by case_match.
Qed.

(** C19: A session changes files or starts a daemon only after the operator confirmed: the
    key loop ended with Enter on [Confirm] at step 4, with at least one server selected,
    and not in a dry run.  What it changes is then exactly what the chosen strategy does
    on the state that was confirmed; the rewrite of the users' own files also took the
    answer [CONFIRM]. *)
Theorem wizard_acts_only_when_confirmed around a keys after s :
  run_tui (initial_app around a) keys after = Some (Ok s) →
  s_files s ≠ a_files after ∨ s_spawned s ≠ [] →
  wa_dry_run a = false ∧
  ∃ before around' rest app out summary,
    keys = before ++ (around', Enter) :: rest ∧
    still_open (initial_app around a) before = Some app ∧
    wizard_step app = WizardStep.SummaryConfirm ∧
    summary_action app = SummaryAction.Confirm ∧
    count se_selected (app_services app) ≠ 0%nat ∧
    run_strategy (strategy app) app after = Ok (s_files s, out, summary) ∧
    (strategy app = Strategy.AutoRewire → s_files s ≠ a_files after →
     ∃ input, a_input after = Ok input ∧ trim input = "CONFIRM").
Proof using.
  unfold WizardRun.run_tui.
  intros (app' & (before & [around' key] & rest & app & -> & Ho & Hp)%key_loop_split & Hd)%bind_Some
    Hch.
  destruct (still_open_ok _ _ _ _ _ _ _ (initial_app_wf around a) Ho) as (Hwf & Hdry & _).
  pose proof (press_ok home canon json_from_str toml_mcp_servers app (around', key) Hwf) as Hok.
  rewrite Hp in Hok. destruct Hok as (_ & _ & Hok). simpl in Hok.
  destruct Hok as [->|(Hs & -> & Ha & ->)].
  { unfold WizardRun.drain_pending_actions in Hd. rewrite (wf_pending _ Hwf) in Hd.
    injection Hd as <-. by destruct Hch. }
  rewrite (drain_confirmed _ _ (wf_pending _ Hwf)) in Hd.
  destruct (run_strategy (strategy app) app after) as [[[fs out] summary]|] eqn:Hr; [|done].
  apply fmap_Some in Hd as (s' & H5 & [= <-]).
  apply step5_spec in H5 as [<- Hsp].
  assert (dry_run app = false) as Hnd.
  { destruct Hch as [Hch|]; [|auto]. apply not_true_is_false. intros E.
    by apply Hch, (run_strategy_dry _ _ _ _ _ _ Hr). }
  split; [by rewrite <- Hnd, Hdry|].
  exists before, around', rest, app, out, summary. split_and!; try done.
  - apply (wf_selected _ Hwf). by right.
  - intros E Hne. rewrite E in Hr. by apply run_danger_changes in Hr as (_ & ? & _).
Qed.

(** A server passes the filter when a ticked entry has its shape and its name, or a name
    that the merge gave to one of several variants. *)
Definition ticked (app : AppState) (svc : HostService) : Prop :=
  ∃ e, e ∈ app_services app ∧ se_selected e = true ∧ entry_shape e = service_shape svc ∧
    (se_name e = name svc ∨ contains (se_name e) "-from-" = true).

Lemma matches_ticked app svc : matches (from_app app) svc = true ↔ ticked app svc.
Proof using.
  unfold matches, ticked, from_app. cbn [exact conflict_shapes].
  rewrite orb_true_iff, !bool_decide_eq_true, !list_elem_of_fmap.
  setoid_rewrite elem_of_retain. setoid_rewrite elem_of_retain. split.
  - intros [(e & E & ? & ?)|(e & ? & (? & ?) & ?)]; exists e; split_and!; auto.
    + symmetry. exact (f_equal shape E).
    + left. symmetry. exact (f_equal exact_name E).
  - intros (e & ? & ? & Hs & [Hn|Hn]); [left|right]; exists e; split_and!; auto. by rewrite Hn, Hs.
Qed.

Lemma selected_scans_elem app fs scan :
  scan ∈ selected_scans canon json_from_str toml_mcp_servers app fs →
  ∃ src scanned, src ∈ sources app ∧ source_selected src = true ∧
    is_ok (source_status src) = true ∧
    scan_host_file canon json_from_str toml_mcp_servers (host_file src) fs = Ok scanned ∧
    scan = mkScanResult (host_file src) (retain (matches (from_app app)) (Scan.services scanned)).
Proof using.
  intros (scanned & -> & (src & Hsrc & Hok)%list_elem_of_omap)%list_elem_of_fmap.
  apply elem_of_retain in Hsrc as [Hsrc [? ?]%andb_true_iff].
  exists src, scanned. simpl in Hok.
  destruct (scan_host_file canon json_from_str toml_mcp_servers (host_file src) fs) eqn:E; [|done].
  injection Hok as ->. split_and!; try done. by rewrite (scan_host_file_host _ _ _ _ _ _ E).
Qed.

End properties.

(** The last ticked entry of a name. *)
Definition chosen (app : AppState) (n : string) : option HostService :=
  selected_service_of <$> last (retain (λ e, str_eqb (se_name e) n) (retain se_selected (app_services app))).

Lemma merged_last app n :
  last (retain (λ s, str_eqb (name s) n) (merged_services (build_merge_from_services app))) =
  chosen app n.
Proof.
  unfold chosen, build_merge_from_services. cbn [merged_services].
  rewrite (retain_fmap selected_service_of), fmap_last. reflexivity.
Qed.

Section unified.
Context (home : option string) (canon : string → string).
Context (daemon_to_toml : Config → option string).
Context (client_to_json : gmap string ClientServerJson → option string).
Context (client_to_toml : gmap string ClientServerToml → option string).

(** The unified strategy serves exactly what is ticked: the daemon's file is written from a
    configuration that has, under each name, the command, arguments, environment and
    directory of the last ticked entry of that name and nothing under a name that is not
    ticked; the clients' files start a proxy on the socket of the same entry; no other
    file changes.  In a dry run, or with nothing ticked, no file changes at all. *)
Theorem unified_serves_the_ticked app fs fs' summary :
  run_unified_generate home canon daemon_to_toml client_to_json client_to_toml app fs =
    Ok (fs', summary) →
  if dry_run app || bool_decide (retain se_selected (app_services app) = []) then fs' = fs else
  ∃ o config json toml,
    daemon_to_toml config = Some (config_toml o) ∧ client_to_json json = Some (mcp_json o) ∧
    client_to_toml toml = Some (mcp_toml o) ∧
    (∀ n, (λ m, (sc_cmd m, sc_args m, sc_env m, sc_cwd m)) <$> servers config !! n =
       (λ svc, (Some (command svc), Some (args svc), env svc, cwd svc)) <$> chosen app n) ∧
    (∀ n, json !! n = toml !! n ∧ cs_args <$> json !! n =
       (λ svc, ["--socket"; service_socket (path_join (default_mux_dir home) "sockets") svc])
         <$> chosen app n) ∧
    (NoDup (canon <$> [config_toml_path o; mcp_json_path o; mcp_toml_path o]) →
     fs' !! canon (config_toml_path o) = Some (config_toml o) ∧
     fs' !! canon (mcp_json_path o) = Some (mcp_json o) ∧
     fs' !! canon (mcp_toml_path o) = Some (mcp_toml o)) ∧
    ∀ q, q ∉ canon <$> [config_toml_path o; mcp_json_path o; mcp_toml_path o] → fs' !! q = fs !! q.
Proof using.
  unfold run_unified_generate. intros Hr.
  destruct (merged_services (build_merge_from_services app)) as [|s l] eqn:Em.
  { apply fmap_nil_inv in Em. rewrite Em, orb_true_r. by injection Hr as <- _. }
  rewrite (bool_decide_eq_false_2 (retain se_selected _ = [])), orb_false_r
    by (intros E; by cbn in Em; rewrite E in Em).
  apply result_bind_Ok_inv in Hr as (o & Ho & Hr).
  destruct (dry_run app); [by injection Hr as <- _|]. injection Hr as <- _.
  unfold build_mux_outputs in Ho.
  apply result_bind_Ok_inv in Ho as (ct & Hct%ok_or_Ok & Ho).
  apply result_bind_Ok_inv in Ho as (mj & Hmj%ok_or_Ok & Ho).
  apply result_bind_Ok_inv in Ho as (mt & Hmt%ok_or_Ok & Ho). injection Ho as Ho.
  exists o. rewrite <- Ho. cbn [config_toml mcp_json mcp_toml].
  eexists _, _, _. split_and!; [exact Hct|exact Hmj|exact Hmt|..]; clear Hct Hmj Hmt.
  - intros n. rewrite daemon_servers, fold_insert_lookup, merged_last.
    by destruct (chosen app n).
  - intros n. unfold build_client_json, build_client_toml.
    rewrite !fold_insert_lookup, merged_last. by destruct (chosen app n).
  - intros Hnd. unfold write_mux_outputs, fs_write. simpl in *.
    rewrite !NoDup_cons, !elem_of_cons in Hnd. destruct Hnd as (H1 & H2 & _).
    split_and!.
    + do 2 (etrans; [apply lookup_insert_ne; naive_solver|]). apply lookup_insert_eq.
    + etrans; [apply lookup_insert_ne; naive_solver|]. apply lookup_insert_eq.
    + apply lookup_insert_eq.
  - intros q. unfold write_mux_outputs, fs_write. simpl. rewrite !elem_of_cons. intros Hn.
    do 3 (etrans; [apply lookup_insert_ne; naive_solver|]). done.
Qed.

(** What the daemon will read after the strategy has run. *)
Lemma unified_config app fs fs' summary :
  let dir := default_mux_dir home in
  run_unified_generate home canon daemon_to_toml client_to_json client_to_toml app fs =
    Ok (fs', summary) →
  dry_run app = false → retain se_selected (app_services app) ≠ [] →
  NoDup (canon <$> [path_join dir "config.toml"; path_join dir "mcp.json"; path_join dir "mcp.toml"]) →
  ∃ config text, daemon_to_toml config = Some text ∧
    (∀ n, servers config !! n = manifest_entry (default_socket_dir dir) <$> chosen app n) ∧
    fs' !! canon (path_join dir "config.toml") = Some text.
Proof using.
  intros dir Hr Hdry Hsel Hnd. unfold run_unified_generate in Hr.
  destruct (merged_services (build_merge_from_services app)) as [|s l] eqn:Em.
  { by apply fmap_nil_inv in Em. }
  apply result_bind_Ok_inv in Hr as (o & Ho & Hr). rewrite Hdry in Hr. injection Hr as <- _.
  unfold build_mux_outputs in Ho.
  apply result_bind_Ok_inv in Ho as (ct & Hct%ok_or_Ok & Ho).
  apply result_bind_Ok_inv in Ho as (mj & _ & Ho).
  apply result_bind_Ok_inv in Ho as (mt & _ & Ho). injection Ho as <-.
  eexists _, ct. split; [exact Hct|]. split.
  - intros n. rewrite daemon_servers, fold_insert_lookup, merged_last. by destruct (chosen app n).
  - unfold write_mux_outputs, fs_write. cbn [mcp_toml_path mcp_json_path config_toml_path config_toml].
    rewrite !fmap_cons, !NoDup_cons, !elem_of_cons in Hnd. destruct Hnd as (H1 & H2 & _).
    do 2 (etrans; [apply lookup_insert_ne; naive_solver|]). apply lookup_insert_eq.
Qed.
End unified.

(** ** What the filter and the names miss *)
Section demo.
Context `{Platform}.

(** Two clients run the same command, each in a directory of its own. *)
Definition demo_json (dir : string) : Value :=
  JObject [("mcpServers", JObject [("m", JObject [("command", JString "npx"); ("cwd", JString dir)])])].
Definition demo_from_str (text : string) : option Value := Some (demo_json text).
Definition demo_source (k : HostKind.HostKind) (p : string) : SourceEntry :=
  mkSourceEntry (mkHostFile k p HostFormat.Json ConfigSchema.McpServersJson Confidence.High true true)
    (SourceStatus.Ok 1) true.
Definition demo_sources : list SourceEntry :=
  [demo_source HostKind.Claude "/h/a.json"; demo_source HostKind.Junie "/h/b.json"].
Definition wizard_files : FileTree := <["/h/a.json" := "/a"]> (<["/h/b.json" := "/b"]> ∅).
Definition demo_app : AppState :=
  let svcs := build_services_for_selected_sources (Some "/h") (λ p, p) demo_from_str (λ _, None)
    (mkSurroundings wizard_files None [] (λ _, false)) demo_sources in
  blank_app WizardStep.SummaryConfirm "" demo_sources
    (alter (λ s, s <| se_selected := false |>) 0%nat svcs) Strategy.AutoRewire false.
Definition wizard_scans : list ScanResult :=
  selected_danger_scans (λ p, p) demo_from_str (λ _, None) demo_app wizard_files.

(** A server the operator unticked can be rewritten all the same: the filter that leaves
    unticked servers out compares neither the directory nor, for the variants of a
    conflict, the name, so that two servers which differ only in their directory, and
    which the review lists apart, pass or fail together. *)
Theorem unticked_variant_is_rewritten :
  ((λ s, (se_name s, sc_cwd (se_config s), se_selected s)) <$> app_services demo_app) =
    [("m-from-claude", Some "/a", false); ("m-from-junie", Some "/b", true)] ∧
  ((λ s, (Scan.path (host s), cwd <$> Scan.services s)) <$> wizard_scans) =
    [("/h/a.json", [Some "/a"]); ("/h/b.json", [Some "/b"])].
Proof. by_compute. Qed.

(** The rewritten files of the two variants point to one socket, and the daemon's
    configuration of the same selection listens on another. *)
Example conflicting_variants_share_a_socket :
  let dir := "/h/.config/mux/sockets" in
  (wizard_scans ≫= λ s, service_socket dir <$> Scan.services s) = [dir +:+ "/m.sock"; dir +:+ "/m.sock"] ∧
  (service_socket dir <$> merged_services (build_merge_from_services demo_app)) =
    [dir +:+ "/m-from-junie.sock"].
Proof. by_compute. Qed.

(** The first-party server is appended beside a scanned server of its name, and hides it
    in the generated configuration. *)
Example default_service_shadows_a_scanned_one :
  let scanned := mkHostService "vibecrafted-mcp" "/opt/mine" [] None None None None in
  let svcs := append_default_services
    (Some (mkDiscoveredMcp "vibecrafted-mcp" DiscoveredMcpSource.VibecraftedMcpPipInstall
             "vibecrafted-mcp" [] None))
    (build_services_from_scans [mkScanResult (host_file (demo_source HostKind.Claude "/h/a.json")) [scanned]]) in
  let app := blank_app WizardStep.SummaryConfirm "" [] svcs Strategy.Unified false in
  ((λ s, (se_name s, se_selected s)) <$> svcs) =
    [("vibecrafted-mcp", true); ("vibecrafted-mcp", true)] ∧
  command <$> chosen app "vibecrafted-mcp" = Some "vibecrafted-mcp".
Proof. by_compute. Qed.
End demo.
