(* ===== verification/Ipc.v ===== *)
(** * Ipc: the control socket ([mux-agent/src/ipc/])

    A connection sends commands, one per line; [handle_command] answers them, and a
    subscriber is sent the mux's events until it unsubscribes. *)
From S2P Require Import Prelude Text Json Shared MuxState Paths Scan.
From Stdlib Require Import Ascii.

Definition MAX_CONCURRENT : N := 32.

Module ClientKind.
Inductive ClientKind := Claude | Codex | Gemini | Junie | Generic (name : string).
End ClientKind.

Record NonMuxEntry := mkNonMuxEntry {
  nm_client : string;
  nm_path : string;
  nm_line : N;
  nm_server_name : string;
}.
Record VerifyResult := mkVerifyResult { vr_ok : bool; vr_non_mux_servers : list NonMuxEntry }.
Record Route := mkRoute { rt_client : string; rt_server : string; rt_status : string }.

Inductive MuxControlCommand :=
| Subscribe
| Unsubscribe
| GetStatus
| Verify (client_kind : ClientKind.ClientKind)
| RouteSnapshot
| RestartService (name : string)
| ReloadConfig
| Shutdown (graceful : bool).

Inductive MuxControlResponse :=
| ROk
| RStatus (s : StatusSnapshot)
| RVerify (v : VerifyResult)
| RRoutes (l : list Route)
| REvent (e : IpcEvent)
| RError (e : string)
| RUnimplemented.

Definition socket_path (home : option string) : string :=
  path_join (path_join (path_join (unwrap_or home "/tmp") ".rust-mux") "ipc") "control.sock".

Definition is_subscribe (cmd : MuxControlCommand) : bool :=
  match cmd with Subscribe => true | _ => false end.

(** [None] for [Generic], which has no host of its own. *)
Definition host_kind_of (k : ClientKind.ClientKind) : option HostKind.HostKind :=
  match k with
  | ClientKind.Claude => Some HostKind.Claude
  | ClientKind.Codex => Some HostKind.Codex
  | ClientKind.Gemini => Some HostKind.Gemini
  | ClientKind.Junie => Some HostKind.Junie
  | ClientKind.Generic _ => None
  end.

Definition cmd_str (srv : HostService) : string := command srv +:+ " " +:+ join " " (args srv).
Definition uses_mux (srv : HostService) : bool :=
  contains (cmd_str srv) "rust-mux" || contains (cmd_str srv) "mux-agent".

(** [scans] is what [scan_hosts] answers. *)
Definition handle_verify (scans : list ScanResult) (k : ClientKind.ClientKind) :
    MuxControlResponse :=
  match host_kind_of k with
  | None => RVerify (mkVerifyResult true [])
  | Some client_type =>
      let non_mux := scans ≫= λ scan_res,
        if negb (str_eqb (as_label (kind (host scan_res))) (as_label client_type)) then []
        else (λ srv, mkNonMuxEntry (as_label client_type) (path (host scan_res)) 0 (name srv)) <$>
               retain (λ srv, negb (uses_mux srv)) (services scan_res) in
      RVerify (mkVerifyResult (bool_decide (non_mux = [])) non_mux)
  end.

Section ipc.
Context `{Platform}.

(** [st] is the locked state, [now] the time. *)
Definition handle_command (now : N) (st : MuxState) (scans : list ScanResult)
    (cmd : MuxControlCommand) : result string MuxControlResponse :=
  match cmd with
  | GetStatus =>
      let active := max_active_clients st in
      Ok (RStatus (snapshot_for_state now st active))
  | Verify client_kind => Ok (handle_verify scans client_kind)
  | RestartService _ => Ok RUnimplemented
  | Subscribe => Ok ROk
  | Unsubscribe => Ok ROk
  | RouteSnapshot => Ok (RRoutes [])
  | ReloadConfig => Ok RUnimplemented
  | Shutdown _ => Ok RUnimplemented
  end.

(** ** The connection

    What one connection sees: the results of its reads, the events of the bus with the
    outcome of sending them on, and that it lagged behind the bus. *)
Inductive ReadResult := ReadEof | ReadData (data : string) | ReadError (e : string).
Inductive ConnEvent :=
| Read (r : ReadResult)
| Bus (e : IpcEvent) (sent : bool)
| Lagged.

(** [serde_json::from_slice] of a command: the error is the parser's message. *)
Context (parse_command : string → result string MuxControlCommand).

Definition is_unsubscribe (data : string) : bool :=
  match parse_command data with Ok Unsubscribe => true | _ => false end.

(** Where a loop stands when its events are used up or it is left: the responses sent,
    the events that are left, and whether it still waits. *)
Record Progress := mkProgress {
  sent_responses : list MuxControlResponse;
  left_events : list ConnEvent;
  waiting : bool;
}.
Definition emit (r : MuxControlResponse) (p : Progress) : Progress :=
  mkProgress (r :: sent_responses p) (left_events p) (waiting p).

(** The subscription loop.  [muted]: [rx.recv()] answered an error, so that its branch is
    disabled until the other one completes.  [None]: the event cannot happen here. *)
Fixpoint subscription (muted : bool) (evs : list ConnEvent) : option Progress :=
  match evs with
  | [] => Some (mkProgress [] [] true)
  | Bus e sent :: evs =>
      if muted then None
      else if sent then emit (REvent e) <$> subscription false evs
      else Some (mkProgress [] evs false)
  | Lagged :: evs => if muted then None else subscription true evs
  | Read ReadEof :: evs => Some (mkProgress [] evs false)
  | Read (ReadError _) :: evs => Some (mkProgress [] evs false)
  | Read (ReadData data) :: evs =>
      if is_unsubscribe data then Some (emit ROk (mkProgress [] evs false))
      else subscription false evs
  end.

(** The commands of one read; [has_bus] is [ctx.event_tx.is_some()]. *)
Fixpoint handle_lines (now : N) (st : MuxState) (scans : list ScanResult) (has_bus : bool)
    (lines : list string) (evs : list ConnEvent) : option Progress :=
  match lines with
  | [] => Some (mkProgress [] evs false)
  | line :: lines =>
      match parse_command line with
      | Err e => emit (RError ("Parse error: " +:+ e)) <$>
                 handle_lines now st scans has_bus lines evs
      | Ok cmd =>
          match handle_command now st scans cmd with
          | Err _ => Some (mkProgress [] evs false)
          | Ok response =>
              emit response <$>
              if is_subscribe cmd then
                if has_bus then
                  p ← subscription false evs;
                  if waiting p then Some p else
                  q ← handle_lines now st scans has_bus lines (left_events p);
                  Some (mkProgress (sent_responses p ++ sent_responses q)
                          (left_events q) (waiting q))
                else emit (RError "No event sender configured") <$>
                     handle_lines now st scans has_bus lines evs
              else handle_lines now st scans has_bus lines evs
          end
      end
  end.

Definition split_lines (data : string) : list string :=
  retain (λ l, negb (str_is_empty l)) (split_on newline data).

(** The read loop, with the number of reads it may do. *)
Fixpoint read_loop (fuel : nat) (now : N) (st : MuxState) (scans : list ScanResult)
    (has_bus : bool) (evs : list ConnEvent) : option (result string (list MuxControlResponse)) :=
  match fuel, evs with
  | O, _ => None
  | _, [] => Some (Ok [])
  | S fuel, Read ReadEof :: _ => Some (Ok [])
  | S fuel, Read (ReadError e) :: _ => Some (Err ("Read error: " +:+ e))
  | S fuel, Read (ReadData data) :: evs =>
      p ← handle_lines now st scans has_bus (split_lines data) evs;
      if waiting p then Some (Ok (sent_responses p)) else
      r ← read_loop fuel now st scans has_bus (left_events p);
      Some ((λ l, sent_responses p ++ l) <$$> r)
  | S fuel, _ :: _ => None
  end.

Definition handle_connection (peer_uid my_uid now : N) (st : MuxState)
    (scans : list ScanResult) (has_bus : bool) (evs : list ConnEvent) :
    option (result string (list MuxControlResponse)) :=
  if negb (peer_uid =? my_uid)%N then
    Some (Err ("Unauthorized IPC connection: peer UID " +:+ pretty peer_uid +:+
               " != my UID " +:+ pretty my_uid))
  else read_loop (S (length evs)) now st scans has_bus evs.

(** ** The fuel of the read loop

    A read takes an event away, and what follows it leaves no more than there were. *)
Lemma subscription_left muted evs p :
  subscription muted evs = Some p → (length (left_events p) ≤ length evs)%nat.
Proof.
  revert muted p. induction evs as [|e evs IH]; intros muted p; cbn [subscription].
  - by intros [= <-].
  - destruct e as [[|data|err]|e sent|].
    + intros [= <-]. simpl. lia.
    + destruct (is_unsubscribe data); [intros [= <-]; simpl; lia|].
      intros Hs%IH. simpl. lia.
    + intros [= <-]. simpl. lia.
    + destruct muted; [done|]. destruct sent; [|intros [= <-]; simpl; lia].
      destruct (subscription false evs) as [q|] eqn:E; [|done]. intros [= <-].
      apply IH in E. simpl. lia.
    + destruct muted; [done|]. intros Hs%IH. simpl. lia.
Qed.

Lemma handle_lines_left now st scans has_bus lines evs p :
  handle_lines now st scans has_bus lines evs = Some p →
  (length (left_events p) ≤ length evs)%nat.
Proof.
  assert (∀ r o p, emit r <$> o = Some p → ∃ q, o = Some q ∧ left_events p = left_events q) as He.
  { intros r [q|] p'; [|done]. intros [= <-]. eauto. }
  revert evs p. induction lines as [|l lines IH]; intros evs p; cbn [handle_lines].
  - intros [= <-]. done.
  - destruct (parse_command l) as [cmd|err].
    2:{ intros (q & Hq & ->)%He. by apply IH. }
    destruct (handle_command now st scans cmd) as [resp|]; [|intros [= <-]; done].
    intros (q & Hq & ->)%He. destruct (is_subscribe cmd); [|by apply IH].
    destruct has_bus; [|apply He in Hq as (q' & Hq & ->); by apply IH].
    apply bind_Some in Hq as (s & Hs & Hq). apply subscription_left in Hs.
    destruct (waiting s); [injection Hq as <-; done|].
    apply bind_Some in Hq as (q' & Hq' & [= <-]). apply IH in Hq'. simpl. lia.
Qed.

Lemma read_loop_fuel f g now st scans has_bus evs :
  (length evs < f)%nat → (length evs < g)%nat →
  read_loop f now st scans has_bus evs = read_loop g now st scans has_bus evs.
Proof.
  revert g evs. induction f as [|f IH]; intros [|g] evs Hf Hg; try lia.
  destruct evs as [|e evs]; [done|]. cbn [read_loop]. destruct e as [[|data|err]|e s|]; try done.
  destruct (handle_lines now st scans has_bus (split_lines data) evs) as [p|] eqn:E; [|done].
  apply handle_lines_left in E. cbn [mbind option_bind]. destruct (waiting p); [done|].
  simpl in Hf, Hg. by rewrite (IH g) by lia.
Qed.

(** ** Properties *)

(** The control socket serves nobody but the user the mux runs as: a foreign peer gets
    no response and is refused before anything is read. *)
Theorem foreign_peer_refused peer_uid my_uid now st scans has_bus evs :
  peer_uid ≠ my_uid →
  ∃ e, handle_connection peer_uid my_uid now st scans has_bus evs = Some (Err e) ∧
    handle_connection peer_uid my_uid now st scans has_bus [] = Some (Err e).
Proof.
  intros Hne. unfold handle_connection. rewrite (proj2 (N.eqb_neq _ _) Hne). simpl. eauto.
Qed.

Lemma verify_entries now st scans k hk :
  host_kind_of k = Some hk →
  ∃ v, handle_command now st scans (Verify k) = Ok (RVerify v) ∧
    (vr_ok v = true ↔ vr_non_mux_servers v = []) ∧
    (∀ e, e ∈ vr_non_mux_servers v ↔ ∃ scan srv, scan ∈ scans ∧ srv ∈ services scan ∧
       kind (host scan) = hk ∧ uses_mux srv = false ∧
       e = mkNonMuxEntry (as_label hk) (path (host scan)) 0 (name srv)).
Proof.
  intros Hk. cbn [handle_command]. unfold handle_verify. rewrite Hk. eexists. split; [done|].
  cbn [vr_ok vr_non_mux_servers]. rewrite bool_decide_eq_true. split; [done|].
  intros e. rewrite list_elem_of_bind. split.
  - intros (scan & Hin & Hscan). case_match eqn:E; [by apply elem_of_nil in Hin|].
    apply list_elem_of_fmap in Hin as (srv & -> & Hsrv).
    apply elem_of_retain in Hsrv as [Hsrv Hu]. exists scan, srv. split_and!; try done.
    + apply negb_false_iff, bool_decide_eq_true in E. by destruct (kind (host scan)), hk.
    + by apply negb_true_iff.
  - intros (scan & srv & Hscan & Hsrv & <- & Hu & ->). exists scan. split; [|done].
    unfold str_eqb. rewrite bool_decide_true by done. cbn [negb].
    apply list_elem_of_fmap. exists srv. split; [done|].
    apply elem_of_retain. by rewrite Hu.
Qed.

(** [Verify] lists exactly the servers of that client's files that do not go through
    the mux, with the file they are in, and says [ok] when there are none. *)
Theorem verify_lists_unmuxed now st scans k hk e :
  host_kind_of k = Some hk →
  ∃ v, handle_command now st scans (Verify k) = Ok (RVerify v) ∧
    (vr_ok v = true ↔ vr_non_mux_servers v = []) ∧
    (e ∈ vr_non_mux_servers v ↔ ∃ scan srv, scan ∈ scans ∧ srv ∈ services scan ∧
       kind (host scan) = hk ∧ uses_mux srv = false ∧
       e = mkNonMuxEntry (as_label hk) (path (host scan)) 0 (name srv)).
Proof.
  intros Hk. destruct (verify_entries now st scans k hk Hk) as (v & ? & ? & ?). eauto.
Qed.

(** The status served on the control socket always claims that every slot is taken,
    whatever the number of clients. *)
Theorem get_status_reports_all_active now st scans :
  ∃ s, handle_command now st scans GetStatus = Ok (RStatus s) ∧
    snap_active_clients s = snap_max_active_clients s ∧
    snap_connected_clients s = N.of_nat (size (clients st)).
Proof. eexists. by split. Qed.

(** A subscriber that fell behind the bus hears nothing more until it sends something
    itself: no event can be delivered to it in between. *)
Theorem lagged_subscriber_is_muted evs p :
  subscription false (Lagged :: evs) = Some p →
  match evs with
  | [] => sent_responses p = []
  | Read _ :: _ => True
  | _ => False
  end.
Proof.
  cbn [subscription]. destruct evs as [|[r|e s|] evs]; cbn [subscription]; try done.
  by intros [= <-].
Qed.
End ipc.
