(* ===== verification/Summaries.v ===== *)
(** * Summaries: what the operator console knows of the muxes ([tui-agent/src/mux.rs])

    A mux writes its snapshot to a status file; the console reads the files it can find
    through a schema of its own that mirrors the writer's.  A background task
    subscribes to the control socket and forwards the events. *)
From S2P Require Import Prelude Text Json Shared MuxState Paths Disk Scan Ipc.
From Stdlib Require Import Ascii.

(** ** The writer's side: [write_status_file] ([mux-agent/src/runtime/status.rs])

    The derived [Serialize] of the snapshot: a struct is an object of its fields, a
    variant without data its name, one with data an object of one entry. *)
Definition json_N (n : N) : Value := JNumber (PosInt n).
Definition json_option {A} (f : A → Value) (o : option A) : Value :=
  match o with Some x => f x | None => JNull end.
Definition ser_status (s : ServerStatus.ServerStatus) : Value :=
  match s with
  | ServerStatus.Starting => JString "Starting"
  | ServerStatus.Running => JString "Running"
  | ServerStatus.Restarting => JString "Restarting"
  | ServerStatus.Failed reason => JObject [("Failed", JString reason)]
  | ServerStatus.Stopped => JString "Stopped"
  | ServerStatus.Lazy => JString "Lazy"
  | ServerStatus.Backoff => JString "Backoff"
  end.
Definition ser_level (l : StatusLevel.StatusLevel) : Value :=
  JString match l with
          | StatusLevel.Ok => "Ok"
          | StatusLevel.Warn => "Warn"
          | StatusLevel.Error => "Error"
          | StatusLevel.Lazy => "Lazy"
          end.
Definition ser_heartbeat (m : HeartbeatMetrics) : Value :=
  JObject (obj_of_list [
    ("enabled", JBool (enabled m)); ("latency_ms", json_option json_N (latency_ms m));
    ("last_heartbeat_ms", json_option json_N (last_heartbeat_ms m));
    ("avg_response_ms", json_option json_N (avg_response_ms m));
    ("total_success", json_N (total_success m)); ("total_failures", json_N (total_failures m));
    ("consecutive_failures", json_N (consecutive_failures m))]).
Definition ser_snapshot (s : StatusSnapshot) : Value :=
  JObject (obj_of_list [
    ("service_name", JString (snap_service_name s));
    ("name", JString (snap_name s));
    ("server_status", ser_status (snap_server_status s));
    ("status_text", JString (snap_status_text s));
    ("level", ser_level (snap_level s));
    ("restarts", json_N (snap_restarts s));
    ("connected_clients", json_N (snap_connected_clients s));
    ("active_clients", json_N (snap_active_clients s));
    ("max_active_clients", json_N (snap_max_active_clients s));
    ("pending_requests", json_N (snap_pending_requests s));
    ("cached_initialize", JBool (snap_cached_initialize s));
    ("initializing", JBool (snap_initializing s));
    ("last_reset", json_option JString (snap_last_reset s));
    ("queue_depth", json_N (snap_queue_depth s));
    ("child_pid", json_option json_N (snap_child_pid s));
    ("max_request_bytes", json_N (snap_max_request_bytes s));
    ("health_status", ser_status (snap_health_status s));
    ("heartbeat_latency_ms", json_option json_N (snap_heartbeat_latency_ms s));
    ("heartbeat", ser_heartbeat (snap_heartbeat s));
    ("uptime_ms", json_N (snap_uptime_ms s));
    ("in_backoff", JBool (snap_in_backoff s));
    ("restart_backoff_ms", json_N (snap_restart_backoff_ms s));
    ("restart_backoff_max_ms", json_N (snap_restart_backoff_max_ms s));
    ("max_restarts", json_N (snap_max_restarts s))]).

(** The file is written beside its place and renamed onto it, which no reader can see
    half done; [None] where the code returns an error of the file system before. *)
Definition write_status_file (canon : string → string) (to_vec_pretty : Value → string)
    (p : string) (s : StatusSnapshot) (fs : FileTree) : FileTree :=
  let tmp := canon (with_extension p "tmp") in
  let fs := <[tmp := to_vec_pretty (ser_snapshot s)]> fs in
  match fs !! tmp with
  | Some data => <[canon p := data]> (delete tmp fs)
  | None => fs
  end.

(** ** The reader's schema *)
Module MuxServerStatus.
Inductive MuxServerStatus := Starting | Running | Restarting | Failed (reason : string) | Stopped.
End MuxServerStatus.

Definition mux_status_label (s : MuxServerStatus.MuxServerStatus) : string :=
  match s with
  | MuxServerStatus.Starting => "Starting"
  | MuxServerStatus.Running => "Running"
  | MuxServerStatus.Restarting => "Restarting"
  | MuxServerStatus.Failed _ => "Failed"
  | MuxServerStatus.Stopped => "Stopped"
  end.
Definition is_healthy (s : MuxServerStatus.MuxServerStatus) : bool :=
  match s with
  | MuxServerStatus.Running | MuxServerStatus.Starting | MuxServerStatus.Restarting => true
  | _ => false
  end.
Definition failure_reason (s : MuxServerStatus.MuxServerStatus) : option string :=
  match s with MuxServerStatus.Failed reason => Some reason | _ => None end.

Record MuxStatusSnapshot := mkMuxStatusSnapshot {
  ms_service_name : string;
  ms_server_status : MuxServerStatus.MuxServerStatus;
  ms_restarts : N;
  ms_connected_clients : N;
  ms_active_clients : N;
  ms_max_active_clients : N;
  ms_pending_requests : N;
  ms_cached_initialize : bool;
  ms_initializing : bool;
  ms_last_reset : option string;
  ms_queue_depth : N;
  ms_child_pid : option N;
  ms_max_request_bytes : N;
  ms_restart_backoff_ms : N;
  ms_restart_backoff_max_ms : N;
  ms_max_restarts : N;
}.

(** The derived [Deserialize]: [u64] and [usize] from a number in their range. *)
Definition de_uint (bound : N) (v : Value) : option N :=
  opt_filter (λ n, (n <? bound)%N) (value_as_u64 v).
Definition de_unit_variant (nm : string) : option MuxServerStatus.MuxServerStatus :=
  if str_eqb nm "Starting" then Some MuxServerStatus.Starting
  else if str_eqb nm "Running" then Some MuxServerStatus.Running
  else if str_eqb nm "Restarting" then Some MuxServerStatus.Restarting
  else if str_eqb nm "Stopped" then Some MuxServerStatus.Stopped
  else None.
Definition de_mux_status (v : Value) : option MuxServerStatus.MuxServerStatus :=
  match v with
  | JString nm => de_unit_variant nm
  | JObject [(nm, JNull)] => de_unit_variant nm
  | JObject [(nm, JString reason)] =>
      if str_eqb nm "Failed" then Some (MuxServerStatus.Failed reason) else None
  | _ => None
  end.

Definition need {A} (m : list (string * Value)) (k : string) (de : Value → option A) : option A :=
  obj_get k m ≫= de.
(** The fields of an object; the ones it does not know are ignored. *)
Definition de_snapshot_object (m : list (string * Value)) : option MuxStatusSnapshot :=
  let u64 := de_uint U64_MODULUS in
  nm ← need m "service_name" de_string;
  st ← need m "server_status" de_mux_status;
  restarts ← need m "restarts" u64;
  connected ← need m "connected_clients" u64;
  active ← need m "active_clients" u64;
  max_active ← need m "max_active_clients" u64;
  pending ← need m "pending_requests" u64;
  cached ← need m "cached_initialize" de_bool;
  initializing ← need m "initializing" de_bool;
  last_reset ← de_option de_string (obj_get "last_reset" m);
  queue ← need m "queue_depth" u64;
  pid ← de_option (de_uint (2 ^ 32)) (obj_get "child_pid" m);
  max_bytes ← need m "max_request_bytes" u64;
  backoff ← need m "restart_backoff_ms" u64;
  backoff_max ← need m "restart_backoff_max_ms" u64;
  max_restarts ← need m "max_restarts" u64;
  Some (mkMuxStatusSnapshot nm st restarts connected active max_active pending cached initializing
          last_reset queue pid max_bytes backoff backoff_max max_restarts).
(** A derived struct is also read from the sequence of its fields. *)
Definition SNAPSHOT_FIELDS : list string :=
  ["service_name"; "server_status"; "restarts"; "connected_clients"; "active_clients";
   "max_active_clients"; "pending_requests"; "cached_initialize"; "initializing"; "last_reset";
   "queue_depth"; "child_pid"; "max_request_bytes"; "restart_backoff_ms";
   "restart_backoff_max_ms"; "max_restarts"].
Definition de_snapshot (v : Value) : option MuxStatusSnapshot :=
  match v with
  | JObject m => de_snapshot_object m
  | JArray l =>
      if bool_decide (length l = length SNAPSHOT_FIELDS)
      then de_snapshot_object (zip SNAPSHOT_FIELDS l) else None
  | _ => None
  end.

(** ** Reading and finding the files *)
Section read.
Context (from_str : string → option Value) (d : Disk).

Definition from_json (raw : string) : result string MuxStatusSnapshot :=
  ok_or (from_str raw ≫= de_snapshot) "failed to parse rust-mux status JSON".

Definition safe_status_file (p : string) : result string string :=
  if negb (bool_decide (extension p = Some "json")) then
    Err ("refusing non-json rust-mux status file " +:+ p)
  else
    match lstat d p with
    | Err _ => Err ("failed to inspect rust-mux status file " +:+ p)
    | Ok FileKind.File =>
        match canonicalize_path d p with
        | Ok c => Ok c
        | Err _ => Err ("failed to canonicalize rust-mux status file " +:+ p)
        end
    | Ok _ => Err ("refusing unsafe rust-mux status file " +:+ p)
    end.

(** [MuxStatusSnapshot::read]; the contexts of an error are kept, its source is not. *)
Definition read (p : string) : result string MuxStatusSnapshot :=
  try! p := safe_status_file p in
  match read_text d p with
  | Err _ => Err ("failed to read rust-mux status file " +:+ p)
  | Ok raw =>
      match from_json raw with
      | Ok s => Ok s
      | Err e => Err ("rust-mux status file " +:+ p +:+ ": " +:+ e)
      end
  end.

Definition default_mux_status_root (home : option string) : option string :=
  (λ h, path_join h ".rmcp_servers/rust_mux") <$> opt_filter (λ v, negb (str_is_empty v)) home.

(** The paths of [VIBECRAFTED_MUX_STATUS_PATHS]. *)
Definition env_paths (raw : option string) : list string :=
  match raw with
  | Some raw => retain (λ s, negb (str_is_empty s)) (split_on colon raw)
  | None => []
  end.
Definition root_paths (root : string) : list string :=
  let flat := path_join root "status.json" in
  (if is_file_path d flat then [flat] else []) ++
  sort_by path_leb (retain (λ p, is_plain_file d p && bool_decide (extension p = Some "json"))
                      (entries_of d root)).

(** [PathBuf]s are equal when their components are. *)
Definition same_path (p q : string) : bool := bool_decide (components p = components q).

Definition discover_status_files (env home : option string) : list string :=
  let out := push_all_unseen same_path [] (env_paths env) in
  match default_mux_status_root home with
  | Some root => push_all_unseen same_path out (root_paths root)
  | None => out
  end.

Definition read_all_known_snapshots (env home : option string) :
    list (string * result string MuxStatusSnapshot) :=
  (λ p, (p, read p)) <$> discover_status_files env home.
End read.

(** ** Summaries *)
Inductive MuxSummaryState :=
| Healthy (s : MuxStatusSnapshot)
| Unhealthy (s : MuxStatusSnapshot)
| Unreadable (error : string).
Record MuxSummary := mkMuxSummary {
  sum_path : string;
  display_name : string;
  sum_state : MuxSummaryState;
}.

Definition snapshot_summary_line (s : MuxStatusSnapshot) : string :=
  let n := pretty : N → string in
  join " " ([ms_service_name s +:+ ": " +:+ mux_status_label (ms_server_status s) +:+
             " clients=" +:+ n (ms_active_clients s) +:+ "/" +:+ n (ms_connected_clients s) +:+
             " pending=" +:+ n (ms_pending_requests s) +:+ " queue=" +:+ n (ms_queue_depth s) +:+
             " restarts=" +:+ n (ms_restarts s)] ++
    match ms_child_pid s with Some pid => ["pid=" +:+ n pid] | None => [] end ++
    match failure_reason (ms_server_status s) with Some r => ["reason=" +:+ r] | None => [] end).

Definition from_path_and_result (p : string) (r : result string MuxStatusSnapshot) : MuxSummary :=
  match r with
  | Ok s => mkMuxSummary p (ms_service_name s)
              (if is_healthy (ms_server_status s) then Healthy s else Unhealthy s)
  | Err err => mkMuxSummary p (default p (file_stem p)) (Unreadable err)
  end.
Definition summary_is_healthy (s : MuxSummary) : bool :=
  match sum_state s with Healthy _ => true | _ => false end.
Definition summary_line (s : MuxSummary) : string :=
  match sum_state s with
  | Healthy snap | Unhealthy snap => snapshot_summary_line snap
  | Unreadable error => display_name s +:+ ": unreadable (" +:+ error +:+ ")"
  end.

Definition current_summaries (from_str : string → option Value) (d : Disk)
    (env home : option string) : list MuxSummary :=
  (λ pr, from_path_and_result pr.1 pr.2) <$> read_all_known_snapshots from_str d env home.

(** ** The subscriber *)
Module SubscriberState.
Inductive SubscriberState := Connected | Reconnecting | Polling | Failed.
End SubscriberState.
#[export] Instance SubscriberState_eq_dec : EqDecision SubscriberState.SubscriberState.
Proof. solve_decision. Defined.

(** How one attempt to connect goes: refused, or served with the lines that arrive
    until the connection ends ([sent]: the subscription could be written). *)
Inductive Attempt := Refused | Served (sent : bool) (lines : list string).

(** The task: its counters, its published state, what it forwarded and how long it
    slept, in milliseconds. *)
Record Subscriber := mkSubscriber {
  attempts : N;
  backoff : N;
  sub_state : SubscriberState.SubscriberState;
  forwarded : list IpcEvent;
  slept : list N;
}.
#[export] Instance Subscriber_eta : Eta Subscriber := fun r =>
  mkSubscriber (attempts r) (backoff r) (sub_state r) (forwarded r) (slept r).

Definition subscriber_start : Subscriber :=
  mkSubscriber 0 1000 SubscriberState.Reconnecting [] [].

Section subscriber.
(** The JSON of responses, of which the task keeps the events. *)
Context (decode : string → option MuxControlResponse).

Definition events_in (lines : list string) : list IpcEvent :=
  omap (λ l, match decode l with Some (REvent e) => Some e | _ => None end) lines.

(** One turn of the loop; [true]: the task is over. *)
Definition subscriber_turn (s : Subscriber) (a : Attempt) : Subscriber * bool :=
  let s := s <| sub_state := SubscriberState.Reconnecting |> in
  match a with
  | Served sent lines =>
      let s := s <| attempts := 0%N |> <| backoff := 1000%N |>
                 <| sub_state := SubscriberState.Connected |> in
      (if sent then s <| forwarded ::= λ l, l ++ events_in lines |> else s, false)
  | Refused =>
      let s := s <| attempts ::= λ n, (n + 1)%N |> in
      if (10 <=? attempts s)%N then (s <| sub_state := SubscriberState.Polling |>, true)
      else (s <| slept ::= λ l, l ++ [backoff s] |>
              <| backoff ::= λ b, N.min (b * 2) 30000 |>, false)
  end.

(** The task on a history of attempts, and the attempts it did not make. *)
Fixpoint subscriber_run (s : Subscriber) (l : list Attempt) : Subscriber * list Attempt :=
  match l with
  | [] => (s, [])
  | a :: l =>
      let '(s, stop) := subscriber_turn s a in
      if stop : bool then (s, l) else subscriber_run s l
  end.
End subscriber.

(** ** The reader and the writer agree *)
Definition mirror_status (s : ServerStatus.ServerStatus) : option MuxServerStatus.MuxServerStatus :=
  match s with
  | ServerStatus.Starting => Some MuxServerStatus.Starting
  | ServerStatus.Running => Some MuxServerStatus.Running
  | ServerStatus.Restarting => Some MuxServerStatus.Restarting
  | ServerStatus.Failed r => Some (MuxServerStatus.Failed r)
  | ServerStatus.Stopped => Some MuxServerStatus.Stopped
  | ServerStatus.Lazy | ServerStatus.Backoff => None
  end.
Definition mirror (s : StatusSnapshot) (st : MuxServerStatus.MuxServerStatus) : MuxStatusSnapshot :=
  mkMuxStatusSnapshot (snap_service_name s) st (snap_restarts s) (snap_connected_clients s)
    (snap_active_clients s) (snap_max_active_clients s) (snap_pending_requests s)
    (snap_cached_initialize s) (snap_initializing s) (snap_last_reset s) (snap_queue_depth s)
    (snap_child_pid s) (snap_max_request_bytes s) (snap_restart_backoff_ms s)
    (snap_restart_backoff_max_ms s) (snap_max_restarts s).

(** The fields are in the range of their Rust types. *)
Record machine_sized (s : StatusSnapshot) : Prop := {
  sized_u64 : Forall (λ n, (n < U64_MODULUS)%N)
    [snap_restarts s; snap_connected_clients s; snap_active_clients s; snap_max_active_clients s;
     snap_pending_requests s; snap_queue_depth s; snap_max_request_bytes s;
     snap_restart_backoff_ms s; snap_restart_backoff_max_ms s; snap_max_restarts s];
  sized_pid : ∀ pid, snap_child_pid s = Some pid → (pid < 2 ^ 32)%N;
}.

Lemma de_uint_json b n : (n < b)%N → de_uint b (json_N n) = Some n.
Proof. intros Hn. unfold de_uint. simpl. apply N.ltb_lt in Hn. by rewrite Hn. Qed.

Lemma de_option_json {A} (f : A → Value) (de : Value → option A) (o : option A) :
  (∀ x, o = Some x → f x ≠ JNull ∧ de (f x) = Some x) →
  de_option de (Some (json_option f o)) = Some o.
Proof.
  intros Hx. destruct o as [x|]; [|done]. destruct (Hx x eq_refl) as [Hn Hd].
  simpl. rewrite Hd. by destruct (f x).
Qed.

Lemma de_ser_status s : de_mux_status (ser_status s) = mirror_status s.
Proof. by destruct s. Qed.

(** Evaluates the lookups of known keys in a known object. *)
Ltac eval_gets :=
  repeat match goal with
  | |- context [obj_get ?k ?m] =>
      let v := eval lazy beta iota zeta delta -[json_N json_option ser_status ser_level ser_heartbeat] in (obj_get k m) in
      change (obj_get k m) with v
  end.

Lemma de_ser_snapshot s :
  machine_sized s →
  de_snapshot (ser_snapshot s) = mirror s <$> mirror_status (snap_server_status s).
Proof.
  intros [Hu Hp]. rewrite !Forall_cons in Hu. destruct Hu as (? & ? & ? & ? & ? & ? & ? & ? & ? & ? & _).
  destruct s as [nm al st tx lv re cc ac ma pe ca ini lr qd pid mb hs hl hb up ib rb rbm mr].
  cbn [snap_service_name snap_server_status snap_restarts snap_connected_clients snap_active_clients
    snap_max_active_clients snap_pending_requests snap_queue_depth snap_max_request_bytes
    snap_restart_backoff_ms snap_restart_backoff_max_ms snap_max_restarts snap_child_pid] in *.
  cbn [de_snapshot ser_snapshot]. unfold de_snapshot_object, need. eval_gets.
  cbn [option_bind mbind de_string as_str de_bool].
  rewrite de_ser_status. destruct (mirror_status st) as [st'|]; [|done]. cbn [mbind option_bind].
  rewrite !de_uint_json by done. cbn [mbind option_bind].
  rewrite (de_option_json JString) by (intros ? _; by split). cbn [mbind option_bind].
  rewrite (de_option_json json_N) by (intros x Hx; split; [done|by apply de_uint_json, Hp]).
  reflexivity.
Qed.

(** C32: The console reads back what a mux wrote: the status file, replaced as a whole, holds
    the text of the snapshot, and the console's schema finds in it the same values, field
    by field.  Two of the writer's states are missing from the console's copy of the
    enumeration, and a file with one of them does not parse.  [from_str] is only assumed
    to invert the serializer on this snapshot. *)
Theorem console_reads_what_the_mux_wrote canon to_vec_pretty from_str p s fs :
  from_str (to_vec_pretty (ser_snapshot s)) = Some (ser_snapshot s) →
  machine_sized s → canon (with_extension p "tmp") ≠ canon p →
  let fs' := write_status_file canon to_vec_pretty p s fs in
  (∃ text, fs' !! canon p = Some text ∧
    match mirror_status (snap_server_status s) with
    | Some st => from_json from_str text = Ok (mirror s st)
    | None => ∃ e, from_json from_str text = Err e
    end) ∧
  fs' !! canon (with_extension p "tmp") = None ∧
  ∀ q, q ≠ canon p → q ≠ canon (with_extension p "tmp") → fs' !! q = fs !! q.
Proof.
  intros Hp Hs Hne. unfold write_status_file. cbv zeta.
  set (text := to_vec_pretty _) in *. set (tmp := canon (with_extension p "tmp")) in *.
  assert ((<[tmp:=text]> fs : FileTree) !! tmp = Some text) as -> by apply lookup_insert_eq.
  split_and!.
  - exists text. split; [apply lookup_insert_eq|].
    unfold from_json. rewrite Hp. cbn [mbind option_bind]. rewrite de_ser_snapshot by done.
    destruct (mirror_status _); simpl; eauto.
  - etrans; [by apply lookup_insert_ne|]. apply lookup_delete_eq.
  - intros q Hq Hq2. etrans; [by apply lookup_insert_ne|].
    etrans; [by apply lookup_delete_ne|]. by apply lookup_insert_ne.
Qed.

(** ** The list of files *)
Lemma same_path_refl p : same_path p p = true.
Proof. unfold same_path. by rewrite bool_decide_true. Qed.
Lemma same_path_sym p q : same_path p q = same_path q p.
Proof. unfold same_path. apply bool_decide_ext. split; congruence. Qed.
Lemma same_path_trans p q r : same_path p q = true → same_path q r = true → same_path p r = true.
Proof. unfold same_path. rewrite !bool_decide_eq_true. congruence. Qed.

(** The incremental search with its set of seen paths lists exactly the first occurrences
    among the paths of the environment variable followed by those of the default
    directory: no file is read twice under spellings of one path, the order is the
    documented one, and a path the operator named is kept even if nothing is there. *)
Theorem discovery_is_first_occurrences d env home :
  let found := discover_status_files d env home in
  let named := env_paths env in
  found = first_occurrences same_path
    (named ++ match default_mux_status_root home with Some root => root_paths d root | None => [] end) ∧
  (∀ i j p q, found !! i = Some p → found !! j = Some q → same_path p q = true → i = j) ∧
  (∀ p, p ∈ named → any (same_path p) found = true).
Proof.
  cbv zeta.
  assert (discover_status_files d env home = first_occurrences same_path
    (env_paths env ++ match default_mux_status_root home with Some root => root_paths d root | None => [] end)) as ->.
  { rewrite <- (push_all_unseen_spec same_path same_path_sym same_path_trans).
    unfold discover_status_files, push_all_unseen. rewrite foldl_app.
    by destruct (default_mux_status_root home). }
  split_and!; [done| |].
  - intros i j p q. apply first_occurrences_distinct;
      auto using same_path_refl, same_path_sym. apply same_path_trans.
  - intros p Hp. rewrite (first_occurrences_any same_path same_path_sym same_path_trans).
    apply any_true. exists p. split; [|apply same_path_refl]. apply elem_of_app. by left.
Qed.

(** ** The subscriber's run *)
Section subscriber_run.
Context (decode : string → option MuxControlResponse).
Notation turn := (subscriber_turn decode).
Notation run := (subscriber_run decode).

(** The delay before the next attempt after [k] refusals in a row. *)
Fixpoint delay (k : nat) : N :=
  match k with O => 1000 | S k => N.min (delay k * 2) 30000 end.
Definition delays (k : nat) : list N := delay <$> seq 0 k.
Definition served_events (a : Attempt) : list IpcEvent :=
  match a with Served true lines => events_in decode lines | _ => [] end.

(** The task after a history of attempts none of which ended it. *)
Definition waiting (history : list Attempt) (s : Subscriber) : Prop :=
  ∃ k before early, (k < 10)%nat ∧ history = before ++ replicate k Refused ∧
    attempts s = N.of_nat k ∧ backoff s = delay k ∧ slept s = early ++ delays k ∧
    forwarded s = history ≫= served_events ∧ sub_state s ≠ SubscriberState.Polling.

Lemma delays_S k : delays (S k) = delays k ++ [delay k].
Proof using. unfold delays. by rewrite seq_S, fmap_app. Qed.

Lemma turn_spec history s a s' stop :
  waiting history s → turn s a = (s', stop) →
  if stop : bool then
    sub_state s' = SubscriberState.Polling ∧
    (∃ before, history ++ [a] = before ++ replicate 10 Refused) ∧
    (∃ early, slept s' = early ++ delays 9) ∧
    forwarded s' = (history ++ [a]) ≫= served_events
  else waiting (history ++ [a]) s'.
Proof using.
  intros (k & before & early & Hk & Hh & Ha & Hb & Hs & Hf & Hp). unfold subscriber_turn. simpl.
  assert (∀ l, (history ++ l) ≫= served_events = forwarded s ++ l ≫= served_events) as Hbind
    by (intros l; by rewrite bind_app, Hf).
  destruct a as [|sent lines].
  - rewrite Ha. destruct (N.leb_spec 10 (N.of_nat k + 1)) as [Hle|Hlt]; intros [= <- <-]; simpl.
    + assert (k = 9%nat) as -> by lia. split_and!; [done|exists before|by exists early|].
      * by rewrite Hh, <- app_assoc.
      * by rewrite Hbind, app_nil_r.
    + exists (S k), before, early. rewrite delays_S. simpl. split_and!; [lia| |lia| | | |done].
      * rewrite Hh, <- app_assoc. f_equal. symmetry. apply replicate_cons_app.
      * by rewrite Hb.
      * by rewrite Hs, <- app_assoc, Hb.
      * by rewrite Hbind, app_nil_r.
  - destruct sent; intros [= <- <-]; eexists 0%nat, (history ++ [_]), (slept s);
      simpl; rewrite ?app_nil_r; (split_and!; [lia|reflexivity|done..| |done]);
      rewrite Hbind; simpl; by rewrite ?app_nil_r.
Qed.

Lemma run_spec history s l s' rest :
  waiting history s → run s l = (s', rest) →
  ∃ made, l = made ++ rest ∧ forwarded s' = (history ++ made) ≫= served_events ∧
    (waiting (history ++ l) s' ∧ rest = [] ∨
     sub_state s' = SubscriberState.Polling ∧
     (∃ before, history ++ made = before ++ replicate 10 Refused) ∧
     ∃ early, slept s' = early ++ delays 9).
Proof using.
  revert history s. induction l as [|a l IH]; intros history s Hw; cbn [subscriber_run].
  - intros [= <- <-]. exists []. rewrite !app_nil_r. split_and!; [done| |left; by split].
    by destruct Hw as (? & ? & ? & ? & ? & ? & ? & ? & ? & ?).
  - destruct (turn s a) as [s1 stop] eqn:E. pose proof (turn_spec _ _ _ _ _ Hw E) as Ht.
    destruct stop.
    + intros [= <- <-]. destruct Ht as (? & ? & ? & ?). exists [a]. split_and!; [done|done|right; done].
    + intros Hr. destruct (IH _ _ Ht Hr) as (made & -> & Hf & Hor).
      exists (a :: made). rewrite <- !app_assoc in *. simpl in *. done.
Qed.

Lemma run_refused n s after :
  (10 ≤ attempts s + N.of_nat n)%N → (attempts s < 10)%N →
  sub_state (run s (replicate n Refused ++ after)).1 = SubscriberState.Polling.
Proof using.
  revert s. induction n as [|n IH]; intros s Hn Hlt; [lia|].
  cbn [replicate app subscriber_run subscriber_turn]. simpl.
  destruct (N.leb_spec 10 (attempts s + 1)); [done|]. apply IH; simpl; lia.
Qed.

Lemma run_polls before s after :
  (attempts s < 10)%N →
  sub_state (run s (before ++ replicate 10 Refused ++ after)).1 = SubscriberState.Polling.
Proof using.
  revert s. induction before as [|a before IH]; intros s Hlt.
  - apply (run_refused 10 s after); lia.
  - cbn [app subscriber_run]. destruct (turn s a) as [s1 stop] eqn:E.
    unfold subscriber_turn in E. destruct a as [|sent lines]; simpl in E.
    + destruct (N.leb_spec 10 (attempts s + 1)); injection E as <- <-; [done|]. apply IH. simpl. lia.
    + destruct sent; injection E as <- <-; apply IH; simpl; lia.
Qed.

(** The subscription ends, and only for good reason: the task gives up exactly when ten
    attempts in a row were refused, having waited 1, 2, 4, 8 and 16 seconds and then 30
    seconds between them; until then every event of every connection whose subscription
    was written is forwarded, in order, however often the mux went away in between. *)
Theorem subscriber_gives_up_after_ten l s rest :
  run subscriber_start l = (s, rest) →
  ∃ made, l = made ++ rest ∧ forwarded s = made ≫= served_events ∧
    (sub_state s = SubscriberState.Polling ↔ ∃ before after, l = before ++ replicate 10 Refused ++ after) ∧
    (sub_state s = SubscriberState.Polling →
     (∃ before, made = before ++ replicate 10 Refused) ∧
     ∃ early, slept s = early ++ [1000; 2000; 4000; 8000; 16000; 30000; 30000; 30000; 30000]%N) ∧
    (sub_state s ≠ SubscriberState.Polling → rest = []).
Proof using.
  intros Hr. assert (waiting [] subscriber_start) as Hw.
  { exists 0%nat, [], []. split_and!; done || lia. }
  destruct (run_spec _ _ _ _ _ Hw Hr) as (made & -> & Hf & Hor). exists made.
  cbn [app] in *.
  split_and!; [done|done| | |].
  - split.
    + intros Hp. destruct Hor as [[Hwt ->]|(_ & [before ->] & _)].
      * by destruct Hwt as (? & ? & ? & ? & ? & ? & ? & ? & ? & ?).
      * exists before, rest. by rewrite <- app_assoc.
    + intros (before & after & E). pose proof (run_polls before subscriber_start after) as Hpoll.
      rewrite <- E, Hr in Hpoll. simpl in Hpoll. by apply Hpoll.
  - intros Hp. destruct Hor as [[Hwt ->]|(_ & Hb & He)]; [|done].
    by destruct Hwt as (? & ? & ? & ? & ? & ? & ? & ? & ? & ?).
  - intros Hn. by destruct Hor as [[_ ?]|(? & _)].
Qed.
End subscriber_run.

(** A mux that accepts and hangs up at once is asked again without any delay. *)
Example closing_server_is_asked_without_delay decode n :
  slept (subscriber_run decode subscriber_start (replicate n (Served true []))).1 = [].
Proof.
  assert (∀ s, slept s = [] → slept (subscriber_run decode s (replicate n (Served true []))).1 = [])
    as H by (induction n as [|n IH]; intros s Hs; [done|]; by apply IH).
  by apply H.
Qed.
