(* ===== verification/Endpoints.v ===== *)
(** * Endpoints: what listens beside a mux ([runtime/status.rs], [ipc/server.rs],
    [bin/rust-mux-proxy.rs])

    The status endpoint and its client, the task that keeps the status file up to date, the
    accept loop of the control socket, and the small proxy that copies bytes between its
    standard streams and a mux. *)
From S2P Require Import Prelude Text Json Shared MuxState Paths Scan Ipc Status Summaries.
From Stdlib Require Import Ascii.

(** ** The report as JSON: the derived [Serialize] and [Deserialize] *)
Definition ser_server (s : MultiServerStatus) : Value :=
  JObject (obj_of_list [
    ("name", JString (mss_name s)); ("level", ser_level (mss_level s));
    ("status_text", JString (mss_status_text s));
    ("connected_clients", json_N (mss_connected_clients s));
    ("active_clients", json_N (mss_active_clients s));
    ("max_active_clients", json_N (mss_max_active_clients s));
    ("pending_requests", json_N (mss_pending_requests s));
    ("restarts", json_N (mss_restarts s)); ("uptime_ms", json_N (mss_uptime_ms s));
    ("in_backoff", JBool (mss_in_backoff s));
    ("heartbeat_latency_ms", json_option json_N (mss_heartbeat_latency_ms s))]).
Definition ser_report (d : DaemonStatus) : Value :=
  JObject (obj_of_list [
    ("version", JString (ds_version d)); ("uptime_ms", json_N (ds_uptime_ms d));
    ("uptime", JString (ds_uptime d)); ("server_count", json_N (ds_server_count d));
    ("running_count", json_N (ds_running_count d)); ("error_count", json_N (ds_error_count d));
    ("servers", JArray (ser_server <$> ds_servers d))]).

Definition level_of_name (nm : string) : option StatusLevel.StatusLevel :=
  if str_eqb nm "Ok" then Some StatusLevel.Ok
  else if str_eqb nm "Warn" then Some StatusLevel.Warn
  else if str_eqb nm "Error" then Some StatusLevel.Error
  else if str_eqb nm "Lazy" then Some StatusLevel.Lazy
  else None.
Definition de_level (v : Value) : option StatusLevel.StatusLevel :=
  match v with
  | JString nm => level_of_name nm
  | JObject [(nm, JNull)] => level_of_name nm
  | _ => None
  end.

(** A derived struct, from an object or from the sequence of its fields. *)
Definition de_struct {A} (fields : list string) (de : list (string * Value) → option A) (v : Value) :
    option A :=
  match v with
  | JObject m => de m
  | JArray l => if bool_decide (length l = length fields) then de (zip fields l) else None
  | _ => None
  end.
Definition de_usize : Value → option N := de_uint U64_MODULUS.
Definition de_server_object (m : list (string * Value)) : option MultiServerStatus :=
  nm ← need m "name" de_string;
  level ← need m "level" de_level;
  text ← need m "status_text" de_string;
  connected ← need m "connected_clients" de_usize;
  active ← need m "active_clients" de_usize;
  max_active ← need m "max_active_clients" de_usize;
  pending ← need m "pending_requests" de_usize;
  restarts ← need m "restarts" de_usize;
  uptime ← need m "uptime_ms" de_usize;
  backoff ← need m "in_backoff" de_bool;
  latency ← de_option de_usize (obj_get "heartbeat_latency_ms" m);
  Some (mkMultiServerStatus nm level text connected active max_active pending restarts uptime
          backoff latency).
Definition de_server : Value → option MultiServerStatus :=
  de_struct ["name"; "level"; "status_text"; "connected_clients"; "active_clients";
             "max_active_clients"; "pending_requests"; "restarts"; "uptime_ms"; "in_backoff";
             "heartbeat_latency_ms"] de_server_object.
Definition de_array {A} (de : Value → option A) (v : Value) : option (list A) :=
  match v with JArray l => mapM de l | _ => None end.
Definition de_report_object (m : list (string * Value)) : option DaemonStatus :=
  version ← need m "version" de_string;
  uptime_ms ← need m "uptime_ms" de_usize;
  uptime ← need m "uptime" de_string;
  server_count ← need m "server_count" de_usize;
  running_count ← need m "running_count" de_usize;
  error_count ← need m "error_count" de_usize;
  servers ← need m "servers" (de_array de_server);
  Some (mkDaemonStatus version uptime_ms uptime server_count running_count error_count servers).
Definition de_report : Value → option DaemonStatus :=
  de_struct ["version"; "uptime_ms"; "uptime"; "server_count"; "running_count"; "error_count";
             "servers"] de_report_object.

(** ** One query *)

(** [BufReader::read_line]: what comes up to the first newline, with it. *)
Fixpoint read_line (s : string) : string :=
  match s with
  | EmptyString => EmptyString
  | String c s => if Ascii.eqb c newline then String c EmptyString else String c (read_line s)
  end.

Section query.
Context `{Platform} (to_string : Value → string) (from_str : string → option Value).

(** What a connection to the status endpoint is sent before it is shut down. *)
Definition handle_status_connection (version : string) (now : N) (s : StatusState) : string :=
  to_string (ser_report (collect_status version now s)) +:+ String newline "".

(** The answer to the one who connected; the error is that of the parser. *)
Definition query_status (sent : string) : result string DaemonStatus :=
  ok_or (from_str (read_line sent) ≫= de_report) "invalid status report".
End query.

(** ** Keeping the status file up to date: [spawn_status_writer] *)
Inductive WriterPhase := WaitsForChange | AboutToWrite.
(** How [write_status_file] ends: before it wrote anything, before the rename, or well. *)
Inductive WriteOutcome := NothingWritten | NotRenamed | Written.
Inductive WriterEvent :=
| Published (s : StatusSnapshot)   (* the watch channel gets a new value *)
| Wakes                            (* [rx.changed()] completes *)
| Writes (o : WriteOutcome).
Record Writer := mkWriter {
  latest : StatusSnapshot;
  has_changed : bool;              (* a value this receiver has not seen *)
  phase : WriterPhase;
  tree : FileTree;
  last_outcome : WriteOutcome;
}.
#[export] Instance Writer_eta : Eta Writer := fun r =>
  mkWriter (latest r) (has_changed r) (phase r) (tree r) (last_outcome r).

Section writer.
Context (canon : string → string) (to_vec_pretty : Value → string) (p : string).

Definition writer_start (s : StatusSnapshot) (fs : FileTree) : Writer :=
  mkWriter s false AboutToWrite fs NothingWritten.
Definition try_write (o : WriteOutcome) (s : StatusSnapshot) (fs : FileTree) : FileTree :=
  match o with
  | NothingWritten => fs
  | NotRenamed => <[canon (with_extension p "tmp") := to_vec_pretty (ser_snapshot s)]> fs
  | Written => write_status_file canon to_vec_pretty p s fs
  end.
(** [None]: the event cannot happen in this state. *)
Definition writer_step (ev : WriterEvent) (r : Writer) : option Writer :=
  match ev, phase r with
  | Published s, _ => Some (r <| latest := s |> <| has_changed := true |>)
  | Wakes, WaitsForChange =>
      if has_changed r then Some (r <| has_changed := false |> <| phase := AboutToWrite |>) else None
  | Writes o, AboutToWrite =>
      Some (r <| phase := WaitsForChange |> <| tree ::= try_write o (latest r) |>
              <| last_outcome := o |>)
  | _, _ => None
  end.
Fixpoint spawn_status_writer (evs : list WriterEvent) (r : Writer) : option Writer :=
  match evs with
  | [] => Some r
  | ev :: evs => r ← writer_step ev r; spawn_status_writer evs r
  end.
End writer.

(** ** The accept loop of the control socket: [run_server] *)
Inductive AcceptEvent :=
| Connects (id : N)
| AcceptFails
| Ends (id : N).                   (* a connection's task is over *)
Record ControlServer := mkControlServer {
  free_permits : N;
  serving : list N;                (* connections whose task holds a permit *)
  rejected : list N;
}.
#[export] Instance ControlServer_eta : Eta ControlServer := fun r =>
  mkControlServer (free_permits r) (serving r) (rejected r).
Definition control_start : ControlServer := mkControlServer MAX_CONCURRENT [] [].
Definition accept_step (s : ControlServer) (ev : AcceptEvent) : ControlServer :=
  match ev with
  | AcceptFails => s
  | Connects id =>
      if (0 <? free_permits s)%N then
        s <| free_permits ::= N.pred |> <| serving ::= λ l, l ++ [id] |>
      else s <| rejected ::= λ l, l ++ [id] |>
  | Ends id =>
      if any (N.eqb id) (serving s) then
        s <| free_permits ::= N.succ |> <| serving ::= retain (λ i, negb (N.eqb id i)) |>
      else s
  end.
Definition run_server (evs : list AcceptEvent) : ControlServer := foldl accept_step control_start evs.
(** [send_response]: the response on a line of its own. *)
Definition send_response (to_string : MuxControlResponse → string) (r : MuxControlResponse) : string :=
  to_string r +:+ String newline "".

(** ** [rust-mux-proxy]: two copies that are joined *)
Inductive Side := ToMux | FromMux.
(** A copy reads bytes, the end or an error, with the outcome of what it then writes (or of
    the shutdown, or of the flush). *)
Inductive Copied := Bytes (data : string) | End | Fails (e : string).
Record Copy := mkCopy { copied : string; finished : bool }.
#[export] Instance Copy_eta : Eta Copy := fun r => mkCopy (copied r) (finished r).
Record ByteProxy := mkByteProxy { to_mux : Copy; from_mux : Copy }.
#[export] Instance ByteProxy_eta : Eta ByteProxy := fun r => mkByteProxy (to_mux r) (from_mux r).
Definition byte_proxy_start : ByteProxy := mkByteProxy (mkCopy "" false) (mkCopy "" false).

Definition copy_step (c : Copied) (write : result string unit) (s : Copy) :
    option (result string Copy) :=
  if finished s then None else Some
  match c, write with
  | Fails e, _ => Err e
  | _, Err e => Err e
  | Bytes data, Ok _ => Ok (s <| copied ::= λ x, x +:+ data |>)
  | End, Ok _ => Ok (s <| finished := true |>)
  end.
(** One event; [Some r] beside the state: [try_join!] has completed with [r]. *)
Definition byte_step (side : Side) (c : Copied) (write : result string unit) (s : ByteProxy) :
    option (ByteProxy * option (result string unit)) :=
  r ← copy_step c write (match side with ToMux => to_mux s | FromMux => from_mux s end);
  Some match r with
  | Err e => (s, Some (Err e))
  | Ok x =>
      let s := match side with ToMux => s <| to_mux := x |> | FromMux => s <| from_mux := x |> end in
      (s, if finished (to_mux s) && finished (from_mux s) then Some (Ok tt) else None)
  end.
Fixpoint byte_proxy (evs : list (Side * Copied * result string unit)) (s : ByteProxy) :
    option (ByteProxy * option (result string unit)) :=
  match evs with
  | [] => Some (s, None)
  | (side, c, write) :: evs =>
      match byte_step side c write s with
      | Some (s, None) => byte_proxy evs s
      | Some (s, Some r) => match evs with [] => Some (s, Some r) | _ => None end
      | None => None
      end
  end.

(** ** Properties *)

(** *** The report comes back *)
Record server_sized (s : MultiServerStatus) : Prop := {
  sized_counts : Forall (λ n, (n < U64_MODULUS)%N)
    [mss_connected_clients s; mss_active_clients s; mss_max_active_clients s;
     mss_pending_requests s; mss_restarts s; mss_uptime_ms s];
  sized_latency : ∀ n, mss_heartbeat_latency_ms s = Some n → (n < U64_MODULUS)%N;
}.
Record report_sized (d : DaemonStatus) : Prop := {
  sized_report : Forall (λ n, (n < U64_MODULUS)%N)
    [ds_uptime_ms d; ds_server_count d; ds_running_count d; ds_error_count d];
  sized_servers : Forall server_sized (ds_servers d);
}.

Lemma de_ser_level l : de_level (ser_level l) = Some l.
Proof. by destruct l. Qed.

Lemma de_ser_server s : server_sized s → de_server (ser_server s) = Some s.
Proof.
  intros [Hu Hl]. rewrite !Forall_cons in Hu. destruct Hu as (? & ? & ? & ? & ? & ? & _).
  destruct s as [nm lv tx cc ac ma pe rs up ib la]. cbn in *.
  cbn [de_server de_struct ser_server]. unfold de_server_object, need, de_usize. eval_gets.
  cbn [option_bind mbind de_string as_str de_bool]. rewrite de_ser_level. cbn [option_bind mbind].
  rewrite !de_uint_json by done. cbn [mbind option_bind].
  rewrite (de_option_json json_N) by (intros x Hx; split; [done|by apply de_uint_json, Hl]).
  reflexivity.
Qed.

Lemma de_ser_report d : report_sized d → de_report (ser_report d) = Some d.
Proof.
  intros [Hu Hs]. rewrite !Forall_cons in Hu. destruct Hu as (? & ? & ? & ? & _).
  destruct d as [ve um up sc rc ec ss]. cbn in *.
  assert (de_array de_server (JArray (ser_server <$> ss)) = Some ss) as Hss.
  { cbn [de_array]. clear -Hs. induction Hs as [|s ss Hs _ IH]; [done|].
    rewrite fmap_cons. cbn [mapM]. rewrite de_ser_server by done. cbn [mbind option_bind].
    by rewrite IH. }
  cbn [de_report de_struct ser_report ds_servers]. revert Hss. generalize (ser_server <$> ss).
  intros l Hss. unfold de_report_object, need, de_usize. eval_gets.
  cbn [option_bind mbind de_string as_str]. rewrite !de_uint_json by done. cbn [mbind option_bind].
  rewrite Hss. reflexivity.
Qed.

Lemma read_line_app s rest :
  newline ∉ String.list_ascii_of_string s → read_line (s +:+ String newline rest) = s +:+ String newline "".
Proof.
  induction s as [|c s IH]; cbn [String.list_ascii_of_string String.append read_line].
  - intros _. by rewrite Ascii.eqb_refl.
  - rewrite not_elem_of_cons. intros [Hc Hs].
    rewrite (proj2 (Ascii.eqb_neq _ _)) by congruence. by rewrite IH.
Qed.

(** Asking the status endpoint gives back exactly the report that was collected, every
    server with every field: nothing is lost or mistaken on the way, if the text of JSON has
    no line break in it and parses back, as that of [serde_json] does. *)
Theorem status_query_gets_the_report `{Platform} to_string from_str version now s :
  let report := collect_status version now s in
  report_sized report →
  newline ∉ String.list_ascii_of_string (to_string (ser_report report)) →
  from_str (to_string (ser_report report) +:+ String newline "") = Some (ser_report report) →
  query_status from_str (handle_status_connection to_string version now s) = Ok report.
Proof.
  intros report Hs Hn Hp. unfold query_status, handle_status_connection.
  rewrite read_line_app by done. fold report. rewrite Hp. cbn [mbind option_bind].
  by rewrite de_ser_report.
Qed.

(** *** The status file *)
Section writer_facts.
Context (canon : string → string) (to_vec_pretty : Value → string) (p : string).

(** A writer that waits, has seen every value and succeeded last has written the last value. *)
Definition caught_up (r : Writer) : Prop :=
  phase r = WaitsForChange → has_changed r = false → last_outcome r = Written →
  tree r !! canon p = Some (to_vec_pretty (ser_snapshot (latest r))).

Lemma write_status_file_holds s fs :
  write_status_file canon to_vec_pretty p s fs !! canon p = Some (to_vec_pretty (ser_snapshot s)).
Proof using.
  unfold write_status_file. cbv zeta.
  match goal with |- context [(?m : FileTree) !! ?k] =>
    assert (m !! k = Some (to_vec_pretty (ser_snapshot s))) as -> by apply lookup_insert_eq end.
  apply lookup_insert_eq.
Qed.

Lemma writer_step_caught_up ev r r' :
  writer_step canon to_vec_pretty p ev r = Some r' → caught_up r → caught_up r'.
Proof using.
  intros Hs Hr. destruct ev as [s| |o]; cbn in Hs.
  - by injection Hs as <-.
  - destruct (phase r); [|done]. destruct (has_changed r); [|done]. by injection Hs as <-.
  - destruct (phase r); [done|]. injection Hs as <-. intros _ _ Ho. cbn in *. subst o.
    apply write_status_file_holds.
Qed.

(** The last value that was published. *)
Definition last_published (s : StatusSnapshot) (evs : list WriterEvent) : StatusSnapshot :=
  foldl (λ s ev, match ev with Published s' => s' | _ => s end) s evs.

Lemma writer_latest evs r r' :
  spawn_status_writer canon to_vec_pretty p evs r = Some r' →
  latest r' = last_published (latest r) evs.
Proof using.
  revert r. induction evs as [|ev evs IH]; intros r; cbn [spawn_status_writer]; [by intros [= <-]|].
  intros (r1 & Hs & Hr)%bind_Some. rewrite (IH r1 Hr). cbn [last_published foldl].
  f_equal. destruct ev; cbn in Hs; repeat case_match; simplify_eq; done.
Qed.

(** The status file catches up with the mux: whatever the order of status changes and
    writes, when the writer waits with no unseen change and its last write went well, the
    file holds the last status that was published, not an older one, and never a part of
    one. *)
Theorem status_file_catches_up evs s0 fs r :
  spawn_status_writer canon to_vec_pretty p evs (writer_start s0 fs) = Some r →
  phase r = WaitsForChange → has_changed r = false → last_outcome r = Written →
  tree r !! canon p = Some (to_vec_pretty (ser_snapshot (last_published s0 evs))).
Proof using.
  intros Hr Hp Hc Ho.
  assert (∀ evs r0, caught_up r0 → spawn_status_writer canon to_vec_pretty p evs r0 = Some r →
    caught_up r) as Hkeep.
  { clear Hr. intros evs'. induction evs' as [|ev evs' IH]; intros r0 H0; cbn; [by intros [= <-]|].
    intros (r1 & Hs & Hr)%bind_Some. eapply IH; [|done]. by eapply writer_step_caught_up. }
  replace (last_published s0 evs) with (latest r) by exact (writer_latest _ _ _ Hr).
  by eapply (Hkeep evs (writer_start s0 fs)).
Qed.
End writer_facts.

(** *** The control socket *)
Definition control_ok (s : ControlServer) : Prop :=
  (free_permits s + N.of_nat (length (serving s)) = MAX_CONCURRENT)%N ∧ NoDup (serving s).

Lemma retain_other_length (id : N) l :
  NoDup l → any (N.eqb id) l = true →
  S (length (retain (λ i, negb (N.eqb id i)) l)) = length l.
Proof.
  induction l as [|x l IH]; intros Hnd Ha; [done|].
  apply NoDup_cons in Hnd as [Hx Hnd]. unfold retain in *. cbn [List.filter any existsb] in *.
  destruct (N.eqb_spec id x) as [->|Hne]; cbn [negb orb] in *.
  - fold (retain (λ i, negb (N.eqb x i)) l). rewrite retain_all; [done|].
    intros y Hy. apply negb_true_iff, N.eqb_neq. by intros ->.
  - simpl. f_equal. by apply IH.
Qed.

Lemma accept_step_ok s ev :
  control_ok s → (∀ id, ev = Connects id → id ∉ serving s) → control_ok (accept_step s ev).
Proof.
  intros [Hs Hnd] Hid. destruct ev as [id| |id]; cbn [accept_step]; [|done|].
  - destruct (N.ltb_spec 0 (free_permits s)); [|done]. split; cbn.
    + rewrite length_app. simpl. lia.
    + apply NoDup_app. split_and!; [done| |apply NoDup_singleton].
      intros x Hx ->%list_elem_of_singleton. by eapply Hid.
  - destruct (any (N.eqb id) (serving s)) eqn:Ha; [|done]. split; cbn.
    + pose proof (retain_other_length id (serving s) Hnd Ha) as Hl. unfold retain in Hl. lia.
    + unfold retain. by apply NoDup_ListNoDup, List.NoDup_filter, NoDup_ListNoDup.
Qed.

(** Every connection has an identity of its own. *)
Definition connections (evs : list AcceptEvent) : list N :=
  omap (λ ev, match ev with Connects id => Some id | _ => None end) evs.

Lemma run_server_ok evs :
  NoDup (connections evs) →
  control_ok (run_server evs) ∧ (∀ id, id ∈ serving (run_server evs) → id ∈ connections evs).
Proof.
  unfold run_server. induction evs as [|ev evs IH] using rev_ind; intros Hnd.
  { split; [split; [done|constructor]|done]. }
  unfold connections in *. rewrite omap_app, NoDup_app in Hnd. destruct Hnd as (Hnd & Hx & _).
  destruct (IH Hnd) as [Hok Hin]. rewrite foldl_app. cbn [foldl]. split.
  - apply accept_step_ok; [done|]. intros id -> Hid. apply (Hx id); [by apply Hin|]. simpl.
    by apply list_elem_of_singleton.
  - intros id. rewrite omap_app, elem_of_app. destruct ev as [c| |c]; cbn [accept_step]; [|auto|].
    + destruct (0 <? _)%N; [|auto]. cbn. rewrite elem_of_app. intros [?| ->%list_elem_of_singleton]; [auto|].
      right. by apply list_elem_of_singleton.
    + destruct (any _ _); [|auto]. cbn. rewrite elem_of_retain. intros [? _]. auto.
Qed.

(** However connections come, end and fail to be accepted, the control socket serves at
    most [MAX_CONCURRENT] of them at a time, and it turns one away only when it serves
    exactly that many. *)
Theorem control_socket_is_bounded evs id :
  NoDup (connections (evs ++ [Connects id])) →
  let s := run_server evs in
  (N.of_nat (length (serving s)) ≤ MAX_CONCURRENT)%N ∧
  (N.of_nat (length (serving s)) = MAX_CONCURRENT →
    run_server (evs ++ [Connects id]) = s <| rejected ::= λ l, l ++ [id] |>) ∧
  ((N.of_nat (length (serving s)) < MAX_CONCURRENT)%N →
    serving (run_server (evs ++ [Connects id])) = serving s ++ [id] ∧
    rejected (run_server (evs ++ [Connects id])) = rejected s).
Proof.
  unfold connections. rewrite omap_app, NoDup_app. intros (Hnd & _ & _).
  destruct (run_server_ok evs Hnd) as [[Hs _] _]. cbv zeta. unfold run_server in *.
  rewrite foldl_app. cbn [foldl accept_step]. split_and!; [lia|..].
  - intros E. by rewrite (proj2 (N.ltb_ge _ _)) by lia.
  - intros E. rewrite (proj2 (N.ltb_lt _ _)) by lia. done.
Qed.

(** *** The byte proxy *)
Definition side_eqb (a b : Side) : bool :=
  match a, b with ToMux, ToMux | FromMux, FromMux => true | _, _ => false end.
(** What is read from one side, and written on. *)
Definition passed (side : Side) (ev : Side * Copied * result string unit) : string :=
  match ev with
  | (sd, Bytes data, Ok _) => if side_eqb side sd then data else ""
  | _ => ""
  end.
Definition bytes_of (side : Side) (evs : list (Side * Copied * result string unit)) : string :=
  foldr (λ ev rest, passed side ev +:+ rest) "" evs.
Definition side_of (side : Side) (s : ByteProxy) : Copy :=
  match side with ToMux => to_mux s | FromMux => from_mux s end.
Definition ends_side (side : Side) (ev : Side * Copied * result string unit) : bool :=
  match ev with (sd, End, Ok _) => side_eqb side sd | _ => false end.
Definition ended (side : Side) (evs : list (Side * Copied * result string unit)) : bool :=
  any (ends_side side) evs.

Lemma byte_step_spec side sd c write s s' r :
  byte_step sd c write s = Some (s', r) →
  copied (side_of side s') = copied (side_of side s) +:+ passed side (sd, c, write) ∧
  finished (side_of side s') = finished (side_of side s) || ends_side side (sd, c, write) ∧
  match r with
  | Some (Err e) => s' = s ∧ (c = Fails e ∨ write = Err e)
  | Some (Ok _) => finished (to_mux s') && finished (from_mux s') = true
  | None => finished (to_mux s') && finished (from_mux s') = false
  end.
Proof.
  unfold byte_step, copy_step. intros E.
  destruct s as [[c1 f1] [c2 f2]], sd, side, c as [data| |e], write as [[]|e'];
    cbn in E; destruct f1, f2; cbn in E; simplify_eq; cbn; rewrite ?str_app_nil_r; auto.
Qed.

Lemma byte_proxy_spec side evs s s' r :
  byte_proxy evs s = Some (s', r) → finished (to_mux s) && finished (from_mux s) = false →
  copied (side_of side s') = copied (side_of side s) +:+ bytes_of side evs ∧
  finished (side_of side s') = finished (side_of side s) || ended side evs ∧
  match r with
  | Some (Err e) => finished (to_mux s') && finished (from_mux s') = false ∧
      ∃ sd c write, (sd, c, write) ∈ evs ∧ (c = Fails e ∨ write = Err e)
  | Some (Ok _) => finished (to_mux s') && finished (from_mux s') = true
  | None => finished (to_mux s') && finished (from_mux s') = false
  end.
Proof.
  revert s. induction evs as [|[[sd c] write] evs IH]; intros s; cbn [byte_proxy].
  { intros [= <- <-] Hf. cbn. by rewrite orb_false_r, str_app_nil_r. }
  destruct (byte_step sd c write s) as [[s1 r1]|] eqn:E; [|done]. intros Hr Hf.
  destruct (byte_step_spec side _ _ _ _ _ _ E) as (Hc & He & Hr1).
  cbn [bytes_of foldr ended any existsb]. destruct r1 as [r1|].
  - destruct evs; [|done]. injection Hr as <- <-. cbn [foldr existsb].
    rewrite str_app_nil_r, orb_false_r. split_and!; [done..|].
    destruct r1 as [|e]; [done|]. destruct Hr1 as [-> Hr1]. split; [done|].
    exists sd, c, write. split; [by left|done].
  - destruct (IH s1 Hr Hr1) as (Hc' & He' & Hr'). rewrite Hc', He', Hc, He.
    rewrite str_app_assoc, orb_assoc. split_and!; [done..|].
    destruct r as [[|e]|]; [done| |done]. destruct Hr' as (? & sd' & c' & w' & ? & ?).
    split; [done|]. exists sd', c', w'. split; [by right|done].
Qed.

(** The byte proxy changes nothing: what has been written on each side is what was read
    on the other, in order, up to now.  It ends well exactly when both sides have ended; so
    the end of one side alone does not end it, and when the mux closes the connection the
    proxy goes on waiting for its own input. *)
Theorem byte_proxy_conserves evs s r :
  byte_proxy evs byte_proxy_start = Some (s, r) →
  copied (to_mux s) = bytes_of ToMux evs ∧ copied (from_mux s) = bytes_of FromMux evs ∧
  (r = Some (Ok tt) ↔ ended ToMux evs = true ∧ ended FromMux evs = true) ∧
  (∀ e, r = Some (Err e) → ∃ sd c write, (sd, c, write) ∈ evs ∧ (c = Fails e ∨ write = Err e)).
Proof.
  intros Hr.
  destruct (byte_proxy_spec ToMux _ _ _ _ Hr eq_refl) as (Hc1 & He1 & Hres).
  destruct (byte_proxy_spec FromMux _ _ _ _ Hr eq_refl) as (Hc2 & He2 & _).
  cbn in Hc1, Hc2, He1, He2. split_and!; [done|done| |].
  - rewrite <- He1, <- He2. destruct r as [[[]|e]|].
    + split; [intros _|done]. by apply andb_true_iff.
    + split; [done|]. intros [E1 E2]. destruct Hres as [Hres _]. by rewrite E1, E2 in Hres.
    + split; [done|]. intros [E1 E2]. by rewrite E1, E2 in Hres.
  - intros e ->. apply Hres.
Qed.
