(* ===== verification/Wire.v ===== *)
(** * Wire: the control protocol as JSON ([ipc/command.rs], [ipc/event.rs], [state.rs])

    The commands and responses of the control socket are written and read by the
    [Serialize] and [Deserialize] that serde derives from their types and attributes.
    Here are these formats on JSON values, and that every command and every response of
    machine size reads back; what is left to assume of [serde_json] is only that the text
    of a value has no line break and parses to the value. *)
From S2P Require Import Prelude Text Json Shared MuxState Paths Scan Ipc Summaries Endpoints.
From Stdlib Require Import Ascii.

(** ** The derived formats

    [#[serde(tag = .., content = ..)]]: an object with the variant's name and, if the
    variant has data, its content. *)
Definition ser_tagged (tag content nm : string) (data : option Value) : Value :=
  JObject (obj_of_list ((tag, JString nm) ::
    match data with Some v => [(content, v)] | None => [] end)).

(** Read from an object, of which unknown keys are ignored, or from the pair of tag and
    content. *)
Definition de_tagged (tag content : string) (v : Value) : option (string * option Value) :=
  match v with
  | JObject m => nm ← obj_get tag m ≫= as_str; Some (nm, obj_get content m)
  | JArray [t; c] => nm ← as_str t; Some (nm, Some c)
  | _ => None
  end.

(** What a variant wants of the content: nothing ([null] will do), a value, or an object of
    its fields. *)
Definition unit_content {A} (a : A) (c : option Value) : option A :=
  match c with None | Some JNull => Some a | Some _ => None end.
Definition newtype_content {A B} (de : Value → option B) (mk : B → A) (c : option Value) : option A :=
  mk <$> (c ≫= de).
Definition struct_content {A} (de : list (string * Value) → option A) (c : option Value) : option A :=
  v ← c; m ← as_object v; de m.

(** Lowercase names of an externally tagged enumeration: a name, or an object of one entry. *)
Definition ser_client_kind (k : ClientKind.ClientKind) : Value :=
  match k with
  | ClientKind.Claude => JString "claude"
  | ClientKind.Codex => JString "codex"
  | ClientKind.Gemini => JString "gemini"
  | ClientKind.Junie => JString "junie"
  | ClientKind.Generic nm => JObject [("generic", JObject [("name", JString nm)])]
  end.
Definition unit_kind (nm : string) : option ClientKind.ClientKind :=
  if str_eqb nm "claude" then Some ClientKind.Claude
  else if str_eqb nm "codex" then Some ClientKind.Codex
  else if str_eqb nm "gemini" then Some ClientKind.Gemini
  else if str_eqb nm "junie" then Some ClientKind.Junie
  else None.
Definition de_client_kind (v : Value) : option ClientKind.ClientKind :=
  match v with
  | JString nm => unit_kind nm
  | JObject [(nm, JNull)] => unit_kind nm
  | JObject [(nm, data)] =>
      if str_eqb nm "generic"
      then de_struct ["name"] (λ m, ClientKind.Generic <$> need m "name" de_string) data else None
  | _ => None
  end.

Definition ser_command (c : MuxControlCommand) : Value :=
  let cmd := ser_tagged "cmd" "args" in
  match c with
  | Subscribe => cmd "Subscribe" None
  | Unsubscribe => cmd "Unsubscribe" None
  | GetStatus => cmd "GetStatus" None
  | Verify k => cmd "Verify" (Some (JObject [("client_kind", ser_client_kind k)]))
  | RouteSnapshot => cmd "RouteSnapshot" None
  | RestartService nm => cmd "RestartService" (Some (JObject [("name", JString nm)]))
  | ReloadConfig => cmd "ReloadConfig" None
  | Shutdown graceful => cmd "Shutdown" (Some (JObject [("graceful", JBool graceful)]))
  end.
Definition de_command (v : Value) : option MuxControlCommand :=
  t ← de_tagged "cmd" "args" v;
  let '(nm, args) := t in
  if str_eqb nm "Subscribe" then unit_content Subscribe args
  else if str_eqb nm "Unsubscribe" then unit_content Unsubscribe args
  else if str_eqb nm "GetStatus" then unit_content GetStatus args
  else if str_eqb nm "Verify" then
    struct_content (λ m, Verify <$> need m "client_kind" de_client_kind) args
  else if str_eqb nm "RouteSnapshot" then unit_content RouteSnapshot args
  else if str_eqb nm "RestartService" then
    struct_content (λ m, RestartService <$> need m "name" de_string) args
  else if str_eqb nm "ReloadConfig" then unit_content ReloadConfig args
  else if str_eqb nm "Shutdown" then
    struct_content (λ m, Shutdown <$> need m "graceful" de_bool) args
  else None.

(** ** Events *)
Definition ser_event (e : IpcEvent) : Value :=
  let event nm fields := ser_tagged "type" "payload" nm (Some (JObject (obj_of_list fields))) in
  match e with
  | StateChange service from to =>
      event "StateChange" [("service", JString service); ("from", JString from); ("to", JString to)]
  | RouteUpdate client server count p99 =>
      event "RouteUpdate" [("client", JString client); ("server", JString server);
                           ("count", json_N count); ("p99_ms", json_N p99)]
  | ServerHealth nm rss restarts err =>
      event "ServerHealth" [("name", JString nm); ("rss_mb", json_N rss);
                            ("restarts", json_N restarts); ("last_error", json_option JString err)]
  | ClientDrift client paths =>
      event "ClientDrift" [("client", JString client);
                           ("non_mux_paths", JArray (JString <$> paths))]
  end.
Definition de_event (v : Value) : option IpcEvent :=
  t ← de_tagged "type" "payload" v;
  let '(nm, payload) := t in
  if str_eqb nm "StateChange" then
    struct_content (λ m, service ← need m "service" de_string; from ← need m "from" de_string;
      to ← need m "to" de_string; Some (StateChange service from to)) payload
  else if str_eqb nm "RouteUpdate" then
    struct_content (λ m, client ← need m "client" de_string; server ← need m "server" de_string;
      count ← need m "count" de_usize; p99 ← need m "p99_ms" de_usize;
      Some (RouteUpdate client server count p99)) payload
  else if str_eqb nm "ServerHealth" then
    struct_content (λ m, nm ← need m "name" de_string; rss ← need m "rss_mb" de_usize;
      restarts ← need m "restarts" de_usize; err ← de_option de_string (obj_get "last_error" m);
      Some (ServerHealth nm rss restarts err)) payload
  else if str_eqb nm "ClientDrift" then
    struct_content (λ m, client ← need m "client" de_string;
      paths ← need m "non_mux_paths" de_strings; Some (ClientDrift client paths)) payload
  else None.

(** ** Snapshots, read by their own type *)
Definition server_status_of_name (nm : string) : option ServerStatus.ServerStatus :=
  if str_eqb nm "Starting" then Some ServerStatus.Starting
  else if str_eqb nm "Running" then Some ServerStatus.Running
  else if str_eqb nm "Restarting" then Some ServerStatus.Restarting
  else if str_eqb nm "Stopped" then Some ServerStatus.Stopped
  else if str_eqb nm "Lazy" then Some ServerStatus.Lazy
  else if str_eqb nm "Backoff" then Some ServerStatus.Backoff
  else None.
Definition de_server_status (v : Value) : option ServerStatus.ServerStatus :=
  match v with
  | JString nm => server_status_of_name nm
  | JObject [(nm, JNull)] => server_status_of_name nm
  | JObject [(nm, JString reason)] =>
      if str_eqb nm "Failed" then Some (ServerStatus.Failed reason) else None
  | _ => None
  end.
Definition de_heartbeat : Value → option HeartbeatMetrics :=
  de_struct ["enabled"; "latency_ms"; "last_heartbeat_ms"; "avg_response_ms"; "total_success";
             "total_failures"; "consecutive_failures"]
    (λ m, enabled ← need m "enabled" de_bool;
       latency ← de_option de_usize (obj_get "latency_ms" m);
       last ← de_option de_usize (obj_get "last_heartbeat_ms" m);
       avg ← de_option de_usize (obj_get "avg_response_ms" m);
       success ← need m "total_success" de_usize;
       failures ← need m "total_failures" de_usize;
       consecutive ← need m "consecutive_failures" (de_uint U32_MODULUS);
       Some (mkHeartbeatMetrics enabled latency last avg success failures consecutive)).
Definition de_status_snapshot : Value → option StatusSnapshot :=
  de_struct ["service_name"; "name"; "server_status"; "status_text"; "level"; "restarts";
             "connected_clients"; "active_clients"; "max_active_clients"; "pending_requests";
             "cached_initialize"; "initializing"; "last_reset"; "queue_depth"; "child_pid";
             "max_request_bytes"; "health_status"; "heartbeat_latency_ms"; "heartbeat"; "uptime_ms";
             "in_backoff"; "restart_backoff_ms"; "restart_backoff_max_ms"; "max_restarts"]
    (λ m, service ← need m "service_name" de_string;
       nm ← need m "name" de_string;
       status ← need m "server_status" de_server_status;
       text ← need m "status_text" de_string;
       level ← need m "level" de_level;
       restarts ← need m "restarts" de_usize;
       connected ← need m "connected_clients" de_usize;
       active ← need m "active_clients" de_usize;
       max_active ← need m "max_active_clients" de_usize;
       pending ← need m "pending_requests" de_usize;
       cached ← need m "cached_initialize" de_bool;
       initializing ← need m "initializing" de_bool;
       last_reset ← de_option de_string (obj_get "last_reset" m);
       queue ← need m "queue_depth" de_usize;
       pid ← de_option (de_uint U32_MODULUS) (obj_get "child_pid" m);
       max_bytes ← need m "max_request_bytes" de_usize;
       health ← need m "health_status" de_server_status;
       latency ← de_option de_usize (obj_get "heartbeat_latency_ms" m);
       heartbeat ← need m "heartbeat" de_heartbeat;
       uptime ← need m "uptime_ms" de_usize;
       in_backoff ← need m "in_backoff" de_bool;
       backoff ← need m "restart_backoff_ms" de_usize;
       backoff_max ← need m "restart_backoff_max_ms" de_usize;
       max_restarts ← need m "max_restarts" de_usize;
       Some (mkStatusSnapshot service nm status text level restarts connected active max_active
               pending cached initializing last_reset queue pid max_bytes health latency heartbeat
               uptime in_backoff backoff backoff_max max_restarts)).

(** ** Responses *)
Definition ser_non_mux (e : NonMuxEntry) : Value :=
  JObject (obj_of_list [("client", JString (nm_client e)); ("path", JString (nm_path e));
    ("line", json_N (nm_line e)); ("server_name", JString (nm_server_name e))]).
Definition de_non_mux : Value → option NonMuxEntry :=
  de_struct ["client"; "path"; "line"; "server_name"]
    (λ m, client ← need m "client" de_string; p ← need m "path" de_string;
       line ← need m "line" de_usize; server ← need m "server_name" de_string;
       Some (mkNonMuxEntry client p line server)).
Definition ser_verify (v : VerifyResult) : Value :=
  JObject (obj_of_list [("ok", JBool (vr_ok v));
    ("non_mux_servers", JArray (ser_non_mux <$> vr_non_mux_servers v))]).
Definition de_verify : Value → option VerifyResult :=
  de_struct ["ok"; "non_mux_servers"]
    (λ m, ok ← need m "ok" de_bool; l ← need m "non_mux_servers" (de_array de_non_mux);
       Some (mkVerifyResult ok l)).
Definition ser_route (r : Route) : Value :=
  JObject (obj_of_list [("client", JString (rt_client r)); ("server", JString (rt_server r));
    ("status", JString (rt_status r))]).
Definition de_route : Value → option Route :=
  de_struct ["client"; "server"; "status"]
    (λ m, client ← need m "client" de_string; server ← need m "server" de_string;
       status ← need m "status" de_string; Some (mkRoute client server status)).

Definition ser_response (r : MuxControlResponse) : Value :=
  let status := ser_tagged "status" "payload" in
  match r with
  | ROk => status "Ok" None
  | RStatus s => status "Status" (Some (ser_snapshot s))
  | RVerify v => status "VerifyResult" (Some (ser_verify v))
  | RRoutes l => status "Routes" (Some (JArray (ser_route <$> l)))
  | REvent e => status "Event" (Some (ser_event e))
  | RError e => status "Error" (Some (JString e))
  | RUnimplemented => status "Unimplemented" None
  end.
Definition de_response (v : Value) : option MuxControlResponse :=
  t ← de_tagged "status" "payload" v;
  let '(nm, payload) := t in
  if str_eqb nm "Ok" then unit_content ROk payload
  else if str_eqb nm "Status" then newtype_content de_status_snapshot RStatus payload
  else if str_eqb nm "VerifyResult" then newtype_content de_verify RVerify payload
  else if str_eqb nm "Routes" then newtype_content (de_array de_route) RRoutes payload
  else if str_eqb nm "Event" then newtype_content de_event REvent payload
  else if str_eqb nm "Error" then newtype_content de_string RError payload
  else if str_eqb nm "Unimplemented" then unit_content RUnimplemented payload
  else None.

(** ** Reading back what was written *)
Lemma de_ser_client_kind k : de_client_kind (ser_client_kind k) = Some k.
Proof. by destruct k. Qed.

Theorem commands_round_trip c : de_command (ser_command c) = Some c.
Proof.
  destruct c as [| | |k| |nm| |b]; try done.
  change (de_command (ser_command (Verify k))) with (Verify <$> (Some (ser_client_kind k) ≫= de_client_kind)).
  simpl. by rewrite de_ser_client_kind.
Qed.

(** The numbers of a response are in the range of their Rust types. *)
Definition u64_sized (n : N) : Prop := (n < U64_MODULUS)%N.
Definition opt_sized (o : option N) : Prop := ∀ n, o = Some n → u64_sized n.
Record heartbeat_sized (m : HeartbeatMetrics) : Prop := {
  sized_times : opt_sized (latency_ms m) ∧ opt_sized (last_heartbeat_ms m) ∧
    opt_sized (avg_response_ms m);
  sized_totals : u64_sized (total_success m) ∧ u64_sized (total_failures m) ∧
    (consecutive_failures m < U32_MODULUS)%N;
}.
Record snapshot_sized (s : StatusSnapshot) : Prop := {
  sized_mirror : machine_sized s;
  sized_rest : u64_sized (snap_uptime_ms s) ∧ opt_sized (snap_heartbeat_latency_ms s);
  sized_heartbeat : heartbeat_sized (snap_heartbeat s);
}.
Definition event_sized (e : IpcEvent) : Prop :=
  match e with
  | RouteUpdate _ _ count p99 => u64_sized count ∧ u64_sized p99
  | ServerHealth _ rss restarts _ => u64_sized rss ∧ u64_sized restarts
  | _ => True
  end.
Definition response_sized (r : MuxControlResponse) : Prop :=
  match r with
  | RStatus s => snapshot_sized s
  | RVerify v => Forall (λ e, u64_sized (nm_line e)) (vr_non_mux_servers v)
  | REvent e => event_sized e
  | _ => True
  end.

Lemma de_option_N de (o : option N) :
  (∀ n, o = Some n → de (json_N n) = Some n) →
  de_option de (Some (json_option json_N o)) = Some o.
Proof. intros Ho. apply de_option_json. intros n Hn. split; [done|auto]. Qed.

Lemma de_usize_json n : u64_sized n → de_usize (json_N n) = Some n.
Proof. apply de_uint_json. Qed.

Lemma de_option_u64 o : opt_sized o → de_option de_usize (Some (json_option json_N o)) = Some o.
Proof. intros Ho. apply de_option_N. intros n Hn. by apply de_usize_json, Ho. Qed.

Lemma de_option_str o : de_option de_string (Some (json_option JString o)) = Some o.
Proof. apply de_option_json. intros x _. by split. Qed.

(** A list written element by element. *)
Lemma de_array_map {A} (ser : A → Value) (de : Value → option A) l :
  Forall (λ a, de (ser a) = Some a) l → de_array de (JArray (ser <$> l)) = Some l.
Proof.
  intros Hl. cbn [de_array]. induction Hl as [|a l Ha _ IH]; [done|].
  rewrite fmap_cons. cbn [mapM]. rewrite Ha. cbn [mbind option_bind]. by rewrite IH.
Qed.

Lemma de_strings_map l : de_strings (JArray (JString <$> l)) = Some l.
Proof.
  cbn [de_strings]. induction l as [|s l IH]; [done|]. rewrite fmap_cons. cbn [mapM as_str mbind option_bind].
  by rewrite IH.
Qed.

(** Evaluates the lookups of known keys in a known object, leaving its values alone. *)
Ltac read_fields :=
  cbn [de_struct]; unfold need;
  repeat match goal with
  | |- context [obj_get ?k (obj_of_list ?m)] =>
      let v := eval lazy beta iota zeta delta -[json_N json_option ser_status ser_level ser_heartbeat
        ser_event ser_snapshot ser_verify ser_route ser_non_mux fmap list_fmap] in (obj_get k (obj_of_list m)) in
      change (obj_get k (obj_of_list m)) with v
  end; cbn [mbind option_bind de_string as_str de_bool].

Lemma de_ser_server_status s : de_server_status (ser_status s) = Some s.
Proof. by destruct s. Qed.

Lemma de_ser_heartbeat m : heartbeat_sized m → de_heartbeat (ser_heartbeat m) = Some m.
Proof.
  intros [(H1 & H2 & H3) (H4 & H5 & H6)]. destruct m as [en la lh av ts tf cf]. cbn in H1, H2, H3, H4, H5, H6.
  unfold de_heartbeat, ser_heartbeat. read_fields.
  rewrite !de_option_u64 by done. cbn [mbind option_bind].
  rewrite !de_usize_json by done. cbn [mbind option_bind]. by rewrite de_uint_json.
Qed.

Lemma de_ser_status_snapshot s : snapshot_sized s → de_status_snapshot (ser_snapshot s) = Some s.
Proof.
  intros [[Hu Hp] [Hup Hla] Hh]. rewrite !Forall_cons in Hu.
  destruct Hu as (? & ? & ? & ? & ? & ? & ? & ? & ? & ? & _).
  destruct s as [nm al st tx lv re cc ac ma pe ca ini lr qd pid mb hs hl hb up ib rb rbm mr].
  cbn [snap_restarts snap_connected_clients snap_active_clients snap_max_active_clients
    snap_pending_requests snap_queue_depth snap_max_request_bytes snap_restart_backoff_ms
    snap_restart_backoff_max_ms snap_max_restarts snap_child_pid snap_uptime_ms
    snap_heartbeat_latency_ms snap_heartbeat] in *.
  unfold de_status_snapshot, ser_snapshot.
  cbn [snap_service_name snap_name snap_server_status snap_status_text snap_level snap_restarts
    snap_connected_clients snap_active_clients snap_max_active_clients snap_pending_requests
    snap_cached_initialize snap_initializing snap_last_reset snap_queue_depth snap_child_pid
    snap_max_request_bytes snap_health_status snap_heartbeat_latency_ms snap_heartbeat
    snap_uptime_ms snap_in_backoff snap_restart_backoff_ms snap_restart_backoff_max_ms
    snap_max_restarts].
  read_fields. rewrite !de_ser_server_status, de_ser_level. cbn [mbind option_bind].
  rewrite !de_usize_json by done. cbn [mbind option_bind].
  rewrite de_option_str. cbn [mbind option_bind].
  rewrite (de_option_N _ pid) by (intros n Hn; by apply de_uint_json, Hp).
  cbn [mbind option_bind]. rewrite (de_option_u64 hl) by done. cbn [mbind option_bind].
  rewrite de_ser_heartbeat by done. reflexivity.
Qed.

Lemma de_ser_non_mux e : u64_sized (nm_line e) → de_non_mux (ser_non_mux e) = Some e.
Proof.
  intros He. destruct e as [c p l n]. cbn in He. unfold de_non_mux, ser_non_mux.
  cbn [nm_client nm_path nm_line nm_server_name]. read_fields.
  by rewrite de_usize_json.
Qed.

Lemma de_ser_verify v :
  Forall (λ e, u64_sized (nm_line e)) (vr_non_mux_servers v) → de_verify (ser_verify v) = Some v.
Proof.
  intros Hv. destruct v as [ok l]. cbn in Hv. unfold de_verify, ser_verify.
  cbn [vr_ok vr_non_mux_servers]. read_fields. rewrite de_array_map; [done|].
  eapply Forall_impl; [exact Hv|]. apply de_ser_non_mux.
Qed.

Lemma de_ser_route r : de_route (ser_route r) = Some r.
Proof. by destruct r. Qed.

Lemma de_ser_event e : event_sized e → de_event (ser_event e) = Some e.
Proof.
  destruct e as [s f t|c s n p|nm r re le|c ps]; intros Hs.
  - done.
  - destruct Hs as [Hn Hp].
    change (de_event (ser_event (RouteUpdate c s n p))) with
      (count ← de_usize (json_N n); p99 ← de_usize (json_N p); Some (RouteUpdate c s count p99)).
    by rewrite !de_usize_json.
  - destruct Hs as [Hr Hre].
    change (de_event (ser_event (ServerHealth nm r re le))) with
      (rss ← de_usize (json_N r); restarts ← de_usize (json_N re);
       err ← de_option de_string (Some (json_option JString le)); Some (ServerHealth nm rss restarts err)).
    rewrite !de_usize_json by done. cbn [mbind option_bind]. by rewrite de_option_str.
  - change (de_event (ser_event (ClientDrift c ps))) with
      (paths ← de_strings (JArray (JString <$> ps)); Some (ClientDrift c paths)).
    by rewrite de_strings_map.
Qed.

Theorem responses_round_trip r : response_sized r → de_response (ser_response r) = Some r.
Proof.
  destruct r as [|s|v|l|e|e|]; intros Hr; try done.
  - change (RStatus <$> de_status_snapshot (ser_snapshot s) = Some (RStatus s)).
    by rewrite de_ser_status_snapshot.
  - change (RVerify <$> de_verify (ser_verify v) = Some (RVerify v)). by rewrite de_ser_verify.
  - change (RRoutes <$> de_array de_route (JArray (ser_route <$> l)) = Some (RRoutes l)).
    rewrite de_array_map; [done|]. apply Forall_forall. intros r _. apply de_ser_route.
  - change (REvent <$> de_event (ser_event e) = Some (REvent e)). by rewrite de_ser_event.
Qed.
