(* ===== verification/ScanCmd.v ===== *)
(** * ScanCmd: the [scan] command ([mux-agent/src/scan.rs])

    [run_scan_cmd] scans the clients' files and writes the mux's manifest and, per kind of
    client, a snippet.  It prints as it goes, and an error leaves behind what was written
    before it: a command is a function of the files that answers the files, the lines that
    were printed, and how it ended. *)
From S2P Require Import Prelude Text Json Paths Config Scan Rewire MuxGen WizardServices.

(** ** Commands *)
Definition Cmd (A : Type) : Type := FileTree → FileTree * list string * result string A.
Definition cmd_ret {A} (a : A) : Cmd A := λ fs, (fs, [], Ok a).
Definition cmd_bind {A B} (m : Cmd A) (k : A → Cmd B) : Cmd B := λ fs,
  match m fs with
  | (fs, out, Ok a) => let '(fs', out', r) := k a fs in (fs', out ++ out', r)
  | (fs, out, Err e) => (fs, out, Err e)
  end.
Definition say (l : string) : Cmd unit := λ fs, (fs, [l], Ok tt).
Definition lift {A} (r : result string A) : Cmd A := λ fs, (fs, [], r).
Definition ask {A} (f : FileTree → A) : Cmd A := λ fs, (fs, [], Ok (f fs)).
Notation "'cmd!' x := m 'in' k" := (cmd_bind m (λ x, k))
  (at level 200, x name, m at level 100, k at level 200, right associativity) : operator_scope.
Fixpoint cmd_each {A} (l : list A) (body : A → Cmd unit) : Cmd unit :=
  match l with
  | [] => cmd_ret tt
  | x :: l => cmd! _ := body x in cmd_each l body
  end.

Record ScanArgs := mkScanArgs {
  sca_manifest : option string;
  sca_manifest_format : string;
  sca_snippet : option string;
  sca_snippet_format : string;
  sca_socket_dir : string;
  sca_dry_run : bool;
}.

(** The kinds are the keys of a [HashMap]. *)
Definition kind_code (k : HostKind.HostKind) : nat :=
  match k with
  | HostKind.Codex => 0 | HostKind.Claude => 1 | HostKind.ClaudeDesktop => 2
  | HostKind.Junie => 3 | HostKind.Gemini => 4 | HostKind.Cursor => 5 | HostKind.VSCode => 6
  | HostKind.JetBrains => 7 | HostKind.Custom => 8 | HostKind.Unknown => 9
  end.
Definition kind_of_code (n : nat) : HostKind.HostKind :=
  default HostKind.Unknown
    ([HostKind.Codex; HostKind.Claude; HostKind.ClaudeDesktop; HostKind.Junie; HostKind.Gemini;
      HostKind.Cursor; HostKind.VSCode; HostKind.JetBrains; HostKind.Custom] !! n).
#[export] Instance HostKind_countable : Countable HostKind.HostKind.
Proof. apply (inj_countable' kind_code kind_of_code). by intros []. Defined.

Section scan_cmd.
Context `{Platform} (home : option string) (canon : string → string).
Context (json_from_str : string → option Value) (json_to_string_pretty : Value → string).
Context (toml_mcp_servers : string → option (option (list (string * option RawServer)))).
Context (json_as_toml json_as_yaml : Value → option string).
Context (config_to_json config_to_yaml config_to_toml : Config → option string).

Definition serialize_config (config : Config) (fmt : string) : result string string :=
  if str_eqb fmt "json" then ok_or (config_to_json config) "serialize json"
  else if str_eqb fmt "yaml" || str_eqb fmt "yml" then ok_or (config_to_yaml config) "serialize yaml"
  else if str_eqb fmt "toml" then ok_or (config_to_toml config) "serialize toml"
  else Err ("unsupported format " +:+ fmt).

(** [write_with_backup] with what it prints in a dry run. *)
Definition write_cmd (p text : string) (dry : bool) : Cmd (option string) := λ fs,
  match write_with_backup canon p text dry fs with
  | Ok (fs', backup) =>
      (fs', if dry then ["--- " +:+ p +:+ " (dry-run) ---"; text] else [], Ok backup)
  | Err e => (fs, [], Err e)
  end.
Definition written_line (what p : string) (dry : bool) (backup : option string) : string :=
  what +:+ (if dry then "(dry-run) " else "") +:+ "written to " +:+ p +:+
  match backup with Some b => " (backup " +:+ b +:+ ")" | None => "" end.

(** [generate_snippet]: a map from the kinds that were scanned. *)
Definition snippet_map (scans : list ScanResult) (socket_dir proxy_cmd : string)
    (proxy_args : list string) : gmap HostKind.HostKind Value :=
  list_to_map (omap (λ k, (λ v, (k, v)) <$> generate_snippet scans socket_dir proxy_cmd proxy_args k)
    ((λ scan, kind (host scan)) <$> scans)).

Definition snippet_file (base label fmt : string) : string :=
  path_join (unwrap_or (parent base) ".")
    (unwrap_or (file_stem base) "snippet" +:+ "-" +:+ label +:+ "." +:+ fmt).

Definition write_manifest (a : ScanArgs) (scans : list ScanResult) (manifest : Config) : Cmd unit :=
  match sca_manifest a with
  | Some p =>
      cmd! text := lift (serialize_config manifest (str_to_lowercase (sca_manifest_format a))) in
      cmd! backup := write_cmd p text (sca_dry_run a) in
      say (written_line "Manifest " p (sca_dry_run a) backup)
  | None =>
      say ("Discovered " +:+ pretty (N.of_nat (length scans)) +:+ " host(s), " +:+
           pretty (N.of_nat (size (servers manifest))) +:+
           " service(s). Use --manifest to save mux config.")
  end.

Definition write_snippet (a : ScanArgs) (ks : HostKind.HostKind * Value) : Cmd unit :=
  let fmt := str_to_lowercase (sca_snippet_format a) in
  cmd! text := lift (serialize_snippet json_to_string_pretty json_as_toml json_as_yaml ks.2 fmt) in
  match sca_snippet a with
  | Some base =>
      let p := snippet_file base (as_label ks.1) fmt in
      cmd! backup := write_cmd p text (sca_dry_run a) in
      say (written_line ("Snippet for " +:+ as_label ks.1 +:+ " ") p (sca_dry_run a) backup)
  | None => cmd! _ := say ("--- snippet (" +:+ as_label ks.1 +:+ ") ---") in say text
  end.

Definition run_scan_cmd (a : ScanArgs) : Cmd unit :=
  let socket_dir := expand_path home (sca_socket_dir a) in
  cmd! scans := ask (scan_hosts home canon json_from_str toml_mcp_servers) in
  match scans with
  | [] => say "No host configs discovered."
  | _ =>
      cmd! _ := write_manifest a scans (build_manifest scans socket_dir) in
      if is_some (sca_snippet a) || sca_dry_run a then
        cmd_each (hash_iter (snippet_map scans socket_dir "rust-mux-proxy" [])) (write_snippet a)
      else cmd_ret tt
  end.


(** ** What a command may change *)
Definition touches {A} (R : FileTree → FileTree → Prop) (m : Cmd A) : Prop :=
  ∀ fs, R fs (m fs).1.1.

Lemma touches_bind {A B} R `{!PreOrder R} (m : Cmd A) (k : A → Cmd B) :
  touches R m → (∀ a, touches R (k a)) → touches R (cmd_bind m k).
Proof.
  intros Hm Hk fs. unfold cmd_bind. specialize (Hm fs).
  destruct (m fs) as [[fs1 out] [a|e]]; [|done]. specialize (Hk a fs1).
  destruct (k a fs1) as [[fs2 out2] r]. cbn in *. by etrans.
Qed.
Lemma touches_each {A} R `{!PreOrder R} (l : list A) (body : A → Cmd unit) :
  (∀ x, x ∈ l → touches R (body x)) → touches R (cmd_each l body).
Proof.
  intros Hb. induction l as [|x l IH]; cbn [cmd_each]; [by intros fs|].
  apply touches_bind; [done|apply Hb; by left|intros _]. apply IH. intros y Hy. apply Hb. by right.
Qed.
Lemma touches_quiet {A} R `{!PreOrder R} (m : Cmd A) : (∀ fs, (m fs).1.1 = fs) → touches R m.
Proof. intros Hm fs. by rewrite Hm. Qed.

(** The files that are written for [p]: its own and its backup's. *)
Definition written_for (p q : string) : Prop :=
  q = canon p ∨ vetted_output_file canon (with_extension p "bak") = Ok q.
Definition elsewhere (ps : list string) (fs fs' : FileTree) : Prop :=
  ∀ q, (∀ p, p ∈ ps → ¬ written_for p q) → fs' !! q = fs !! q.
#[local] Instance elsewhere_preorder ps : PreOrder (elsewhere ps).
Proof.
  split; [by intros fs q|]. intros a b c Hab Hbc q Hq. by rewrite (Hbc q Hq), (Hab q Hq).
Qed.

Lemma write_cmd_touches p text dry ps :
  p ∈ ps → touches (elsewhere ps) (write_cmd p text dry).
Proof.
  intros Hp fs q Hq. unfold write_cmd, write_with_backup.
  destruct dry; [done|]. specialize (Hq p Hp). unfold written_for in Hq.
  destruct (path_exists canon p fs) eqn:Ee; [|cbn; apply lookup_insert_ne; naive_solver].
  destruct (safe_copy_file canon p (with_extension p "bak") fs) as [fs1|] eqn:Es; [|done].
  apply safe_copy_copies in Es as (t & d & Ht & _ & ->). cbn.
  etrans; [apply lookup_insert_ne; naive_solver|]. apply lookup_insert_ne. naive_solver.
Qed.

(** The files the command line names: the manifest, and a snippet for each kind. *)
Definition named_files (a : ScanArgs) : list string :=
  option_list (sca_manifest a) ++
  match sca_snippet a with
  | Some base => (λ c, snippet_file base (as_label (kind_of_code c))
                   (str_to_lowercase (sca_snippet_format a))) <$> seq 0 10
  | None => []
  end.

Lemma kind_code_lt k : kind_of_code (kind_code k) = k ∧ (kind_code k < 10)%nat.
Proof. destruct k; split; try done; simpl; lia. Qed.

Lemma write_manifest_touches a scans m : touches (elsewhere (named_files a)) (write_manifest a scans m).
Proof.
  unfold write_manifest, named_files. destruct (sca_manifest a) as [p|]; [|by apply touches_quiet; [tc_solve|]].
  apply touches_bind; [tc_solve|by apply touches_quiet; [tc_solve|]|intros text].
  apply touches_bind; [tc_solve|apply write_cmd_touches; by left|intros b].
  by apply touches_quiet; [tc_solve|].
Qed.

Lemma write_snippet_touches a ks : touches (elsewhere (named_files a)) (write_snippet a ks).
Proof.
  unfold write_snippet.
  apply touches_bind; [tc_solve|by apply touches_quiet; [tc_solve|]|intros text].
  destruct (sca_snippet a) as [base|] eqn:E; [|by apply touches_quiet; [tc_solve|]].
  apply touches_bind; [tc_solve| |intros b; by apply touches_quiet; [tc_solve|]].
  apply write_cmd_touches. unfold named_files. rewrite E. apply elem_of_app. right.
  apply list_elem_of_fmap. destruct (kind_code_lt ks.1) as [Hk Hlt].
  exists (kind_code ks.1). rewrite Hk. split; [done|]. apply elem_of_seq. lia.
Qed.

(** Scanning reads: however it ends, it changes no file but the ones its arguments name,
    the manifest and the snippets, and their backups; in a dry run it changes none. *)
Theorem scan_changes_only_what_is_named a fs q :
  let fs' := (run_scan_cmd a fs).1.1 in
  (sca_dry_run a = true → fs' = fs) ∧
  ((∀ p, p ∈ named_files a → ¬ written_for p q) → fs' !! q = fs !! q).
Proof.
  cbv zeta. split.
  - intros Hd. symmetry. enough (touches eq (run_scan_cmd a)) as Ht by apply Ht.
    assert (∀ p text, touches eq (write_cmd p text (sca_dry_run a))) as Hw.
    { intros p text fs1. unfold write_cmd. by rewrite Hd. }
    unfold run_scan_cmd. apply touches_bind; [tc_solve|done|intros [|s l]; [done|]].
    apply touches_bind; [tc_solve| |intros _].
    + unfold write_manifest. destruct (sca_manifest a); [|done].
      apply touches_bind; [tc_solve|done|intros t]. by apply touches_bind; [tc_solve|apply Hw|].
    + case_match; [|done]. apply touches_each; [tc_solve|]. intros ks _. unfold write_snippet.
      apply touches_bind; [tc_solve|done|intros t]. destruct (sca_snippet a); [|done].
      by apply touches_bind; [tc_solve|apply Hw|].
  - intros Hq. revert Hq. enough (touches (elsewhere (named_files a)) (run_scan_cmd a)) as Ht
      by (intros Hq; by apply Ht).
    unfold run_scan_cmd. apply touches_bind; [tc_solve|by apply touches_quiet; [tc_solve|]|].
    intros [|s l]; [by apply touches_quiet; [tc_solve|]|].
    apply touches_bind; [tc_solve|apply write_manifest_touches|intros _].
    case_match; [|by apply touches_quiet; [tc_solve|]].
    apply touches_each; [tc_solve|]. intros ks _. apply write_snippet_touches.
Qed.

(** ** The manifest is what the mux reads *)
Lemma write_with_backup_holds p text fs fs' b :
  write_with_backup canon p text false fs = Ok (fs', b) → fs' !! canon p = Some text.
Proof.
  unfold write_with_backup. intros (fs1 & _ & [= <- _])%result_bind_Ok_inv. apply lookup_insert_eq.
Qed.

Lemma cmd_bind_Ok {A B} (m : Cmd A) (k : A → Cmd B) fs fs' out b :
  cmd_bind m k fs = (fs', out, Ok b) →
  ∃ fs1 out1 out2 a, m fs = (fs1, out1, Ok a) ∧ k a fs1 = (fs', out2, Ok b).
Proof.
  unfold cmd_bind. destruct (m fs) as [[fs1 o1] [a|e]] eqn:Em; [|done].
  destruct (k a fs1) as [[fs2 o2] r] eqn:Ek. intros [= -> _ ->]. by eexists _, _, _, _.
Qed.

Lemma manifest_written a fs fs' out p :
  run_scan_cmd a fs = (fs', out, Ok tt) → sca_dry_run a = false → sca_manifest a = Some p →
  sca_snippet a = None → scan_hosts home canon json_from_str toml_mcp_servers fs ≠ [] →
  ∃ text, fs' !! canon p = Some text ∧
    serialize_config (build_manifest (scan_hosts home canon json_from_str toml_mcp_servers fs)
      (expand_path home (sca_socket_dir a))) (str_to_lowercase (sca_manifest_format a)) = Ok text.
Proof.
  unfold run_scan_cmd. intros Hr Hd Hp Hsn Hs.
  apply cmd_bind_Ok in Hr as (fs1 & o1 & o2 & scans & [= <- _ <-] & Hr).
  destruct (scan_hosts home canon json_from_str toml_mcp_servers fs) as [|s l]; [done|]. apply cmd_bind_Ok in Hr as (fs2 & o3 & o4 & [] & Hw & Hr).
  rewrite Hsn, Hd in Hr. injection Hr as -> _.
  unfold write_manifest in Hw. rewrite Hp, Hd in Hw.
  apply cmd_bind_Ok in Hw as (fs3 & o5 & o6 & text & [= <- _ Ht] & Hw).
  apply cmd_bind_Ok in Hw as (fs4 & o7 & o8 & b & Hw & [= <- _]).
  exists text. split; [|done]. unfold write_cmd in Hw.
  destruct (write_with_backup canon p text false fs) as [[fs5 b']|] eqn:E; [|done].
  injection Hw as <- _ _. by eapply write_with_backup_holds.
Qed.

End scan_cmd.
