(* ===== verification/Runner.v ===== *)
(** * Runner: starting muxes ([bin/rust-mux.rs], the runner of [lib.rs], [runtime/mod.rs])

    What the command line asks for ([async_main]), what [run_mux] sets up before its tasks
    run, and the commands that look at running muxes from outside. *)
From S2P Require Import Prelude Text Json Proc Shared MuxState MuxWorld MuxClient MuxServer.
From S2P Require Import Heartbeat MuxSystem Status Paths Config Scan Rewire MuxGen Wizard.
From S2P Require Import WizardServices WizardRun Ipc Summaries Endpoints ScanCmd.
From stdpp Require Import relations.

(** ** The command line *)
Record Cli := mkCli {
  c_socket : option string;
  c_cmd : option string;
  c_args : list string;
  c_max_active_clients : N;
  c_lazy_start : option bool;
  c_max_request_bytes : option N;
  c_request_timeout_ms : option N;
  c_restart_backoff_ms : option N;
  c_restart_backoff_max_ms : option N;
  c_max_restarts : option N;
  c_log_level : string;
  c_tray : bool;
  c_service_name : option string;
  c_config : option string;
  c_service : option string;
  c_only : option (list string);
  c_except : option (list string);
  c_show_status : bool;
  c_restart_service : option string;
  c_status_file : option string;
  c_heartbeat_interval_ms : option N;
  c_heartbeat_timeout_ms : option N;
  c_heartbeat_max_failures : option N;
  c_heartbeat_enabled : option bool;
}.
#[export] Instance Cli_eta : Eta Cli := fun r =>
  mkCli (c_socket r) (c_cmd r) (c_args r) (c_max_active_clients r) (c_lazy_start r)
    (c_max_request_bytes r) (c_request_timeout_ms r) (c_restart_backoff_ms r)
    (c_restart_backoff_max_ms r) (c_max_restarts r) (c_log_level r) (c_tray r)
    (c_service_name r) (c_config r) (c_service r) (c_only r) (c_except r) (c_show_status r)
    (c_restart_service r) (c_status_file r) (c_heartbeat_interval_ms r)
    (c_heartbeat_timeout_ms r) (c_heartbeat_max_failures r) (c_heartbeat_enabled r).

(** The values of a command line without arguments. *)
Definition Cli_default : Cli :=
  mkCli None None [] 5 None None None None None None "info" false None None None None None false
    None None None None None None.

(** [impl CliOptions for Cli]. *)
Definition Cli_options (c : Cli) : CliOptions := {|
  cli_socket := c_socket c;
  cli_cmd := c_cmd c;
  cli_args := c_args c;
  cli_max_active_clients := c_max_active_clients c;
  cli_lazy_start := c_lazy_start c;
  cli_max_request_bytes := c_max_request_bytes c;
  cli_request_timeout_ms := c_request_timeout_ms c;
  cli_restart_backoff_ms := c_restart_backoff_ms c;
  cli_restart_backoff_max_ms := c_restart_backoff_max_ms c;
  cli_max_restarts := c_max_restarts c;
  cli_log_level := c_log_level c;
  cli_tray := c_tray c;
  cli_service_name := c_service_name c;
  cli_service := c_service c;
  cli_status_file := c_status_file c;
  cli_heartbeat_interval_ms := c_heartbeat_interval_ms c;
  cli_heartbeat_timeout_ms := c_heartbeat_timeout_ms c;
  cli_heartbeat_max_failures := c_heartbeat_max_failures c;
  cli_heartbeat_enabled := c_heartbeat_enabled c;
  cli_only := c_only c;
  cli_except := c_except c;
|}.

Module CliCommand.
Inductive CliCommand :=
| Wizard (a : WizardArgs)
| Scan (a : ScanArgs)
| Rewire (a : RewireArgs)
| Proxy (socket : string)
| Status (a : StatusArgs)
| Health (c : Cli)
| DaemonStatus (socket : option string) (json : bool)
| Dashboard (socket : option string).
End CliCommand.
Record RootCli := mkRootCli { root_command : option CliCommand.CliCommand; root_run : Cli }.

(** What the program goes on with once it has read its arguments and its configuration. *)
Inductive Job (Level : Type) :=
| Command (c : CliCommand.CliCommand)
| StatusAll (cfg : Config)
| RestartSingle (cfg : Config) (service : string)
| RunMuxMulti (params : list ResolvedParams) (level : Level)
| RunMux (params : ResolvedParams) (level : Level).
Arguments Command {Level}.
Arguments StatusAll {Level}.
Arguments RestartSingle {Level}.
Arguments RunMuxMulti {Level}.
Arguments RunMux {Level}.

Section main.
Context `{Platform} (home : option string) (canon : string → string).
Context (from_yaml from_toml from_json : string → option Config).
(** The parser of log levels, of the [tracing] crate. *)
Context {Level : Type} (parse_level : string → option Level).

Definition Cli_config_path (c : Cli) : string :=
  unwrap_or (c_config c) (expand_path home "~/.codex/mcp.json").
Definition load (c : Cli) (fs : FileTree) : result string (option Config) :=
  load_config canon from_yaml from_toml from_json (Cli_config_path c) fs.

Definition is_multi_mode (c : Cli) (config : option Config) : bool :=
  is_some config && is_none (c_service c) &&
  (is_some (c_only c) || is_some (c_except c) || is_none (c_socket c)).

Definition level_of (raw : string) : result string Level :=
  ok_or (parse_level raw) ("invalid log level: " +:+ raw).

(** [async_main] without a subcommand. *)
Definition start (c : Cli) (fs : FileTree) : result string (Job Level) :=
  try! config := load c fs in
  if c_show_status c then
    try! cfg := ok_or config "--show-status requires a config file (use --config)" in
    Ok (StatusAll cfg)
  else match c_restart_service c with
  | Some service_name =>
      try! cfg := ok_or config "--restart-service requires a config file (use --config)" in
      Ok (RestartSingle cfg service_name)
  | None =>
      if is_multi_mode c config then
        try! cfg := ok_or config "multi-service mode requires a config file" in
        try! params_list := resolve_params_multi home (Cli_options c) cfg in
        match params_list with
        | [] => Err "no services to start (check --only/--except filters)"
        | _ =>
            try! level := level_of (c_log_level c) in
            Ok (RunMuxMulti params_list level)
        end
      else
        try! params := resolve_params home (Cli_options c) config in
        try! level := level_of (rp_log_level params) in
        Ok (RunMux params level)
  end.

(** The subcommands are run with their arguments; the dashboard by [main] itself, before the
    runtime is started. *)
Definition async_main (root : RootCli) (fs : FileTree) : result string (Job Level) :=
  match root_command root with
  | Some c => Ok (Command c)
  | None => start (root_run root) fs
  end.

(** [dial]: what connecting to a socket and then shutting the connection down answer. *)
Definition health_check (dial : string → result string (result string unit)) (p : ResolvedParams) :
    result string unit :=
  match dial (rp_socket p) with
  | Err _ => Err ("failed to connect to " +:+ rp_socket p)
  | Ok (Err _) => Err "failed to shutdown health check stream"
  | Ok (Ok _) => Ok tt
  end.
Definition run_health (dial : string → result string (result string unit)) (c : Cli) (fs : FileTree) :
    result string string :=
  try! config := load c fs in
  try! params := resolve_params home (Cli_options c) config in
  try! _ := health_check dial params in
  Ok ("OK: connected to " +:+ rp_socket params).

(** [check_health] of the library. *)
Definition check_health_params (socket : string) : ResolvedParams := {|
  rp_socket := socket; rp_cmd := ""; rp_args := []; rp_cwd := None; rp_env := None;
  rp_max_clients := 1; rp_tray_enabled := false; rp_log_level := "error";
  rp_service_name := "health-check"; rp_lazy_start := false; rp_max_request_bytes := 0;
  rp_request_timeout := from_secs 5; rp_restart_backoff := from_secs 1;
  rp_restart_backoff_max := from_secs 1; rp_max_restarts := 0; rp_status_file := None;
  rp_heartbeat_interval := from_secs 30; rp_heartbeat_timeout := from_secs 30;
  rp_heartbeat_max_failures := 3; rp_heartbeat_enabled := false;
|}.
Definition check_health (dial : string → result string (result string unit)) (socket : string) :
    result string unit := health_check dial (check_health_params socket).

(** ** Looking at all services *)
Definition dashes (n : nat) : string := str_repeat n "-".
Definition status_of (exists_ connects : string → bool) (socket : string) : string :=
  if exists_ socket then
    if connects socket then "RUNNING" else "STALE (socket exists but not responding)"
  else "STOPPED".
Definition status_all (exists_ connects : string → bool) (config : Config) : list string :=
  ["Service Status:"; dashes 60] ++
  ((λ ns, match sc_socket ns.2 with
          | Some s => let p := expand_path home s in
              "  " +:+ ns.1 +:+ ": " +:+ status_of exists_ connects p +:+ " (" +:+ p +:+ ")"
          | None => "  " +:+ ns.1 +:+ ": [no socket configured]"
          end) <$> hash_iter (servers config)) ++
  [dashes 60].

(** The library's [print_status_table] is a placeholder. *)
Definition lib_print_status_table (_ : DaemonStatus) : list string := [].
(** [query]: the answer of the status socket; [pretty_json]: of the serializer. *)
Definition run_daemon_status (query : string → result string DaemonStatus)
    (pretty_json : Value → string) (socket : option string) (json : bool) :
    result string (list string) :=
  let socket := unwrap_or socket DEFAULT_STATUS_SOCKET in
  match query socket with
  | Err e => Err ("failed to connect to mux daemon at " +:+ socket +:+ ": " +:+ e +:+
                  " (is rust-mux running?)")
  | Ok status => Ok (if json then [pretty_json (ser_report status)] else lib_print_status_table status)
  end.

(** ** Restarting one service *)
Definition restart_cmd : Value :=
  JObject (obj_of_list [("jsonrpc", JString "2.0"); ("id", JNumber (PosInt 1));
                        ("method", JString "mux/restart"); ("params", JObject [])]).
(** [talk]: connect, write the line, read one. *)
Definition restart_single (exists_ : string → bool) (to_string : Value → string)
    (talk : string → string → result string string) (config : Config) (service_name : string) :
    result string (list string) :=
  try! server_cfg := ok_or (servers config !! service_name)
                       ("service '" +:+ service_name +:+ "' not found in config") in
  try! socket := ok_or (expand_path home <$> sc_socket server_cfg)
                   ("service '" +:+ service_name +:+ "' has no socket configured") in
  if negb (exists_ socket) then
    Err ("service '" +:+ service_name +:+ "' socket does not exist: " +:+ socket)
  else
    try! response := talk socket (to_string restart_cmd +:+ String newline "") in
    Ok [if contains response "error" then "Restart failed: " +:+ trim response
        else "Restart initiated for service '" +:+ service_name +:+ "'"].
End main.

(** ** Setting up one mux: [run_mux] *)

(** The socket files of the machine: a live listener, or something nobody listens on. *)
Inductive SocketFile := Listening (owner : N) | Leftover.
Notation Net := (gmap string SocketFile).

(** What the file system lets a process do. *)
Record Rights := mkRights {
  mkdir : string → result string unit;
  removable : string → bool;
  bindable : string → bool;      (* the directory is there and may be written *)
}.
Definition remove_file (r : Rights) (p : string) (n : Net) : Net :=
  if removable r p then delete p n else n.
(** [UnixListener::bind] fails where there is a file already. *)
Definition bind_socket (r : Rights) (p : string) (owner : N) (n : Net) : option Net :=
  match n !! p with
  | Some _ => None
  | None => if bindable r p then Some (<[p := Listening owner]> n) else None
  end.

(** The listener for the clients. *)
Definition listen (r : Rights) (owner : N) (params : ResolvedParams) (n : Net) :
    Net * result string unit :=
  let socket := rp_socket params in
  match match parent socket with Some dir => mkdir r dir | None => Ok tt end with
  | Err _ => (n, Err "failed to create socket parent dir")
  | Ok _ =>
      let n := remove_file r socket n in
      match bind_socket r socket owner n with
      | Some n => (n, Ok tt)
      | None => (n, Err ("failed to bind socket " +:+ socket))
      end
  end.
(** The listener for the control commands, in its own task; its failure is only logged. *)
Definition listen_control (r : Rights) (home : option string) (owner : N) (n : Net) :
    Net * result string unit :=
  let p := socket_path home in
  let n := if is_some (n !! p) then remove_file r p n else n in
  match bind_socket r p owner n with
  | Some n => (n, Ok tt)
  | None => (n, Err ("Failed to bind to IPC control socket at " +:+ p))
  end.
(** A mux takes its sockets; without the first there is no mux. *)
Definition take_sockets (r : Rights) (home : option string) (owner : N) (params : ResolvedParams)
    (n : Net) : Net * result string unit :=
  match listen r owner params n with
  | (n, Ok _) => ((listen_control r home owner n).1, Ok tt)
  | (n, Err e) => (n, Err e)
  end.

(** The state that the tasks share. *)
Definition state_config (event_tx : TxHandle) (p : ResolvedParams) : MuxStateConfig :=
  mkMuxStateConfig (rp_max_clients p) (rp_service_name p) (rp_max_request_bytes p)
    (rp_request_timeout p) (rp_restart_backoff p) (rp_restart_backoff_max p) (rp_max_restarts p)
    0 None (Some event_tx).
Definition heartbeat_config (p : ResolvedParams) : HeartbeatConfig :=
  mkHeartbeatConfig (rp_heartbeat_interval p) (rp_heartbeat_timeout p)
    (rp_heartbeat_max_failures p) (rp_heartbeat_enabled p).
Definition manager_config (p : ResolvedParams) : ServerManagerConfig :=
  mkServerManagerConfig (rp_lazy_start p) (rp_restart_backoff p) (rp_restart_backoff_max p)
    (rp_max_restarts p).
(** With a [StatusState], the mux is registered there under its name. *)
Definition server_ref (w : World) (p : ResolvedParams) : ServerRef :=
  mkServerRef (rp_service_name p) (st w) (permits w) (rp_max_clients p).

Section run_mux.
Context `{Platform}.

(** What the outside decides for the tasks of one mux. *)
Record Outside := mkOutside {
  routed : nat;
  incarnations : list Incarnation;
  probes : list InspectorEvent;
  ticks : list bool;
}.
Definition run_mux_world (now : N) (event_tx : TxHandle) (p : ResolvedParams) : World :=
  mux_start now (state_config event_tx p) (rp_heartbeat_enabled p).
Definition run_mux_tasks (p : ResolvedParams) (o : Outside) : list (proc World unit) :=
  [handle_server_events_with_heartbeat (routed o);
   server_manager (manager_config p) (incarnations o) ;;! Ret tt;
   spawn_heartbeat_inspector (heartbeat_config p) (probes o);
   reap_timeouts (ticks o)].

(** What the accept loop does next: a client, a failed [accept], the shutdown. *)
Inductive Accepted := Client (evs : list ClientEvent) | AcceptFailed | ShutdownSeen.
(** The loop adds a task for each client, until the token is cancelled; [None]: it still
    waits. *)
Fixpoint accept_clients (l : list Accepted) (ts : list (proc World unit)) :
    list (proc World unit) * option (result string unit) :=
  match l with
  | [] => (ts, None)
  | Client evs :: l => accept_clients l (ts ++ [handle_client evs ;;! Ret tt])
  | AcceptFailed :: l => accept_clients l ts
  | ShutdownSeen :: _ => (ts, Some (Ok tt))
  end.
End run_mux.

(** After the loop the socket file is removed, whoever it belongs to by then. *)
Definition close_listener (r : Rights) (p : ResolvedParams) (n : Net) : Net :=
  remove_file r (rp_socket p) n.

(** ** Many muxes in one process: [run_mux_multi] *)
Fixpoint start_muxes (r : Rights) (home : option string) (owner : N) (l : list ResolvedParams)
    (n : Net) : Net * list (result string unit) :=
  match l with
  | [] => (n, [])
  | p :: l =>
      let '(n, res) := take_sockets r home owner p n in
      let '(n, rest) := start_muxes r home (N.succ owner) l n in
      (n, res :: rest)
  end.

Inductive TaskEnd := Stopped | Errored (e : string) | Panicked (e : string).
(** The line that is logged for a service at the end. *)
Definition end_line (name : string) (e : TaskEnd) : string :=
  match e with
  | Stopped => name +:+ ": stopped"
  | Errored e => name +:+ ": error: " +:+ e
  | Panicked e => name +:+ ": panic: " +:+ e
  end.
Inductive StopSignal := CtrlC | TokenCancelled.
(** It waits for a signal, whatever becomes of its muxes, then for all of them. *)
Definition run_mux_multi (l : list ResolvedParams) (signal : option StopSignal)
    (ends : list TaskEnd) : option (result string (list string)) :=
  match signal with
  | None => None
  | Some _ => Some (Ok (zip_with (λ p e, end_line (rp_service_name p) e) l ends))
  end.

(** ** The status endpoint: [run_status_listener]; no caller in the repository *)
Section status_listener.
Context `{Platform} (to_string : Value → string) (version : string).

(** What its loop finds: a connection, with the time and the registered muxes then, a failed
    [accept], the shutdown. *)
Inductive StatusAccept := StatusClient (now : N) (s : StatusState) | StatusAcceptFailed | StatusShutdown.
(** What each connection is sent, and whether the loop has ended. *)
Fixpoint status_accepts (l : list StatusAccept) : list string * bool :=
  match l with
  | [] => ([], false)
  | StatusClient now s :: l =>
      let '(sent, over) := status_accepts l in (handle_status_connection to_string version now s :: sent, over)
  | StatusAcceptFailed :: l => status_accepts l
  | StatusShutdown :: _ => ([], true)
  end.
Definition run_status_listener (r : Rights) (p : string) (owner : N) (l : list StatusAccept) (n : Net) :
    Net * list string * result string unit :=
  if is_some (n !! p) && negb (removable r p) then (n, [], Err ("failed to remove " +:+ p))
  else
    match bind_socket r p owner (delete p n) with
    | None => (delete p n, [], Err ("failed to bind " +:+ p))
    | Some n =>
        let '(sent, over) := status_accepts l in
        (if over : bool then remove_file r p n else n, sent, Ok tt)
    end.
End status_listener.

(** ** A mux as a handle: [spawn_mux_server] *)
Record MuxHandle := mkMuxHandle {
  mh_params : ResolvedParams;
  mh_shutdown : bool;
  mh_join : option (result string unit);   (* what the task answered, if it has ended *)
}.
#[export] Instance MuxHandle_eta : Eta MuxHandle := fun r =>
  mkMuxHandle (mh_params r) (mh_shutdown r) (mh_join r).
Definition spawn_mux_server (config : MuxConfig) : MuxHandle :=
  mkMuxHandle (from_MuxConfig config) false None.
Definition MuxHandle_shutdown (h : MuxHandle) : MuxHandle := h <| mh_shutdown := true |>.
Definition is_running (h : MuxHandle) : bool := is_none (mh_join h).
(** [wait]: the answer of the task, once there is one. *)
Definition MuxHandle_wait (h : MuxHandle) : option (result string unit) := mh_join h.

(** ** Properties *)

(** *** The command line *)
Section command_line.
Context `{Platform} (home : option string) (canon : string → string).
Context (from_yaml from_toml from_json : string → option Config).
Context {Level : Type} (parse_level : string → option Level).

Notation start := (start home canon from_yaml from_toml from_json parse_level).
Notation load := (load home canon from_yaml from_toml from_json).

Lemma resolve_from_cli cli socket cmd :
  cli_socket cli = Some socket → cli_cmd cli = Some cmd →
  ∃ p, resolve_params home cli None = Ok p ∧ rp_socket p = socket ∧ rp_cmd p = cmd ∧
    rp_args p = cli_args cli ∧ rp_env p = None ∧ rp_log_level p = cli_log_level cli.
Proof.
  intros Hs Hc. unfold resolve_params. rewrite Hs, Hc. eexists. split; [reflexivity|].
  cbn. split_and!; try done. by destruct (cli_args cli).
Qed.

(** C36: A mux given by its socket and its command alone starts only while there is no
    configuration file: without one it runs exactly the command that was given, and with
    one, the default file included, the same command line is refused for want of
    [--service]. *)
Theorem explicit_command_needs_no_config c fs socket cmd level :
  c_show_status c = false → c_restart_service c = None → c_service c = None →
  c_only c = None → c_except c = None → c_socket c = Some socket → c_cmd c = Some cmd →
  parse_level (c_log_level c) = Some level →
  match load c fs with
  | Err e => start c fs = Err e
  | Ok None => ∃ p, start c fs = Ok (RunMux p level) ∧ rp_socket p = socket ∧
      rp_cmd p = cmd ∧ rp_args p = c_args c ∧ rp_env p = None
  | Ok (Some _) => start c fs = Err "--service is required when using --config"
  end.
Proof.
  intros Hs Hr Hsv Ho He Hso Hc Hl. unfold Runner.start.
  destruct (load c fs) as [[cfg|]|e]; cbn [result_bind]; [| |done]; rewrite Hs, Hr;
    unfold is_multi_mode; rewrite Hsv, Ho, He, Hso; cbn [is_some is_none negb orb andb];
    [by unfold resolve_params; cbn; rewrite Hsv|].
  destruct (resolve_from_cli (Cli_options c) socket cmd Hso Hc) as (p & -> & ? & ? & ? & ? & Hlv).
  cbn [result_bind]. unfold level_of. rewrite Hlv. cbn [Cli_options cli_log_level]. rewrite Hl.
  by exists p.
Qed.

(** A service of a file that names its socket and its command resolves. *)
Lemma resolve_all_total cli config names :
  cli_socket cli = None → cli_cmd cli = None →
  (∀ n, n ∈ names → ∃ sc s k, servers config !! n = Some sc ∧ sc_socket sc = Some s ∧ sc_cmd sc = Some k) →
  ∃ ps, resolve_all home cli config names = Ok ps.
Proof.
  intros Hs Hc Hn. induction names as [|n names IH]; cbn [resolve_all]; [by eexists|].
  destruct IH as [ps Hps]; [intros m Hm; apply Hn; by right|].
  case_match; [by exists ps|].
  destruct (Hn n ltac:(by left)) as (sc & s & k & E1 & E2 & E3).
  destruct (proj2 (resolve_params_Ok home (SingleCli cli n) config n eq_refl)) as [p Hp].
  { unfold setting. rewrite E1. cbn. rewrite Hs, Hc, E2, E3. split_and!; eauto. }
  rewrite Hp, Hps. cbn [result_bind]. by eexists.
Qed.

(** The command line that the wizard's last step runs. *)
Definition tray_cli (config : string) : Cli :=
  Cli_default <| c_tray := true |> <| c_config := Some config |>.

(** Its parameters for a service of the generated file. *)
Lemma tray_cli_resolves config dir svc n p :
  servers config !! n = Some (manifest_entry dir svc) →
  resolve_params home (SingleCli (Cli_options (tray_cli "")) n) (Some config) = Ok p →
  rp_cmd p = command svc ∧ rp_args p = args svc ∧ rp_env p = env svc ∧
  rp_socket p = expand_path home (service_socket dir svc) ∧ rp_tray_enabled p = true ∧
  rp_service_name p = name svc.
Proof.
  intros Hn. unfold resolve_params. cbn. rewrite Hn. cbn. intros [= <-]. by split_and!.
Qed.

Lemma selected_all cli n : cli_only cli = None → cli_except cli = None → selected cli n = true.
Proof. intros Ho He. unfold selected. by rewrite Ho, He. Qed.

(** Starting every service of a file. *)
Lemma resolve_multi_all cli config :
  cli_only cli = None → cli_except cli = None → cli_socket cli = None → cli_cmd cli = None →
  (∀ n sc, servers config !! n = Some sc → is_Some (sc_socket sc) ∧ is_Some (sc_cmd sc)) →
  ∃ ps names, resolve_params_multi home cli config = Ok ps ∧ NoDup names ∧
    (∀ n, n ∈ names ↔ is_Some (servers config !! n)) ∧
    Forall2 (λ n p, resolve_params home (SingleCli cli n) (Some config) = Ok p) names ps.
Proof.
  intros Ho He Hs Hc Hsv. set (names := fst <$> hash_iter (servers config)).
  assert (∀ n, n ∈ names ↔ is_Some (servers config !! n)) as Hnames.
  { intros n. unfold names. rewrite list_elem_of_fmap. split.
    - intros ([k sc] & -> & Hin%hash_iter_elem). eauto.
    - intros [sc Hsc]. exists (n, sc). by rewrite hash_iter_elem. }
  destruct (resolve_all_total cli config names Hs Hc) as [ps Hps].
  { intros n [sc Hsc]%Hnames. destruct (Hsv n sc Hsc) as [[s ?] [k ?]]. eauto 6. }
  exists ps, names. split_and!; [exact Hps| |exact Hnames|].
  - unfold names. rewrite hash_iter_perm. apply NoDup_fst_map_to_list.
  - apply resolve_all_Ok in Hps. rewrite retain_all in Hps; [done|].
    intros n _. by apply selected_all.
Qed.

Lemma chosen_some app :
  retain se_selected (app_services app) ≠ [] → ∃ n, is_Some (chosen app n).
Proof.
  intros Hsel. destruct (retain se_selected (app_services app)) as [|e l] eqn:El; [done|].
  exists (se_name e). unfold chosen. rewrite El. unfold retain. cbn [List.filter].
  unfold str_eqb at 1. rewrite bool_decide_true by done.
  match goal with |- context [last (?x :: ?l)] => destruct (last_is_Some (x :: l)) as [_ Hlast] end.
  destruct Hlast as [z ->]; [done|]. by eexists.
Qed.

(** The command line of the tray's daemon starts every service of its file. *)
Lemma tray_cli_starts file fs text config level ps :
  extension file = Some "toml" → has_parent_component file = false →
  fs !! canon file = Some text → from_toml text = Some config →
  parse_level "info" = Some level →
  resolve_params_multi home (Cli_options (tray_cli file)) config = Ok ps → ps ≠ [] →
  start (tray_cli file) fs = Ok (RunMuxMulti ps level).
Proof.
  intros Hext Hpar Hw Hparse Hlevel Hps Hne.
  assert (load (tray_cli file) fs = Ok (Some config)) as Hload.
  { apply (load_config_reads canon from_yaml from_toml from_json file fs text config Hpar Hw).
    unfold parser_of. rewrite Hext. cbn. by apply Hparse. }
  unfold Runner.start. rewrite Hload.
  cbn [result_bind tray_cli c_show_status c_restart_service].
  change (c_show_status (tray_cli file)) with false.
  change (c_restart_service (tray_cli file)) with (@None string). cbn iota.
  unfold is_multi_mode. cbn. rewrite Hps. cbn [ok_or result_bind].
  destruct ps; [done|]. unfold level_of. cbn. by rewrite Hlevel.
Qed.

(** C22: From the wizard to the muxes: the daemon that the wizard's last step starts, after the
    unified strategy has written its file, runs one mux for each ticked name and nothing
    else, each with the command, the arguments and the environment of the last ticked entry
    of that name, on the socket that the clients were given, with a tray icon each.  The
    serializer's text is only assumed to parse back. *)
Theorem tray_daemon_runs_the_ticked daemon_to_toml client_to_json client_to_toml app fs fs' summary level :
  let dir := default_mux_dir home in
  let file := path_join dir "config.toml" in
  run_unified_generate home canon daemon_to_toml client_to_json client_to_toml app fs =
    Ok (fs', summary) →
  dry_run app = false → retain se_selected (app_services app) ≠ [] →
  NoDup (canon <$> [file; path_join dir "mcp.json"; path_join dir "mcp.toml"]) →
  has_parent_component file = false →
  (∀ config text, daemon_to_toml config = Some text → from_toml text = Some config) →
  parse_level "info" = Some level →
  (∀ beside spawn pid, spawn (default "rust-mux" beside) ["--tray"; "--config"; file] = Ok pid →
     (start_tray_daemon home canon beside spawn app fs').1 =
       [(default "rust-mux" beside, ["--tray"; "--config"; file])]) ∧
  ∃ ps names, start (tray_cli file) fs' = Ok (RunMuxMulti ps level) ∧ NoDup names ∧
    (∀ n, n ∈ names ↔ is_Some (chosen app n)) ∧
    Forall2 (λ n p, ∃ svc, chosen app n = Some svc ∧ rp_cmd p = command svc ∧
      rp_args p = args svc ∧ rp_env p = env svc ∧
      rp_socket p = expand_path home (service_socket (default_socket_dir dir) svc) ∧
      rp_tray_enabled p = true) names ps.
Proof.
  intros dir file Hr Hdry Hsel Hnd Hpar Hparse Hlevel.
  assert (extension file = Some "toml") as Hext.
  { unfold extension, file. by rewrite file_name_join. }
  destruct (unified_config _ _ _ _ _ _ _ _ _ Hr Hdry Hsel Hnd) as (config & text & Ht & Hsv & Hw).
  split.
  { intros beside spawn pid Hspawn. unfold start_tray_daemon. rewrite Hdry. unfold path_exists.
    cbv zeta. change (path_join (default_mux_dir home) "config.toml") with file in *.
    rewrite Hw. cbn [is_some]. by rewrite Hspawn. }
  change (path_join (default_mux_dir home) "config.toml") with file in Hw. clearbody file.
  destruct (resolve_multi_all (Cli_options (tray_cli file)) config) as (ps & names & Hps & Hn & Hin & Hall);
    [done..| |].
  { intros n sc Hsc. rewrite Hsv in Hsc. destruct (chosen app n); [|done]. injection Hsc as <-. eauto. }
  assert (ps ≠ []) as Hne.
  { intros ->. apply Forall2_nil_inv_r in Hall as ->. destruct (chosen_some app Hsel) as [n0 [svc Hs]].
    apply (elem_of_nil n0), Hin. rewrite Hsv, Hs. by eexists. }
  exists ps, names. split_and!; [by eapply tray_cli_starts; eauto|done| |].
  - intros n. rewrite Hin, Hsv. by rewrite fmap_is_Some.
  - eapply Forall2_impl; [exact Hall|]. intros n p Hp. cbv beta in Hp.
    assert (is_Some (servers config !! n)) as [sc Hsc].
    { destruct (resolve_params_Ok home (SingleCli (Cli_options (tray_cli file)) n) config n eq_refl)
        as [Hx _]. by apply Hx; eexists. }
    rewrite Hsv in Hsc. destruct (chosen app n) as [svc|] eqn:Ec; [|done]. injection Hsc as <-.
    exists svc. split; [done|].
    destruct (tray_cli_resolves config (default_socket_dir dir) svc n p) as (? & ? & ? & ? & ? & _);
      [by rewrite Hsv, Ec|exact Hp|]. by split_and!.
Qed.
End command_line.

(** *** One mux *)
Section one_mux.
Context `{Platform}.

(** The accept loop only adds tasks of a mux. *)
Lemma accept_clients_steps w l ts0 ts r n :
  accept_clients l ts0 = (ts, r) → mux_steps n (w, []) (w, ts0) →
  ∃ m, m ≤ n + length l ∧ mux_steps m (w, []) (w, ts).
Proof.
  revert ts0 n. induction l as [|x l IH]; intros ts0 n; cbn [accept_clients length].
  - intros [= <- <-] Hn. exists n. split; [lia|done].
  - destruct x as [evs| |].
    + intros Ha Hn. destruct (IH _ (S n) Ha) as (m & Hm & Hs); [|exists m; split; [lia|done]].
      eapply nsteps_r; [exact Hn|]. apply step_spawn. constructor.
    + intros Ha Hn. destruct (IH _ n Ha Hn) as (m & Hm & Hs). exists m. split; [lia|done].
    + intros [= <- <-] Hn. exists n. split; [lia|done].
Qed.

(** What [run_mux] sets up is reachable. *)
Lemma run_mux_reachable now event_tx p o l ts r :
  accept_clients l (run_mux_tasks p o) = (ts, r) → (N.of_nat (4 + length l) < U64_MAX)%N →
  ∃ n, n ≤ 4 + length l ∧ reachable n (run_mux_world now event_tx p, ts).
Proof.
  intros Hts Hb. set (w := run_mux_world now event_tx p) in *.
  destruct (accept_clients_steps w l _ _ _ 4 Hts) as (m & Hm & Hs).
  { eapply nsteps_l; [apply (step_spawn _ _ (handle_server_events_with_heartbeat (routed o))); constructor|].
    eapply nsteps_l; [apply (step_spawn _ _ (server_manager (manager_config p) (incarnations o) ;;! Ret tt)); constructor|].
    eapply nsteps_l; [apply (step_spawn _ _ (spawn_heartbeat_inspector (heartbeat_config p) (probes o))); constructor|].
    eapply nsteps_l; [apply (step_spawn _ _ (reap_timeouts (ticks o))); constructor|]. constructor. }
  exists m. split; [done|].
  exists now, (state_config event_tx p), (rp_heartbeat_enabled p). split; [exact Hs|lia].
Qed.


(** Asking for a restart does not restart: the request that [--restart-service] sends comes
    from a client without a handshake, so that the mux puts it into the client's buffer and
    does nothing else; and when the mux then closes the connection without an answer, the
    command reports that the restart was initiated. *)
Theorem restart_request_is_never_served home exists_ to_string talk config name sc socket cid h max w :
  lock_held w = false → client_handshakes (st w) !! cid = Some h → initialized h = false →
  (json_len restart_cmd ≤ max)%N →
  servers config !! name = Some sc → sc_socket sc = Some socket →
  exists_ (expand_path home socket) = true →
  talk (expand_path home socket) (to_string restart_cmd +:+ String newline "") = Ok "" →
  run (handle_client_message cid restart_cmd max) w =
    Some (w <| st ::= buffer_message cid restart_cmd |>, Ok tt) ∧
  restart_single home exists_ to_string talk config name =
    Ok ["Restart initiated for service '" +:+ name +:+ "'"].
Proof.
  intros Hl Hh Hi Hlen Hc Hs He Ht. split.
  - unfold handle_client_message. rewrite (proj2 (N.ltb_ge _ _) Hlen).
    change (method_of restart_cmd) with "mux/restart". unfold str_eqb.
    rewrite !bool_decide_false by done.
    change (value_get "id" restart_cmd) with (Some (JNumber (PosInt 1))). cbn iota.
    unfold handle_request. rewrite run_bind, run_lock by done. cbn [fst snd].
    unfold is_handshake_complete at 1. rewrite Hh, Hi. cbn [negb].
    rewrite run_bind, run_lock_ by done. by destruct w.
  - unfold restart_single. rewrite Hc. cbn [ok_or result_bind]. rewrite Hs. cbn [fmap option_fmap option_map ok_or result_bind].
    rewrite He. cbn [negb]. rewrite Ht. reflexivity.
Qed.

(** Who connects to the status endpoint gets the report of that moment. *)
Lemma status_accepts_sent to_string version l now s :
  StatusClient now s ∈ l → (∀ i j, l !! i = Some StatusShutdown → l !! j = Some (StatusClient now s) → j < i) →
  handle_status_connection to_string version now s ∈ (status_accepts to_string version l).1.
Proof.
  intros Hin Hs. induction l as [|x l IH]; [by apply elem_of_nil in Hin|]. cbn [status_accepts].
  apply elem_of_cons in Hin as [<-|Hin].
  { destruct (status_accepts to_string version l). by left. }
  assert (∀ i j, l !! i = Some StatusShutdown → l !! j = Some (StatusClient now s) → j < i) as Hl.
  { intros i j Hi Hj. specialize (Hs (S i) (S j) Hi Hj). lia. }
  specialize (IH Hin Hl). destruct x; [destruct (status_accepts to_string version l); by right|done|].
  apply list_elem_of_lookup in Hin as [j Hj]. specialize (Hs 0 (S j) eq_refl Hj). lia.
Qed.
End one_mux.

(** *** The sockets of many muxes *)
Lemma lookup_removed (n : Net) q : delete q n !! q = None.
Proof. apply lookup_delete_eq. Qed.

Lemma listen_ok r owner p n :
  (∀ d, ∃ x, mkdir r d = Ok x) → removable r (rp_socket p) = true → bindable r (rp_socket p) = true →
  listen r owner p n = (<[rp_socket p := Listening owner]> (delete (rp_socket p) n), Ok tt).
Proof.
  intros Hm Hr Hb. unfold listen.
  assert (∃ x, match parent (rp_socket p) with Some d => mkdir r d | None => Ok tt end = Ok x) as [x Hx].
  { destruct (parent (rp_socket p)); [apply Hm|by eexists]. }
  cbv zeta. rewrite Hx. unfold remove_file, bind_socket. rewrite Hr. by rewrite lookup_removed, Hb.
Qed.

Lemma listen_control_ok r home owner n :
  removable r (socket_path home) = true → bindable r (socket_path home) = true →
  (listen_control r home owner n).1 =
    <[socket_path home := Listening owner]> (delete (socket_path home) n).
Proof.
  intros Hr Hb. unfold listen_control, remove_file, bind_socket. rewrite Hr.
  destruct (n !! socket_path home) eqn:E; cbn [is_some].
  - by rewrite lookup_removed, Hb.
  - rewrite E, Hb. cbn. f_equal. symmetry. by apply delete_id.
Qed.

(** A path that a mux takes keeps its listener while others start elsewhere. *)
Lemma start_muxes_keeps r home q : ∀ l owner n,
  (∀ p, p ∈ l → ∀ o n, (take_sockets r home o p n).1 !! q = n !! q) →
  (start_muxes r home owner l n).1 !! q = n !! q.
Proof.
  induction l as [|p l IH]; intros owner n Hq; cbn [start_muxes]; [done|].
  pose proof (Hq p ltac:(by left) owner n) as Hp.
  destruct (take_sockets r home owner p n) as [n1 res]. cbn in Hp.
  specialize (IH (N.succ owner) n1 ltac:(intros; apply Hq; by right)).
  destruct (start_muxes r home (N.succ owner) l n1) as [n2 rest]. cbn in *. by rewrite IH.
Qed.

Lemma take_sockets_ok r home owner p n :
  (∀ d, ∃ x, mkdir r d = Ok x) → (∀ q, removable r q = true ∧ bindable r q = true) →
  take_sockets r home owner p n =
    (<[socket_path home := Listening owner]> (delete (socket_path home)
       (<[rp_socket p := Listening owner]> (delete (rp_socket p) n))), Ok tt).
Proof.
  intros Hm Hr. unfold take_sockets. rewrite listen_ok by (done || apply Hr).
  by rewrite listen_control_ok by apply Hr.
Qed.

Lemma start_muxes_take r home : 
  (∀ d, ∃ x, mkdir r d = Ok x) → (∀ q, removable r q = true ∧ bindable r q = true) →
  ∀ l owner n, NoDup (rp_socket <$> l) → socket_path home ∉ rp_socket <$> l →
  (∀ i p, l !! i = Some p →
     (start_muxes r home owner l n).1 !! rp_socket p = Some (Listening (owner + N.of_nat i))) ∧
  (l ≠ [] → (start_muxes r home owner l n).1 !! socket_path home =
     Some (Listening (owner + N.of_nat (length l) - 1))).
Proof.
  intros Hm Hr. pose proof (λ owner p n, take_sockets_ok r home owner p n Hm Hr) as Ht.
  intros l. induction l as [|p l IH]; intros owner n Hnd Hctl; [done|].
  rewrite fmap_cons in Hnd, Hctl. apply NoDup_cons in Hnd as [Hp Hnd].
  apply not_elem_of_cons in Hctl as [Hc1 Hc2]. cbn [start_muxes]. rewrite Ht.
  match goal with |- context [start_muxes r home (N.succ owner) l ?m] => set (n1 := m) end.
  destruct (IH (N.succ owner) n1 Hnd Hc2) as [Hown Hlast].
  assert ((start_muxes r home (N.succ owner) l n1).1 !! rp_socket p = n1 !! rp_socket p) as Hkeep.
  { apply start_muxes_keeps. intros p' Hp' o m. rewrite Ht. cbn [fst].
    assert (rp_socket p' ≠ rp_socket p) by (intros E; apply Hp; rewrite <- E; by apply list_elem_of_fmap_2).
    by rewrite !lookup_insert_ne, !lookup_delete_ne, lookup_insert_ne, lookup_delete_ne. }
  destruct (start_muxes r home (N.succ owner) l n1) as [n2 rest] eqn:E2. cbn [fst] in *. split.
  - intros [|i] q; cbn [lookup list_lookup].
    + intros [= <-]. rewrite Hkeep. unfold n1.
      rewrite lookup_insert_ne, lookup_delete_ne by done. rewrite lookup_insert_eq.
      do 2 f_equal. lia.
    + intros Hq. rewrite (Hown i q Hq). do 2 f_equal. lia.
  - intros _. destruct l as [|p' l].
    + cbn [start_muxes] in E2. injection E2 as <- _. unfold n1. rewrite lookup_insert_eq.
      do 2 f_equal. simpl. lia.
    + rewrite Hlast by done. do 2 f_equal. cbn [length]. lia.
Qed.

