(* ===== verification/Prisms.v ===== *)
(** * Prisms: the polarize intents on the operator's board ([tui-agent/src/polarize.rs])

    The console looks for [prism.json] files below the artifacts directory, at most six
    levels deep and never through a symbolic link, reads their payloads and shows the
    newest eight. *)
From S2P Require Import Prelude Text Json Paths Disk Scan Summaries.
From Stdlib Require Import Ascii.

Module PolarizeBand.
Inductive PolarizeBand := Abort | Memo | Pass | Doctrine.
End PolarizeBand.
#[export] Instance PolarizeBand_eq_dec : EqDecision PolarizeBand.PolarizeBand.
Proof. solve_decision. Defined.

Definition from_score (score : N) : PolarizeBand.PolarizeBand :=
  if (score <=? 4)%N then PolarizeBand.Abort
  else if (score <=? 8)%N then PolarizeBand.Memo
  else if (score <=? 12)%N then PolarizeBand.Pass
  else PolarizeBand.Doctrine.
Definition band_label (b : PolarizeBand.PolarizeBand) : string :=
  match b with
  | PolarizeBand.Abort => "abort"
  | PolarizeBand.Memo => "memo"
  | PolarizeBand.Pass => "pass"
  | PolarizeBand.Doctrine => "doctrine"
  end.
Definition recommended_action (b : PolarizeBand.PolarizeBand) : string :=
  match b with
  | PolarizeBand.Abort => "abort before agent dispatch"
  | PolarizeBand.Memo => "memo only"
  | PolarizeBand.Pass => "full polarize pass"
  | PolarizeBand.Doctrine => "doctrine pass with regression contract"
  end.
Definition parse_band (raw : string) : option PolarizeBand.PolarizeBand :=
  let s := to_ascii_lowercase (trim raw) in
  if str_eqb s "abort" then Some PolarizeBand.Abort
  else if str_eqb s "memo" then Some PolarizeBand.Memo
  else if str_eqb s "pass" then Some PolarizeBand.Pass
  else if str_eqb s "doctrine" then Some PolarizeBand.Doctrine
  else None.

Record PolarizeIntent := mkPolarizeIntent {
  pi_band : PolarizeBand.PolarizeBand;
  pi_score : N;
  pi_run_id : string;
  prism_path : string;
}.
Definition intent_summary_line (i : PolarizeIntent) : string :=
  band_label (pi_band i) +:+ " score " +:+ pretty (pi_score i) +:+ " run " +:+ pi_run_id i +:+
  " -> " +:+ recommended_action (pi_band i) +:+ " (" +:+ prism_path i +:+ ")".

Record PrismPayload := mkPrismPayload {
  pp_total_score : option N;
  pp_score : option N;
  pp_run_id : option string;
  pp_band : option string;
  pp_band_action : option string;
}.
Definition payload_of (t s r b a : option Value) : option PrismPayload :=
  t ← de_option (de_uint U64_MODULUS) t;
  s ← de_option (de_uint U64_MODULUS) s;
  r ← de_option de_string r;
  b ← de_option de_string b;
  a ← de_option de_string a;
  Some (mkPrismPayload t s r b a).
(** The derived [Deserialize]; trailing fields of a sequence may be missing. *)
Definition de_payload (v : Value) : option PrismPayload :=
  match v with
  | JObject m =>
      let f k := obj_get k m in
      payload_of (f "total_score") (f "score") (f "run_id") (f "band") (f "band_action")
  | JArray l =>
      if bool_decide (length l ≤ 5)%nat
      then payload_of (l !! 0%nat) (l !! 1%nat) (l !! 2%nat) (l !! 3%nat) (l !! 4%nat) else None
  | _ => None
  end.

Section prisms.
Context (from_str : string → option Value) (d : Disk).

(** ** Finding *)
Definition is_polarize_prism (p : string) : bool :=
  bool_decide ((parent p ≫= parent) ≫= file_name = Some "polarize").

Definition safe_prism_file (p : string) : result string string :=
  if negb (bool_decide (file_name p = Some "prism.json")) then
    Err ("refusing non-prism payload " +:+ p)
  else
    match lstat d p with
    | Err _ => Err ("failed to inspect prism payload " +:+ p)
    | Ok FileKind.File =>
        match canonicalize_path d p with
        | Err _ => Err ("failed to canonicalize prism payload " +:+ p)
        | Ok canonical =>
            if is_polarize_prism canonical then Ok canonical
            else Err ("refusing non-polarize prism payload " +:+ canonical)
        end
    | Ok _ => Err ("refusing unsafe prism payload " +:+ p)
    end.

(** [levels] is [7 - depth]. *)
Fixpoint collect_prisms (levels : nat) (p : string) : list string :=
  match levels with
  | O => []
  | S levels =>
      if negb (is_plain_dir d p) then [] else
      entries_of d p ≫= λ entry,
        if bool_decide (file_name entry = Some "prism.json")
        then match safe_prism_file entry with Ok file => [file] | Err _ => [] end
        else if is_plain_dir d entry then collect_prisms levels entry else []
  end.
Definition discover_prism_files (home : string) : list string :=
  sort_by path_leb (collect_prisms 7 (path_join home "artifacts")).

(** ** Reading *)
Definition read_intent (p : string) : result string PolarizeIntent :=
  try! p := safe_prism_file p in
  try! text := match read_text d p with
               | Ok t => Ok t
               | Err _ => Err ("failed to read prism payload " +:+ p)
               end in
  try! payload := ok_or (from_str text ≫= de_payload) ("failed to parse prism payload " +:+ p) in
  let score := N.min (unwrap_or (opt_or (pp_total_score payload) (pp_score payload)) 0%N) 15 in
  let band := unwrap_or (opt_or (pp_band_action payload ≫= parse_band)
                           (pp_band payload ≫= parse_band)) (from_score score) in
  let run_id := unwrap_or (opt_or (opt_filter (λ v, negb (is_blank v)) (pp_run_id payload))
                             (parent p ≫= file_name)) "unknown" in
  Ok (mkPolarizeIntent band score run_id p).

Definition mtime (p : string) : Z := default 0%Z (modified d p).

(** The newest first; of equally new ones the last identifier first. *)
Definition row_compare (l r : Z * PolarizeIntent) : comparison :=
  match (r.1 ?= l.1)%Z with
  | Eq => String.compare (pi_run_id r.2) (pi_run_id l.2)
  | c => c
  end.
Definition row_le (l r : Z * PolarizeIntent) : bool :=
  match row_compare l r with Gt => false | _ => true end.
Definition intent_rows (home : string) : list (Z * PolarizeIntent) :=
  omap (λ p, (λ i, (mtime p, i)) <$> result_ok (read_intent p)) (discover_prism_files home).
Definition current_intents_from_home (home : string) : list PolarizeIntent :=
  snd <$> sort_by row_le (intent_rows home).
Definition current_intents (home : string) : list PolarizeIntent :=
  take 8 (current_intents_from_home home).

Definition vibecrafted_home (env_home home : option string) : string :=
  match opt_filter (λ v, negb (str_is_empty v)) env_home with
  | Some h => h
  | None => path_join (unwrap_or home ".") ".vibecrafted"
  end.

Definition prism_preview_lines (p : string) : result string (list string) :=
  try! p := safe_prism_file p in
  match read_text d p with
  | Ok text => Ok (preview 400 text)
  | Err _ => Err ("failed to read prism payload " +:+ p)
  end.

(** ** Facts *)

(** [p] is an entry of a directory at most [left] plain directories below [dir]. *)
Inductive below : nat → string → string → Prop :=
| below_here left dir p :
    is_plain_dir d dir = true → p ∈ entries_of d dir → below (S left) dir p
| below_in left dir sub p :
    is_plain_dir d dir = true → sub ∈ entries_of d dir →
    file_name sub ≠ Some "prism.json" → below left sub p → below (S left) dir p.

Lemma collect_prisms_spec left dir file :
  file ∈ collect_prisms left dir ↔
  ∃ p, below left dir p ∧ safe_prism_file p = Ok file.
Proof using.
  revert dir. induction left as [|left IH]; intros dir; cbn [collect_prisms].
  { rewrite elem_of_nil. split; [done|]. intros (p & Hb & _). inversion Hb. }
  destruct (is_plain_dir d dir) eqn:Ed; cbn [negb].
  2:{ rewrite elem_of_nil. split; [done|]. intros (p & Hb & _). inversion Hb; congruence. }
  rewrite list_elem_of_bind. split.
  - intros (entry & Hf & He). case_bool_decide as En.
    + destruct (safe_prism_file entry) as [f|] eqn:Es; [|by apply elem_of_nil in Hf].
      apply list_elem_of_singleton in Hf as ->. exists entry. split; [by apply below_here|done].
    + destruct (is_plain_dir d entry) eqn:Es; [|by apply elem_of_nil in Hf].
      apply IH in Hf as (p & Hb & Hs). exists p. split; [|done]. by apply (below_in _ _ entry).
  - intros (p & Hb & Hs). inversion Hb as [? ? ? _ He|? ? sub ? _ He Hn Hsub]; subst.
    + exists p. split; [|done].
      assert (file_name p = Some "prism.json") as Hn.
      { unfold safe_prism_file in Hs. by case_bool_decide. }
      rewrite bool_decide_true by done. rewrite Hs. by apply list_elem_of_singleton.
    + exists sub. split; [|done]. rewrite bool_decide_false by done.
      assert (is_plain_dir d sub = true) as -> by (by inversion Hsub). apply IH. eauto.
Qed.

Lemma safe_prism_file_Ok p file :
  safe_prism_file p = Ok file →
  file_name p = Some "prism.json" ∧ lstat d p = Ok FileKind.File ∧
  canonicalize_path d p = Ok file ∧ is_polarize_prism file = true.
Proof using.
  unfold safe_prism_file. case_bool_decide; [|done]. cbn [negb].
  destruct (lstat d p) as [[]|]; try done. destruct (canonicalize_path d p) as [c|]; [|done].
  destruct (is_polarize_prism c) eqn:E; [|done]. by intros [= <-].
Qed.

Lemma read_intent_Ok p i :
  read_intent p = Ok i →
  safe_prism_file p = Ok (prism_path i) ∧ (pi_score i ≤ 15)%N ∧
  ∃ text payload, read_text d (prism_path i) = Ok text ∧
    (from_str text ≫= de_payload) = Some payload ∧
    ((pp_band_action payload ≫= parse_band) = None →
     (pp_band payload ≫= parse_band) = None → pi_band i = from_score (pi_score i)).
Proof using Type.
  unfold read_intent. destruct (safe_prism_file p) as [file|]; [|done]. cbn [result_bind].
  destruct (read_text d file) as [text|] eqn:Et; [|done]. cbn [result_bind].
  destruct (from_str text ≫= de_payload) as [payload|] eqn:Ep; [|done]. cbn [ok_or result_bind].
  intros [= <-]. cbn. split_and!; [done|lia|]. exists text, payload. split_and!; [done..|].
  by intros -> ->.
Qed.

Lemma row_compare_opp l r : row_compare l r = CompOpp (row_compare r l).
Proof using Type.
  unfold row_compare. rewrite (Z.compare_antisym r.1 l.1).
  destruct (r.1 ?= l.1)%Z; cbn; [apply String.compare_antisym|done..].
Qed.
Lemma row_le_total l r : row_le l r = true ∨ row_le r l = true.
Proof using Type. unfold row_le. rewrite (row_compare_opp l r). destruct (row_compare r l); naive_solver. Qed.

(** [newer l r]: the file of [l] was modified no earlier than that of [r]. *)
Definition newer (l r : Z * PolarizeIntent) : Prop := (r.1 ≤ l.1)%Z.
#[local] Instance newer_preorder : PreOrder newer.
Proof. split; [intros x | intros x y z]; unfold newer; lia. Qed.
Lemma row_le_newer l r : row_le l r = true → newer l r.
Proof using Type. unfold row_le, row_compare, newer. destruct (Z.compare_spec r.1 l.1); intros Hle; [lia|lia|done]. Qed.

Lemma intent_rows_spec home t i :
  (t, i) ∈ intent_rows home ↔
  ∃ p file, below 7 (path_join home "artifacts") p ∧ safe_prism_file p = Ok file ∧
    read_intent file = Ok i ∧ t = mtime file.
Proof using Type.
  unfold intent_rows, discover_prism_files. rewrite list_elem_of_omap. split.
  - intros (file & Hf & E). rewrite sort_by_perm in Hf.
    apply collect_prisms_spec in Hf as (p & ? & ?).
    destruct (read_intent file) as [i'|] eqn:Er; [|done]. simplify_eq/=. eauto 10.
  - intros (p & file & Hb & Hs & Hr & ->). exists file. rewrite sort_by_perm, Hr. split; [|done].
    apply collect_prisms_spec. eauto.
Qed.

(** The intents on the board.  At most eight are shown, the most recently modified
    first.  Each comes from a regular [prism.json] at most six directories below [artifacts], none of them a
    link, in a directory two below one named [polarize] once all links are
    resolved, and its score is at most 15; and an intent that could be read and is not
    shown is no newer than any of the eight that are. *)
Theorem board_shows_the_newest_prisms home :
  ∃ shown : list (Z * PolarizeIntent),
    snd <$> shown = current_intents home ∧ (length shown ≤ 8)%nat ∧
    (∀ i j a b, shown !! i = Some a → shown !! j = Some b → (i ≤ j)%nat → (b.1 ≤ a.1)%Z) ∧
    (∀ t i, (t, i) ∈ shown → (pi_score i ≤ 15)%N ∧ is_polarize_prism (prism_path i) = true ∧
       ∃ p file, below 7 (path_join home "artifacts") p ∧ file_name p = Some "prism.json" ∧
         lstat d p = Ok FileKind.File ∧ canonicalize_path d p = Ok file ∧
         read_intent file = Ok i ∧ t = mtime file) ∧
    (∀ p file i, below 7 (path_join home "artifacts") p → safe_prism_file p = Ok file →
       read_intent file = Ok i →
       (mtime file, i) ∈ shown ∨
       length shown = 8%nat ∧ Forall (λ row, mtime file ≤ row.1)%Z shown).
Proof using Type.
  set (rows := sort_by row_le (intent_rows home)).
  assert (ordered row_le rows) as Ho by (apply sort_by_ordered, row_le_total).
  assert (∀ row, row ∈ rows ↔ row ∈ intent_rows home) as Hrows by (intros; unfold rows; by rewrite sort_by_perm).
  exists (take 8 rows). split_and!.
  - unfold current_intents, current_intents_from_home. by rewrite fmap_take.
  - rewrite length_take. lia.
  - intros i j a b [Ha _]%lookup_take_Some [Hb _]%lookup_take_Some Hij.
    by apply (ordered_later row_le newer rows i j a b row_le_newer).
  - intros t i Hi%elem_of_take. destruct Hi as (k & Hk & _).
    apply list_elem_of_lookup_2, Hrows, intent_rows_spec in Hk as (p & file & ? & Hs & Hr & ->).
    pose proof (safe_prism_file_Ok _ _ Hs) as (? & ? & ? & _).
    pose proof (read_intent_Ok _ _ Hr) as (Hs' & ? & _).
    apply safe_prism_file_Ok in Hs' as (_ & _ & _ & ?). split_and!; [done..|].
    exists p, file. by split_and!.
  - intros p file i Hb Hs Hr.
    apply (ordered_take row_le newer rows 8 (mtime file, i) row_le_newer Ho).
    apply Hrows, intent_rows_spec. exists p, file. by split_and!.
Qed.
End prisms.
