(* ===== verification/Launch.v ===== *)
(** * Launch: starting agents from the operator console
    ([tui-agent/src/launch.rs], [tui-agent/src/skills_catalog.rs])

    A request becomes the command line of the deck script, run directly or inside a
    terminal multiplexer, in whose layout it is quoted twice: for the shell of the pane
    and for KDL.  Before a launch the mux is asked whether the client's servers all go
    through it. *)
From S2P Require Import Prelude Text Json Shared MuxState Paths Scan Ipc Shell.
From Stdlib Require Import Ascii.

Module LaunchKind.
Inductive LaunchKind := Workflow | Research | Review | Marbles.
End LaunchKind.
Module LaunchRuntime.
Inductive LaunchRuntime := Headless | Terminal | Visible.
End LaunchRuntime.
#[export] Instance LaunchKind_eq_dec : EqDecision LaunchKind.LaunchKind.
Proof. solve_decision. Defined.
#[export] Instance LaunchRuntime_eq_dec : EqDecision LaunchRuntime.LaunchRuntime.
Proof. solve_decision. Defined.

Definition kind_label (k : LaunchKind.LaunchKind) : string :=
  match k with
  | LaunchKind.Workflow => "workflow"
  | LaunchKind.Research => "research"
  | LaunchKind.Review => "review"
  | LaunchKind.Marbles => "marbles"
  end.
Definition human_title (k : LaunchKind.LaunchKind) : string :=
  match k with
  | LaunchKind.Workflow => "Workflow"
  | LaunchKind.Research => "Research swarm"
  | LaunchKind.Review => "Review"
  | LaunchKind.Marbles => "Marbles loop"
  end.
Definition human_description (k : LaunchKind.LaunchKind) : string :=
  match k with
  | LaunchKind.Workflow => "Best default. Examine the surface, plan the cut, then implement."
  | LaunchKind.Research => "Send a research pass first when the shape is still unclear."
  | LaunchKind.Review => "Audit an existing surface for risk, regressions, and weak claims."
  | LaunchKind.Marbles => "Run convergence loops when the code works but still lies or drifts."
  end.

Definition runtime_label (r : LaunchRuntime.LaunchRuntime) : string :=
  match r with
  | LaunchRuntime.Headless => "headless"
  | LaunchRuntime.Terminal => "terminal"
  | LaunchRuntime.Visible => "visible"
  end.
Definition cycle (r : LaunchRuntime.LaunchRuntime) : LaunchRuntime.LaunchRuntime :=
  match r with
  | LaunchRuntime.Headless => LaunchRuntime.Terminal
  | LaunchRuntime.Terminal => LaunchRuntime.Visible
  | LaunchRuntime.Visible => LaunchRuntime.Headless
  end.
(** [impl FromStr for LaunchRuntime]. *)
Definition runtime_from_str (raw : string) : result string LaunchRuntime.LaunchRuntime :=
  let lower := to_ascii_lowercase (trim raw) in
  if str_eqb lower "headless" then Ok LaunchRuntime.Headless
  else if str_eqb lower "terminal" then Ok LaunchRuntime.Terminal
  else if str_eqb lower "visible" then Ok LaunchRuntime.Visible
  else Err ("unsupported runtime: " +:+ lower +:+ " (expected headless|terminal|visible)").

(** [BTreeMap<String, OsString>]: its entries in the order of the keys. *)
Definition Env : Type := list (string * string).

Record LaunchRequest := mkLaunchRequest {
  lr_kind : LaunchKind.LaunchKind;
  lr_agent : string;
  lr_prompt : string;
  lr_runtime : LaunchRuntime.LaunchRuntime;
  lr_root : option string;
  lr_terminal_binary : option string;
  lr_env : Env;
  lr_count : option N;
  lr_depth : option N;
  lr_session_name : option string;
}.
Record LaunchCommand := mkLaunchCommand {
  lc_program : string;
  lc_args : list string;
  lc_env : Env;
}.
(** [spawn], [spawn_detached] and [spawn_interactive_with_stderr] differ in what the child's
    standard streams are. *)
Module Stdio.
Inductive Stdio := Inherit | Null | Piped.
End Stdio.
Record Child := mkChild {
  ch_command : LaunchCommand;
  ch_stdin : Stdio.Stdio;
  ch_stdout : Stdio.Stdio;
  ch_stderr : Stdio.Stdio;
}.
Definition spawn (c : LaunchCommand) : Child := mkChild c Stdio.Inherit Stdio.Inherit Stdio.Inherit.
Definition spawn_detached (c : LaunchCommand) : Child := mkChild c Stdio.Null Stdio.Null Stdio.Null.
Definition spawn_interactive_with_stderr (c : LaunchCommand) : Child :=
  mkChild c Stdio.Inherit Stdio.Inherit Stdio.Piped.

Record LaunchReadinessProbe := mkLaunchReadinessProbe {
  lp_program : string;
  lp_args : list string;
  lp_env : Env;
  lp_session_name : string;
}.

Definition command_line (c : LaunchCommand) : string := join " " (lc_program c :: lc_args c).

(** ** The readiness probe *)

(** [args.windows(2).find(|pair| pair[0] == flag)], its second element. *)
Fixpoint value_after (flag : string) (args : list string) : option string :=
  match args with
  | a :: (b :: _) as rest => if str_eqb a flag then Some b else value_after flag rest
  | _ => None
  end.

Definition readiness_probe (c : LaunchCommand) : option LaunchReadinessProbe :=
  session_name ← value_after "--session" (lc_args c);
  let config := match value_after "--config-dir" (lc_args c) with
                | Some dir => ["--config-dir"; dir]
                | None => []
                end in
  Some (mkLaunchReadinessProbe (lc_program c)
          (config ++ ["list-sessions"; "--short"; "--no-formatting"]) (lc_env c) session_name).

(** The output of the probe's process: exit status, standard output and error. *)
Record Output := mkOutput { out_success : bool; out_status : string; out_stdout : string; out_stderr : string }.

Definition is_session_visible (p : LaunchReadinessProbe) (output : result string Output) :
    result string bool :=
  match output with
  | Err _ => Err "failed to run zellij readiness probe"
  | Ok o =>
      if negb (out_success o) then
        if negb (is_blank (out_stderr o))
        then Err ("zellij readiness probe exited with " +:+ out_status o +:+ ": " +:+
                  trim (out_stderr o))
        else Ok false
      else Ok (any (λ line, str_eqb (trim line) (lp_session_name p)) (str_lines (out_stdout o)))
  end.

(** ** Quoting *)
Definition shell_quote (raw : string) : string :=
  "'" +:+ replace_char squote ("'" +:+ String dquote ("'" +:+ String dquote "'")) raw +:+ "'".
Definition shell_name (raw : string) : string :=
  str_filter (λ c, is_ascii_alphanumeric c || bool_decide (c = "_"%char)) raw.
Definition kdl_quote (raw : string) : string :=
  let escaped := replace_char newline (String backslash "n")
    (replace_char dquote (String backslash (String dquote ""))
       (replace_char backslash (String backslash (String backslash "")) raw)) in
  String dquote (escaped +:+ String dquote "").
Definition shell_join (program : string) (args : list string) : string :=
  join " " (shell_quote program :: (shell_quote <$> args)).

(** ** Commands *)
Definition prompt_args (prompt : string) : list string :=
  if negb (is_blank prompt) then ["--prompt"; prompt] else [].

Definition build_deck_launch_command (deck : string) (r : LaunchRequest) : LaunchCommand :=
  let args := kind_label (lr_kind r) ::
    match lr_kind r with
    | LaunchKind.Workflow | LaunchKind.Review => lr_agent r :: prompt_args (lr_prompt r)
    | LaunchKind.Research => prompt_args (lr_prompt r)
    | LaunchKind.Marbles =>
        [lr_agent r; "--count"; pretty (unwrap_or (lr_count r) 3%N);
         "--depth"; pretty (unwrap_or (lr_depth r) 3%N)] ++ prompt_args (lr_prompt r)
    end in
  let args := args ++ ["--runtime"; runtime_label (lr_runtime r)] in
  let args := args ++ match lr_root r with Some root => ["--root"; root] | None => [] end in
  mkLaunchCommand deck args (lr_env r).

Definition tooling_profile_snippets : list string := [
  "if command -v starship >/dev/null 2>&1; then eval " +:+ String dquote ("$(starship init bash)" +:+ String dquote "; fi");
  "if command -v zoxide >/dev/null 2>&1; then eval " +:+ String dquote ("$(zoxide init bash)" +:+ String dquote "; fi");
  "if command -v atuin >/dev/null 2>&1; then eval " +:+ String dquote ("$(atuin init bash --disable-up-arrow)" +:+ String dquote "; fi")
].

Section terminal.
(** The environment's [ZELLIJ_CONFIG_DIR] and the test for a regular file. *)
Context (zellij_config_dir : option string) (is_file : string → bool).

Definition resolved_zellij_config_dir (root : option string) : option string :=
  match opt_filter (λ v, negb (str_is_empty v)) zellij_config_dir with
  | Some explicit => Some explicit
  | None =>
      root ← root;
      let repo_config_dir := path_join root "config/zellij" in
      if is_file (path_join repo_config_dir "config.kdl") then Some repo_config_dir else None
  end.

Definition build_pane_shell_command (deck : string) (r : LaunchRequest) : string :=
  let parts := match resolved_zellij_config_dir (lr_root r) with
               | Some dir => ["export ZELLIJ_CONFIG_DIR=" +:+ shell_quote dir]
               | None => []
               end in
  let parts := parts ++ ((λ kv, "export " +:+ shell_name kv.1 +:+ "=" +:+ shell_quote kv.2) <$> lr_env r) in
  let parts := parts ++ tooling_profile_snippets in
  let parts := parts ++ ["exec " +:+ shell_join deck (lc_args (build_deck_launch_command deck r))] in
  join "; " parts.

Definition layout_head (r : LaunchRequest) : string :=
  "layout { tab name=" +:+ kdl_quote ("Operator " +:+ human_title (lr_kind r)) +:+
  " focus=true { pane name=" +:+ kdl_quote "launch" +:+ " focus=true command=" +:+
  kdl_quote "bash" +:+ " " +:+
  match lr_root r with Some root => "cwd=" +:+ kdl_quote root +:+ " " | None => "" end.

Definition build_zellij_layout_string (deck : string) (r : LaunchRequest) : string :=
  layout_head r +:+ "{ args " +:+ kdl_quote "-lc" +:+ " " +:+
  kdl_quote (build_pane_shell_command deck r) +:+ " } } } }".

Definition build_terminal_launch_command (deck : string) (r : LaunchRequest) : LaunchCommand :=
  let args := match lr_session_name r with Some name => ["--session"; name] | None => [] end in
  let args := args ++ ["options"] in
  let args := args ++ match resolved_zellij_config_dir (lr_root r) with
                      | Some dir => ["--config-dir"; dir]
                      | None => []
                      end in
  let args := args ++ ["--layout-string"; build_zellij_layout_string deck r] in
  mkLaunchCommand (unwrap_or (lr_terminal_binary r) "zellij") args (lr_env r).

Definition build_launch_command (deck : string) (r : LaunchRequest) : LaunchCommand :=
  match lr_runtime r with
  | LaunchRuntime.Terminal | LaunchRuntime.Visible => build_terminal_launch_command deck r
  | LaunchRuntime.Headless => build_deck_launch_command deck r
  end.
End terminal.

(** ** The gate *)
Inductive VerifyHalt := Drift (entries : list NonMuxEntry) | Timeout.

(** [connects]: a mux listens on the control socket; [encode] and [decode] are the JSON
    of commands and responses; [exchange line] is the line it answers, [None] when
    writing or reading fails. *)
Definition pre_launch_verify (connects : bool) (encode : MuxControlCommand → option string)
    (exchange : string → option string) (decode : string → option MuxControlResponse)
    (k : ClientKind.ClientKind) : result VerifyHalt unit :=
  if negb connects then Ok tt else
  match encode (Verify k) with
  | None => Ok tt
  | Some json =>
      match opt_filter (λ l, negb (str_is_empty l)) (exchange json) with
      | None => Err Timeout
      | Some response_line =>
          match decode response_line with
          | Some (RVerify res) =>
              if negb (vr_ok res) then Err (Drift (vr_non_mux_servers res)) else Ok tt
          | _ => Ok tt
          end
      end
  end.

(** ** Skills *)
Module SkillAgent.
Inductive SkillAgent := Claude | Codex | Gemini | Any.
End SkillAgent.
Inductive SkillPayload := Prompt (prompt : string) | File (path : string) | NoPayload.
Inductive SkillPayloadKind := Optional | PromptOrFile | NoPayloadKind.

Definition agent_label (a : SkillAgent.SkillAgent) : string :=
  match a with
  | SkillAgent.Claude => "claude"
  | SkillAgent.Codex => "codex"
  | SkillAgent.Gemini => "gemini"
  | SkillAgent.Any => "any"
  end.
Definition from_cli_token (raw : string) : SkillAgent.SkillAgent :=
  if str_eqb raw "claude" then SkillAgent.Claude
  else if str_eqb raw "gemini" then SkillAgent.Gemini
  else if str_eqb raw "codex" then SkillAgent.Codex
  else SkillAgent.Any.
Definition resolved_cli_token (self fallback : SkillAgent.SkillAgent) : string :=
  match self with
  | SkillAgent.Claude => "claude"
  | SkillAgent.Codex => "codex"
  | SkillAgent.Gemini => "gemini"
  | SkillAgent.Any =>
      match fallback with
      | SkillAgent.Claude => "claude"
      | SkillAgent.Gemini => "gemini"
      | _ => "codex"
      end
  end.

Record SkillEntry := mkSkillEntry {
  slug : string;
  display : string;
  one_line : string;
  default_agent : SkillAgent.SkillAgent;
  accepts : SkillPayloadKind;
}.

Definition CATALOG : list SkillEntry :=
  let any s d o := mkSkillEntry s d o SkillAgent.Any PromptOrFile in [
  mkSkillEntry "vc-init" "Init" "Technical due diligence" SkillAgent.Any Optional;
  any "vc-workflow" "Workflow" "Examine, research, implement";
  any "vc-research" "Research" "Standalone research pass";
  any "vc-review" "Review" "Bounded review pipeline";
  any "vc-marbles" "Marbles" "Truth convergence loop";
  mkSkillEntry "vc-polarize" "Polarize" "One sharp truth after marbles" SkillAgent.Codex PromptOrFile;
  any "vc-dou" "DoU" "Definition of Undone audit";
  any "vc-hydrate" "Hydrate" "Package and GTM hydration";
  any "vc-decorate" "Decorate" "Late-stage visual finish";
  any "vc-release" "Release" "Outward ship path";
  any "vc-ownership" "Ownership" "Full-spectrum ownership mode";
  any "vc-partner" "Partner" "Executive debugging partner";
  any "vc-followup" "Followup" "Post-implementation audit";
  any "vc-prune" "Prune" "Repository curation";
  any "vc-intents" "Intents" "Intent-to-runtime truth audit";
  any "vc-scaffold" "Scaffold" "Founder-first architecture plan";
  any "vc-implement" "Implement" "End-to-end implementation";
  any "vc-justdo" "JustDo" "Implement alias";
  any "vc-delegate" "Delegate" "Bounded native delegation";
  any "vc-agents" "Agents" "External agent fleet entry"
].

(** [None] is the panic of [expect("catalog slugs must be vc-*")]. *)
Definition command_token (e : SkillEntry) : option string := strip_prefix "vc-" (slug e).
Definition emphasized (e : SkillEntry) : bool := str_eqb (slug e) "vc-polarize".
Definition catalog_entry (s : string) : option SkillEntry :=
  List.find (λ e, str_eqb (slug e) s) CATALOG.

Definition build_skill_launch_command (deck skill : string)
    (agent fallback_agent : SkillAgent.SkillAgent) (payload : SkillPayload) (env : Env) :
    LaunchCommand :=
  let command_skill := unwrap_or (strip_prefix "vc-" skill) skill in
  let args := [command_skill; resolved_cli_token agent fallback_agent] ++
    match payload with
    | Prompt prompt => if negb (is_blank prompt) then ["--prompt"; prompt] else []
    | File path => ["--file"; path]
    | NoPayload => []
    end in
  mkLaunchCommand deck args env.

(** ** Facts about the quoting *)
Lemma launch_quote_reads_as raw : reads_as (shell_quote raw) raw.
Proof. by apply squoted_reads_as. Qed.

Lemma shell_join_words program args : shell_words (shell_join program args) = Some (program :: args).
Proof.
  apply (join_words shell_quote (program :: args)); [apply launch_quote_reads_as|].
  intros w. by eexists.
Qed.

(** The escape of one character. *)
Definition kdl_char (c : ascii) : string :=
  if bool_decide (c = backslash) then String backslash (String backslash "")
  else if bool_decide (c = dquote) then String backslash (String dquote "")
  else if bool_decide (c = newline) then String backslash "n"
  else String c "".

Lemma replace_char_app c b s t :
  replace_char c b (s +:+ t) = replace_char c b s +:+ replace_char c b t.
Proof.
  induction s as [|a s IH]; [done|].
  change (String a s +:+ t) with (String a (s +:+ t)). cbn [replace_char]. rewrite IH.
  case_bool_decide; [apply str_app_assoc|done].
Qed.

Lemma kdl_escaped_cons c raw :
  replace_char newline (String backslash "n")
    (replace_char dquote (String backslash (String dquote ""))
       (replace_char backslash (String backslash (String backslash "")) (String c raw))) =
  kdl_char c +:+
  replace_char newline (String backslash "n")
    (replace_char dquote (String backslash (String dquote ""))
       (replace_char backslash (String backslash (String backslash "")) raw)).
Proof.
  cbn [replace_char]. unfold kdl_char. case_bool_decide; [by subst|].
  cbn [replace_char]. case_bool_decide; [by subst|].
  cbn [replace_char]. case_bool_decide; [by subst|done].
Qed.

Lemma kdl_body_char c s :
  kdl_body (kdl_char c +:+ s) = (λ r, (String c r.1, r.2)) <$> kdl_body s.
Proof.
  unfold kdl_char. case_bool_decide as E1; [by subst|].
  case_bool_decide as E2; [by subst|]. case_bool_decide as E3; [by subst|].
  change (String c "" +:+ s) with (String c s). cbn [kdl_body].
  by rewrite !bool_decide_false.
Qed.

Lemma kdl_quote_read raw rest : kdl_string (kdl_quote raw +:+ rest) = Some (raw, rest).
Proof.
  unfold kdl_quote.
  match goal with |- context [String dquote (?e +:+ _)] => set (escaped := e) end.
  change (String dquote (escaped +:+ String dquote "") +:+ rest) with
    (String dquote ((escaped +:+ String dquote "") +:+ rest)).
  cbn [kdl_string]. rewrite bool_decide_true by done. rewrite <- str_app_assoc.
  change (String dquote "" +:+ rest) with (String dquote rest). subst escaped.
  induction raw as [|c raw IH].
  - change (kdl_body (String dquote rest) = Some ("", rest)). cbn [kdl_body].
    by rewrite bool_decide_true.
  - rewrite kdl_escaped_cons, <- str_app_assoc, kdl_body_char, IH. done.
Qed.

Lemma join_snoc sep l x : l ≠ [] → join sep (l ++ [x]) = join sep l +:+ sep +:+ x.
Proof.
  induction l as [|a [|b l] IH]; intros Hl; [done|done|].
  change (join sep ((a :: b :: l) ++ [x])) with (a +:+ sep +:+ join sep ((b :: l) ++ [x])).
  rewrite IH by done. change (join sep (a :: b :: l)) with (a +:+ sep +:+ join sep (b :: l)).
  by rewrite !str_app_assoc.
Qed.

(** ** Properties *)
Section properties.
Context (zellij_config_dir : option string) (is_file : string → bool).


(** The readiness probe asks for the session that the launch started, with the same
    program and the same configuration directory. *)
Theorem probe_matches_launch deck r name :
  lr_runtime r ≠ LaunchRuntime.Headless → lr_session_name r = Some name →
  name ≠ "--config-dir" →
  ∃ p, readiness_probe (build_launch_command zellij_config_dir is_file deck r) = Some p ∧
    lp_session_name p = name ∧
    lp_program p = lc_program (build_launch_command zellij_config_dir is_file deck r) ∧
    lp_env p = lr_env r ∧
    value_after "--config-dir" (lp_args p) =
      resolved_zellij_config_dir zellij_config_dir is_file (lr_root r).
Proof using.
  intros Hrt Hn Hne.
  assert (build_launch_command zellij_config_dir is_file deck r =
    build_terminal_launch_command zellij_config_dir is_file deck r) as ->.
  { unfold build_launch_command. destruct (lr_runtime r) eqn:E; done. }
  unfold readiness_probe, build_terminal_launch_command. rewrite Hn. cbn [lc_args lc_program lc_env].
  generalize (build_zellij_layout_string zellij_config_dir is_file deck r). intros layout.
  assert (str_eqb name "--config-dir" = false) as Hs by by apply bool_decide_eq_false.
  eexists. split; [reflexivity|]. cbn [lp_session_name lp_program lp_env lp_args].
  split_and!; try done.
  destruct (resolved_zellij_config_dir zellij_config_dir is_file (lr_root r)) as [dir|];
    cbn [app value_after]; rewrite Hs; done.
Qed.
End properties.

