(* ===== verification/ConsoleConfig.v ===== *)
(** * ConsoleConfig: the operator console's command line and its defaults
    ([tui-agent/src/config.rs])

    Arguments are read from left to right, a later one replacing an earlier one; what
    was not given is looked up in the environment. *)
From S2P Require Import Prelude Text Paths Launch.
From Stdlib Require Import Ascii.

Record CliOptions := mkCliOptions {
  opt_state_root : option string;
  opt_command_deck : option string;
  opt_launch_root : option string;
  opt_launch_runtime : option LaunchRuntime.LaunchRuntime;
  opt_terminal_binary : option string;
  opt_tick_ms : N;
  opt_no_verify_gate : bool;
}.
#[export] Instance CliOptions_eta : Eta CliOptions := fun r =>
  mkCliOptions (opt_state_root r) (opt_command_deck r) (opt_launch_root r) (opt_launch_runtime r)
    (opt_terminal_binary r) (opt_tick_ms r) (opt_no_verify_gate r).

(** [impl Default for CliOptions]. *)
Definition default_options : CliOptions := mkCliOptions None None None None None 250 false.

Record AppConfig := mkAppConfig {
  state_root : string;
  command_deck : string;
  launch_root : string;
  cfg_launch_runtime : LaunchRuntime.LaunchRuntime;
  terminal_binary : string;
  tick_rate : N;  (* milliseconds *)
  no_verify_gate : bool;
}.

(** ** Arguments *)
Inductive ArgError :=
| MissingValue (flag : string)       (* "<flag> requires a value" *)
| BadRuntime (message : string)
| BadNumber (value : string)
| UnknownArgument (arg : string).    (* "unknown argument: <arg>" *)

(** What the arguments ask for; [--help] prints and exits at once. *)
Inductive Request := ShowHelp | Start (options : CliOptions).

(** [s.trim_start_matches(p)]: every leading copy is removed; [fuel]: the length of [s]. *)
Fixpoint trim_prefixes (fuel : nat) (p s : string) : string :=
  match fuel, strip_prefix p s with
  | S fuel, Some s => trim_prefixes fuel p s
  | _, _ => s
  end.
Definition trim_start_matches (p s : string) : string := trim_prefixes (String.length s) p s.
(** [arg.split_once('=')], the second part. *)
Definition after_equals (arg : string) : string := unwrap_or (after_first "=" arg) "".

Definition set_runtime (o : CliOptions) (value : string) : result ArgError CliOptions :=
  match runtime_from_str value with
  | Ok r => Ok (o <| opt_launch_runtime := Some r |>)
  | Err e => Err (BadRuntime e)
  end.
Definition set_tick_ms (o : CliOptions) (value : string) : result ArgError CliOptions :=
  match parse_u64 value with
  | Some n => Ok (o <| opt_tick_ms := n |>)
  | None => Err (BadNumber value)
  end.

(** The flags that take the next argument, with the name their error gives them. *)
Definition value_flag (o : CliOptions) (arg : string) :
    option (string * (string → result ArgError CliOptions)) :=
  if str_eqb arg "--state-root" then
    Some ("--state-root", λ v, Ok (o <| opt_state_root := Some v |>))
  else if str_eqb arg "--deck" || str_eqb arg "--command-deck" then
    Some ("--deck", λ v, Ok (o <| opt_command_deck := Some v |>))
  else if str_eqb arg "--root" then
    Some ("--root", λ v, Ok (o <| opt_launch_root := Some v |>))
  else if str_eqb arg "--runtime" then Some ("--runtime", set_runtime o)
  else if str_eqb arg "--terminal-binary" || str_eqb arg "--zellij" then
    Some ("--terminal-binary", λ v, Ok (o <| opt_terminal_binary := Some v |>))
  else if str_eqb arg "--tick-ms" then Some ("--tick-ms", set_tick_ms o)
  else None.

(** The arguments that stand alone. *)
Definition single_flag (o : CliOptions) (arg : string) : result ArgError CliOptions :=
  if starts_with arg "--state-root=" then
    Ok (o <| opt_state_root := Some (trim_start_matches "--state-root=" arg) |>)
  else if starts_with arg "--deck=" || starts_with arg "--command-deck=" then
    Ok (o <| opt_command_deck := Some (after_equals arg) |>)
  else if starts_with arg "--root=" then
    Ok (o <| opt_launch_root := Some (trim_start_matches "--root=" arg) |>)
  else if starts_with arg "--runtime=" then set_runtime o (after_equals arg)
  else if starts_with arg "--terminal-binary=" || starts_with arg "--zellij=" then
    Ok (o <| opt_terminal_binary := Some (after_equals arg) |>)
  else if str_eqb arg "--no-verify-gate" then Ok (o <| opt_no_verify_gate := true |>)
  else Err (UnknownArgument arg).

(** [parse_args], from the second element of [env::args()]. *)
Fixpoint parse_args (o : CliOptions) (args : list string) : result ArgError Request :=
  match args with
  | [] => Ok (Start o)
  | arg :: args =>
      if str_eqb arg "--help" || str_eqb arg "-h" then Ok ShowHelp else
      match value_flag o arg with
      | Some (flag, set) =>
          match args with
          | [] => Err (MissingValue flag)
          | value :: args => try! o := set value in parse_args o args
          end
      | None => try! o := single_flag o arg in parse_args o args
      end
  end.

(** ** Defaults *)
Record Environment := mkEnvironment {
  var_os : string → option string;
  path_exists : string → bool;
  current_dir : option string;  (* [None]: it cannot be read *)
  manifest_dir : string;        (* [CARGO_MANIFEST_DIR], fixed when the console is built *)
}.

Section defaults.
Context (e : Environment).

Definition non_empty_var (k : string) : option string :=
  opt_filter (λ v, negb (str_is_empty v)) (var_os e k).
Definition home_dir : string := unwrap_or (var_os e "HOME") ".".
Definition default_vibecrafted_home : string :=
  unwrap_or (non_empty_var "VIBECRAFTED_HOME") (path_join home_dir ".vibecrafted").
Definition default_state_root : string :=
  let home := default_vibecrafted_home in
  unwrap_or (List.find (path_exists e)
    [path_join home "control_plane"; path_join home "state/control-plane";
     path_join home "state"; path_join home "control-plane"]) (path_join home "control_plane").
Definition default_command_deck : string :=
  let repo_candidate := path_join (manifest_dir e) "../scripts/vibecrafted" in
  if path_exists e repo_candidate then repo_candidate else "vibecrafted".
Definition default_terminal_binary : string :=
  unwrap_or (non_empty_var "VIBECRAFTED_TERMINAL_BINARY") "zellij".
Definition default_launch_root (deck : string) : string :=
  match non_empty_var "VIBECRAFTED_ROOT" with
  | Some value => value
  | None =>
      let root := if bool_decide (file_name deck = Some "vibecrafted") &&
                     bool_decide (parent deck ≫= file_name = Some "scripts")
                  then parent deck ≫= parent else None in
      match root with
      | Some root => root
      | None => unwrap_or (current_dir e) "."
      end
  end.

Definition build_config (o : CliOptions) : AppConfig :=
  let deck := unwrap_or (opt_command_deck o) default_command_deck in
  {| state_root := unwrap_or (opt_state_root o) default_state_root;
     command_deck := deck;
     launch_root := unwrap_or (opt_launch_root o) (default_launch_root deck);
     cfg_launch_runtime := unwrap_or (opt_launch_runtime o) LaunchRuntime.Terminal;
     terminal_binary := unwrap_or (opt_terminal_binary o) default_terminal_binary;
     tick_rate := N.max (opt_tick_ms o) 50;
     no_verify_gate := opt_no_verify_gate o |}.
End defaults.

(** ** The help text *)
Definition print_help : list string :=
  ["Vibecrafted operator console";
   "";
   "Usage:";
   "  vibecrafted-operator [--state-root <dir>] [--deck <path>] [--root <path>] [--runtime <headless|terminal|visible>] [--tick-ms <ms>]";
   "  vc-operator           [--state-root <dir>] [--deck <path>] [--root <path>] [--runtime <headless|terminal|visible>] [--tick-ms <ms>]";
   "";
   "Options:";
   "  --state-root <dir>   Control-plane state root under VIBECRAFTED_HOME";
   "  --deck <path>        Command deck binary or script to launch workflows";
   "  --root <path>        Workspace root passed through to launched workflows";
   "  --runtime <kind>     Launch runtime (headless|terminal|visible)";
   "  --terminal-binary <path>  Terminal multiplexer binary (default: zellij)";
   "  --tick-ms <ms>       Refresh cadence for the TUI (default: 250)"].

(** ** The arguments that ask for given options *)
Definition valued {A} (flag : string) (show : A → string) (x : option A) : list string :=
  match x with Some x => [flag; show x] | None => [] end.
Definition arguments_of (o : CliOptions) : list string :=
  valued "--state-root" id (opt_state_root o) ++ valued "--deck" id (opt_command_deck o) ++
  valued "--root" id (opt_launch_root o) ++ valued "--runtime" runtime_label (opt_launch_runtime o) ++
  valued "--terminal-binary" id (opt_terminal_binary o) ++
  valued "--tick-ms" pretty (Some (opt_tick_ms o)) ++
  (if opt_no_verify_gate o then ["--no-verify-gate"] else []).
(** [o], where it says something, in place of [o0]. *)
Definition override (o0 o : CliOptions) : CliOptions :=
  {| opt_state_root := opt_or (opt_state_root o) (opt_state_root o0);
     opt_command_deck := opt_or (opt_command_deck o) (opt_command_deck o0);
     opt_launch_root := opt_or (opt_launch_root o) (opt_launch_root o0);
     opt_launch_runtime := opt_or (opt_launch_runtime o) (opt_launch_runtime o0);
     opt_terminal_binary := opt_or (opt_terminal_binary o) (opt_terminal_binary o0);
     opt_tick_ms := opt_tick_ms o;
     opt_no_verify_gate := opt_no_verify_gate o0 || opt_no_verify_gate o |}.

(** A flag with its value is consumed whole. *)
Lemma parse_valued {A} flag (show : A → string) (upd : A → CliOptions) (x : option A) o rest name set :
  str_eqb flag "--help" || str_eqb flag "-h" = false →
  value_flag o flag = Some (name, set) → (∀ v, x = Some v → set (show v) = Ok (upd v)) →
  parse_args o (valued flag show x ++ rest) =
    parse_args match x with Some v => upd v | None => o end rest.
Proof.
  intros Hh Hf Hs. destruct x as [v|]; [|done]. cbn [valued app parse_args].
  by rewrite Hh, Hf, (Hs v).
Qed.

Lemma runtime_label_parses r : runtime_from_str (runtime_label r) = Ok r.
Proof. by destruct r. Qed.

Lemma parse_arguments_of o o0 rest :
  (opt_tick_ms o < U64_MODULUS)%N →
  parse_args o0 (arguments_of o ++ rest) = parse_args (override o0 o) rest.
Proof.
  intros Ht. destruct o as [s d r l t n g]. cbn [opt_tick_ms] in Ht. unfold arguments_of, override.
  cbn [opt_state_root opt_command_deck opt_launch_root opt_launch_runtime opt_terminal_binary
    opt_tick_ms opt_no_verify_gate]. rewrite <- !app_assoc.
  rewrite (parse_valued "--state-root" id (λ v, o0 <| opt_state_root := Some v |>)
    s o0 _ _ _ eq_refl eq_refl) by reflexivity. set (o1 := match s with Some _ => _ | None => _ end).
  rewrite (parse_valued "--deck" id (λ v, o1 <| opt_command_deck := Some v |>)
    d o1 _ _ _ eq_refl eq_refl) by reflexivity. set (o2 := match d with Some _ => _ | None => _ end).
  rewrite (parse_valued "--root" id (λ v, o2 <| opt_launch_root := Some v |>)
    r o2 _ _ _ eq_refl eq_refl) by reflexivity. set (o3 := match r with Some _ => _ | None => _ end).
  rewrite (parse_valued "--runtime" runtime_label (λ v, o3 <| opt_launch_runtime := Some v |>)
    l o3 _ _ _ eq_refl eq_refl) by (intros; unfold set_runtime; by rewrite runtime_label_parses).
  set (o4 := match l with Some _ => _ | None => _ end).
  rewrite (parse_valued "--terminal-binary" id (λ v, o4 <| opt_terminal_binary := Some v |>)
    t o4 _ _ _ eq_refl eq_refl) by reflexivity. set (o5 := match t with Some _ => _ | None => _ end).
  rewrite (parse_valued "--tick-ms" pretty (λ v, o5 <| opt_tick_ms := v |>) (Some n) o5 _ _ _ eq_refl eq_refl)
    by (intros v [= <-]; unfold set_tick_ms; by rewrite parse_u64_pretty).
  subst o1 o2 o3 o4 o5. destruct o0 as [s0 d0 r0 l0 t0 n0 g0].
  destruct g; [change (?a ++ rest) with ("--no-verify-gate" :: rest);
    cbn [parse_args value_flag single_flag]; change (str_eqb _ _ || _) with false | rewrite app_nil_l].
  all: destruct s, d, r, l, t, g0; reflexivity.
Qed.

(** The command line says what it is given to say: whatever options are wanted, their
    arguments are read back as these options, replacing what earlier arguments asked for
    and leaving the rest to the later ones. *)
Theorem arguments_roundtrip o :
  (opt_tick_ms o < U64_MODULUS)%N →
  parse_args default_options (arguments_of o) = Ok (Start o) ∧
  ∀ o0 rest, parse_args o0 (arguments_of o ++ rest) = parse_args (override o0 o) rest.
Proof.
  intros Ht. split; [|intros; by apply parse_arguments_of].
  rewrite <- (app_nil_r (arguments_of o)), parse_arguments_of by done.
  destruct o as [[] [] [] [] [] ? []]; reflexivity.
Qed.

(** The two forms of a flag differ: [=] strips every copy of the flag from the value of
    [--root] and [--state-root], and of no other; and [--tick-ms=] is unknown. *)
Example equals_forms_differ :
  parse_args default_options ["--root=--root=x"] =
    Ok (Start (default_options <| opt_launch_root := Some "x" |>)) ∧
  parse_args default_options ["--root"; "--root=x"] =
    Ok (Start (default_options <| opt_launch_root := Some "--root=x" |>)) ∧
  parse_args default_options ["--deck=--deck=x"] =
    Ok (Start (default_options <| opt_command_deck := Some "--deck=x" |>)) ∧
  parse_args default_options ["--tick-ms=100"] = Err (UnknownArgument "--tick-ms=100").
Proof. by_compute. Qed.
