(* ===== verification/Runs.v ===== *)
(** * Runs: the operator's view of the control plane ([tui-agent/src/state.rs])

    Agents write one JSON file per run and append events to a stream; the console
    loads them from inside the state directory only, hides the archived runs,
    classifies the others and sorts them for the board. *)
From S2P Require Import Prelude Text Json Paths.
From Stdlib Require Import Ascii.

(** ** Data *)
Module RunKind.
Inductive RunKind := Active | Recent | Completed | Failed | Stalled | Paused | Unknown.
End RunKind.
#[export] Instance RunKind_eq_dec : EqDecision RunKind.RunKind.
Proof. solve_decision. Defined.

Definition run_label (k : RunKind.RunKind) : string :=
  match k with
  | RunKind.Active => "active"
  | RunKind.Recent => "recent"
  | RunKind.Completed => "completed"
  | RunKind.Failed => "failed"
  | RunKind.Stalled => "stalled"
  | RunKind.Paused => "paused"
  | RunKind.Unknown => "unknown"
  end.

Definition sort_rank (k : RunKind.RunKind) : N :=
  match k with
  | RunKind.Active => 0
  | RunKind.Stalled => 1
  | RunKind.Failed => 2
  | RunKind.Paused => 3
  | RunKind.Recent => 4
  | RunKind.Completed => 5
  | RunKind.Unknown => 6
  end.

Record RunSnapshot := mkRunSnapshot {
  run_id : string;
  session_id : option string;
  agent : option string;
  skill : option string;
  mode : option string;
  state : option string;
  status : option string;
  started_at : option string;
  updated_at : option string;
  last_heartbeat : option string;
  root : option string;
  operator_session : option string;
  latest_report : option string;
  latest_transcript : option string;
  last_error : option string;
  extra : gmap string Value;
}.

Record RunEvent := mkRunEvent {
  ev_ts : string;
  ev_run_id : option string;
  ev_kind : string;
  ev_message : option string;
  ev_payload : option Value;
}.

Record RenderedRun := mkRenderedRun {
  snapshot : RunSnapshot;
  rendered_kind : RunKind.RunKind;
  rendered_age : string;
  recent_events : list RunEvent;
}.

Record ControlPlaneState := mkControlPlaneState {
  cp_root : string;
  cp_runs : list RunSnapshot;
  cp_events : list RunEvent;
  archived_run_ids : gset string;
}.

Definition empty_state (root : string) : ControlPlaneState := mkControlPlaneState root [] [] ∅.

Definition display_state (s : RunSnapshot) : string :=
  unwrap_or (opt_or (state s) (status s)) "unknown".

(** ** Classification

    A [DateTime] is its number of nanoseconds since the epoch; [num_minutes] and the
    like truncate towards zero.  The parser of RFC 3339 and the range check of
    [timestamp_opt] belong to [chrono]. *)
Definition num_minutes (delta : Z) : Z := Z.quot delta 60000000000.
Definition num_hours (delta : Z) : Z := Z.quot delta 3600000000000.
Definition num_days (delta : Z) : Z := Z.quot delta 86400000000000.

Definition is_active_like (s : string) : bool :=
  any (contains s) ["active"; "run"; "watch"; "queued"; "pending"; "in-progress"; "progress"; "loop"].
Definition is_finished_like (s : string) : bool :=
  any (contains s) ["done"; "complete"; "succeed"; "converged"; "stopped"; "gc"].

Definition is_recent (timestamp : option Z) (now : Z) : bool :=
  match timestamp with Some t => (num_hours (now - t) <? 24)%Z | None => false end.
Definition is_stale (timestamp : option Z) (now : Z) : bool :=
  match timestamp with Some t => (15 <? num_minutes (now - t))%Z | None => false end.

Definition relative_age (timestamp now : Z) : string :=
  let delta := (now - timestamp)%Z in
  let minutes := Z.max (num_minutes delta) 0 in
  let hours := Z.max (num_hours delta) 0 in
  if (24 <=? hours)%Z then pretty (Z.max (num_days delta) 0) +:+ "d ago"
  else if (0 <? hours)%Z then pretty hours +:+ "h ago"
  else pretty minutes +:+ "m ago".

Section runs.
Context `{Platform}.
Context (parse_from_rfc3339 : string → option Z) (timestamp_opt : Z → option Z).

Definition parse_timestamp (raw : string) : option Z :=
  match parse_from_rfc3339 raw with
  | Some t => Some t
  | None => parse_i64 raw ≫= timestamp_opt
  end.

Definition heartbeat_of (s : RunSnapshot) : option Z :=
  opt_or (last_heartbeat s ≫= parse_timestamp) (updated_at s ≫= parse_timestamp).

Definition classify_run (s : RunSnapshot) (now : Z) : RunKind.RunKind :=
  let st := str_to_lowercase (display_state s) in
  let heartbeat := heartbeat_of s in
  if is_some (last_error s) || contains st "fail" || contains st "error" then RunKind.Failed
  else if contains st "stalled" then RunKind.Stalled
  else if contains st "pause" then RunKind.Paused
  else if is_finished_like st then
    if is_recent heartbeat now then RunKind.Recent else RunKind.Completed
  else if is_active_like st then
    if is_stale heartbeat now then RunKind.Stalled else RunKind.Active
  else if is_recent heartbeat now then RunKind.Recent
  else RunKind.Unknown.

Definition age_label (s : RunSnapshot) (now : Z) : string :=
  match opt_or (heartbeat_of s) (started_at s ≫= parse_timestamp) with
  | Some ts => relative_age ts now
  | None => "age unknown"
  end.

(** ** Sorting *)
Definition compare_timestamp (left right : option string) : comparison :=
  match left ≫= parse_timestamp, right ≫= parse_timestamp with
  | Some l, Some r => Z.compare r l
  | Some _, None => Lt
  | None, Some _ => Gt
  | None, None => Eq
  end.

(** [Ordering::then_with]. *)
Definition then_with (a b : comparison) : comparison := match a with Eq => b | _ => a end.

Definition compare_runs (left right : RenderedRun) : comparison :=
  then_with (N.compare (sort_rank (rendered_kind left)) (sort_rank (rendered_kind right)))
  (then_with (compare_timestamp (updated_at (snapshot right)) (updated_at (snapshot left)))
  (then_with (compare_timestamp (started_at (snapshot right)) (started_at (snapshot left)))
  (then_with (compare_timestamp (last_heartbeat (snapshot right)) (last_heartbeat (snapshot left)))
     (String.compare (run_id (snapshot left)) (run_id (snapshot right)))))).

(** [left] may stay before [right]. *)
Definition run_le (left right : RenderedRun) : bool :=
  match compare_runs left right with Gt => false | _ => true end.

Definition recent_events_for (events : list RunEvent) (id : string) : list RunEvent :=
  take 8 (sort_by (λ left right, str_leb (ev_ts right) (ev_ts left))
            (retain (λ e, bool_decide (ev_run_id e = Some id)) events)).

Definition render_run (s : ControlPlaneState) (now : Z) (snap : RunSnapshot) : RenderedRun :=
  mkRenderedRun snap (classify_run snap now) (age_label snap now)
    (recent_events_for (cp_events s) (run_id snap)).

Definition render_runs (s : ControlPlaneState) (now : Z) : list RenderedRun :=
  sort_by run_le (render_run s now <$> cp_runs s).
End runs.

(** ** Loading

    What the loader asks the file system.  An error of [canonicalize], [read_dir] or
    [symlink_metadata] of a parent is an [Err]. *)
Record FsView := mkFsView {
  exists_path : string → bool;
  canonicalize : string → result string string;
  is_dir : string → bool;
  symlink_metadata : string → result string bool;  (* is it a symbolic link? *)
  read_dir : string → result string (list (result string string));
  read_to_string : string → result string string;
}.

Definition is_json_file (p : string) : bool := bool_decide (extension p = Some "json").

Section load.
Context `{Platform} (fs : FsView).
(** [serde_json::from_str] to a run, an event and a value. *)
Context (parse_run : string → option RunSnapshot) (parse_event : string → option RunEvent)
  (parse_value : string → option Value).

(** [SafeControlPlaneRoot::new]. *)
Definition safe_root (root : string) : result string (option string) :=
  if negb (exists_path fs root) then Ok None else
  try! canonical := canonicalize fs root in
  Ok (if is_dir fs canonical then Some canonical else None).

Section rooted.
Context (root : string).

Definition safe_file (p : string) : result string (option string) :=
  match symlink_metadata fs p with
  | Err _ => Ok None
  | Ok true => Ok None
  | Ok false =>
      match parent p with
      | None => Ok None
      | Some dir =>
          try! linked := symlink_metadata fs dir in
          if linked : bool then Ok None else
          try! canonical := canonicalize fs p in
          Ok (if path_starts_with canonical root then Some canonical else None)
      end
  end.

Definition runs_dir : string := path_join root "runs".
Definition event_stream_path : string := path_join root "events.jsonl".
Definition archived_dir : string := path_join runs_dir ".archived".

(** The loop over the entries of a directory: [run_snapshot_files] and
    [archived_marker_files] differ in the directory only. *)
Fixpoint safe_json_files (entries : list (result string string)) : result string (list string) :=
  match entries with
  | [] => Ok []
  | Err e :: _ => Err e
  | Ok p :: entries =>
      if negb (is_json_file p) then safe_json_files entries else
      try! safe := safe_file p in
      try! files := safe_json_files entries in
      Ok (match safe with Some p => p :: files | None => files end)
  end.
Definition json_files_in (dir : string) : result string (list string) :=
  if negb (exists_path fs dir) then Ok [] else
  try! entries := read_dir fs dir in
  safe_json_files entries.
Definition run_snapshot_files : result string (list string) := json_files_in runs_dir.
Definition archived_marker_files : result string (list string) := json_files_in archived_dir.

Definition insert_run (m : gmap string RunSnapshot) (p : string) : gmap string RunSnapshot :=
  match result_ok (read_to_string fs p) ≫= parse_run with
  | Some snap => <[run_id snap := snap]> m
  | None => m
  end.
Definition load_runs : result string (list RunSnapshot) :=
  try! files := run_snapshot_files in
  Ok (snd <$> hash_iter (foldl insert_run ∅ files)).

Definition archived_id_from_marker (p : string) : option string :=
  text ← result_ok (read_to_string fs p);
  match (parse_value text ≫= value_get "run_id") ≫= as_str with
  | Some run_id => Some run_id
  | None => opt_filter (λ s, negb (str_is_empty s)) (file_stem p)
  end.
Definition load_archived_run_ids : result string (gset string) :=
  try! files := archived_marker_files in
  Ok (list_to_set (omap archived_id_from_marker files)).

Definition load_events : result string (list RunEvent) :=
  try! p := safe_file event_stream_path in
  match p with
  | None => Ok []
  | Some p =>
      match read_to_string fs p with
      | Err _ => Ok []
      | Ok text => Ok (omap parse_event (retain (λ l, negb (is_blank l)) (str_lines text)))
      end
  end.
End rooted.

(** [ControlPlaneState::load]. *)
Definition load (requested_root : string) : result string ControlPlaneState :=
  try! root := safe_root requested_root in
  match root with
  | None => Ok (empty_state requested_root)
  | Some root =>
      try! archived := load_archived_run_ids root in
      try! all := load_runs root in
      let runs := retain (λ s, negb (bool_decide (run_id s ∈ archived))) all in
      try! events := load_events root in
      Ok (mkControlPlaneState root runs events archived)
  end.
End load.

(** ** Facts *)
Section order.
Context `{Platform}.
Context (parse_from_rfc3339 : string → option Z) (timestamp_opt : Z → option Z).
Notation parse := (parse_timestamp parse_from_rfc3339 timestamp_opt).
Notation compare_ts := (compare_timestamp parse_from_rfc3339 timestamp_opt).
Notation compare := (compare_runs parse_from_rfc3339 timestamp_opt).
Notation run_le := (run_le parse_from_rfc3339 timestamp_opt).

Lemma compare_ts_antisym a b : compare_ts b a = CompOpp (compare_ts a b).
Proof using.
  unfold compare_timestamp. destruct (a ≫= parse), (b ≫= parse); try done.
  apply Z.compare_antisym.
Qed.

Lemma then_with_opp a b : CompOpp (then_with a b) = then_with (CompOpp a) (CompOpp b).
Proof using. by destruct a. Qed.

Lemma compare_runs_antisym a b : compare b a = CompOpp (compare a b).
Proof using.
  unfold compare_runs. rewrite !then_with_opp, <- !compare_ts_antisym.
  by rewrite <- N.compare_antisym, <- String.compare_antisym.
Qed.

Lemma run_le_total a b : run_le a b = true ∨ run_le b a = true.
Proof using.
  unfold Runs.run_le. rewrite (compare_runs_antisym a b). destruct (compare a b); auto.
Qed.

(** What neighbours on the board look like. *)
Lemma run_le_facts a b :
  run_le a b = true →
  (sort_rank (rendered_kind a) ≤ sort_rank (rendered_kind b))%N ∧
  (rendered_kind a = rendered_kind b → ∀ ta tb,
     updated_at (snapshot a) ≫= parse = Some ta → updated_at (snapshot b) ≫= parse = Some tb →
     (ta ≤ tb)%Z).
Proof using.
  unfold Runs.run_le, compare_runs. intros Hle. split.
  - destruct (N.compare_spec (sort_rank (rendered_kind a)) (sort_rank (rendered_kind b))); [lia|lia|done].
  - intros Hk ta tb Ha Hb. rewrite Hk, N.compare_refl in Hle. cbn [then_with] in Hle.
    unfold compare_timestamp at 1 in Hle. rewrite Ha, Hb in Hle.
    destruct (Z.compare_spec ta tb); [lia|lia|done].
Qed.

Lemma ordered_neighbours {A} (le : A → A → bool) (l : list A) i x y :
  ordered le l → l !! i = Some x → l !! S i = Some y → le x y = true.
Proof using.
  revert i. induction l as [|a l IH]; intros i Ho Hx Hy; [done|].
  destruct l as [|b l]; [by destruct i|]. destruct Ho as [Hab Ho].
  destruct i as [|i]; simpl in *; [by simplify_eq|]. by apply (IH i).
Qed.

(** The board shows every loaded run once, by rank (active, stalled, failed, paused,
    recent, completed, unknown); among runs of the same kind with readable update times
    the one updated longest ago stands first. *)
Theorem board_order s now :
  render_runs parse_from_rfc3339 timestamp_opt s now ≡ₚ
    render_run parse_from_rfc3339 timestamp_opt s now <$> cp_runs s ∧
  ∀ i a b, render_runs parse_from_rfc3339 timestamp_opt s now !! i = Some a →
    render_runs parse_from_rfc3339 timestamp_opt s now !! S i = Some b →
    (sort_rank (rendered_kind a) ≤ sort_rank (rendered_kind b))%N ∧
    (rendered_kind a = rendered_kind b → ∀ ta tb,
       updated_at (snapshot a) ≫= parse = Some ta →
       updated_at (snapshot b) ≫= parse = Some tb → (ta ≤ tb)%Z).
Proof using.
  split; [apply sort_by_perm|]. intros i a b Ha Hb. apply run_le_facts.
  eapply ordered_neighbours; [|exact Ha|exact Hb]. apply sort_by_ordered, run_le_total.
Qed.

(** How a run is classified.  It is shown as failed exactly when it recorded an error or
    its state says so, and as active only when its state is an active one and its
    heartbeat, if it has a readable one, is less than sixteen minutes old. *)
Theorem classification s now :
  let st := str_to_lowercase (display_state s) in
  let kind := classify_run parse_from_rfc3339 timestamp_opt s now in
  (kind = RunKind.Failed ↔
     is_Some (last_error s) ∨ contains st "fail" = true ∨ contains st "error" = true) ∧
  (kind = RunKind.Active →
     last_error s = None ∧ is_active_like st = true ∧ is_finished_like st = false ∧
     ∀ t, heartbeat_of parse_from_rfc3339 timestamp_opt s = Some t → (now - t < 16 * 60000000000)%Z) ∧
  (kind = RunKind.Recent →
     ∃ t, heartbeat_of parse_from_rfc3339 timestamp_opt s = Some t ∧
       (now - t < 24 * 3600000000000)%Z).
Proof using.
  intros st kind. subst kind. unfold classify_run. fold st.
  set (hb := heartbeat_of parse_from_rfc3339 timestamp_opt s).
  assert (is_stale hb now = false → ∀ t, hb = Some t → (now - t < 16 * 60000000000)%Z) as Hstale.
  { unfold is_stale, num_minutes. intros Hs t ->. apply Z.ltb_ge in Hs.
    pose proof (Z.quot_rem' (now - t) 60000000000). 
    pose proof (Z.rem_bound_abs (now - t) 60000000000 ltac:(done)). lia. }
  assert (is_recent hb now = true → ∃ t, hb = Some t ∧ (now - t < 24 * 3600000000000)%Z) as Hrec.
  { unfold is_recent, num_hours. destruct hb as [t|]; [|done]. intros Hs%Z.ltb_lt. exists t.
    split; [done|]. pose proof (Z.quot_rem' (now - t) 3600000000000).
    pose proof (Z.rem_bound_abs (now - t) 3600000000000 ltac:(done)). lia. }
  assert (is_some (last_error s) || contains st "fail" || contains st "error" = true ↔
    is_Some (last_error s) ∨ contains st "fail" = true ∨ contains st "error" = true) as Hf.
  { rewrite !orb_true_iff, is_some_true. tauto. }
  destruct (is_some (last_error s) || contains st "fail" || contains st "error") eqn:E.
  { split_and!; [|done..]. split; [intros _; by apply Hf|done]. }
  assert (last_error s = None) as He.
  { apply orb_false_iff in E as [[E _]%orb_false_iff _]. by apply is_some_false. }
  split_and!.
  - split; [|intros Hx; by apply Hf in Hx]. by repeat case_match.
  - repeat case_match; try done. intros _. split_and!; auto.
  - repeat case_match; try done; auto.
Qed.
End order.

Section loading.
Context `{Platform} (fs : FsView).
Context (parse_run : string → option RunSnapshot) (parse_event : string → option RunEvent)
  (parse_value : string → option Value).

Lemma safe_file_spec root e p :
  safe_file fs root e = Ok (Some p) →
  symlink_metadata fs e = Ok false ∧ canonicalize fs e = Ok p ∧ path_starts_with p root = true.
Proof using.
  unfold safe_file. destruct (symlink_metadata fs e) as [[]|]; try done.
  destruct (parent e); [|done].
  intros (linked & _ & Hr)%result_bind_Ok_inv. destruct linked; [done|].
  apply result_bind_Ok_inv in Hr as (c & Hc & Hr).
  destruct (path_starts_with c root) eqn:E; [|done]. by injection Hr as <-.
Qed.

Lemma safe_json_files_spec root entries files p :
  safe_json_files fs root entries = Ok files →
  p ∈ files ↔ ∃ e, Ok e ∈ entries ∧ is_json_file e = true ∧ safe_file fs root e = Ok (Some p).
Proof using.
  revert files. induction entries as [|[e|err] entries IH]; intros files; cbn [safe_json_files].
  - intros [= <-]. rewrite elem_of_nil. split; [done|]. by intros (e & ?%elem_of_nil & _).
  - destruct (is_json_file e) eqn:Ej; cbn [negb].
    + intros (safe & Hs & (fs' & Hf & [= <-])%result_bind_Ok_inv)%result_bind_Ok_inv.
      specialize (IH _ Hf).
      assert (p ∈ match safe with Some p0 => p0 :: fs' | None => fs' end ↔
        safe = Some p ∨ p ∈ fs') as ->.
      { destruct safe; [rewrite elem_of_cons|]; split; intros; destruct_or?; simplify_eq; auto. }
      rewrite IH. split.
      * intros [->|(e' & ? & ?)]; [exists e|exists e']; rewrite elem_of_cons; auto.
      * intros (e' & [[= ->]|He]%elem_of_cons & Hj & Hs'); [left; congruence|right; eauto].
    + intros Hf. rewrite (IH _ Hf). split.
      * intros (e' & ? & ?). exists e'. rewrite elem_of_cons. auto.
      * intros (e' & [[= ->]|He]%elem_of_cons & Hj & Hs'); [congruence|eauto].
  - done.
Qed.

(** The loader looks at the file [e] of the runs directory and finds [r] in it. *)
Definition run_in_file (root e : string) (r : RunSnapshot) : Prop :=
  is_json_file e = true ∧ symlink_metadata fs e = Ok false ∧
  ∃ p text, safe_file fs root e = Ok (Some p) ∧ path_starts_with p root = true ∧
    read_to_string fs p = Ok text ∧ parse_run text = Some r.

Lemma insert_runs_spec files id r :
  foldl (insert_run fs parse_run) ∅ files !! id = Some r →
  run_id r = id ∧ ∃ p text, p ∈ files ∧ read_to_string fs p = Ok text ∧ parse_run text = Some r.
Proof using.
  induction files as [|p files IH] using rev_ind; [done|].
  rewrite foldl_app. cbn [foldl]. unfold insert_run at 1.
  assert (foldl (insert_run fs parse_run) ∅ files !! id = Some r → run_id r = id ∧
    ∃ p' text, p' ∈ files ++ [p] ∧ read_to_string fs p' = Ok text ∧ parse_run text = Some r) as Hweak.
  { intros Hl. destruct (IH Hl) as (? & q & t & ? & ?). split; [done|]. exists q, t.
    rewrite elem_of_app. auto. }
  destruct (read_to_string fs p) as [text|] eqn:Er; cbn [result_ok mbind option_bind].
  - destruct (parse_run text) as [s|] eqn:Ep.
    + destruct (decide (run_id s = id)) as [<-|Hne].
      * rewrite lookup_insert_eq. intros [= ->]. split; [done|]. exists p, text.
        rewrite elem_of_app, list_elem_of_singleton. auto.
      * rewrite lookup_insert_ne by done. exact Hweak.
    + exact Hweak.
  - exact Hweak.
Qed.

Lemma insert_runs_covers files p text r :
  p ∈ files → read_to_string fs p = Ok text → parse_run text = Some r →
  is_Some (foldl (insert_run fs parse_run) ∅ files !! run_id r).
Proof using.
  intros Hp Hr Hpr. induction files as [|q files IH] using rev_ind; [by apply elem_of_nil in Hp|].
  rewrite foldl_app. cbn [foldl]. unfold insert_run at 1.
  apply elem_of_app in Hp as [Hp|Heq%list_elem_of_singleton].
  - destruct (result_ok (read_to_string fs q) ≫= parse_run) as [s|]; [|by apply IH].
    destruct (decide (run_id s = run_id r)) as [->|]; [rewrite lookup_insert_eq; eauto|].
    rewrite lookup_insert_ne by done. by apply IH.
  - subst q. rewrite Hr. cbn [result_ok mbind option_bind]. rewrite Hpr, lookup_insert_eq. eauto.
Qed.

Lemma json_files_in_spec root dir files p :
  json_files_in fs root dir = Ok files →
  (p ∈ files → ∃ es e, read_dir fs dir = Ok es ∧ Ok e ∈ es ∧ is_json_file e = true ∧
     safe_file fs root e = Ok (Some p)) ∧
  (∀ es e, exists_path fs dir = true → read_dir fs dir = Ok es → Ok e ∈ es →
     is_json_file e = true → safe_file fs root e = Ok (Some p) → p ∈ files).
Proof using.
  unfold json_files_in. destruct (exists_path fs dir); cbn [negb].
  - intros (es & Hes & Hf)%result_bind_Ok_inv.
    pose proof (safe_json_files_spec _ _ _ p Hf) as Hs. split.
    + intros (e & ? & ? & ?)%Hs. eauto 10.
    + intros es' e _ Hes' He Hj Hsafe. apply Hs. exists e.
      assert (es' = es) as -> by congruence. auto.
  - intros [= <-]. split; [by intros ?%elem_of_nil|done].
Qed.

(** C18: The board is made of the run files inside the state directory: every run on it comes
    from a JSON file that is no symbolic link and lies below the canonical root, is not
    archived and has an identifier of its own; and no such file that can be read is
    missing from it, unless its run is archived. *)
Theorem load_shows_the_live_runs requested s :
  load fs parse_run parse_event parse_value requested = Ok s →
  safe_root fs requested = Ok None ∧ s = empty_state requested ∨
  safe_root fs requested = Ok (Some (cp_root s)) ∧
  NoDup (run_id <$> cp_runs s) ∧
  (∀ r, r ∈ cp_runs s → run_id r ∉ archived_run_ids s ∧
     ∃ es e, read_dir fs (runs_dir (cp_root s)) = Ok es ∧ Ok e ∈ es ∧
       run_in_file (cp_root s) e r) ∧
  (∀ es e r, exists_path fs (runs_dir (cp_root s)) = true →
     read_dir fs (runs_dir (cp_root s)) = Ok es → Ok e ∈ es → run_in_file (cp_root s) e r →
     run_id r ∉ archived_run_ids s → run_id r ∈ run_id <$> cp_runs s).
Proof using.
  unfold load. intros (ro & Hro & Hl)%result_bind_Ok_inv.
  destruct ro as [root|]; [|left; by injection Hl as <-]. right.
  apply result_bind_Ok_inv in Hl as (archived & _ & Hl).
  apply result_bind_Ok_inv in Hl as (all & Hall & Hl).
  apply result_bind_Ok_inv in Hl as (events & _ & Hl). injection Hl as <-.
  cbn [cp_root cp_runs archived_run_ids].
  unfold load_runs, run_snapshot_files in Hall.
  apply result_bind_Ok_inv in Hall as (files & Hfiles & Hall). injection Hall as <-.
  set (m := foldl (insert_run fs parse_run) ∅ files) in *.
  assert (∀ r, r ∈ (hash_iter m).*2 ↔ m !! run_id r = Some r) as Hm.
  { intros r. rewrite list_elem_of_fmap. split.
    - intros ([id r'] & -> & Hin%hash_iter_elem). destruct (insert_runs_spec _ _ _ Hin) as [E _].
      simpl. by rewrite E.
    - intros Hr. exists (run_id r, r). split; [done|]. by apply hash_iter_elem. }
  split_and!; [done|..].
  - assert (run_id <$> (hash_iter m).*2 = (hash_iter m).*1) as E.
    { rewrite <- list_fmap_compose. apply list_fmap_ext. intros i [id r] Hi. simpl.
      apply list_elem_of_lookup_2, hash_iter_elem in Hi.
      by destruct (insert_runs_spec _ _ _ Hi). }
    assert (NoDup (run_id <$> (hash_iter m).*2)) as Hnd.
    { rewrite E, hash_iter_perm. apply NoDup_fst_map_to_list. }
    by apply NoDup_fmap_retain.
  - intros r [Hr Ha]%elem_of_retain. apply negb_true_iff, bool_decide_eq_false in Ha.
    split; [done|]. apply Hm in Hr. destruct (insert_runs_spec _ _ _ Hr) as (_ & p & text & Hp & Ht & Hpr).
    destruct (proj1 (json_files_in_spec _ _ _ p Hfiles) Hp) as (es & e & Hes & He & Hj & Hsafe).
    destruct (safe_file_spec _ _ _ Hsafe) as (Hlink & _ & Hst).
    exists es, e. split_and!; [done..|]. split_and!; [done..|]. by exists p, text.
  - intros es e r Hex Hes He (Hj & _ & p & text & Hsafe & _ & Ht & Hpr) Ha.
    assert (p ∈ files) as Hp by (by eapply (json_files_in_spec _ _ _ p Hfiles)).
    destruct (insert_runs_covers _ _ _ _ Hp Ht Hpr) as [r' Hr'].
    destruct (insert_runs_spec _ _ _ Hr') as [Hid _]. rewrite <- Hid.
    apply list_elem_of_fmap_2, elem_of_retain. split; [apply Hm; rewrite Hid; exact Hr'|].
    rewrite bool_decide_false; [done|congruence].
Qed.
End loading.
