(* ===== verification/RunFiles.v ===== *)
(** * RunFiles: the files behind the run board ([tui-agent/src/state.rs], its derives)

    How a run and an event are read from their JSON values: by the derived [Deserialize]
    of the two structs, with its aliases and its flattened rest.  [Runs] is stated for any
    reader; these are the ones the console uses.  A text that repeats a key does not occur
    here, since a JSON value holds each key once. *)
From S2P Require Import Prelude Text Json Paths Scan Runs.
From Stdlib Require Import Ascii.

(** A field that is read under any of its names; two of them together are an error. *)
Definition field (names : list string) (m : list (string * Value)) : option (option Value) :=
  match omap (λ k, obj_get k m) names with
  | [] => Some None
  | [v] => Some (Some v)
  | _ => None
  end.
Definition text_field (names : list string) (m : list (string * Value)) : option (option string) :=
  field names m ≫= de_option de_string.
Definition required_text (names : list string) (m : list (string * Value)) : option string :=
  field names m ≫= λ v, v ≫= de_string.

(** The second names.  That of [session_id] is written [session_id] again, so it has none. *)
Definition RUN_ALIASES : list (string * string) :=
  [("runId", "run_id"); ("startedAt", "started_at"); ("updatedAt", "updated_at");
   ("lastHeartbeat", "last_heartbeat"); ("operatorSession", "operator_session");
   ("latestReport", "latest_report"); ("latestTranscript", "latest_transcript");
   ("lastError", "last_error")].
Definition RUN_KEYS : list string :=
  ["run_id"; "session_id"; "agent"; "skill"; "mode"; "state"; "status"; "started_at"; "updated_at";
   "last_heartbeat"; "root"; "operator_session"; "latest_report"; "latest_transcript"; "last_error"].
Definition names_of (k : string) : list string :=
  k :: (fst <$> filter (λ a, a.2 = k) RUN_ALIASES).
Definition is_run_key (k : string) : bool :=
  bool_decide (k ∈ RUN_KEYS) || bool_decide (k ∈ fst <$> RUN_ALIASES).

(** A struct with a flattened field is read from an object only. *)
Definition de_run (v : Value) : option RunSnapshot :=
  match v with
  | JObject m =>
      let text k := text_field (names_of k) m in
      id ← required_text (names_of "run_id") m;
      session ← text "session_id"; agent ← text "agent"; skill ← text "skill";
      mode ← text "mode"; state ← text "state"; status ← text "status";
      started ← text "started_at"; updated ← text "updated_at"; beat ← text "last_heartbeat";
      root ← text "root"; operator ← text "operator_session"; report ← text "latest_report";
      transcript ← text "latest_transcript"; error ← text "last_error";
      Some (mkRunSnapshot id session agent skill mode state status started updated beat root
              operator report transcript error
              (list_to_map (filter (λ kv, is_run_key kv.1 = false) m)))
  | _ => None
  end.

Definition de_event_fields (ts id kind message payload : option Value) : option RunEvent :=
  ts ← ts ≫= de_string; id ← de_option de_string id; kind ← kind ≫= de_string;
  message ← de_option de_string message; payload ← de_option Some payload;
  Some (mkRunEvent ts id kind message payload).
(** The two last fields of a sequence may be missing. *)
Definition de_run_event (v : Value) : option RunEvent :=
  match v with
  | JObject m =>
      ts ← field ["ts"; "timestamp"] m; id ← field ["run_id"; "runId"] m;
      de_event_fields ts id (obj_get "kind" m) (obj_get "message" m) (obj_get "payload" m)
  | JArray [ts; id; kind] => de_event_fields (Some ts) (Some id) (Some kind) None None
  | JArray [ts; id; kind; message] => de_event_fields (Some ts) (Some id) (Some kind) (Some message) None
  | JArray [ts; id; kind; message; payload] =>
      de_event_fields (Some ts) (Some id) (Some kind) (Some message) (Some payload)
  | _ => None
  end.

(** ** The spelling of a file *)

(** The file with its second names replaced. *)
Definition respelled (k : string) : string :=
  default k (snd <$> List.find (λ a, str_eqb a.1 k) RUN_ALIASES).
Definition canonical (m : list (string * Value)) : list (string * Value) :=
  (λ kv, (respelled kv.1, kv.2)) <$> m.

Lemma respelled_fixed k : k ∉ fst <$> RUN_ALIASES → respelled k = k.
Proof.
  intros Hk. unfold respelled. destruct (List.find _ RUN_ALIASES) as [a|] eqn:E; [|done].
  apply List.find_some in E as [Ha E]. apply bool_decide_eq_true in E. subst k. destruct Hk.
  apply list_elem_of_fmap. exists a. split; [done|]. by apply list_elem_of_In.
Qed.

(** A name and its alias are the keys that become the name. *)
Lemma names_of_spec k j : k ∈ RUN_KEYS → respelled j = k ↔ j ∈ names_of k.
Proof.
  intros Hk. destruct (decide (j ∈ fst <$> RUN_ALIASES)) as [Hj|Hj].
  - repeat (apply elem_of_cons in Hj as [->|Hj]; [|]); try by apply elem_of_nil in Hj.
    all: repeat (apply elem_of_cons in Hk as [->|Hk]; [|]); try by apply elem_of_nil in Hk.
    all: split; intros E; first
      [ by apply (bool_decide_eq_true_1 _); vm_compute
      | by vm_compute in E
      | apply (bool_decide_eq_true_2 _) in E; by vm_compute in E
      | reflexivity ].
  - rewrite respelled_fixed by done. unfold names_of. rewrite elem_of_cons. split; [by left|].
    intros [->|Hin]; [done|]. destruct Hj. apply list_elem_of_fmap in Hin as (a & -> & Ha).
    apply list_elem_of_filter in Ha as [_ Ha]. apply list_elem_of_fmap. by exists a.
Qed.

Lemma respelled_not_alias j : respelled j ∉ fst <$> RUN_ALIASES.
Proof.
  destruct (decide (j ∈ fst <$> RUN_ALIASES)) as [Hj|Hj]; [|by rewrite respelled_fixed].
  repeat (apply elem_of_cons in Hj as [->|Hj];
    [by apply (bool_decide_eq_true_1 _); vm_compute|]).
  by apply elem_of_nil in Hj.
Qed.

Lemma names_of_shape k :
  k ∈ RUN_KEYS → names_of k = [k] ∨ ∃ a, names_of k = [k; a] ∧ a ∈ fst <$> RUN_ALIASES ∧ a ≠ k.
Proof.
  intros Hk. repeat (apply elem_of_cons in Hk as [->|Hk]; [|]); try by apply elem_of_nil in Hk.
  all: first [by left | right; eexists; split; [reflexivity|]; split;
    [by apply (bool_decide_eq_true_1 _); vm_compute|discriminate]].
Qed.

Section spelling.
Context (m : list (string * Value)) (distinct : NoDup (fst <$> canonical m)).

Lemma get_canonical j v : obj_get j m = Some v → obj_get (respelled j) (canonical m) = Some v.
Proof using distinct.
  revert distinct. induction m as [|[j' v'] l IH]; cbn [obj_get canonical fmap list_fmap fst snd]; [done|].
  intros [Hn Hnd]%NoDup_cons Hj. case_bool_decide as E.
  - subst. by rewrite bool_decide_true.
  - rewrite bool_decide_false; [by apply IH|]. intros E2. destruct Hn.
    specialize (IH Hnd Hj). rewrite <- E2. apply list_elem_of_fmap.
    exists (respelled j, v). split; [done|]. by apply obj_get_in.
Qed.

Lemma canonical_get k v : obj_get k (canonical m) = Some v → ∃ j, respelled j = k ∧ obj_get j m = Some v.
Proof using distinct.
  revert distinct. induction m as [|[j' v'] l IH]; cbn [obj_get canonical fmap list_fmap fst snd]; [done|].
  intros [Hn Hnd]%NoDup_cons. case_bool_decide as E; [intros [= <-]; exists j'; by rewrite bool_decide_true|].
  intros Hk. destruct (IH Hnd Hk) as (j & <- & Hj). exists j. split; [done|].
  rewrite bool_decide_false; [done|]. congruence.
Qed.

Lemma canonical_alias a : a ∈ fst <$> RUN_ALIASES → obj_get a (canonical m) = None.
Proof using distinct.
  intros Ha. destruct (obj_get a (canonical m)) as [v|] eqn:E; [|done].
  apply canonical_get in E as (j & <- & _). by apply respelled_not_alias in Ha.
Qed.

Lemma respelled_once j j' v w :
  obj_get j m = Some v → obj_get j' m = Some w → respelled j = respelled j' → j = j'.
Proof using distinct.
  revert distinct. induction m as [|[i u] l IH]; cbn [obj_get canonical fmap list_fmap fst snd]; [done|].
  intros [Hn Hnd]%NoDup_cons.
  assert (∀ k x, obj_get k l = Some x → respelled k ≠ respelled i) as Hl.
  { intros k x Hk E. destruct Hn. rewrite <- E. apply list_elem_of_fmap.
    exists (respelled k, x). split; [done|]. apply list_elem_of_fmap. exists (k, x).
    split; [done|]. by apply obj_get_in. }
  repeat case_bool_decide; subst; [done|..].
  - intros _ Hj E. by destruct (Hl _ _ Hj).
  - intros Hj _ E. by destruct (Hl _ _ Hj).
  - auto.
Qed.

(** Either spelling of a field is found where the canonical one is. *)
Lemma field_respelled k :
  k ∈ RUN_KEYS →
  field (names_of k) m = Some (obj_get k (canonical m)) ∧
  field (names_of k) (canonical m) = Some (obj_get k (canonical m)).
Proof using distinct.
  intros Hk.
  assert (∀ v, obj_get k (canonical m) = Some v ↔ ∃ j, j ∈ names_of k ∧ obj_get j m = Some v) as Hv.
  { intros v. split.
    - intros (j & Hj & Hg)%canonical_get. exists j. split; [by apply names_of_spec|done].
    - intros (j & Hj & Hg). apply get_canonical in Hg. by apply names_of_spec in Hj; [rewrite <- Hj|]. }
  unfold field. destruct (names_of_shape k Hk) as [Hn|(a & Hn & Ha & Hne)]; rewrite Hn in *;
    cbn [omap list_omap].
  { assert (obj_get k (canonical m) = obj_get k m) as ->; [|by destruct (obj_get k m)].
    apply option_eq. intros v. rewrite Hv. setoid_rewrite list_elem_of_singleton. naive_solver. }
  rewrite (canonical_alias a) by done. split; [|by destruct (obj_get k (canonical m))].
  assert (∀ j, j ∈ [k; a] → obj_get j m ≠ None → obj_get k (canonical m) = obj_get j m) as Hj.
  { intros j Hj Hs. destruct (obj_get j m) as [v|] eqn:E; [|done]. apply Hv. eauto. }
  destruct (obj_get k m) as [v|] eqn:Ek, (obj_get a m) as [w|] eqn:Ea.
  - destruct Hne. apply (respelled_once a k w v); [done..|].
    transitivity k; [|symmetry]; (apply names_of_spec; [done|]; rewrite Hn; set_solver).
  - rewrite (Hj k), Ek by (set_solver || by rewrite Ek). done.
  - rewrite (Hj a), Ea by (set_solver || by rewrite Ea). done.
  - destruct (obj_get k (canonical m)) as [v|] eqn:E; [|done].
    destruct (proj1 (Hv v) eq_refl) as (j & Hj' & Hg). set_solver.
Qed.
End spelling.

Lemma respelled_run_key k : is_run_key (respelled k) = is_run_key k.
Proof.
  destruct (decide (k ∈ fst <$> RUN_ALIASES)) as [Hk|Hk]; [|by rewrite respelled_fixed].
  repeat (apply elem_of_cons in Hk as [->|Hk]; [reflexivity|]). by apply elem_of_nil in Hk.
Qed.

Lemma rest_canonical (m : list (string * Value)) :
  filter (λ kv, is_run_key kv.1 = false) (canonical m) = filter (λ kv, is_run_key kv.1 = false) m.
Proof.
  induction m as [|[k v] m IH]; [done|]. unfold canonical. rewrite fmap_cons. fold (canonical m).
  rewrite !filter_cons, IH. cbn [fst]. rewrite respelled_run_key.
  destruct (decide (is_run_key k = false)) as [E|E]; [|done]. rewrite respelled_fixed; [done|].
  intros Hk. unfold is_run_key in E. by rewrite (bool_decide_true _ Hk), orb_true_r in E.
Qed.

(** The spelling of a run file does not matter: with the second names of its keys, with
    the first, or with a mixture, the reader finds the same run, or none, in it, as long
    as no field occurs under both of its names. *)
Theorem either_spelling_reads_the_same m :
  NoDup (fst <$> canonical m) → de_run (JObject m) = de_run (JObject (canonical m)).
Proof.
  intros Hd. unfold de_run, text_field, required_text.
  assert (∀ k, k ∈ RUN_KEYS → field (names_of k) m = field (names_of k) (canonical m)) as Hf.
  { intros k Hk. by destruct (field_respelled m Hd k Hk) as [-> ->]. }
  rewrite rest_canonical, !Hf by (apply (bool_decide_eq_true_1 _); vm_compute; reflexivity).
  reflexivity.
Qed.

(** A file that spells it [sessionId] has no session: the text ends in the rest. *)
Theorem session_has_one_spelling m s v :
  de_run (JObject m) = Some s → obj_get "session_id" m = None →
  session_id s = None ∧ (obj_get "sessionId" m = Some v → extra s !! "sessionId" = Some v).
Proof.
  intros (id & _ & (session & Hse & Hs)%bind_Some)%bind_Some Hn.
  unfold text_field, field in Hse. change (names_of "session_id") with ["session_id"] in Hse.
  cbn [omap list_omap] in Hse. rewrite Hn in Hse. cbn in Hse. injection Hse as <-.
  repeat (apply bind_Some in Hs as (? & _ & Hs)). injection Hs as <-. cbn [session_id extra].
  split; [done|]. intros Hv.
  assert (∀ l, obj_get "sessionId" l = Some v →
    (list_to_map (filter (λ kv, is_run_key kv.1 = false) l) : gmap string Value) !! "sessionId" = Some v) as Hl.
  { induction l as [|[k u] l IH]; cbn [obj_get]; [done|]. rewrite filter_cons. case_bool_decide as Ek.
    - subst. intros [= ->]. rewrite decide_True by reflexivity. apply lookup_insert_eq.
    - intros Hg. case_decide; [|auto]. cbn [list_to_map foldr fst snd].
      etrans; [apply lookup_insert_ne|by auto]. intros E. by destruct Ek. }
  by apply Hl.
Qed.
