(* ===== verification/ConsoleApp.v ===== *)
(** * ConsoleApp: the state of the operator console and its pure operations
    ([tui-agent/src/app.rs])

    What is selected on each of the three tabs, the launch that is being prepared, the
    overlay in front, and the lines each panel shows. *)
From S2P Require Import Prelude Text Json Shared Paths Disk Scan Ipc Launch Runs Summaries Prisms.
From S2P Require Import ConsoleConfig.
From Stdlib Require Import Ascii.

(** ** Data *)
Module AppTab.
Inductive AppTab := Monitor | Dispatch | Controls.
End AppTab.
Module DispatchFocus.
Inductive DispatchFocus := Kind | Agent | Runtime | Prompt.
End DispatchFocus.
Module LaunchFocus.
Inductive LaunchFocus := Browse | EditPrompt | Help | Search | Error | Artifact.
End LaunchFocus.
Module QueueScope.
Inductive QueueScope := Live | History | All.
End QueueScope.
#[export] Instance AppTab_eq_dec : EqDecision AppTab.AppTab.
Proof. solve_decision. Defined.
#[export] Instance DispatchFocus_eq_dec : EqDecision DispatchFocus.DispatchFocus.
Proof. solve_decision. Defined.
#[export] Instance LaunchFocus_eq_dec : EqDecision LaunchFocus.LaunchFocus.
Proof. solve_decision. Defined.
#[export] Instance QueueScope_eq_dec : EqDecision QueueScope.QueueScope.
Proof. solve_decision. Defined.

Definition TITLES : list string := ["Monitor"; "Dispatch"; "Controls"].
Definition tab_from_index (i : nat) : AppTab.AppTab :=
  match (i mod length TITLES)%nat with
  | 0%nat => AppTab.Monitor
  | 1%nat => AppTab.Dispatch
  | _ => AppTab.Controls
  end.
Definition tab_index (t : AppTab.AppTab) : nat :=
  match t with AppTab.Monitor => 0 | AppTab.Dispatch => 1 | AppTab.Controls => 2 end%nat.

Definition tab_label (t : AppTab.AppTab) : string :=
  match t with
  | AppTab.Monitor => "Monitor"
  | AppTab.Dispatch => "Dispatch"
  | AppTab.Controls => "Controls"
  end.

Definition FOCUS_COUNT : nat := 4.
Definition focus_from_index (i : nat) : DispatchFocus.DispatchFocus :=
  match (i mod FOCUS_COUNT)%nat with
  | 0%nat => DispatchFocus.Kind
  | 1%nat => DispatchFocus.Agent
  | 2%nat => DispatchFocus.Runtime
  | _ => DispatchFocus.Prompt
  end.
(** [DispatchFocus::Kind as usize] and so on. *)
Definition focus_index (d : DispatchFocus.DispatchFocus) : nat :=
  match d with
  | DispatchFocus.Kind => 0
  | DispatchFocus.Agent => 1
  | DispatchFocus.Runtime => 2
  | DispatchFocus.Prompt => 3
  end.

Definition scope_label (q : QueueScope.QueueScope) : string :=
  match q with
  | QueueScope.Live => "live"
  | QueueScope.History => "history"
  | QueueScope.All => "all"
  end.
Definition scope_title (q : QueueScope.QueueScope) : string :=
  match q with
  | QueueScope.Live => "Live queue"
  | QueueScope.History => "History"
  | QueueScope.All => "All runs"
  end.
Definition scope_next (q : QueueScope.QueueScope) : QueueScope.QueueScope :=
  match q with
  | QueueScope.Live => QueueScope.History
  | QueueScope.History => QueueScope.All
  | QueueScope.All => QueueScope.Live
  end.

Module DeepAction.
Inductive DeepAction :=
| AttachSession (session : string)
| ResumeSession (agent session : string)
| OpenReport (path : string)
| OpenTranscript (path : string)
| OpenRoot (path : string)
| MuxHealth (service : string)
| MuxRestart (service : string)
| MuxVerifyClient (client : ClientKind.ClientKind)
| MuxFixClientDrift (client : ClientKind.ClientKind)
| PolarizeIntent (band : PolarizeBand.PolarizeBand) (score : N) (run_id prism_path : string)
| SkillLaunch (skill : string) (agent : SkillAgent.SkillAgent) (payload : SkillPayload).
End DeepAction.

(** [str::trim_start_matches("vc-")] of a skill's name. *)
Definition deep_action_label (a : DeepAction.DeepAction) : string :=
  match a with
  | DeepAction.AttachSession s => "Attach operator session: vibecrafted dashboard attach " +:+ s
  | DeepAction.ResumeSession agent s =>
      "Resume agent session: vibecrafted resume " +:+ agent +:+ " --session " +:+ s
  | DeepAction.OpenReport p => "Open latest report: " +:+ p
  | DeepAction.OpenTranscript p => "Open latest transcript: " +:+ p
  | DeepAction.OpenRoot p => "Open run root: " +:+ p
  | DeepAction.MuxHealth s => "Health-check MCP daemon: rust-mux health --service " +:+ s
  | DeepAction.MuxRestart s => "Restart MCP daemon: rust-mux restart --service " +:+ s
  | DeepAction.MuxVerifyClient _ => "Verify client routing through mux"
  | DeepAction.MuxFixClientDrift _ => "Fix client drift: rust-mux wizard --strategy auto-rewire"
  | DeepAction.PolarizeIntent band score id p =>
      "Inspect polarize intent: " +:+ band_label band +:+ " score " +:+ pretty score +:+
      " run " +:+ id +:+ " -> " +:+ p
  | DeepAction.SkillLaunch skill agent payload =>
      let payload_label := match payload with
                           | Prompt p => if negb (is_blank p) then "prompt" else "no payload"
                           | File _ => "file"
                           | NoPayload => "no payload"
                           end in
      "Launch skill: vibecrafted " +:+ trim_start_matches "vc-" skill +:+ " " +:+
      agent_label agent +:+ " (" +:+ payload_label +:+ ")"
  end.

(** The subscriber's channel is not part of the state: its events are inputs. *)
Record App := mkApp {
  config : AppConfig;
  app_state : ControlPlaneState;
  runs : list RenderedRun;
  selected : nat;
  active_tab_index : nat;
  launch_kind : LaunchKind.LaunchKind;
  launch_agent : nat;
  launch_prompt : string;
  launch_runtime : LaunchRuntime.LaunchRuntime;
  dispatch_selected : nat;
  focus : LaunchFocus.LaunchFocus;
  status_line : string;
  launch_history : list string;
  deep_selected : nat;
  queue_scope : QueueScope.QueueScope;
  search_query : string;
  error_title : string;
  app_error_lines : list string;
  artifact_title : string;
  app_artifact_lines : list string;
  mux_summaries : list MuxSummary;
  polarize_intents : list PolarizeIntent;
}.
#[export] Instance App_eta : Eta App := fun a =>
  mkApp (config a) (app_state a) (runs a) (selected a) (active_tab_index a) (launch_kind a)
    (launch_agent a) (launch_prompt a) (launch_runtime a) (dispatch_selected a) (focus a)
    (status_line a) (launch_history a) (deep_selected a) (queue_scope a) (search_query a)
    (error_title a) (app_error_lines a) (artifact_title a) (app_artifact_lines a)
    (mux_summaries a) (polarize_intents a).

Definition default_prompt (k : LaunchKind.LaunchKind) : string :=
  match k with
  | LaunchKind.Workflow => "Plan and implement the task I am looking at now."
  | LaunchKind.Research => "Research the task I am looking at now and report the ground truth."
  | LaunchKind.Review => "Review the selected surface and call out concrete risks."
  | LaunchKind.Marbles =>
      "Run a convergence loop on the selected surface until the lies are exposed."
  end.
Definition agents : list string := ["claude"; "codex"; "gemini"].

(** ** Filtering the board *)
Definition is_live_run (k : RunKind.RunKind) : bool :=
  match k with RunKind.Active | RunKind.Stalled | RunKind.Paused => true | _ => false end.

Definition searched_fields (s : RunSnapshot) : list string :=
  omap id [Some (run_id s); session_id s; agent s; skill s; mode s; state s; status s; root s;
           latest_report s; latest_transcript s].
Definition run_matches_query (r : RenderedRun) (query : string) : bool :=
  any (λ v, contains (to_ascii_lowercase v) query) (searched_fields (snapshot r)).

Definition apply_run_filters (rs : list RenderedRun) (scope : QueueScope.QueueScope)
    (search_query : string) : list RenderedRun :=
  let rs := match scope with
            | QueueScope.Live => retain (λ r, is_live_run (rendered_kind r)) rs
            | QueueScope.History => retain (λ r, negb (is_live_run (rendered_kind r))) rs
            | QueueScope.All => rs
            end in
  let query := to_ascii_lowercase (trim search_query) in
  if negb (str_is_empty query) then retain (λ r, run_matches_query r query) rs else rs.

(** ** Moving around

    [isize] indices are [Z].  [lift fuel len i] adds [len] while [i] is negative; [fuel]
    is [-i], of which every turn takes [len]. *)
Fixpoint lift (fuel : nat) (len i : Z) : Z :=
  match fuel with
  | O => i
  | S fuel => if (i <? 0)%Z then lift fuel len (i + len) else i
  end.
(** The index [delta] steps further in a ring of [len]. *)
Definition shift_in_ring (len i : nat) (delta : Z) : nat :=
  let index := (Z.of_nat i + delta)%Z in
  Z.to_nat (lift (Z.to_nat (- index)) (Z.of_nat len) index mod Z.of_nat len)%Z.
(** The neighbour in a list of [len], from one end to the other. *)
Definition step_in_list (len i : nat) (delta : Z) : nat :=
  let index := (Z.of_nat i + delta)%Z in
  let index := if (index <? 0)%Z then (Z.of_nat len - 1)%Z else index in
  let index := if (Z.of_nat len <=? index)%Z then 0%Z else index in
  Z.to_nat index.

(** ** Reading the state *)
Section reading.
Context (a : App).

Definition selected_run : option RenderedRun := runs a !! selected a.
Definition active_tab : AppTab.AppTab := tab_from_index (active_tab_index a).
Definition dispatch_focus : DispatchFocus.DispatchFocus := focus_from_index (dispatch_selected a).
(** [agents()[self.launch_agent]] panics outside the list, where [wf] never lets it be. *)
Definition selected_agent : string := nth (launch_agent a) agents "".

Definition non_empty (o : option string) : option string :=
  opt_filter (λ v, negb (str_is_empty v)) o.
(** What can be done with a run. *)
Definition run_actions (s : RunSnapshot) : list DeepAction.DeepAction :=
  let on o (f : string → DeepAction.DeepAction) :=
    match non_empty o with Some v => [f v] | None => [] end in
  on (operator_session s) DeepAction.AttachSession ++
  match non_empty (agent s), non_empty (session_id s) with
  | Some agent, Some session => [DeepAction.ResumeSession agent session]
  | _, _ => []
  end ++
  on (latest_report s) DeepAction.OpenReport ++
  on (latest_transcript s) DeepAction.OpenTranscript ++
  on (root s) DeepAction.OpenRoot.

Definition resolve_skill_agent (default : SkillAgent.SkillAgent) (selected : string) :
    SkillAgent.SkillAgent :=
  match default with SkillAgent.Any => from_cli_token selected | concrete => concrete end.
Definition skill_action (e : SkillEntry) : DeepAction.DeepAction :=
  let payload := match accepts e with
                 | NoPayloadKind => NoPayload
                 | Optional | PromptOrFile =>
                     if is_blank (launch_prompt a) then NoPayload else Prompt (launch_prompt a)
                 end in
  DeepAction.SkillLaunch (slug e) (resolve_skill_agent (default_agent e) selected_agent) payload.
Definition intent_action (i : PolarizeIntent) : DeepAction.DeepAction :=
  DeepAction.PolarizeIntent (pi_band i) (pi_score i) (pi_run_id i) (prism_path i).

Definition deep_actions : list DeepAction.DeepAction :=
  match selected_run with Some r => run_actions (snapshot r) | None => [] end ++
  ((λ s, DeepAction.MuxHealth (display_name s)) <$> mux_summaries a) ++
  (intent_action <$> polarize_intents a) ++
  (skill_action <$> CATALOG).
Definition selected_deep_action : option DeepAction.DeepAction := deep_actions !! deep_selected a.

Definition clipboard_payload : option string :=
  r ← selected_run;
  let s := snapshot r in
  Some match agent s, session_id s with
       | Some agent, Some session => "vibecrafted resume " +:+ agent +:+ " --session " +:+ session
       | _, _ => match latest_report s with Some report => report | None => run_id s end
       end.

Definition active_run_count : nat :=
  length (retain (λ r, match rendered_kind r with
                       | RunKind.Active | RunKind.Stalled => true
                       | _ => false
                       end) (runs a)).
End reading.

(** ** Changing the state *)
Section changing.
Context (a : App).

Definition append_status (s : string) : App := a <| status_line := s |>.

Definition next_tab : App :=
  a <| active_tab_index := ((active_tab_index a + 1) mod length TITLES)%nat |>
    <| focus := LaunchFocus.Browse |>.
Definition previous_tab : App :=
  a <| active_tab_index := (if bool_decide (active_tab_index a = 0) then length TITLES - 1
                            else active_tab_index a - 1)%nat |>
    <| focus := LaunchFocus.Browse |>.
Definition set_active_tab (t : AppTab.AppTab) : App :=
  a <| active_tab_index := tab_index t |> <| focus := LaunchFocus.Browse |>.

Definition set_launch_kind (k : LaunchKind.LaunchKind) : App :=
  a <| launch_kind := k |> <| launch_prompt := default_prompt k |>
    <| active_tab_index := tab_index AppTab.Dispatch |>
    <| dispatch_selected := focus_index DispatchFocus.Kind |> <| focus := LaunchFocus.Browse |>.

Definition shift_agent (delta : Z) : App :=
  a <| launch_agent := shift_in_ring (length agents) (launch_agent a) delta |>.
Definition RUNTIMES : list LaunchRuntime.LaunchRuntime :=
  [LaunchRuntime.Headless; LaunchRuntime.Terminal; LaunchRuntime.Visible].
Definition shift_runtime (delta : Z) : App :=
  let current := unwrap_or (position (λ r, bool_decide (r = launch_runtime a)) RUNTIMES) 1%nat in
  a <| launch_runtime := nth (shift_in_ring (length RUNTIMES) current delta) RUNTIMES (launch_runtime a) |>.
Definition KINDS : list LaunchKind.LaunchKind :=
  [LaunchKind.Workflow; LaunchKind.Research; LaunchKind.Review; LaunchKind.Marbles].
Definition shift_launch_kind (delta : Z) : App :=
  let current := unwrap_or (position (λ k, bool_decide (k = launch_kind a)) KINDS) 0%nat in
  let kind := nth (shift_in_ring (length KINDS) current delta) KINDS (launch_kind a) in
  a <| launch_kind := kind |> <| launch_prompt := default_prompt kind |>.
Definition cycle_agent : App := shift_agent 1.
Definition cycle_runtime : App := shift_runtime 1.

Definition move_dispatch_selection (delta : Z) : App :=
  a <| dispatch_selected := shift_in_ring FOCUS_COUNT (dispatch_selected a) delta |>.
Definition adjust_dispatch_selection (delta : Z) : App :=
  match dispatch_focus a with
  | DispatchFocus.Kind => shift_launch_kind delta
  | DispatchFocus.Agent => shift_agent delta
  | DispatchFocus.Runtime => shift_runtime delta
  | DispatchFocus.Prompt => a <| focus := LaunchFocus.EditPrompt |>
  end.

Definition move_selection (delta : Z) : App :=
  if bool_decide (runs a = []) then a <| selected := 0%nat |>
  else a <| selected := step_in_list (length (runs a)) (selected a) delta |>.
Definition move_deep_selection (delta : Z) : App :=
  let len := length (deep_actions a) in
  if bool_decide (len = 0%nat) then a <| deep_selected := 0%nat |>
  else a <| deep_selected := step_in_list len (deep_selected a) delta |>.

Definition sync_run_selection : App :=
  if bool_decide (length (runs a) ≤ selected a)%nat && negb (bool_decide (runs a = []))
  then a <| selected := (length (runs a) - 1)%nat |> else a.
Definition sync_deep_selection : App :=
  let deep_len := length (deep_actions a) in
  if bool_decide (deep_len = 0%nat) then a <| deep_selected := 0%nat |>
  else if bool_decide (deep_len ≤ deep_selected a)%nat
       then a <| deep_selected := (deep_len - 1)%nat |> else a.

Definition show_error (title : string) (lines : list string) : App :=
  a <| error_title := title |>
    <| app_error_lines := (if bool_decide (lines = []) then ["No error detail was captured."] else lines) |>
    <| status_line := title |> <| focus := LaunchFocus.Error |>.

Definition line_count (prompt : string) : nat := Nat.max (length (str_lines prompt)) 1.
Definition finish_prompt_edit : App :=
  a <| focus := LaunchFocus.Browse |>
    <| status_line := "prompt updated: " +:+ pretty (N.of_nat (char_count (launch_prompt a))) +:+
         " chars across " +:+ pretty (N.of_nat (line_count (launch_prompt a))) +:+ " line(s)" |>.

(** The last six are kept. *)
Definition push_launch_history (entry : string) : App :=
  let h := launch_history a ++ [entry] in
  a <| launch_history := (if bool_decide (6 < length h)%nat then drop (length h - 6) h else h) |>.
End changing.
Definition sync_selection (a : App) : App := sync_deep_selection (sync_run_selection a).

(** ** The launch that is being prepared *)
Section launching.
(** [ZELLIJ_CONFIG_DIR], the test for a regular file and the clock, in milliseconds
    since the epoch ([None]: it stands before it). *)
Context (zellij_config_dir : option string) (is_file : string → bool) (now_ms : option N).

(** [{:05}]. *)
Definition zero_pad (width : nat) (n : N) : string :=
  let s := pretty n in String.concat "" (repeat "0" (width - String.length s)) +:+ s.
Definition default_session_name (k : LaunchKind.LaunchKind) : string :=
  let suffix := match now_ms with Some ms => (ms mod 100000)%N | None => 0%N end in
  "vc-op-" +:+ kind_label k +:+ "-" +:+ zero_pad 5 suffix.

Definition launch_env (a : App) : Env :=
  [("VIBECRAFTED_ROOT", launch_root (config a));
   ("VIBECRAFT_OPERATOR_STATE_ROOT", state_root (config a))] ++
  match non_empty zellij_config_dir with
  | Some dir => [("ZELLIJ_CONFIG_DIR", dir)]
  | None => []
  end.

Definition launch_request (a : App) : LaunchRequest :=
  {| lr_kind := launch_kind a;
     lr_agent := selected_agent a;
     lr_prompt := launch_prompt a;
     lr_runtime := launch_runtime a;
     lr_root := Some (launch_root (config a));
     lr_terminal_binary := Some (terminal_binary (config a));
     lr_env := launch_env a;
     lr_count := Some 3%N;
     lr_depth := Some 3%N;
     lr_session_name :=
       match launch_runtime a with
       | LaunchRuntime.Terminal | LaunchRuntime.Visible =>
           Some (default_session_name (launch_kind a))
       | LaunchRuntime.Headless => None
       end |}.
Definition launch_command (a : App) : LaunchCommand :=
  build_launch_command zellij_config_dir is_file (command_deck (config a)) (launch_request a).

(** [deep_control_command]; [None]: the [unreachable!] of the actions that the console's
    own viewer handles and of those it never offers. *)
Definition deep_control_command (a : App) (act : DeepAction.DeepAction) : option LaunchCommand :=
  match act with
  | DeepAction.AttachSession session =>
      Some (mkLaunchCommand (command_deck (config a)) ["dashboard"; "attach"; session] [])
  | DeepAction.ResumeSession agent session =>
      Some (mkLaunchCommand (command_deck (config a)) ["resume"; agent; "--session"; session] [])
  | DeepAction.MuxHealth service =>
      Some (mkLaunchCommand "rust-mux" ["health"; "--service"; service] [])
  | DeepAction.SkillLaunch skill agent payload =>
      Some (build_skill_launch_command (command_deck (config a)) skill agent
              (from_cli_token (selected_agent a)) payload (launch_env a))
  | _ => None
  end.
End launching.

(** ** Marker names: one character for one character. *)
Definition safe_marker_char (c : string) : string :=
  match c with
  | String b EmptyString =>
      if is_ascii_alphanumeric b || bool_decide (b ∈ ["-"; "_"; "."]%char) then c else "_"
  | _ => "_"
  end.
Definition safe_marker_name (run_id : string) : string :=
  String.concat "" (safe_marker_char <$> chars run_id).
