(* ===== verification/ConsoleView.v ===== *)
(** * ConsoleView: the text of the operator console's panels ([tui-agent/src/app.rs])

    Every function from the state to lines; [ui.rs] puts them into boxes. *)
From S2P Require Import Prelude Text Json Shared Paths Ipc Launch Runs Summaries Prisms.
From S2P Require Import ConsoleConfig ConsoleApp.
From Stdlib Require Import Ascii.

Definition nat_str (n : nat) : string := pretty (N.of_nat n).

Definition mux_status_lines (a : App) : list string :=
  if bool_decide (mux_summaries a = []) then [] else
  let total := length (mux_summaries a) in
  let unhealthy := length (retain (λ s, negb (summary_is_healthy s)) (mux_summaries a)) in
  (if bool_decide (unhealthy = 0%nat) then "MCP daemons (" +:+ nat_str total +:+ " healthy):"
   else "MCP daemons (" +:+ nat_str unhealthy +:+ "/" +:+ nat_str total +:+ " need attention):") ::
  ((λ s, (if summary_is_healthy s then "  • " else "  ! ") +:+ summary_line s) <$> mux_summaries a).

Definition polarize_marker (b : PolarizeBand.PolarizeBand) : string :=
  match b with
  | PolarizeBand.Abort => "!"
  | PolarizeBand.Memo => "-"
  | PolarizeBand.Pass => ">"
  | PolarizeBand.Doctrine => "*"
  end.
Definition polarize_status_lines (a : App) : list string :=
  if bool_decide (polarize_intents a = []) then [] else
  let doctrine := length (retain (λ i, bool_decide (pi_band i = PolarizeBand.Doctrine)) (polarize_intents a)) in
  (if bool_decide (doctrine = 0%nat)
   then "Polarize intents (" +:+ nat_str (length (polarize_intents a)) +:+ "):"
   else "Polarize intents (" +:+ nat_str doctrine +:+ " doctrine):") ::
  ((λ i, "  " +:+ polarize_marker (pi_band i) +:+ " " +:+ intent_summary_line i) <$> polarize_intents a).

Definition count_of (label : string) (rs : list RenderedRun) : nat :=
  length (retain (λ r, str_eqb (run_label (rendered_kind r)) label) rs).
Definition status_summary (a : App) : string :=
  if bool_decide (runs a = []) then "no " +:+ scope_label (queue_scope a) +:+ " runs loaded" else
  join " | " (("runs: " +:+ nat_str (length (runs a))) ::
    omap (λ label, let count := count_of label (runs a) in
                   if bool_decide (0 < count)%nat then Some (label +:+ " " +:+ nat_str count) else None)
      ["active"; "stalled"; "failed"; "paused"; "recent"; "completed"; "unknown"]).

Definition detail_lines (a : App) : list string :=
  match selected_run a with
  | None =>
      ["No runs found in the control-plane state directory yet."; "";
       "Start here:"; "1 -> Workflow for the normal path";
       "2 -> Research swarm if the surface is still unclear";
       "3 -> Review if something already exists and needs truth";
       "4 -> Marbles when the system works but still drifts"; "";
       "Use a / v / e / Enter in the launch panel below.";
       "Press ? for the in-app operator guide."; "";
       "State root: " +:+ state_root (config a); "Launch root: " +:+ launch_root (config a)]
  | Some r =>
      let s := snapshot r in
      let given (o : option string) (label : string) :=
        match o with Some v => [label +:+ v] | None => [] end in
      ["run_id: " +:+ run_id s;
       "status: " +:+ run_label (rendered_kind r) +:+ " (" +:+ display_state s +:+ ")";
       "agent: " +:+ unwrap_or (agent s) "unknown"; "skill: " +:+ unwrap_or (skill s) "unknown";
       "mode: " +:+ unwrap_or (mode s) "unknown"; "age: " +:+ rendered_age r;
       "operator_session: " +:+ unwrap_or (operator_session s) "none"] ++
      given (session_id s) "session_id: " ++ given (root s) "root: " ++
      given (latest_report s) "latest_report: " ++
      given (latest_transcript s) "latest_transcript: " ++ given (last_error s) "last_error: " ++
      match operator_session s with
      | Some session => [""; "Attach hint: vibecrafted dashboard attach " +:+ session;
                         "Zellij hint: zellij attach " +:+ session]
      | None => []
      end ++
      given (agent s) "Resume hint: vibecrafted resume " ++
      [""; "State root: " +:+ state_root (config a)]
  end.

Definition event_lines (a : App) : list string :=
  match selected_run a with
  | None => []
  | Some r =>
      if bool_decide (recent_events r = []) then ["No recent events for this run."]
      else (λ e, ev_ts e +:+ " " +:+ unwrap_or (ev_message e) (ev_kind e)) <$> recent_events r
  end.

Definition dispatch_line (selected : bool) (content : string) : string :=
  (if selected then "▶ " else "  ") +:+ content.
(** White space collapsed; cut to 93 characters and dots when longer than 96. *)
Definition one_line_prompt (prompt : string) : string :=
  let collapsed := join " " (split_whitespace prompt) in
  if bool_decide (96 < char_count collapsed)%nat
  then of_chars (take 93 (chars collapsed)) +:+ "..." else collapsed.
Definition prompt_lines (zellij_config_dir : option string) (is_file : string → bool)
    (now_ms : option N) (a : App) : list string :=
  let on d := bool_decide (dispatch_focus a = d) in
  [dispatch_line (on DispatchFocus.Kind)
     ("mission: " +:+ human_title (launch_kind a) +:+ "  " +:+ human_description (launch_kind a));
   dispatch_line (on DispatchFocus.Agent) ("agent: " +:+ selected_agent a);
   dispatch_line (on DispatchFocus.Runtime) ("runtime: " +:+ runtime_label (launch_runtime a));
   dispatch_line (on DispatchFocus.Prompt) ("prompt: " +:+ one_line_prompt (launch_prompt a));
   "";
   "Arrows: ↑/↓ choose field  ←/→ change field  Enter launch";
   "Shortcuts: 1-4 mission  a agent  v runtime  e edit prompt  / search";
   "";
   "root: " +:+ launch_root (config a);
   "command: " +:+ command_line (launch_command zellij_config_dir is_file now_ms a)] ++
  match last (launch_history a) with
  | Some entry => [""; "last launch: " +:+ entry]
  | None => []
  end.

Definition tab_labels (a : App) : list string :=
  let mark := if str_is_empty (search_query a) then "" else "?" in
  ["Monitor " +:+ scope_label (queue_scope a) +:+ " " +:+ nat_str (length (runs a)) +:+ mark;
   "Dispatch " +:+ kind_label (launch_kind a) +:+ "/" +:+ selected_agent a;
   "Controls " +:+ nat_str (length (deep_actions a))].

Definition deep_control_lines (a : App) : list string :=
  let actions := deep_actions a in
  if bool_decide (length actions = 0%nat) then
    ["Deep controls"; "No attach/resume/report actions are available for the selected run.";
     "Pick another run or launch a fresh one below."]
  else
    ["Deep controls"; "Enter runs the selected action. Esc returns to browse."; ""] ++
    imap (λ idx act,
      (if bool_decide (active_tab a = AppTab.Controls) && bool_decide (idx = deep_selected a)
       then "▶" else " ") +:+ " " +:+ deep_action_label act) actions.

Definition prompt_edit_lines (a : App) : list string :=
  ["Prompt editor";
   nat_str (char_count (launch_prompt a)) +:+ " chars across " +:+
     nat_str (line_count (launch_prompt a)) +:+ " line(s)";
   ""] ++
  (if str_is_empty (launch_prompt a) then ["Type the worker prompt here."]
   else str_lines (launch_prompt a)) ++
  [""; "Enter inserts newline. Ctrl+S or Esc saves."].

(** The text of the help page. *)
Definition help_lines : list string :=
  ["Operator guide";
   "";
   "This console is the human front door into Vibecrafted control-plane state.";
   "Browse runs on the left, inspect truth on the right, and launch new work below.";
   "";
   "Quick start";
   "1 Workflow  -> normal path for most tasks";
   "2 Research  -> send a research swarm first";
   "3 Review    -> audit an existing surface";
   "4 Marbles   -> convergence loop for fragile systems";
   "";
   "Tabs";
   "Tab / Shift+Tab switch between Monitor, Dispatch, and Controls.";
   "Monitor keeps the live board. Dispatch shapes the next run. Controls opens attach/report actions.";
   "";
   "Keys";
   "↑/↓ or j/k  navigate inside the active tab";
   "a           cycle launch agent";
   "v           cycle runtime (terminal / visible / headless)";
   "e           edit launch prompt";
   "Ctrl+S/Esc  save prompt edits; Enter inserts a prompt newline";
   "Enter       launch selected action";
   "d           selected-run deep controls";
   "y           copy resume/report/run identity to clipboard";
   "f           cycle queue scope: live, history, all";
   "/           search runs by id, agent, skill, status, path";
   "x           archive selected run from the operator view";
   "r           refresh control-plane state";
   "?           close this guide";
   "q / Esc     quit";
   "";
   "Operator rule";
   "Use this to decide and launch. Let worker agents execute; do not overload the shell as your only dashboard."].

Definition error_lines (a : App) : list string := error_title a :: "" :: app_error_lines a.
Definition artifact_view_lines (a : App) : list string := artifact_title a :: "" :: app_artifact_lines a.

(** ** What the panels promise *)

(** The Controls tab marks exactly the selected action, and marks one whenever the
    selection is in range. *)
Lemma deep_control_marks_the_selected a act :
  active_tab a = AppTab.Controls → selected_deep_action a = Some act →
  deep_control_lines a !! (3 + deep_selected a)%nat = Some ("▶ " +:+ deep_action_label act).
Proof.
  intros Ht Hs. unfold deep_control_lines. unfold selected_deep_action in Hs.
  rewrite bool_decide_false by (apply lookup_lt_Some in Hs; lia).
  rewrite lookup_app_r by (simpl; lia).
  replace (3 + deep_selected a - _)%nat with (deep_selected a) by (simpl; lia).
  rewrite list_lookup_imap, Hs. cbn [fmap option_fmap option_map].
  by rewrite !bool_decide_true.
Qed.
