(* ===== verification/Screen.v ===== *)
(** * Screen: what the drawing functions hand to the terminal library

    A drawing function computes text, asks the library to divide an area, and renders
    widgets into the parts.  Text, styles and widgets are recorded as terms, with one
    constructor or field for each that the code uses; a frame is the log of the
    [render_widget] calls.  [None] is the panic of an index that is out of range.  How
    an area is divided belongs to the library: [Layout] states what is relied on. *)
From S2P Require Import Prelude Text.

(** ** Text *)
Module Color.
Inductive Color :=
| Black | Red | Green | Yellow | Blue | Magenta | Cyan | Gray | DarkGray | White.
End Color.
#[export] Instance Color_eq_dec : EqDecision Color.Color.
Proof. solve_decision. Defined.

(** [Style::default()] with [.fg], [.bg] and the two modifiers that occur. *)
Record Style := mkStyle {
  style_fg : option Color.Color;
  style_bg : option Color.Color;
  is_bold : bool;
  is_reversed : bool;
}.
Definition plain : Style := mkStyle None None false false.
Definition fg (c : Color.Color) : Style := mkStyle (Some c) None false false.
Definition bold : Style := mkStyle None None true false.
Definition fg_bold (c : Color.Color) : Style := mkStyle (Some c) None true false.

Record Span := mkSpan { span_text : string; span_style : Style }.
Definition raw (s : string) : Span := mkSpan s plain.
Definition styled (s : string) (st : Style) : Span := mkSpan s st.
Definition Line : Type := list Span.
Definition line_of (s : string) : Line := [raw s].
Definition line_text (l : Line) : string := String.concat "" (span_text <$> l).

(** ** Widgets; every block has all four borders. *)
Record Block := mkBlock {
  block_title : Line;
  block_style : Style;
  border_style : Style;
}.
Record Paragraph := mkParagraph {
  par_lines : list Line;
  par_block : option Block;
  par_style : Style;
  wrap_trim : option bool;  (* [.wrap(Wrap { trim })] *)
}.
Record Cell := mkCell { cell_text : string; cell_style : Style }.
Inductive Constraint :=
| Length (n : N) | Min (n : N) | Percentage (n : N) | Ratio (num den : N).
Inductive Widget :=
| WClear
| WParagraph (p : Paragraph)
| WList (items : list Line) (b : Block)
| WTabs (titles : list Line) (b : Block) (selected : nat) (divider : string)
    (style highlight : Style)
| WTable (header : list Cell) (rows : list (list Cell)) (widths : list Constraint) (b : Block)
    (highlight : Style) (selected : option nat).

Definition titled (title : string) : Block := mkBlock (line_of title) plain plain.
Definition bordered (title : string) (border : Color.Color) : Block :=
  mkBlock (line_of title) plain (fg border).
Definition untitled : Block := mkBlock [] plain plain.
(** A paragraph in a box; [trim] is the argument of [wrap]. *)
Definition boxed (trim : bool) (lines : list Line) (b : Block) : Widget :=
  WParagraph (mkParagraph lines (Some b) plain (Some trim)).
(** Text without a box. *)
Definition bare (lines : list Line) (st : Style) : Widget :=
  WParagraph (mkParagraph lines None st None).

(** ** Areas *)
Record Rect := mkRect { rect_x : N; rect_y : N; rect_width : N; rect_height : N }.
Definition inside (r outer : Rect) : Prop :=
  (rect_x outer ≤ rect_x r)%N ∧ (rect_y outer ≤ rect_y r)%N ∧
  (rect_x r + rect_width r ≤ rect_x outer + rect_width outer)%N ∧
  (rect_y r + rect_height r ≤ rect_y outer + rect_height outer)%N.
#[export] Instance inside_preorder : PreOrder inside.
Proof. split; [intros r; unfold inside; lia|]. intros a b c; unfold inside; lia. Qed.

Inductive Direction := Vertical | Horizontal.

(** [Layout::default().direction(d).margin(m).constraints(cs).split(area)]: one chunk for
    each constraint, none of which leaves the area. *)
Class Layout := {
  chunks : Direction → N → list Constraint → Rect → list Rect;
  chunks_length : ∀ d m cs area, length (chunks d m cs area) = length cs;
  chunks_inside : ∀ d m cs area, Forall (λ r, inside r area) (chunks d m cs area);
}.

(** A concrete layout for witnesses: every chunk is the whole area. *)
#[refine] Definition stacked_layout : Layout := {|
  chunks _ _ cs area := replicate (length cs) area;
|}.
Proof.
  - intros. apply length_replicate.
  - intros. by apply Forall_replicate.
Defined.

(** ** Frames *)
Definition Frame : Type := list (Widget * Rect).
Definition render_widget (w : Widget) (area : Rect) : option Frame := Some [(w, area)].
Definition nothing : option Frame := Some [].
(** One drawing function after the other. *)
Definition then_draw (a b : option Frame) : option Frame := fa ← a; fb ← b; Some (fa ++ fb).
#[global] Arguments then_draw : simpl never.
#[global] Arguments render_widget : simpl never.
Notation "a ';;;' b" := (then_draw a b)
  (at level 100, b at level 200, right associativity) : operator_scope.

(** [on_screen area o]: the drawing succeeded, and each of its widgets lies in [area]. *)
Definition on_screen (area : Rect) (o : option Frame) : Prop :=
  ∃ f, o = Some f ∧ Forall (λ d, inside d.2 area) f.

Lemma on_screen_nothing area : on_screen area nothing.
Proof. by exists []. Qed.
Lemma on_screen_render w r area : inside r area → on_screen area (render_widget w r).
Proof. intros Hr. exists [(w, r)]. split; [done|]. by constructor. Qed.
Lemma on_screen_then area a b :
  on_screen area a → on_screen area b → on_screen area (a ;;; b).
Proof.
  intros (fa & -> & Ha) (fb & -> & Hb). exists (fa ++ fb). split; [done|]. by apply Forall_app.
Qed.
Lemma on_screen_mono inner area o : inside inner area → on_screen inner o → on_screen area o.
Proof.
  intros Hi (f & -> & Hf). exists f. split; [done|]. eapply Forall_impl; [exact Hf|].
  intros d Hd. exact (transitivity Hd Hi).
Qed.

(** The chunk that an index names. *)
Lemma on_screen_chunk `{Layout} d m cs area i (k : Rect → option Frame) :
  (i < length cs)%nat → (∀ r, inside r area → on_screen area (k r)) →
  on_screen area (chunks d m cs area !! i ≫= k).
Proof.
  intros Hi Hk. rewrite <- (chunks_length d m cs area) in Hi.
  apply lookup_lt_is_Some_2 in Hi as [r Hr]. rewrite Hr. apply Hk.
  exact (Forall_lookup_1 _ _ _ _ (chunks_inside d m cs area) Hr).
Qed.

#[export] Hint Resolve on_screen_nothing on_screen_render : operator.

(** Follows the structure of a drawing function; what is left are side conditions on
    indices that do not compute. *)
Ltac draws :=
  repeat first
    [ solve [eauto with operator]
    | reflexivity
    | apply on_screen_then
    | apply on_screen_chunk; [simpl; lia|intros ? ?]
    | apply on_screen_render
    | match goal with
      | H : inside ?r ?area |- on_screen ?area ?o =>
          lazymatch o with context [r] => apply (on_screen_mono r area _ H) end
      | H : inside ?r ?area |- inside ?r ?area => exact H
      end
    | case_match ].

Lemma line_text_line_of s : line_text (line_of s) = s.
Proof. reflexivity. Qed.

(** [drawn w o]: the drawing succeeded, and [w] is among what it rendered. *)
Definition drawn (w : Widget) (o : option Frame) : Prop := ∃ f r, o = Some f ∧ (w, r) ∈ f.

Lemma drawn_render w r : drawn w (render_widget w r).
Proof. exists [(w, r)], r. split; [done|]. by apply list_elem_of_singleton. Qed.
Lemma drawn_left w a b area : drawn w a → on_screen area b → drawn w (a ;;; b).
Proof.
  intros (fa & r & -> & Hw) (fb & -> & _). exists (fa ++ fb), r. split; [done|].
  apply elem_of_app. by left.
Qed.
Lemma drawn_right w a b area : on_screen area a → drawn w b → drawn w (a ;;; b).
Proof.
  intros (fa & -> & _) (fb & r & -> & Hw). exists (fa ++ fb), r. split; [done|].
  apply elem_of_app. by right.
Qed.
Lemma drawn_chunk `{Layout} w d m cs area i (k : Rect → option Frame) :
  (i < length cs)%nat → (∀ r, drawn w (k r)) → drawn w (chunks d m cs area !! i ≫= k).
Proof.
  intros Hi Hk. rewrite <- (chunks_length d m cs area) in Hi.
  apply lookup_lt_is_Some_2 in Hi as [r ->]. apply Hk.
Qed.

(** What is rendered last lies in front. *)
Definition in_front (ws : list Widget) (o : option Frame) : Prop :=
  ∃ f behind, o = Some f ∧ f.*1 = behind ++ ws.
Lemma in_front_then ws a b area : on_screen area a → in_front ws b → in_front ws (a ;;; b).
Proof.
  intros (fa & -> & _) (fb & behind & -> & E). exists (fa ++ fb), (fa.*1 ++ behind).
  split; [done|]. by rewrite fmap_app, E, app_assoc.
Qed.
Lemma in_front_chunk `{Layout} ws d m cs area i (k : Rect → option Frame) :
  (i < length cs)%nat → (∀ r, in_front ws (k r)) → in_front ws (chunks d m cs area !! i ≫= k).
Proof.
  intros Hi Hk. rewrite <- (chunks_length d m cs area) in Hi.
  apply lookup_lt_is_Some_2 in Hi as [r ->]. apply Hk.
Qed.
