(* ===== verification/ConsoleScreen.v ===== *)
(** * ConsoleScreen: drawing the operator console ([tui-agent/src/ui.rs])

    Every function of [ui.rs] as the widgets it renders; [frame.area()] is [screen]. *)
From S2P Require Import Prelude Text Json Shared Paths Ipc Launch Runs Summaries Prisms.
From S2P Require Import ConsoleConfig ConsoleApp ConsoleView Screen.
From Stdlib Require Import Ascii.

(** ** Pieces *)
Definition status_style (k : RunKind.RunKind) : Style :=
  match k with
  | RunKind.Active => fg_bold Color.Green
  | RunKind.Recent | RunKind.Completed => fg Color.Blue
  | RunKind.Failed => fg_bold Color.Red
  | RunKind.Stalled => fg_bold Color.Yellow
  | RunKind.Paused => fg Color.Magenta
  | RunKind.Unknown => fg Color.Gray
  end.

(** [(lines.len() as u16 + 2).clamp(3, cap)], or nothing for no lines. *)
Definition panel_height (lines : list string) (cap : N) : N :=
  match lines with
  | [] => 0
  | _ => clamp (u16_add (as_u16 (N.of_nat (length lines))) 2) 3 cap
  end.

Definition mux_title (total_services : nat) (state : option SubscriberState.SubscriberState) :
    string :=
  let title := " rust-mux (" +:+ nat_str total_services +:+ ") " in
  match state with
  | Some SubscriberState.Connected => title +:+ "[Connected] "
  | Some SubscriberState.Reconnecting => title +:+ "[Reconnecting] "
  | Some SubscriberState.Polling => title +:+ "[Polling] "
  | Some SubscriberState.Failed => title +:+ "[Failed] "
  | None => title
  end.
Definition mux_title_color (lines : list string)
    (state : option SubscriberState.SubscriberState) : Color.Color :=
  match state with
  | Some SubscriberState.Connected => Color.Green
  | Some SubscriberState.Reconnecting | Some SubscriberState.Polling => Color.Yellow
  | Some SubscriberState.Failed => Color.Red
  | None => if any (λ l, contains l "! ") lines then Color.Red else Color.Green
  end.
Definition mux_line (l : string) : Line :=
  match strip_prefix "  ! " l with
  | Some rest => [styled "  ! " (fg Color.Red); raw rest]
  | None =>
      match strip_prefix "  • " l with
      | Some rest => [styled "  • " (fg Color.Green); raw rest]
      | None => line_of l
      end
  end.
Definition polarize_line (l : string) : Line :=
  if contains l " doctrine " then [styled "* " (fg Color.Magenta); raw (trim_start_matches "  * " l)]
  else if contains l " pass " then [styled "> " (fg Color.Green); raw (trim_start_matches "  > " l)]
  else line_of l.

(** One row of the board: a marker, the label, a line break and the details. *)
Definition run_item (selected : nat) (idx : nat) (run : RenderedRun) : Line :=
  let s := snapshot run in
  let label := run_id s +:+ " " +:+ run_label (rendered_kind run) +:+ " / " +:+
               unwrap_or (agent s) "unknown" +:+ " / " +:+ unwrap_or (mode s) "unknown" in
  let detail := rendered_age run +:+ "  " +:+ unwrap_or (last_error s) "" in
  [if bool_decide (idx = selected) then styled "▶ " (fg Color.Yellow) else raw "  ";
   styled label (status_style (rendered_kind run)); raw (String newline ""); styled detail (fg Color.DarkGray)].

Definition nav_hint (t : AppTab.AppTab) (f : LaunchFocus.LaunchFocus) : string :=
  match t, f with
  | AppTab.Monitor, _ => "Monitor: ↑/↓ runs  / search  f scope  x archive  d controls  ? help"
  | AppTab.Dispatch, LaunchFocus.EditPrompt =>
      "Dispatch edit: type prompt  Enter newline  Ctrl+S/Esc save"
  | _, LaunchFocus.Error => "Error: Enter/Esc closes the failure details"
  | _, LaunchFocus.Artifact => "Artifact viewer: Enter/Esc closes the native viewer"
  | AppTab.Dispatch, _ =>
      "Dispatch: ↑/↓ field  ←/→ change  e edit prompt  Enter launch  1-4 presets"
  | AppTab.Controls, _ =>
      "Controls: ↑/↓ action  ←/→ run selection  Enter open  d jump here from Monitor"
  end.
Definition SHORTCUTS : string :=
  "Global: q quit  r refresh  a cycle agent  v cycle runtime  y copy  Ctrl+L clear search  ? help".

Definition is_artifact_action (a : DeepAction.DeepAction) : bool :=
  match a with
  | DeepAction.OpenReport _ | DeepAction.OpenTranscript _ | DeepAction.OpenRoot _
  | DeepAction.PolarizeIntent _ _ _ _ => true
  | _ => false
  end.

(** ** The frame *)
Section screen.
Context `{Layout} (screen : Rect).
(** What [prompt_lines] reads outside the state, and the subscriber's state, if there is a
    subscriber. *)
Context (zellij_config_dir : option string) (is_file : string → bool) (now_ms : option N).
Context (subscriber : option SubscriberState.SubscriberState).

(** [Layout::default().direction(d).constraints(cs).split(area)[i]]. *)
Definition chunk (d : Direction) (cs : list Constraint) (area : Rect) (i : nat)
    (k : Rect → option Frame) : option Frame := chunks d 0 cs area !! i ≫= k.
Definition lines_box (lines : list string) (title : string) (area : Rect) : option Frame :=
  render_widget (boxed false (line_of <$> lines) (titled title)) area.

Definition draw_header (area : Rect) (a : App) : option Frame :=
  let rows := chunk Vertical [Length 1; Length 1] area in
  rows 0%nat (render_widget (bare
    [[styled "Vibecrafted Operator Console" (fg_bold Color.Yellow); raw "  ";
      styled (status_summary a) (fg Color.Gray)]] plain)) ;;;
  rows 1%nat (render_widget (bare
    [line_of ("mission root: " +:+ launch_root (config a) +:+ "  |  active runs: " +:+
              nat_str (active_run_count a) +:+ "  |  scope: " +:+ scope_label (queue_scope a) +:+
              "  |  focus: " +:+ tab_label (active_tab a))] (fg Color.DarkGray))).

Definition draw_tabs (area : Rect) (a : App) : option Frame :=
  render_widget (WTabs (line_of <$> tab_labels a) (titled "Surface") (active_tab_index a) "│"
                   (fg Color.Gray) (fg_bold Color.Yellow)) area.

(** Three cards, and the columns they are zipped with. *)
Definition draw_stat_strip (area : Rect) (cards : list (string * list string * Color.Color)) :
    option Frame :=
  let columns := chunks Horizontal 0 [Ratio 1 3; Ratio 1 3; Ratio 1 3] area in
  foldr (λ cc rest,
    render_widget (WParagraph (mkParagraph (line_of <$> cc.1.1.2)
      (Some (bordered cc.1.1.1 cc.1.2)) (fg Color.White) (Some false))) cc.2 ;;; rest)
    nothing (zip cards columns).

Definition draw_mux_panel (area : Rect) (lines : list string) (total_services : nat)
    (state : option SubscriberState.SubscriberState) : option Frame :=
  let title := styled (mux_title total_services state) (fg_bold (mux_title_color lines state)) in
  render_widget (boxed false (mux_line <$> lines) (mkBlock [title] plain plain)) area.
Definition draw_polarize_panel (area : Rect) (lines : list string) (total_intents : nat) :
    option Frame :=
  let color := if any (λ l, contains l "doctrine") lines then Color.Magenta else Color.Yellow in
  let title := styled (" polarize (" +:+ nat_str total_intents +:+ ") ") (fg_bold color) in
  render_widget (boxed false (polarize_line <$> lines) (mkBlock [title] plain plain)) area.

Definition run_items (a : App) : list Line :=
  if bool_decide (runs a = []) then [line_of "No run snapshots found."]
  else imap (run_item (selected a)) (runs a).
Definition draw_runs (area : Rect) (a : App) (emphasize_live : bool) : option Frame :=
  let title :=
    if emphasize_live && negb (str_is_empty (search_query a))
    then scope_title (queue_scope a) +:+ " (/ " +:+ search_query a +:+ ")"
    else if emphasize_live then scope_title (queue_scope a) else "Runs" in
  render_widget (WList (run_items a) (titled title)) area.
Definition draw_detail (area : Rect) (a : App) (title : string) : option Frame :=
  lines_box (ConsoleView.detail_lines a) title area.
Definition draw_events (area : Rect) (a : App) (title : string) : option Frame :=
  lines_box (event_lines a) title area.

Definition draw_monitor (area : Rect) (a : App) : option Frame :=
  let mux_lines := mux_status_lines a in
  let polarize_lines := polarize_status_lines a in
  let has_mux := negb (bool_decide (mux_lines = [])) in
  let has_polarize := negb (bool_decide (polarize_lines = [])) in
  let constraints :=
    [Length 5] ++ (if has_mux then [Length (panel_height mux_lines 10)] else []) ++
    (if has_polarize then [Length (panel_height polarize_lines 9)] else []) ++ [Min 8] in
  let rows := chunk Vertical constraints area in
  let after_mux := if has_mux then 2%nat else 1%nat in
  let body_idx := if has_polarize then S after_mux else after_mux in
  rows 0%nat (λ r, draw_stat_strip r
    [("Monitor pulse",
      [nat_str (length (runs a)) +:+ " runs visible";
       nat_str (active_run_count a) +:+ " active or stalled"], Color.Green);
     ("Selection",
      match selected_run a with
      | Some run => [run_id (snapshot run);
                     run_label (rendered_kind run) +:+ " / " +:+ unwrap_or (agent (snapshot run)) "unknown"]
      | None => ["No run selected"; "Dispatch a worker to populate the board"]
      end, Color.Yellow);
     ("Filter",
      [scope_label (queue_scope a) +:+ " scope";
       if str_is_empty (search_query a) then "f cycles live/history/all"
       else "/ " +:+ search_query a], Color.Cyan)]) ;;;
  (if has_mux then rows 1%nat (λ r, draw_mux_panel r mux_lines (length (mux_summaries a)) subscriber)
   else nothing) ;;;
  (if has_polarize
   then rows after_mux (λ r, draw_polarize_panel r polarize_lines (length (polarize_intents a)))
   else nothing) ;;;
  rows body_idx (λ r,
    let body := chunk Horizontal [Percentage 36; Percentage 64] r in
    body 0%nat (λ left, draw_runs left a true) ;;;
    body 1%nat (λ right,
      let parts := chunk Vertical [Percentage 62; Percentage 38] right in
      parts 0%nat (λ p, draw_detail p a "Run dossier") ;;;
      parts 1%nat (λ p, draw_events p a "Recent timeline"))).

Definition draw_launch (area : Rect) (a : App) : option Frame :=
  lines_box (prompt_lines zellij_config_dir is_file now_ms a)
    (if bool_decide (focus a = LaunchFocus.EditPrompt) then "Dispatch deck (editing prompt)"
     else "Dispatch deck") area.
Definition draw_launch_history (area : Rect) (a : App) : option Frame :=
  let entries :=
    if bool_decide (launch_history a = []) then
      ["No launches from this session yet."; "";
       "Use Dispatch to stage a worker, then press Enter."]
    else reverse (launch_history a) in
  lines_box (entries ++ [""; "selected run: " +:+
    match selected_run a with Some run => run_id (snapshot run) | None => "none" end])
    "Launch trail" area.
Definition PLAYBOOK : list string :=
  ["Dispatch posture"; ""; "Shape the next worker before you launch it.";
   "Use mission kind for intent, agent for style, runtime for surface.";
   "Prompt edit is the last mile: keep it sharp and bounded."].

Definition draw_dispatch (area : Rect) (a : App) : option Frame :=
  let rows := chunk Vertical [Length 5; Min 12] area in
  rows 0%nat (λ r, draw_stat_strip r
    [("Mission", [human_title (launch_kind a); human_description (launch_kind a)], Color.Yellow);
     ("Operator", ["agent " +:+ selected_agent a; "runtime " +:+ runtime_label (launch_runtime a)],
      Color.Blue);
     ("Prompt",
      [if bool_decide (focus a = LaunchFocus.EditPrompt) then "Editing live prompt"
       else "Ready to launch";
       nat_str (char_count (launch_prompt a)) +:+ " chars staged"], Color.Magenta)]) ;;;
  rows 1%nat (λ r,
    let body := chunk Horizontal [Percentage 60; Percentage 40] r in
    body 0%nat (λ left, draw_launch left a) ;;;
    body 1%nat (λ right,
      let parts := chunk Vertical [Percentage 44; Percentage 56] right in
      parts 0%nat (lines_box PLAYBOOK "Dispatch playbook") ;;;
      parts 1%nat (λ p, draw_launch_history p a))).

Definition draw_deep_controls (area : Rect) (a : App) : option Frame :=
  lines_box (deep_control_lines a) "Control actions" area.
Definition draw_controls (area : Rect) (a : App) : option Frame :=
  let actions := deep_actions a in
  let selected_action := match selected_deep_action a with
                         | Some act => deep_action_label act
                         | None => "No action primed"
                         end in
  let artifact_count := length (retain is_artifact_action actions) in
  let rows := chunk Vertical [Length 5; Min 12] area in
  rows 0%nat (λ r, draw_stat_strip r
    [("Run access",
      match selected_run a with
      | Some run => [run_id (snapshot run); display_state (snapshot run)]
      | None => ["No run selected"; "Monitor chooses the source run"]
      end, Color.Yellow);
     ("Action deck", [nat_str (length actions) +:+ " actions available"; selected_action],
      Color.Cyan);
     ("Artifacts", [nat_str artifact_count +:+ " file surfaces"; "reports / transcripts / roots"],
      Color.Green)]) ;;;
  rows 1%nat (λ r,
    let body := chunk Horizontal [Percentage 46; Percentage 54] r in
    body 0%nat (λ left, draw_deep_controls left a) ;;;
    body 1%nat (λ right,
      let parts := chunk Vertical [Percentage 60; Percentage 40] right in
      parts 0%nat (λ p, draw_detail p a "Artifact access") ;;;
      parts 1%nat (λ p, draw_events p a "Selected timeline"))).

Definition draw_body (area : Rect) (a : App) : option Frame :=
  match active_tab a with
  | AppTab.Monitor => draw_monitor area a
  | AppTab.Dispatch => draw_dispatch area a
  | AppTab.Controls => draw_controls area a
  end.

Definition draw_footer (area : Rect) (a : App) : option Frame :=
  let rows := chunk Vertical [Length 1; Length 1; Length 1] area in
  let status := if str_is_empty (status_line a) then "state root: " +:+ state_root (config a)
                else status_line a in
  rows 0%nat (render_widget (bare [line_of (nav_hint (active_tab a) (focus a))] (fg Color.Cyan))) ;;;
  rows 1%nat (render_widget (bare [line_of SHORTCUTS] (fg Color.DarkGray))) ;;;
  rows 2%nat (render_widget (bare [line_of status] (fg Color.Gray))).

(** ** Overlays

    [u16] percentages: [100 - p] does not underflow for the values that occur. *)
Definition centered_rect (percent_x percent_y : N) (area : Rect) (k : Rect → option Frame) :
    option Frame :=
  chunk Vertical [Percentage ((100 - percent_y) / 2); Percentage percent_y;
                  Percentage ((100 - percent_y) / 2)] area 1%nat (λ middle,
  chunk Horizontal [Percentage ((100 - percent_x) / 2); Percentage percent_x;
                    Percentage ((100 - percent_x) / 2)] middle 1%nat k).

Definition overlay (percent_x percent_y : N) (lines : list Line) (title : string)
    (border : Color.Color) : option Frame :=
  centered_rect percent_x percent_y screen (λ area,
    render_widget WClear area ;;; render_widget (boxed false lines (bordered title border)) area).

Definition draw_help_overlay : option Frame :=
  overlay 72 70 (line_of <$> help_lines) "Help" Color.Yellow.
Definition draw_search_overlay (a : App) : option Frame :=
  let query := if str_is_empty (search_query a) then "type to filter runs" else search_query a in
  overlay 64 24
    [[styled "/" (fg Color.Yellow); raw query]; line_of "";
     line_of (nat_str (length (runs a)) +:+ " runs visible in " +:+ scope_label (queue_scope a) +:+ " scope");
     line_of "Enter/Esc closes. Ctrl+L clears search from browse."] "Run search" Color.Cyan.
Definition draw_prompt_overlay (a : App) : option Frame :=
  overlay 76 60 (line_of <$> prompt_edit_lines a) "Prompt editor" Color.Magenta.
Definition draw_error_overlay (a : App) : option Frame :=
  overlay 76 56 (line_of <$> error_lines a) "Launch error" Color.Red.
Definition draw_artifact_overlay (a : App) : option Frame :=
  overlay 82 72 (line_of <$> artifact_view_lines a) "Artifact viewer" Color.Green.

Definition draw_overlay (a : App) : option Frame :=
  match focus a with
  | LaunchFocus.Help => draw_help_overlay
  | LaunchFocus.EditPrompt => draw_prompt_overlay a
  | LaunchFocus.Search => draw_search_overlay a
  | LaunchFocus.Error => draw_error_overlay a
  | LaunchFocus.Artifact => draw_artifact_overlay a
  | LaunchFocus.Browse => nothing
  end.

Definition draw (a : App) : option Frame :=
  let layout := chunk Vertical [Length 2; Length 3; Min 12; Length 3] screen in
  layout 0%nat (λ r, draw_header r a) ;;;
  layout 1%nat (λ r, draw_tabs r a) ;;;
  layout 2%nat (λ r, draw_body r a) ;;;
  layout 3%nat (λ r, draw_footer r a) ;;;
  draw_overlay a.

Definition drift_text (halt : VerifyHalt) : list string :=
  match halt with
  | Drift servers =>
      "Non-mux servers found:" ::
      ((λ s, "  " +:+ nm_client s +:+ " (" +:+ nm_path s +:+ ":" +:+ pretty (nm_line s) +:+ ")") <$> servers)
  | Timeout => ["Timeout waiting for verify response."]
  end.
Definition draw_client_drift_overlay (area : Rect) (halt : VerifyHalt) : option Frame :=
  chunk Vertical [Percentage 20; Percentage 60; Percentage 20] area 1%nat (λ area,
  chunk Horizontal [Percentage 10; Percentage 80; Percentage 10] area 1%nat (λ area,
    let block := mkBlock (line_of " Client Drift Detected ")
                   (mkStyle (Some Color.Red) (Some Color.Black) false false) plain in
    let lines :=
      [line_of "Dispatch halted because client configuration does not route through rust-mux.";
       line_of ""] ++ (line_of <$> drift_text halt) ++
      [line_of ""; [styled "Press F to auto-fix (spawns wizard)" bold];
       line_of "Press Esc to cancel."] in
    render_widget WClear area ;;; render_widget (boxed false lines block) area)).
End screen.

(** ** What is on the screen *)
Section facts.
Context `{Layout} (screen : Rect).
Context (zellij_config_dir : option string) (is_file : string → bool) (now_ms : option N).
Context (subscriber : option SubscriberState.SubscriberState).

Notation draw := (ConsoleScreen.draw screen zellij_config_dir is_file now_ms subscriber).

Lemma draw_stat_strip_fits area cards : on_screen area (draw_stat_strip area cards).
Proof.
  unfold draw_stat_strip. pose proof (chunks_inside Horizontal 0 [Ratio 1 3; Ratio 1 3; Ratio 1 3] area) as Hin.
  revert Hin. generalize (chunks Horizontal 0 [Ratio 1 3; Ratio 1 3; Ratio 1 3] area) as columns.
  induction cards as [|c cards IH]; intros [|r columns] Hin; simpl; [apply on_screen_nothing..|].
  apply Forall_cons in Hin as [Hr Hin]. apply on_screen_then; [|by apply IH].
  by apply on_screen_render.
Qed.
Hint Resolve draw_stat_strip_fits : operator.

(** The rows of the Monitor tab: their number is that of the panels that are shown. *)
Lemma draw_monitor_fits area a : on_screen area (draw_monitor subscriber area a).
Proof.
  unfold draw_monitor, chunk, draw_mux_panel, draw_polarize_panel, draw_runs, draw_detail, draw_events, lines_box.
  destruct (negb (bool_decide (mux_status_lines a = []))),
    (negb (bool_decide (polarize_status_lines a = []))); cbv zeta; draws.
Qed.
Lemma draw_dispatch_fits area a :
  on_screen area (draw_dispatch zellij_config_dir is_file now_ms area a).
Proof. unfold draw_dispatch, chunk, draw_launch, draw_launch_history, lines_box. cbv zeta. draws. Qed.
Lemma draw_controls_fits area a : on_screen area (draw_controls area a).
Proof. unfold draw_controls, chunk, draw_deep_controls, draw_detail, draw_events, lines_box. cbv zeta. draws. Qed.
Hint Resolve draw_monitor_fits draw_dispatch_fits draw_controls_fits : operator.

Lemma overlay_fits x y lines title border : on_screen screen (overlay screen x y lines title border).
Proof. unfold overlay, centered_rect, chunk. draws. Qed.
Lemma draw_overlay_fits a : on_screen screen (draw_overlay screen a).
Proof. unfold draw_overlay. destruct (focus a); [apply on_screen_nothing|apply overlay_fits..]. Qed.
Hint Resolve draw_overlay_fits : operator.

Lemma draw_body_fits area a : on_screen area (draw_body zellij_config_dir is_file now_ms subscriber area a).
Proof. unfold draw_body. draws. Qed.
Lemma draw_header_fits area a : on_screen area (draw_header area a).
Proof. unfold draw_header, chunk. cbv zeta. draws. Qed.
Lemma draw_footer_fits area a : on_screen area (draw_footer area a).
Proof. unfold draw_footer, chunk. cbv zeta. draws. Qed.
Lemma draw_tabs_fits area a : on_screen area (draw_tabs area a).
Proof. by apply on_screen_render. Qed.
Hint Resolve draw_body_fits draw_header_fits draw_footer_fits draw_tabs_fits : operator.

Lemma draw_fits a : on_screen screen (draw a).
Proof. unfold ConsoleScreen.draw, chunk. cbv zeta. draws. Qed.


(** *** The board *)
Definition marked (l : Line) : Prop := head l = Some (styled "▶ " (fg Color.Yellow)).

Lemma run_item_marked a i run : marked (run_item (selected a) i run) ↔ i = selected a.
Proof. unfold marked, run_item. simpl. case_bool_decide; by split. Qed.
Lemma run_item_names sel i run : ∃ pre post, line_text (run_item sel i run) = pre +:+ run_id (snapshot run) +:+ post.
Proof.
  unfold line_text, run_item. set (st := status_style _). case_bool_decide; csimpl.
  - eexists "▶ ", _. cbn [String.concat span_text styled raw]. rewrite <- !str_app_assoc. reflexivity.
  - eexists "  ", _. cbn [String.concat span_text styled raw]. rewrite <- !str_app_assoc. reflexivity.
Qed.

(** A widget of the body is on the screen. *)
Lemma drawn_in_body w a :
  (∀ r, drawn w (draw_body zellij_config_dir is_file now_ms subscriber r a)) → drawn w (draw a).
Proof.
  intros Hw. unfold ConsoleScreen.draw. cbv zeta.
  apply (drawn_right _ _ _ screen); [unfold chunk; draws|].
  apply (drawn_right _ _ _ screen); [unfold chunk; draws|].
  apply (drawn_left _ _ _ screen); [apply drawn_chunk; [simpl; lia|done]|unfold chunk; draws].
Qed.

Lemma board_drawn area a :
  drawn (WList (run_items a) (titled
    (if negb (str_is_empty (search_query a))
     then scope_title (queue_scope a) +:+ " (/ " +:+ search_query a +:+ ")"
     else scope_title (queue_scope a)))) (draw_monitor subscriber area a).
Proof.
  unfold draw_monitor. cbv zeta.
  destruct (negb (bool_decide (mux_status_lines a = []))),
    (negb (bool_decide (polarize_status_lines a = []))).
  all: do 3 (apply (drawn_right _ _ _ area);
    [unfold chunk, draw_mux_panel, draw_polarize_panel; draws|]).
  all: apply drawn_chunk; [simpl; lia|]; intros r; apply (drawn_left _ _ _ r);
    [|unfold chunk, draw_detail, draw_events, lines_box; draws].
  all: apply drawn_chunk; [simpl; lia|]; intros left; unfold draw_runs; cbn [andb];
    destruct (negb (str_is_empty (search_query a))); apply drawn_render.
Qed.

(** *** The daemons *)
Lemma mux_line_of_summary s :
  mux_line ((if summary_is_healthy s then "  • " else "  ! ") +:+ summary_line s) =
  [if summary_is_healthy s then styled "  • " (fg Color.Green) else styled "  ! " (fg Color.Red);
   raw (summary_line s)].
Proof. unfold mux_line. destruct (summary_is_healthy s); reflexivity. Qed.

(** The line of a daemon. *)
Definition daemon_line (s : MuxSummary) : Line :=
  [if summary_is_healthy s then styled "  • " (fg Color.Green) else styled "  ! " (fg Color.Red);
   raw (summary_line s)].

Lemma mux_lines_split a :
  mux_summaries a ≠ [] →
  ∃ header, mux_line <$> mux_status_lines a = line_of header :: (daemon_line <$> mux_summaries a).
Proof.
  intros Hne. unfold mux_status_lines. rewrite bool_decide_false by done. cbv zeta.
  assert (∀ l : list MuxSummary, mux_line <$> ((λ s,
    (if summary_is_healthy s then "  • " else "  ! ") +:+ summary_line s) <$> l) = daemon_line <$> l) as E.
  { intros l. rewrite <- list_fmap_compose. apply list_fmap_ext. intros _ s _. apply mux_line_of_summary. }
  case_bool_decide; eexists; rewrite fmap_cons, E; f_equal; reflexivity.
Qed.

Lemma mux_panel_drawn a :
  mux_summaries a ≠ [] →
  ∃ header block, ∀ area, drawn (boxed false (line_of header :: (daemon_line <$> mux_summaries a)) block)
    (draw_monitor subscriber area a).
Proof.
  intros Hne. destruct (mux_lines_split a Hne) as [header E]. eexists header, _. intros area.
  unfold draw_monitor. cbv zeta.
  rewrite (bool_decide_false (mux_status_lines a = [])) by (by intros E0; rewrite E0 in E). cbn [negb].
  apply (drawn_right _ _ _ area); [unfold chunk; destruct (negb _); draws|].
  apply (drawn_left _ _ _ area).
  - apply drawn_chunk; [destruct (negb _); simpl; lia|]. intros r. unfold draw_mux_panel.
    rewrite E. apply drawn_render.
  - unfold chunk, draw_polarize_panel, draw_runs, draw_detail, draw_events, lines_box.
    destruct (negb (bool_decide (polarize_status_lines a = []))); cbv zeta; draws.
Qed.

(** The Monitor tab shows what the keys act upon.  The board has one row for each visible
    run, in order; a row names its run, and the arrow is at the row of the selected run
    and at no other.  Every daemon has a line of its own, with a red mark exactly when it is not
    healthy. *)
Theorem monitor_shows_the_selection a :
  active_tab a = AppTab.Monitor →
  (runs a ≠ [] → ∃ items title, drawn (WList items (titled title)) (draw a) ∧
     length items = length (runs a) ∧
     ∀ i run, runs a !! i = Some run → ∃ item, items !! i = Some item ∧
       contains (line_text item) (run_id (snapshot run)) = true ∧ (marked item ↔ i = selected a)) ∧
  (mux_summaries a ≠ [] → ∃ lines block header, drawn (boxed false (header :: lines) block) (draw a) ∧
     length lines = length (mux_summaries a) ∧
     ∀ i s, mux_summaries a !! i = Some s → ∃ mark, lines !! i = Some [mark; raw (summary_line s)] ∧
       (style_fg (span_style mark) = Some Color.Red ↔ summary_is_healthy s = false)).
Proof.
  intros Ht. split; intros Hne.
  - exists (run_items a). eexists. split_and!.
    + apply drawn_in_body. intros r. unfold draw_body. rewrite Ht. apply board_drawn.
    + unfold run_items. rewrite bool_decide_false by done. apply length_imap.
    + intros i run Hi. exists (run_item (selected a) i run). split_and!.
      * unfold run_items. rewrite bool_decide_false by done. by rewrite list_lookup_imap, Hi.
      * apply contains_spec. apply run_item_names.
      * apply run_item_marked.
  - destruct (mux_panel_drawn a Hne) as (header & block & Hd).
    exists (daemon_line <$> mux_summaries a), block, (line_of header). split_and!.
    + apply drawn_in_body. intros r. unfold draw_body. rewrite Ht. apply Hd.
    + apply length_fmap.
    + intros i s Hi. eexists. rewrite list_lookup_fmap, Hi. split; [reflexivity|].
      by destruct (summary_is_healthy s).
Qed.

(** *** Overlays *)
Lemma overlay_in_front x y lines title border :
  in_front [WClear; boxed false lines (bordered title border)] (overlay screen x y lines title border).
Proof.
  unfold overlay, centered_rect, chunk.
  do 2 (apply in_front_chunk; [simpl; lia|]; intros ?). by eexists _, [].
Qed.

(** What is in front of everything else: the overlay of the focus. *)
Theorem overlay_lies_in_front a :
  match focus a with
  | LaunchFocus.Error =>
      in_front [WClear; boxed false (line_of <$> error_lines a) (bordered "Launch error" Color.Red)] (draw a)
  | LaunchFocus.Artifact =>
      in_front [WClear; boxed false (line_of <$> artifact_view_lines a) (bordered "Artifact viewer" Color.Green)] (draw a)
  | LaunchFocus.EditPrompt =>
      in_front [WClear; boxed false (line_of <$> prompt_edit_lines a) (bordered "Prompt editor" Color.Magenta)] (draw a)
  | LaunchFocus.Help =>
      in_front [WClear; boxed false (line_of <$> help_lines) (bordered "Help" Color.Yellow)] (draw a)
  | LaunchFocus.Search => ∃ lines, in_front [WClear; boxed false lines (bordered "Run search" Color.Cyan)] (draw a)
  | LaunchFocus.Browse => True
  end.
Proof.
  assert (∀ ws, in_front ws (draw_overlay screen a) → in_front ws (draw a)) as Hd.
  { intros ws Hws. unfold ConsoleScreen.draw. cbv zeta.
    do 4 (apply (in_front_then _ _ _ screen); [unfold chunk; draws|]). exact Hws. }
  unfold draw_overlay in Hd. destruct (focus a); [done|..]; try apply Hd, overlay_in_front.
  eexists. apply Hd, overlay_in_front.
Qed.
End facts.
