(* ===== verification/WizardScreen.v ===== *)
(** * WizardScreen: drawing the setup wizard ([mux-agent/src/wizard/ui.rs])

    The five steps as the widgets they render; step 4 announces what the chosen strategy
    is about to do, and the theorems compare that with what it does. *)
From S2P Require Import Prelude Text Json Paths Config Scan Rewire MuxGen Danger WizardServices.
From S2P Require Import Wizard WizardRun Screen.
From Stdlib Require Import Ascii.

#[export] Instance ServiceSource_eq_dec : EqDecision ServiceSource.ServiceSource.
Proof. solve_decision. Defined.
#[export] Instance Strategy_eq_dec : EqDecision Strategy.Strategy.
Proof. solve_decision. Defined.
#[export] Instance SummaryAction_eq_dec : EqDecision SummaryAction.SummaryAction.
Proof. solve_decision. Defined.
#[export] Instance TrayChoice_eq_dec : EqDecision TrayChoice.TrayChoice.
Proof. solve_decision. Defined.

(** ** Pieces *)
Definition kind_color_value (k : HostKind.HostKind) : Color.Color :=
  match k with
  | HostKind.Claude | HostKind.ClaudeDesktop => Color.Yellow
  | HostKind.Codex => Color.Blue
  | HostKind.Junie => Color.Green
  | HostKind.Gemini => Color.Red
  | HostKind.Cursor => Color.Magenta
  | HostKind.VSCode => Color.Cyan
  | HostKind.JetBrains => Color.Green
  | HostKind.Custom | HostKind.Unknown => Color.DarkGray
  end.
Definition kind_color (k : HostKind.HostKind) : Color.Color := kind_color_value k.

(** [Vec::dedup]. *)
Fixpoint dedup {A} `{EqDecision A} (l : list A) : list A :=
  match l with
  | x :: (y :: _) as l' => if bool_decide (x = y) then dedup l' else x :: dedup l'
  | _ => l
  end.
Definition selected_per_client_output_kinds (app : AppState) : list HostKind.HostKind :=
  dedup (sort_by (λ a b, str_leb (as_label a) (as_label b))
    (omap (λ svc, match se_source svc with
                  | ServiceSource.Client kind _ => Some kind
                  | ServiceSource.Default _ _ => None
                  | ServiceSource.DetectedRunning => None
                  end) (retain se_selected (app_services app)))).

Definition step_info (s : WizardStep.WizardStep) : string :=
  match s with
  | WizardStep.DiscoverySources => "Step 1/5: Discovery Sources"
  | WizardStep.ServerReview => "Step 2/5: Server Review"
  | WizardStep.StrategyChoice => "Step 3/5: Strategy Choice"
  | WizardStep.SummaryConfirm => "Step 4/5: Summary & Confirm"
  | WizardStep.ResultAndTray => "Step 5/5: Result & Tray Daemon"
  end.

Definition checkbox (ticked : bool) : Span :=
  if ticked then styled "[x] " (fg Color.Green) else styled "[ ] " (fg Color.DarkGray).
Definition status_color (s : SourceStatus.SourceStatus) : Color.Color :=
  match s with
  | SourceStatus.Ok _ => Color.Green
  | SourceStatus.Empty => Color.DarkGray
  | SourceStatus.InvalidFormat _ => Color.Red
  | SourceStatus.Missing => Color.DarkGray
  end.
Definition source_item (selected i : nat) (src : SourceEntry) : Line :=
  let h := host_file src in
  [if bool_decide (i = selected) then styled " ▶ " (fg Color.Yellow) else raw "   ";
   checkbox (source_selected src);
   styled ("[" +:+ pad_left 14 (display_name (kind h)) +:+ "]") (fg (kind_color (kind h)));
   raw " "; raw (Scan.path h);
   styled ("  " +:+ status_short_label (source_status src)) (fg (status_color (source_status src)))].

(** Step 2's list: a separator wherever the source changes. *)
Definition service_item (selected idx : nat) (svc : ServiceEntry) : Line :=
  let color := match se_source svc with
               | ServiceSource.Client kind _ => kind_color_value kind
               | ServiceSource.Default _ _ => Color.Cyan
               | ServiceSource.DetectedRunning => Color.Magenta
               end in
  [if bool_decide (idx = selected) then styled "▶ " (fg Color.Yellow) else raw "  ";
   checkbox (se_selected svc); styled (se_name svc) (fg color);
   match se_pid svc with
   | Some pid => styled (" (pid " +:+ pretty pid +:+ ")") (fg Color.DarkGray)
   | None => raw ""
   end].
Definition separator (s : ServiceSource.ServiceSource) : Line :=
  [styled ("─ " +:+ source_short_label s +:+ " ") (fg Color.DarkGray)].
Fixpoint service_items (selected idx : nat) (current : option ServiceSource.ServiceSource)
    (svcs : list ServiceEntry) : list Line :=
  match svcs with
  | [] => []
  | svc :: svcs =>
      (if bool_decide (current = Some (se_source svc)) then [] else [separator (se_source svc)]) ++
      service_item selected idx svc ::
      service_items selected (S idx) (Some (se_source svc)) svcs
  end.

Definition choices : list (Strategy.Strategy * string * string) :=
  [(Strategy.Unified, "Unified config",
    "Write one ~/.config/mux/{config.toml,mcp.json,mcp.toml} with every selected server. Recommended.");
   (Strategy.PerClient, "Per-client configs",
    "Write a separate file per client kind (claude.json, codex.toml, junie.json, ...) under ~/.config/mux/.");
   (Strategy.AutoRewire, "[DANGER] Auto-rewire existing client configs",
    "Backup-first preview-first rewrite of your real client configs to route through rust-mux-proxy.")].
Definition choice_lines (chosen : Strategy.Strategy) (idx : nat)
    (c : Strategy.Strategy * string * string) : list Line :=
  let '(choice, label, description) := c in
  let is_selected := bool_decide (choice = chosen) in
  let label_color :=
    if bool_decide (choice = Strategy.AutoRewire) then fg_bold Color.Red
    else if is_selected then fg_bold Color.Yellow else plain in
  [[raw ("  " +:+ (if is_selected then "(•)" else "( )") +:+ " ");
    styled (show_nat (idx + 1) +:+ ". ") (fg Color.DarkGray); styled label label_color];
   [raw "       "; styled description (fg Color.DarkGray)];
   line_of ""].

(** A list of alternatives with a marker at the chosen one. *)
Definition action_lines {A} `{EqDecision A} (chosen : A) (l : list (A * string * Color.Color)) :
    list Line :=
  (λ c, let '(action, label, color) := c in
        let is_selected := bool_decide (action = chosen) in
        [raw ("  " +:+ (if is_selected then "▶" else " ") +:+ " ");
         styled label (if is_selected then fg_bold color else fg color)]) <$> l.

(** ** Step 4: what is announced *)
Definition strategy_label (s : Strategy.Strategy) : string :=
  match s with
  | Strategy.Unified => "Unified"
  | Strategy.PerClient => "Per-client configs"
  | Strategy.AutoRewire => "[DANGER] Auto-rewire client configs"
  end.
(** [matches!(s.status, SourceStatus::Ok { .. })] of a selected source. *)
Definition scanned_source (s : SourceEntry) : bool :=
  source_selected s && match source_status s with SourceStatus.Ok _ => true | _ => false end.
Definition eligible (s : SourceEntry) : bool :=
  scanned_source s && eligible_for_danger (host_file s).
Definition ineligible (s : SourceEntry) : bool :=
  scanned_source s && negb (eligible_for_danger (host_file s)).

Definition per_client_announcement (mux_dir : string) (kind : HostKind.HostKind) : string :=
  let ext := match kind with HostKind.Codex => "toml" | _ => "json" end in
  "             " +:+ mux_dir +:+ "/" +:+ as_label kind +:+ "." +:+ ext.
Definition rewrite_announcement (path : string) : string := "    • " +:+ path.

Definition outputs_announced (mux_dir : string) (app : AppState) : list Line :=
  match strategy app with
  | Strategy.Unified =>
      line_of <$> ["  Outputs  : " +:+ mux_dir +:+ "/config.toml";
                   "             " +:+ mux_dir +:+ "/mcp.json";
                   "             " +:+ mux_dir +:+ "/mcp.toml"]
  | Strategy.PerClient =>
      line_of ("  Outputs  : " +:+ mux_dir +:+ "/config.toml (daemon truth)") ::
      (line_of <$> (per_client_announcement mux_dir <$> selected_per_client_output_kinds app))
  | Strategy.AutoRewire =>
      [line_of ""; [styled "  Will rewrite (with .bak per file):" (fg_bold Color.Red)]] ++
      ((λ src, line_of (rewrite_announcement (Scan.path (host_file src)))) <$> retain eligible (sources app)) ++
      match retain ineligible (sources app) with
      | [] => []
      | skipped =>
          [line_of ""; [styled "  Skipped (no strict-config flag for danger flow):" (fg Color.DarkGray)]] ++
          ((λ src, line_of ("    · " +:+ Scan.path (host_file src) +:+ " (" +:+
                            display_name (kind (host_file src)) +:+ ")")) <$> skipped)
      end
  end.
Definition summary_lines (home : option string) (app : AppState) : list Line :=
  let mux_dir := default_mux_dir home in
  [[styled "About to:" bold]; line_of "";
   line_of ("  Strategy : " +:+ strategy_label (strategy app))] ++
  outputs_announced mux_dir app ++
  [line_of ""; line_of ("  Sockets  : " +:+ default_socket_dir mux_dir);
   line_of ("  Servers  : " +:+ show_nat (count se_selected (app_services app)) +:+ " selected")] ++
  (if dry_run app
   then [line_of ""; [styled "  DRY-RUN: no files will be modified." (fg Color.Yellow)]] else []).

(** ** The frame *)
Section screen.
Context `{Layout} (screen : Rect) (home : option string).

(** [constraints(..).split(area)[i]] without a margin. *)
Definition part (d : Direction) (cs : list Constraint) (area : Rect) (i : nat)
    (k : Rect → option Frame) : option Frame := chunks d 0 cs area !! i ≫= k.
Definition trimmed (lines : list Line) (title : string) (border : Color.Color) (area : Rect) :
    option Frame := render_widget (boxed true lines (bordered title border)) area.

Definition STEP1_KEYS : list Line :=
  line_of "" :: [styled "Keys" bold] ::
  (line_of <$> ["  Up/Down  navigate sources"; "  Space    toggle selection";
                "  i        edit custom path"; "  Enter    add custom path";
                "  n        next step"; "  q        quit"]).
Definition custom_path_lines (c : CustomPathInput) : list Line :=
  let buf_style := if editing c then fg_bold Color.Yellow else plain in
  let buf_display := if bool_decide (buffer c = []) then "<empty>" else of_chars (buffer c) in
  [[styled "Add custom path" bold]; line_of "";
   [raw "> "; styled buf_display buf_style;
    if editing c then styled "_" (fg Color.Yellow) else raw ""]] ++
  match input_status c with
  | Some status => [line_of ""; [styled status (fg Color.DarkGray)]]
  | None => []
  end.

Definition draw_step1_sources (app : AppState) (area : Rect) : option Frame :=
  let columns := part Horizontal [Percentage 60; Percentage 40] area in
  let title := "Sources [" +:+ show_nat (count source_selected (sources app)) +:+ "/" +:+
               show_nat (length (sources app)) +:+ "]" in
  columns 0%nat (render_widget (WList (imap (source_item (selected_source app)) (sources app))
                                  (bordered title Color.Cyan))) ;;;
  columns 1%nat (trimmed (custom_path_lines (custom_path app) ++ STEP1_KEYS) "Custom path"
                   Color.DarkGray).

Definition draw_step2_review (app : AppState) (area : Rect) : option Frame :=
  let columns := part Horizontal [Percentage 55; Percentage 45] area in
  let svcs := app_services app in
  let items := match service_items (selected_service app) 0 None svcs with
               | [] => [[styled "No servers discovered. Go back (p) and add sources." (fg Color.Yellow)]]
               | items => items
               end in
  let title := "Servers [" +:+ show_nat (count se_selected svcs) +:+ "/" +:+
               show_nat (length svcs) +:+ "]" in
  let unique_names : gset string := list_to_set (se_name <$> svcs) in
  let lines :=
    [[styled "Summary" bold]; line_of "";
     line_of ("  Total entries  : " +:+ show_nat (length svcs));
     line_of ("  Unique names   : " +:+ show_nat (size unique_names));
     line_of ("  Sources scanned: " +:+ show_nat (count source_selected (sources app)));
     line_of ""; [styled "Keys" bold]] ++
    (line_of <$> ["  Up/Down  navigate"; "  Space    toggle selection"; "  n        next step";
                  "  p        previous step"; "  q        quit"]) ++
    (if bool_decide (svcs = [])
     then [line_of ""; [styled "No services discovered from selected sources." (fg Color.Yellow)]]
     else []) in
  columns 0%nat (render_widget (WList items (bordered title Color.Cyan))) ;;;
  columns 1%nat (trimmed lines "Review" Color.DarkGray).

Definition draw_step3_strategy (app : AppState) (area : Rect) : option Frame :=
  trimmed ([[styled "How do you want to use mux?" bold]; line_of ""] ++
           concat (imap (choice_lines (strategy app)) choices) ++
           [[styled "Up/Down to choose, Enter or n to continue, p to go back, q to quit."
               (fg Color.DarkGray)]])
    "Strategy" Color.Cyan area.

Definition draw_step4_summary (app : AppState) (area : Rect) : option Frame :=
  let columns := part Horizontal [Percentage 70; Percentage 30] area in
  let right :=
    [[styled "Choose action" bold]; line_of ""] ++
    action_lines (summary_action app)
      [(SummaryAction.Confirm, "Confirm", Color.Green); (SummaryAction.Back, "Back", Color.Cyan);
       (SummaryAction.Cancel, "Cancel", Color.Red)] ++
    [line_of ""; [styled "Up/Down: choose, Enter: do it" (fg Color.DarkGray)]] in
  columns 0%nat (trimmed (summary_lines home app) "Summary" Color.Cyan) ;;;
  columns 1%nat (trimmed right "Action" Color.DarkGray).

Definition draw_step5_result (app : AppState) (area : Rect) : option Frame :=
  let columns := part Horizontal [Percentage 70; Percentage 30] area in
  let left :=
    [[styled "Result" (fg_bold Color.Green)]; line_of ""] ++
    match strategy_result app with
    | Some result => line_of <$> str_lines result
    | None => [[styled "(no result captured — see status bar)" (fg Color.DarkGray)]]
    end in
  let right :=
    [[styled "Tray daemon" bold]; line_of ""; line_of "Run a multi-service tray monitor";
     line_of "for the sockets you just configured?"; line_of ""] ++
    action_lines (tray_choice app)
      [(TrayChoice.StartNow, "Start tray daemon now", Color.Green);
       (TrayChoice.No, "No, exit", Color.DarkGray)] ++
    [line_of ""; [styled "Up/Down: choose, Enter: confirm" (fg Color.DarkGray)]] in
  columns 0%nat (trimmed left "Result" Color.Cyan) ;;;
  columns 1%nat (trimmed right "Action" Color.DarkGray).

Definition draw_step (app : AppState) (body : Rect) : option Frame :=
  match wizard_step app with
  | WizardStep.DiscoverySources => draw_step1_sources app body
  | WizardStep.ServerReview => draw_step2_review app body
  | WizardStep.StrategyChoice => draw_step3_strategy app body
  | WizardStep.SummaryConfirm => draw_step4_summary app body
  | WizardStep.ResultAndTray => draw_step5_result app body
  end.

Definition draw_ui (app : AppState) : option Frame :=
  let parts i (k : Rect → option Frame) :=
    chunks Vertical 1 [Length 3; Min 10; Length 3] screen !! i ≫= k in
  parts 0%nat (render_widget (bare
    [[styled "rust-mux wizard" bold; raw " — ";
      styled (step_info (wizard_step app)) (fg Color.Cyan)]] plain)) ;;;
  parts 1%nat (draw_step app) ;;;
  parts 2%nat (render_widget (boxed true
    [raw (message app) ::
     (if dry_run app then [styled " | DRY-RUN" (fg Color.Yellow)] else [])] (titled "Status"))).
End screen.

Section facts.
Context `{Layout} (screen : Rect) (home : option string).

Lemma draw_step_fits app area : on_screen area (draw_step home app area).
Proof.
  unfold draw_step, draw_step1_sources, draw_step2_review, draw_step3_strategy,
    draw_step4_summary, draw_step5_result, part, trimmed.
  destruct (wizard_step app); cbv zeta; draws.
Qed.

Lemma draw_ui_fits app : on_screen screen (draw_ui screen home app).
Proof.
  unfold draw_ui. cbv zeta. apply on_screen_then; [draws|]. apply on_screen_then; [|draws].
  apply on_screen_chunk; [simpl; lia|]. intros r Hr.
  by eapply on_screen_mono, draw_step_fits.
Qed.

(** What a step renders is on the screen. *)
Lemma drawn_in_step w app :
  (∀ r, drawn w (draw_step home app r)) → drawn w (draw_ui screen home app).
Proof.
  intros Hw. unfold draw_ui. cbv zeta. apply (drawn_right _ _ _ screen); [draws|].
  apply (drawn_left _ _ _ screen); [by apply drawn_chunk; [simpl; lia|]|draws].
Qed.

(** The summary of step 4 is on the screen while the operator decides. *)
Lemma summary_drawn app :
  wizard_step app = WizardStep.SummaryConfirm →
  drawn (boxed true (summary_lines home app) (bordered "Summary" Color.Cyan)) (draw_ui screen home app).
Proof.
  intros Hs. apply drawn_in_step. intros r. unfold draw_step. rewrite Hs.
  unfold draw_step4_summary, part, trimmed. cbv zeta. apply (drawn_left _ _ _ r); [|draws].
  apply drawn_chunk; [simpl; lia|]. intros q. apply drawn_render.
Qed.
End facts.

(** ** What step 4 announces is what happens *)
(** The mux's directory ends with its name, so a file in it is announced by its path. *)
Lemma mux_dir_file home f :
  is_absolute f = false → path_join (default_mux_dir home) f = default_mux_dir home +:+ "/" +:+ f.
Proof.
  intros Hf.
  assert (∃ a, default_mux_dir home = a +:+ "mux") as [a E].
  { unfold default_mux_dir, expand_path. destruct home as [h|]; [|by exists "~/.config/"].
    cbn [strip_prefix]. unfold path_join. cbn [is_absolute starts_with String.prefix orb].
    destruct (str_is_empty h); [by exists ".config/"|].
    destruct (ends_with_slash h); [exists (h +:+ ".config/")|exists (h +:+ "/.config/")];
      by rewrite <- !str_app_assoc. }
  rewrite E. unfold path_join. rewrite Hf.
  assert (str_is_empty (a +:+ "mux") = false) as -> by (by destruct a). cbn [orb].
  unfold ends_with_slash, str_rev. by rewrite str_rev_app_app.
Qed.

Section announced.
Context `{Platform, TomlLib, Layout} (screen : Rect) (home : option string) (canon : string → string).
Context (json_from_str : string → option Value) (json_to_string_pretty : Value → string).
Context (toml_mcp_servers : string → option (option (list (string * option RawServer)))).
Context (daemon_to_toml : Config → option string).
Context (client_to_json : gmap string ClientServerJson → option string).
Context (client_to_toml : gmap string ClientServerToml → option string).
Notation run_strategy := (run_strategy home canon json_from_str json_to_string_pretty
  toml_mcp_servers daemon_to_toml client_to_json client_to_toml).

(** A line of the frame names the path [p]. *)
Definition announced (app : AppState) (p : string) : Prop :=
  ∃ lines block prefix, drawn (boxed true lines block) (draw_ui screen home app) ∧
    line_of (prefix +:+ p) ∈ lines ∧ prefix ∈ ["  Outputs  : "; "             "; "    • "].

Lemma announced_output app prefix p :
  wizard_step app = WizardStep.SummaryConfirm → line_of (prefix +:+ p) ∈ outputs_announced (default_mux_dir home) app →
  prefix ∈ ["  Outputs  : "; "             "; "    • "] → announced app p.
Proof.
  intros Hs Hp Hpre. exists (summary_lines home app). eexists _, prefix.
  split_and!; [by apply summary_drawn| |done]. unfold summary_lines. cbv zeta.
  rewrite !elem_of_app. auto.
Qed.

(** The unified strategy changes no file but three in the mux's directory. *)
Lemma unified_writes_three app fs fs' summary q :
  run_unified_generate home canon daemon_to_toml client_to_json client_to_toml app fs = Ok (fs', summary) →
  fs' !! q ≠ fs !! q →
  ∃ f, f ∈ ["config.toml"; "mcp.json"; "mcp.toml"] ∧ canon (path_join (default_mux_dir home) f) = q.
Proof.
  intros Hr Hne. unfold run_unified_generate in Hr.
  destruct (merged_services (build_merge_from_services app)) as [|s l]; [by injection Hr as <- _|].
  apply result_bind_Ok_inv in Hr as (o & Ho & Hr).
  destruct (dry_run app); [by injection Hr as <- _|]. injection Hr as <- _.
  unfold build_mux_outputs in Ho.
  apply result_bind_Ok_inv in Ho as (ct & _ & Ho). apply result_bind_Ok_inv in Ho as (mj & _ & Ho).
  apply result_bind_Ok_inv in Ho as (mt & _ & Ho). injection Ho as <-.
  unfold write_mux_outputs, fs_write in Hne. simpl in Hne.
  destruct (decide (canon (path_join (default_mux_dir home) "mcp.toml") = q)); [eexists; split; [|done]; set_solver|].
  destruct (decide (canon (path_join (default_mux_dir home) "mcp.json") = q)); [eexists; split; [|done]; set_solver|].
  destruct (decide (canon (path_join (default_mux_dir home) "config.toml") = q)); [eexists; split; [|done]; set_solver|].
  destruct Hne. do 2 (etrans; [by apply lookup_insert_ne|]). by apply lookup_insert_ne.
Qed.

(** C21: What the operator confirms is what happens.  Whatever existing file the unified or the danger
    strategy changes, and whatever new file the unified strategy writes, its path stands
    on the summary that was on the screen when the operator pressed Enter on [Confirm].
    [regular]: no symbolic link stands where a backup went. *)
Theorem summary_announces_the_changes app after fs' out summary q :
  wizard_step app = WizardStep.SummaryConfirm →
  strategy app ≠ Strategy.PerClient →
  run_strategy (strategy app) app after = Ok (fs', out, summary) →
  (∀ outs o b, execute_plan canon (shown_plan home canon json_from_str json_to_string_pretty
       toml_mcp_servers app (a_files after)) true (a_clock after) (a_files after) = Ok (fs', outs) →
     o ∈ outs → o_backup o = Some b → regular canon b) →
  is_Some (a_files after !! q) ∨ strategy app = Strategy.Unified →
  fs' !! q ≠ a_files after !! q →
  ∃ p, canon p = q ∧ announced app p.
Proof.
  intros Hstep Hpc Hr Hreg Hq Hne. destruct (strategy app) eqn:Es; [|done|].
  - simpl in Hr. destruct (run_unified_generate _ _ _ _ _ app _) as [[fs s]|] eqn:Hu; [|done].
    injection Hr as <- _ _.
    destruct (unified_writes_three _ _ _ _ q Hu Hne) as (f & Hf & <-).
    exists (path_join (default_mux_dir home) f). split; [done|].
    assert (is_absolute f = false) as Hrel
      by (rewrite !elem_of_cons, elem_of_nil in Hf; naive_solver).
    rewrite mux_dir_file by done.
    rewrite !elem_of_cons, elem_of_nil in Hf; destruct Hf as [-> | [-> | [-> | []]]];
      [apply (announced_output app "  Outputs  : ")|apply (announced_output app "             ")..];
      (done || set_solver || (unfold outputs_announced; rewrite Es; set_solver)).
  - destruct Hq as [[d Hq]|]; [|done]. simpl in Hr.
    assert (fs' ≠ a_files after) as Hch by (by intros ->).
    destruct (run_danger_changes _ _ _ _ _ _ _ _ _ _ _ _ Hr Hch) as (_ & _ & outs & Hx).
    pose proof (λ o b, Hreg outs o b Hx) as Hregs.
    eapply scans_plan_touches in Hx as [E|(scan & c & Hscan & (He & _ & Hp & _) & _)];
      [by rewrite E, Hq in Hne| |exact Hq|exact Hregs].
    apply elem_of_retain in Hscan as [Hscan _].
    apply selected_scans_elem in Hscan as (src & scanned & Hsrc & Hsel & Hok & _ & ->).
    simpl in He, Hp. exists (Scan.path (host_file src)). split; [done|].
    apply (announced_output app "    • "); [done| |set_solver].
    unfold outputs_announced. rewrite Es. apply elem_of_app. right. apply elem_of_app. left.
    apply list_elem_of_fmap. exists src. split; [done|]. apply elem_of_retain. split; [done|].
    unfold eligible, scanned_source. rewrite Hsel, He.
    unfold is_ok in Hok. by destruct (source_status src).
Qed.
End announced.

(** ** The files of the per-client strategy are announced incompletely *)
Section demo.
Context `{Platform}.

(** Two clients configured with the same server, which the review lists once. *)
Definition twin_from_str (_ : string) : option Value := Some (demo_json "/srv").
Definition twin_app : AppState :=
  blank_app WizardStep.SummaryConfirm "" demo_sources
    (build_services_for_selected_sources (Some "/h") (λ p, p) twin_from_str (λ _, None)
       (mkSurroundings wizard_files None [] (λ _, false)) demo_sources) Strategy.PerClient false.
Definition twin_written : list string :=
  match build_per_client_outputs (λ _, Some "") (λ _, Some "") (λ _, Some "")
          (selected_scans (λ p, p) twin_from_str (λ _, None) twin_app wizard_files)
          (default_mux_dir (Some "/h")) "rust-mux-proxy" [] with
  | Ok o => pc_path <$> pco_clients o
  | Err _ => []
  end.

(** The summary of the per-client strategy can leave out files that are written: a server that several
    clients share stands under the first of them only, but each of them gets a file. *)
Theorem per_client_summary_leaves_out_files :
  selected_per_client_output_kinds twin_app = [HostKind.Claude] ∧
  twin_written = ["/h/.config/mux/claude.json"; "/h/.config/mux/junie.json"].
Proof. by_compute. Qed.
End demo.
