(* ===== verification/MuxDash.v ===== *)
(** * MuxDash: the dashboards of the mux ([mux-agent/src/multi_tui.rs], [tray.rs],
    [tray_dashboard.rs])

    A terminal dashboard with a selection and commands, the tray icon of one mux, and the
    tray menu over all servers of a daemon. *)
From S2P Require Import Prelude Text Json Shared MuxState Status Wizard Screen.
From Stdlib Require Import Ascii.

(** ** The terminal dashboard ([multi_tui.rs]) *)
Record MultiTuiApp := mkMultiTuiApp {
  statuses : list MultiServerStatus;
  table_selected : option nat;  (* [TableState::selected] *)
  should_quit : bool;
}.
#[export] Instance MultiTuiApp_eta : Eta MultiTuiApp := fun r =>
  mkMultiTuiApp (statuses r) (table_selected r) (should_quit r).
Definition MultiTuiApp_new : MultiTuiApp := mkMultiTuiApp [] None false.

Section app.
Context `{Platform}.

Definition update_statuses (m : gmap string MultiServerStatus) (a : MultiTuiApp) : MultiTuiApp :=
  let l := sort_by by_name (snd <$> hash_iter m) in
  let a := a <| statuses := l |> in
  if bool_decide (l = []) then a else
  let selected := unwrap_or (table_selected a) 0%nat in
  if bool_decide (length l ≤ selected)%nat then a <| table_selected := Some (length l - 1)%nat |>
  else if is_none (table_selected a) then a <| table_selected := Some 0%nat |> else a.
End app.

Definition select_previous (a : MultiTuiApp) : MultiTuiApp :=
  if bool_decide (statuses a = []) then a else
  a <| table_selected := Some match table_selected a with
                              | Some O => length (statuses a) - 1
                              | Some (S i) => i
                              | None => 0
                              end%nat |>.
Definition select_next (a : MultiTuiApp) : MultiTuiApp :=
  if bool_decide (statuses a = []) then a else
  a <| table_selected := Some match table_selected a with
                              | Some i => if bool_decide (length (statuses a) - 1 ≤ i)%nat then 0 else i + 1
                              | None => 0
                              end%nat |>.
Definition selected_server (a : MultiTuiApp) : option string :=
  i ← table_selected a; mss_name <$> statuses a !! i.
Definition quit (a : MultiTuiApp) : MultiTuiApp := a <| should_quit := true |>.

Definition dash_status_color (l : StatusLevel.StatusLevel) : Color.Color :=
  match l with
  | StatusLevel.Ok => Color.Green
  | StatusLevel.Warn => Color.Yellow
  | StatusLevel.Error => Color.Red
  | StatusLevel.Lazy => Color.DarkGray
  end.

Definition plain_cell (s : string) : Cell := mkCell s plain.
Definition server_cells (s : MultiServerStatus) : list Cell :=
  [plain_cell (mss_name s);
   mkCell (mss_status_text s) (fg (dash_status_color (mss_level s)));
   plain_cell (pretty (mss_active_clients s) +:+ "/" +:+ pretty (mss_max_active_clients s));
   plain_cell (pretty (mss_pending_requests s)); plain_cell (pretty (mss_restarts s));
   plain_cell (format_uptime (mss_uptime_ms s))].
Definition dash_table (a : MultiTuiApp) : Widget :=
  WTable ((λ h, mkCell h bold) <$> ["Name"; "Status"; "Clients"; "Pending"; "Restarts"; "Uptime"])
    (server_cells <$> statuses a) [Min 20; Min 15; Min 10; Min 10; Min 10; Min 12]
    (titled " Servers ") (mkStyle None None false true) (table_selected a).
Definition footer_line : Line :=
  let key k := styled k (fg Color.Yellow) in
  [key " j/k "; raw "navigate  "; key " r "; raw "restart  "; key " s "; raw "stop  ";
   key " S "; raw "start  "; key " q "; raw "quit"].

(** Drawing a table may correct the selection it is given: that belongs to the library.  A
    selection that names a row is kept. *)
Class TableWidget := {
  table_keeps : nat → option nat → option nat;
  table_keeps_row : ∀ n i, (i < n)%nat → table_keeps n (Some i) = Some i;
}.
#[refine] Definition strict_table : TableWidget := {|
  table_keeps n sel := i ← sel; if bool_decide (i < n)%nat then Some i else None;
|}.
Proof. intros n i Hi. simpl. by rewrite bool_decide_true. Defined.

Section tui.
Context `{Platform, Layout, TableWidget} (screen : Rect).

Definition render (a : MultiTuiApp) : option Frame :=
  let parts i (k : Rect → option Frame) :=
    chunks Vertical 0 [Length 3; Min 5; Length 3] screen !! i ≫= k in
  parts 0%nat (render_widget (WParagraph (mkParagraph
    [[styled " rust-mux " (fg_bold Color.Cyan); raw "Multi-Server Dashboard"]]
    (Some untitled) plain None))) ;;;
  parts 1%nat (render_widget (dash_table a)) ;;;
  parts 2%nat (render_widget (WParagraph (mkParagraph [footer_line] (Some untitled) plain None))).
Definition after_render (a : MultiTuiApp) : MultiTuiApp :=
  a <| table_selected ::= table_keeps (length (statuses a)) |>.

(** A command for the selected server, if there is one. *)
Definition send_command (c : ServerCommand.ServerCommand) (a : MultiTuiApp) :
    list (string * ServerCommand.ServerCommand) :=
  match selected_server a with Some name => [(name, c)] | None => [] end.

Definition dash_key (key : KeyCode) (a : MultiTuiApp) :
    MultiTuiApp * list (string * ServerCommand.ServerCommand) :=
  if key_is key [Char "q"; Esc] then (quit a, [])
  else if key_is key [Char "j"; Down] then (select_next a, [])
  else if key_is key [Char "k"; Up] then (select_previous a, [])
  else if key_is key [Char "r"] then (a, send_command ServerCommand.Restart a)
  else if key_is key [Char "s"] then (a, send_command ServerCommand.Stop a)
  else if key_is key [Char "S"] then (a, send_command ServerCommand.Start a)
  else (a, []).

(** A turn of the loop: the key that was pressed within 100 ms, and the statuses if they
    have changed; or an error of the terminal. *)
Inductive TuiTurn :=
| Turn (key : option KeyCode) (update : option (gmap string MultiServerStatus))
| TerminalError (e : string).

(** A run: the frames that were drawn with the commands sent after each, the last state, whether
    the terminal is still in raw mode, and how the run ended ([None]: it has not). *)
Record TuiRun := mkTuiRun {
  tr_log : list (MultiTuiApp * list (string * ServerCommand.ServerCommand));
  tr_app : MultiTuiApp;
  tr_raw_mode : bool;
  tr_end : option (result string unit);
}.

Definition tui_turn (key : option KeyCode) (update : option (gmap string MultiServerStatus))
    (a : MultiTuiApp) : MultiTuiApp * list (string * ServerCommand.ServerCommand) :=
  let a := after_render a in
  let '(a, sent) := match key with Some k => dash_key k a | None => (a, []) end in
  (match update with Some m => update_statuses m a | None => a end, sent).

Fixpoint tui_loop (turns : list TuiTurn) (a : MultiTuiApp) : TuiRun :=
  match turns with
  | [] => mkTuiRun [] a true None
  | TerminalError e :: _ => mkTuiRun [] a true (Some (Err e))
  | Turn key update :: turns =>
      let '(a', sent) := tui_turn key update a in
      if should_quit a' then mkTuiRun [(a, sent)] a' false (Some (Ok tt))
      else let r := tui_loop turns a' in
           mkTuiRun ((a, sent) :: tr_log r) (tr_app r) (tr_raw_mode r) (tr_end r)
  end.
Definition run_multi_tui (initial : gmap string MultiServerStatus) (turns : list TuiTurn) : TuiRun :=
  tui_loop turns (update_statuses initial MultiTuiApp_new).
End tui.

Section tui_facts.
Context `{Platform, Layout, TableWidget} (screen : Rect).

(** A row is selected whenever there is one. *)
Definition dash_ok (a : MultiTuiApp) : Prop :=
  ordered by_name (statuses a) ∧
  (statuses a = [] ∨ ∃ i, table_selected a = Some i ∧ (i < length (statuses a))%nat).

Lemma update_statuses_ok m a : dash_ok (update_statuses m a).
Proof.
  unfold update_statuses. set (l := sort_by _ _).
  assert (ordered by_name l) as Ho by (apply sort_by_ordered; intros x y; apply str_leb_total).
  clearbody l. case_bool_decide as El; [split; [done|by left]|].
  assert (length l ≠ 0%nat) by (by intros ?%nil_length_inv).
  case_bool_decide as Hs; simpl.
  - split; [done|]. right. eexists. split; [done|]. simpl. lia.
  - destruct (table_selected a) as [i|] eqn:E; simpl in *; (split; [done|right]).
    + exists i. split; [done|]. rewrite E in Hs. unfold unwrap_or in Hs. simpl in *. lia.
    + exists 0%nat. split; [done|]. simpl. lia.
Qed.

Lemma update_statuses_perm m a :
  statuses (update_statuses m a) ≡ₚ (map_to_list m).*2.
Proof.
  transitivity (sort_by by_name (snd <$> hash_iter m)); [|by rewrite sort_by_perm, hash_iter_perm].
  unfold update_statuses. cbv zeta. by repeat case_match.
Qed.

Lemma select_next_ok a : dash_ok a → dash_ok (select_next a).
Proof.
  intros [Ho Hs]. unfold select_next. case_bool_decide as E; [by split; [|left]|].
  assert (length (statuses a) ≠ 0%nat) by (by intros ?%nil_length_inv).
  split; [done|]. right. eexists. split; [done|]. simpl.
  destruct (table_selected a); [|lia]. case_bool_decide; lia.
Qed.
Lemma select_previous_ok a : dash_ok a → dash_ok (select_previous a).
Proof.
  intros [Ho Hs]. unfold select_previous. case_bool_decide as E; [by split; [|left]|].
  assert (length (statuses a) ≠ 0%nat) by (by intros ?%nil_length_inv).
  split; [done|]. right. eexists. split; [done|]. simpl.
  destruct Hs as [?|(i & -> & Hi)]; [done|]. destruct i; lia.
Qed.
Lemma after_render_ok a : dash_ok a → dash_ok (after_render a).
Proof.
  intros [Ho [E|(i & E & Hi)]]; (split; [done|]); [by left|right].
  exists i. unfold after_render. simpl. rewrite E. by rewrite table_keeps_row.
Qed.
Lemma after_render_server a : dash_ok a → selected_server (after_render a) = selected_server a.
Proof.
  intros [_ [E|(i & E & Hi)]]; unfold selected_server, after_render; simpl.
  - rewrite E. destruct (table_keeps _ _), (table_selected a); done.
  - rewrite E. by rewrite table_keeps_row.
Qed.

Lemma dash_key_spec key a a' sent :
  dash_ok a → dash_key key a = (a', sent) →
  dash_ok a' ∧ (sent = [] ∨ ∃ c name, sent = [(name, c)] ∧ selected_server a = Some name).
Proof.
  intros Ha. unfold dash_key, send_command.
  repeat (case_match; [intros [= <- <-]; split; eauto using select_next_ok, select_previous_ok|]).
  all: try (intros [= <- <-]; split; eauto).
  all: case_match; eauto 10.
Qed.

Lemma tui_turn_spec key update a a' sent :
  dash_ok a → tui_turn key update a = (a', sent) →
  dash_ok a' ∧ (sent = [] ∨ ∃ c name, sent = [(name, c)] ∧ selected_server a = Some name).
Proof.
  intros Ha. unfold tui_turn.
  destruct (match key with Some k => _ | None => _ end) as [a1 s1] eqn:Ek. intros [= <- <-].
  assert (dash_ok a1 ∧ (s1 = [] ∨ ∃ c name, s1 = [(name, c)] ∧ selected_server a = Some name)) as [Hok1 Hsent1].
  { rewrite <- after_render_server by done. destruct key as [k|].
    - eapply dash_key_spec; [by apply after_render_ok|done].
    - injection Ek as <- <-. split; [by apply after_render_ok|by left]. }
  split; [|done]. destruct update; [apply update_statuses_ok|done].
Qed.

Lemma render_fits a : on_screen screen (render screen a).
Proof. unfold render. cbv zeta. draws. Qed.
Lemma table_drawn a : drawn (dash_table a) (render screen a).
Proof.
  unfold render. cbv zeta. apply (drawn_right _ _ _ screen); [draws|].
  apply (drawn_left _ _ _ screen); [|draws]. apply drawn_chunk; [simpl; lia|]. intros r. apply drawn_render.
Qed.

(** C34: What the dashboard highlights is what it commands.  In every frame of a run the servers stand in
    the order of their names, and as long as there is one a row is highlighted; a command
    goes to the server of the row that was highlighted when the key was pressed, however
    the servers came and went before. *)
Theorem dashboard_commands_the_highlighted initial turns :
  Forall (λ turn, let '(a, sent) := turn in
      on_screen screen (render screen a) ∧ ordered by_name (statuses a) ∧
      match statuses a with
      | [] => sent = []
      | _ => ∃ i s header rows widths block style,
          statuses a !! i = Some s ∧
          drawn (WTable header rows widths block style (Some i)) (render screen a) ∧
          rows !! i = Some (server_cells s) ∧
          (sent = [] ∨ ∃ c, sent = [(mss_name s, c)])
      end)
    (tr_log (run_multi_tui initial turns)).
Proof.
  unfold run_multi_tui. generalize (update_statuses_ok initial MultiTuiApp_new).
  generalize (update_statuses initial MultiTuiApp_new) as a.
  induction turns as [|[key update|e] turns IH]; intros a Ha; cbn [tui_loop tr_log]; [constructor| |constructor].
  destruct (tui_turn key update a) as [a' sent] eqn:Et.
  destruct (tui_turn_spec _ _ _ _ _ Ha Et) as [Ha' Hsent].
  match goal with |- context [Forall ?P _] => assert (P (a, sent)) as Hframe end.
  { cbv beta iota. split; [apply render_fits|]. destruct Ha as [Ho Hs]. split; [done|].
    destruct (statuses a) as [|s0 l] eqn:El.
    - destruct Hsent as [?|(c & name & _ & Hn)]; [done|]. unfold selected_server in Hn. rewrite El in Hn.
      by destruct (table_selected a).
    - destruct Hs as [?|(i & Hi & Hlt)]; [done|].
      apply lookup_lt_is_Some_2 in Hlt as [s Hs]. exists i, s. do 5 eexists. split; [done|].
      split; [rewrite <- Hi; apply table_drawn|].
      split; [by rewrite El, list_lookup_fmap, Hs|].
      destruct Hsent as [?|(c & name & -> & Hn)]; [by left|right]. exists c.
      unfold selected_server in Hn. rewrite Hi in Hn. simpl in Hn. rewrite El, Hs in Hn.
      by injection Hn as <-. }
  destruct (should_quit a'); simpl; [by constructor|]. constructor; [exact Hframe|]. by apply IH.
Qed.

(** An error of the terminal ends the run before the terminal is restored. *)
Theorem terminal_error_leaves_raw_mode initial turns e :
  tr_end (run_multi_tui initial turns) = Some (Err e) →
  tr_raw_mode (run_multi_tui initial turns) = true.
Proof.
  unfold run_multi_tui. generalize (update_statuses initial MultiTuiApp_new) as a.
  induction turns as [|[key update|e'] turns IH]; intros a; cbn [tui_loop tr_end tr_raw_mode]; [done| |done].
  destruct (tui_turn key update a) as [a' sent]. destruct (should_quit a'); simpl; [done|]. apply IH.
Qed.
End tui_facts.

(** ** The tray of one mux ([tray.rs]) *)
Definition tray_status_line (s : StatusSnapshot) : string :=
  "Status: " +:+ match snap_server_status s with
                 | ServerStatus.Starting => "Starting"
                 | ServerStatus.Running => "Running"
                 | ServerStatus.Restarting => "Restarting"
                 | ServerStatus.Stopped => "Stopped"
                 | ServerStatus.Lazy => "Lazy"
                 | ServerStatus.Backoff => "Backoff"
                 | ServerStatus.Failed reason => "Failed: " +:+ reason
                 end.
Definition client_line (s : StatusSnapshot) : string :=
  "Clients: " +:+ pretty (snap_connected_clients s) +:+ " (active " +:+
  pretty (snap_active_clients s) +:+ "/" +:+ pretty (snap_max_active_clients s) +:+ ")".
Definition pending_line (s : StatusSnapshot) : string :=
  "Pending requests: " +:+ pretty (snap_pending_requests s).
Definition init_line (s : StatusSnapshot) : string :=
  "Initialize: " +:+ (if snap_cached_initialize s then "cached" else "uncached") +:+ ", " +:+
  (if snap_initializing s then "initializing" else "idle").
Definition restart_line (s : StatusSnapshot) : string :=
  match snap_last_reset s with
  | Some reason => "Restarts: " +:+ pretty (snap_restarts s) +:+ " (last: " +:+ reason +:+ ")"
  | None => "Restarts: " +:+ pretty (snap_restarts s)
  end.

(** The texts of the six items, as [build_tray] creates and [TrayUi::update] sets them. *)
Record TrayUi := mkTrayUi {
  ui_header : string;
  ui_status : string;
  ui_clients : string;
  ui_pending : string;
  ui_init_state : string;
  ui_restarts : string;
}.
Definition tray_ui (s : StatusSnapshot) : TrayUi :=
  mkTrayUi ("Service: " +:+ snap_service_name s) (tray_status_line s) (client_line s)
    (pending_line s) (init_line s) (restart_line s).

(** The tray's thread with its channel of one snapshot.  [tray_ui_shown]: what the menu
    shows, once it is built. *)
Record TrayThread := mkTrayThread {
  snap_chan : option StatusSnapshot;
  stop_chan : bool;
  tray_ui_shown : option TrayUi;
  tray_ended : bool;
  tray_cancelled : bool;  (* it cancelled the mux's token *)
}.
#[export] Instance TrayThread_eta : Eta TrayThread := fun r =>
  mkTrayThread (snap_chan r) (stop_chan r) (tray_ui_shown r) (tray_ended r) (tray_cancelled r).
Definition tray_spawned : TrayThread := mkTrayThread None false None false false.

(** [tx.try_send(snap)]: the channel holds one snapshot, and a full one refuses the new. *)
Definition send_latest (s : StatusSnapshot) (t : TrayThread) : TrayThread :=
  match snap_chan t with
  | None => t <| snap_chan := Some s |>
  | Some _ => t
  end.

(** What can happen: the forwarder sees a snapshot of the watch channel; the mux shuts
    down; the thread makes a turn, in which the quit item may have been clicked, of the
    branches that are ready [stop_first] is taken, and building the tray may fail. *)
Inductive TrayEvent :=
| Forward (s : StatusSnapshot)
| StopRequested
| TrayTurn (quit_clicked stop_first build_ok : bool).

Definition tray_step (ev : TrayEvent) (t : TrayThread) : TrayThread :=
  match ev with
  | Forward s => send_latest s t
  | StopRequested => t <| stop_chan := true |>
  | TrayTurn quit_clicked stop_first build_ok =>
      if tray_ended t then t else
      match tray_ui_shown t with
      | None =>  (* [snap_rx.recv()], then [build_tray] *)
          match snap_chan t with
          | None => t
          | Some s =>
              let t := t <| snap_chan := None |> in
              if build_ok then t <| tray_ui_shown := Some (tray_ui s) |>
              else t <| tray_ended := true |>
          end
      | Some _ =>
          if quit_clicked then t <| tray_cancelled := true |> <| tray_ended := true |>
          else if stop_chan t && (stop_first || is_none (snap_chan t))
          then t <| tray_ended := true |>
          else match snap_chan t with
               | Some s => t <| snap_chan := None |> <| tray_ui_shown := Some (tray_ui s) |>
               | None => t
               end
      end
  end.
Definition tray_run (evs : list TrayEvent) (t : TrayThread) : TrayThread :=
  foldl (λ t ev, tray_step ev t) t evs.

Definition forwarded_snapshots (evs : list TrayEvent) : list StatusSnapshot :=
  omap (λ ev, match ev with Forward s => Some s | _ => None end) evs.
Definition forwards (ev : TrayEvent) : bool := match ev with Forward _ => true | _ => false end.

(** What is shown or waits to be shown was published. *)
Lemma tray_step_published ev t l :
  (∀ u, tray_ui_shown t = Some u → ∃ s, s ∈ l ∧ u = tray_ui s) → (∀ s, snap_chan t = Some s → s ∈ l) →
  let t' := tray_step ev t in let l' := l ++ forwarded_snapshots [ev] in
  (∀ u, tray_ui_shown t' = Some u → ∃ s, s ∈ l' ∧ u = tray_ui s) ∧
  (∀ s, snap_chan t' = Some s → s ∈ l').
Proof.
  intros Hu Hs t' l'.
  assert (∀ s, s ∈ l → s ∈ l') as Hl by (intros s Hin; by apply elem_of_app; left).
  assert ((∀ u, tray_ui_shown t = Some u → ∃ s, s ∈ l' ∧ u = tray_ui s) ∧ (∀ s, snap_chan t = Some s → s ∈ l'))
    as [Hu' Hs'] by naive_solver.
  assert (∀ s, snap_chan t = Some s → ∃ s', s' ∈ l' ∧ tray_ui s = tray_ui s') as Hc by eauto.
  subst t'. destruct ev as [s| |quit_clicked stop_first build_ok]; cbn [tray_step].
  - unfold send_latest. destruct (snap_chan t) eqn:E; simpl; [by rewrite E|]. split; [done|].
    intros ? [= <-]. subst l'. simpl. set_solver.
  - done.
  - repeat case_match; simplify_eq/=; split; naive_solver.
Qed.

(** The tray shows what the mux published, but not always the latest.  Whatever happens, the menu shows one of
    the snapshots that were forwarded; and when two are forwarded before the thread takes
    the first, the second is lost: until the mux publishes again, the menu shows nothing
    newer than the first, however often the thread polls. *)
Theorem tray_can_stay_behind :
  (∀ evs u, tray_ui_shown (tray_run evs tray_spawned) = Some u →
     ∃ s, s ∈ forwarded_snapshots evs ∧ u = tray_ui s) ∧
  (∀ t s1 s2 turns u, snap_chan t = None → Forall (λ ev, forwards ev = false) turns →
     tray_ui_shown (tray_run (Forward s1 :: Forward s2 :: turns) t) = Some u →
     Some u = tray_ui_shown t ∨ u = tray_ui s1).
Proof.
  split.
  - intros evs u.
    assert ((∀ u, tray_ui_shown (tray_run evs tray_spawned) = Some u → ∃ s, s ∈ forwarded_snapshots evs ∧ u = tray_ui s) ∧
      (∀ s, snap_chan (tray_run evs tray_spawned) = Some s → s ∈ forwarded_snapshots evs)) as [? _]; [|auto].
    induction evs as [|ev evs [IHu IHs]] using rev_ind; [done|].
    unfold tray_run, forwarded_snapshots. rewrite foldl_app, omap_app. simpl.
    exact (tray_step_published ev _ _ IHu IHs).
  - intros t s1 s2 turns u Hc Hturns.
    assert (tray_run (Forward s1 :: Forward s2 :: turns) t = tray_run turns (t <| snap_chan := Some s1 |>)) as ->.
    { unfold tray_run. simpl. unfold send_latest. rewrite Hc. done. }
    set (good := λ t' : TrayThread, (snap_chan t' = None ∨ snap_chan t' = Some s1) ∧
      (tray_ui_shown t' = tray_ui_shown t ∨ tray_ui_shown t' = Some (tray_ui s1))).
    assert (good (tray_run turns (t <| snap_chan := Some s1 |>))) as [_ Hg].
    { assert (good (t <| snap_chan := Some s1 |>)) as H0 by (by split; [right|left]).
      revert H0. generalize (t <| snap_chan := Some s1 |>) as t'.
      induction Hturns as [|ev turns Hev _ IH]; intros t' Hg; [done|]. apply IH.
      destruct Hg as [Hch Hui]. destruct ev as [s| |quit_clicked stop_first build_ok]; [done|done|].
      unfold good in *. cbn [tray_step].
      repeat case_match; simplify_eq/=; (split; [intuition congruence|]);
        solve [intuition congruence|right; destruct Hch; simplify_eq; congruence]. }
    intros Hu. destruct Hg as [Hg|Hg]; rewrite Hu in Hg; [by left|right]. by injection Hg.
Qed.

(** *** Icons: RGBA bytes, row by row *)
Record LoadedIcon := mkLoadedIcon { icon_data : list N; icon_width : N; icon_height : N }.
(** [0x60 + ((x + y) % 32) as u8]; the sum of two [u8]s wraps. *)
Definition gradient (x y : nat) : N := ((96 + N.of_nat ((x + y) mod 32) mod 256) mod 256)%N.
Definition gradient_icon (red : N) : LoadedIcon :=
  mkLoadedIcon
    (seq 0 16 ≫= λ y, seq 0 16 ≫= λ x, [red; gradient x y; 255; 255]%N) 16 16.
Definition default_icon : LoadedIcon := gradient_icon 75.
Definition default_dashboard_icon : LoadedIcon := gradient_icon 139.

(** [load]: reading and decoding a PNG; [manifest_dir] is [CARGO_MANIFEST_DIR]. *)
Definition find_tray_icon (manifest_dir : string) (load : string → option LoadedIcon) :
    option LoadedIcon :=
  head (omap load ["public/icon.png"; "../public/icon.png"; manifest_dir +:+ "/public/icon.png"]).

(** The bytes are those of a picture of the size the library is told, and no colour has
    wrapped around. *)
Lemma gradient_icon_valid red :
  (red < 256)%N →
  N.of_nat (length (icon_data (gradient_icon red))) = (4 * icon_width (gradient_icon red) * icon_height (gradient_icon red))%N ∧
  Forall (λ b, (b < 256)%N) (icon_data (gradient_icon red)) ∧
  ∀ x y, (gradient x y = 96 + N.of_nat ((x + y) mod 32))%N.
Proof.
  intros Hr. split_and!.
  - reflexivity.
  - unfold gradient_icon. cbn [icon_data]. apply Forall_bind, Forall_true. intros y.
    apply Forall_bind, Forall_true. intros x. unfold gradient.
    repeat constructor; try done. by apply N.mod_lt.
  - intros x y. unfold gradient. pose proof (Nat.mod_upper_bound (x + y) 32 ltac:(done)).
    rewrite (N.mod_small (N.of_nat _)) by lia. apply N.mod_small. lia.
Qed.

(** ** The tray of a daemon ([tray_dashboard.rs]) *)
Definition status_icon (l : StatusLevel.StatusLevel) : string :=
  match l with
  | StatusLevel.Ok => "●"
  | StatusLevel.Warn => "⚠"
  | StatusLevel.Error => "✖"
  | StatusLevel.Lazy => "○"
  end.

Record ServerMenuItems := mkServerMenuItems {
  smi_submenu : string;
  smi_status : string;
  smi_clients : string;
  smi_pending : string;
  smi_restarts : string;
  smi_heartbeat : string;
}.
Record DashboardUi := mkDashboardUi {
  du_header : string;
  du_summary : string;
  du_servers : list ServerMenuItems;
}.

(** The code writes these texts twice, when the menu is built and when it is updated. *)
Definition dash_header (s : DaemonStatus) : string :=
  "rust-mux v" +:+ ds_version s +:+ " | " +:+ ds_uptime s.
Definition dash_summary (s : DaemonStatus) : string :=
  pretty (ds_server_count s) +:+ " servers: " +:+ pretty (ds_running_count s) +:+ " running, " +:+
  pretty (ds_error_count s) +:+ " errors".
Definition server_menu (s : MultiServerStatus) : ServerMenuItems :=
  mkServerMenuItems (status_icon (mss_level s) +:+ " " +:+ mss_name s)
    ("  Status: " +:+ mss_status_text s)
    ("  Clients: " +:+ pretty (mss_active_clients s) +:+ "/" +:+ pretty (mss_max_active_clients s))
    ("  Pending: " +:+ pretty (mss_pending_requests s))
    ("  Restarts: " +:+ pretty (mss_restarts s))
    ("  Heartbeat: " +:+ match mss_heartbeat_latency_ms s with
                         | Some ms => pretty ms +:+ "ms"
                         | None => "-"
                         end).

Definition build_dashboard (s : DaemonStatus) : DashboardUi :=
  mkDashboardUi (dash_header s) (dash_summary s) (server_menu <$> ds_servers s).

(** [self.servers.get(i)]: an entry without a submenu of its number is skipped. *)
Fixpoint update_servers (items : list ServerMenuItems) (servers : list MultiServerStatus) :
    list ServerMenuItems :=
  match items, servers with
  | _ :: items, s :: servers => server_menu s :: update_servers items servers
  | items, _ => items
  end.
Definition update_dashboard (s : DaemonStatus) (ui : DashboardUi) : DashboardUi :=
  mkDashboardUi (dash_header s) (dash_summary s) (update_servers (du_servers ui) (ds_servers s)).

(** The loop: how each query goes, and when the quit item was clicked or the token
    cancelled.  The answer is the menu of each turn, and whether the loop has ended. *)
Inductive DashTurn :=
| Cancelled
| Tick (quit_clicked : bool) (answer : option DaemonStatus).

Record DashRun := mkDashRun {
  dr_ui : option DashboardUi;
  dr_ended : bool;
  dr_cancelled : bool;
}.
(** Before the first answer the daemon is asked once a second, with [shutdown] checked
    before each query. *)
Definition dash_step (build_ok : bool) (r : DashRun) (t : DashTurn) : DashRun :=
  if dr_ended r then r else
  match dr_ui r, t with
  | _, Cancelled => mkDashRun (dr_ui r) true (dr_cancelled r)
  | None, Tick _ None => r
  | None, Tick _ (Some s) =>
      if build_ok then mkDashRun (Some (build_dashboard s)) false (dr_cancelled r)
      else mkDashRun None true (dr_cancelled r)
  | Some ui, Tick true _ => mkDashRun (Some ui) true true
  | Some ui, Tick false None => r
  | Some ui, Tick false (Some s) => mkDashRun (Some (update_dashboard s ui)) false (dr_cancelled r)
  end.
Definition tray_dashboard_loop (build_ok : bool) (turns : list DashTurn) : DashRun :=
  foldl (dash_step build_ok) (mkDashRun None false false) turns.

Lemma update_servers_length items servers : length (update_servers items servers) = length items.
Proof.
  revert servers. induction items as [|i items IH]; intros [|s servers]; simpl; [done..|]. by rewrite IH.
Qed.
Lemma update_servers_rebuild items servers :
  length items = length servers → update_servers items servers = server_menu <$> servers.
Proof.
  revert servers. induction items as [|i items IH]; intros [|s servers]; simpl; try done.
  intros [= E]. by rewrite IH.
Qed.
Lemma update_servers_lookup items servers i :
  update_servers items servers !! i =
  if bool_decide (i < length servers)%nat then _ ← items !! i; server_menu <$> servers !! i
  else items !! i.
Proof.
  revert servers i. induction items as [|x items IH]; intros [|s servers] [|i]; simpl; try done.
  all: rewrite ?IH; repeat case_bool_decide; (done || lia).
Qed.

(** Once it is built, the menu has the submenus it was built with: a run changes their
    text only. *)
Lemma dash_menu_size build_ok turns r ui :
  dr_ui r = Some ui →
  ∃ ui', dr_ui (foldl (dash_step build_ok) r turns) = Some ui' ∧
    length (du_servers ui') = length (du_servers ui).
Proof.
  revert r ui. induction turns as [|t turns IH]; intros r ui Hr; simpl; [eauto|].
  assert (∃ ui1, dr_ui (dash_step build_ok r t) = Some ui1 ∧
    length (du_servers ui1) = length (du_servers ui)) as (ui1 & H1 & E1).
  { unfold dash_step. destruct (dr_ended r); [eauto|]. rewrite Hr.
    destruct t as [|[] [s|]]; simpl; rewrite ?Hr; eauto. eexists. split; [done|]. apply update_servers_length. }
  destruct (IH _ _ H1) as (ui' & ? & E2). exists ui'. split; [done|]. by rewrite E2.
Qed.

