(* ===== verification/ConsoleLaunch.v ===== *)
(** * ConsoleLaunch: running a command in the console's place ([tui-agent/src/lib.rs])

    The console leaves the terminal to the command, waits until the multiplexer shows
    the command's session and then until the process ends, and takes the terminal
    back. *)
From S2P Require Import Prelude Text Ipc Launch.
From Stdlib Require Import Ascii.

Inductive LaunchRunError :=
| Exec (message stderr : string) (probe_error probe_error_at_deadline : option string)
| ClientDrift (halt : VerifyHalt).

Definition detail_lines (summary : string) (e : LaunchRunError) : list string :=
  match e with
  | Exec message stderr probe_error at_deadline =>
      ["command: " +:+ summary; "error: " +:+ message] ++
      match probe_error with Some pe => ["readiness probe: " +:+ pe] | None => [] end ++
      match at_deadline with Some pe => ["readiness timeout probe: " +:+ pe] | None => [] end ++
      (if negb (is_blank stderr) then ["" ; "stderr:"] ++ str_lines stderr else [])
  | ClientDrift halt =>
      ["Client drift detected. Dispatch halted."; "Non-mux servers found:"] ++
      match halt with
      | Drift servers =>
          (λ e, "  " +:+ nm_client e +:+ " (" +:+ nm_path e +:+ ":" +:+ pretty (nm_line e) +:+ ")") <$> servers
      | Timeout => ["  Timeout waiting for verify response from rust-mux."]
      end ++
      [""; "Press F to auto-fix (spawns rust-mux wizard)."]
  end.

Definition launch_error (e : string) : LaunchRunError := Exec e "" None None.

(** ** Waiting for the session

    What the world does while the console waits: in every turn of the loop the probe's
    process answers, the child is looked at, and some time passes besides the sleep;
    [final_output] is what [wait_with_output] returns in the end. *)
Inductive ChildPoll := Exited | StillRunning | PollFailed (e : string).
Record Turn := mkTurn {
  probe_output : result string Output;
  child_poll : ChildPoll;
  turn_ms : N;
}.
Record ChildHistory := mkChildHistory {
  turns : nat → Turn;
  final_output : result string Output;
}.

Definition READINESS_DEADLINE : N := 2000.  (* milliseconds *)

(** How the wait ended, whether the child was killed, and how many probes were made. *)
Record Waited := mkWaited {
  outcome : result LaunchRunError Output;
  killed : bool;
  probes : nat;
}.

Section wait.
Context (h : ChildHistory) (probe : LaunchReadinessProbe).

Definition process_failed (probe_error : option string) (e : string) : LaunchRunError :=
  Exec ("launch process failed: " +:+ e) "" probe_error None.
Definition wait_with_output (probe_error : option string) : result LaunchRunError Output :=
  match final_output h with Ok o => Ok o | Err e => Err (process_failed probe_error e) end.

Definition exited_early (probe_error : option string) : result LaunchRunError Output :=
  try! o := wait_with_output probe_error in
  if out_success o
  then Err (Exec ("zellij session '" +:+ lp_session_name probe +:+
                  "' exited before the readiness probe saw it") (out_stderr o) probe_error None)
  else Ok o.

Definition deadline_error (probe_error : option string) : LaunchRunError :=
  Exec ("zellij session '" +:+ lp_session_name probe +:+ "' did not appear within the " +:+
        pretty READINESS_DEADLINE +:+ "ms readiness window") "" probe_error
       ((λ e, "killed after " +:+ pretty READINESS_DEADLINE +:+ "ms, last probe error: " +:+ e) <$> probe_error).

(** The loop; [elapsed] milliseconds have passed in [i] turns, and [None] is the end of
    [fuel]. *)
Fixpoint wait_loop (fuel : nat) (i : nat) (elapsed : N) (probe_error : option string) : option Waited :=
  match fuel with
  | O => None
  | S fuel =>
      if (READINESS_DEADLINE <=? elapsed)%N
      then Some (mkWaited (Err (deadline_error probe_error)) true i) else
      let t := turns h i in
      let seen := is_session_visible probe (probe_output t) in
      match seen with
      | Ok true => Some (mkWaited (wait_with_output probe_error) false (S i))
      | _ =>
          let probe_error := match seen with Err e => opt_or probe_error (Some e) | Ok _ => probe_error end in
          match child_poll t with
          | Exited => Some (mkWaited (exited_early probe_error) false (S i))
          | PollFailed e =>
              Some (mkWaited (Err (Exec ("failed to inspect launch child: " +:+ e) "" probe_error None))
                      false (S i))
          | StillRunning => wait_loop fuel (S i) (elapsed + turn_ms t + 100)%N probe_error
          end
      end
  end.
End wait.

(** Every turn takes at least the sleep of 100 ms, so 21 turns reach the deadline. *)
Definition WAIT_FUEL : nat := 21.

Definition wait_for_interactive_launch (c : LaunchCommand) (h : ChildHistory) : option Waited :=
  match readiness_probe c with
  | Some probe => wait_loop h probe WAIT_FUEL 0 0 None
  | None => Some (mkWaited (wait_with_output h None) false 0)
  end.

(** ** Suspending the console

    The terminal's answers to the four changes of its mode, and the command's process. *)
Record Suspension := mkSuspension {
  raw_off : result string unit;
  leave_screen : result string unit;
  spawned : result string ChildHistory;
  enter_screen : result string unit;
  raw_on : result string unit;
}.

Definition with_context {A} (ctx : string) (r : result string A) : result string A :=
  match r with Ok x => Ok x | Err e => Err (ctx +:+ ": " +:+ e) end.
Definition as_launch_error {A} (r : result string A) : result LaunchRunError A :=
  match r with Ok x => Ok x | Err e => Err (launch_error e) end.

Definition suspend_and_run (c : LaunchCommand) (s : Suspension) : option (result LaunchRunError unit) :=
  match as_launch_error (with_context "failed to disable raw mode before launch" (raw_off s)),
        as_launch_error (leave_screen s) with
  | Err e, _ => Some (Err e)
  | Ok _, Err e => Some (Err e)
  | Ok _, Ok _ =>
      launch_result ← match spawned s with
                      | Ok child => outcome <$> wait_for_interactive_launch c child
                      | Err e => Some (Err (launch_error e))
                      end;
      Some (
        try! _ := as_launch_error (with_context "failed to restore alternate screen" (enter_screen s)) in
        try! _ := as_launch_error (with_context "failed to re-enable raw mode after launch" (raw_on s)) in
        try! output := launch_result in
        if out_success output then Ok tt
        else Err (Exec ("command exited with " +:+ out_status output) (out_stderr output) None None))
  end.

(** ** Facts *)
Section facts.
Context (h : ChildHistory) (probe : LaunchReadinessProbe).
Notation seen i := (is_session_visible probe (probe_output (turns h i)) = Ok true).

(** The first probe error of the first [n] turns. *)
Fixpoint first_probe_error (n : nat) : option string :=
  match n with
  | O => None
  | S n => opt_or (first_probe_error n)
             match is_session_visible probe (probe_output (turns h n)) with
             | Err e => Some e
             | Ok _ => None
             end
  end.

(** What a finished wait says of the turns it took. *)
Inductive explained (w : Waited) : Prop :=
| session_seen i :
    seen i → (∀ j, j < i → ¬ seen j ∧ child_poll (turns h j) = StillRunning)%nat →
    probes w = S i → killed w = false →
    outcome w = wait_with_output h (first_probe_error i) → explained w
| child_gone i :
    ¬ seen i → child_poll (turns h i) ≠ StillRunning →
    (∀ j, j < i → ¬ seen j ∧ child_poll (turns h j) = StillRunning)%nat →
    probes w = S i → killed w = false →
    outcome w = match child_poll (turns h i) with
                | PollFailed e => Err (Exec ("failed to inspect launch child: " +:+ e) ""
                                         (first_probe_error (S i)) None)
                | _ => exited_early h probe (first_probe_error (S i))
                end → explained w
| deadline_passed :
    (∀ j, j < probes w → ¬ seen j ∧ child_poll (turns h j) = StillRunning)%nat →
    killed w = true → outcome w = Err (deadline_error probe (first_probe_error (probes w))) →
    explained w.

Lemma wait_loop_explained fuel i elapsed :
  (2000 ≤ 100 * N.of_nat (i + pred fuel))%N → fuel ≠ 0%nat →
  (100 * N.of_nat i ≤ elapsed)%N → (i ≤ 20)%nat →
  (∀ j, j < i → ¬ seen j ∧ child_poll (turns h j) = StillRunning)%nat →
  ∃ w, wait_loop h probe fuel i elapsed (first_probe_error i) = Some w ∧ explained w ∧ (probes w ≤ 20)%nat.
Proof using.
  revert i elapsed. induction fuel as [|fuel IH]; intros i elapsed Hf Hz He Hi Hprev; [done|].
  cbn [wait_loop]. unfold READINESS_DEADLINE at 1. destruct (N.leb_spec 2000 elapsed) as [Hd|Hd].
  { eexists. split; [done|]. split; [by apply deadline_passed|done]. }
  assert (i < 20)%nat as Hlt by lia.
  assert (first_probe_error (S i) = match is_session_visible probe (probe_output (turns h i)) with
    | Err e => opt_or (first_probe_error i) (Some e) | Ok _ => first_probe_error i end) as Hfirst.
  { cbn [first_probe_error]. destruct (is_session_visible _ _); [apply opt_or_None_r|done]. }
  destruct (is_session_visible probe (probe_output (turns h i))) as [[]|e] eqn:Es.
  { eexists. split; [done|]. split; [by apply (session_seen _ i)|cbn; lia]. }
  all: rewrite <- Hfirst; destruct (child_poll (turns h i)) eqn:Ep.
  all: try (eexists; split; [done|]; split; [|cbn; lia]; apply (child_gone _ i); rewrite ?Es, ?Ep; done).
  all: apply IH; [lia|lia|lia|lia|].
  all: intros j Hj; destruct (decide (j = i)) as [->|]; [by rewrite Es|apply Hprev; lia].
Qed.
End facts.


(** A launch in a session is reported as a success only if it was one: the terminal could
    be handed over and taken back, some probe within the first twenty saw the session while
    the process had not been found gone, and the process ended with success. *)
Theorem success_was_seen c probe s :
  readiness_probe c = Some probe → suspend_and_run c s = Some (Ok tt) →
  raw_off s = Ok tt ∧ leave_screen s = Ok tt ∧ enter_screen s = Ok tt ∧ raw_on s = Ok tt ∧
  ∃ h i o, spawned s = Ok h ∧ (i < 20)%nat ∧
    is_session_visible probe (probe_output (turns h i)) = Ok true ∧
    (∀ j, (j < i)%nat → child_poll (turns h j) = StillRunning) ∧
    final_output h = Ok o ∧ out_success o = true.
Proof.
  intros Hp. unfold suspend_and_run.
  destruct (raw_off s) as [[]|]; [|done]. destruct (leave_screen s) as [[]|]; [|done]. cbn.
  destruct (spawned s) as [h|]; cbn.
  2:{ destruct (enter_screen s), (raw_on s); done. }
  unfold wait_for_interactive_launch. rewrite Hp.
  destruct (wait_loop_explained h probe WAIT_FUEL 0 0) as (w & Ew & Hw & Hn); [done|done|done|lia|lia|].
  change (first_probe_error h probe 0) with (@None string) in Ew. rewrite Ew. cbn.
  destruct (enter_screen s) as [[]|]; [|done]. destruct (raw_on s) as [[]|]; [|done]. cbn.
  destruct (outcome w) as [o|] eqn:Eo; [|done]. cbn. destruct (out_success o) eqn:Es; [|done].
  intros _. split_and!; [done..|]. exists h.
  destruct Hw as [i Hseen Hprev Hpr _ Ho|i Hns Hgone Hprev Hpr _ Ho|_ _ Ho].
  - exists i, o. unfold wait_with_output in Ho. rewrite Eo in Ho.
    split_and!; [done|lia|done|intros j Hj; by apply Hprev| |done].
    destruct (final_output h) as [o'|]; [by injection Ho as ->|done].
  - exfalso. rewrite Eo in Ho. destruct (child_poll (turns h i)); [|done|done].
    unfold exited_early in Ho. destruct (wait_with_output _ _) as [o'|]; [|done]. cbn in Ho.
    destruct (out_success o') eqn:Es'; [done|]. injection Ho as ->. congruence.
  - exfalso. by rewrite Eo in Ho.
Qed.
