(* ===== verification/Console.v ===== *)
(** * Console: the operator console as it runs ([tui-agent/src/app.rs], [tui-agent/src/lib.rs])

    A key changes the state, looks at the files and the muxes, starts commands and
    writes the markers of archived runs.  What the console does to the outside is kept
    in a log, and what it finds there is a function of that log: [world log] answers
    for the moment after the deeds of [log], so nothing is assumed of what other
    processes do meanwhile. *)
From S2P Require Import Prelude Text Json Shared MuxState Paths Disk Scan Ipc Launch Runs Summaries.
From S2P Require Import Prisms ConsoleConfig ConsoleApp ConsoleLaunch.
From Stdlib Require Import Ascii.

(** ** The outside *)
Inductive Deed :=
| CreateDirAll (path : string)
| WriteFile (path text : string)
| AskMux (line : string)
| SpawnDetached (c : LaunchCommand)
| RunInFront (c : LaunchCommand)
| SpawnAutoRewire (agent : string)
| SetClipboard (text : string).

Record Outside := mkOutside {
  disk : Disk;
  var : string → option string;
  now : Z;                                      (* nanoseconds since the epoch *)
  create_dir_all : string → result string unit;
  write_file : string → string → result string unit;
  mux_listens : bool;
  mux_answers : string → option string;
  spawn_detached : LaunchCommand → result string N;   (* the process identifier *)
  suspension : LaunchCommand → Suspension;
  clipboard : string → result string unit;
}.

(** The same disk as the loader of the run board asks it. *)
Definition fs_of (d : Disk) : FsView := {|
  exists_path p := match stat d p with Ok _ => true | Err _ => false end;
  canonicalize := canonicalize_path d;
  is_dir := is_dir_path d;
  symlink_metadata p := match lstat d p with
                        | Ok k => Ok (bool_decide (k = FileKind.Symlink))
                        | Err e => Err e
                        end;
  read_dir := list_dir d;
  read_to_string := read_text d |}.

(** ** Keys *)
Module Key.
Inductive KeyCode :=
| Esc | Enter | Backspace | Tab | BackTab | Up | Down | Left | Right | Char (c : string) | Other.
End Key.
#[export] Instance KeyCode_eq_dec : EqDecision Key.KeyCode.
Proof. solve_decision. Defined.
Record KeyEvent := mkKeyEvent { key_code : Key.KeyCode; control : bool }.

Section console.
Context `{Platform}.
(** Parsers and printers of other crates: RFC 3339 times, JSON, the derived (de)serializers
    of runs, events, commands and responses. *)
Context (parse_from_rfc3339 : string → option Z) (timestamp_opt : Z → option Z)
  (to_rfc3339 : Z → string).
Context (parse_run : string → option RunSnapshot) (parse_event : string → option RunEvent)
  (from_str : string → option Value) (to_vec_pretty : Value → string).
Context (encode : MuxControlCommand → option string)
  (decode : string → option MuxControlResponse).
Context (world : list Deed → Outside).

(** The state and the log of deeds. *)
Record Console := mkConsole { app : App; log : list Deed }.
#[local] Instance Console_eta : Eta Console := fun s => mkConsole (app s) (log s).
Definition outside (s : Console) : Outside := world (log s).
Definition on_app (f : App → App) (s : Console) : Console := mkConsole (f (app s)) (log s).
Definition did (x : Deed) (s : Console) : Console := mkConsole (app s) (log s ++ [x]).

(** ** Looking *)
Definition load_board (o : Outside) (root : string) : ControlPlaneState :=
  match load (fs_of (disk o)) parse_run parse_event from_str root with
  | Ok st => st
  | Err _ => empty_state root
  end.
Definition rendered (o : Outside) (st : ControlPlaneState) : list RenderedRun :=
  render_runs parse_from_rfc3339 timestamp_opt st (now o).

Definition refresh_mux (o : Outside) (a : App) : App :=
  a <| mux_summaries := current_summaries from_str (disk o)
         (var o "VIBECRAFTED_MUX_STATUS_PATHS") (var o "HOME") |>.
Definition refresh_polarize (o : Outside) (a : App) : App :=
  a <| polarize_intents := current_intents from_str (disk o)
         (vibecrafted_home (var o "VIBECRAFTED_HOME") (var o "HOME")) |>.
Definition refresh_runs (o : Outside) (a : App) : App :=
  let st := load_board o (state_root (config a)) in
  a <| app_state := st |>
    <| runs := apply_run_filters (rendered o st) (queue_scope a) (search_query a) |>.
Definition refresh_app (o : Outside) (a : App) : App :=
  refresh_polarize o (refresh_mux o (sync_selection (refresh_runs o a))).
Definition refresh (s : Console) : Console := on_app (refresh_app (outside s)) s.
Definition handle_ipc_event (s : Console) : Console := on_app (refresh_mux (outside s)) s.

(** [App::new]; the subscriber starts with it. *)
Definition new_app (o : Outside) (cfg : AppConfig) : App :=
  let st := load_board o (state_root cfg) in
  let a := {| config := cfg; app_state := st; runs := rendered o st; selected := 0;
              active_tab_index := tab_index AppTab.Monitor; launch_kind := LaunchKind.Workflow;
              launch_agent := 0; launch_prompt := default_prompt LaunchKind.Workflow;
              launch_runtime := cfg_launch_runtime cfg;
              dispatch_selected := focus_index DispatchFocus.Kind; focus := LaunchFocus.Browse;
              status_line := ""; launch_history := []; deep_selected := 0;
              queue_scope := QueueScope.Live; search_query := ""; error_title := "";
              app_error_lines := []; artifact_title := ""; app_artifact_lines := [];
              mux_summaries := []; polarize_intents := [] |} in
  let a := a <| runs ::= λ rs, apply_run_filters rs (queue_scope a) (search_query a) |> in
  refresh_polarize o (refresh_mux o (sync_selection a)).

(** ** Searching and filtering *)
Definition toggle_filter (s : Console) : Console :=
  let s := refresh (on_app (λ a, a <| queue_scope ::= scope_next |>) s) in
  on_app (λ a, append_status a ("queue scope: " +:+ scope_label (queue_scope a) +:+ " (" +:+
                                pretty (N.of_nat (length (runs a))) +:+ " runs visible)")) s.
Definition set_search_query (query : string) (s : Console) : Console :=
  refresh (on_app (λ a, a <| search_query := query |>) s).
Definition clear_search (s : Console) : Console :=
  if negb (str_is_empty (search_query (app s)))
  then on_app (λ a, append_status a "search cleared") (set_search_query "" s) else s.

(** ** Archiving *)
Definition archive_dir (a : App) : string := path_join (state_root (config a)) "runs/.archived".
Definition marker_path (a : App) (id : string) : string :=
  path_join (archive_dir a) (safe_marker_name id +:+ ".json").
Definition marker (o : Outside) (id : string) : Value :=
  JObject (obj_of_list [("run_id", JString id); ("archived_by", JString "vc-operator");
                        ("archived_at", JString (to_rfc3339 (now o)))]).

Definition archive_selected_run (s : Console) : Console * result string unit :=
  match selected_run (app s) with
  | None => (on_app (λ a, append_status a "No run selected to archive.") s, Ok tt)
  | Some r =>
      let id := run_id (snapshot r) in
      let dir := archive_dir (app s) in
      let made := create_dir_all (outside s) dir in
      let s := did (CreateDirAll dir) s in
      match made with
      | Err e => (s, Err e)
      | Ok _ =>
          let p := marker_path (app s) id in
          let text := to_vec_pretty (marker (outside s) id) in
          let written := write_file (outside s) p text in
          let s := did (WriteFile p text) s in
          match written with
          | Err e => (s, Err e)
          | Ok _ =>
              (on_app (λ a, append_status a ("archived run from operator view: " +:+ id)) (refresh s), Ok tt)
          end
      end
  end.

Definition copy_selected_run_to_clipboard (s : Console) : Console * result string unit :=
  match clipboard_payload (app s) with
  | None => (on_app (λ a, append_status a "No selected run to copy.") s, Ok tt)
  | Some payload =>
      let set := clipboard (outside s) payload in
      let s := did (SetClipboard payload) s in
      match set with
      | Err e => (s, Err e)
      | Ok _ => (on_app (λ a, append_status a ("copied to clipboard: " +:+ payload)) s, Ok tt)
      end
  end.

(** ** The viewer *)
Definition safe_artifact_path (d : Disk) (p : string) (run_root : option string) : result string string :=
  try! kind := lstat d p in
  if bool_decide (kind = FileKind.Symlink) then Err ("refusing to open symlinked artifact: " +:+ p) else
  try! canonical := canonicalize_path d p in
  match opt_filter (λ r, negb (is_blank r)) run_root with
  | None => Err "selected run has no root; refusing artifact path"
  | Some run_root =>
      try! root := canonicalize_path d run_root in
      if path_starts_with canonical root then Ok canonical
      else Err ("refusing artifact outside selected run root: " +:+ canonical)
  end.

Fixpoint dir_rows (d : Disk) (entries : list (result string string)) : result string (list string) :=
  match entries with
  | [] => Ok []
  | entry :: entries =>
      try! entry := entry in
      try! kind := lstat d entry in
      try! rows := dir_rows d entries in
      Ok ((default "" (file_name entry) +:+ (if bool_decide (kind = FileKind.Dir) then "/" else "")) :: rows)
  end.
Definition artifact_lines (d : Disk) (p : string) (run_root : option string) : result string (list string) :=
  try! p := safe_artifact_path d p run_root in
  if is_dir_path d p then
    try! entries := list_dir d p in
    try! rows := dir_rows d entries in
    Ok (if bool_decide (rows = []) then ["(empty directory)"] else sort_by str_leb rows)
  else
    try! text := read_text d p in
    Ok (preview 400 text).

Definition artifact_of (act : DeepAction.DeepAction) : option (string * string) :=
  match act with
  | DeepAction.OpenReport p => Some ("Report", p)
  | DeepAction.OpenTranscript p => Some ("Transcript", p)
  | DeepAction.OpenRoot p => Some ("Run root", p)
  | _ => None
  end.
Definition open_artifact (o : Outside) (act : DeepAction.DeepAction) (a : App) : App * result string unit :=
  match artifact_of act with
  | None => (a, Ok tt)
  | Some (title, p) =>
      let a := a <| artifact_title := title +:+ ": " +:+ p |> in
      let run_root := selected_run a ≫= (λ r, root (snapshot r)) in
      match artifact_lines (disk o) p run_root with
      | Err e => (a, Err e)
      | Ok lines =>
          (append_status (a <| app_artifact_lines := lines |> <| focus := LaunchFocus.Artifact |>)
             ("opened " +:+ p +:+ " in operator viewer"), Ok tt)
      end
  end.
Definition open_polarize_intent (o : Outside) (act : DeepAction.DeepAction) (a : App) :
    App * result string unit :=
  match act with
  | DeepAction.PolarizeIntent band score id p =>
      let a := a <| artifact_title := "Polarize prism: " +:+ band_label band +:+ " score " +:+
                                      pretty score +:+ " run " +:+ id |> in
      match prism_preview_lines (disk o) p with
      | Err e => (a, Err e)
      | Ok lines =>
          (append_status (a <| app_artifact_lines := lines |> <| focus := LaunchFocus.Artifact |>)
             ("opened polarize prism " +:+ p), Ok tt)
      end
  | _ => (a, Ok tt)
  end.

(** ** Launching *)
Definition zellij_dir (o : Outside) : option string := var o "ZELLIJ_CONFIG_DIR".
Definition clock_ms (o : Outside) : option N :=
  if (0 <=? now o)%Z then Some (Z.to_N (now o / 1000000)) else None.
Definition the_launch (o : Outside) (a : App) : LaunchCommand :=
  launch_command (zellij_dir o) (is_file_path (disk o)) (clock_ms o) a.

Definition client_kind (agent : string) : ClientKind.ClientKind :=
  if str_eqb agent "claude" then ClientKind.Claude
  else if str_eqb agent "codex" then ClientKind.Codex
  else if str_eqb agent "gemini" then ClientKind.Gemini
  else if str_eqb agent "junie" then ClientKind.Junie
  else ClientKind.Generic agent.

(** The gate, and the question the mux was asked. *)
Definition verify_client (k : ClientKind.ClientKind) (s : Console) : Console * result VerifyHalt unit :=
  let o := outside s in
  let answer := pre_launch_verify (mux_listens o) encode (mux_answers o) decode k in
  (match encode (Verify k) with
   | Some line => if mux_listens o then did (AskMux line) s else s
   | None => s
   end, answer).

(** [suspend_and_run] always answers ([suspend_answers]). *)
Definition run_in_front (c : LaunchCommand) (s : Console) : Console * result LaunchRunError unit :=
  let answer := suspend_and_run c (suspension (outside s) c) in
  (did (RunInFront c) s, default (Err (launch_error "")) answer).

Definition launched (summary status : string) (s : Console) : Console :=
  on_app (λ a, append_status (push_launch_history a summary) (status +:+ summary)) s.

Definition gated (a : App) : bool :=
  negb (no_verify_gate (config a)) && negb (bool_decide (launch_runtime a = LaunchRuntime.Headless)).

Definition start_launch (s : Console) : Console :=
  let command := the_launch (outside s) (app s) in
  let summary := command_line command in
  refresh
    (if bool_decide (launch_runtime (app s) = LaunchRuntime.Headless) then
       let child := spawn_detached (outside s) command in
       let s := did (SpawnDetached command) s in
       match child with
       | Ok pid => launched summary ("spawned pid " +:+ pretty pid +:+ ": ") s
       | Err e => on_app (λ a, show_error a "launch failed before spawn" [summary; e]) s
       end
     else
       let '(s, r) := run_in_front command s in
       match r with
       | Err e => on_app (λ a, show_error a "launch failed" (detail_lines summary e)) s
       | Ok _ => launched summary "launched: " s
       end).
Definition launch_selected (s : Console) : Console :=
  if gated (app s) then
    let '(s, verified) := verify_client (client_kind (selected_agent (app s))) s in
    match verified with
    | Err halt =>
        on_app (λ a, show_error a "launch failed: client drift" (detail_lines "" (ClientDrift halt))) s
    | Ok _ => start_launch s
    end
  else start_launch s.

(** ** Keys *)
Inductive KeyResult := Continue | Quit | Fails (e : string) | Panics.

Definition show_failure (title : string) (r : App * result string unit) : App :=
  match r.2 with Ok _ => r.1 | Err e => show_error r.1 title [e] end.

Definition run_selected_deep_control (s : Console) : Console * KeyResult :=
  match selected_deep_action (app s) with
  | None =>
      (on_app (λ a, (append_status a "No deep action is available for the selected run.")
                      <| focus := LaunchFocus.Browse |>) s, Continue)
  | Some act =>
      match act with
      | DeepAction.OpenReport _ | DeepAction.OpenTranscript _ | DeepAction.OpenRoot _ =>
          (on_app (λ a, show_failure "artifact open failed" (open_artifact (outside s) act a)) s, Continue)
      | DeepAction.PolarizeIntent _ _ _ _ =>
          (on_app (λ a, show_failure "polarize prism open failed"
                          (open_polarize_intent (outside s) act a)) s, Continue)
      | _ =>
          match deep_control_command (zellij_dir (outside s)) (app s) act with
          | None => (s, Panics)
          | Some command =>
              let summary := command_line command in
              let '(s, r) := run_in_front command s in
              (refresh match r with
                       | Err e => on_app (λ a, show_error a "action failed" (detail_lines summary e)) s
                       | Ok _ => on_app (λ a, a <| focus := LaunchFocus.Browse |>) (launched summary "ran: " s)
                       end, Continue)
          end
      end
  end.

Definition key_is (key : KeyEvent) (pats : list Key.KeyCode) : bool := bool_decide (key_code key ∈ pats).
Definition typed (key : KeyEvent) : option string :=
  match key_code key with Key.Char c => if control key then None else Some c | _ => None end.

Definition edit_prompt_key (key : KeyEvent) (s : Console) : Console :=
  on_app (λ a,
    if key_is key [Key.Char "?"] then a <| focus := LaunchFocus.Help |>
    else if key_is key [Key.Esc] then finish_prompt_edit a
    else if key_is key [Key.Char "s"] && control key then finish_prompt_edit a
    else if key_is key [Key.Enter] then a <| launch_prompt ::= λ p, p +:+ String newline "" |>
    else if key_is key [Key.Backspace] then a <| launch_prompt ::= str_pop |>
    else match typed key with
         | Some c => a <| launch_prompt ::= λ p, p +:+ c |>
         | None => a
         end) s.

Definition search_key (key : KeyEvent) (s : Console) : Console :=
  if key_is key [Key.Esc; Key.Enter] then
    on_app (λ a,
      let a := a <| focus := LaunchFocus.Browse |> in
      append_status a
        (if str_is_empty (search_query a) then "search closed"
         else "search: " +:+ search_query a +:+ " (" +:+ pretty (N.of_nat (length (runs a))) +:+
              " runs visible)")) s
  else if key_is key [Key.Backspace] then set_search_query (str_pop (search_query (app s))) s
  else match typed key with
       | Some c => set_search_query (search_query (app s) +:+ c) s
       | None => s
       end.

Definition error_key (key : KeyEvent) (s : Console) : Console :=
  if key_is key [Key.Char "f"; Key.Char "F"] &&
     any (λ l, contains l "Client drift detected") (app_error_lines (app s)) then
    on_app (λ a, a <| focus := LaunchFocus.Browse |>)
      (did (SpawnAutoRewire (selected_agent (app s))) s)
  else if key_is key [Key.Esc; Key.Enter; Key.Char "q"] then
    on_app (λ a, a <| focus := LaunchFocus.Browse |>) s
  else s.

Definition artifact_key (key : KeyEvent) (s : Console) : Console :=
  if key_is key [Key.Esc; Key.Enter; Key.Char "q"] then
    on_app (λ a, a <| focus := LaunchFocus.Browse |>) s else s.
Definition help_key (key : KeyEvent) (s : Console) : Console :=
  if key_is key [Key.Char "?"; Key.Esc; Key.Enter] then
    on_app (λ a, a <| focus := LaunchFocus.Browse |>) s else s.

Definition move_vertically (delta : Z) (a : App) : App :=
  match active_tab a with
  | AppTab.Monitor => move_selection a delta
  | AppTab.Dispatch => move_dispatch_selection a delta
  | AppTab.Controls => move_deep_selection a delta
  end.
Definition move_horizontally (delta : Z) (a : App) : App :=
  match active_tab a with
  | AppTab.Monitor => a
  | AppTab.Dispatch => adjust_dispatch_selection a delta
  | AppTab.Controls => move_selection a delta
  end.

Definition enter_key (s : Console) : Console * KeyResult :=
  match active_tab (app s) with
  | AppTab.Monitor =>
      (if is_some (selected_run (app s)) then on_app (λ a, set_active_tab a AppTab.Controls) s else s, Continue)
  | AppTab.Dispatch =>
      (if bool_decide (dispatch_focus (app s) = DispatchFocus.Prompt)
       then on_app (λ a, a <| focus := LaunchFocus.EditPrompt |>) s else launch_selected s, Continue)
  | AppTab.Controls => run_selected_deep_control s
  end.

Definition dispatch_row (d : DispatchFocus.DispatchFocus) (a : App) : App :=
  (set_active_tab a AppTab.Dispatch) <| dispatch_selected := focus_index d |>.

(** The keys that only change the state. *)
Definition browse_state_key (key : KeyEvent) (a : App) : option App :=
  if key_is key [Key.Char "?"] then Some (a <| focus := LaunchFocus.Help |>)
  else if key_is key [Key.Tab] then Some (next_tab a)
  else if key_is key [Key.BackTab] then Some (previous_tab a)
  else if key_is key [Key.Up; Key.Char "k"] then Some (move_vertically (-1) a)
  else if key_is key [Key.Down; Key.Char "j"] then Some (move_vertically 1 a)
  else if key_is key [Key.Char "l"] && control key then None
  else if key_is key [Key.Left; Key.Char "h"] then Some (move_horizontally (-1) a)
  else if key_is key [Key.Right; Key.Char "l"] then Some (move_horizontally 1 a)
  else if key_is key [Key.Char "1"] then Some (set_launch_kind a LaunchKind.Workflow)
  else if key_is key [Key.Char "2"] then Some (set_launch_kind a LaunchKind.Research)
  else if key_is key [Key.Char "3"] then Some (set_launch_kind a LaunchKind.Review)
  else if key_is key [Key.Char "4"] then Some (set_launch_kind a LaunchKind.Marbles)
  else if key_is key [Key.Char "a"] then Some (cycle_agent (dispatch_row DispatchFocus.Agent a))
  else if key_is key [Key.Char "v"] then Some (cycle_runtime (dispatch_row DispatchFocus.Runtime a))
  else if key_is key [Key.Char "/"] then
    Some (append_status (a <| focus := LaunchFocus.Search |>)
            "search: type to filter runs, Enter/Esc closes, Ctrl+L clears")
  else if key_is key [Key.Char "e"] then
    Some ((dispatch_row DispatchFocus.Prompt a) <| focus := LaunchFocus.EditPrompt |>)
  else if key_is key [Key.Char "d"] then
    let a := set_active_tab a AppTab.Controls in
    Some (append_status a (if bool_decide (length (deep_actions a) = 0%nat)
                           then "No operator actions are available."
                           else "Controls ready: ↑/↓ select action, Enter runs it."))
  else None.

Definition browse_key (key : KeyEvent) (s : Console) : Console * KeyResult :=
  if key_is key [Key.Char "q"; Key.Esc] then (s, Quit) else
  match browse_state_key key (app s) with
  | Some a => (on_app (λ _, a) s, Continue)
  | None =>
      if key_is key [Key.Char "l"] then (clear_search s, Continue)
      else if key_is key [Key.Char "f"] then (toggle_filter s, Continue)
      else if key_is key [Key.Char "x"] then
        let '(s, r) := archive_selected_run s in
        (s, match r with Ok _ => Continue | Err e => Fails e end)
      else if key_is key [Key.Char "y"] then
        let '(s, r) := copy_selected_run_to_clipboard s in
        (match r with
         | Ok _ => s
         | Err e => on_app (λ a, show_error a "clipboard failed" [e]) s
         end, Continue)
      else if key_is key [Key.Char "r"] then (refresh s, Continue)
      else if key_is key [Key.Enter] then enter_key s
      else (s, Continue)
  end.

Definition handle_key (key : KeyEvent) (s : Console) : Console * KeyResult :=
  if control key && key_is key [Key.Char "c"] then (s, Quit) else
  match focus (app s) with
  | LaunchFocus.EditPrompt => (edit_prompt_key key s, Continue)
  | LaunchFocus.Search => (search_key key s, Continue)
  | LaunchFocus.Error => (error_key key s, Continue)
  | LaunchFocus.Artifact => (artifact_key key s, Continue)
  | LaunchFocus.Browse => browse_key key s
  | LaunchFocus.Help => (help_key key s, Continue)
  end.

(** ** The loop of [run_app]

    What one turn of the loop finds: a key, changes the watcher reported, events of the
    subscription, and whether the tick is over at its end. *)
Record Tick := mkTick { pressed : option KeyEvent; watched : bool; events : nat; due : bool }.

Fixpoint repeat_ipc (n : nat) (s : Console) : Console :=
  match n with O => s | S n => repeat_ipc n (handle_ipc_event s) end.
Definition after_key (t : Tick) (s : Console) : Console :=
  let s := repeat_ipc (events t) s in
  let s := if watched t || negb (bool_decide (events t = 0%nat)) then refresh s else s in
  if due t then refresh s else s.
Definition turn (t : Tick) (s : Console) : Console * KeyResult :=
  match pressed t with
  | None => (after_key t s, Continue)
  | Some key =>
      let '(s, r) := handle_key key s in
      match r with Continue => (after_key t s, Continue) | _ => (s, r) end
  end.
(** [Continue]: the console is still open after these turns. *)
Fixpoint run_app (ticks : list Tick) (s : Console) : Console * KeyResult :=
  match ticks with
  | [] => (s, Continue)
  | t :: ticks =>
      let '(s, r) := turn t s in
      match r with Continue => run_app ticks s | _ => (s, r) end
  end.
Definition open_console (cfg : AppConfig) (watcher : result string unit) : Console :=
  let a := new_app (world []) cfg in
  mkConsole match watcher with
            | Ok _ => a
            | Err e => append_status a ("watcher unavailable: " +:+ e)
            end [].

(** ** The terminal around the loop, and [run_cli]

    What the console does to the terminal, and which of the calls that change it succeed. *)
Record Terminal := mkTerminal { raw_mode : bool; alternate_screen : bool; cursor_hidden : bool }.
Definition shell_terminal : Terminal := mkTerminal false false false.
Record TerminalIo := mkTerminalIo {
  io_raw : bool;         (* [enable_raw_mode] *)
  io_enter : bool;       (* [EnterAlternateScreen] *)
  io_new : bool;         (* [Terminal::new] *)
  io_draws : bool;       (* the frames are drawn, which hides the cursor *)
  io_restore : bool;     (* [disable_raw_mode] *)
  io_leave : bool;       (* [LeaveAlternateScreen] *)
  io_cursor : bool;      (* [show_cursor] *)
}.
Definition shutdown_terminal (io : TerminalIo) (t : Terminal) : Terminal * result string unit :=
  if negb (io_restore io) then (t, Err "failed to disable raw mode") else
  let t := mkTerminal false (alternate_screen t) (cursor_hidden t) in
  if negb (io_leave io) then (t, Err "terminal") else
  let t := mkTerminal (raw_mode t) false (cursor_hidden t) in
  if negb (io_cursor io) then (t, Err "terminal") else
  (mkTerminal (raw_mode t) (alternate_screen t) false, Ok tt).
(** A panic in the session leaves the terminal alone. *)
Definition run_console (io : TerminalIo) (cfg : AppConfig) (watcher : result string unit)
    (ticks : list Tick) : Terminal * option (result string unit) :=
  if negb (io_raw io) then (shell_terminal, Some (Err "failed to enable raw mode")) else
  if negb (io_enter io) then (mkTerminal true false false, Some (Err "terminal")) else
  if negb (io_new io) then (mkTerminal true true false, Some (Err "terminal")) else
  let t := mkTerminal true true (io_draws io) in
  let close result :=
    match shutdown_terminal io t with
    | (t, Ok _) => (t, Some result)
    | (t, Err e) => (t, Some (Err e))
    end in
  match (run_app ticks (open_console cfg watcher)).2 with
  | Continue => (t, None)
  | Quit => close (Ok tt)
  | Fails e => close (Err e)
  | Panics => (t, Some (Err "panic"))
  end.

(** What [run_cli] comes to: the help and its exit, or a session with the configuration. *)
Inductive CliRun := Printed (lines : list string) | Ran (cfg : AppConfig) (t : Terminal) (r : option (result string unit)).
Definition run_cli (e : Environment) (args : list string) (io : TerminalIo)
    (watcher : result string unit) (ticks : list Tick) : result ArgError CliRun :=
  (λ request, match request with
              | ShowHelp => Printed print_help
              | Start o =>
                  let cfg := build_config e o in
                  let '(t, r) := run_console io cfg watcher ticks in Ran cfg t r
              end) <$$> parse_args default_options args.

(** When a session ends, well or not, the terminal is as it was found, provided that its
    calls succeed; what remains set when one fails early is the raw mode. *)
Lemma terminal_is_given_back io cfg watcher ticks t r :
  run_console io cfg watcher ticks = (t, Some r) →
  (run_app ticks (open_console cfg watcher)).2 ≠ Panics →
  (io_enter io = true → io_new io = true → io_restore io = true → io_leave io = true →
   io_cursor io = true → t = shell_terminal) ∧
  (io_raw io = true → io_enter io = false → raw_mode t = true).
Proof.
  unfold run_console, shutdown_terminal. intros E Hp. split.
  - intros E1 E2 E3 E4 E5. rewrite E1, E2, E3, E4, E5 in E. cbn [negb] in E.
    destruct (io_raw io); cbn in E; [|by injection E as <- _].
    destruct (run_app ticks (open_console cfg watcher)) as [s []]; cbn in E; by inversion E.
  - intros E1 E2. rewrite E1, E2 in E. cbn in E. by injection E as <- _.
Qed.
End console.
