(* ===== verification/ConsoleProps.v ===== *)
(** * ConsoleProps: what the operator console keeps to

    Its invariant over whole sessions, the cause of everything it does to the outside,
    the confinement of its viewer, and the way an archived run leaves the board. *)
From S2P Require Import Prelude Text Json Shared MuxState Paths Disk Scan Ipc Launch Runs Summaries.
From S2P Require Import Prisms ConsoleConfig ConsoleApp ConsoleLaunch Console.
From Stdlib Require Import Ascii.

(** ** Selections *)
Lemma lift_mod fuel len i :
  (0 < len)%Z → (- i ≤ Z.of_nat fuel)%Z → (lift fuel len i `mod` len = i `mod` len ∧ 0 ≤ lift fuel len i)%Z.
Proof.
  intros Hl. revert i. induction fuel as [|fuel IH]; intros i Hf; cbn [lift]; [split; [done|lia]|].
  destruct (Z.ltb_spec i 0); [|done]. destruct (IH (i + len)%Z) as [E ?]; [lia|]. split; [|done].
  rewrite E. rewrite <- (Z.mul_1_l len) at 1. by apply Z.mod_add, Z.neq_sym, Z.lt_neq.
Qed.

(** The loop that lifts a negative index ends, and the ring is the integers modulo its
    length. *)
Lemma shift_in_ring_mod len i delta :
  (0 < len)%nat → Z.of_nat (shift_in_ring len i delta) = ((Z.of_nat i + delta) mod Z.of_nat len)%Z.
Proof.
  intros Hl. unfold shift_in_ring. rewrite Z2Nat.id by (apply Z.mod_pos_bound; lia).
  apply lift_mod; lia.
Qed.
Lemma shift_in_ring_lt len i delta : (0 < len)%nat → (shift_in_ring len i delta < len)%nat.
Proof.
  intros Hl. pose proof (shift_in_ring_mod len i delta Hl).
  pose proof (Z.mod_pos_bound (Z.of_nat i + delta) (Z.of_nat len)). lia.
Qed.
Lemma step_in_list_lt len i delta : (0 < len)%nat → (step_in_list len i delta < len)%nat.
Proof.
  intros Hl. unfold step_in_list. destruct (Z.ltb_spec (Z.of_nat i + delta) 0);
    match goal with |- context [(Z.of_nat len <=? ?x)%Z] => destruct (Z.leb_spec (Z.of_nat len) x) end; lia.
Qed.

(** Live and history share the board between them, in its order, and the search keeps
    the runs one of whose fields contains the query in any case. *)
Lemma run_filters_spec rs scope q r :
  r ∈ apply_run_filters rs scope q ↔
  r ∈ rs ∧
  (scope = QueueScope.Live → is_live_run (rendered_kind r) = true) ∧
  (scope = QueueScope.History → is_live_run (rendered_kind r) = false) ∧
  (is_blank q = false → run_matches_query r (to_ascii_lowercase (trim q)) = true).
Proof.
  assert (str_is_empty (to_ascii_lowercase (trim q)) = is_blank q) as Hb.
  { unfold is_blank. by destruct (trim q). }
  unfold apply_run_filters. rewrite Hb. destruct (is_blank q); cbn [negb]; destruct scope;
    rewrite ?elem_of_retain, ?negb_true_iff; naive_solver.
Qed.

Lemma retain_sublist {A} (f : A → bool) (l : list A) : retain f l `sublist_of` l.
Proof. induction l as [|x l IH]; [done|]. simpl. case_match; by constructor. Qed.

Lemma retain_partition {A} (f : A → bool) (l : list A) :
  retain f l ++ retain (λ x, negb (f x)) l ≡ₚ l.
Proof.
  induction l as [|x l IH]; [done|]. simpl. destruct (f x); simpl; [by rewrite IH|].
  by rewrite <- Permutation_middle, IH.
Qed.

(** The queue scopes share the board.  Live and history together show every run that the
    search admits exactly once, no run is in both, each keeps the board's order, and an
    empty search admits all. *)
Theorem scopes_partition_the_board rs q :
  apply_run_filters rs QueueScope.Live q ++ apply_run_filters rs QueueScope.History q
    ≡ₚ apply_run_filters rs QueueScope.All q ∧
  (∀ r, r ∈ apply_run_filters rs QueueScope.Live q → r ∉ apply_run_filters rs QueueScope.History q) ∧
  (∀ scope, apply_run_filters rs scope q `sublist_of` rs) ∧
  (is_blank q = true → apply_run_filters rs QueueScope.All q = rs) ∧
  (∀ scope, scope_next (scope_next (scope_next scope)) = scope).
Proof.
  split_and!.
  - unfold apply_run_filters. destruct (negb _); [|apply retain_partition].
    rewrite !(retain_comm (λ r, run_matches_query r _)). apply retain_partition.
  - intros r (_ & Hl & _)%run_filters_spec (_ & _ & Hh & _)%run_filters_spec.
    specialize (Hl eq_refl). specialize (Hh eq_refl). congruence.
  - intros scope. unfold apply_run_filters. destruct (negb _), scope;
      repeat first [done | apply retain_sublist | etrans; [apply retain_sublist|]].
  - intros Hb. unfold apply_run_filters, is_blank in *. by destruct (trim q).
  - by intros [].
Qed.

Create HintDb console discriminated.

Section properties.
Context `{Platform}.
Context (parse_from_rfc3339 : string → option Z) (timestamp_opt : Z → option Z)
  (to_rfc3339 : Z → string).
Context (parse_run : string → option RunSnapshot) (parse_event : string → option RunEvent)
  (from_str : string → option Value) (to_vec_pretty : Value → string).
Context (encode : MuxControlCommand → option string)
  (decode : string → option MuxControlResponse).
Context (world : list Deed → Outside).

Notation rendered := (rendered parse_from_rfc3339 timestamp_opt).
Notation load_board := (load_board parse_run parse_event from_str).
Notation refresh_app := (refresh_app parse_from_rfc3339 timestamp_opt parse_run parse_event from_str).
Notation refresh := (refresh parse_from_rfc3339 timestamp_opt parse_run parse_event from_str world).
Notation handle_key := (handle_key parse_from_rfc3339 timestamp_opt to_rfc3339 parse_run parse_event
  from_str to_vec_pretty encode decode world).
Notation turn := (turn parse_from_rfc3339 timestamp_opt to_rfc3339 parse_run parse_event
  from_str to_vec_pretty encode decode world).
Notation run_app := (run_app parse_from_rfc3339 timestamp_opt to_rfc3339 parse_run parse_event
  from_str to_vec_pretty encode decode world).
Notation archive_selected_run := (archive_selected_run parse_from_rfc3339 timestamp_opt to_rfc3339
  parse_run parse_event from_str to_vec_pretty world).
Notation launch_selected := (launch_selected parse_from_rfc3339 timestamp_opt parse_run parse_event
  from_str encode decode world).
Notation start_launch := (start_launch parse_from_rfc3339 timestamp_opt parse_run parse_event
  from_str world).
Notation run_selected_deep_control := (run_selected_deep_control parse_from_rfc3339 timestamp_opt
  parse_run parse_event from_str world).

(** ** The invariant *)

(** The indices that other code reads without a check are in range. *)
Record in_range (a : App) : Prop := {
  agent_in_range : (launch_agent a < length agents)%nat;
  tab_in_range : (active_tab_index a < length TITLES)%nat;
  dispatch_in_range : (dispatch_selected a < FOCUS_COUNT)%nat;
  history_short : (length (launch_history a) ≤ 6)%nat;
  errors_said : focus a = LaunchFocus.Error → app_error_lines a ≠ [];
}.
(** The board is what some look at the state directory showed, through the filters that are
    set now, and a run is selected whenever there is one. *)
Record board_fits (a : App) : Prop := {
  board_filtered : ∃ o, app_state a = load_board o (state_root (config a)) ∧
    runs a = apply_run_filters (rendered o (app_state a)) (queue_scope a) (search_query a);
  run_selected : runs a ≠ [] → (selected a < length (runs a))%nat;
}.
Definition wf (a : App) : Prop := in_range a ∧ board_fits a.

Lemma in_range_refresh o a : in_range a → in_range (refresh_app o a).
Proof using.
  intros Hr. unfold Console.refresh_app, sync_selection, sync_deep_selection, sync_run_selection.
  destruct Hr. repeat case_match; constructor; done.
Qed.
Lemma board_refresh o a : board_fits (refresh_app o a).
Proof using.
  unfold Console.refresh_app, sync_selection, sync_deep_selection, sync_run_selection.
  set (a' := refresh_runs _ _ _ _ _ o a).
  assert (∃ o, app_state a' = load_board o (state_root (config a')) ∧
    runs a' = apply_run_filters (rendered o (app_state a')) (queue_scope a') (search_query a'))
    as Hf by (by exists o).
  clearbody a'. case_match eqn:E1; repeat case_match; (split; [done|]); cbn; intros Hr;
    repeat match goal with
    | Hb : _ && _ = true |- _ => apply andb_true_iff in Hb as [?%bool_decide_eq_true ?]
    | Hb : _ && _ = false |- _ => apply andb_false_iff in Hb as [?%bool_decide_eq_false|?]
    end; try lia; try (by destruct (runs a'); [|cbn; lia]).
  all: rewrite bool_decide_false in * by done; done.
Qed.
Lemma wf_refresh_range s : in_range (app s) → wf (app (refresh s)).
Proof using. split; [by apply in_range_refresh|apply board_refresh]. Qed.
Lemma wf_refresh s : wf (app s) → wf (app (refresh s)).
Proof using. intros [Hr _]. by apply wf_refresh_range. Qed.

(** The operations on the state keep it. *)
Ltac open_wf := intros [[Hag Htab Hdis Hhist Herr] [[o [Hst Hruns]] Hsel]].
Ltac keep_wf :=
  open_wf; split; constructor; cbn; try assumption; try (eexists; split; eassumption); try done; try lia.

Lemma wf_status a x : wf a → wf (append_status a x).
Proof using. keep_wf. Qed.
Lemma wf_focus a f : f ≠ LaunchFocus.Error → wf a → wf (a <| focus := f |>).
Proof using. intros Hf. keep_wf. Qed.
Lemma wf_next_tab a : wf a → wf (next_tab a).
Proof using. keep_wf. Qed.
Lemma wf_previous_tab a : wf a → wf (previous_tab a).
Proof using. keep_wf. case_bool_decide; cbn in *; lia. Qed.
Lemma wf_set_active_tab a t : wf a → wf (set_active_tab a t).
Proof using. keep_wf. destruct t; cbn; lia. Qed.
Lemma wf_set_launch_kind a k : wf a → wf (set_launch_kind a k).
Proof using. keep_wf. all: unfold FOCUS_COUNT; cbn; lia. Qed.
Lemma wf_dispatch_row d a : wf a → wf (dispatch_row d a).
Proof using. keep_wf. unfold FOCUS_COUNT. destruct d; cbn; lia. Qed.
Lemma wf_shift_agent a delta : wf a → wf (shift_agent a delta).
Proof using. keep_wf. apply shift_in_ring_lt. cbn. lia. Qed.
Lemma wf_shift_runtime a delta : wf a → wf (shift_runtime a delta).
Proof using. keep_wf. Qed.
Lemma wf_shift_launch_kind a delta : wf a → wf (shift_launch_kind a delta).
Proof using. keep_wf. Qed.
Lemma wf_move_dispatch a delta : wf a → wf (move_dispatch_selection a delta).
Proof using. keep_wf. apply shift_in_ring_lt. cbn. lia. Qed.
Lemma wf_move_selection a delta : wf a → wf (move_selection a delta).
Proof using.
  unfold move_selection. case_bool_decide as Er; keep_wf. intros _. apply step_in_list_lt.
  destruct (runs a); [done|cbn; lia].
Qed.
Lemma wf_move_deep a delta : wf a → wf (move_deep_selection a delta).
Proof using. unfold move_deep_selection. case_bool_decide; keep_wf. Qed.
Lemma wf_show_error a t l : wf a → wf (show_error a t l).
Proof using. keep_wf. by case_bool_decide. Qed.
Lemma wf_finish_prompt_edit a : wf a → wf (finish_prompt_edit a).
Proof using. keep_wf. Qed.
Lemma wf_push_history a e : wf a → wf (push_launch_history a e).
Proof using.
  keep_wf. case_bool_decide as E; [|lia]. rewrite length_drop. lia.
Qed.
Lemma wf_prompt a f : wf a → wf (a <| launch_prompt ::= f |>).
Proof using. keep_wf. Qed.
Lemma wf_viewer a t l : wf a → wf (a <| artifact_title := t |> <| app_artifact_lines := l |>).
Proof using. keep_wf. Qed.
Lemma wf_title a t : wf a → wf (a <| artifact_title := t |>).
Proof using. keep_wf. Qed.
Lemma wf_lines a l : wf a → wf (a <| app_artifact_lines := l |>).
Proof using. keep_wf. Qed.
Lemma wf_mux w a : wf a → wf (refresh_mux from_str w a).
Proof using. keep_wf. Qed.
Lemma wf_adjust a delta : wf a → wf (adjust_dispatch_selection a delta).
Proof using.
  unfold adjust_dispatch_selection. destruct (dispatch_focus a);
    [apply wf_shift_launch_kind|apply wf_shift_agent|apply wf_shift_runtime|by apply wf_focus].
Qed.
#[local] Hint Resolve wf_status wf_focus wf_next_tab wf_previous_tab wf_set_active_tab
  wf_set_launch_kind wf_dispatch_row wf_shift_agent wf_shift_runtime wf_shift_launch_kind
  wf_move_dispatch wf_move_selection wf_move_deep wf_show_error wf_finish_prompt_edit
  wf_push_history wf_prompt wf_title wf_lines wf_mux wf_adjust : console.

Lemma wf_vertical delta a : wf a → wf (move_vertically delta a).
Proof using. unfold move_vertically. destruct (active_tab a); auto with console. Qed.
Lemma wf_horizontal delta a : wf a → wf (move_horizontally delta a).
Proof using. unfold move_horizontally. destruct (active_tab a); auto with console. Qed.
#[local] Hint Resolve wf_vertical wf_horizontal : console.

Lemma wf_browse_state key a a' : browse_state_key key a = Some a' → wf a → wf a'.
Proof using.
  unfold browse_state_key, cycle_agent, cycle_runtime. intros Hk Hw. revert Hk.
  repeat match goal with
  | |- (if ?b then _ else _) = _ → _ => destruct b
  | |- Some _ = Some _ → _ => intros [= <-]
  end; try done; auto 8 with console.
  all: try (apply wf_focus; [done|]); auto 8 with console.
  all: try (apply wf_status, wf_focus; done).
Qed.

(** What the deep actions of a state can be. *)
Lemma deep_actions_are_handled a act :
  act ∈ deep_actions a →
  is_Some (artifact_of act) ∨ (∃ b sc id p, act = DeepAction.PolarizeIntent b sc id p) ∨
  ∀ dir, is_Some (deep_control_command dir a act).
Proof using.
  unfold deep_actions. rewrite !elem_of_app. intros [Hr|[Hm|[Hp|Hs]]].
  - destruct (selected_run a) as [r|]; [|by apply elem_of_nil in Hr]. unfold run_actions in Hr.
    rewrite !elem_of_app in Hr.
    repeat match type of Hr with _ ∨ _ => destruct Hr as [Hr|Hr] end;
      repeat case_match; try (by apply elem_of_nil in Hr);
      apply list_elem_of_singleton in Hr as ->; cbn; eauto.
  - apply list_elem_of_fmap in Hm as (m & -> & _). right. right. cbn. eauto.
  - apply list_elem_of_fmap in Hp as (i & -> & _). right. left. unfold intent_action. eauto.
  - apply list_elem_of_fmap in Hs as (e & -> & _). right. right. cbn. eauto.
Qed.

Lemma wf_open_artifact o act a : wf a → wf (open_artifact o act a).1.
Proof using.
  intros Hw. unfold open_artifact. destruct (artifact_of act) as [[title p]|]; [|done]. cbv zeta.
  destruct (artifact_lines _ _ _); cbn [fst]; [|by apply wf_title].
  apply wf_status, wf_focus, wf_lines, wf_title; done.
Qed.
Lemma wf_open_polarize o act a : wf a → wf (open_polarize_intent o act a).1.
Proof using.
  intros Hw. unfold open_polarize_intent. destruct act; try done.
  destruct (prism_preview_lines _ _); cbn [fst]; [|by apply wf_title].
  apply wf_status, wf_focus, wf_lines, wf_title; done.
Qed.
Lemma wf_show_failure title r : wf r.1 → wf (show_failure title r).
Proof using. unfold show_failure. destruct r.2; auto with console. Qed.

Lemma wf_start_launch s : wf (app s) → wf (app (start_launch s)).
Proof using.
  intros Hw. unfold Console.start_launch. apply wf_refresh.
  assert (∀ s e st, wf (app s) → wf (app (launched e st s))) as Hl.
  { intros s' e st ?. cbn. auto with console. }
  case_bool_decide.
  - destruct (spawn_detached _ _); [by apply Hl|]. cbn. by apply wf_show_error.
  - destruct (run_in_front _ _ _) as [s1 r] eqn:E. unfold run_in_front in E. injection E as <- <-.
    destruct (default _ _); [by apply Hl|]. cbn. by apply wf_show_error.
Qed.
Lemma wf_launch_selected s : wf (app s) → wf (app (launch_selected s)).
Proof using.
  intros Hw. unfold Console.launch_selected. destruct (gated (app s)); [|by apply wf_start_launch].
  destruct (verify_client _ _ _ _ _) as [s1 v] eqn:E.
  assert (app s1 = app s) as E1.
  { unfold verify_client in E. injection E as <- _. by repeat case_match. }
  destruct v; [by apply wf_start_launch; rewrite E1|]. cbn. rewrite E1. by apply wf_show_error.
Qed.

Lemma wf_deep_control s :
  wf (app s) → wf (app (run_selected_deep_control s).1) ∧ (run_selected_deep_control s).2 ≠ Panics.
Proof using.
  intros Hw. unfold Console.run_selected_deep_control.
  destruct (selected_deep_action (app s)) as [act|] eqn:Ea.
  2:{ split; [|done]. cbn. apply wf_focus; auto with console. }
  assert (act ∈ deep_actions (app s)) as Hin by (by eapply list_elem_of_lookup_2).
  apply deep_actions_are_handled in Hin.
  destruct act; try (split; [|done]; unfold on_app; cbn [app fst]; apply wf_show_failure;
    first [by apply wf_open_artifact | by apply (wf_open_polarize _ (DeepAction.PolarizeIntent _ _ _ _))]).
  all: match goal with |- context [deep_control_command ?d ?a ?act] =>
    destruct (deep_control_command d a act) as [c|] eqn:Ec end;
    [|exfalso; destruct Hin as [[? ?]|[(? & ? & ? & ? & ?)|Hs]];
      [done|done|specialize (Hs (zellij_dir (outside world s))); rewrite Ec in Hs; by destruct Hs]].
  all: destruct (run_in_front world c s) as [s1 r] eqn:E; unfold run_in_front in E; injection E as <- <-.
  all: split; [|done]; cbn [fst]; apply wf_refresh; destruct (default _ _); cbn.
  all: first [by apply wf_show_error | apply wf_focus; [done|]; by apply wf_status, wf_push_history].
Qed.

Lemma wf_archive s : wf (app s) → wf (app (archive_selected_run s).1).
Proof using.
  intros Hw. unfold Console.archive_selected_run. destruct (selected_run (app s)); [|by apply wf_status].
  cbv zeta. destruct (create_dir_all _ _); [|done]. destruct (write_file _ _ _); [|done].
  apply wf_status. by apply wf_refresh.
Qed.
Lemma wf_copy s : wf (app s) → wf (app (copy_selected_run_to_clipboard world s).1).
Proof using.
  intros Hw. unfold copy_selected_run_to_clipboard. destruct (clipboard_payload (app s)); [|by apply wf_status].
  cbv zeta. destruct (clipboard _ _); [|done]. by apply wf_status.
Qed.
Lemma wf_edit_prompt key s : wf (app s) → wf (app (edit_prompt_key key s)).
Proof using.
  intros Hw. unfold edit_prompt_key. cbn. repeat case_match; auto with console.
Qed.
Lemma wf_search key s :
  wf (app s) → wf (app (search_key parse_from_rfc3339 timestamp_opt parse_run parse_event from_str world key s)).
Proof using.
  intros Hw. unfold search_key. destruct (key_is _ _); [by apply wf_status, wf_focus|].
  destruct (key_is _ _); [|destruct (typed key); [|done]]; apply wf_refresh_range; by destruct Hw as [[] _].
Qed.

Lemma wf_enter s :
  wf (app s) →
  let r := enter_key parse_from_rfc3339 timestamp_opt parse_run parse_event from_str encode decode world s in
  wf (app r.1) ∧ r.2 ≠ Panics.
Proof using.
  intros Hw r. subst r. unfold enter_key. destruct (active_tab (app s)); [split; [|done]..|].
  - cbn. destruct (is_some _); [by apply wf_set_active_tab|done].
  - cbn. case_bool_decide; [by apply wf_focus|by apply wf_launch_selected].
  - by apply wf_deep_control.
Qed.

Lemma wf_browse key s :
  wf (app s) →
  let r := browse_key parse_from_rfc3339 timestamp_opt to_rfc3339 parse_run parse_event from_str
    to_vec_pretty encode decode world key s in
  wf (app r.1) ∧ r.2 ≠ Panics.
Proof using.
  intros Hw r. subst r. unfold browse_key. destruct (key_is _ _); [done|].
  destruct (browse_state_key key (app s)) as [a|] eqn:Ea.
  { split; [|done]. cbn. by eapply wf_browse_state. }
  destruct (key_is _ _).
  { split; [|done]. cbn. unfold clear_search. destruct (negb _); [|done].
    apply wf_status, wf_refresh_range. by destruct Hw as [[] _]. }
  destruct (key_is _ _).
  { split; [|done]. cbn [fst]. apply wf_status, wf_refresh_range. by destruct Hw as [[] _]. }
  destruct (key_is _ _).
  { pose proof (wf_archive s Hw) as Hs. destruct (archive_selected_run s) as [s1 []]; done. }
  destruct (key_is _ _).
  { pose proof (wf_copy s Hw) as Hs. destruct (copy_selected_run_to_clipboard world s) as [s1 []]; cbn in *;
      split; auto with console. }
  destruct (key_is _ _); [split; [by apply wf_refresh|done]|].
  destruct (key_is _ _); [by apply wf_enter|done].
Qed.

Lemma wf_handle_key key s : wf (app s) → wf (app (handle_key key s).1) ∧ (handle_key key s).2 ≠ Panics.
Proof using.
  intros Hw. unfold Console.handle_key. destruct (control key && _); [done|].
  destruct (focus (app s)); [by apply wf_browse|split; [|done]..]; cbn [fst].
  - by apply wf_edit_prompt.
  - unfold help_key. destruct (key_is _ _); [by apply wf_focus|done].
  - by apply wf_search.
  - unfold error_key. destruct (_ && _); [by apply wf_focus|]. destruct (key_is _ _); [by apply wf_focus|done].
  - unfold artifact_key. destruct (key_is _ _); [by apply wf_focus|done].
Qed.

Lemma wf_after_key t s :
  wf (app s) →
  wf (app (after_key parse_from_rfc3339 timestamp_opt parse_run parse_event from_str world t s)).
Proof using.
  intros Hw. unfold after_key.
  assert (∀ n s, wf (app s) → wf (app (repeat_ipc from_str world n s))) as Hn.
  { induction n as [|n IH]; intros s' ?; [done|]. apply IH. by apply wf_mux. }
  set (s1 := repeat_ipc _ _ _ _). assert (wf (app s1)) by by apply Hn. clearbody s1.
  destruct (_ || _), (due t); repeat apply wf_refresh; done.
Qed.

Lemma wf_turn t s : wf (app s) → wf (app (turn t s).1) ∧ (turn t s).2 ≠ Panics.
Proof using.
  intros Hw. unfold Console.turn. destruct (pressed t) as [key|]; [|split; [by apply wf_after_key|done]].
  pose proof (wf_handle_key key s Hw) as [Hs Hp]. destruct (handle_key key s) as [s1 []]; cbn [fst snd] in *;
    [split; [by apply wf_after_key|done]|done..].
Qed.

Lemma wf_run_app ticks s : wf (app s) → wf (app (run_app ticks s).1) ∧ (run_app ticks s).2 ≠ Panics.
Proof using.
  revert s. induction ticks as [|t ticks IH]; intros s Hw; [done|]. cbn [Console.run_app].
  pose proof (wf_turn t s Hw) as [Hs Hp]. destruct (turn t s) as [s1 []]; cbn [fst snd] in *; auto.
Qed.

Lemma wf_new_app o cfg :
  wf (new_app parse_from_rfc3339 timestamp_opt parse_run parse_event from_str o cfg).
Proof using.
  unfold new_app, sync_selection, sync_run_selection. rewrite andb_comm. cbn [selected].
  set (a := _ <| runs ::= _ |>).
  assert (in_range a) as Hr by (constructor; cbn; unfold FOCUS_COUNT; done || lia).
  assert (board_fits a) as Hb.
  { split; [by exists o|]. cbn. intros Hn. match goal with |- context [length ?l] => destruct l end; [done|].
    cbn. lia. }
  clearbody a. destruct Hr, Hb. unfold sync_deep_selection. repeat case_match; (split; constructor); try done.
  all: cbn; intros Hn; repeat match goal with
    | Hb : _ && _ = true |- _ => apply andb_true_iff in Hb as [? ?] end; 
    by destruct (runs a); [|cbn; lia].
Qed.


(** ** Nothing happens by itself *)
Definition pressed_in (f : LaunchFocus.LaunchFocus) (s : Console) (key : KeyEvent) (c : Key.KeyCode) : Prop :=
  focus (app s) = f ∧ key_code key = c.
Definition launch_key (s : Console) (key : KeyEvent) : Prop :=
  pressed_in LaunchFocus.Browse s key Key.Enter ∧ active_tab (app s) = AppTab.Dispatch ∧
  dispatch_focus (app s) ≠ DispatchFocus.Prompt.
Definition gate_passed (s : Console) : Prop :=
  gated (app s) = true →
  pre_launch_verify (mux_listens (outside world s)) encode (mux_answers (outside world s)) decode
    (client_kind (selected_agent (app s))) = Ok tt.

(** Why the console does something when a key is pressed. *)
Inductive cause (key : KeyEvent) (s : Console) : Deed → Prop :=
| asked_before_launch line :
    launch_key s key → gated (app s) = true →
    encode (Verify (client_kind (selected_agent (app s)))) = Some line →
    cause key s (AskMux line)
| launched_headless l :
    launch_key s key → gate_passed s → launch_runtime (app s) = LaunchRuntime.Headless →
    log s `prefix_of` l → cause key s (SpawnDetached (the_launch (world l) (app s)))
| launched_in_terminal l :
    launch_key s key → gate_passed s → launch_runtime (app s) ≠ LaunchRuntime.Headless →
    log s `prefix_of` l → cause key s (RunInFront (the_launch (world l) (app s)))
| ran_control act c :
    pressed_in LaunchFocus.Browse s key Key.Enter → active_tab (app s) = AppTab.Controls →
    selected_deep_action (app s) = Some act →
    deep_control_command (zellij_dir (outside world s)) (app s) act = Some c →
    cause key s (RunInFront c)
| fixed_drift :
    focus (app s) = LaunchFocus.Error → key_code key ∈ [Key.Char "f"; Key.Char "F"] →
    any (λ l, contains l "Client drift detected") (app_error_lines (app s)) = true →
    cause key s (SpawnAutoRewire (selected_agent (app s)))
| made_archive r :
    pressed_in LaunchFocus.Browse s key (Key.Char "x") → selected_run (app s) = Some r →
    cause key s (CreateDirAll (archive_dir (app s)))
| wrote_marker r text :
    pressed_in LaunchFocus.Browse s key (Key.Char "x") → selected_run (app s) = Some r →
    cause key s (WriteFile (marker_path (app s) (run_id (snapshot r))) text)
| copied payload :
    pressed_in LaunchFocus.Browse s key (Key.Char "y") → clipboard_payload (app s) = Some payload →
    cause key s (SetClipboard payload).

Definition caused (key : KeyEvent) (s s' : Console) : Prop :=
  ∃ deeds, log s' = log s ++ deeds ∧ Forall (cause key s) deeds ∧ (length deeds ≤ 2)%nat.

Lemma caused_nothing key s s' : log s' = log s → caused key s s'.
Proof using. intros E. exists []. rewrite app_nil_r. split_and!; [done|constructor|cbn; lia]. Qed.
Lemma caused_one key s s' x : log s' = log s ++ [x] → cause key s x → caused key s s'.
Proof using. intros E Hx. exists [x]. split_and!; [done|by repeat constructor|cbn; lia]. Qed.

Lemma key_is_elem key l : key_is key l = true ↔ key_code key ∈ l.
Proof using. unfold key_is. by rewrite bool_decide_eq_true. Qed.
Lemma key_is_only key c : key_is key [c] = true → key_code key = c.
Proof using. by intros ?%key_is_elem%list_elem_of_singleton. Qed.

Lemma caused_start_launch key s0 s :
  launch_key s0 key → gate_passed s0 → app s = app s0 → log s0 `prefix_of` log s →
  ∃ x, log (start_launch s) = log s ++ [x] ∧ cause key s0 x.
Proof using.
  intros Hk Hg Ea Hl. unfold Console.start_launch. cbv zeta. rewrite Ea. case_bool_decide as Hh.
  - exists (SpawnDetached (the_launch (world (log s)) (app s0))). split; [|by apply launched_headless].
    by destruct (spawn_detached _ _).
  - exists (RunInFront (the_launch (world (log s)) (app s0))). split; [|by apply launched_in_terminal].
    unfold run_in_front. by destruct (default _ _).
Qed.

Lemma caused_launch key s : launch_key s key → caused key s (launch_selected s).
Proof using.
  intros Hk. unfold Console.launch_selected, verify_client. destruct (gated (app s)) eqn:Eg; cbv zeta.
  2:{ destruct (caused_start_launch key s s) as (x & Hx & Hc); [done|by unfold gate_passed; rewrite Eg|done..|].
      by apply (caused_one _ _ _ x). }
  set (s1 := match encode _ with Some line => _ | None => _ end).
  assert (app s1 = app s ∧ ∃ asked, log s1 = log s ++ asked ∧ Forall (cause key s) asked ∧ (length asked ≤ 1)%nat)
    as (Ea & asked & El & Hasked & Hlen).
  { subst s1. destruct (encode _) as [line|] eqn:Ee; [destruct (mux_listens _)|].
    - split; [done|]. exists [AskMux line]. split_and!; [done| |done]. constructor; [|done].
      by apply asked_before_launch.
    - split; [done|]. exists []. rewrite app_nil_r. split_and!; [done|constructor|cbn; lia].
    - split; [done|]. exists []. rewrite app_nil_r. split_and!; [done|constructor|cbn; lia]. }
  clearbody s1. destruct (pre_launch_verify _ _ _ _ _) as [[]|] eqn:Ev.
  - destruct (caused_start_launch key s s1) as (x & Hx & Hc); [done|by intros _|done|by rewrite El; eexists|].
    exists (asked ++ [x]). rewrite Hx, El, app_assoc, Forall_app, length_app. split_and!; [done..| |cbn; lia].
    by constructor.
  - exists asked. split_and!; [exact El|done|lia].
Qed.

Lemma caused_control key s :
  pressed_in LaunchFocus.Browse s key Key.Enter → active_tab (app s) = AppTab.Controls →
  caused key s (run_selected_deep_control s).1.
Proof using.
  intros Hk Ht. unfold Console.run_selected_deep_control.
  destruct (selected_deep_action (app s)) as [act|] eqn:Ea; [|by apply caused_nothing].
  destruct act; try by apply caused_nothing.
  all: match goal with |- context [deep_control_command ?d ?a ?act] =>
    destruct (deep_control_command d a act) as [c|] eqn:Ec end; [|by apply caused_nothing].
  all: apply (caused_one _ _ _ (RunInFront c)); [|by eapply ran_control].
  all: unfold run_in_front; by destruct (default _ _).
Qed.

Lemma caused_archive key s :
  pressed_in LaunchFocus.Browse s key (Key.Char "x") → caused key s (archive_selected_run s).1.
Proof using.
  intros Hk. unfold Console.archive_selected_run.
  destruct (selected_run (app s)) as [r|] eqn:Er; [|by apply caused_nothing]. cbv zeta.
  destruct (create_dir_all _ _).
  2:{ by eapply caused_one; [|eapply made_archive]. }
  match goal with |- context [did (WriteFile ?p ?t) _] =>
    exists [CreateDirAll (archive_dir (app s)); WriteFile p t] end. split_and!; [|..].
  - destruct (write_file _ _ _); cbn; by rewrite <- app_assoc.
  - constructor; [by eapply made_archive|]. constructor; [|done]. by apply (wrote_marker key s r).
  - cbn. lia.
Qed.

Lemma caused_handle_key key s : caused key s (handle_key key s).1.
Proof using.
  unfold Console.handle_key. destruct (control key && _); [by apply caused_nothing|].
  destruct (focus (app s)) eqn:Ef; cbn [fst]; try by apply caused_nothing.
  - unfold browse_key. destruct (key_is _ _); [by apply caused_nothing|].
    destruct (browse_state_key _ _); [by apply caused_nothing|].
    destruct (key_is key [Key.Char "l"]). { cbn [fst]. unfold clear_search. destruct (negb _); by apply caused_nothing. }
    destruct (key_is key [Key.Char "f"]); [by apply caused_nothing|].
    destruct (key_is key [Key.Char "x"]) eqn:Ex.
    { apply key_is_only in Ex. pose proof (caused_archive key s) as Hc.
      destruct (archive_selected_run s) as [s1 r]. apply Hc. by split. }
    destruct (key_is key [Key.Char "y"]) eqn:Ey.
    { apply key_is_only in Ey. unfold copy_selected_run_to_clipboard.
      destruct (clipboard_payload (app s)) as [p|] eqn:Ep; [|by apply caused_nothing]. cbv zeta.
      apply (caused_one _ _ _ (SetClipboard p)); [by destruct (clipboard _ _)|]. by apply copied. }
    destruct (key_is key [Key.Char "r"]); [by apply caused_nothing|].
    destruct (key_is key [Key.Enter]) eqn:Ee; [|by apply caused_nothing].
    apply key_is_only in Ee. unfold enter_key. destruct (active_tab (app s)) eqn:Et; cbn [fst].
    + destruct (is_some _); by apply caused_nothing.
    + case_bool_decide; [by apply caused_nothing|]. by apply caused_launch.
    + by apply caused_control.
  - unfold help_key. destruct (key_is _ _); by apply caused_nothing.
  - unfold search_key. destruct (key_is _ _); [by apply caused_nothing|].
    destruct (key_is _ _); [by apply caused_nothing|]. destruct (typed key); by apply caused_nothing.
  - unfold error_key. destruct (key_is key _ && _) eqn:Ek.
    + apply andb_true_iff in Ek as [Ek%key_is_elem Hd]. eapply caused_one; [done|]. by apply fixed_drift.
    + apply caused_nothing. by destruct (key_is key [Key.Esc; Key.Enter; Key.Char "q"]).
  - unfold artifact_key. destruct (key_is _ _); by apply caused_nothing.
Qed.

(** C24: Nothing happens by itself.  In a turn of the console's loop everything it does to the
    outside has its cause in the key that was pressed: a process is launched only by Enter
    on the Dispatch tab and, unless the gate is off or the launch is headless, only after
    the mux raised no objection; Enter on the Controls tab runs the selected action and
    nothing else; the fix of a drift is started by F in its overlay; files are written only
    by archiving, inside the archive; and without a key nothing is done. *)
Theorem nothing_happens_by_itself t s :
  match pressed t with
  | Some key => caused key s (turn t s).1
  | None => log (turn t s).1 = log s
  end.
Proof using.
  assert (∀ s, log (after_key parse_from_rfc3339 timestamp_opt parse_run parse_event from_str world t s)
    = log s) as Hafter.
  { intros s'. unfold after_key. assert (∀ n s, log (repeat_ipc from_str world n s) = log s) as Hn.
    { induction n as [|n IH]; intros s''; [done|]. cbn. by rewrite IH. }
    destruct (_ || _), (due t); apply Hn. }
  unfold Console.turn. destruct (pressed t) as [key|]; [|apply Hafter].
  pose proof (caused_handle_key key s) as (deeds & El & Hd & Hl).
  exists deeds. destruct (handle_key key s) as [s1 []]; cbn [fst] in *; rewrite ?Hafter; by split_and!.
Qed.

(** ** The viewer *)

(** What the viewer shows of a path: the names in a directory, or the beginning of a
    file. *)
Definition shows (d : Disk) (p : string) (lines : list string) : Prop :=
  (is_dir_path d p = true ∧ ∃ entries rows, list_dir d p = Ok entries ∧ dir_rows d entries = Ok rows ∧
     (rows = [] ∧ lines = ["(empty directory)"] ∨ lines ≡ₚ rows)) ∨
  (is_dir_path d p = false ∧ ∃ text, read_text d p = Ok text ∧ lines = preview 400 text).

Lemma artifact_lines_confined d p run_root lines :
  artifact_lines d p run_root = Ok lines →
  ∃ kind rt canonical rootc, run_root = Some rt ∧ is_blank rt = false ∧
    lstat d p = Ok kind ∧ kind ≠ FileKind.Symlink ∧ canonicalize_path d p = Ok canonical ∧
    canonicalize_path d rt = Ok rootc ∧ path_starts_with canonical rootc = true ∧
    shows d canonical lines.
Proof using.
  unfold artifact_lines, safe_artifact_path. intros (c & Hc & Hl)%result_bind_Ok_inv.
  apply result_bind_Ok_inv in Hc as (kind & Hkind & Hc). case_bool_decide as Hk; [done|].
  apply result_bind_Ok_inv in Hc as (canonical & Hcan & Hc).
  destruct run_root as [rt|]; [|done]. cbn [opt_filter] in Hc. destruct (is_blank rt) eqn:Hb; [done|].
  cbn [negb] in Hc. apply result_bind_Ok_inv in Hc as (rootc & Hroot & Hc).
  destruct (path_starts_with canonical rootc) eqn:Hsw; [|done]. injection Hc as <-.
  exists kind, rt, canonical, rootc. split_and!; [done..|]. unfold shows.
  destruct (is_dir_path d canonical); [left|right]; (split; [done|]).
  - apply result_bind_Ok_inv in Hl as (entries & He & Hl). apply result_bind_Ok_inv in Hl as (rows & Hr & Hl).
    exists entries, rows. split_and!; [done..|]. case_bool_decide; injection Hl as <-; [by left|right].
    apply sort_by_perm.
  - apply result_bind_Ok_inv in Hl as (text & Ht & Hl). injection Hl as <-. by exists text.
Qed.

Lemma focus_refresh s : focus (app (refresh s)) = focus (app s).
Proof using.
  unfold Console.refresh, on_app, Console.refresh_app, sync_selection, sync_deep_selection,
    sync_run_selection. cbn. by repeat case_match.
Qed.

Lemma focus_on g s : (∀ a, focus (g a) = focus a) → focus (app (on_app g s)) = focus (app s).
Proof using. intros Hg. apply Hg. Qed.

Notation viewer := LaunchFocus.Artifact.

Lemma browse_state_no_viewer key a a' :
  browse_state_key key a = Some a' → focus a ≠ viewer → focus a' ≠ viewer.
Proof using.
  unfold browse_state_key. intros Hk Hf. revert Hk.
  repeat match goal with
  | |- (if ?b then _ else _) = _ → _ => destruct b
  | |- Some _ = Some _ → _ => intros [= <-]
  end; try done.
  all: try unfold move_vertically; try unfold move_horizontally, adjust_dispatch_selection;
    try unfold move_selection, move_deep_selection; repeat case_match; done.
Qed.

Lemma start_launch_no_viewer s : focus (app s) ≠ viewer → focus (app (start_launch s)) ≠ viewer.
Proof using.
  intros Hf. unfold Console.start_launch. rewrite focus_refresh. unfold run_in_front. cbv zeta.
  repeat case_match; simplify_eq/=; done.
Qed.
Lemma launch_no_viewer s : focus (app s) ≠ viewer → focus (app (launch_selected s)) ≠ viewer.
Proof using.
  intros Hf. unfold Console.launch_selected. destruct (gated (app s)); [|by apply start_launch_no_viewer].
  destruct (verify_client _ _ _ _ _) as [s1 v] eqn:E.
  assert (app s1 = app s) as E1.
  { unfold verify_client in E. injection E as <- _. by repeat case_match. }
  destruct v; [apply start_launch_no_viewer; by rewrite E1|done].
Qed.

(** What opened the viewer. *)
Inductive opened (s : Console) (lines : list string) : Prop :=
| opened_artifact act title p r rt kind canonical rootc :
    selected_deep_action (app s) = Some act → artifact_of act = Some (title, p) →
    selected_run (app s) = Some r → root (snapshot r) = Some rt →
    lstat (disk (outside world s)) p = Ok kind → kind ≠ FileKind.Symlink →
    canonicalize_path (disk (outside world s)) p = Ok canonical →
    canonicalize_path (disk (outside world s)) rt = Ok rootc →
    path_starts_with canonical rootc = true →
    shows (disk (outside world s)) canonical lines → opened s lines
| opened_prism b sc id p file :
    selected_deep_action (app s) = Some (DeepAction.PolarizeIntent b sc id p) →
    safe_prism_file (disk (outside world s)) p = Ok file → is_polarize_prism file = true →
    (∃ text, read_text (disk (outside world s)) file = Ok text ∧ lines = preview 400 text) →
    opened s lines.

Lemma deep_control_opens s :
  focus (app s) ≠ viewer → focus (app (run_selected_deep_control s).1) = viewer →
  opened s (app_artifact_lines (app (run_selected_deep_control s).1)).
Proof using.
  intros Hf. unfold Console.run_selected_deep_control.
  destruct (selected_deep_action (app s)) as [act|] eqn:Ea; [|done].
  assert (∀ title p, artifact_of act = Some (title, p) →
    let a := show_failure "artifact open failed" (open_artifact (outside world s) act (app s)) in
    focus a = viewer → opened s (app_artifact_lines a)) as Hart.
  { intros title p Hact. unfold open_artifact. rewrite Hact. cbv zeta.
    destruct (artifact_lines _ _ _) as [lines|] eqn:El; [|done]. intros _.
    apply artifact_lines_confined in El as (kind & rt & canonical & rootc & Hrt & _ & ? & ? & ? & ? & ? & ?).
    change (selected_run (app s) ≫= (λ r, root (snapshot r)) = Some rt) in Hrt.
    destruct (selected_run (app s)) as [r|] eqn:Er; [|done].
    by apply (opened_artifact _ _ act title p r rt kind canonical rootc). }
  destruct act as [| | | | |s0|s0|c0|c0|b sc id p|]; try exact (Hart _ _ eq_refl).
  all: try match goal with |- context [deep_control_command ?d ?a ?act] =>
    destruct (deep_control_command d a act); [|done] end.
  all: try (destruct (run_in_front _ _ _) as [s1 r] eqn:E; unfold run_in_front in E; injection E as <- <-;
    cbn [fst]; rewrite focus_refresh; by destruct (default _ _)).
  unfold on_app, open_polarize_intent. cbn [app fst].
  destruct (prism_preview_lines _ p) as [lines|] eqn:El; [|done]. intros _. cbn.
  unfold prism_preview_lines in El. apply result_bind_Ok_inv in El as (file & Hs & El).
  apply (opened_prism _ _ b sc id p file); [done|done| |].
  - by destruct (safe_prism_file_Ok _ _ _ Hs) as (_ & _ & _ & ?).
  - destruct (read_text _ _) as [text|]; [|done]. injection El as <-. by exists text.
Qed.

(** C29: The viewer stays inside the run.  Whenever a key opens it, it was Enter on the Controls
    tab, and what it shows is either the directory or file that the selected action names,
    no link itself and, with all links resolved, inside the selected run's own root, or a
    prism in a [polarize] directory. *)
Theorem viewer_stays_inside_the_run key s :
  focus (app s) ≠ LaunchFocus.Artifact →
  focus (app (handle_key key s).1) = LaunchFocus.Artifact →
  pressed_in LaunchFocus.Browse s key Key.Enter ∧ active_tab (app s) = AppTab.Controls ∧
  opened s (app_artifact_lines (app (handle_key key s).1)).
Proof using.
  intros Hf. unfold Console.handle_key. destruct (control key && _); [done|].
  destruct (focus (app s)) eqn:Ef; cbn [fst]; [| | | | |done].
  - unfold browse_key. destruct (key_is key [Key.Char "q"; Key.Esc]); [cbn; by rewrite Ef|].
    destruct (browse_state_key _ _) as [a|] eqn:Ea.
    { intros Hv. exfalso. revert Hv. apply (browse_state_no_viewer key (app s)); [done|by rewrite Ef]. }
    destruct (key_is key [Key.Char "l"]).
    { cbn [fst]. unfold clear_search, set_search_query. destruct (negb _); [|by rewrite Ef].
      rewrite focus_on, focus_refresh, focus_on by done. by rewrite Ef. }
    destruct (key_is key [Key.Char "f"]).
    { cbn [fst]. unfold toggle_filter. rewrite focus_on, focus_refresh, focus_on by done. by rewrite Ef. }
    destruct (key_is key [Key.Char "x"]).
    { unfold Console.archive_selected_run. destruct (selected_run (app s)); [|cbn; by rewrite Ef]. cbv zeta.
      destruct (create_dir_all _ _); [|cbn; by rewrite Ef]. destruct (write_file _ _ _); [|cbn; by rewrite Ef].
      cbn [fst]. rewrite focus_on, focus_refresh by done. cbn. by rewrite Ef. }
    destruct (key_is key [Key.Char "y"]).
    { unfold copy_selected_run_to_clipboard. destruct (clipboard_payload (app s)); [|cbn; by rewrite Ef]. cbv zeta.
      destruct (clipboard _ _); cbn; by rewrite ?Ef. }
    destruct (key_is key [Key.Char "r"]); [cbn [fst]; rewrite focus_refresh; by rewrite Ef|].
    destruct (key_is key [Key.Enter]) eqn:Ee; [|cbn; by rewrite Ef].
    apply key_is_only in Ee. unfold enter_key. destruct (active_tab (app s)) eqn:Et; cbn [fst].
    + destruct (is_some _); cbn; by rewrite ?Ef.
    + case_bool_decide; [done|]. intros Hv. exfalso. revert Hv. apply launch_no_viewer. by rewrite Ef.
    + intros Hv. split_and!; [by split|done|]. by apply deep_control_opens; [rewrite Ef|].
  - unfold edit_prompt_key. cbn. repeat case_match; cbn; by rewrite ?Ef.
  - unfold help_key. destruct (key_is _ _); cbn; by rewrite ?Ef.
  - unfold search_key, set_search_query. destruct (key_is key [Key.Esc; Key.Enter]); [done|].
    destruct (key_is key [Key.Backspace]); [|destruct (typed key); [|by rewrite Ef]];
      rewrite focus_refresh, focus_on by done; by rewrite Ef.
  - unfold error_key. repeat case_match; cbn; by rewrite ?Ef.
Qed.

(** ** Archiving *)

(** The marker of a run, with the identifier in it, lies in the archive that the loader
    of the board reads. *)
Definition marked (o : Outside) (requested : string) (text : string) : Prop :=
  ∃ croot es e f, safe_root (fs_of (disk o)) requested = Ok (Some croot) ∧
    exists_path (fs_of (disk o)) (archived_dir croot) = true ∧
    read_dir (fs_of (disk o)) (archived_dir croot) = Ok es ∧ Ok e ∈ es ∧ is_json_file e = true ∧
    safe_file (fs_of (disk o)) croot e = Ok (Some f) ∧ read_to_string (fs_of (disk o)) f = Ok text.

Lemma marked_run_is_hidden o requested text id :
  marked o requested text → (from_str text ≫= value_get "run_id") ≫= as_str = Some id →
  ∀ r, r ∈ cp_runs (load_board o requested) → run_id r ≠ id.
Proof using.
  intros (croot & es & e & f & Hroot & Hex & Hes & He & Hj & Hsafe & Htext) Hid r.
  unfold Console.load_board. destruct (load _ _ _ _ requested) as [st|] eqn:El; [|by intros ?%elem_of_nil].
  unfold load in El. rewrite Hroot in El. cbn [result_bind] in El.
  apply result_bind_Ok_inv in El as (archived & Ha & El).
  apply result_bind_Ok_inv in El as (all & _ & El). apply result_bind_Ok_inv in El as (events & _ & El).
  injection El as <-. cbn [cp_runs]. intros [_ Hn]%elem_of_retain Hr.
  apply negb_true_iff, bool_decide_eq_false in Hn. apply Hn. rewrite Hr.
  unfold load_archived_run_ids in Ha. apply result_bind_Ok_inv in Ha as (files & Hf & Ha). injection Ha as <-.
  apply elem_of_list_to_set, list_elem_of_omap. exists f. split.
  - eapply (json_files_in_spec _ _ _ _ f Hf); eauto.
  - unfold archived_id_from_marker. rewrite Htext. cbn. cbn in Hid. by rewrite Hid.
Qed.

Lemma rendered_runs o st r : r ∈ rendered o st → snapshot r ∈ cp_runs st.
Proof using.
  unfold Console.rendered, render_runs. rewrite sort_by_perm. intros (s & -> & Hs)%list_elem_of_fmap. done.
Qed.


(** ** Surprises *)

(** The prompt editor has no way to enter a question mark. *)
Lemma question_mark_is_not_typed key s :
  focus (app s) = LaunchFocus.EditPrompt → key_code key = Key.Char "?" →
  focus (app (handle_key key s).1) = LaunchFocus.Help ∧
  launch_prompt (app (handle_key key s).1) = launch_prompt (app s).
Proof using.
  intros Hf Hk. unfold Console.handle_key. rewrite Hf.
  assert (key_is key [Key.Char "c"] = false) as ->.
  { apply not_true_iff_false. intros Hc%key_is_only. congruence. }
  rewrite andb_false_r. cbn [fst]. unfold edit_prompt_key.
  assert (key_is key [Key.Char "?"] = true) as -> by (apply key_is_elem; rewrite Hk; by left). done.
Qed.

(** The selection of the Controls tab is brought into range before the muxes and the prisms
    are looked at again, so a daemon that has gone leaves it outside: Enter then finds no
    action although there are twenty. *)
Lemma vanished_daemon_leaves_no_selection o a m :
  (∀ p, lstat (disk o) p = Err "gone") → (∀ p, stat (disk o) p = Err "gone") →
  (∀ p, list_dir (disk o) p = Err "gone") → var o "VIBECRAFTED_MUX_STATUS_PATHS" = None →
  polarize_intents a = [] → mux_summaries a = [m] → deep_selected a = length CATALOG →
  length (deep_actions (refresh_app o a)) = length CATALOG ∧
  selected_deep_action (refresh_app o a) = None.
Proof using.
  intros Hl Hs Hd Hv Hp Hm Hdeep.
  assert (current_summaries from_str (disk o) (var o "VIBECRAFTED_MUX_STATUS_PATHS") (var o "HOME") = [])
    as Hsum.
  { rewrite Hv. unfold current_summaries, read_all_known_snapshots, discover_status_files. cbn [env_paths].
    destruct (default_mux_status_root _) as [root|]; [|done]. unfold root_paths, is_file_path, entries_of.
    by rewrite Hs, Hd. }
  assert (current_intents from_str (disk o)
    (vibecrafted_home (var o "VIBECRAFTED_HOME") (var o "HOME")) = []) as Hint.
  { unfold current_intents, current_intents_from_home, intent_rows, discover_prism_files.
    cbn [collect_prisms]. unfold is_plain_dir. by rewrite Hl. }
  assert (load_board o (state_root (config a)) = empty_state (state_root (config a))) as Hload.
  { unfold Console.load_board, load, safe_root. cbn [fs_of exists_path]. by rewrite Hs. }
  unfold Console.refresh_app, refresh_runs. rewrite Hload. unfold refresh_polarize, refresh_mux.
  rewrite Hsum, Hint.
  match goal with |- context [sync_selection ?b0] => set (b := b0) end.
  assert (runs b = []) as Hr.
  { subst b. cbn. unfold apply_run_filters. cbn. destruct (queue_scope a); by destruct (negb _). }
  assert (mux_summaries b = [m] ∧ polarize_intents b = [] ∧ deep_selected b = length CATALOG)
    as (Hm' & Hp' & Hd') by done.
  clearbody b. assert (sync_selection b = b) as ->.
  { unfold sync_selection, sync_run_selection. rewrite Hr, (bool_decide_true (@nil RenderedRun = [])) by done.
    rewrite andb_false_r. unfold sync_deep_selection, deep_actions, selected_run.
    rewrite Hr, Hm', Hp', Hd', lookup_nil, !length_app, !length_fmap.
    rewrite !bool_decide_false by (unfold CATALOG; cbn; lia). done. }
  unfold selected_deep_action, deep_actions, selected_run. cbn [runs mux_summaries polarize_intents deep_selected].
  change (runs (b <| mux_summaries := [] |> <| polarize_intents := [] |>)) with (runs b).
  rewrite Hr, lookup_nil. cbn. by rewrite Hd'.
Qed.
End properties.

(** Two identifiers can share a marker, and then archiving the second run brings the first one
    back. *)
Example markers_collide a : marker_path a "run/1" = marker_path a "run_1".
Proof. reflexivity. Qed.
