(* ===== verification/Tray.v ===== *)
(** * Tray: the menu bar agent ([tray-agent/src/])

    It shows the state of the muxes as an icon, a label and a tooltip, fed by a
    subscription to the control socket, and turns the items of its menu into commands
    to the mux and into processes. *)
From S2P Require Import Prelude Text Json Shared MuxState Paths Ipc Summaries.
From Stdlib Require Import Ascii.

(** ** Status *)
Module TrayStatus.
Inductive TrayStatus := Idle | Routing | Saturated | Restarting | Failed.
End TrayStatus.
#[export] Instance TrayStatus_eq_dec : EqDecision TrayStatus.TrayStatus.
Proof. solve_decision. Defined.

Definition tray_label (s : TrayStatus.TrayStatus) : string :=
  match s with
  | TrayStatus.Idle => "Idle"
  | TrayStatus.Routing => "Routing"
  | TrayStatus.Saturated => "Saturated"
  | TrayStatus.Restarting => "Restarting"
  | TrayStatus.Failed => "Failed"
  end.
Definition tooltip (s : TrayStatus.TrayStatus) : string := "Vibecrafted mux - " +:+ tray_label s.
Definition menu_label (s : TrayStatus.TrayStatus) (service_count : N) : string :=
  "Status: " +:+ tray_label s +:+ " (" +:+ pretty service_count +:+ " services)".

Inductive TrayUpdate := UStatus (s : TrayStatus.TrayStatus) | UAlert (message : string) | UNone.

Definition tray_status_from_health (restarts : N) (last_error : option string) : TrayStatus.TrayStatus :=
  if (0 <? restarts)%N && is_some last_error then TrayStatus.Failed
  else if (0 <? restarts)%N then TrayStatus.Restarting
  else TrayStatus.Idle.
Definition from_mux_event (e : IpcEvent) : TrayUpdate :=
  match e with
  | StateChange _ _ _ => UNone
  | RouteUpdate _ _ _ _ => UStatus TrayStatus.Routing
  | ServerHealth _ _ restarts last_error => UStatus (tray_status_from_health restarts last_error)
  | ClientDrift client _ => UAlert ("Drift detected for " +:+ client)
  end.

Definition default_socket_path (home : option string) : string :=
  path_join (unwrap_or home ".") ".rust-mux/ipc/control.sock".
(** [expand_home] of [bin/vc-mux-tray.rs]. *)
Definition expand_home (home : option string) (raw : string) : string :=
  match strip_prefix "~/" raw, home with
  | Some stripped, Some home => path_join home stripped
  | _, _ => raw
  end.
Definition client_label (k : ClientKind.ClientKind) : string :=
  match k with
  | ClientKind.Claude => "Claude"
  | ClientKind.Codex => "Codex"
  | ClientKind.Gemini => "Gemini"
  | ClientKind.Junie => "Junie"
  | ClientKind.Generic name => name
  end.

Section ipc.
(** The JSON of responses, and how [{:?}] and [to_string_pretty] show them. *)
Context (decode : string → option MuxControlResponse)
  (debug_response : MuxControlResponse → string)
  (routes_pretty : list Route → string) (status_pretty : StatusSnapshot → string).

(** ** The subscription

    How a connection goes: it fails before the subscription is written, or lines arrive
    until it ends. *)
Inductive Connection := Unreachable (e : string) | Lines (lines : list string).

(** The status updates a connection sends, and its end, which is never [Ok]. *)
Fixpoint read_updates (lines : list string) : list TrayStatus.TrayStatus * result string unit :=
  match lines with
  | [] => ([], Err "mux IPC stream closed")
  | line :: lines =>
      match decode line with
      | None => ([], Err "invalid response")
      | Some response =>
          let '(statuses, r) := read_updates lines in
          (match response with
           | REvent e => match from_mux_event e with UStatus s => [s] | _ => [] end
           | _ => []
           end ++ statuses, r)
      end
  end.
Definition subscribe_once (c : Connection) : list TrayStatus.TrayStatus * result string unit :=
  match c with
  | Unreachable e => ([], Err ("connect: " +:+ e))
  | Lines lines => read_updates lines
  end.

Record Subscription := mkSubscription {
  attempt : N;
  tray_backoff : N;                             (* milliseconds *)
  shown_statuses : list TrayStatus.TrayStatus;  (* what was sent to the icon *)
  sleeps : list N;
}.
#[local] Instance Subscription_eta : Eta Subscription := fun s =>
  mkSubscription (attempt s) (tray_backoff s) (shown_statuses s) (sleeps s).

Definition subscribe_start : Subscription := mkSubscription 0 1000 [] [].
(** One turn of [subscribe_loop]; [true]: the task returns. *)
Definition subscribe_turn (s : Subscription) (c : Connection) : Subscription * bool :=
  let '(statuses, r) := subscribe_once c in
  let s := s <| shown_statuses ::= λ l, l ++ statuses |> in
  match r with
  | Ok _ => (s <| attempt := 0%N |> <| tray_backoff := 1000%N |>, false)
  | Err _ =>
      let s := s <| attempt ::= λ n, (n + 1)%N |> in
      if (10 <=? attempt s)%N
      then (s <| shown_statuses ::= λ l, l ++ [TrayStatus.Failed] |>, true)
      else (s <| sleeps ::= λ l, l ++ [tray_backoff s] |>
              <| tray_backoff ::= λ b, N.min (b * 2) 30000 |>, false)
  end.
(** The loop on a history of connections, and those it did not make. *)
Fixpoint subscribe_loop (s : Subscription) (l : list Connection) : Subscription * list Connection :=
  match l with
  | [] => (s, [])
  | c :: l =>
      let '(s, stop) := subscribe_turn s c in
      if stop : bool then (s, l) else subscribe_loop s l
  end.

(** ** Commands *)
Inductive IpcAnswer := IoFailed (e : string) | NoLine | Line (text : string).
Context (answer : MuxControlCommand → IpcAnswer).

Definition send_command (c : MuxControlCommand) : result string MuxControlResponse :=
  match answer c with
  | IoFailed e => Err e
  | NoLine => Err "mux IPC returned no response"
  | Line text => ok_or (decode text) "decode mux response"
  end.
Definition verify_text (k : ClientKind.ClientKind) : result string string :=
  try! response := send_command (Verify k) in
  match response with
  | RVerify r =>
      Ok (client_label k +:+ ": " +:+ (if vr_ok r then "ok" else "drift") +:+ " (" +:+
          pretty (N.of_nat (length (vr_non_mux_servers r))) +:+ " non-mux servers)")
  | RError message => Err message
  | other => Ok (debug_response other)
  end.
Definition route_snapshot : result string string :=
  try! response := send_command RouteSnapshot in
  match response with
  | RRoutes routes => Ok (routes_pretty routes)
  | RError message => Err message
  | other => Ok (debug_response other)
  end.
Definition diagnostics : result string string :=
  try! response := send_command GetStatus in
  match response with
  | RStatus status => Ok (status_pretty status)
  | RError message => Err message
  | other => Ok (debug_response other)
  end.
End ipc.

(** ** The menu *)
Inductive MenuRoute :=
| ShowDashboard | OpenLogs | CopyRoutingTable | CopyDiagnostics | ContinueOnboarding
| OpenSettings | Help | About | QuitMux
| RestartOf (service : string)
| VerifyOf (client : ClientKind.ClientKind).

(** The identifiers of the items; a [MenuId] is a string. *)
Record MenuIds := mkMenuIds {
  show_dashboard : string;
  open_logs : string;
  copy_routing_table : string;
  copy_diagnostics : string;
  continue_onboarding : option string;
  open_settings : string;
  help : string;
  about : string;
  quit : string;
  restart_services : list (string * string);
  verify_clients : list (ClientKind.ClientKind * string);
}.
Definition resolve_restart_service (ids : MenuIds) (id : string) : option string :=
  fst <$> List.find (λ e, str_eqb e.2 id) (restart_services ids).
Definition resolve_verify_client (ids : MenuIds) (id : string) : option ClientKind.ClientKind :=
  fst <$> List.find (λ e, str_eqb e.2 id) (verify_clients ids).

Definition resolve_menu_route (id : string) (ids : MenuIds) : option MenuRoute :=
  if str_eqb id (show_dashboard ids) then Some ShowDashboard
  else if str_eqb id (open_logs ids) then Some OpenLogs
  else if str_eqb id (copy_routing_table ids) then Some CopyRoutingTable
  else if str_eqb id (copy_diagnostics ids) then Some CopyDiagnostics
  else if match continue_onboarding ids with Some i => str_eqb id i | None => false end
  then Some ContinueOnboarding
  else if str_eqb id (open_settings ids) then Some OpenSettings
  else if str_eqb id (help ids) then Some Help
  else if str_eqb id (about ids) then Some About
  else if str_eqb id (quit ids) then Some QuitMux
  else match resolve_restart_service ids id with
       | Some name => Some (RestartOf name)
       | None => VerifyOf <$> resolve_verify_client ids id
       end.

(** The services the menu offers to restart. *)
Definition comma : ascii := ","%char.
Definition configured_services (var : option string) : list string :=
  match opt_filter (λ l : list string, negb (bool_decide (l = [])))
          ((λ raw, retain (λ s, negb (str_is_empty s)) (trim <$> split_on comma raw)) <$> var) with
  | Some items => items
  | None => ["mux-agent"]
  end.
Definition should_show_onboarding (home : option string) (exists_path : string → bool) : bool :=
  match home with
  | None => true
  | Some home => negb (exists_path (path_join home ".vibecrafted/onboarding/wizard.completed"))
  end.

(** The items of [build_menu] from the top, each with its route. *)
Definition menu_items (ids : MenuIds) : list (string * MenuRoute) :=
  [(show_dashboard ids, ShowDashboard); (open_logs ids, OpenLogs)] ++
  ((λ e, (e.2, RestartOf e.1)) <$> restart_services ids) ++
  ((λ e, (e.2, VerifyOf e.1)) <$> verify_clients ids) ++
  [(copy_routing_table ids, CopyRoutingTable); (copy_diagnostics ids, CopyDiagnostics)] ++
  match continue_onboarding ids with Some i => [(i, ContinueOnboarding)] | None => [] end ++
  [(open_settings ids, OpenSettings); (help ids, Help); (about ids, About); (quit ids, QuitMux)].

(** [build_menu]; [fresh i] is the identifier of the [i]th item that can be clicked. *)
Definition build_menu (fresh : nat → string) (services : list string) (onboarding : bool) : MenuIds :=
  let n := length services in
  {| show_dashboard := fresh 0%nat; open_logs := fresh 1%nat;
     restart_services := imap (λ i name, (name, fresh (2 + i)%nat)) services;
     verify_clients := imap (λ i k, (k, fresh (2 + n + i)%nat))
                         [ClientKind.Claude; ClientKind.Codex; ClientKind.Gemini];
     copy_routing_table := fresh (5 + n)%nat; copy_diagnostics := fresh (6 + n)%nat;
     continue_onboarding := if onboarding then Some (fresh (7 + n)%nat) else None;
     open_settings := fresh (8 + n)%nat; help := fresh (9 + n)%nat; about := fresh (10 + n)%nat;
     quit := fresh (11 + n)%nat |}.

(** ** What an item does *)
Inductive TrayDeed :=
| Spawn (program : string) (args : list string)
| MakeDir (path : string)
| Ask (c : MuxControlCommand)
| CopyText (text : string)
| Notify (message : string).

Section handlers.
Context (decode : string → option MuxControlResponse)
  (debug_response : MuxControlResponse → string)
  (routes_pretty : list Route → string) (status_pretty : StatusSnapshot → string).
Context (answer : MuxControlCommand → IpcAnswer).
(** The environment, the package's version, and whether the clipboard takes a text. *)
Context (home editor : option string) (version : string) (clipboard_ok : string → bool).

Definition home_path (p : string) : string := path_join (unwrap_or home ".") p.

(** [notify] on macOS. *)
Definition quote_osascript (value : string) : string :=
  String dquote (replace_char dquote (String backslash (String dquote ""))
    (replace_char backslash (String backslash (String backslash "")) value) +:+ String dquote "").
Definition notify (title message : string) : TrayDeed :=
  Spawn "osascript" ["-e"; "display notification " +:+ quote_osascript message +:+
                           " with title " +:+ quote_osascript title].

Definition run_ipc_copy (c : MuxControlCommand) (r : result string string) (label : string) : list TrayDeed :=
  Ask c ::
  match r with
  | Ok text =>
      if clipboard_ok text
      then [CopyText text; notify "Vibecrafted" ("Copied " +:+ label +:+ " to clipboard")] else []
  | Err e => [notify "Vibecrafted" ("Could not copy " +:+ label +:+ ": " +:+ e)]
  end.
Definition restart_service (name : string) : list TrayDeed :=
  [Ask (RestartService name);
   notify "Vibecrafted"
     match send_command decode answer (RestartService name) with
     | Ok (RError message) => "Restart " +:+ name +:+ ": " +:+ message
     | Ok _ => "Restart request sent for " +:+ name
     | Err e => "Restart " +:+ name +:+ " failed: " +:+ e
     end].
Definition tray_verify_client (k : ClientKind.ClientKind) : list TrayDeed :=
  [Ask (Verify k);
   notify "Vibecrafted"
     match verify_text decode debug_response answer k with
     | Ok text => text
     | Err e => "Verify failed: " +:+ e
     end].

Definition handle_menu_event (id : string) (ids : MenuIds) : list TrayDeed :=
  match resolve_menu_route id ids with
  | Some ShowDashboard =>
      [Spawn "sh" ["-lc";
         "command -v vc-operator-tui >/dev/null 2>&1 && open -a Terminal vc-operator-tui"]]
  | Some OpenLogs => [MakeDir (home_path ".rust-mux/logs"); Spawn "open" [home_path ".rust-mux/logs"]]
  | Some CopyRoutingTable =>
      run_ipc_copy RouteSnapshot (route_snapshot decode debug_response routes_pretty answer) "routing table"
  | Some CopyDiagnostics =>
      run_ipc_copy GetStatus (diagnostics decode debug_response status_pretty answer) "diagnostics"
  | Some ContinueOnboarding => [Spawn "open" ["https://vibecrafted.io/en/install"]]
  | Some OpenSettings => [Spawn (unwrap_or editor "open") [home_path ".config/mux/config.toml"]]
  | Some Help => [Spawn "open" ["https://github.com/VetCoders/vibecrafted#readme"]]
  | Some About => [notify "About Vibecrafted" ("vc-mux-tray " +:+ version)]
  | Some QuitMux => []
  | Some (RestartOf name) => restart_service name
  | Some (VerifyOf k) => tray_verify_client k
  | None => []
  end.

(** ** The event loop

    What one turn finds: whether the two seconds between refreshes are over, a status
    ([None]: the channel is closed), and the identifier of a clicked item. *)
Record Poll := mkPoll {
  refresh_due : bool;
  next_status : option (option TrayStatus.TrayStatus);
  clicked : option string;
}.
Record TrayState := mkTrayState {
  shutdown_requested : bool;
  running : bool;
  status_item : string;
  tooltip_text : string;
  icon : TrayStatus.TrayStatus;
  services_item : string;
  tray_deeds : list TrayDeed;
}.
#[local] Instance TrayState_eta : Eta TrayState := fun t =>
  mkTrayState (shutdown_requested t) (running t) (status_item t) (tooltip_text t) (icon t)
    (services_item t) (tray_deeds t).

(** The number of services is a counter that nothing sets. *)
Definition current_service_count : N := 0.
Definition tray_start : TrayState :=
  mkTrayState false true "Status: Idle (0 services)" (tooltip TrayStatus.Idle) TrayStatus.Idle
    "Services: 0" [].

Definition apply_status_update (s : TrayStatus.TrayStatus) (t : TrayState) : TrayState :=
  t <| status_item := menu_label s current_service_count |>.
Definition poll_turn (ids : MenuIds) (t : TrayState) (p : Poll) : TrayState :=
  if shutdown_requested t then
    t <| tray_deeds ::= λ l, l ++ [Ask (Shutdown true)] |> <| running := false |>
  else
    let t := if refresh_due p
             then t <| services_item := "Services: " +:+ pretty current_service_count |> else t in
    let t := match next_status p with
             | Some (Some s) => (apply_status_update s t) <| tooltip_text := tooltip s |> <| icon := s |>
             | Some None => t <| running := false |>
             | None => t
             end in
    match clicked p with
    | Some id =>
        let t := t <| tray_deeds ::= λ l, l ++ handle_menu_event id ids |> in
        if str_eqb id (quit ids) then t <| shutdown_requested := true |> else t
    | None => t
    end.
Fixpoint poll_loop (ids : MenuIds) (t : TrayState) (l : list Poll) : TrayState :=
  match l with
  | [] => t
  | p :: l => let t := poll_turn ids t p in if running t then poll_loop ids t l else t
  end.
End handlers.

(** ** The icon

    A picture is its bytes, four for a pixel; [None] is the panic of an index outside.
    Coordinates are [i32]s, the index of a pixel a [u32]. *)
Definition ICON_SIZE : N := 44.
Definition color (s : TrayStatus.TrayStatus) : N * N * N :=
  match s with
  | TrayStatus.Idle => (80, 200, 100)
  | TrayStatus.Routing => (60, 130, 220)
  | TrayStatus.Saturated => (255, 165, 0)
  | TrayStatus.Restarting => (255, 220, 60)
  | TrayStatus.Failed => (255, 50, 50)
  end%N.

Definition pixel_index (width : N) (x y : Z) : nat :=
  N.to_nat (as_u32 (as_u32 (as_u32 (Z.to_N (y mod 2 ^ 32) * width) + Z.to_N (x mod 2 ^ 32)) * 4)).
Definition paint (rgba : list N) (width : N) (x y : Z) (c : N * N * N) : option (list N) :=
  let idx := pixel_index width x y in
  if bool_decide (idx + 3 < length rgba)%nat
  then Some (<[(idx + 3)%nat := 255%N]> (<[(idx + 2)%nat := c.2]>
              (<[(idx + 1)%nat := c.1.2]> (<[idx := c.1.1]> rgba))))
  else None.

(** [for y in ys { for x in xs { if chosen { paint } } }]. *)
Fixpoint paint_all (rgba : list N) (width : N) (c : N * N * N) (points : list (Z * Z)) : option (list N) :=
  match points with
  | [] => Some rgba
  | (x, y) :: points => rgba ← paint rgba width x y c; paint_all rgba width c points
  end.
Definition points (xs ys : list Z) (chosen : Z → Z → bool) : list (Z * Z) :=
  ys ≫= λ y, (λ x, (x, y)) <$> retain (λ x, chosen x y) xs.
(** [a..b]. *)
Definition range (a b : Z) : list Z := seqZ a (b - a).

Definition glyph_at (s : TrayStatus.TrayStatus) (cx cy x y : Z) : bool :=
  let dx := (x - cx)%Z in
  let dy := (y - cy)%Z in
  let in_circle := (dx * dx + dy * dy <=? 6 * 6)%Z in
  let is_x := (Z.abs (dx - dy) <=? 2)%Z || (Z.abs (dx + dy) <=? 2)%Z in
  in_circle && (negb (bool_decide (s = TrayStatus.Failed)) || is_x).
Definition draw_status_glyph (rgba : list N) (width height : N) (s : TrayStatus.TrayStatus) : option (list N) :=
  let w := Z.of_N width in
  let h := Z.of_N height in
  let cx := (w - 8)%Z in
  let cy := (h - 8)%Z in
  paint_all rgba width (color s)
    (points (range (Z.max (cx - 6) 0) (Z.min (cx + 6) w)) (range (Z.max (cy - 6) 0) (Z.min (cy + 6) h))
       (glyph_at s cx cy)).
Definition create_fallback_icon (s : TrayStatus.TrayStatus) : option (list N) :=
  paint_all (replicate (22 * 22 * 4) 0%N) 22 (color s)
    (points (range 0 22) (range 0 22) (λ x y, ((x - 11) * (x - 11) + (y - 11) * (y - 11) <=? 100)%Z)).

(** ** Facts *)
Lemma find_Some_elem {A} (f : A → bool) (l : list A) x : List.find f l = Some x → x ∈ l ∧ f x = true.
Proof. intros [? ?]%List.find_some. by rewrite list_elem_of_In. Qed.
Lemma find_is_Some {A} (f : A → bool) (l : list A) x : x ∈ l → f x = true → is_Some (List.find f l).
Proof.
  intros Hx Hf. destruct (List.find f l) eqn:E; [done|].
  apply list_elem_of_In in Hx. by rewrite (List.find_none _ _ E x Hx) in Hf.
Qed.
Lemma str_eqb_true a b : str_eqb a b = true ↔ a = b.
Proof. apply bool_decide_eq_true. Qed.

Lemma route_is_an_item id ids r : resolve_menu_route id ids = Some r → (id, r) ∈ menu_items ids.
Proof.
  unfold resolve_menu_route, menu_items.
  rewrite !elem_of_app, !elem_of_cons, !list_elem_of_fmap.
  repeat match goal with
  | |- (if str_eqb id ?i then _ else _) = _ → _ =>
      destruct (str_eqb id i) eqn:E; [apply str_eqb_true in E as ->; intros [= <-]; tauto|clear E]
  | |- (if match ?o with Some _ => _ | None => _ end then _ else _) = _ → _ =>
      destruct o as [i|]; [destruct (str_eqb id i) eqn:E;
        [apply str_eqb_true in E as ->; intros [= <-]; rewrite list_elem_of_singleton; tauto|clear E]|]
  end.
  all: unfold resolve_restart_service, resolve_verify_client.
  all: destruct (List.find _ (restart_services ids)) as [[n i']|] eqn:E; cbn [fmap option_fmap option_map fst].
  all: try (intros [= <-]; apply find_Some_elem in E as [E Hi%str_eqb_true]; cbn in Hi; subst i';
    right; left; by exists (n, id)).
  all: destruct (List.find _ (verify_clients ids)) as [[k i']|] eqn:E'; [|done]; cbn; intros [= <-].
  all: apply find_Some_elem in E' as [E' Hi%str_eqb_true]; cbn in Hi; subst i'; right; right; left; by exists (k, id).
Qed.

Lemma item_has_a_route id r ids : (id, r) ∈ menu_items ids → is_Some (resolve_menu_route id ids).
Proof.
  unfold resolve_menu_route, menu_items, resolve_restart_service, resolve_verify_client.
  rewrite !elem_of_app, !elem_of_cons, !list_elem_of_fmap. intros Hin.
  repeat match goal with
  | |- is_Some (if str_eqb id ?i then _ else _) =>
      destruct (str_eqb id i) eqn:?; [by eexists|]
  | |- is_Some (if match ?o with Some _ => _ | None => _ end then _ else _) =>
      destruct o as [i|]; [destruct (str_eqb id i) eqn:?; [by eexists|]|]
  end.
  all: repeat match goal with E : str_eqb _ _ = false |- _ => apply bool_decide_eq_false in E end.
  all: assert ((∃ e, (id, r) = (e.2, RestartOf e.1) ∧ e ∈ restart_services ids) ∨
    (∃ e, (id, r) = (e.2, VerifyOf e.1) ∧ e ∈ verify_clients ids)) as [(e & [= -> _] & He)|(e & [= -> _] & He)]
    by (rewrite ?list_elem_of_singleton, ?elem_of_nil in Hin; naive_solver).
  all: destruct (List.find _ (restart_services ids)) eqn:E; [by eexists|]; cbn.
  1,3: destruct (find_is_Some (λ x, str_eqb x.2 e.2) _ e He) as [? Hx]; [by apply str_eqb_true|];
    by rewrite E in Hx.
  all: destruct (find_is_Some (λ x, str_eqb x.2 e.2) _ e He) as [? ->]; [by apply str_eqb_true|by eexists].
Qed.

Lemma menu_item_ids fresh services onboarding :
  let n := length services in
  (menu_items (build_menu fresh services onboarding)).*1 =
    fresh <$> [0; 1]%nat ++ seq 2 n ++ seq (2 + n) 3 ++ seq (5 + n) 2 ++
      (if onboarding then [7 + n]%nat else []) ++ seq (8 + n) 4.
Proof.
  intros n. unfold menu_items, build_menu. cbn [show_dashboard open_logs restart_services verify_clients
    copy_routing_table copy_diagnostics continue_onboarding open_settings help about quit].
  rewrite !fmap_app. f_equal. f_equal.
  { rewrite <- list_fmap_compose, fmap_imap. fold n.
    change (imap (λ i, fst ∘ (λ e, (e.2, RestartOf e.1)) ∘ (λ name, (name, fresh (2 + i)%nat))) services)
      with (imap (λ i (_ : string), (λ j, fresh j) (2 + i)%nat) services).
    apply (imap_seq services fresh 2). }
  destruct onboarding; cbn; repeat f_equal; lia.
Qed.

(** Every item of the menu does what it says: with the identifiers that [build_menu] hands
    out, all different, a click is resolved to the route of the item that was clicked, an
    identifier of no item to nothing, and every configured service has its restart item. *)
Theorem menu_does_what_it_says fresh services onboarding :
  Inj (=) (=) fresh →
  let ids := build_menu fresh services onboarding in
  (∀ id r, resolve_menu_route id ids = Some r ↔ (id, r) ∈ menu_items ids) ∧
  NoDup (menu_items ids).*1 ∧
  ∀ name, name ∈ services → ∃ id, resolve_menu_route id ids = Some (RestartOf name).
Proof.
  intros Hinj ids.
  assert (NoDup (menu_items ids).*1) as Hnd.
  { subst ids. rewrite menu_item_ids. apply (NoDup_fmap_2 fresh).
    set (n := length services).
    assert (seq 0 (12 + n) = [0; 1]%nat ++ seq 2 n ++ seq (2 + n) 3 ++ seq (5 + n) 2 ++ [7 + n]%nat ++
      seq (8 + n) 4) as Hseq.
    { replace (12 + n)%nat with (2 + (n + (3 + (2 + (1 + 4)))))%nat by lia. rewrite !seq_app. cbn.
      repeat f_equal; lia. }
    eapply sublist_NoDup; [apply (NoDup_seq 0 (12 + n))|]. rewrite Hseq.
    repeat apply sublist_app; try reflexivity. destruct onboarding; [reflexivity|apply sublist_nil_l]. }
  assert (∀ id r, resolve_menu_route id ids = Some r ↔ (id, r) ∈ menu_items ids) as Hres.
  { intros id r. split; [apply route_is_an_item|]. intros Hin.
    destruct (item_has_a_route _ _ _ Hin) as [r' Hr']. rewrite Hr'. f_equal.
    pose proof (route_is_an_item _ _ _ Hr') as Hin'.
    apply list_elem_of_lookup in Hin as [i Hi], Hin' as [j Hj].
    assert (i = j) as -> by (eapply NoDup_lookup; [exact Hnd|by rewrite list_lookup_fmap, Hi|by rewrite list_lookup_fmap, Hj]).
    congruence. }
  split_and!; [done|done|]. intros name [i Hi]%list_elem_of_lookup.
  exists (fresh (2 + i)%nat). apply Hres. unfold menu_items. rewrite !elem_of_app. right. left.
  apply list_elem_of_fmap. exists (name, fresh (2 + i)%nat). split; [done|].
  apply list_elem_of_lookup. exists i. subst ids. cbn [build_menu restart_services].
  by rewrite list_lookup_imap, Hi.
Qed.

(** ** The subscription always ends *)
Section subscription.
Context (decode : string → option MuxControlResponse).
Notation turn := (subscribe_turn decode).
Notation loop := (subscribe_loop decode).

Lemma subscribe_once_fails c : ∃ e, (subscribe_once decode c).2 = Err e.
Proof using.
  destruct c as [e|lines]; [by eexists|]. cbn. induction lines as [|l lines IH]; [by eexists|].
  cbn. destruct (decode l); [|by eexists]. destruct IH as [e IH].
  destruct (read_updates decode lines) as [st r]. cbn in IH. subst r. by eexists.
Qed.

(** The waits between ten attempts, in milliseconds. *)
Definition WAITS : list N := [1000; 2000; 4000; 8000; 16000; 30000; 30000; 30000; 30000]%N.
Definition shown_by (c : Connection) : list TrayStatus.TrayStatus := (subscribe_once decode c).1.

Lemma subscribe_loop_from k (s : Subscription) l :
  (k ≤ 9)%nat → attempt s = N.of_nat k → WAITS !! k = Some (tray_backoff s) ∨ k = 9%nat →
  sleeps s = take k WAITS →
  let '(s', rest) := loop s l in
  rest = drop (10 - k) l ∧
  shown_statuses s' = shown_statuses s ++ (take (10 - k) l ≫= shown_by) ++
    (if bool_decide (10 - k ≤ length l)%nat then [TrayStatus.Failed] else []) ∧
  sleeps s' = take (k + length l) WAITS.
Proof using.
  revert k s. induction l as [|c l IH]; intros k s Hk Ha Hb Hs.
  - cbn [subscribe_loop]. rewrite drop_nil, take_nil, bool_decide_false by (cbn; lia). cbn.
    by rewrite app_nil_r, Nat.add_0_r.
  - cbn [subscribe_loop]. unfold subscribe_turn. destruct (subscribe_once_fails c) as [e He].
    unfold shown_by in *. destruct (subscribe_once decode c) as [st r] eqn:Ec. cbn in He. subst r.
    cbn [attempt set_with]. rewrite Ha.
    destruct (decide (k = 9%nat)) as [->|Hk9].
    + change (10 <=? N.of_nat 9 + 1)%N with true. cbn. rewrite take_0, Ec. cbn.
      rewrite app_nil_r, app_assoc, bool_decide_true by lia. by rewrite Hs.
    + assert ((10 <=? N.of_nat k + 1)%N = false) as -> by (apply N.leb_gt; lia).
      destruct Hb as [Hb|]; [|done].
      match goal with |- context [subscribe_loop decode ?s1 l] => specialize (IH (S k) s1) end.
      destruct (subscribe_loop decode _ l) as [s' rest]. destruct IH as (Hr & Hsh & Hsl).
      * lia.
      * cbn. lia.
      * cbn. do 9 (destruct k as [|k]; [cbn in Hb; injection Hb as <-; auto|]). lia.
      * by rewrite (take_S_r _ _ _ Hb), <- Hs.
      * replace (10 - k)%nat with (S (10 - S k)) by lia. cbn [drop take list_bind mbind].
        split_and!; [done| |].
        -- rewrite Hsh. cbn. rewrite Ec. cbn [fst]. rewrite <- !app_assoc. do 2 f_equal.
           f_equal. repeat case_bool_decide; cbn in *; done || lia.
        -- rewrite Hsl. f_equal. cbn. lia.
Qed.

(** The tray's subscription ends, whatever the mux does: its task makes exactly ten
    connections and then gives up for good, showing [Failed], because the end of a
    connection that worked counts as a failed attempt too; between them it waits 1, 2, 4, 8
    and 16 seconds and then 30, and the statuses each connection brought are shown in
    order. *)
Theorem tray_gives_up_after_ten_connections l :
  let '(s, rest) := loop subscribe_start l in
  rest = drop 10 l ∧
  shown_statuses s = (take 10 l ≫= shown_by) ++
    (if bool_decide (10 ≤ length l)%nat then [TrayStatus.Failed] else []) ∧
  sleeps s = take (length l) WAITS.
Proof using.
  pose proof (subscribe_loop_from 0 subscribe_start l) as Hl.
  destruct (loop subscribe_start l). apply Hl; [lia|done|by left|done].
Qed.
End subscription.

(** ** The icon is painted inside its picture *)
Lemma as_u32_small_Z (z : Z) : (0 ≤ z < 2 ^ 32)%Z → as_u32 (Z.to_N z) = Z.to_N z.
Proof. intros Hz. apply as_u32_small. unfold U32_MODULUS. lia. Qed.

Section icon.
Context (width height : N) (fits : (width * height * 4 ≤ U32_MODULUS)%N).

Definition inside (p : Z * Z) : Prop := (0 ≤ p.1 < Z.of_N width ∧ 0 ≤ p.2 < Z.of_N height)%Z.
Definition offset (p : Z * Z) : nat := Z.to_nat (4 * (p.2 * Z.of_N width + p.1)).
Definition pixel (rgba : list N) (p : Z * Z) : list (option N) :=
  (λ k, rgba !! (offset p + k)%nat) <$> seq 0 4.

Lemma offset_bound p : inside p → (offset p + 3 < N.to_nat (width * height * 4))%nat.
Proof using fits.
  unfold inside, offset. intros [Hx Hy].
  assert (p.2 * Z.of_N width + p.1 < Z.of_N height * Z.of_N width)%Z by nia. lia.
Qed.

Lemma pixel_index_offset p : inside p → pixel_index width p.1 p.2 = offset p.
Proof using fits.
  intros Hp. pose proof (offset_bound p Hp) as Hb. unfold offset in *. destruct Hp as [Hx Hy].
  unfold U32_MODULUS in fits. unfold pixel_index.
  assert (Z.of_N width < 2 ^ 32 ∧ Z.of_N height < 2 ^ 32)%Z as [Hw Hh] by (split; nia).
  rewrite !Z.mod_small by lia.
  assert (p.2 * Z.of_N width + p.1 < 2 ^ 30)%Z by nia.
  replace (Z.to_N p.2 * width)%N with (Z.to_N (p.2 * Z.of_N width)) by nia.
  rewrite as_u32_small_Z by nia.
  replace (Z.to_N (p.2 * Z.of_N width) + Z.to_N p.1)%N with (Z.to_N (p.2 * Z.of_N width + p.1)) by nia.
  rewrite as_u32_small_Z by nia.
  replace (Z.to_N (p.2 * Z.of_N width + p.1) * 4)%N with (Z.to_N (4 * (p.2 * Z.of_N width + p.1))) by nia.
  rewrite as_u32_small_Z by nia. lia.
Qed.

Lemma offset_apart p q : inside p → inside q → p ≠ q → (offset p + 4 ≤ offset q ∨ offset q + 4 ≤ offset p)%nat.
Proof using fits.
  destruct p as [x y], q as [x' y']. unfold inside, offset. cbn. intros [Hx Hy] [Hx' Hy'] Hne.
  assert (y * Z.of_N width + x ≠ y' * Z.of_N width + x')%Z as Hn.
  { intros E. apply Hne. assert (y = y') as <- by nia. f_equal. lia. }
  nia.
Qed.

Lemma paint_spec rgba p c :
  inside p → length rgba = N.to_nat (width * height * 4) →
  ∃ rgba', paint rgba width p.1 p.2 c = Some rgba' ∧ length rgba' = length rgba ∧
    pixel rgba' p = [Some c.1.1; Some c.1.2; Some c.2; Some 255%N] ∧
    ∀ q, inside q → q ≠ p → pixel rgba' q = pixel rgba q.
Proof using fits.
  intros Hp Hl. pose proof (offset_bound p Hp) as Hb. unfold paint. rewrite (pixel_index_offset p Hp).
  rewrite bool_decide_true by lia. eexists. split; [done|]. rewrite !length_insert. split; [done|].
  split.
  - unfold pixel. cbn [seq fmap list_fmap]. rewrite Nat.add_0_r.
    repeat first [rewrite list_lookup_insert_eq by (rewrite ?length_insert; lia)
                 |rewrite list_lookup_insert_ne by lia]. done.
  - intros q Hq Hne. destruct (offset_apart p q Hp Hq ltac:(done)); unfold pixel; cbn [seq fmap list_fmap];
      repeat rewrite list_lookup_insert_ne by lia; done.
Qed.

Lemma paint_all_spec rgba c pts :
  Forall inside pts → length rgba = N.to_nat (width * height * 4) →
  ∃ rgba', paint_all rgba width c pts = Some rgba' ∧ length rgba' = length rgba ∧
    ∀ q, inside q →
      (q ∈ pts → pixel rgba' q = [Some c.1.1; Some c.1.2; Some c.2; Some 255%N]) ∧
      (q ∉ pts → pixel rgba' q = pixel rgba q).
Proof using fits.
  revert rgba. induction pts as [|[x y] pts IH]; intros rgba Hin Hl.
  { exists rgba. split_and!; [done|done|]. intros q _. split; [by intros ?%elem_of_nil|done]. }
  apply Forall_cons in Hin as [Hp Hin]. cbn [paint_all].
  destruct (paint_spec rgba (x, y) c Hp Hl) as (r1 & E & Hl1 & Hp1 & Hq1). cbn [fst snd] in E. rewrite E.
  cbn [mbind option_bind]. destruct (IH r1 Hin) as (r2 & E2 & Hl2 & Hq2); [congruence|].
  exists r2. split_and!; [done|congruence|]. intros q Hq. destruct (Hq2 q Hq) as [Hyes Hno].
  rewrite elem_of_cons. split.
  - intros Hor. destruct (decide (q ∈ pts)) as [?|Hn]; [by apply Hyes|]. destruct Hor as [->|?]; [|done].
    by rewrite Hno.
  - intros Hn. rewrite Hno by tauto. apply Hq1; [done|]. intros ->. tauto.
Qed.
End icon.

Lemma points_elem xs ys chosen x y :
  (x, y) ∈ points xs ys chosen ↔ x ∈ xs ∧ y ∈ ys ∧ chosen x y = true.
Proof.
  unfold points. rewrite list_elem_of_bind. split.
  - intros (y' & (x' & [= -> ->] & [Hx Hc]%elem_of_retain)%list_elem_of_fmap & Hy). done.
  - intros (Hx & Hy & Hc). exists y. split; [|done]. apply list_elem_of_fmap. exists x.
    by rewrite elem_of_retain.
Qed.

(** Painting the status into the icon never leaves the picture.  For every picture of a size
    whose bytes a [u32] can count, drawing does not panic, keeps the length, paints exactly
    the pixels of the glyph that lie in the picture, opaque and in the status's colour, and
    leaves every other pixel as it was; and the fallback icons can be painted too. *)
Theorem icon_is_painted_inside width height rgba s :
  (width * height * 4 ≤ U32_MODULUS)%N → length rgba = N.to_nat (width * height * 4) →
  (∃ rgba', draw_status_glyph rgba width height s = Some rgba' ∧ length rgba' = length rgba ∧
    ∀ x y, inside width height (x, y) →
      let cx := (Z.of_N width - 8)%Z in
      let cy := (Z.of_N height - 8)%Z in
      pixel width rgba' (x, y) =
        if (bool_decide (cx - 6 ≤ x < cx + 6 ∧ cy - 6 ≤ y < cy + 6)%Z && glyph_at s cx cy x y)
        then [Some (color s).1.1; Some (color s).1.2; Some (color s).2; Some 255%N]
        else pixel width rgba (x, y)) ∧
  is_Some (create_fallback_icon s).
Proof.
  intros Hfit Hl. split.
  - unfold draw_status_glyph.
    match goal with |- context [paint_all _ _ _ ?pts] => set (p := pts) end.
    assert (∀ x y, (x, y) ∈ p ↔ inside width height (x, y) ∧
      (Z.of_N width - 8 - 6 ≤ x < Z.of_N width - 8 + 6 ∧ Z.of_N height - 8 - 6 ≤ y < Z.of_N height - 8 + 6)%Z ∧
      glyph_at s (Z.of_N width - 8) (Z.of_N height - 8) x y = true) as Hp.
    { intros x y. subst p. rewrite points_elem. unfold range. rewrite !elem_of_seqZ. unfold inside. cbn [fst snd].
      generalize (glyph_at s (Z.of_N width - 8) (Z.of_N height - 8) x y). intros b. intuition lia. }
    destruct (paint_all_spec width height Hfit rgba (color s) p) as (rgba' & E & Hlen & Hq); [|done|].
    { apply Forall_forall. intros [x y] Hin. by apply Hp in Hin as [? _]. }
    exists rgba'. split_and!; [done|done|]. intros x y Hin. cbv zeta.
    destruct (Hq (x, y) Hin) as [Hyes Hno].
    case_bool_decide as Hr; cbn [andb]; [destruct (glyph_at _ _ _ _ _) eqn:Hg|].
    + apply Hyes, Hp. done.
    + apply Hno. intros (_ & _ & ?)%Hp. congruence.
    + apply Hno. intros (_ & ? & _)%Hp. done.
  - destruct s; vm_compute; by eexists.
Qed.
