(* ===== verification/Agents.v ===== *)
(** * Agents: the programs that talk to a mux over its control socket
    ([shell-agent/ffi/src/lib.rs], the cells and the client of [tray-agent/src/])

    The shell agent is a library for another language: one cell with the path of the socket,
    set once, and functions that send one command each or follow the events.  The tray keeps
    channels and a flag in cells of the same kind.  What the mux answers is the control socket
    of [Ipc], one connection for one command. *)
From S2P Require Import Prelude Text Json Shared MuxState Paths Scan Ipc Summaries Endpoints Wire Tray.
From Stdlib Require Import Ascii.

(** ** A cell that is set once: [OnceLock] *)
Definition once_set {A} (cell : option A) (x : A) : option A * bool :=
  match cell with
  | None => (Some x, true)
  | Some y => (Some y, false)
  end.

(** ** The tray's cells ([state.rs], [lib.rs]) *)
Inductive TrayMenuEvent :=
| ShowMuxDashboard | OpenMuxLogs | EvCopyRoutingTable | EvCopyDiagnostics
| EvRestartService (name : string) | EvVerifyClient (kind : ClientKind.ClientKind)
| EvContinueOnboarding | EvOpenSettings | OpenHelp | ShowAbout | EvQuit.

(** An unbounded channel: whether its receiver is alive, and what waits in it. *)
Record Channel A := mkChannel { receiver_alive : bool; in_channel : list A }.
Arguments mkChannel {A}.
Arguments receiver_alive {A}.
Arguments in_channel {A}.
Definition unbounded {A} : Channel A := mkChannel true [].
(** [None]: the receiver is gone. *)
Definition send {A} (x : A) (c : Channel A) : option (Channel A) :=
  if receiver_alive c then Some (mkChannel true (in_channel c ++ [x])) else None.

Record TrayCells := mkTrayCells {
  STATUS_CHANNEL : option (Channel TrayStatus.TrayStatus);
  MENU_EVENT_CHANNEL : option (Channel TrayMenuEvent);
  SHUTDOWN_REQUESTED : option bool;
}.
#[export] Instance TrayCells_eta : Eta TrayCells := fun c =>
  mkTrayCells (STATUS_CHANNEL c) (MENU_EVENT_CHANNEL c) (SHUTDOWN_REQUESTED c).
Definition no_cells : TrayCells := mkTrayCells None None None.

Definition init_channels (c : TrayCells) : TrayCells * result string unit :=
  match once_set (STATUS_CHANNEL c) unbounded with
  | (cell, true) => (c <| STATUS_CHANNEL := cell |>, Ok tt)
  | (_, false) => (c, Err "status channel already initialized")
  end.
Definition update_tray_status (s : TrayStatus.TrayStatus) (c : TrayCells) : TrayCells * result string unit :=
  match STATUS_CHANNEL c with
  | Some ch =>
      match send s ch with
      | Some ch => (c <| STATUS_CHANNEL := Some ch |>, Ok tt)
      | None => (c, Err "failed to send tray status: sending on a disconnected channel")
      end
  | None => (c, Ok tt)
  end.
Definition menu_event_receiver (c : TrayCells) : TrayCells * result string unit :=
  match once_set (MENU_EVENT_CHANNEL c) unbounded with
  | (cell, true) => (c <| MENU_EVENT_CHANNEL := cell |>, Ok tt)
  | (_, false) => (c, Err "menu event channel already initialized")
  end.
Definition send_menu_event (e : TrayMenuEvent) (c : TrayCells) : TrayCells :=
  match MENU_EVENT_CHANNEL c with
  | Some ch => c <| MENU_EVENT_CHANNEL := Some (unwrap_or (send e ch) ch) |>
  | None => c
  end.
Definition request_shutdown (c : TrayCells) : TrayCells :=
  match SHUTDOWN_REQUESTED c with
  | Some _ => c <| SHUTDOWN_REQUESTED := Some true |>
  | None => c
  end.
Definition is_shutdown_requested (c : TrayCells) : bool :=
  match SHUTDOWN_REQUESTED c with Some flag => flag | None => false end.
(** [run_with_ipc] up to its first thread. *)
Definition init_cells (c : TrayCells) : TrayCells * result string unit :=
  init_channels
    (c <| SHUTDOWN_REQUESTED ::= λ f, Some (unwrap_or f false) |>).

(** The event that a menu item sends; the two that copy send none. *)
Definition menu_event_of (r : MenuRoute) : option TrayMenuEvent :=
  match r with
  | ShowDashboard => Some ShowMuxDashboard
  | OpenLogs => Some OpenMuxLogs
  | CopyRoutingTable => None
  | CopyDiagnostics => None
  | ContinueOnboarding => Some EvContinueOnboarding
  | OpenSettings => Some EvOpenSettings
  | Help => Some OpenHelp
  | About => Some ShowAbout
  | QuitMux => Some EvQuit
  | RestartOf name => Some (EvRestartService name)
  | VerifyOf kind => Some (EvVerifyClient kind)
  end.

(** ** The shell agent *)
Inductive MuxError := Core (msg : string).

Module FfiClientKind.
Inductive FfiClientKind := Claude | Codex | Gemini | Junie | Generic (name : string).
End FfiClientKind.
Definition ffi_of_kind (k : ClientKind.ClientKind) : FfiClientKind.FfiClientKind :=
  match k with
  | ClientKind.Claude => FfiClientKind.Claude
  | ClientKind.Codex => FfiClientKind.Codex
  | ClientKind.Gemini => FfiClientKind.Gemini
  | ClientKind.Junie => FfiClientKind.Junie
  | ClientKind.Generic name => FfiClientKind.Generic name
  end.
Definition kind_of_ffi (k : FfiClientKind.FfiClientKind) : ClientKind.ClientKind :=
  match k with
  | FfiClientKind.Claude => ClientKind.Claude
  | FfiClientKind.Codex => ClientKind.Codex
  | FfiClientKind.Gemini => ClientKind.Gemini
  | FfiClientKind.Junie => ClientKind.Junie
  | FfiClientKind.Generic name => ClientKind.Generic name
  end.

Record FfiServerStatus := mkFfiServerStatus {
  fs_name : string;
  fs_status : string;
  fs_queue_depth : N;
  fs_queue_capacity : N;
  fs_restart_count : N;
}.
Record FfiRoute := mkFfiRoute {
  fr_client : FfiClientKind.FfiClientKind;
  fr_service : string;
  fr_state : string;
}.
Record FfiVerifyResult := mkFfiVerifyResult {
  fv_kind : FfiClientKind.FfiClientKind;
  fv_ok : bool;
  fv_detail : string;
}.

Definition init_runtime (cell : option string) (socket_path : string) :
    option string * result MuxError unit :=
  match once_set cell socket_path with
  | (cell, true) => (cell, Ok tt)
  | (cell, false) => (cell, Err (Core "Already initialized"))
  end.
Definition get_socket_path (cell : option string) : result MuxError string :=
  ok_or cell (Core "Runtime not initialized").

(** What the caller's object is told. *)
Inductive Callback := on_event (line : string) | on_error (e : string).
(** How following the events goes, from the thread to the end of the stream. *)
Inductive Following :=
| NoThread (e : string)
| NoRuntime (e : string)
| NoConnection (e : string)
| NotEncoded (e : string)
| NotWritten (e : string)
| Follows (lines : list string) (failed : option string).
Definition subscription_callbacks (f : Following) : list Callback :=
  match f with
  | NoThread _ => []
  | NoRuntime e => [on_error ("Failed to start event runtime: " +:+ e)]
  | NoConnection e => [on_error e]
  | NotEncoded e => [on_error ("Failed to encode subscription command: " +:+ e)]
  | NotWritten e => [on_error e]
  | Follows lines failed => (on_event <$> lines) ++ [on_error (unwrap_or failed "Stream closed")]
  end.
Definition subscribe_events (cell : option string) (f : string → Following) :
    list Callback * result MuxError unit :=
  match get_socket_path cell with
  | Err e => ([], Err e)
  | Ok socket =>
      (subscription_callbacks (f socket),
       match f socket with
       | NoThread e => Err (Core ("Failed to start event subscription thread: " +:+ e))
       | _ => Ok tt
       end)
  end.

Section shell.
Context `{Platform}.
(** The text of responses, and what a socket answers to a command. *)
Context (decode : string → option MuxControlResponse)
  (answer : string → MuxControlCommand → IpcAnswer).

(** [send_command(..).await?]: the error becomes a [MuxError]. *)
Definition ask_mux (socket : string) (c : MuxControlCommand) : result MuxError MuxControlResponse :=
  match send_command decode (answer socket) c with
  | Ok response => Ok response
  | Err e => Err (Core e)
  end.
Definition unexpected {A} : result MuxError A := Err (Core "Unexpected response").

Definition get_server_status (cell : option string) : result MuxError (list FfiServerStatus) :=
  try! socket := get_socket_path cell in
  try! res := ask_mux socket GetStatus in
  match res with
  | RStatus snapshot =>
      Ok [mkFfiServerStatus (snap_service_name snapshot)
            (debug_status (snap_server_status snapshot))
            (as_u32 (snap_pending_requests snapshot)) (as_u32 (snap_max_active_clients snapshot))
            (snap_restarts snapshot)]
  | _ => unexpected
  end.
Definition get_routes (cell : option string) : result MuxError (list FfiRoute) :=
  try! socket := get_socket_path cell in
  try! res := ask_mux socket RouteSnapshot in
  match res with
  | RRoutes routes =>
      Ok ((λ r, mkFfiRoute (FfiClientKind.Generic (rt_client r)) (rt_server r) (rt_status r)) <$> routes)
  | _ => unexpected
  end.
Definition ffi_verify_client (cell : option string) (k : FfiClientKind.FfiClientKind) :
    result MuxError FfiVerifyResult :=
  try! socket := get_socket_path cell in
  let ckind := kind_of_ffi k in
  try! res := ask_mux socket (Verify ckind) in
  match res with
  | RVerify r =>
      Ok (mkFfiVerifyResult (ffi_of_kind ckind) (vr_ok r)
            (pretty (N.of_nat (length (vr_non_mux_servers r))) +:+ " non-mux"))
  | _ => unexpected
  end.
Definition ffi_restart_service (cell : option string) (name : string) : result MuxError unit :=
  try! socket := get_socket_path cell in
  try! _ := ask_mux socket (RestartService name) in
  Ok tt.
Definition get_recent_logs (service : string) (lines : N) : result MuxError (list string) :=
  Ok ["Logs for " +:+ service +:+ " not implemented in backend"].
End shell.

(** ** The connection in between *)
Section wire.
Context `{Platform}.
(** The text of commands and responses on the wire, and how each side reads it. *)
Context (encode_command : MuxControlCommand → string)
  (parse_command : string → result string MuxControlCommand)
  (encode_response : MuxControlResponse → string)
  (decode : string → option MuxControlResponse).

Definition write_request (c : MuxControlCommand) : string :=
  encode_command c +:+ String newline "".
(** The tray's own requests. *)
Definition stop_mux_daemon (answer : MuxControlCommand → IpcAnswer) : result string MuxControlResponse :=
  send_command decode answer (Shutdown true).
Definition ipc_restart_service (answer : MuxControlCommand → IpcAnswer) (name : string) :
    result string MuxControlResponse :=
  send_command decode answer (RestartService name).

(** [BufReader::lines]: the next line without its end. *)
Definition next_line (s : string) : option string :=
  if str_is_empty s then None else Some (hd "" (split_on newline s)).

(** A connection of one command, with the mux in state [st] at the other end: the request is
    written, the mux answers on its control socket until the client hangs up, and the client
    reads the first line. *)
Definition one_command (uid my_uid now : N) (st : MuxState) (scans : list ScanResult) (has_bus : bool)
    (c : MuxControlCommand) : IpcAnswer :=
  match handle_connection parse_command uid my_uid now st scans has_bus
          [Read (ReadData (write_request c)); Read ReadEof] with
  | Some (Ok responses) =>
      match next_line (foldr (λ r acc, send_response encode_response r +:+ acc) "" responses) with
      | Some line => Line line
      | None => NoLine
      end
  | Some (Err _) => NoLine
  | None => IoFailed "the connection never ends"
  end.
End wire.

(** ** Facts *)
Lemma split_on_line s : newline ∉ String.list_ascii_of_string s → split_on newline s = [s].
Proof.
  induction s as [|c s IH]; [done|]. cbn [String.list_ascii_of_string split_on].
  rewrite not_elem_of_cons. intros [Hc Hs]. rewrite bool_decide_false by congruence. by rewrite IH.
Qed.
Lemma split_on_line_end s rest : newline ∉ String.list_ascii_of_string s →
  split_on newline (s +:+ String newline rest) = s :: split_on newline rest.
Proof.
  induction s as [|c s IH]; cbn [String.list_ascii_of_string String.append split_on].
  - intros _. by rewrite bool_decide_true.
  - rewrite not_elem_of_cons. intros [Hc Hs]. rewrite bool_decide_false by congruence. by rewrite IH.
Qed.

Lemma kinds_round_trip k j : kind_of_ffi (ffi_of_kind k) = k ∧ ffi_of_kind (kind_of_ffi j) = j.
Proof. by destruct k, j. Qed.

Section served.
Context `{Platform}.
Context (encode_command : MuxControlCommand → string)
  (parse_command : string → result string MuxControlCommand)
  (encode_response : MuxControlResponse → string)
  (decode : string → option MuxControlResponse).

(** One command and one response get over the wire: the text of each is a line, and it
    reads back. *)
Record carries (c : MuxControlCommand) (r : MuxControlResponse) : Prop := mkCarries {
  command_line : newline ∉ String.list_ascii_of_string (encode_command c);
  command_text : encode_command c ≠ "";
  command_back : parse_command (encode_command c) = Ok c;
  response_line : newline ∉ String.list_ascii_of_string (encode_response r);
  response_back : decode (encode_response r) = Some r;
}.

Lemma request_lines c r : carries c r → split_lines (write_request encode_command c) = [encode_command c].
Proof.
  intros Hc. unfold split_lines, write_request. rewrite split_on_line_end by apply Hc.
  cbn [split_on retain List.filter].
  destruct (encode_command c) eqn:E; [by destruct (command_text c r Hc)|done].
Qed.

Lemma response_read c r rest : carries c r →
  next_line (send_response encode_response r +:+ rest) = Some (encode_response r).
Proof.
  intros Hc. unfold next_line, send_response. rewrite <- str_app_assoc. cbn [String.append].
  rewrite split_on_line_end by apply Hc. cbn [hd].
  by destruct (encode_response r).
Qed.

(** A command gets through, and its first response comes back. *)
Lemma one_command_answered uid now st scans has_bus c r :
  carries c r → handle_command now st scans c = Ok r →
  send_command decode
    (one_command encode_command parse_command encode_response uid uid now st scans has_bus) c = Ok r.
Proof.
  intros Hc Hr. unfold send_command, one_command, handle_connection. rewrite N.eqb_refl.
  cbn [negb length read_loop]. rewrite (request_lines c r) by done. cbn [handle_lines].
  rewrite (command_back _ _ Hc), Hr.
  destruct (is_subscribe c), has_bus; cbn; rewrite (response_read c) by done;
    by rewrite (response_back _ _ Hc).
Qed.

End served.

(** *** The protocol of [Wire] *)
Section json.
Context `{Platform}.
(** The text of JSON, and the message of an error of its parser. *)
Context (to_string : Value → string) (from_str : string → option Value) (why : string → string).

Definition wire_encode (c : MuxControlCommand) : string := to_string (ser_command c).
Definition wire_parse (s : string) : result string MuxControlCommand :=
  ok_or (from_str s ≫= de_command) (why s).
Definition wire_print (r : MuxControlResponse) : string := to_string (ser_response r).
Definition wire_decode (s : string) : option MuxControlResponse := from_str s ≫= de_response.
Definition wire_answer (uid now : N) (st : MuxState) (scans : list ScanResult) (has_bus : bool)
    (c : MuxControlCommand) : IpcAnswer :=
  one_command wire_encode wire_parse wire_print uid uid now st scans has_bus c.

(** What [serde_json] promises of the compact text of a value: it is one line that is not
    empty, and it parses to the value. *)
Record text_ok (v : Value) : Prop := mkTextOk {
  text_line : newline ∉ String.list_ascii_of_string (to_string v);
  text_some : to_string v ≠ "";
  text_back : from_str (to_string v) = Some v;
}.

Lemma wire_carries c r :
  response_sized r → text_ok (ser_command c) → text_ok (ser_response r) →
  carries wire_encode wire_parse wire_print wire_decode c r.
Proof.
  intros Hr [] []. unfold wire_encode, wire_parse, wire_print, wire_decode. split; try done.
  - rewrite text_back0. cbn [mbind option_bind]. by rewrite commands_round_trip.
  - rewrite text_back1. cbn [mbind option_bind]. by rewrite responses_round_trip.
Qed.

(** A verification names no line of a file. *)
Lemma verify_sized now st scans k r : handle_command now st scans (Verify k) = Ok r → response_sized r.
Proof.
  cbn [handle_command]. intros [= <-]. unfold handle_verify.
  destruct (host_kind_of k) as [hk|]; [|constructor]. cbn [response_sized vr_non_mux_servers].
  apply Forall_forall. intros e (scan & Hin & Hscan)%list_elem_of_bind.
  case_match; [by apply elem_of_nil in Hin|].
  by apply list_elem_of_fmap in Hin as (srv & -> & _).
Qed.

(** C33: What the shell agent tells its application is what the mux's own state says: asked
    over the control socket by the same user, in the JSON that both sides derive from the
    types of the protocol, the mux's name, status and restarts come through as they are, the
    numbers of requests and slots in 32 bits, the routes as none, and a client's verification
    with the number of servers that do not go through a mux.  A restart is reported as done
    although the mux answers that it cannot do it. *)
Theorem shell_agent_shows_the_mux uid now st scans has_bus socket k name v :
  let answer := λ _, wire_answer uid now st scans has_bus in
  let cell := (init_runtime None socket).1 in
  let snapshot := snapshot_for_state now st (max_active_clients st) in
  handle_command now st scans (Verify (kind_of_ffi k)) = Ok (RVerify v) →
  snapshot_sized snapshot →
  Forall text_ok
    ((ser_command <$> [GetStatus; RouteSnapshot; Verify (kind_of_ffi k); RestartService name]) ++
     (ser_response <$> [RStatus snapshot; RRoutes []; RVerify v; RUnimplemented])) →
  get_server_status wire_decode answer cell =
    Ok [mkFfiServerStatus (service_name st) (debug_status (server_status st))
          (as_u32 (N.of_nat (size (pending st)))) (as_u32 (max_active_clients st)) (restarts st)] ∧
  get_routes wire_decode answer cell = Ok [] ∧
  ffi_verify_client wire_decode answer cell k =
    Ok (mkFfiVerifyResult k (vr_ok v) (pretty (N.of_nat (length (vr_non_mux_servers v))) +:+ " non-mux")) ∧
  ffi_restart_service wire_decode answer cell name = Ok tt ∧
  handle_command now st scans (RestartService name) = Ok RUnimplemented.
Proof.
  intros answer cell snapshot Hv Hs Ht.
  assert (∀ c r, text_ok (ser_command c) → text_ok (ser_response r) → response_sized r →
    handle_command now st scans c = Ok r → ask_mux wire_decode answer socket c = Ok r) as Ha.
  { intros c r Hc Hr Hsz Hh. unfold ask_mux, answer, wire_answer.
    by rewrite (one_command_answered _ _ _ _ _ _ _ _ _ c r) by (try apply wire_carries; done). }
  rewrite Forall_app in Ht. cbn [fmap list_fmap] in Ht. rewrite !Forall_cons in Ht.
  destruct Ht as [(C1 & C2 & C3 & C4 & _) (R1 & R2 & R3 & R4 & _)].
  unfold get_server_status, get_routes, ffi_verify_client, ffi_restart_service, get_socket_path.
  subst cell. cbn [init_runtime once_set fst ok_or result_bind].
  rewrite (Ha _ _ C1 R1), (Ha _ _ C2 R2), (Ha _ _ C3 R3 ltac:(by eapply verify_sized) Hv), (Ha _ _ C4 R4)
    by done.
  cbn [result_bind]. rewrite (proj2 (kinds_round_trip ClientKind.Claude k)). done.
Qed.

(** Leaving the tray does not stop the mux: its request is answered, and nothing is done. *)
Theorem quitting_the_tray_stops_nothing uid now st scans has_bus :
  text_ok (ser_command (Shutdown true)) → text_ok (ser_response RUnimplemented) →
  stop_mux_daemon wire_decode (wire_answer uid now st scans has_bus) = Ok RUnimplemented.
Proof. intros Hc Hr. apply one_command_answered; [by apply wire_carries|done]. Qed.
End json.

(** The runtime can be set once: a second path is refused and changes nothing. *)
Theorem runtime_is_set_once cell p q :
  (init_runtime cell p).2 = Ok tt →
  get_socket_path (init_runtime cell p).1 = Ok p ∧
  init_runtime (init_runtime cell p).1 q = (Some p, Err (Core "Already initialized")).
Proof. destruct cell; by cbn. Qed.
