(* ===== verification/Witnesses.v ===== *)
(** * Witnesses: the properties at concrete inputs

    A small mux with one connected client, a few messages, and for every property with
    hypotheses an instance at which they hold. *)
From S2P Require Import Prelude Text Json Proc Shared MuxState MuxWorld MuxClient.
From S2P Require Import MuxServer MuxManager Heartbeat MuxDesk MuxSystem MuxLiveness Status Proxy Paths Config Scan Rewire Ipc.
From stdpp Require Import relations.

#[local] Existing Instance reference_platform.

(** ** A mux with one client *)
Definition demo_config : MuxStateConfig :=
  mkMuxStateConfig 5 "demo" 1000 (from_secs 30) (from_secs 1) (from_secs 30) 1 0 None (Some 0%N).
Definition demo_start : World := mux_start 0 demo_config true.
Definition demo_world : World :=
  let '(w, tx) := unbounded_channel demo_start in
  w <| st ::= λ s, (register_client 0 tx s).1 |>.

Definition request (method : string) (id : N) : Value :=
  JObject (obj_of_list [("id", JNumber (PosInt id)); ("method", JString method)]).
Definition response (id : string) : Value :=
  JObject (obj_of_list [("id", JString id); ("result", JObject [])]).
Definition initialized_msg : Value :=
  JObject (obj_of_list [("method", JString "notifications/initialized")]).
Definition event_msg : Value := JObject (obj_of_list [("method", JString "event")]).

Definition set_handshake (done : bool) (buffered : list Value) (w : World) : World :=
  w <| st ::= get_handshake_mut 1 (λ h, h <| initialized := done |>
                                           <| buffered_messages := buffered |>) |>.
Definition set_pending (init : bool) (w : World) : World :=
  w <| st ::= λ s, s <| pending := {["c1:1" := mkPending 1 (JNumber (PosInt 7)) init 0]} |> |>.

Lemma demo_connected w :
  clients (st w) = {[1%N := 0%N]} → chans w = {[0%N := mkChan [] [] true]} → connected 1 w.
Proof.
  intros Hc Hq. exists 0%N, [], []. rewrite Hc, Hq. split_and!; [done..|].
  intros c. destruct (decide (1%N = c)) as [->|Hne]; [done|]. by rewrite lookup_singleton_ne.
Qed.

Ltac connect := apply demo_connected; vm_compute; reflexivity.
Ltac room_tac := split_and!; vm_compute; (reflexivity || discriminate).

(** ** The client's side *)
Lemma request_held_witness :
  ∃ w', run (handle_client_message 1 (request "tools/list" 3) 1000) demo_world = Some (w', Ok tt) ∧
    to_server w' = [].
Proof.
  destruct (request_held_until_handshake 1 (request "tools/list" 3) (JNumber (PosInt 3)) 1000
    (mkClientHandshake 0 false false []) demo_world) as (w' & Hr & Hs & _);
    [vm_compute; (reflexivity || discriminate)..|]. exists w'. split; assumption.
Defined.


Lemma refused_requests_witness :
  ∃ w' reason, run (handle_client_message 1 (request "tools/list" 3) 10) demo_world = Some (w', Ok tt) ∧
    delivered 1 w' = [error_response (JNumber (PosInt 3)) reason].
Proof.
  destruct (refused_requests_are_answered 1 (request "tools/list" 3) (JNumber (PosInt 3)) 10 demo_world)
    as (w' & reason & Hr & Hd & _); [reflexivity|connect|reflexivity|by left|].
  exists w', reason. split; assumption.
Defined.

Lemma decode_error_witness :
  ∃ w', run (handle_client [MuxClient.Frame (Some (Err "bad json"))]) demo_start = Some (w', Err "bad json") ∧
    is_Some (clients (st w') !! 1%N).
Proof.
  destruct (decode_error_leaves_client_registered "bad json" demo_start) as (w' & cid & Hr & -> & Hc & _);
    [reflexivity|reflexivity|]. exists w'. split; assumption.
Defined.

(** ** The server's side *)
Lemma response_routed_witness :
  ∃ w', run (handle_server_message (response "c1:1")) (set_pending false demo_world) = Some (w', Ok tt) ∧
    delivered 1 w' = [set_id (response "c1:1") (JNumber (PosInt 7))].
Proof.
  destruct (response_routed_to_its_client (response "c1:1") "c1:1" (mkPending 1 (JNumber (PosInt 7)) false 0)
    (set_pending false demo_world)) as (w' & Hr & Hd & _); [reflexivity..|connect|]. exists w'. split; assumption.
Defined.

Lemma initialize_response_witness :
  ∃ w', run (handle_server_message (response "c1:1")) (set_pending true demo_world) = Some (w', Ok tt) ∧
    cached_initialize (st w') = Some (response "c1:1").
Proof.
  destruct (initialize_response_cached (response "c1:1") "c1:1" (mkPending 1 (JNumber (PosInt 7)) true 0)
    (set_pending true demo_world) 1) as (w' & Hr & Hd & _); [reflexivity..|connect|connect|]. exists w'. split; assumption.
Defined.

Lemma notification_broadcast_witness :
  ∃ w', run (handle_server_message event_msg) demo_world = Some (w', Ok tt) ∧
    delivered 1 w' = [event_msg].
Proof.
  destruct (notification_broadcast event_msg 1 demo_world) as (w' & Hr & Hd & _);
    [reflexivity|connect|exact Logic.I|]. exists w'. split; assumption.
Defined.

Lemma reaper_witness :
  ∃ w', run reap_tick (set_pending false demo_world <| now := from_secs 31 |>) = Some (w', tt) ∧
    pending (st w') !! "c1:1" = None.
Proof.
  destruct (reaper_expires_exactly_the_old 1 (set_pending false demo_world <| now := from_secs 31 |>))
    as (w' & Hr & Hp & _); [reflexivity|connect|]. exists w'. split; [assumption|].
  destruct (pending (st w') !! "c1:1") as [p|] eqn:E; [|done].
  apply Hp in E as [E Hle]. vm_compute in E. injection E as <-. vm_compute in Hle. by destruct Hle.
Defined.

Lemma reset_witness :
  ∃ w', run (route_event (ServerEvent.Reset "restart")) (set_pending false demo_world) = Some (w', tt) ∧
    pending (st w') = ∅.
Proof.
  destruct (reset_answers_everything "restart" 1 (set_pending false demo_world))
    as (w' & a & Hr & Hp & _); [reflexivity|connect|]. exists w'. split; assumption.
Defined.


(** ** The manager *)
Definition demo_manager : ServerManagerConfig := mkServerManagerConfig false 0 1000 3.
Definition crash : Incarnation := mkIncarnation (Ok (Some 42%N)) (Ok tt) [ChildExit Exited].
Definition no_binary : Incarnation := mkIncarnation (Err "not found") (Ok tt) [].

Lemma manager_delays_witness :
  ∃ n w' a k, exec (λ _ _, False) n (server_manager demo_manager [crash; no_binary]) demo_start w' a ∧
    slept w' = backoffs 0 1000 k.
Proof.
  destruct (run (server_manager demo_manager [crash; no_binary]) demo_start) as [[w' a]|] eqn:E;
    [|vm_compute in E; discriminate].
  destruct (run_exec (λ _ _, False) _ _ _ _ E) as [n He].
  destruct (manager_delays_follow_schedule (λ _ _, False) ltac:(done) demo_manager
    [crash; no_binary] n demo_start w' a ltac:(vm_compute; discriminate) He) as (k & Hk & _).
  exists n, w', a, k. split; assumption.
Defined.

(** ** The system: one task, driven as far as it goes *)
Fixpoint drive (fuel : nat) (c : config World) : config World :=
  match fuel with
  | O => c
  | S fuel => match step_at 0 c with Some c' => drive fuel c' | None => c end
  end.

Lemma drive_schedule fuel c : ∃ k, (k ≤ fuel)%nat ∧ schedule (replicate k 0%nat) c = Some (drive fuel c).
Proof.
  revert c. induction fuel as [|fuel IH]; intros c; [by exists 0%nat|]. cbn [drive].
  destruct (step_at 0 c) as [c'|] eqn:E; [|exists 0%nat; split; [lia|done]].
  destruct (IH c') as (k & Hk & Hs). exists (S k). split; [lia|]. cbn [replicate schedule]. by rewrite E.
Qed.

Lemma drive_reachable fuel p :
  mux_task p → (N.of_nat (S fuel) < U64_MAX)%N →
  ∃ n, reachable n (drive fuel (demo_start, [p])) ∧ (n ≤ S fuel)%nat.
Proof.
  intros Hp Hf. destruct (drive_schedule fuel (demo_start, [p])) as (k & Hk & Hs).
  exists (S k). split; [|lia]. exists 0%N, demo_config, true. split; [|lia].
  econstructor; [by apply (step_spawn _ _ p demo_start [])|].
  apply (schedule_nsteps mux_task mux_env) in Hs. by rewrite length_replicate in Hs.
Qed.

(** A client that completes its handshake and sends a request; the manager that gives
    up after one restart. *)
Definition demo_client : proc World unit :=
  handle_client [MuxClient.Frame (Some (Ok initialized_msg));
                 MuxClient.Frame (Some (Ok (request "tools/list" 3)))] ;;! Ret tt.
Definition client_config : config World := drive 40 (demo_start, [demo_client]).
Definition give_up_config : config World :=
  drive 60 (demo_start,
    [server_manager (mkServerManagerConfig false 0 0 1) [crash] ;;! Ret tt]).

Lemma client_config_reachable : ∃ n, reachable n client_config ∧ (n ≤ 41)%nat.
Proof. apply drive_reachable; [constructor|vm_compute; reflexivity]. Qed.
Lemma give_up_config_reachable : ∃ n, reachable n give_up_config ∧ (n ≤ 61)%nat.
Proof. apply drive_reachable; [constructor|vm_compute; reflexivity]. Qed.

Lemma global_ids_witness :
  ∃ n, reachable n client_config ∧
    pending (st client_config.1) !! format_gid 1 (next_global_id (st client_config.1)) = None.
Proof.
  destruct client_config_reachable as [n [Hr _]]. exists n. split; [assumption|].
  destruct (global_ids_are_fresh n client_config Hr) as [H _]. apply H.
Defined.

Lemma pending_follow_handshake_witness :
  ∃ n p, reachable n client_config ∧ pending (st client_config.1) !! "c1:1" = Some p ∧
    is_handshake_complete 1 (st client_config.1) = true.
Proof.
  destruct client_config_reachable as [n [Hr _]].
  assert (pending (st client_config.1) !! "c1:1" = Some (mkPending 1 (JNumber (PosInt 3)) false 0)) as Hp
    by (vm_compute; reflexivity).
  exists n, (mkPending 1 (JNumber (PosInt 3)) false 0). split; [assumption|]. split; [assumption|].
  exact (pending_requests_follow_handshake n client_config _ _ Hr Hp eq_refl).
Defined.


Lemma no_waiters_witness :
  ∃ n, reachable n client_config ∧ init_waiting (st client_config.1) = [].
Proof.
  destruct client_config_reachable as [n [Hr _]]. exists n. split; [assumption|].
  destruct (initialize_waiters_never_used n client_config Hr) as [_ H]. exact H.
Defined.

Lemma heartbeat_witness :
  ∃ n, reachable n client_config ∧ total_success (heartbeat_metrics (st client_config.1)) = 0%N.
Proof.
  destruct client_config_reachable as [n [Hr _]]. exists n. split; [assumption|].
  exact (heartbeat_never_succeeds n client_config Hr).
Defined.

Lemma freeze_witness :
  ∃ n, reachable n give_up_config ∧ lock_held give_up_config.1 = true ∧
    st give_up_config.1 = st give_up_config.1.
Proof.
  destruct give_up_config_reachable as [n [Hr Hn]]. exists n. split; [assumption|].
  assert (lock_held give_up_config.1 = true) as Hl by (vm_compute; reflexivity).
  apply (proj2 max_restarts_freezes_mux n 0 give_up_config give_up_config Hr Hl);
    [constructor|]. rewrite Nat.add_0_r. unfold U64_MAX, U64_MODULUS. lia.
Defined.



Lemma initialized_once_witness :
  ∃ n, reachable n client_config ∧ (claim_initialized (st client_config.1)).2 = false.
Proof.
  destruct client_config_reachable as [n [Hr Hn]]. exists n. split; [assumption|].
  apply (initialized_forwarded_once n 0 client_config client_config Hr);
    [vm_compute; reflexivity|constructor|].
  rewrite Nat.add_0_r. unfold U64_MAX, U64_MODULUS. lia.
Defined.

(** ** The heartbeat, the proxy, configuration, scanning and the control socket *)
Lemma average_witness :
  avg_response_ms (metrics (record_all [(0, 100); (0, 200)]%N (HeartbeatState_new HeartbeatConfig_default))) =
    Some 150%N.
Proof.
  destruct (average_over_last_ten HeartbeatConfig_default [(0, 100)]%N 0 200) as (_ & _ & H & _);
    [vm_compute; reflexivity|]. exact H.
Defined.

Lemma restart_witness :
  should_restart (Nat.iter 3 record_failure (HeartbeatState_new HeartbeatConfig_default)) = true.
Proof.
  apply (restart_after_max_failures (HeartbeatState_new HeartbeatConfig_default) 3);
    [reflexivity|vm_compute; reflexivity|vm_compute; discriminate].
Defined.

Lemma proxy_witness :
  ∃ r, run_proxy [StdinNext (Item (request "a" 1)) true; SockNext (Item (response "x")) true] proxy_init
      = Some r ∧ (pending_requests (final r) + 1 = 1)%N.
Proof.
  eexists. split; [vm_compute; reflexivity|].
  destruct (proxy_conserves_messages
    [StdinNext (Item (request "a" 1)) true; SockNext (Item (response "x")) true] _ eq_refl) as (_ & _ & H).
  apply H; vm_compute; repeat split; discriminate.
Defined.

Lemma idle_eof_witness :
  ∃ s', proxy_step (StdinNext Eof true) proxy_init = Some (Ok s') ∧ sock_out s' = [].
Proof.
  destruct (idle_eof_keeps_proxy_running proxy_init) as (s' & Hs & _ & Ho & _); [reflexivity..|].
  exists s'. split; assumption.
Defined.

Definition demo_server : ServerConfig :=
  mkServerConfig (Some "~/s.sock") (Some "npx") None None None None None None None None None
    None None None None None None None None None.
Definition demo_servers : Config := mkConfig {["memory" := demo_server]}.
Definition demo_cli (service : option string) : CliOptions :=
  mkCliOptions None None [] 5 None None None None None None "info" false None service None
    None None None None None None.

Lemma resolve_service_witness :
  ∃ p, resolve_params (Some "/home/u") (demo_cli (Some "memory")) (Some demo_servers) = Ok p.
Proof.
  apply (proj1 (resolve_service_total (Some "/home/u") (demo_cli (Some "memory")) demo_servers "memory" eq_refl)).
  vm_compute. repeat split; eexists; reflexivity.
Defined.

Lemma multi_witness :
  ∃ (names : list string) ps, resolve_params_multi (Some "/home/u") (demo_cli None) demo_servers = Ok ps ∧
    (∀ name, name ∈ names ↔ is_Some (servers demo_servers !! name) ∧ selected (demo_cli None) name = true).
Proof.
  destruct (resolve_params_multi (Some "/home/u") (demo_cli None) demo_servers) as [ps|e] eqn:E;
    [|vm_compute in E; discriminate].
  destruct (multi_resolves_the_selected (Some "/home/u") (demo_cli None) demo_servers ps E)
    as (names & _ & H & _).
  exists names, ps. split; [reflexivity|exact H].
Defined.

Definition demo_scans : list ScanResult :=
  let file k := mkHostFile k "/f" HostFormat.Json ConfigSchema.McpServersJson
                  Confidence.High true true in
  [mkScanResult (file HostKind.Claude) [mkHostService "m" "npx" [] None None None None]].

Lemma merge_names_witness : NoDup (name <$> merged_services (merge_services demo_scans)).
Proof.
  apply merge_names_distinct. intros scan svc Hs Hv.
  apply list_elem_of_singleton in Hs as ->. apply list_elem_of_singleton in Hv as ->. reflexivity.
Defined.

Lemma snippet_witness :
  ∃ v, obj_get "m" (snippet_servers demo_scans "/s" "rust-mux-proxy" []) = Some v ∧
    value_get "command" v = Some (JString "rust-mux-proxy").
Proof.
  destruct (snippet_points_to_proxy demo_scans "/s" "rust-mux-proxy" []
    (mkHostService "m" "npx" [] None None None None)) as (v & svc' & Hv & _ & _ & Hc & _).
  - vm_compute. left.
  - exists v. split; assumption.
Defined.

Definition demo_files : FileTree := <["/h/c.json" := "old"]> ∅.
Definition demo_files_after : FileTree :=
  <["/h/c.json" := "new"]> (<["/h/c.bak" := "old"]> demo_files).

Lemma backup_witness :
  write_with_backup (λ p, p) "/h/c.json" "new" false demo_files =
    Ok (demo_files_after, Some "/h/c.bak") ∧ demo_files_after !! "/h/c.bak" = Some "old".
Proof.
  assert (write_with_backup (λ p, p) "/h/c.json" "new" false demo_files =
    Ok (demo_files_after, Some "/h/c.bak")) as Hw by (vm_compute; reflexivity).
  split; [exact Hw|].
  destruct (write_with_backup_saves (λ p, p) "/h/c.json" "new" demo_files _ _ "old"
    ltac:(vm_compute; reflexivity) Hw ltac:(vm_compute; discriminate))
    as (target & Ht & _ & _ & Hb & _).
  vm_compute in Ht. injection Ht as <-. exact Hb.
Defined.

Lemma foreign_peer_witness :
  ∃ e, handle_connection (λ _, Err "x") 501 1000 0 (st demo_start) [] true [] = Some (Err e).
Proof.
  destruct (foreign_peer_refused (λ _, Err "x") 501 1000 0 (st demo_start) [] true []) as (e & H & _);
    [discriminate|]. exists e. exact H.
Defined.

Lemma verify_witness :
  ∃ v, handle_command 0 (st demo_start) demo_scans (Verify ClientKind.Claude) = Ok (RVerify v) ∧
    (vr_ok v = true ↔ vr_non_mux_servers v = []).
Proof.
  destruct (verify_lists_unmuxed 0 (st demo_start) demo_scans ClientKind.Claude HostKind.Claude
    (mkNonMuxEntry "claude" "/f" 0 "m")) as (v & H & Hok & _); [reflexivity|].
  exists v. split; assumption.
Defined.

Lemma lagged_witness :
  ∃ p, subscription (λ _, Err "x") false [Lagged] = Some p ∧ sent_responses p = [].
Proof.
  eexists. split; [reflexivity|].
  exact (lagged_subscriber_is_muted (λ _, Err "x") [] _ eq_refl).
Defined.

(** The same client 31 seconds later, with a reaper that has a tick. *)
Definition reaper_config : config World :=
  (client_config.1 <| now := from_secs 31 |>, client_config.2 ++ [reap_timeouts [true]]).

Lemma reaper_config_reachable : ∃ n, reachable n reaper_config ∧ (n ≤ 43)%nat.
Proof.
  destruct client_config_reachable as (n & (t0 & cfg & hb & Hs & Hb) & Hn).
  exists (S (S n)). split; [|lia]. exists t0, cfg, hb.
  assert (now client_config.1 = 0%N) as Hnow by (vm_compute; reflexivity).
  unfold reaper_config. destruct client_config as [w ts]. cbn [fst snd] in *. split.
  - apply nsteps_r with (w <| now := from_secs 31 |>, ts); [|apply step_spawn; constructor].
    apply nsteps_r with (w, ts); [exact Hs|]. apply step_env, env_time. rewrite Hnow. apply N.le_0_l.
  - unfold U64_MAX, U64_MODULUS. lia.
Qed.

Lemma reaped_witness :
  ∃ k, (k ≤ 2)%nat ∧ (lock_held (preferring 1 reaper_config k).1 = true ∨
    pending (st (preferring 1 reaper_config k).1) !! "c1:1" = None).
Proof.
  destruct reaper_config_reachable as (n & Hr & Hn).
  destruct (expired_requests_are_reaped (preferring 1 reaper_config) n 1 1 [] "c1:1"
    (mkPending 1 (JNumber (PosInt 3)) false 0) (preferring_runs 1 reaper_config)
    (preferring_fair 1 reaper_config) Hr) as (k & Hk & Hg).
  - reflexivity.
  - vm_compute. reflexivity.
  - vm_compute. reflexivity.
  - unfold U64_MAX, U64_MODULUS. lia.
  - exists k. split; [exact Hk|]. destruct Hg as [Hg|Hg]; [by left|right].
    apply (Hg k); [lia|]. unfold U64_MAX, U64_MODULUS. lia.
Defined.
