(* ===== verification/ToolWitnesses.v ===== *)
(** * ToolWitnesses: the properties of the operator's tools at concrete inputs

    Instances of the properties of [MuxGen], [Danger], [Launch] and [Runs]: one scanned
    file with one server, one request, one state directory. *)
From S2P Require Import Prelude Text Json Shared MuxState Paths Config Scan Rewire MuxGen.
From S2P Require Import Danger WizardServices Wizard WizardRun Shell Ipc Launch Runs.
From Stdlib Require Import Ascii.

#[local] Existing Instance reference_platform.

(** ** Generated files *)
Definition demo_service : HostService := mkHostService "m" "npx" ["-y"] None None None None.
Definition demo_merge : MergeOutcome := mkMergeOutcome [demo_service] [].
Definition demo_generator {A} (text : string) (_ : A) : option string := Some text.
Definition tool_cli : CliOptions :=
  mkCliOptions None None [] 5 None None None None None None "info" false None (Some "m") None
    None None None None None None.


Definition tool_file (k : HostKind.HostKind) (p : string) : HostFile :=
  mkHostFile k p HostFormat.Json ConfigSchema.McpServersJson Confidence.High true true.
Definition tool_scans : list ScanResult :=
  [mkScanResult (tool_file HostKind.Junie "/h/a.json") [demo_service];
   mkScanResult (tool_file HostKind.Junie "/h/b.json") [demo_service];
   mkScanResult (tool_file HostKind.Codex "/h/c.json") [demo_service]].


(** ** Rewriting in place *)
Inductive demo_toml := TomlS (s : string) | TomlA (l : list demo_toml)
| TomlT (t : list (string * demo_toml)).
Definition demo_entries (t : list (string * demo_toml)) : gmap string demo_toml := list_to_map t.

#[refine] Definition reference_toml : TomlLib := {|
  Toml := demo_toml;
  Table := list (string * demo_toml);
  toml_from_str s := if str_eqb s "t" then Some (TomlT []) else None;
  toml_to_string_pretty _ := Some "t";
  TString := TomlS;
  TArray := TomlA;
  TTable := TomlT;
  as_table v := match v with TomlT t => Some t | _ => None end;
  table_new := [];
  table_get k t := demo_entries t !! k;
  table_insert k v t := (k, v) :: t;
  table_iter t := map_to_list (demo_entries t);
|}.
Proof.
  - reflexivity.
  - intros k. apply lookup_empty.
  - intros k v t. apply lookup_insert_eq.
  - intros k k' v t Hne. apply lookup_insert_ne. exact Hne.
  - intros k v t. apply elem_of_map_to_list.
Defined.
#[local] Existing Instance reference_toml.

Definition demo_object : list (string * Value) :=
  [("mcpServers", JObject [("m", JObject [("command", JString "npx")]); ("x", JNull)]);
   ("theme", JString "dark")].
Definition demo_parse (s : string) : option Value :=
  if str_eqb s "old" then Some (JObject demo_object) else None.
Definition demo_print (_ : Value) : string := "new".

Lemma json_rewrite_witness :
  ∃ obj' new, rewrite_json_keep_other_keys demo_parse demo_print "/s" "proxy" [] "old" "/h/a.json"
      ConfigSchema.McpServersJson [demo_service] = Ok (demo_print (JObject obj'), ["rewrite `m`: npx -> proxy"]) ∧
    obj_get "theme" obj' = Some (JString "dark") ∧
    obj_get "mcpServers" obj' = Some (JObject new) ∧ obj_get "x" new = Some JNull.
Proof.
  destruct (json_rewrite_keeps_the_rest demo_parse demo_print "/s" "proxy" [] "old" "/h/a.json"
    ConfigSchema.McpServersJson [demo_service]) as (obj' & new & Hr & Hk & Hm & Ho & _).
  - vm_compute. repeat constructor; intros H; repeat (inversion H; subst; clear H; rename select (_ ∈ _) into H).
  - exists obj', new. split; [exact Hr|]. split; [rewrite Hk; [reflexivity|vm_compute; discriminate]|].
    split; [exact Hm|]. rewrite Ho; [reflexivity|vm_compute; reflexivity].
Defined.

Definition tool_files : FileTree := <["/h/a.json" := "old"]> (<["/h/b" := "b"]> ∅).
Definition tool_plan : DangerPlan :=
  plan_danger_rewrite demo_parse demo_print "/s" "proxy" [] (λ p, p) (λ _, None)
    [tool_file HostKind.Claude "/h/a.json"] tool_files.
Definition tool_result : FileTree * list DangerExecutionOutcome :=
  execute_actions (λ p, p) (actions tool_plan) (λ _, 7%N) tool_files.

Lemma tool_backups_regular o b :
  o ∈ tool_result.2 → o_backup o = Some b → regular (λ p, p) b.
Proof.
  assert (o_backup <$> tool_result.2 = [Some "/h/a.json.7.bak"]) as E by (vm_compute; reflexivity).
  intros Ho Hb. assert (o_backup o ∈ o_backup <$> tool_result.2) as Hin by (apply list_elem_of_fmap_2; exact Ho).
  rewrite E, Hb in Hin. apply list_elem_of_singleton in Hin. injection Hin as ->.
  intros t Ht. vm_compute in Ht. injection Ht as <-. reflexivity.
Qed.



Lemma rollback_commands_witness :
  ∃ o b, o ∈ tool_result.2 ∧ o_backup o = Some b ∧
    shell_words "cp -p /h/a.json.7.bak /h/a.json" = Some ["cp"; "-p"; b; o_path o].
Proof.
  assert (rollback_commands tool_result.2 = ["cp -p /h/a.json.7.bak /h/a.json"]) as E
    by (vm_compute; reflexivity).
  apply (rollback_commands_roundtrip tool_result.2).
  - rewrite E. apply list_elem_of_singleton. reflexivity.
  - assert ((λ o, (o_backup o, o_path o)) <$> tool_result.2 = [(Some "/h/a.json.7.bak", "/h/a.json")]) as E2
      by (vm_compute; reflexivity).
    intros o b Ho Hb.
    assert ((o_backup o, o_path o) ∈ (λ o, (o_backup o, o_path o)) <$> tool_result.2) as Hin
      by (apply list_elem_of_fmap; exists o; split; [reflexivity|exact Ho]).
    rewrite E2, Hb in Hin. apply list_elem_of_singleton in Hin. injection Hin as -> ->.
    split; reflexivity.
Defined.

(** ** Launching *)
Definition tool_request : LaunchRequest :=
  mkLaunchRequest LaunchKind.Workflow "claude" "it's $(rm -rf x)" LaunchRuntime.Terminal (Some "/r")
    None [] None None (Some "s1").


Definition tool_encode (c : MuxControlCommand) : option string :=
  match c with Verify _ => Some "verify" | _ => None end.
Definition tool_response : MuxControlResponse := handle_verify tool_scans ClientKind.Junie.


(** ** The board *)
Definition tool_run (id : string) : RunSnapshot :=
  mkRunSnapshot id None None None None (Some "running") None None (Some "100") None None None None None
    None ∅.
Definition tool_view : FsView := mkFsView (λ p, bool_decide (p ∈ ["/s"; "/s/runs"])) Ok (λ _, true)
  (λ _, Ok false)
  (λ p, if str_eqb p "/s/runs" then Ok [Ok "/s/runs/a.json"; Ok "/s/runs/x.txt"] else Err "missing")
  (λ p, if str_eqb p "/s/runs/a.json" then Ok "a" else Err "missing").

Lemma load_witness :
  ∃ s, load tool_view (λ t, Some (tool_run t)) (λ _, None) (λ _, None) "/s" = Ok s ∧
    run_id <$> cp_runs s = ["a"] ∧ NoDup (run_id <$> cp_runs s).
Proof.
  eexists. split; [vm_compute; reflexivity|]. split; [vm_compute; reflexivity|].
  destruct (load_shows_the_live_runs tool_view (λ t, Some (tool_run t)) (λ _, None) (λ _, None) "/s" _
    ltac:(vm_compute; reflexivity)) as [[H _]|(_ & Hnd & _)].
  - vm_compute in H. discriminate.
  - exact Hnd.
Defined.

Lemma board_witness :
  ∃ a b, render_runs (λ _, None) Some (mkControlPlaneState "/s" [tool_run "b"; tool_run "a"] [] ∅) 0 = [a; b] ∧
    run_id (snapshot a) = "a" ∧ (sort_rank (rendered_kind a) ≤ sort_rank (rendered_kind b))%N.
Proof.
  assert (∃ a b, render_runs (λ _, None) Some (mkControlPlaneState "/s" [tool_run "b"; tool_run "a"] [] ∅) 0 = [a; b]
    ∧ run_id (snapshot a) = "a") as (a & b & E & Ha) by (eexists _, _; split; vm_compute; reflexivity).
  exists a, b. split; [exact E|]. split; [exact Ha|].
  refine (proj1 (proj2 (board_order (λ _, None) Some
    (mkControlPlaneState "/s" [tool_run "b"; tool_run "a"] [] ∅) 0) 0%nat a b _ _));
    rewrite E; reflexivity.
Defined.

(** ** The wizard *)
Definition tool_around : Surroundings := mkSurroundings tool_files None [] (λ _, false).
Definition tool_args (dry : bool) : WizardArgs := mkWizardArgs None dry None ["/h/a.json"].
Definition tool_keys (l : list KeyCode) : list (Surroundings * KeyCode) :=
  (λ k, (tool_around, k)) <$> l.
Definition tool_after : Aftermath :=
  mkAftermath tool_files (Ok "CONFIRM") (λ _, 7%N) (tool_keys [Char "q"]) None (λ _ _, Err "").
Definition tool_initial : AppState :=
  initial_app (Some "/h") (λ p, p) demo_parse (λ _, None) tool_around (tool_args false).
Definition tool_pressed : list (Surroundings * KeyCode) := tool_keys [Enter; Enter; Enter; Enter].
Definition tool_end : Session :=
  match run_tui (Some "/h") (λ p, p) demo_parse demo_print (λ _, None) (demo_generator "c")
    (demo_generator "j") (demo_generator "t") tool_initial tool_pressed tool_after with
  | Some (Ok s) => s
  | _ => mkSession (blank_app WizardStep.ResultAndTray "" [] [] Strategy.Unified true) ∅ "" []
  end.

Lemma tool_end_spec :
  run_tui (Some "/h") (λ p, p) demo_parse demo_print (λ _, None) (demo_generator "c")
    (demo_generator "j") (demo_generator "t")
    (initial_app (Some "/h") (λ p, p) demo_parse (λ _, None) tool_around (tool_args false))
    tool_pressed tool_after = Some (Ok tool_end).
Proof. vm_compute. reflexivity. Qed.
Lemma tool_end_changed : s_files tool_end ≠ a_files tool_after.
Proof.
  intros E. assert (s_files tool_end !! "/h/.config/mux/config.toml" = None) as Hn by (rewrite E; reflexivity).
  vm_compute in Hn. discriminate Hn.
Qed.

Lemma wizard_witness :
  ∃ before around rest, tool_pressed = before ++ (around, Enter) :: rest.
Proof.
  destruct (wizard_acts_only_when_confirmed (Some "/h") (λ p, p) demo_parse demo_print (λ _, None)
    (demo_generator "c") (demo_generator "j") (demo_generator "t") tool_around (tool_args false)
    tool_pressed tool_after tool_end tool_end_spec (or_introl tool_end_changed))
    as (_ & before & around & rest & _ & _ & _ & Hk & _).
  exists before, around, rest. exact Hk.
Defined.

Definition tool_app : AppState :=
  let srcs := [mkSourceEntry (tool_file HostKind.Claude "/h/a.json") (SourceStatus.Ok 1) true] in
  blank_app WizardStep.SummaryConfirm "" srcs
    (build_services_for_selected_sources (Some "/h") (λ p, p) demo_parse (λ _, None) tool_around srcs)
    Strategy.AutoRewire false.

Definition tool_danger : FileTree * string * string :=
  unwrap_or (result_ok (run_danger_auto_configure (Some "/h") (λ p, p) demo_parse demo_print
    (λ _, None) tool_app (Ok " CONFIRM") (λ _, 7%N) tool_files)) (∅, "", "").
Definition tool_outcomes : list DangerExecutionOutcome :=
  (unwrap_or (result_ok (execute_plan (λ p, p)
    (shown_plan (Some "/h") (λ p, p) demo_parse demo_print (λ _, None) tool_app tool_files) true
    (λ _, 7%N) tool_files)) (∅, [])).2.

Lemma tool_outcomes_regular fs' outs o b :
  execute_plan (λ p, p) (shown_plan (Some "/h") (λ p, p) demo_parse demo_print (λ _, None)
    tool_app tool_files) true (λ _, 7%N) tool_files = Ok (fs', outs) →
  o ∈ outs → o_backup o = Some b → regular (λ p, p) b.
Proof.
  intros E Ho Hb. assert (outs = tool_outcomes) as -> by (unfold tool_outcomes; rewrite E; reflexivity).
  assert (o_backup <$> tool_outcomes = [Some "/h/a.json.7.bak"]) as Hl by (vm_compute; reflexivity).
  assert (o_backup o ∈ o_backup <$> tool_outcomes) as Hin by (apply list_elem_of_fmap_2; exact Ho).
  rewrite Hl, Hb in Hin. apply list_elem_of_singleton in Hin. injection Hin as ->.
  intros t Ht. vm_compute in Ht. injection Ht as <-. reflexivity.
Qed.


Definition tool_unified : FileTree * string :=
  unwrap_or (result_ok (run_unified_generate (Some "/h") (λ p, p) (demo_generator "c")
    (demo_generator "j") (demo_generator "t") tool_app tool_files)) (∅, "").

Lemma unified_witness :
  tool_unified.1 !! "/h/.config/mux/mcp.json" = Some "j" ∧
  ∃ config : Config, (sc_cmd <$> servers config !! "m") = Some (Some "npx") ∧
    servers config !! "other" = None.
Proof.
  split; [vm_compute; reflexivity|].
  pose proof (unified_serves_the_ticked (Some "/h") (λ p, p) (demo_generator "c")
    (demo_generator "j") (demo_generator "t") tool_app tool_files tool_unified.1 tool_unified.2
    ltac:(vm_compute; reflexivity)) as Hu.
  assert (dry_run tool_app || bool_decide (retain se_selected (app_services tool_app) = []) = false)
    as Hc by (vm_compute; reflexivity).
  rewrite Hc in Hu. destruct Hu as (o & config & json & toml & _ & _ & _ & Hs & _).
  exists config. split.
  - specialize (Hs "m").
    assert (command <$> chosen tool_app "m" = Some "npx") as Hm by (vm_compute; reflexivity).
    destruct (chosen tool_app "m"); [|discriminate]. destruct (servers config !! "m"); [|discriminate].
    simpl in *. congruence.
  - specialize (Hs "other").
    assert (chosen tool_app "other" = None) as Hn by (vm_compute; reflexivity).
    rewrite Hn in Hs. destruct (servers config !! "other"); [discriminate|reflexivity].
Defined.
