(* ===== verification/ConsoleWitnesses.v ===== *)
(** * ConsoleWitnesses: the properties of the operator console at concrete inputs

    One run with a report, a state directory that a marker is written to, one command
    that starts a session. *)
From S2P Require Import Prelude Text Json Shared MuxState Paths Disk Ipc Launch Runs Summaries Prisms.
From S2P Require Import ConsoleConfig ConsoleApp ConsoleLaunch Console ConsoleProps.
From Stdlib Require Import Ascii.

#[local] Existing Instance reference_platform.

(** ** The command line *)
Definition demo_options : CliOptions :=
  mkCliOptions (Some "/s") None (Some "/w") (Some LaunchRuntime.Headless) None 100 true.
Lemma arguments_witness :
  arguments_of demo_options =
    ["--state-root"; "/s"; "--root"; "/w"; "--runtime"; "headless"; "--tick-ms"; "100"; "--no-verify-gate"] ∧
  parse_args default_options (arguments_of demo_options) = Ok (Start demo_options).
Proof.
  split; [vm_compute; reflexivity|].
  exact (proj1 (arguments_roundtrip demo_options ltac:(vm_compute; reflexivity))).
Defined.

(** ** The mux's status file *)
Definition demo_snapshot : StatusSnapshot :=
  {| snap_service_name := "m"; snap_name := "m"; snap_server_status := ServerStatus.Running;
     snap_status_text := ""; snap_level := StatusLevel.Ok; snap_restarts := 2; snap_connected_clients := 1;
     snap_active_clients := 1; snap_max_active_clients := 5; snap_pending_requests := 0;
     snap_cached_initialize := true; snap_initializing := false; snap_last_reset := None;
     snap_queue_depth := 0; snap_child_pid := Some 7%N; snap_max_request_bytes := 1024;
     snap_health_status := ServerStatus.Running; snap_heartbeat_latency_ms := None;
     snap_heartbeat := mkHeartbeatMetrics false None None None 0 0 0; snap_uptime_ms := 0;
     snap_in_backoff := false; snap_restart_backoff_ms := 1000; snap_restart_backoff_max_ms := 30000;
     snap_max_restarts := 5 |}.
Lemma demo_snapshot_sized : machine_sized demo_snapshot.
Proof.
  split; [repeat constructor|]. intros pid Hp. injection Hp as <-. vm_compute. reflexivity.
Defined.
Lemma status_file_witness :
  ∃ text, write_status_file id (λ _, "text") "/h/m.json" demo_snapshot ∅ !! "/h/m.json" = Some text ∧
    from_json (λ _, Some (ser_snapshot demo_snapshot)) text =
      Ok (mirror demo_snapshot MuxServerStatus.Running).
Proof.
  destruct (console_reads_what_the_mux_wrote id (λ _, "text") (λ _, Some (ser_snapshot demo_snapshot))
    "/h/m.json" demo_snapshot ∅ eq_refl demo_snapshot_sized ltac:(vm_compute; discriminate))
    as ((text & Ht & Hj) & _).
  exists text. split; [exact Ht|exact Hj].
Defined.

Lemma subscriber_witness :
  ∃ s, subscriber_run (λ _, None) subscriber_start (Served true [] :: replicate 10 Refused ++ [Refused]) =
      (s, [Refused]) ∧
    forwarded s = (Served true [] :: replicate 10 Refused) ≫= served_events (λ _, None).
Proof.
  eexists. split; [vm_compute; reflexivity|].
  destruct (subscriber_gives_up_after_ten (λ _, None) (Served true [] :: replicate 10 Refused ++ [Refused])
    _ _ ltac:(vm_compute; reflexivity)) as (made & E & Hf & _).
  apply (app_inj_tail (Served true [] :: replicate 10 Refused) made) in E as [E _].
  rewrite Hf, <- E. reflexivity.
Defined.

(** ** Launching *)
Definition demo_session : LaunchCommand := mkLaunchCommand "zellij" ["--session"; "x"] [].
Definition demo_probe : LaunchReadinessProbe :=
  mkLaunchReadinessProbe "zellij" ["list-sessions"; "--short"; "--no-formatting"] [] "x".
Definition demo_output (text : string) : result string Output := Ok (mkOutput true "exit status: 0" text "").
(** The session shows in the third probe. *)
Definition demo_history : ChildHistory :=
  mkChildHistory (λ i, mkTurn (demo_output (if bool_decide (i = 2%nat) then "x" else "")) StillRunning 3)
    (demo_output "").

Definition demo_suspension : Suspension := mkSuspension (Ok tt) (Ok tt) (Ok demo_history) (Ok tt) (Ok tt).
Lemma success_witness :
  suspend_and_run demo_session demo_suspension = Some (Ok tt) ∧ enter_screen demo_suspension = Ok tt.
Proof.
  split; [vm_compute; reflexivity|].
  destruct (success_was_seen demo_session demo_probe demo_suspension eq_refl
    ltac:(vm_compute; reflexivity)) as (_ & _ & H & _).
  exact H.
Defined.

(** ** The console *)
Definition demo_run (id : string) : option RunSnapshot :=
  Some (mkRunSnapshot id None None None None (Some "running") None None None None (Some "/w") None
          (Some "/w/r.md") None None ∅).
Definition demo_marker : Value :=
  JObject (obj_of_list [("run_id", JString "a"); ("archived_by", JString "vc-operator");
                        ("archived_at", JString "now")]).
Definition demo_json (text : string) : option Value :=
  if str_eqb text "marker" then Some demo_marker else None.
Definition demo_disk (archived : bool) : Disk :=
  let files := ["/s/runs/a.json"; "/w/r.md"] ++ (if archived then ["/s/runs/.archived/a.json"] else []) in
  let dirs := ["/s"; "/s/runs"; "/w"] ++ (if archived then ["/s/runs/.archived"] else []) in
  let kind p := if bool_decide (p ∈ files) then Ok FileKind.File
                else if bool_decide (p ∈ dirs) then Ok FileKind.Dir else Err "missing" in
  {| lstat := kind; stat := kind;
     canonicalize_path p := match kind p with Ok _ => Ok p | Err e => Err e end;
     list_dir p := if str_eqb p "/s/runs" then Ok [Ok "/s/runs/a.json"]
                   else if str_eqb p "/s/runs/.archived" && archived then Ok [Ok "/s/runs/.archived/a.json"]
                   else Err "missing";
     read_text p := if str_eqb p "/s/runs/a.json" then Ok "a"
                    else if str_eqb p "/w/r.md" then Ok "done"
                    else if str_eqb p "/s/runs/.archived/a.json" && archived then Ok "marker"
                    else Err "missing";
     modified p := None |}.
(** The marker is on the disk from the moment it was written. *)
Definition demo_world (deeds : list Deed) : Outside :=
  mkOutside (demo_disk (any (λ x, match x with WriteFile _ _ => true | _ => false end) deeds))
    (λ _, None) 0 (λ _, Ok tt) (λ _ _, Ok tt) false (λ _, None) (λ _, Ok 1%N)
    (λ _, demo_suspension) (λ _, Ok tt).
Definition demo_config : AppConfig :=
  mkAppConfig "/s" "vibecrafted" "/w" LaunchRuntime.Terminal "zellij" 250 false.
Definition demo_console : Console :=
  open_console (λ _, None) Some demo_run (λ _, None) demo_json demo_world demo_config (Ok tt).
Definition demo_archived : Console :=
  (archive_selected_run (λ _, None) Some (λ _, "now") demo_run (λ _, None) demo_json (λ _, "marker")
     demo_world demo_console).1.

Lemma demo_marked : marked (demo_world (log demo_archived)) "/s" "marker".
Proof.
  exists "/s", [Ok "/s/runs/.archived/a.json"], "/s/runs/.archived/a.json", "/s/runs/.archived/a.json".
  split_and!; try (vm_compute; reflexivity). by left.
Qed.
Definition demo_rendered : RenderedRun :=
  match demo_run "a" with
  | Some s => mkRenderedRun s RunKind.Active "age unknown" []
  | None => mkRenderedRun (mkRunSnapshot "" None None None None None None None None None None None None None None ∅)
              RunKind.Unknown "" []
  end.
Lemma demo_selected : selected_run (app demo_console) = Some demo_rendered.
Proof. vm_compute. reflexivity. Qed.
Lemma demo_archive_spec :
  archive_selected_run (λ _, None) Some (λ _, "now") demo_run (λ _, None) demo_json (λ _, "marker")
    demo_world demo_console = (demo_archived, Ok tt).
Proof. vm_compute. reflexivity. Qed.

Definition demo_controls : Console := on_app (λ a, set_active_tab a AppTab.Controls) demo_console.
Definition enter_event : KeyEvent := mkKeyEvent Key.Enter false.
Lemma viewer_witness :
  active_tab (app demo_controls) = AppTab.Controls ∧
  opened demo_world demo_controls
    (app_artifact_lines (app (handle_key (λ _, None) Some (λ _, "now") demo_run (λ _, None) demo_json
       (λ _, "marker") (λ _, None) (λ _, None) demo_world enter_event demo_controls).1)).
Proof.
  exact (proj2 (viewer_stays_inside_the_run (λ _, None) Some (λ _, "now") demo_run (λ _, None) demo_json
    (λ _, "marker") (λ _, None) (λ _, None) demo_world enter_event demo_controls
    ltac:(vm_compute; discriminate) ltac:(vm_compute; reflexivity))).
Defined.
