(* ===== verification/TrayWitnesses.v ===== *)
(** * TrayWitnesses: the properties of the menu bar agent at concrete inputs *)
From S2P Require Import Prelude Text Shared Ipc Tray.
From Stdlib Require Import Ascii.

(** An empty picture of the size the icon has. *)
Definition empty_icon : list N := replicate (N.to_nat (ICON_SIZE * ICON_SIZE * 4)) 0%N.
Lemma icon_witness :
  ∃ rgba, draw_status_glyph empty_icon ICON_SIZE ICON_SIZE TrayStatus.Failed = Some rgba ∧
    pixel ICON_SIZE rgba (36, 36)%Z = [Some 255; Some 50; Some 50; Some 255]%N ∧
    pixel ICON_SIZE rgba (0, 0)%Z = [Some 0; Some 0; Some 0; Some 0]%N.
Proof.
  destruct (icon_is_painted_inside ICON_SIZE ICON_SIZE empty_icon TrayStatus.Failed
    ltac:(vm_compute; discriminate) ltac:(vm_compute; reflexivity)) as [(rgba & Hd & _ & Hp) _].
  exists rgba. split; [exact Hd|]. split.
  - etransitivity; [apply (Hp 36 36)%Z; unfold inside, ICON_SIZE; cbn; lia|]. vm_compute. reflexivity.
  - etransitivity; [apply (Hp 0 0)%Z; unfold inside, ICON_SIZE; cbn; lia|]. vm_compute. reflexivity.
Defined.
