(* ===== verification/RunnerWitnesses.v ===== *)
(** * RunnerWitnesses: starting, looking at and drawing muxes at concrete inputs

    Instances of the properties of [Endpoints], [ScanCmd], [Runner], [Agents] and
    [WizardScreen]: the wizard's example of [ToolWitnesses], one command line, one mux. *)
From S2P Require Import Prelude Text Json Proc Shared MuxState MuxWorld MuxClient MuxServer.
From S2P Require Import Heartbeat MuxSystem Status Paths Config Scan Rewire MuxGen Wizard.
From S2P Require Import Danger WizardServices WizardRun Ipc Summaries Endpoints Wire ScanCmd Runner.
From S2P Require Import Screen WizardScreen Tray Agents ToolWitnesses.
From Stdlib Require Import Ascii.

#[local] Existing Instance reference_platform.
#[local] Existing Instance reference_toml.
#[local] Existing Instance stacked_layout.

(** ** The command line *)
Definition witness_level (s : string) : option unit := if str_eqb s "info" then Some tt else None.
Definition witness_cli : Cli := Cli_default <| c_socket := Some "/s" |> <| c_cmd := Some "npx" |>.
Definition codex_files : FileTree := <["/h/.codex/mcp.json" := "{}"]> ∅.

Lemma explicit_command_witness :
  (∃ p, start (Some "/h") id (λ _, None) (λ _, None) (λ _, Some (mkConfig ∅)) witness_level witness_cli ∅ =
      Ok (RunMux p tt) ∧ rp_cmd p = "npx") ∧
  start (Some "/h") id (λ _, None) (λ _, None) (λ _, Some (mkConfig ∅)) witness_level witness_cli codex_files =
    Err "--service is required when using --config".
Proof.
  assert (load (Some "/h") id (λ _, None) (λ _, None) (λ _, Some (mkConfig ∅)) witness_cli ∅ = Ok None) as Hn
    by (vm_compute; reflexivity).
  assert (load (Some "/h") id (λ _, None) (λ _, None) (λ _, Some (mkConfig ∅)) witness_cli codex_files =
    Ok (Some (mkConfig ∅))) as Hs by (vm_compute; reflexivity).
  split.
  - pose proof (explicit_command_needs_no_config (Some "/h") id (λ _, None) (λ _, None)
      (λ _, Some (mkConfig ∅)) witness_level witness_cli ∅ "/s" "npx" tt eq_refl eq_refl eq_refl eq_refl eq_refl
      eq_refl eq_refl ltac:(vm_compute; reflexivity)) as H.
    rewrite Hn in H. destruct H as (p & Hp & _ & Hc & _). exists p. split; assumption.
  - pose proof (explicit_command_needs_no_config (Some "/h") id (λ _, None) (λ _, None)
      (λ _, Some (mkConfig ∅)) witness_level witness_cli codex_files "/s" "npx" tt eq_refl eq_refl eq_refl eq_refl
      eq_refl eq_refl eq_refl ltac:(vm_compute; reflexivity)) as H.
    rewrite Hs in H. exact H.
Defined.

(** ** From the wizard to the daemon *)
#[local] Instance ServerConfig_eq_dec : EqDecision ServerConfig.
Proof. solve_decision. Defined.
#[local] Instance Config_eq_dec : EqDecision Config.
Proof. solve_decision. Defined.

Definition ticked_config : Config :=
  mkConfig {["m" := manifest_entry "/h/.config/mux/sockets" (default demo_service (chosen tool_app "m"))]}.
Definition ticked_to_toml (c : Config) : option string :=
  if decide (c = ticked_config) then Some "c" else None.
Definition ticked_files : FileTree * string :=
  unwrap_or (result_ok (run_unified_generate (Some "/h") (λ p, p) ticked_to_toml
    (demo_generator "j") (demo_generator "t") tool_app tool_files)) (∅, "").

Lemma tray_daemon_witness :
  ticked_files.1 !! "/h/.config/mux/config.toml" = Some "c" ∧
  ∃ ps, start (Some "/h") (λ p, p) (λ _, None) (λ _, Some ticked_config) (λ _, None) witness_level
      (tray_cli "/h/.config/mux/config.toml") ticked_files.1 = Ok (RunMuxMulti ps tt).
Proof.
  split; [vm_compute; reflexivity|].
  destruct (tray_daemon_runs_the_ticked (Some "/h") (λ p, p) (λ _, None) (λ _, Some ticked_config)
    (λ _, None) witness_level ticked_to_toml (demo_generator "j") (demo_generator "t") tool_app tool_files
    ticked_files.1 ticked_files.2 tt) as (_ & ps & _ & Hs & _).
  - vm_compute. reflexivity.
  - reflexivity.
  - vm_compute. discriminate.
  - vm_compute. repeat constructor; set_solver.
  - reflexivity.
  - intros config text. unfold ticked_to_toml. destruct (decide (config = ticked_config)) as [->|]; [|discriminate].
    intros _. reflexivity.
  - reflexivity.
  - exists ps. exact Hs.
Defined.

(** ** The wizard's summary and what it announces *)
Lemma summary_witness :
  tool_danger.1.1 !! "/h/a.json" ≠ tool_files !! "/h/a.json" ∧
  ∃ p, p = "/h/a.json" ∧ announced (mkRect 0 0 100 30) (Some "/h") tool_app p.
Proof.
  assert (tool_danger.1.1 !! "/h/a.json" ≠ tool_files !! "/h/a.json") as Hne by (vm_compute; discriminate).
  split; [exact Hne|].
  refine (summary_announces_the_changes (mkRect 0 0 100 30) (Some "/h") (λ p, p) demo_parse demo_print
    (λ _, None) (demo_generator "c") (demo_generator "j") (demo_generator "t") tool_app tool_after
    tool_danger.1.1 tool_danger.1.2 tool_danger.2 "/h/a.json" eq_refl _ _ _ _ Hne).
  - discriminate.
  - vm_compute. reflexivity.
  - apply tool_outcomes_regular.
  - left. eexists. vm_compute. reflexivity.
Defined.

(** ** The scanned manifest *)
Definition scan_files : FileTree := <["/h/.claude.json" := "old"]> ∅.
Definition scan_args : ScanArgs := mkScanArgs (Some "/h/m.toml") "toml" None "toml" "~/s" false.
Definition scan_found : list ScanResult := scan_hosts (Some "/h") (λ p, p) demo_parse (λ _, None) scan_files.
Definition scan_config : Config := build_manifest scan_found "/h/s".
Definition scan_service : HostService := mkHostService "m" "npx" [] None None None None.
Definition scan_run : FileTree * list string * result string unit :=
  run_scan_cmd (Some "/h") (λ p, p) demo_parse demo_print (λ _, None) (λ _, None) (λ _, None)
    (λ _, None) (λ _, None) (demo_generator "c") scan_args scan_files.


(** ** Muxes *)
Definition run_params : ResolvedParams := check_health_params "/h/a.sock".
Definition run_outside : Outside := mkOutside 1 [] [] [].


Definition all_rights : Rights := mkRights (λ _, Ok tt) (λ _, true) (λ _, true).
Definition two_muxes : list ResolvedParams := [check_health_params "/h/a.sock"; check_health_params "/h/b.sock"].


(** ** Asking from outside *)
Definition asked_state : MuxState := new (mkMuxStateConfig 5 "d" 1000 0 0 0 1 0 None None).
Definition asked_status : StatusState := mkStatusState {["d" := mkServerRef "d" asked_state 5 5]} 0.

Definition asked_verify : VerifyResult :=
  match handle_verify tool_scans ClientKind.Junie with RVerify v => v | _ => mkVerifyResult true [] end.
(** The values of one conversation, and a text for each: its number. *)
Definition asked_values : list Value :=
  (ser_command <$> [GetStatus; RouteSnapshot; Verify ClientKind.Junie; RestartService "d"]) ++
  (ser_response <$> [RStatus (snapshot_for_state 0 asked_state 5); RRoutes []; RVerify asked_verify;
                     RUnimplemented]).
Definition asked_print (v : Value) : string :=
  from_option (λ n, pretty (N.of_nat n)) "?" (position (λ x, bool_decide (x = v)) asked_values).
Definition asked_read (s : string) : option Value :=
  n ← position (λ n, str_eqb (pretty (N.of_nat n)) s) (seq 0 8); asked_values !! n.

Lemma asked_sized : snapshot_sized (snapshot_for_state 0 asked_state 5).
Proof.
  split; split.
  - repeat (apply Forall_cons; split; [vm_compute; reflexivity|]). constructor.
  - intros pid Hpid. discriminate Hpid.
  - vm_compute. reflexivity.
  - intros n Hn. discriminate Hn.
  - split_and!; intros n Hn; discriminate Hn.
  - split_and!; vm_compute; reflexivity.
Qed.
Lemma asked_texts : Forall (text_ok asked_print asked_read) asked_values.
Proof.
  repeat (apply Forall_cons; split; [split; vm_compute; [set_solver|discriminate|reflexivity]|]).
  constructor.
Qed.

Lemma shell_agent_witness :
  ffi_verify_client (wire_decode asked_read)
    (λ _, wire_answer asked_print asked_read id 7 0 asked_state tool_scans true)
    (Some "/h/c.sock") FfiClientKind.Junie =
  Ok (mkFfiVerifyResult FfiClientKind.Junie false "2 non-mux").
Proof.
  destruct (shell_agent_shows_the_mux asked_print asked_read id 7 0 asked_state
    tool_scans true "/h/c.sock" FfiClientKind.Junie "d" asked_verify) as (_ & _ & Hv & _).
  - vm_compute. reflexivity.
  - exact asked_sized.
  - exact asked_texts.
  - refine (eq_trans Hv _). vm_compute. reflexivity.
Defined.

Definition asked_report : DaemonStatus := collect_status "0.1" 7 asked_status.
Lemma asked_report_sized : report_sized asked_report.
Proof.
  assert (∀ s, s ∈ ds_servers asked_report → server_sized s) as Hs.
  { intros s Hs. vm_compute in Hs. apply list_elem_of_singleton in Hs as ->.
    split; [repeat constructor|discriminate]. }
  split; [repeat constructor|apply Forall_forall; exact Hs].
Qed.
Lemma status_query_witness :
  query_status (λ _, Some (ser_report asked_report))
    (handle_status_connection (λ _, "text") "0.1" 7 asked_status) = Ok asked_report ∧
  ds_server_count asked_report = 1%N.
Proof.
  split; [|vm_compute; reflexivity].
  refine (status_query_gets_the_report (λ _, "text") (λ _, Some (ser_report asked_report)) "0.1" 7 asked_status
    asked_report_sized _ _).
  - vm_compute. set_solver.
  - reflexivity.
Defined.
