(* ===== verification/Testing.v ===== *)
(** * Testing: the repository's own tests, run on the model

    The tests of the Rust sources are translated into boolean definitions: the set-up
    becomes a value of the model's state, a call becomes the call of the definition that
    models it, and every assertion a conjunct.  That they all evaluate to [true] says that
    the model answers as the program's authors expect of the program.  The files
    [RuntimeTests], [ToolTests], [WizardTests], [ConsoleTests], [BoardTests] and
    [AgentTests] have the tests. *)
From S2P Require Import Prelude Text Json Proc.
From Stdlib Require Import Ascii.

Definition assert_eq {A} `{EqDecision A} (a b : A) : bool := bool_decide (a = b).
Definition assert_ne {A} `{EqDecision A} (a b : A) : bool := negb (assert_eq a b).

(** [.expect(..)] and [.unwrap()] of what the rest of a test looks at. *)
Definition expect {A} (o : option A) (k : A → bool) : bool :=
  match o with Some a => k a | None => false end.
Definition expect_ok {E A} (r : result E A) (k : A → bool) : bool :=
  match r with Ok a => k a | Err _ => false end.
Definition expect_err {E A} (r : result E A) (k : E → bool) : bool :=
  match r with Err e => k e | Ok _ => false end.

Definition succeeds {E A} (r : result E A) : bool := expect_ok r (λ _, true).

(** A test that lets one task run to its end. *)
Definition expect_run {W A} (p : proc W A) (w : W) (k : W → A → bool) : bool :=
  match run p w with Some (w, a) => k w a | None => false end.

(** A suite passes if no test of it fails. *)
Definition failures (suite : list (string * bool)) : list string :=
  fst <$> filter (λ t, t.2 = false) suite.

(** Assertions on JSON values read better with short literals. *)
Definition num (n : N) : Value := JNumber (PosInt n).
Definition obj (l : list (string * Value)) : Value := JObject (obj_of_list l).

(** [str::ends_with]. *)
Definition has_suffix (suffix s : string) : bool :=
  str_eqb (String.substring (String.length s - String.length suffix) (String.length suffix) s) suffix.

(** ** JSON texts

    The tests write their inputs as JSON text.  This reader and writer stand for
    [serde_json] there, on the part of JSON that the tests use: whole numbers, and strings
    in which a backslash only quotes the character after it. *)
Definition is_space (c : ascii) : bool :=
  bool_decide (c ∈ [" "%char; newline; ascii_of_N 9; ascii_of_N 13]).
Fixpoint skip_spaces (s : string) : string :=
  match s with
  | String c r => if is_space c then skip_spaces r else s
  | EmptyString => s
  end.
Fixpoint read_string (s : string) : option (string * string) :=
  match s with
  | EmptyString => None
  | String c s =>
      if bool_decide (c = dquote) then Some ("", s)
      else if bool_decide (c = backslash) then
        match s with
        | String e s => r ← read_string s;
            Some (String (if bool_decide (e = "n"%char) then newline else e) r.1, r.2)
        | EmptyString => None
        end
      else r ← read_string s; Some (String c r.1, r.2)
  end.
Fixpoint read_digits (s : string) : string * string :=
  match s with
  | String c r =>
      if is_ascii_digit c then let '(a, b) := read_digits r in (String c a, b) else ("", s)
  | EmptyString => ("", "")
  end.
Definition expect_char (c : ascii) (s : string) : option string :=
  match skip_spaces s with
  | String x r => if bool_decide (x = c) then Some r else None
  | EmptyString => None
  end.
Definition read_word (s : string) : option (Value * string) :=
  match strip_prefix "true" s, strip_prefix "false" s, strip_prefix "null" s with
  | Some r, _, _ => Some (JBool true, r)
  | _, Some r, _ => Some (JBool false, r)
  | _, _, Some r => Some (JNull, r)
  | _, _, _ =>
      let '(d, r) := read_digits s in
      n ← parse_digits d; Some (JNumber (PosInt n), r)
  end.

(** One value, the rest of an array, the rest of an object. *)
Fixpoint read_value (fuel : nat) (s : string) : option (Value * string) :=
  match fuel with
  | O => None
  | S fuel =>
      match skip_spaces s with
      | String c r =>
          if bool_decide (c = dquote) then t ← read_string r; Some (JString t.1, t.2)
          else if bool_decide (c = "["%char) then
            match expect_char "]" r with
            | Some r => Some (JArray [], r)
            | None => t ← read_items fuel r; Some (JArray t.1, t.2)
            end
          else if bool_decide (c = "{"%char) then
            match expect_char "}" r with
            | Some r => Some (JObject [], r)
            | None => t ← read_members fuel [] r; Some (JObject t.1, t.2)
            end
          else read_word (String c r)
      | EmptyString => None
      end
  end
with read_items (fuel : nat) (s : string) : option (list Value * string) :=
  match fuel with
  | O => None
  | S fuel =>
      v ← read_value fuel s;
      match expect_char "," v.2, expect_char "]" v.2 with
      | Some r, _ => t ← read_items fuel r; Some (v.1 :: t.1, t.2)
      | None, Some r => Some ([v.1], r)
      | None, None => None
      end
  end
with read_members (fuel : nat) (m : list (string * Value)) (s : string) :
    option (list (string * Value) * string) :=
  match fuel with
  | O => None
  | S fuel =>
      s ← expect_char dquote s; k ← read_string s;
      s ← expect_char colon k.2; v ← read_value fuel s;
      let m := obj_insert k.1 v.1 m in
      match expect_char "," v.2, expect_char "}" v.2 with
      | Some r, _ => read_members fuel m r
      | None, Some r => Some (m, r)
      | None, None => None
      end
  end.

(** A text is one value with spaces around it. *)
Definition json_parse (s : string) : option Value :=
  v ← read_value (S (String.length s)) s;
  if str_is_empty (skip_spaces v.2) then Some v.1 else None.

Definition quoted (s : string) : string :=
  String dquote (replace_char dquote (String backslash (String dquote ""))
    (replace_char backslash (String backslash (String backslash "")) s) +:+ String dquote "").
Fixpoint json_print (v : Value) : string :=
  match v with
  | JNull => "null"
  | JBool b => if b then "true" else "false"
  | JNumber (PosInt n) => pretty n
  | JNumber (NegInt z) => pretty z
  | JNumber (Float bits) => "float" +:+ pretty bits
  | JString s => quoted s
  | JArray l => "[" +:+ join ", " (json_print <$> l) +:+ "]"
  | JObject m => "{" +:+ join ", " ((λ kv, quoted kv.1 +:+ ": " +:+ json_print kv.2) <$> m) +:+ "}"
  end.

(** The texts below are written with single quotes for the double ones. *)
Definition q (s : string) : string := replace_char squote (String dquote "") s.

Example json_parse_reads : json_parse (q "{'a': [1, true, null], 'b': {'c': 'x y'}}") =
  Some (obj [("a", JArray [num 1; JBool true; JNull]); ("b", obj [("c", JString "x y")])]).
Proof. by_compute. Qed.
Example json_parse_print :
  let v := obj [("a", JArray [num 1; JBool true; JNull]); ("b", obj [("c", JString (q "x 'y'"))])] in
  json_parse (json_print v) = Some v.
Proof. by_compute. Qed.

(** [v.get(a).and_then(|v| v.get(b))...]. *)
Fixpoint value_at (keys : list string) (v : Value) : option Value :=
  match keys with
  | [] => Some v
  | k :: keys => v ← value_get k v; value_at keys v
  end.
Definition str_at (keys : list string) (v : Value) : option string := v ← value_at keys v; as_str v.
