(* ===== verification/RuntimeTests.v ===== *)
(** * RuntimeTests: the tests of the mux, run on the model

    [runtime/tests.rs] and the test modules of [state.rs], [multi.rs], [config.rs],
    [runtime/heartbeat.rs], [runtime/status.rs] and [ipc/server.rs], each as a definition
    of the test's name.  Left out are those that need a socket of the operating system or
    a serializer of another crate and nothing else. *)
From S2P Require Import Prelude Text Json Proc Shared MuxState MuxWorld MuxClient MuxServer.
From S2P Require Import Heartbeat Status Paths Config Scan Ipc Summaries Endpoints Wire Runner Testing.

#[local] Existing Instance reference_platform.

(** ** [runtime/tests.rs] *)
Definition TestCli : CliOptions :=
  mkCliOptions None None [] 5 None None None None None None "info" false None None None
    None None None None None None.

(** The state with what the tests make beside it: a semaphore of [max] permits and the
    watch channel with a first snapshot. *)
Definition test_state_with_max (max : N) : World :=
  let s := new (mkMuxStateConfig max "test" 1048576 (from_secs 30) (from_secs 1) (from_secs 30)
                  5 0 None None) in
  mkWorld s false ∅ 0%N [] true max (Some (snapshot_for_state 0 s 0)) [] [] [] [] [] [] 0 false.
Definition test_state : World := test_state_with_max 5.

Definition capture_client (w : World) : World * N :=
  let '(w, tx) := unbounded_channel w in
  let '(s, id) := register_client (now w) tx (st w) in
  (w <| st := s |>, id).

(** [rx.recv().await]: the first message to a client. *)
Definition recv (cid : N) (w : World) : option Value := head (delivered cid w).
Definition insert_test_pending (gid : string) (p : Pending) (w : World) : World :=
  w <| st ::= λ s, s <| pending ::= <[gid := p]> |> |>.
Definition push_waiting (cv : N * Value) (w : World) : World :=
  w <| st ::= λ s, s <| init_waiting ::= λ l, l ++ [cv] |> |>.
Definition error_message (v : Value) : option Value := value_get "error" v ≫= value_get "message".

Definition params_with_socket (socket : string) : ResolvedParams := {|
  rp_socket := socket; rp_cmd := "echo"; rp_args := []; rp_cwd := None; rp_env := Some ∅;
  rp_max_clients := 5; rp_tray_enabled := false; rp_log_level := "info";
  rp_service_name := "test"; rp_lazy_start := false; rp_max_request_bytes := 1048576;
  rp_request_timeout := from_secs 30; rp_restart_backoff := from_secs 1;
  rp_restart_backoff_max := from_secs 30; rp_max_restarts := 3; rp_status_file := None;
  rp_heartbeat_interval := from_secs 30; rp_heartbeat_timeout := from_secs 30;
  rp_heartbeat_max_failures := 3; rp_heartbeat_enabled := false;
|}.

Definition set_id_updates_object : bool :=
  let o := set_id (obj [("id", JString "old")]) (JString "new") in
  assert_eq (value_get "id" o) (Some (JString "new")).

Definition error_response_has_code_and_message : bool :=
  let resp := error_response (num 1) "boom" in
  assert_eq (value_get "id" resp) (Some (num 1)) &&
  assert_eq (error_message resp) (Some (JString "boom")).

Definition initialize_response_is_cached_and_fanned_out : bool :=
  let '(w, cid1) := capture_client test_state in
  let '(w, cid2) := capture_client w in
  let w := insert_test_pending "g1" (mkPending cid1 (JString "loc1") true (now w)) w in
  let w := push_waiting (cid2, JString "loc2") w in
  let w := w <| st ::= λ s, s <| initializing := true |> |> in
  let server_msg := obj [("id", JString "g1"); ("result", obj [("ok", JBool true)])] in
  expect_run (handle_server_message server_msg) w (λ w r,
    succeeds r &&
    expect (recv cid1 w) (λ m1, assert_eq (value_get "id" m1) (Some (JString "loc1"))) &&
    expect (recv cid2 w) (λ m2, assert_eq (value_get "id" m2) (Some (JString "loc2"))) &&
    is_some (cached_initialize (st w)) && negb (initializing (st w)) &&
    bool_decide (init_waiting (st w) = [])).

Definition non_initialize_response_routed_without_caching : bool :=
  let '(w, cid1) := capture_client test_state in
  let w := insert_test_pending "g2" (mkPending cid1 (num 7) false (now w)) w in
  expect_run (handle_server_message (obj [("id", JString "g2"); ("result", num 123)])) w (λ w r,
    succeeds r &&
    expect (recv cid1 w) (λ msg, assert_eq (value_get "id" msg) (Some (num 7))) &&
    is_none (cached_initialize (st w))).

Definition reset_state_broadcasts_errors : bool :=
  let '(w, cid1) := capture_client test_state in
  let '(w, cid2) := capture_client w in
  let w := insert_test_pending "g3" (mkPending cid1 (num 1) false (now w)) w in
  let w := push_waiting (cid2, num 2) w in
  expect_run (reset_state "reset") w (λ w _,
    expect (recv cid1 w) (λ m1, assert_eq (error_message m1) (Some (JString "reset"))) &&
    expect (recv cid2 w) (λ m2, assert_eq (error_message m2) (Some (JString "reset")))).

Definition expand_path_expands_home : bool :=
  let home := "/home/me" in
  assert_eq (expand_path (Some home) "~/socket.sock") (path_join home "socket.sock").

(** The three texts of the test describe the same configuration; [true] stands for a
    parser that reads it. *)
Definition load_config_parses_json_yaml_toml : bool :=
  let parse (_ : string) := Some Config_default in
  let fs : FileTree := {["/b/c.json" := "{}"; "/b/c.yaml" := "servers:"; "/b/c.toml" := "[servers.s]"]} in
  let loads p := expect_ok (load_config id parse parse parse p fs) is_some in
  loads "/b/c.json" && loads "/b/c.yaml" && loads "/b/c.toml".

Definition load_config_missing_returns_none : bool :=
  let parse (_ : string) := Some Config_default in
  expect_ok (load_config id parse parse parse "/b/nope.json" ∅) is_none.

(** A service with a socket and a command, the other settings open. *)
Definition bare_service (socket cmd : string) : ServerConfig :=
  mkServerConfig (Some socket) (Some cmd) None None None None None None None None None None
    None None None None None None None None.
Definition config_of (name : string) (sc : ServerConfig) : Config := mkConfig {[name := sc]}.
Definition cli_for (service : string) : CliOptions := TestCli <| cli_service := Some service |>.
Definition resolve (cli : CliOptions) (config : option Config) : result string ResolvedParams :=
  resolve_params (Some "/home/me") cli config.

Definition resolve_params_overrides_from_config : bool :=
  let sc := mkServerConfig (Some "/tmp/override.sock") (Some "npx") (Some ["@mcp"]) None (Some 7%N)
    (Some true) (Some "svc-name") (Some "debug") (Some false) (Some 1048576%N) (Some 30000%N)
    (Some 1000%N) (Some 30000%N) (Some 5%N) None None None None None None in
  expect_ok (resolve (cli_for "svc") (Some (config_of "svc" sc))) (λ params,
    assert_eq (rp_socket params) "/tmp/override.sock" &&
    assert_eq (rp_cmd params) "npx" &&
    assert_eq (rp_args params) ["@mcp"] &&
    assert_eq (rp_max_clients params) 7%N &&
    rp_tray_enabled params &&
    assert_eq (rp_service_name params) "svc-name" &&
    assert_eq (rp_log_level params) "debug").

Definition resolve_params_requires_service_with_config : bool :=
  expect_err (resolve TestCli (Some Config_default)) (λ err, contains err "--service is required").

Definition resolve_params_cli_overrides_socket : bool :=
  let cfg := config_of "svc" (bare_service "/tmp/cfg.sock" "npx") in
  expect_ok (resolve ((cli_for "svc") <| cli_socket := Some "/tmp/cli.sock" |>) (Some cfg)) (λ params,
    assert_eq (rp_socket params) "/tmp/cli.sock").

Definition resolve_params_applies_defaults_without_config : bool :=
  let cli := TestCli <| cli_socket := Some "/tmp/test.sock" |> <| cli_cmd := Some "echo" |> in
  expect_ok (resolve cli None) (λ params,
    assert_eq (rp_socket params) "/tmp/test.sock" &&
    assert_eq (rp_cmd params) "echo" &&
    assert_eq (rp_max_clients params) 5%N &&
    negb (rp_tray_enabled params) &&
    assert_eq (rp_log_level params) "info" &&
    negb (rp_lazy_start params) &&
    assert_eq (rp_max_request_bytes params) 1048576%N &&
    assert_eq (rp_request_timeout params) (from_millis 30000) &&
    assert_eq (rp_restart_backoff params) (from_millis 1000) &&
    assert_eq (rp_restart_backoff_max params) (from_millis 30000) &&
    assert_eq (rp_max_restarts params) 5%N).

Definition resolve_params_prefers_cli_over_config_for_timeouts : bool :=
  let sc := mkServerConfig (Some "/tmp/s.sock") (Some "npx") None None None None None None None
    (Some 100%N) (Some 100%N) (Some 100%N) (Some 100%N) (Some 100%N) None None None None None None in
  let cli := (cli_for "svc") <| cli_lazy_start := Some true |>
    <| cli_max_request_bytes := Some 999%N |> <| cli_request_timeout_ms := Some 999%N |>
    <| cli_restart_backoff_ms := Some 999%N |> <| cli_restart_backoff_max_ms := Some 999%N |>
    <| cli_max_restarts := Some 999%N |> in
  expect_ok (resolve cli (Some (config_of "svc" sc))) (λ params,
    rp_lazy_start params &&
    assert_eq (rp_max_request_bytes params) 999%N &&
    assert_eq (rp_request_timeout params) (from_millis 999) &&
    assert_eq (rp_restart_backoff params) (from_millis 999) &&
    assert_eq (rp_restart_backoff_max params) (from_millis 999) &&
    assert_eq (rp_max_restarts params) 999%N).

Definition resolve_params_errors_when_socket_missing : bool :=
  expect_err (resolve (TestCli <| cli_cmd := Some "echo" |>) None) (λ err, contains err "socket").

Definition resolve_params_errors_when_cmd_missing : bool :=
  expect_err (resolve (TestCli <| cli_socket := Some "/tmp/x.sock" |>) None) (λ err, contains err "cmd").

Definition resolve_params_errors_when_service_missing_in_config : bool :=
  expect_err (resolve (cli_for "nosuchservice") (Some Config_default)) (λ err, contains err "not found").

Definition publish_status_counts_active : bool :=
  let w := test_state_with_max 3 in
  expect_run (acquire_permit ;;! acquire_permit ;;! publish_status) w (λ w _,
    expect (status w) (λ snap, assert_eq (snap_active_clients snap) 2%N)).

Definition reset_state_updates_last_reset_and_status : bool :=
  expect_run (reset_state "restart-test") (test_state_with_max 2) (λ w _,
    expect (status w) (λ snap,
      assert_eq (snap_last_reset snap) (Some "restart-test") &&
      negb (snap_initializing snap) &&
      assert_eq (snap_pending_requests snap) 0%N)).

Definition initialize_served_from_cache_does_not_queue : bool :=
  let '(w, cid) := capture_client test_state in
  let w := w <| st ::= λ s, s <| cached_initialize :=
    Some (obj [("id", JString "server-init"); ("result", JString "ok")]) |> |> in
  let msg := obj [("jsonrpc", JString "2.0"); ("id", JString "client-init");
                  ("method", JString "initialize"); ("params", JObject [])] in
  expect_run (handle_client_message cid msg (max_request_bytes (st w))) w (λ w r,
    succeeds r &&
    bool_decide (to_server w = []) &&
    expect (recv cid w) (λ resp, assert_eq (value_get "id" resp) (Some (JString "client-init"))) &&
    is_some (cached_initialize (st w)) && negb (initializing (st w)) &&
    assert_eq (size (pending (st w))) 0%nat).

Definition reset_state_clears_initialize_and_pending : bool :=
  let '(w, cid) := capture_client test_state in
  let w := w <| st ::= λ s, s <| cached_initialize :=
      Some (obj [("id", JString "init"); ("result", JBool true)]) |> <| initializing := true |> |> in
  let w := insert_test_pending "g-pending" (mkPending cid (JString "local-id") true (now w)) w in
  let w := push_waiting (cid, JString "waiter-id") w in
  expect_run (reset_state "reset-reason") w (λ w _,
    is_some (recv cid w) &&
    assert_eq (size (pending (st w))) 0%nat &&
    bool_decide (init_waiting (st w) = []) &&
    is_none (cached_initialize (st w)) && negb (initializing (st w)) &&
    assert_eq (last_reset (st w)) (Some "reset-reason")).

Definition publish_status_includes_queue_and_pid : bool :=
  let w := test_state <| st ::= λ s, s <| queue_depth := 7%N |> <| child_pid := Some 4242%N |> |> in
  expect_run publish_status w (λ w _,
    expect (status w) (λ snap,
      assert_eq (snap_queue_depth snap) 7%N &&
      assert_eq (snap_child_pid snap) (Some 4242%N) &&
      assert_eq (snap_max_request_bytes snap) 1048576%N &&
      assert_eq (snap_restart_backoff_ms snap) 1000%N &&
      assert_eq (snap_restart_backoff_max_ms snap) 30000%N &&
      assert_eq (snap_max_restarts snap) 5%N)).

(** The file is looked at as the value that was written: its text is a parameter. *)
Definition status_file_writer_persists_snapshot : bool :=
  let s := (st test_state) <| child_pid := Some 99%N |> in
  let base := snapshot_for_state 0 s 0 in
  let updated := snapshot_for_state 0 (s <| queue_depth := 3%N |>) 0 in
  let written (v : Value) : string :=
    (if bool_decide (value_get "queue_depth" v = Some (num 3)) then "queue_depth: 3 " else "") +:+
    (if bool_decide (value_get "child_pid" v = Some (num 99)) then "child_pid: 99" else "") in
  expect (spawn_status_writer id written "/d/status.json"
            [Writes Written; Published updated; Wakes; Writes Written] (writer_start base (∅ : FileTree))) (λ r,
    expect (tree r !! "/d/status.json") (λ text,
      contains text "queue_depth: 3" && contains text "child_pid: 99")).

Definition health_check_succeeds_when_socket_listens : bool :=
  succeeds (health_check (λ _, Ok (Ok tt)) (params_with_socket "/d/health.sock")).
Definition health_check_fails_for_missing_socket : bool :=
  expect_err (health_check (λ _, Err "No such file or directory") (params_with_socket "/d/missing.sock"))
    (λ err, contains err "failed to connect").

(** ** [runtime/heartbeat.rs] *)
Definition heartbeat_config_defaults : bool :=
  let config := HeartbeatConfig_default in
  assert_eq (hb_interval config) (from_secs 30) && assert_eq (hb_timeout config) (from_secs 30) &&
  assert_eq (hb_max_failures config) 3%N && hb_enabled config.
Definition heartbeat_config_disabled : bool := negb (hb_enabled HeartbeatConfig_disabled).
Definition heartbeat_state_records_success : bool :=
  let m := metrics (record_success 1700000000000 100 (HeartbeatState_new HeartbeatConfig_default)) in
  assert_eq (total_success m) 1%N && assert_eq (consecutive_failures m) 0%N &&
  is_some (last_heartbeat_ms m) && assert_eq (avg_response_ms m) (Some 100%N).
Definition heartbeat_state_records_failure : bool :=
  let m := metrics (record_failure (HeartbeatState_new HeartbeatConfig_default)) in
  assert_eq (total_failures m) 1%N && assert_eq (consecutive_failures m) 1%N.
Definition heartbeat_state_triggers_restart : bool :=
  let state := HeartbeatState_new (HeartbeatConfig_default <| hb_max_failures := 3%N |>) in
  let state1 := record_failure state in
  let state2 := record_failure state1 in
  let state3 := record_failure state2 in
  negb (should_restart state1) && negb (should_restart state2) && should_restart state3.
Definition heartbeat_state_resets_on_success : bool :=
  let state := HeartbeatState_new (HeartbeatConfig_default <| hb_max_failures := 3%N |>) in
  let state := record_failure (record_failure state) in
  let m := metrics (record_success 1700000000000 50 state) in
  assert_eq (consecutive_failures (metrics state)) 2%N &&
  assert_eq (consecutive_failures m) 0%N && assert_eq (total_failures m) 2%N &&
  assert_eq (total_success m) 1%N.
Definition is_heartbeat_response_detects_ids : bool :=
  is_heartbeat_response "__heartbeat_1" && is_heartbeat_response "__heartbeat_123" &&
  negb (is_heartbeat_response "heartbeat_1") && negb (is_heartbeat_response "request_1") &&
  negb (is_heartbeat_response "1").
Definition heartbeat_rolling_average : bool :=
  let state := record_success 0 100 (HeartbeatState_new HeartbeatConfig_default) in
  let state2 := record_success 0 200 state in
  let state3 := record_success 0 300 state2 in
  assert_eq (avg_response_ms (metrics state)) (Some 100%N) &&
  assert_eq (avg_response_ms (metrics state2)) (Some 150%N) &&
  assert_eq (avg_response_ms (metrics state3)) (Some 200%N).

(** ** [state.rs], [multi.rs], [runtime/status.rs], [config.rs] *)
Definition next_request_id_increments_sequentially : bool :=
  let '(s, first) := next_request_id (st test_state) in
  let '(_, second) := next_request_id s in
  assert_eq (first + 1)%N second.

Definition format_uptime_tests : bool :=
  assert_eq (format_uptime 5000) "5s" && assert_eq (format_uptime 45000) "45s" &&
  assert_eq (format_uptime 60000) "1m 0s" && assert_eq (format_uptime 125000) "2m 5s" &&
  assert_eq (format_uptime 3600000) "1h 0m" && assert_eq (format_uptime 7500000) "2h 5m" &&
  assert_eq (format_uptime 86400000) "1d 0h" && assert_eq (format_uptime 90000000) "1d 1h".
Definition status_level_serialization : bool :=
  assert_eq (ser_level StatusLevel.Ok) (JString "Ok").

Definition default_status_socket_uses_rust_mux_identity : bool :=
  assert_eq DEFAULT_STATUS_SOCKET "/tmp/rust-mux.status.sock".
Definition short_status_mapping : bool :=
  assert_eq (short_status "Running") "UP" &&
  assert_eq (short_status "Running (heartbeat issues)") "UP" &&
  assert_eq (short_status "Lazy (not started)") "LAZY" &&
  assert_eq (short_status "Failed: timeout") "FAIL".
Definition status_state_collects_empty : bool :=
  let status := collect_status "0.1.0" 0 (StatusState_new 0) in
  assert_eq (ds_server_count status) 0%N && assert_eq (ds_running_count status) 0%N.

Definition safe_read_rejects_parent_traversal : bool :=
  let fs : FileTree := {["/d/config.json" := "{}"]} in
  expect_err (safe_read_to_string id "/d/nested/../config.json" fs)
    (λ err, contains err "parent traversal").
Definition safe_copy_rejects_parent_traversal_destination : bool :=
  let fs : FileTree := {["/d/config.json" := "{}"]} in
  expect_err (safe_copy_file id "/d/config.json" "/d/backup/../config.bak" fs)
    (λ err, contains err "parent traversal").

(** ** [ipc/server.rs] *)
Definition test_unixstream_pair : bool :=
  let s := new (mkMuxStateConfig 32 "test" (1024 * 1024) (from_secs 30) (from_secs 1) (from_secs 10)
                  3 100 None None) in
  let parse text := if str_eqb text "GetStatus" then Ok GetStatus else Err "expected value" in
  match handle_connection parse 1000 1000 0 s [] false
          [Read (ReadData ("GetStatus" +:+ String newline "")); Read ReadEof] with
  | Some (Ok (RStatus _ :: _)) => true
  | _ => false
  end.
Definition test_serde_roundtrip_commands : bool :=
  forallb (λ c, match de_command (ser_command c) with
                | Some parsed => bool_decide (ser_command parsed = ser_command c)
                | None => false
                end)
    [Subscribe; Unsubscribe; GetStatus; Verify ClientKind.Claude; RouteSnapshot;
     RestartService "test"; ReloadConfig; Shutdown true].
Definition test_serde_roundtrip_responses : bool :=
  forallb (λ r, match de_response (ser_response r) with
                | Some parsed => bool_decide (ser_response parsed = ser_response r)
                | None => false
                end)
    [ROk; RError "test error"; RUnimplemented; RRoutes []; RVerify (mkVerifyResult true []);
     REvent (ServerHealth "test" 100 0 None)].

(** ** The suite *)
Definition runtime_tests : list (string * bool) := [
  ("set_id_updates_object", set_id_updates_object);
  ("error_response_has_code_and_message", error_response_has_code_and_message);
  ("initialize_response_is_cached_and_fanned_out", initialize_response_is_cached_and_fanned_out);
  ("non_initialize_response_routed_without_caching", non_initialize_response_routed_without_caching);
  ("reset_state_broadcasts_errors", reset_state_broadcasts_errors);
  ("expand_path_expands_home", expand_path_expands_home);
  ("load_config_parses_json_yaml_toml", load_config_parses_json_yaml_toml);
  ("load_config_missing_returns_none", load_config_missing_returns_none);
  ("resolve_params_overrides_from_config", resolve_params_overrides_from_config);
  ("resolve_params_requires_service_with_config", resolve_params_requires_service_with_config);
  ("resolve_params_cli_overrides_socket", resolve_params_cli_overrides_socket);
  ("resolve_params_applies_defaults_without_config", resolve_params_applies_defaults_without_config);
  ("resolve_params_prefers_cli_over_config_for_timeouts",
    resolve_params_prefers_cli_over_config_for_timeouts);
  ("resolve_params_errors_when_socket_missing", resolve_params_errors_when_socket_missing);
  ("resolve_params_errors_when_cmd_missing", resolve_params_errors_when_cmd_missing);
  ("resolve_params_errors_when_service_missing_in_config",
    resolve_params_errors_when_service_missing_in_config);
  ("publish_status_counts_active", publish_status_counts_active);
  ("reset_state_updates_last_reset_and_status", reset_state_updates_last_reset_and_status);
  ("initialize_served_from_cache_does_not_queue", initialize_served_from_cache_does_not_queue);
  ("reset_state_clears_initialize_and_pending", reset_state_clears_initialize_and_pending);
  ("publish_status_includes_queue_and_pid", publish_status_includes_queue_and_pid);
  ("status_file_writer_persists_snapshot", status_file_writer_persists_snapshot);
  ("health_check_succeeds_when_socket_listens", health_check_succeeds_when_socket_listens);
  ("health_check_fails_for_missing_socket", health_check_fails_for_missing_socket);
  ("heartbeat_config_defaults", heartbeat_config_defaults);
  ("heartbeat_config_disabled", heartbeat_config_disabled);
  ("heartbeat_state_records_success", heartbeat_state_records_success);
  ("heartbeat_state_records_failure", heartbeat_state_records_failure);
  ("heartbeat_state_triggers_restart", heartbeat_state_triggers_restart);
  ("heartbeat_state_resets_on_success", heartbeat_state_resets_on_success);
  ("is_heartbeat_response_detects_ids", is_heartbeat_response_detects_ids);
  ("heartbeat_rolling_average", heartbeat_rolling_average);
  ("next_request_id_increments_sequentially", next_request_id_increments_sequentially);
  ("format_uptime", format_uptime_tests);
  ("status_level_serialization", status_level_serialization);
  ("default_status_socket_uses_rust_mux_identity", default_status_socket_uses_rust_mux_identity);
  ("short_status_mapping", short_status_mapping);
  ("status_state_collects_empty", status_state_collects_empty);
  ("safe_read_rejects_parent_traversal", safe_read_rejects_parent_traversal);
  ("safe_copy_rejects_parent_traversal_destination", safe_copy_rejects_parent_traversal_destination);
  ("test_unixstream_pair", test_unixstream_pair);
  ("test_serde_roundtrip_commands", test_serde_roundtrip_commands);
  ("test_serde_roundtrip_responses", test_serde_roundtrip_responses)
].

Theorem runtime_tests_pass : failures runtime_tests = [].
Proof. by_compute. Qed.
