(* ===== verification/ToolTests.v ===== *)
(** * ToolTests: the tests of the tools around the mux, run on the model

    The test modules of [scan.rs], [mux_gen.rs] and [danger.rs], each test as a
    definition of its name.  A temporary directory is a tree of files. *)
From S2P Require Import Prelude Text Json Paths Config Scan Rewire MuxGen Danger Testing.
From S2P Require Import WizardServices.
From Stdlib Require Import Ascii.

#[local] Existing Instance reference_platform.

(** TOML documents, written as JSON: what the tests read of them is the same. *)
#[refine] Definition json_toml : TomlLib := {|
  Toml := Value;
  Table := list (string * Value);
  toml_from_str := json_parse;
  toml_to_string_pretty v := Some (json_print v);
  TString := JString;
  TArray := JArray;
  TTable := JObject;
  as_table := as_object;
  table_new := [];
  table_get := obj_get;
  table_insert := obj_insert;
  table_iter t := filter (λ kv, obj_get kv.1 t = Some kv.2) t;
|}.
Proof.
  - done.
  - done.
  - apply obj_get_insert_eq.
  - intros k k' v t. apply obj_get_insert_ne.
  - intros k v t. rewrite list_elem_of_filter. simpl. split; [by intros []|].
    intros Hk. split; [done|]. induction t as [|[k' v'] t IH]; cbn [obj_get] in Hk; [done|].
    case_bool_decide; [simplify_eq; by left|right; auto].
Defined.
#[export] Existing Instance json_toml.

(** What the tests make, and read of a TOML file. *)
Definition json_host (p : string) (k : HostKind.HostKind) (s : ConfigSchema.ConfigSchema) : HostFile :=
  mkHostFile k p HostFormat.Json s Confidence.High true true.
Definition toml_host (p : string) (k : HostKind.HostKind) : HostFile :=
  mkHostFile k p HostFormat.Toml ConfigSchema.McpServersToml Confidence.High true true.
Definition svc (nm cmd : string) (arguments : list string) : HostService :=
  mkHostService nm cmd arguments None None None None.

(** [toml::from_str] and the [mcp_servers] table of the text. *)
Definition mcp_table (text : string) : option (option (list (string * option RawServer))) :=
  match json_parse text with
  | None => None
  | Some v => Some match value_get "mcp_servers" v with
                   | Some (JObject t) => Some (map (λ kv, (kv.1, de_raw_server kv.2)) t)
                   | _ => None
                   end
  end.

(** ** [scan.rs] *)
Module ScanTests.
Definition scan_file (h : HostFile) (text : string) : result string ScanResult :=
  scan_host_file id json_parse mcp_table h ({[path h := text]} : FileTree).

(** The paths of the built-in sources, under a home directory of the test's own. *)
Definition sources_of (k : HostKind.HostKind) : list string :=
  path <$> retain (λ s, bool_decide (kind s = k)) (default_sources (Some "/home/me")).
Definition ends_with (p suffix : string) : bool :=
  bool_decide (drop (length (components p) - length (components suffix)) (components p) = components suffix).

Definition defaults_cover_required_clients : bool :=
  forallb (λ k, negb (bool_decide (sources_of k = [])))
    [HostKind.Claude; HostKind.ClaudeDesktop; HostKind.Codex; HostKind.Junie; HostKind.Gemini].

Definition defaults_use_canonical_paths : bool :=
  any (λ p, ends_with p ".claude.json") (sources_of HostKind.Claude) &&
  any (λ p, ends_with p "claude_desktop_config.json") (sources_of HostKind.ClaudeDesktop) &&
  any (λ p, ends_with p "config.toml") (sources_of HostKind.Codex) &&
  any (λ p, ends_with p ".junie/mcp/mcp.json") (sources_of HostKind.Junie) &&
  any (λ p, ends_with p ".agents/mcp.json") (sources_of HostKind.Junie) &&
  any (λ p, ends_with p ".ai/mcp.json") (sources_of HostKind.Junie) &&
  any (λ p, ends_with p ".gemini/settings.json") (sources_of HostKind.Gemini).

Definition project_name (text : string) : option string :=
  v ← json_parse text; str_at ["project"; "name"] v.
Definition pyproject (nm : string) : FileTree :=
  {["/d/pyproject.toml" := json_print (obj [("project", obj [("name", JString nm)])])]}.

Definition discover_vibecrafted_mcp_dev_path_found : bool :=
  expect (discover_vibecrafted_mcp_with id project_name "/d" false (pyproject "vibecrafted-mcp")) (λ d,
    assert_eq (dm_name d) "vibecrafted-mcp" &&
    match dm_source d with DiscoveredMcpSource.VibecraftedMcpDevPath => true | _ => false end &&
    assert_eq (dm_command d) "python" && assert_eq (dm_args d) ["-m"; "vibecrafted_mcp"] &&
    assert_eq (dm_cwd d) (Some "/d")).
Definition discover_vibecrafted_mcp_pip_show_found : bool :=
  expect (discover_vibecrafted_mcp_with id project_name "/d" true ∅) (λ d,
    assert_eq (dm_name d) "vibecrafted-mcp" &&
    match dm_source d with DiscoveredMcpSource.VibecraftedMcpPipInstall => true | _ => false end &&
    assert_eq (dm_command d) "vibecrafted-mcp" && assert_eq (dm_args d) [] &&
    is_none (dm_cwd d)).
Definition discover_vibecrafted_mcp_returns_none_when_neither : bool :=
  is_none (discover_vibecrafted_mcp_with id project_name "/d" false (pyproject "not-vibecrafted-mcp")).

Definition parse_json_mcpservers_for_claude : bool :=
  let text := q "{ 'other': true, 'mcpServers': { 'memory': { 'command': 'npx',
      'args': ['@modelcontextprotocol/server-memory'], 'env': {'FOO': 'bar'} } } }" in
  expect_ok (scan_file (json_host "/d/claude.json" HostKind.Claude ConfigSchema.McpServersJson) text) (λ scan,
    match services scan with
    | [s] => assert_eq (name s) "memory" && assert_eq (command s) "npx" &&
             assert_eq (env s ≫= lookup "FOO") (Some "bar")
    | _ => false
    end).
Definition parse_toml_mcp_servers_for_codex : bool :=
  let text := q "{'other': {'unrelated': 'keep me'}, 'mcp_servers': {'memory': {'command': 'npx',
      'args': ['@modelcontextprotocol/server-memory'], 'env': {'HOME': '/tmp'}}}}" in
  expect_ok (scan_file (toml_host "/d/config.toml" HostKind.Codex) text) (λ scan,
    match services scan with
    | [s] => assert_eq (name s) "memory" && assert_eq (command s) "npx" &&
             assert_eq (args s) ["@modelcontextprotocol/server-memory"] &&
             assert_eq (env s ≫= lookup "HOME") (Some "/tmp")
    | _ => false
    end).
Definition parse_junie_json_mcpservers : bool :=
  let text := q "{'mcpServers': {'fs': {'command': 'npx', 'args': ['@modelcontextprotocol/server-filesystem', '/tmp']}}}" in
  expect_ok (scan_file (json_host "/d/mcp.json" HostKind.Junie ConfigSchema.McpServersJson) text) (λ scan,
    assert_eq (name <$> services scan) ["fs"]).
Definition parse_generic_json_servers_when_present : bool :=
  let text := q "{'servers': {'echo': {'command': 'echo', 'args': ['hi']}}}" in
  expect_ok (scan_file (json_host "/d/custom.json" HostKind.Custom ConfigSchema.AutoJson) text) (λ scan,
    assert_eq (command <$> services scan) ["echo"]).

Definition merge_dedupes_identical_services : bool :=
  let s := svc "memory" "npx" ["@modelcontextprotocol/server-memory"] in
  let scans := [mkScanResult (json_host "/d/a.json" HostKind.Claude ConfigSchema.McpServersJson) [s];
                mkScanResult (json_host "/d/b.json" HostKind.ClaudeDesktop ConfigSchema.McpServersJson) [s]] in
  let merged := merge_services scans in
  assert_eq (length (merged_services merged)) 1%nat && assert_eq (length (conflicts merged)) 0%nat.
Definition merge_surfaces_conflicting_services : bool :=
  let scans :=
    [mkScanResult (json_host "/d/a.json" HostKind.Claude ConfigSchema.McpServersJson)
       [svc "memory" "npx" ["@modelcontextprotocol/server-memory"]];
     mkScanResult (json_host "/d/b.json" HostKind.Junie ConfigSchema.McpServersJson)
       [svc "memory" "uv" ["run"; "memory-server"]]] in
  let merged := merge_services scans in
  let names := name <$> merged_services merged in
  assert_eq (length (conflicts merged)) 1%nat &&
  any (λ n, starts_with n "memory-from-claude") names && any (λ n, starts_with n "memory-from-junie") names.

Definition codex_scans (s : HostService) : list ScanResult := [mkScanResult (toml_host "dummy" HostKind.Codex) [s]].
Definition build_manifest_populates_defaults : bool :=
  let cfg := build_manifest (codex_scans (svc "memory" "npx" ["@mcp/server-memory"])) "/tmp/sockets" in
  expect (servers cfg !! "memory") (λ s,
    assert_eq (sc_cmd s) (Some "npx") && assert_eq (sc_args s) (Some ["@mcp/server-memory"]) &&
    expect (sc_socket s) (λ p, contains p "/tmp/sockets/memory.sock")).
Definition generate_snippet_uses_proxy : bool :=
  let snippet := generate_snippet (codex_scans (svc "svc" "npx" ["x"])) "/tmp/sockets" "rust-mux-proxy"
                   ["proxy"] HostKind.Codex in
  expect (snippet ≫= value_at ["mcpServers"; "svc"]) (λ s,
    assert_eq (value_get "command" s) (Some (JString "rust-mux-proxy")) &&
    expect (value_get "args" s ≫= de_strings) (λ a,
      any (str_eqb "proxy") a && any (str_eqb "--socket") a)).
Definition rewire_updates_mcpservers_in_json : bool :=
  let h := json_host "/d/settings.json" HostKind.Claude ConfigSchema.McpServersJson in
  let text := q "{'other': true, 'mcpServers': {'memory': {'command': 'npx', 'args': ['@mcp/server-memory']}}}" in
  expect_ok (rewire_host id json_parse json_print mcp_table json_parse (Some ∘ json_print) value_get
               (λ k v t, m ← as_object t; Some (JObject (obj_insert k v m))) (JObject [])
               (λ _, None) (λ _, None) h "/tmp/sockets" "rust-mux-proxy" [] false
               {["/d/settings.json" := text]}) (λ r,
    expect (r.1 !! "/d/settings.json" ≫= json_parse) (λ updated,
      assert_eq (str_at ["mcpServers"; "memory"; "command"] updated) (Some "rust-mux-proxy") &&
      assert_eq (value_get "other" updated) (Some (JBool true)))).
Definition host_file_from_custom_path_infers_format : bool :=
  let j := host_file_from_custom_path "/tmp/custom.json" in
  let t := host_file_from_custom_path "/tmp/custom.toml" in
  match format j, format t with HostFormat.Json, HostFormat.Toml => true | _, _ => false end &&
  assert_eq (kind t) HostKind.Custom && eligible_for_danger t.
End ScanTests.

(** ** [mux_gen.rs] *)
Module MuxGenTests.
Definition one_service : MergeOutcome :=
  mkMergeOutcome [svc "memory" "npx" ["@modelcontextprotocol/server-memory"]] [].
Definition host_of (k : HostKind.HostKind) (p : string) : HostFile :=
  json_host p k ConfigSchema.McpServersJson.

(** Writers of the three files, with the keys the tests look for. *)
Definition client_json (m : gmap string ClientServerJson) : option string :=
  Some (json_print (obj [("mcpServers", obj ((λ kv, (kv.1,
    obj [("command", JString (cs_command kv.2)); ("args", JArray (JString <$> cs_args kv.2))]))
      <$> map_to_list m))])).
Definition client_toml (m : gmap string ClientServerToml) : option string :=
  Some (join "" ((λ kv, "[mcp_servers." +:+ kv.1 +:+ "]command = " +:+ cs_command kv.2 +:+
                        "args = " +:+ join " " (cs_args kv.2)) <$> map_to_list m)).
Definition daemon_toml (c : Config) : option string :=
  Some (join "" ((λ kv, "[servers." +:+ kv.1 +:+ "]cmd = " +:+ default "" (sc_cmd kv.2) +:+
                        "args = " +:+ join " " (default [] (sc_args kv.2)))
                 <$> map_to_list (servers c))).

Definition with_outputs (k : MuxOutputs → bool) : bool :=
  expect_ok (build_mux_outputs daemon_toml client_json client_toml one_service "/d/mux"
               "rust-mux-proxy" []) k.
Definition with_instruction (kd : HostKind.HostKind) (k : ClientInstruction → bool) : bool :=
  with_outputs (λ o,
    expect (List.find (λ i, bool_decide (ci_kind i = kd)) (safe_path_instructions o)) k).

Definition build_outputs_carry_socket_paths : bool :=
  with_outputs (λ o,
    contains (config_toml o) "npx" && contains (config_toml o) "@modelcontextprotocol/server-memory" &&
    contains (mcp_json o) "rust-mux-proxy" && contains (mcp_json o) "--socket" &&
    contains (mcp_toml o) "[mcp_servers." && contains (mcp_toml o) "rust-mux-proxy").
(** The directories of a tree are implicit: that of the sockets is not looked for. *)
Definition write_outputs_creates_files_in_temp_dir : bool :=
  with_outputs (λ o,
    let files := write_mux_outputs id o ∅ in
    path_exists id (config_toml_path o) files && path_exists id (mcp_json_path o) files &&
    path_exists id (mcp_toml_path o) files).
Definition safe_path_instructions_cover_all_clients : bool :=
  with_outputs (λ o,
    let kinds := ci_kind <$> safe_path_instructions o in
    forallb (λ required, bool_decide (required ∈ kinds))
      [HostKind.Claude; HostKind.ClaudeDesktop; HostKind.Codex; HostKind.Junie; HostKind.Gemini]).
Definition instructions_use_strict_flag_for_claude_code : bool :=
  with_instruction HostKind.Claude (λ i, any (λ c, contains c "--strict-mcp-config") (commands i)).
Definition instructions_for_junie_use_mcp_location : bool :=
  with_instruction HostKind.Junie (λ i, any (λ c, contains c "--mcp-location") (commands i)).
Definition instructions_for_codex_do_not_invent_a_config_flag : bool :=
  with_instruction HostKind.Codex (λ i,
    forallb (λ cmd, negb (contains cmd "codex --config ")) (commands i)).
Definition per_client_outputs_merge_multiple_sources_for_same_kind : bool :=
  let scans :=
    [mkScanResult (host_of HostKind.Junie "/tmp/junie-global.json")
       [svc "memory" "npx" ["@modelcontextprotocol/server-memory"]];
     mkScanResult (host_of HostKind.Junie "/tmp/junie-project.json")
       [svc "brave" "npx" ["@modelcontextprotocol/server-brave-search"]]] in
  expect_ok (build_per_client_outputs daemon_toml client_json client_toml scans "/d/mux"
               "rust-mux-proxy" []) (λ o,
    match pco_clients o with
    | [client] =>
        assert_eq (pc_path client) (path_join "/d/mux" "junie.json") &&
        assert_eq (length (pc_services client)) 2%nat &&
        contains (pc_contents client) (q "'memory'") && contains (pc_contents client) (q "'brave'")
    | _ => false
    end).
End MuxGenTests.

(** ** [danger.rs] *)
Module DangerTests.
Definition json_source (p : string) (k : HostKind.HostKind) : HostFile :=
  json_host p k ConfigSchema.McpServersJson.
Definition toml_source (p : string) (k : HostKind.HostKind) : HostFile := toml_host p k.

Definition plan_of (srcs : list HostFile) (fs : FileTree) : DangerPlan :=
  plan_danger_rewrite json_parse json_print "/tmp/sockets" "rust-mux-proxy" [] id mcp_table srcs fs.
Definition executed (plan : DangerPlan) (fs : FileTree) :
    result string (FileTree * list DangerExecutionOutcome) :=
  execute_plan id plan true (λ _, 1700000000%N) fs.
Definition status_is (plan : DangerPlan) (s : DangerStatus.DangerStatus) : bool :=
  expect (head (actions plan)) (λ a, assert_eq (status a) s).

Definition execute_refuses_without_confirmation : bool :=
  let plan := mkDangerPlan [] "rust-mux-proxy" [] "/tmp" in
  negb (succeeds (execute_plan id plan false (λ _, 0%N) ∅)).

Definition json_rewrite_creates_timestamped_backup_and_keeps_other_keys : bool :=
  let p := "/d/claude.json" in
  let fs : FileTree := {[p := q "{ 'trustedTools': ['one', 'two'],
      'mcpServers': { 'memory': { 'command': 'npx',
                                  'args': ['@modelcontextprotocol/server-memory'] } } }"]} in
  let plan := plan_of [json_source p HostKind.Claude] fs in
  assert_eq (length (actions plan)) 1%nat && status_is plan DangerStatus.Planned &&
  expect_ok (executed plan fs) (λ r,
    expect (head r.2) (λ outcome,
      written outcome &&
      expect (o_backup outcome) (λ backup,
        path_exists id backup r.1 && expect (file_name backup) (λ n, has_suffix ".bak" n)) &&
      expect (r.1 !! p ≫= json_parse) (λ updated,
        is_some (value_get "trustedTools" updated) &&
        assert_eq (str_at ["mcpServers"; "memory"; "command"] updated) (Some "rust-mux-proxy")))).

Definition toml_rewrite_creates_backup_and_keeps_other_tables : bool :=
  let p := "/d/config.toml" in
  let fs : FileTree := {[p := q "{ 'history': { 'persistence': 'save-all' },
      'mcp_servers': { 'memory': { 'command': 'npx',
                                   'args': ['@modelcontextprotocol/server-memory'] } } }"]} in
  let plan := plan_of [toml_source p HostKind.Codex] fs in
  status_is plan DangerStatus.Planned &&
  expect_ok (executed plan fs) (λ r,
    expect (head r.2) (λ outcome,
      expect (o_backup outcome) (λ backup, path_exists id backup r.1) &&
      expect (r.1 !! p ≫= json_parse) (λ updated,
        is_some (value_get "history" updated) &&
        assert_eq (str_at ["mcp_servers"; "memory"; "command"] updated) (Some "rust-mux-proxy")))).

Definition invalid_json_is_never_modified : bool :=
  let p := "/d/broken.json" in
  let fs : FileTree := {[p := "{ not valid json"]} in
  let plan := plan_of [json_source p HostKind.Claude] fs in
  status_is plan DangerStatus.SkippedInvalid &&
  expect_ok (executed plan fs) (λ r, assert_eq (r.1 !! p) (fs !! p)).

Definition x_tree : FileTree :=
  {["/d/claude.json" := q "{'mcpServers': {'x': {'command': 'npx'}}}"]}.
Definition ineligible_sources_are_recorded_but_not_planned : bool :=
  let src := mkHostFile HostKind.Gemini "/d/claude.json" HostFormat.Json
               ConfigSchema.McpServersJson Confidence.High true false in
  status_is (plan_of [src] x_tree) DangerStatus.SkippedIneligible.
Definition preview_mentions_backup_pattern_and_proxy : bool :=
  let preview := format_preview (plan_of [json_source "/d/claude.json" HostKind.Claude] x_tree) in
  contains preview "rust-mux-proxy" && contains preview ".bak" && contains preview "DANGER".
Definition rollback_commands_use_backup_paths : bool :=
  let p := "/d/claude.json" in
  let fs : FileTree := {[p := q "{'mcpServers': {'memory': {'command': 'npx', 'args': []}}}"]} in
  expect_ok (executed (plan_of [json_source p HostKind.Claude] fs) fs) (λ r,
    match rollback_commands r.2, head r.2 ≫= o_backup with
    | [cmd], Some backup => contains cmd backup && contains cmd p
    | _, _ => false
    end).
End DangerTests.

(** ** The suite *)
Import ScanTests MuxGenTests DangerTests.
Definition tool_tests : list (string * bool) := [
  ("defaults_cover_required_clients", defaults_cover_required_clients);
  ("defaults_use_canonical_paths", defaults_use_canonical_paths);
  ("discover_vibecrafted_mcp_dev_path_found", discover_vibecrafted_mcp_dev_path_found);
  ("discover_vibecrafted_mcp_pip_show_found", discover_vibecrafted_mcp_pip_show_found);
  ("discover_vibecrafted_mcp_returns_none_when_neither",
    discover_vibecrafted_mcp_returns_none_when_neither);
  ("parse_json_mcpservers_for_claude", parse_json_mcpservers_for_claude);
  ("parse_toml_mcp_servers_for_codex", parse_toml_mcp_servers_for_codex);
  ("parse_junie_json_mcpservers", parse_junie_json_mcpservers);
  ("parse_generic_json_servers_when_present", parse_generic_json_servers_when_present);
  ("merge_dedupes_identical_services", merge_dedupes_identical_services);
  ("merge_surfaces_conflicting_services", merge_surfaces_conflicting_services);
  ("build_manifest_populates_defaults", build_manifest_populates_defaults);
  ("generate_snippet_uses_proxy", generate_snippet_uses_proxy);
  ("rewire_updates_mcpservers_in_json", rewire_updates_mcpservers_in_json);
  ("host_file_from_custom_path_infers_format", host_file_from_custom_path_infers_format);
  ("build_outputs_carry_socket_paths", build_outputs_carry_socket_paths);
  ("write_outputs_creates_files_in_temp_dir", write_outputs_creates_files_in_temp_dir);
  ("safe_path_instructions_cover_all_clients", safe_path_instructions_cover_all_clients);
  ("instructions_use_strict_flag_for_claude_code", instructions_use_strict_flag_for_claude_code);
  ("instructions_for_junie_use_mcp_location", instructions_for_junie_use_mcp_location);
  ("instructions_for_codex_do_not_invent_a_config_flag",
    instructions_for_codex_do_not_invent_a_config_flag);
  ("per_client_outputs_merge_multiple_sources_for_same_kind",
    per_client_outputs_merge_multiple_sources_for_same_kind);
  ("execute_refuses_without_confirmation", execute_refuses_without_confirmation);
  ("json_rewrite_creates_timestamped_backup_and_keeps_other_keys",
    json_rewrite_creates_timestamped_backup_and_keeps_other_keys);
  ("toml_rewrite_creates_backup_and_keeps_other_tables",
    toml_rewrite_creates_backup_and_keeps_other_tables);
  ("invalid_json_is_never_modified", invalid_json_is_never_modified);
  ("ineligible_sources_are_recorded_but_not_planned",
    ineligible_sources_are_recorded_but_not_planned);
  ("preview_mentions_backup_pattern_and_proxy", preview_mentions_backup_pattern_and_proxy);
  ("rollback_commands_use_backup_paths", rollback_commands_use_backup_paths)
].

Theorem tool_tests_pass : failures tool_tests = [].
Proof. by_compute. Qed.
