(* ===== verification/WizardTests.v ===== *)
(** * WizardTests: the tests of the wizard and of the dashboards, run on the model

    The test modules of [wizard/services.rs], [wizard/persist.rs], [wizard/keys.rs],
    [wizard/ui.rs], [tray.rs], [multi_tui.rs] and [tray_dashboard.rs], each test as a definition of its
    name.  The processes of the host a test runs on are [no_processes]. *)
From S2P Require Import Prelude Text Json Shared MuxState Status Paths Config Scan Rewire MuxGen.
From S2P Require Import Danger WizardServices Wizard WizardRun Screen WizardScreen MuxDash.
From S2P Require Import Testing ToolTests.
From Stdlib Require Import Ascii.

#[local] Existing Instance reference_platform.
#[local] Existing Instance json_toml.
#[local] Existing Instance stacked_layout.

Definition claude (p : string) : HostFile := json_host p HostKind.Claude ConfigSchema.McpServersJson.
Definition no_processes (fs : FileTree) : Surroundings := mkSurroundings fs None [] (λ _, false).
Definition blank (step : WizardStep.WizardStep) (dry : bool) : AppState :=
  blank_app step "/tmp/rust-mux-test-config.toml" [] [] Strategy.Unified dry.
(** A server of the list with the settings every discovered one has. *)
Definition listed (nm package : string) (selected : bool) : ServiceEntry :=
  mkServiceEntry nm (entry_config (svc nm "npx" [package])) HealthStatus.Unknown
    (ServiceSource.Client HostKind.Claude "/tmp/claude.json") None selected.

(** ** [wizard/services.rs] *)
Module ServicesTests.
Definition memory_scan : ScanResult :=
  mkScanResult (claude "/tmp/test-claude.json")
    [svc "memory" "npx" ["@modelcontextprotocol/server-memory"]].
Definition services_from_merge_attribute_first_source_kind : bool :=
  match build_services_from_scans [memory_scan] with
  | [entry] =>
      match se_source entry with
      | ServiceSource.Client kd p =>
          assert_eq kd HostKind.Claude && assert_eq p (Scan.path (host memory_scan))
      | _ => false
      end
  | _ => false
  end.
Definition discovered_service_without_socket_leaves_mux_socket_to_generator : bool :=
  match build_services_from_scans [memory_scan] with
  | [entry] => is_none (sc_socket (se_config entry))
  | _ => false
  end.
Definition cmds_equivalent_matches_basename : bool :=
  cmds_equivalent "/usr/local/bin/npx" "npx" && cmds_equivalent "npx" "npx" &&
  negb (cmds_equivalent "npx" "node").
End ServicesTests.

(** ** [wizard/persist.rs] *)
Module PersistTests.
Definition persist_app : AppState :=
  let memory := entry_config (mkHostService "memory" "npx" ["@modelcontextprotocol/server-memory"]
                                None (Some "/d/sockets/memory.sock") None None) in
  blank_app WizardStep.SummaryConfirm "/d/mcp-mux.toml" []
    [mkServiceEntry "memory" memory HealthStatus.Unknown
       (ServiceSource.Client HostKind.Custom "/d/custom.json") None true]
    Strategy.Unified false.
Definition app_with_two_source_services : AppState * FileTree :=
  (persist_app
     <| sources := [mkSourceEntry (claude "/d/claude.json") (SourceStatus.Ok 2) true] |>
     <| app_services := [listed "memory" "@modelcontextprotocol/server-memory" true;
                         listed "brave" "@modelcontextprotocol/server-brave-search" false] |>,
   {["/d/claude.json" := q "{ 'mcpServers': {
       'memory': { 'command': 'npx', 'args': ['@modelcontextprotocol/server-memory'] },
       'brave': { 'command': 'npx', 'args': ['@modelcontextprotocol/server-brave-search'] } } }"]}).

Definition unified (app : AppState) : result string (FileTree * string) :=
  run_unified_generate (Some "/home/me") id MuxGenTests.daemon_toml MuxGenTests.client_json
    MuxGenTests.client_toml app ∅.

Definition unified_dry_run_does_not_write_files : bool :=
  expect_ok (unified (persist_app <| dry_run := true |>)) (λ r,
    contains r.2 "dry-run" || contains r.2 "Would").
Definition unified_with_no_services_selected_is_noop : bool :=
  let app := persist_app <| app_services ::= fmap (λ s, s <| se_selected := false |>) |> in
  expect_ok (unified app) (λ r, contains r.2 "No services").
Definition per_client_with_no_sources_is_noop : bool :=
  expect_ok (run_per_client_generate (Some "/home/me") id json_parse mcp_table
               MuxGenTests.daemon_toml MuxGenTests.client_json MuxGenTests.client_toml
               persist_app ∅) (λ r,
    contains r.2 "No selected sources" || contains r.2 "nothing generated").
Definition per_client_scans_honor_step2_deselection : bool :=
  let '(app, fs) := app_with_two_source_services in
  match selected_scans id json_parse mcp_table app fs with
  | [scan] => assert_eq (name <$> Scan.services scan) ["memory"]
  | _ => false
  end.
Definition danger_plan_rewrites_only_step2_selected_services : bool :=
  let '(app, fs) := app_with_two_source_services in
  let scans := selected_danger_scans id json_parse mcp_table app fs in
  match actions (plan_danger_rewrite_for_scans json_parse json_print "/d" "rust-mux-proxy" []
                   id scans fs) with
  | [action] =>
      assert_eq (status action) DangerStatus.Planned &&
      assert_eq (name <$> existing_services action) ["memory"] &&
      expect (new_contents action ≫= json_parse) (λ rewritten,
        assert_eq (str_at ["mcpServers"; "memory"; "command"] rewritten) (Some "rust-mux-proxy") &&
        assert_eq (str_at ["mcpServers"; "brave"; "command"] rewritten) (Some "npx"))
  | _ => false
  end.
Definition danger_with_no_sources_is_noop : bool :=
  expect_ok (run_danger_auto_configure (Some "/home/me") id json_parse json_print mcp_table
               persist_app (Err "no terminal") (λ _, 0%N) ∅) (λ r,
    contains r.2 "eligible" || contains r.2 "nothing").
Definition start_tray_daemon_dry_run_short_circuits : bool :=
  contains (start_tray_daemon (Some "/home/me") id None (λ _ _, Err "not started")
              (persist_app <| dry_run := true |>) ∅).2 "dry-run".
End PersistTests.

(** ** [wizard/keys.rs] *)
Module KeysTests.
(** A key on a host with these files. *)
Definition key_on (fs : FileTree) (app : AppState) (k : KeyCode) : AppState * bool :=
  handle_key (Some "/home/me") id json_parse mcp_table (no_processes fs) app k.
Definition hit (app : AppState) (k : KeyCode) : AppState * bool := key_on ∅ app k.
Definition hit_all (app : AppState) (ks : list KeyCode) : AppState :=
  foldl (λ app k, (hit app k).1) app ks.

Definition make_app (step : WizardStep.WizardStep) : AppState := blank step true.
Definition make_service (nm : string) (selected : bool) : ServiceEntry :=
  listed nm ("@modelcontextprotocol/server-" +:+ nm) selected.
Definition ok_source_at (p : string) (n : nat) : SourceEntry :=
  mkSourceEntry (claude p) (SourceStatus.Ok n) true.
Definition make_app_with_sources : AppState * FileTree :=
  ((make_app WizardStep.DiscoverySources) <| sources := [ok_source_at "/d/claude.json" 1] |>,
   {["/d/claude.json" := q "{'mcpServers': {'memory': {'command': 'npx', 'args': ['@modelcontextprotocol/server-memory']}}}"]}).
Definition reviewing (svcs : list ServiceEntry) : AppState :=
  (make_app WizardStep.ServerReview) <| app_services := svcs |>.
Definition at_step (app : AppState) (s : WizardStep.WizardStep) : bool := assert_eq (wizard_step app) s.
Definition pending_is (app : AppState) (a : option PendingAction.PendingAction) : bool :=
  assert_eq (pending_action app) a.

Definition step1_n_advances_to_step2_when_a_source_is_selected : bool :=
  let '(app, fs) := make_app_with_sources in
  let '(app, done) := key_on fs app (Char "n") in
  negb done && at_step app WizardStep.ServerReview &&
  expect (List.find (λ s, str_eqb (se_name s) "memory") (app_services app)) (λ memory,
    se_selected memory &&
    match se_source memory with ServiceSource.Client HostKind.Claude _ => true | _ => false end).

Definition step2_blocks_advance_when_zero_services_selected : bool :=
  let '(app, done) := hit (reviewing [make_service "memory" false; make_service "filesystem" false])
                        (Char "n") in
  negb done && at_step app WizardStep.ServerReview &&
  contains (message app) "Select at least one server".
Definition step2_advances_when_at_least_one_service_selected : bool :=
  let '(app, done) := hit (reviewing [make_service "memory" true; make_service "filesystem" false])
                        (Char "n") in
  negb done && at_step app WizardStep.StrategyChoice.

Definition step3_advances_to_step4 (s : Strategy.Strategy) : bool :=
  let '(app, done) := hit ((make_app WizardStep.StrategyChoice) <| strategy := s |>) (Char "n") in
  negb done && at_step app WizardStep.SummaryConfirm &&
  match summary_action app with SummaryAction.Confirm => true | _ => false end.
Definition step3_advances_to_step4_for_unified : bool := step3_advances_to_step4 Strategy.Unified.
Definition step3_advances_to_step4_for_per_client : bool := step3_advances_to_step4 Strategy.PerClient.
Definition step3_advances_to_step4_for_auto_rewire : bool := step3_advances_to_step4 Strategy.AutoRewire.
Definition step3_quick_pick_keys_set_strategy : bool :=
  let app := make_app WizardStep.StrategyChoice in
  let app1 := hit_all app [Char "1"] in
  let app2 := hit_all app1 [Char "2"] in
  let app3 := hit_all app2 [Char "3"] in
  match strategy app1, strategy app2, strategy app3 with
  | Strategy.Unified, Strategy.PerClient, Strategy.AutoRewire => true
  | _, _, _ => false
  end.

Definition summary (s : Strategy.Strategy) (a : SummaryAction.SummaryAction) : AppState * bool :=
  hit ((make_app WizardStep.SummaryConfirm) <| strategy := s |> <| summary_action := a |>) Enter.
Definition step4_confirm_unified_queues_generate_unified_and_exits_loop : bool :=
  let '(app, done) := summary Strategy.Unified SummaryAction.Confirm in
  done && pending_is app (Some PendingAction.GenerateUnified).
Definition step4_confirm_per_client_queues_generate_per_client : bool :=
  let '(app, done) := summary Strategy.PerClient SummaryAction.Confirm in
  done && pending_is app (Some PendingAction.GeneratePerClient).
Definition step4_confirm_auto_rewire_queues_auto_rewire : bool :=
  let '(app, done) := summary Strategy.AutoRewire SummaryAction.Confirm in
  done && pending_is app (Some PendingAction.AutoRewire).
Definition step4_cancel_exits_with_no_pending_action : bool :=
  let '(app, done) := summary Strategy.Unified SummaryAction.Cancel in
  done && pending_is app None.
Definition step4_back_returns_to_strategy_choice_without_action : bool :=
  let '(app, done) := summary Strategy.Unified SummaryAction.Back in
  negb done && at_step app WizardStep.StrategyChoice && pending_is app None.

Definition asked_for_tray (c : TrayChoice.TrayChoice) : AppState * bool :=
  hit ((make_app WizardStep.ResultAndTray) <| tray_choice := c |>) Enter.
Definition step5_start_now_queues_start_tray_daemon : bool :=
  let '(app, done) := asked_for_tray TrayChoice.StartNow in
  done && pending_is app (Some PendingAction.StartTrayDaemon).
Definition step5_no_exits_with_no_pending_action : bool :=
  let '(app, done) := asked_for_tray TrayChoice.No in
  done && pending_is app None.

Definition editing_app (text : string) : AppState :=
  (make_app WizardStep.DiscoverySources) <| custom_path := mkCustomPathInput (chars text) true None |>.
Definition buffer_is (app : AppState) (text : string) : bool :=
  assert_eq (of_chars (buffer (custom_path app))) text.
Definition step1_i_enters_custom_path_editing_mode : bool :=
  let app := (hit (make_app WizardStep.DiscoverySources) (Char "i")).1 in
  editing (custom_path app) && contains (message app) "Editing custom path".
Definition step1_editing_buffers_typed_chars_and_handles_backspace : bool :=
  let typed := hit_all (editing_app "") (Char <$> chars "/tmp/x") in
  let erased := hit_all typed [Backspace] in
  buffer_is typed "/tmp/x" && buffer_is erased "/tmp/" && editing (custom_path erased).
Definition step1_enter_on_empty_buffer_reports_path_was_empty : bool :=
  let app := (hit (editing_app "") Enter).1 in
  negb (editing (custom_path app)) &&
  assert_eq (input_status (custom_path app)) (Some "Path was empty.") &&
  match sources app with [] => true | _ => false end.
Definition step1_enter_on_non_empty_path_appends_source_entry : bool :=
  let fs : FileTree :=
    {["/d/custom.json" := q "{'mcpServers': {'foo': {'command': 'echo', 'args': ['foo']}}}"]} in
  let app := (key_on fs (editing_app "/d/custom.json") Enter).1 in
  negb (editing (custom_path app)) &&
  match sources app with
  | [s] => source_selected s &&
           match source_status s with SourceStatus.Ok n => assert_eq n 1%nat | _ => false end
  | _ => false
  end.
Definition step1_esc_in_edit_mode_cancels_editing : bool :=
  let app := (hit (editing_app "/tmp/abc") Esc).1 in
  negb (editing (custom_path app)) && buffer_is app "/tmp/abc".

Definition two_sources : AppState :=
  make_app_with_sources.1 <| sources ::= λ l, l ++
    [mkSourceEntry (claude "/d/second.json") SourceStatus.Empty false] |>.
Definition step1_up_clamps_at_zero : bool :=
  assert_eq (selected_source (hit (two_sources <| selected_source := 0%nat |>) Up).1) 0%nat.
Definition step1_down_clamps_at_last_index : bool :=
  let last := (length (sources two_sources) - 1)%nat in
  assert_eq (selected_source (hit (two_sources <| selected_source := last |>) Down).1) last.
Definition step2_up_down_clamps_at_boundaries : bool :=
  let app := reviewing [make_service "a" true; make_service "b" true] in
  let last := (length (app_services app) - 1)%nat in
  assert_eq (selected_service (hit (app <| selected_service := 0%nat |>) Up).1) 0%nat &&
  assert_eq (selected_service (hit (app <| selected_service := last |>) Down).1) last.

Definition all_steps : list WizardStep.WizardStep :=
  [WizardStep.DiscoverySources; WizardStep.ServerReview; WizardStep.StrategyChoice;
   WizardStep.SummaryConfirm; WizardStep.ResultAndTray].
Definition q_quits_from_any_step : bool :=
  forallb (λ step, (hit (make_app step) (Char "q")).2) all_steps.
Definition draw_ui_renders_without_panic_on_every_step : bool :=
  forallb (λ step,
    let app := (make_app step) <| app_services := [make_service "memory" true] |>
                 <| strategy_result := Some "dry-run summary" |> <| message := "rendering" |> in
    is_some (draw_ui (mkRect 0 0 120 40) (Some "/home/me") app)) all_steps.
End KeysTests.

(** ** [wizard/ui.rs] *)
Module UiTests.
Definition ui_service (nm : string) (source : ServiceSource.ServiceSource) (selected : bool) : ServiceEntry :=
  mkServiceEntry nm (entry_config (svc nm "npx" ["@modelcontextprotocol/server-memory"]))
    HealthStatus.Unknown source None selected.
Definition app_for_summary : AppState :=
  blank_app WizardStep.SummaryConfirm "/tmp/mux.toml"
    [mkSourceEntry (claude "/tmp/claude.json") (SourceStatus.Ok 1) true;
     mkSourceEntry (json_host "/tmp/codex.toml" HostKind.Codex ConfigSchema.McpServersJson)
       (SourceStatus.Ok 1) true]
    [ui_service "memory" (ServiceSource.Client HostKind.Claude "/tmp/claude.json") true;
     ui_service "brave" (ServiceSource.Client HostKind.Codex "/tmp/codex.toml") false;
     ui_service "running-only" ServiceSource.DetectedRunning true]
    Strategy.PerClient true.
Definition per_client_summary_kinds_follow_selected_services : bool :=
  assert_eq (selected_per_client_output_kinds app_for_summary) [HostKind.Claude].
End UiTests.

(** ** [tray.rs], [multi_tui.rs] and [tray_dashboard.rs] *)
Module DashTests.
Definition base : StatusSnapshot :=
  mkStatusSnapshot "s" "s" ServerStatus.Starting "Starting" StatusLevel.Ok 0 1 1 3 2 false true None
    0 None 1048576 ServerStatus.Starting None HeartbeatMetrics_default 0 false 1000 30000 5.
(** The lines of the snapshot and of the same after a failure. *)
Definition status_and_lines_render : bool :=
  let failed := mkStatusSnapshot "s" "s" (ServerStatus.Failed "x") "Starting" StatusLevel.Ok 0 1 1 3 2
    true false (Some "fail") 0 None 1048576 ServerStatus.Starting None HeartbeatMetrics_default
    0 false 1000 30000 5 in
  contains (tray_status_line base) "Starting" && contains (MuxDash.client_line base) "active 1/3" &&
  contains (pending_line base) "2" && contains (init_line base) "uncached" &&
  contains (restart_line base) "0" &&
  contains (tray_status_line failed) "Failed" && contains (init_line failed) "cached" &&
  contains (restart_line failed) "fail".

Definition test_status (nm : string) (level : StatusLevel.StatusLevel) : MultiServerStatus :=
  mkMultiServerStatus nm level "Running" 2 1 5 0 0 60000 false None.
Definition app_with (l : list (string * StatusLevel.StatusLevel)) : MultiTuiApp :=
  update_statuses (list_to_map ((λ s, (s.1, test_status s.1 s.2)) <$> l)) MultiTuiApp_new.
Definition app_updates_statuses : bool :=
  let app := app_with [("server1", StatusLevel.Ok); ("server2", StatusLevel.Warn)] in
  assert_eq (length (statuses app)) 2%nat && assert_eq (table_selected app) (Some 0%nat).
Definition app_navigation : bool :=
  let app := app_with [("a", StatusLevel.Ok); ("b", StatusLevel.Ok); ("c", StatusLevel.Ok)] in
  let app1 := select_next app in
  let app2 := select_next app1 in
  let app3 := select_next app2 in
  let app4 := select_previous app3 in
  assert_eq (table_selected app) (Some 0%nat) && assert_eq (table_selected app1) (Some 1%nat) &&
  assert_eq (table_selected app2) (Some 2%nat) && assert_eq (table_selected app3) (Some 0%nat) &&
  assert_eq (table_selected app4) (Some 2%nat).
Definition app_selected_server : bool :=
  let app := app_with [("alpha", StatusLevel.Ok); ("beta", StatusLevel.Ok)] in
  assert_eq (selected_server app) (Some "alpha") &&
  assert_eq (selected_server (select_next app)) (Some "beta").
Definition is_color (l : StatusLevel.StatusLevel) (c : Color.Color) : bool :=
  bool_decide (dash_status_color l = c).
Definition status_colors : bool :=
  is_color StatusLevel.Ok Color.Green && is_color StatusLevel.Warn Color.Yellow &&
  is_color StatusLevel.Error Color.Red && is_color StatusLevel.Lazy Color.DarkGray.
Definition app_quit : bool :=
  negb (should_quit MultiTuiApp_new) && should_quit (quit MultiTuiApp_new).
Definition status_icon_mapping : bool :=
  assert_eq (status_icon StatusLevel.Ok) "●" && assert_eq (status_icon StatusLevel.Warn) "⚠" &&
  assert_eq (status_icon StatusLevel.Error) "✖" && assert_eq (status_icon StatusLevel.Lazy) "○".
End DashTests.

(** ** The suite *)
Import ServicesTests PersistTests KeysTests UiTests DashTests.
Definition wizard_tests : list (string * bool) := [
  ("services_from_merge_attribute_first_source_kind",
    services_from_merge_attribute_first_source_kind);
  ("discovered_service_without_socket_leaves_mux_socket_to_generator",
    discovered_service_without_socket_leaves_mux_socket_to_generator);
  ("cmds_equivalent_matches_basename", cmds_equivalent_matches_basename);
  ("unified_dry_run_does_not_write_files", unified_dry_run_does_not_write_files);
  ("unified_with_no_services_selected_is_noop", unified_with_no_services_selected_is_noop);
  ("per_client_with_no_sources_is_noop", per_client_with_no_sources_is_noop);
  ("per_client_scans_honor_step2_deselection", per_client_scans_honor_step2_deselection);
  ("danger_plan_rewrites_only_step2_selected_services",
    danger_plan_rewrites_only_step2_selected_services);
  ("danger_with_no_sources_is_noop", danger_with_no_sources_is_noop);
  ("start_tray_daemon_dry_run_short_circuits", start_tray_daemon_dry_run_short_circuits);
  ("step1_n_advances_to_step2_when_a_source_is_selected",
    step1_n_advances_to_step2_when_a_source_is_selected);
  ("step2_blocks_advance_when_zero_services_selected",
    step2_blocks_advance_when_zero_services_selected);
  ("step2_advances_when_at_least_one_service_selected",
    step2_advances_when_at_least_one_service_selected);
  ("step3_advances_to_step4_for_unified", step3_advances_to_step4_for_unified);
  ("step3_advances_to_step4_for_per_client", step3_advances_to_step4_for_per_client);
  ("step3_advances_to_step4_for_auto_rewire", step3_advances_to_step4_for_auto_rewire);
  ("step3_quick_pick_keys_set_strategy", step3_quick_pick_keys_set_strategy);
  ("step4_confirm_unified_queues_generate_unified_and_exits_loop",
    step4_confirm_unified_queues_generate_unified_and_exits_loop);
  ("step4_confirm_per_client_queues_generate_per_client",
    step4_confirm_per_client_queues_generate_per_client);
  ("step4_confirm_auto_rewire_queues_auto_rewire", step4_confirm_auto_rewire_queues_auto_rewire);
  ("step4_cancel_exits_with_no_pending_action", step4_cancel_exits_with_no_pending_action);
  ("step4_back_returns_to_strategy_choice_without_action",
    step4_back_returns_to_strategy_choice_without_action);
  ("step5_start_now_queues_start_tray_daemon", step5_start_now_queues_start_tray_daemon);
  ("step5_no_exits_with_no_pending_action", step5_no_exits_with_no_pending_action);
  ("step1_i_enters_custom_path_editing_mode", step1_i_enters_custom_path_editing_mode);
  ("step1_editing_buffers_typed_chars_and_handles_backspace",
    step1_editing_buffers_typed_chars_and_handles_backspace);
  ("step1_enter_on_empty_buffer_reports_path_was_empty",
    step1_enter_on_empty_buffer_reports_path_was_empty);
  ("step1_enter_on_non_empty_path_appends_source_entry",
    step1_enter_on_non_empty_path_appends_source_entry);
  ("step1_esc_in_edit_mode_cancels_editing", step1_esc_in_edit_mode_cancels_editing);
  ("step1_up_clamps_at_zero", step1_up_clamps_at_zero);
  ("step1_down_clamps_at_last_index", step1_down_clamps_at_last_index);
  ("step2_up_down_clamps_at_boundaries", step2_up_down_clamps_at_boundaries);
  ("q_quits_from_any_step", q_quits_from_any_step);
  ("draw_ui_renders_without_panic_on_every_step", draw_ui_renders_without_panic_on_every_step);
  ("per_client_summary_kinds_follow_selected_services",
    per_client_summary_kinds_follow_selected_services);
  ("status_and_lines_render", status_and_lines_render);
  ("app_updates_statuses", app_updates_statuses);
  ("app_navigation", app_navigation);
  ("app_selected_server", app_selected_server);
  ("status_colors", status_colors);
  ("app_quit", app_quit);
  ("status_icon_mapping", status_icon_mapping)
].

Theorem wizard_tests_pass : failures wizard_tests = [].
Proof. by_compute. Qed.
