(* ===== verification/ConsoleTests.v ===== *)
(** * ConsoleTests: the tests of the operator console, run on the model

    The test modules of [tui-agent/src/mux.rs], [lib.rs] and [ui.rs] and the files
    [tui-agent/tests/launch_readiness.rs] and [skill_launcher.rs], each test as a
    definition of its name.  A temporary directory is a disk made of a tree of files and
    links. *)
From S2P Require Import Prelude Text Json Shared MuxState Paths Disk Ipc Summaries Wire.
From S2P Require Import Prisms Launch ConsoleConfig Runs ConsoleApp ConsoleView Screen.
From S2P Require Import ConsoleScreen ConsoleLaunch Console Testing.
From Stdlib Require Import Ascii.

#[local] Existing Instance reference_platform.
#[local] Existing Instance stacked_layout.

(** ** Disks *)

(** A path and the directories above it, as far as [fuel] parents. *)
Fixpoint with_parents (fuel : nat) (p : string) : list string :=
  match fuel with
  | O => [p]
  | S fuel => p :: match parent p with Some d => with_parents fuel d | None => [] end
  end.
Definition is_link (links : list (string * string)) (p : string) : option string :=
  snd <$> List.find (λ l, str_eqb l.1 p) links.

(** The disk of a tree of files, with the directories their paths need, and of links;
    the last component of a path may be a link. *)
Definition disk_of (files : list (string * string)) (links : list (string * string)) : Disk :=
  let content p := snd <$> List.find (λ f, str_eqb f.1 p) files in
  let everything := push_all_unseen str_eqb []
    (flat_map (with_parents 20) ((fst <$> files) ++ (fst <$> links))) in
  let kind p := match content p with
                | Some _ => Ok FileKind.File
                | None => if bool_decide (p ∈ everything) then Ok FileKind.Dir else Err "missing"
                end in
  let follow p := default p (is_link links p) in
  {| lstat p := if is_some (is_link links p) then Ok FileKind.Symlink else kind p;
     stat p := kind (follow p);
     canonicalize_path p := match kind (follow p) with Ok _ => Ok (follow p) | Err e => Err e end;
     list_dir p := match kind (follow p) with
                   | Ok FileKind.Dir =>
                       Ok (Ok <$> retain (λ q, bool_decide (parent q = Some (follow p))) everything)
                   | _ => Err "not a directory"
                   end;
     read_text p := match content (follow p) with Some t => Ok t | None => Err "missing" end;
     modified p := None |}.

(** ** [mux.rs] *)
Module MuxTests.
Definition RUNNING_FIXTURE : string := q "{
        'service_name': 'general-memory',
        'server_status': 'Running',
        'restarts': 0,
        'connected_clients': 3,
        'active_clients': 1,
        'max_active_clients': 5,
        'pending_requests': 0,
        'cached_initialize': true,
        'initializing': false,
        'last_reset': null,
        'queue_depth': 0,
        'child_pid': 12345,
        'max_request_bytes': 1048576,
        'restart_backoff_ms': 1000,
        'restart_backoff_max_ms': 30000,
        'max_restarts': 5
    }".
Definition FAILED_FIXTURE : string := q "{
        'service_name': 'brave-search',
        'server_status': {'Failed': 'max restarts reached'},
        'restarts': 5,
        'connected_clients': 0,
        'active_clients': 0,
        'max_active_clients': 5,
        'pending_requests': 0,
        'cached_initialize': false,
        'initializing': false,
        'last_reset': '2026-04-30T12:00:00Z',
        'queue_depth': 0,
        'child_pid': null,
        'max_request_bytes': 1048576,
        'restart_backoff_ms': 1000,
        'restart_backoff_max_ms': 30000,
        'max_restarts': 5
    }".
Definition FORWARD_COMPAT_FIXTURE : string := q "{
        'service_name': 'loctree',
        'server_status': 'Starting',
        'restarts': 0,
        'connected_clients': 0,
        'active_clients': 0,
        'max_active_clients': 5,
        'pending_requests': 0,
        'cached_initialize': false,
        'initializing': true,
        'queue_depth': 0,
        'max_request_bytes': 1048576,
        'restart_backoff_ms': 1000,
        'restart_backoff_max_ms': 30000,
        'max_restarts': 5,
        'future_unknown_field': {'new': 'shape'}
    }".
Definition parsed (text : string) : result string MuxStatusSnapshot := from_json json_parse text.

Definition parses_running_snapshot_with_pid : bool :=
  expect_ok (parsed RUNNING_FIXTURE) (λ snap,
    assert_eq (ms_service_name snap) "general-memory" &&
    match ms_server_status snap with MuxServerStatus.Running => true | _ => false end &&
    assert_eq (ms_child_pid snap) (Some 12345%N) && ms_cached_initialize snap &&
    assert_eq (ms_connected_clients snap) 3%N && assert_eq (ms_active_clients snap) 1%N &&
    is_healthy (ms_server_status snap) && is_none (failure_reason (ms_server_status snap))).
Definition parses_failed_snapshot_and_carries_reason : bool :=
  expect_ok (parsed FAILED_FIXTURE) (λ snap,
    assert_eq (ms_service_name snap) "brave-search" &&
    assert_eq (mux_status_label (ms_server_status snap)) "Failed" &&
    assert_eq (failure_reason (ms_server_status snap)) (Some "max restarts reached") &&
    negb (is_healthy (ms_server_status snap)) && assert_eq (ms_restarts snap) 5%N &&
    assert_eq (ms_child_pid snap) None && assert_eq (ms_last_reset snap) (Some "2026-04-30T12:00:00Z")).
Definition unknown_extra_fields_do_not_break_parsing : bool :=
  expect_ok (parsed FORWARD_COMPAT_FIXTURE) (λ snap,
    assert_eq (ms_service_name snap) "loctree" &&
    match ms_server_status snap with MuxServerStatus.Starting => true | _ => false end &&
    ms_initializing snap).
Definition summary_line_packs_the_essentials_and_includes_pid_when_present : bool :=
  expect_ok (parsed RUNNING_FIXTURE) (λ snap,
    let line := snapshot_summary_line snap in
    contains line "general-memory: Running" && contains line "clients=1/3" &&
    contains line "pending=0" && contains line "queue=0" && contains line "restarts=0" &&
    contains line "pid=12345" && negb (contains line "reason=")).
Definition summary_line_surfaces_failure_reason_for_failed_state : bool :=
  expect_ok (parsed FAILED_FIXTURE) (λ snap,
    let line := snapshot_summary_line snap in
    contains line "brave-search: Failed" && contains line "reason=max restarts reached" &&
    contains line "restarts=5" && negb (contains line "pid=")).

Definition read_returns_actionable_io_error_for_missing_file : bool :=
  let missing := "/d/does-not-exist.json" in
  expect_err (read json_parse (disk_of [] []) missing) (λ err, contains err missing).
Definition read_refuses_non_json_status_file : bool :=
  expect_err (read json_parse (disk_of [("/d/status.txt", RUNNING_FIXTURE)] []) "/d/status.txt")
    (λ err, contains err "refusing non-json rust-mux status file").
Definition read_refuses_symlinked_status_file : bool :=
  let d := disk_of [("/d/real.json", RUNNING_FIXTURE)] [("/d/status.json", "/d/real.json")] in
  expect_err (read json_parse d "/d/status.json")
    (λ err, contains err "refusing unsafe rust-mux status file").

(** The status directory under the home [/d]. *)
Definition in_root (f : string) : string := "/d/.rmcp_servers/rust_mux/" +:+ f.
Definition found_files (env : option string) (files : list (string * string)) : list string :=
  discover_status_files (disk_of files []) env (Some "/d").

Definition discovery_returns_empty_when_home_has_no_rmcp_dir : bool :=
  assert_eq (found_files None []) [].
Definition discovery_picks_up_default_root_status_json_and_lexicographic_extras : bool :=
  let files := [(in_root "status.json", "{}"); (in_root "brave-search.json", "{}");
                (in_root "memory.json", "{}"); (in_root "notes.txt", "ignored")] in
  assert_eq (omap file_name (found_files None files)) ["status.json"; "brave-search.json"; "memory.json"].
Definition discovery_honors_env_override_first_then_default_root_extras : bool :=
  let files := [(in_root "status.json", "{}"); ("/d/custom.json", "{}")] in
  let found := found_files (Some "/d/custom.json") files in
  assert_eq (head found) (Some "/d/custom.json") &&
  any (λ p, bool_decide (file_name p = Some "status.json")) found && bool_decide (NoDup found).
Definition mux_summary_classifies_healthy_unhealthy_and_unreadable : bool :=
  let p := "/tmp/general-memory.json" in
  let healthy := from_path_and_result p (parsed RUNNING_FIXTURE) in
  let failed := from_path_and_result p (parsed FAILED_FIXTURE) in
  let unreadable := from_path_and_result "/tmp/loctree-broken.json" (Err "nope") in
  summary_is_healthy healthy && assert_eq (display_name healthy) "general-memory" &&
  match sum_state healthy with Healthy _ => true | _ => false end &&
  contains (summary_line healthy) "Running" &&
  negb (summary_is_healthy failed) && match sum_state failed with Unhealthy _ => true | _ => false end &&
  contains (summary_line failed) "Failed" && contains (summary_line failed) "max restarts reached" &&
  negb (summary_is_healthy unreadable) && assert_eq (display_name unreadable) "loctree-broken" &&
  contains (summary_line unreadable) "loctree-broken" &&
  contains (summary_line unreadable) "unreadable" && contains (summary_line unreadable) "nope".
Definition read_all_known_snapshots_pairs_paths_with_results : bool :=
  let d := disk_of [(in_root "status.json", RUNNING_FIXTURE); (in_root "broken.json", "not json")] [] in
  match read_all_known_snapshots json_parse d None (Some "/d") with
  | [(good_path, good); (bad_path, bad)] =>
      assert_eq (file_name good_path) (Some "status.json") &&
      expect_ok good (λ snap, assert_eq (ms_service_name snap) "general-memory") &&
      assert_eq (file_name bad_path) (Some "broken.json") && negb (succeeds bad)
  | _ => false
  end.

(** What the socket of a test does. *)
Definition decode_response (line : string) : option MuxControlResponse := json_parse line ≫= de_response.
Definition after (l : list Attempt) : Subscriber := (subscriber_run decode_response subscriber_start l).1.
Definition state_is (s : Subscriber) (st : SubscriberState.SubscriberState) : bool :=
  assert_eq (sub_state s) st.
Definition connects_and_subscribes : bool := state_is (after [Served true []]) SubscriberState.Connected.
Definition reconnects_on_disconnect : bool :=
  state_is (after [Served true []; Served true []]) SubscriberState.Connected.
Definition falls_back_to_polling_after_10_attempts : bool :=
  state_is (after (replicate 15 Refused)) SubscriberState.Polling.
Definition forwards_events_to_rx_channel : bool :=
  let evt := StateChange "test" "Init" "Running" in
  let payload := json_print (ser_response (REvent evt)) in
  match forwarded (after [Served true [payload]]) with
  | [received] => bool_decide (ser_event received = ser_event evt)
  | _ => false
  end.
End MuxTests.

(** ** [lib.rs] and [ui.rs] *)
Module SurfaceTests.
Definition sample_run (id agent session : string) : RenderedRun :=
  mkRenderedRun
    (mkRunSnapshot id (Some ("sess-" +:+ id)) (Some agent) (Some "workflow") (Some "implement")
       (Some "running") None (Some "2026-04-19T10:00:00Z") (Some "2026-04-19T10:01:00Z")
       (Some "2026-04-19T10:01:30Z") (Some ("/tmp/" +:+ id)) (Some session)
       (Some ("/tmp/" +:+ id +:+ "/report.md")) (Some ("/tmp/" +:+ id +:+ "/transcript.log")) None ∅)
    RunKind.Active "just now" [].
Definition sample_config : AppConfig :=
  mkAppConfig "/tmp/state" "/usr/bin/vibecrafted" "/tmp/repo" LaunchRuntime.Terminal "zellij" 250 false.
Definition sample_app : App := {|
  config := sample_config;
  app_state := empty_state "/tmp/state";
  runs := [sample_run "run-1" "codex" "operator-1"; sample_run "run-2" "claude" "operator-2"];
  selected := 0;
  active_tab_index := tab_index AppTab.Monitor;
  launch_kind := LaunchKind.Workflow;
  launch_agent := 0;
  launch_prompt := "Ship the operator surface.";
  launch_runtime := LaunchRuntime.Terminal;
  dispatch_selected := focus_index DispatchFocus.Kind;
  focus := LaunchFocus.Browse;
  status_line := "";
  launch_history := [];
  deep_selected := 0;
  queue_scope := QueueScope.Live;
  search_query := "";
  error_title := "";
  app_error_lines := [];
  artifact_title := "";
  app_artifact_lines := [];
  mux_summaries := [];
  polarize_intents := [];
|}.

(** A world in which nothing is found and no process starts. *)
Definition empty_world : Outside := {|
  disk := disk_of [] [];
  var _ := None;
  now := 0;
  create_dir_all _ := Err "refused";
  write_file _ _ := Err "refused";
  mux_listens := false;
  mux_answers _ := None;
  spawn_detached _ := Err "refused";
  suspension _ := mkSuspension (Ok tt) (Ok tt) (Err "refused") (Ok tt) (Ok tt);
  clipboard _ := Err "refused";
|}.
(** The state after a key. *)
Definition key (k : Key.KeyCode) (a : App) : App :=
  app (handle_key (λ _, None) (λ _, None) (λ _, "") (λ _, None) (λ _, None) json_parse json_print
         (λ c, Some (json_print (ser_command c))) MuxTests.decode_response (λ _, empty_world)
         (mkKeyEvent k false) (mkConsole a [])).1.

Definition tab_is (a : App) (t : AppTab.AppTab) : bool := bool_decide (active_tab a = t).
Definition row_is (a : App) (d : DispatchFocus.DispatchFocus) : bool :=
  bool_decide (dispatch_focus a = d).
Definition focus_is (a : App) (f : LaunchFocus.LaunchFocus) : bool := bool_decide (focus a = f).

Definition handle_key_cycles_tabs_with_tab_and_shift_tab : bool :=
  let app1 := key Key.Tab sample_app in
  let app2 := key Key.BackTab app1 in
  tab_is sample_app AppTab.Monitor && tab_is app1 AppTab.Dispatch && tab_is app2 AppTab.Monitor.
Definition handle_key_routes_arrows_inside_the_active_tab : bool :=
  let app1 := key Key.Down sample_app in
  let app2 := key Key.Down (set_active_tab app1 AppTab.Dispatch) in
  let app3 := key Key.Right app2 in
  let app4 := key Key.Down (set_active_tab app3 AppTab.Controls) in
  assert_eq (selected app1) 1%nat && row_is app2 DispatchFocus.Agent &&
  assert_eq (selected_agent app3) "codex" && assert_eq (deep_selected app4) 1%nat.
Definition handle_key_enters_prompt_edit_from_dispatch_prompt_row : bool :=
  let app1 := (set_active_tab sample_app AppTab.Dispatch)
                <| dispatch_selected := focus_index DispatchFocus.Prompt |> in
  focus_is (key Key.Enter app1) LaunchFocus.EditPrompt.
Definition handle_key_shortcuts_jump_to_dispatch_controls_and_prime_selection : bool :=
  let app1 := key (Key.Char "a") sample_app in
  let app2 := key (Key.Char "v") app1 in
  let app3 := key (Key.Char "d") (set_active_tab app2 AppTab.Monitor) in
  tab_is app1 AppTab.Dispatch && row_is app1 DispatchFocus.Agent &&
  assert_eq (selected_agent app1) "codex" &&
  tab_is app2 AppTab.Dispatch && row_is app2 DispatchFocus.Runtime &&
  bool_decide (launch_runtime app2 = LaunchRuntime.Visible) &&
  tab_is app3 AppTab.Controls && contains (status_line app3) "Controls ready".
Definition handle_key_controls_can_move_across_run_list_and_prompt_edit_saves_multiline_prompt : bool :=
  let app1 := key Key.Right (set_active_tab sample_app AppTab.Controls) in
  let app2 := key Key.Left app1 in
  let app3 := (set_active_tab app2 AppTab.Dispatch) <| focus := LaunchFocus.EditPrompt |> in
  let app4 := key Key.Esc (key (Key.Char "n") (key Key.Enter app3)) in
  assert_eq (selected app1) 1%nat && assert_eq (selected app2) 0%nat &&
  contains (launch_prompt app4) (String newline "n") && focus_is app4 LaunchFocus.Browse &&
  contains (status_line app4) "prompt updated".
Definition set_active_tab_resets_focus_to_browse : bool :=
  let app1 := set_active_tab (sample_app <| focus := LaunchFocus.EditPrompt |>) AppTab.Controls in
  tab_is app1 AppTab.Controls && focus_is app1 LaunchFocus.Browse.

Definition launch_lines (e : LaunchRunError) : list string :=
  ConsoleLaunch.detail_lines "zellij --session foo" e.
Definition launch_run_error_detail_lines_render_probe_error_when_present : bool :=
  let stderr := "boom" +:+ String newline ("stack" +:+ String newline "") in
  let lines := launch_lines (Exec "command exited with status: 1" stderr
    (Some "failed to run zellij readiness probe: No such file or directory") None) in
  assert_eq (lines !! 0%nat) (Some "command: zellij --session foo") &&
  assert_eq (lines !! 1%nat) (Some "error: command exited with status: 1") &&
  any (λ l, contains l "readiness probe:" && contains l "No such file or directory") lines &&
  any (str_eqb "stderr:") lines && any (str_eqb "boom") lines.
Definition launch_run_error_detail_lines_skip_probe_section_when_none : bool :=
  negb (any (λ l, contains l "readiness probe:")
          (launch_lines (Exec "command exited with status: 2" "" None None))).

(** The text on the screen: what the widgets of the frame were given. *)
Definition block_text (b : Block) : string := line_text (block_title b).
Definition lines_text (l : list Line) : string := join (String newline "") (line_text <$> l).
Definition widget_text (w : Widget) : string :=
  match w with
  | WClear => ""
  | WParagraph p => default "" (block_text <$> par_block p) +:+ " " +:+ lines_text (par_lines p)
  | WList items b => block_text b +:+ " " +:+ lines_text items
  | WTabs titles b _ _ _ _ => block_text b +:+ " " +:+ lines_text titles
  | WTable header rows _ b _ _ =>
      block_text b +:+ " " +:+ join " " (cell_text <$> header ++ concat rows)
  end.
Definition render_to_string (a : App) : string :=
  match draw (mkRect 0 0 120 40) None (λ _, false) None None a with
  | Some frame => join (String newline "") ((λ wr, widget_text wr.1) <$> frame)
  | None => "panic"
  end.
Definition shows (a : App) (texts : list string) : bool :=
  let rendered := render_to_string a in forallb (contains rendered) texts.
Definition hides (a : App) (text : string) : bool := negb (contains (render_to_string a) text).

Definition monitor_tab_renders_monitor_surface : bool :=
  shows sample_app ["Monitor pulse"; "Live queue"; "Run dossier"; "Recent timeline"] &&
  hides sample_app "Dispatch playbook".
Definition dispatch_tab_renders_dispatch_surface : bool :=
  let app := set_active_tab sample_app AppTab.Dispatch in
  shows app ["Dispatch deck"; "Dispatch playbook"; "Launch trail"] && hides app "Control actions".
Definition monitor_tab_renders_mux_panel_when_summaries_exist : bool :=
  let app := sample_app <| mux_summaries :=
    [from_path_and_result "/tmp/memory.json" (MuxTests.parsed MuxTests.RUNNING_FIXTURE);
     from_path_and_result "/tmp/brave.json" (MuxTests.parsed MuxTests.FAILED_FIXTURE)] |> in
  shows app ["rust-mux"; "general-memory"; "brave-search"; "Failed"; "Run dossier"; "Recent timeline"] &&
  (contains (render_to_string app) "(2)" || contains (render_to_string app) "(1/2 need attention)").
Definition monitor_tab_renders_polarize_intent_panel : bool :=
  let app := sample_app <| polarize_intents :=
    [mkPolarizeIntent PolarizeBand.Doctrine 14 "polr-123" "/tmp/polarize/polr-123/prism.json"] |> in
  shows app ["polarize"; "doctrine"; "score 14"; "polr-123"].
Definition monitor_tab_skips_mux_panel_when_summaries_empty : bool := hides sample_app "rust-mux".
Definition controls_tab_renders_controls_surface : bool :=
  let app := set_active_tab sample_app AppTab.Controls in
  shows app ["Action deck"; "Control actions"; "Artifact access"; "Selected timeline"] &&
  hides app "Dispatch playbook".
End SurfaceTests.

(** ** [tests/launch_readiness.rs] *)
Module LaunchTests.
Definition build_command (session : string) : LaunchCommand :=
  mkLaunchCommand "/d/zellij.sh" ["--session"; session; "options"; "--layout-string"; "noop"] [].
Definition child_exit (ok : bool) : result string Output :=
  Ok (mkOutput ok (if ok then "exit status: 0" else "exit status: 7") "" "").

(** The answers of the fake multiplexer: its probe, which shows [session] from turn
    [visible] on, and its process, which ends after [ends] turns. *)
Definition fake_zellij (probe_fails : bool) (session : string) (visible ends : nat) : ChildHistory :=
  mkChildHistory
    (λ i, mkTurn
       (Ok (if probe_fails then mkOutput false "exit status: 2" "" "probe config not found"
            else mkOutput true "exit status: 0" (if bool_decide (visible ≤ i)%nat then session else "") ""))
       (if bool_decide (ends ≤ i)%nat then Exited else StillRunning) 3)
    (child_exit true).
Definition never : nat := 1000.
Definition waited (session : string) (h : ChildHistory) (k : Waited → bool) : bool :=
  expect (wait_for_interactive_launch (build_command session) h) k.
Definition failed_with (w : Waited) (k : string → option string → option string → bool) : bool :=
  expect_err (outcome w) (λ e, match e with
                               | Exec message _ probe_error at_deadline => k message probe_error at_deadline
                               | ClientDrift _ => false
                               end).

Definition quick_child_exit_before_visibility_reports_session_exited : bool :=
  let session := "vc-op-fake-quickexit" in
  waited session (fake_zellij false session never 0) (λ w, failed_with w (λ message _ _,
    contains message "exited before the readiness probe saw it" && contains message session)).
Definition slow_visibility_then_child_exits_returns_success : bool :=
  let session := "vc-op-fake-slow" in
  waited session (fake_zellij false session 3 6) (λ w, expect_ok (outcome w) out_success).
(** The bound on the time is that on the turns. *)
Definition deadline_kills_child_when_session_never_visible : bool :=
  let session := "vc-op-fake-hang" in
  waited session (fake_zellij false session never never) (λ w, killed w &&
    failed_with w (λ message _ _,
      contains message "did not appear within" && contains message session)).
Definition probe_failure_surfaces_in_launch_error : bool :=
  waited "vc-op-fake-probe-err" (fake_zellij true "" never never) (λ w,
    failed_with w (λ _ probe_error at_deadline,
      expect probe_error (λ e, contains e "probe config not found") &&
      expect at_deadline (λ e, contains e "killed after 2000ms" && contains e "last probe error:" &&
                               contains e "probe config not found")) &&
    expect_err (outcome w) (λ e,
      let detail := ConsoleLaunch.detail_lines "zellij ..." e in
      let shown prefix := any (λ l, starts_with l prefix && contains l "probe config not found") detail in
      shown "readiness probe:" && shown "readiness timeout probe:")).

(** [pre_launch_verify] on a mux that answers with this result, or on none. *)
Definition verified (answer : option VerifyResult) : result VerifyHalt unit :=
  pre_launch_verify (is_some answer) (λ c, Some (json_print (ser_command c)))
    (λ _, (λ r, json_print (ser_response (RVerify r))) <$> answer)
    MuxTests.decode_response ClientKind.Codex.
Definition pre_launch_verify_passes_on_clean_config : bool :=
  succeeds (verified (Some (mkVerifyResult true []))).
Definition pre_launch_verify_blocks_dispatch_on_drift : bool :=
  expect_err (verified (Some (mkVerifyResult false [mkNonMuxEntry "codex" "/tmp/config" 12 "codex"]))) (λ err,
    match err with Drift [s] => assert_eq (nm_client s) "codex" | _ => false end).
Definition pre_launch_verify_falls_back_to_polling_when_socket_down : bool := succeeds (verified None).
Definition client_drift_overlay_carries_non_mux_paths_to_fix_action : bool :=
  let halt := Drift [mkNonMuxEntry "claude" "/Users/x/.claude/config.toml" 42 "claude"] in
  let details := ConsoleLaunch.detail_lines "" (ClientDrift halt) in
  any (λ l, contains l "Client drift detected. Dispatch halted.") details &&
  any (λ l, contains l "/Users/x/.claude/config.toml:42") details &&
  any (λ l, contains l "Press F to auto-fix") details.
End LaunchTests.

(** ** [tests/skill_launcher.rs] *)
Module SkillTests.
Definition skill_launch_command_assembles_argv_for_every_skill_and_agent : bool :=
  forallb (λ entry, forallb (λ agent,
    let command := build_skill_launch_command "/usr/bin/vibecrafted" (slug entry) agent SkillAgent.Codex
                     (Prompt "ship the skill surface") [("VIBECRAFTED_ROOT", "/tmp/repo")] in
    assert_eq (lc_program command) "/usr/bin/vibecrafted" &&
    assert_eq (take 4 (Some <$> lc_args command))
      [command_token entry; Some (resolved_cli_token agent SkillAgent.Codex); Some "--prompt";
       Some "ship the skill surface"] &&
    bool_decide (lc_env command = [("VIBECRAFTED_ROOT", "/tmp/repo")]))
    [SkillAgent.Claude; SkillAgent.Codex; SkillAgent.Gemini; SkillAgent.Any]) CATALOG.
Definition skill_launch_command_supports_file_payload_and_empty_payload : bool :=
  let file_command := build_skill_launch_command "vibecrafted" "vc-polarize" SkillAgent.Codex
                        SkillAgent.Claude (Launch.File "/tmp/prism-pack.md") [] in
  let empty_command := build_skill_launch_command "vibecrafted" "vc-init" SkillAgent.Any
                         SkillAgent.Gemini NoPayload [] in
  assert_eq (lc_args file_command) ["polarize"; "codex"; "--file"; "/tmp/prism-pack.md"] &&
  assert_eq (lc_args empty_command) ["init"; "gemini"].

Definition prism_path (run : string) : string :=
  "/d/artifacts/VetCoders/vc-operator/2026_0508/polarize/" +:+ run +:+ "/prism.json".
Definition prism (action : string) : string :=
  q "{'schema_version':'loctree.prism.v1.1','total_score':13,'band_action':'" +:+ action +:+ q "'}".
Definition polarize_intent_ingests_prism_payload_and_renders_band_action : bool :=
  let d := disk_of [(prism_path "polr-123", prism "doctrine")] [] in
  expect_ok (read_intent json_parse d (prism_path "polr-123")) (λ intent,
    bool_decide (pi_band intent = PolarizeBand.Doctrine) && assert_eq (pi_score intent) 13%N &&
    assert_eq (pi_run_id intent) "polr-123" &&
    contains (intent_summary_line intent) "doctrine pass with regression contract" &&
    match current_intents_from_home json_parse d "/d" with
    | [found] => assert_eq (intent_summary_line found) (intent_summary_line intent)
    | _ => false
    end).
Definition polarize_intent_prefers_canonical_band_action_over_score_fallback : bool :=
  let d := disk_of [(prism_path "polr-action", prism "pass")] [] in
  expect_ok (read_intent json_parse d (prism_path "polr-action")) (λ intent,
    bool_decide (pi_band intent = PolarizeBand.Pass) && assert_eq (pi_score intent) 13%N).
Definition valid_prism : string * string :=
  (prism_path "polr-valid",
   q "{'schema_version':'loctree.prism.v1.1','total_score':9,'band_action':'pass','run_id':'polr-valid'}").
Definition found_ids (d : Disk) : list string :=
  pi_run_id <$> current_intents_from_home json_parse d "/d".
Definition polarize_intent_discovery_skips_malformed_prisms_without_hiding_valid_intents : bool :=
  let d := disk_of [valid_prism;
    (prism_path "polr-bad", q "{'schema_version':'loctree.prism.v1','total_score':'bad'}")] [] in
  negb (succeeds (read_intent json_parse d (prism_path "polr-bad"))) &&
  assert_eq (found_ids d) ["polr-valid"] &&
  forallb (λ i, bool_decide (pi_band i = PolarizeBand.Pass)) (current_intents_from_home json_parse d "/d").
Definition polarize_intent_discovery_does_not_follow_symlinked_directories : bool :=
  let escaped := "/e/VetCoders/vc-operator/2026_0508/polarize/polr-escaped/prism.json" in
  let d := disk_of [valid_prism; (escaped, prism "doctrine")] [("/d/artifacts/escaped-link", "/e")] in
  assert_eq (found_ids d) ["polr-valid"].
End SkillTests.

(** ** The suite *)
Import MuxTests SurfaceTests LaunchTests SkillTests.
Definition console_tests : list (string * bool) := [
  ("parses_running_snapshot_with_pid", parses_running_snapshot_with_pid);
  ("parses_failed_snapshot_and_carries_reason", parses_failed_snapshot_and_carries_reason);
  ("unknown_extra_fields_do_not_break_parsing", unknown_extra_fields_do_not_break_parsing);
  ("summary_line_packs_the_essentials_and_includes_pid_when_present",
    summary_line_packs_the_essentials_and_includes_pid_when_present);
  ("summary_line_surfaces_failure_reason_for_failed_state",
    summary_line_surfaces_failure_reason_for_failed_state);
  ("read_returns_actionable_io_error_for_missing_file",
    read_returns_actionable_io_error_for_missing_file);
  ("read_refuses_non_json_status_file", read_refuses_non_json_status_file);
  ("read_refuses_symlinked_status_file", read_refuses_symlinked_status_file);
  ("discovery_returns_empty_when_home_has_no_rmcp_dir",
    discovery_returns_empty_when_home_has_no_rmcp_dir);
  ("discovery_picks_up_default_root_status_json_and_lexicographic_extras",
    discovery_picks_up_default_root_status_json_and_lexicographic_extras);
  ("discovery_honors_env_override_first_then_default_root_extras",
    discovery_honors_env_override_first_then_default_root_extras);
  ("mux_summary_classifies_healthy_unhealthy_and_unreadable",
    mux_summary_classifies_healthy_unhealthy_and_unreadable);
  ("read_all_known_snapshots_pairs_paths_with_results",
    read_all_known_snapshots_pairs_paths_with_results);
  ("connects_and_subscribes", connects_and_subscribes);
  ("reconnects_on_disconnect", reconnects_on_disconnect);
  ("falls_back_to_polling_after_10_attempts", falls_back_to_polling_after_10_attempts);
  ("forwards_events_to_rx_channel", forwards_events_to_rx_channel);
  ("handle_key_cycles_tabs_with_tab_and_shift_tab", handle_key_cycles_tabs_with_tab_and_shift_tab);
  ("handle_key_routes_arrows_inside_the_active_tab",
    handle_key_routes_arrows_inside_the_active_tab);
  ("handle_key_enters_prompt_edit_from_dispatch_prompt_row",
    handle_key_enters_prompt_edit_from_dispatch_prompt_row);
  ("handle_key_shortcuts_jump_to_dispatch_controls_and_prime_selection",
    handle_key_shortcuts_jump_to_dispatch_controls_and_prime_selection);
  ("handle_key_controls_can_move_across_run_list_and_prompt_edit_saves_multiline_prompt",
    handle_key_controls_can_move_across_run_list_and_prompt_edit_saves_multiline_prompt);
  ("set_active_tab_resets_focus_to_browse", set_active_tab_resets_focus_to_browse);
  ("launch_run_error_detail_lines_render_probe_error_when_present",
    launch_run_error_detail_lines_render_probe_error_when_present);
  ("launch_run_error_detail_lines_skip_probe_section_when_none",
    launch_run_error_detail_lines_skip_probe_section_when_none);
  ("monitor_tab_renders_monitor_surface", monitor_tab_renders_monitor_surface);
  ("dispatch_tab_renders_dispatch_surface", dispatch_tab_renders_dispatch_surface);
  ("monitor_tab_renders_mux_panel_when_summaries_exist",
    monitor_tab_renders_mux_panel_when_summaries_exist);
  ("monitor_tab_renders_polarize_intent_panel", monitor_tab_renders_polarize_intent_panel);
  ("monitor_tab_skips_mux_panel_when_summaries_empty",
    monitor_tab_skips_mux_panel_when_summaries_empty);
  ("controls_tab_renders_controls_surface", controls_tab_renders_controls_surface);
  ("quick_child_exit_before_visibility_reports_session_exited",
    quick_child_exit_before_visibility_reports_session_exited);
  ("slow_visibility_then_child_exits_returns_success",
    slow_visibility_then_child_exits_returns_success);
  ("deadline_kills_child_when_session_never_visible",
    deadline_kills_child_when_session_never_visible);
  ("probe_failure_surfaces_in_launch_error", probe_failure_surfaces_in_launch_error);
  ("pre_launch_verify_passes_on_clean_config", pre_launch_verify_passes_on_clean_config);
  ("pre_launch_verify_blocks_dispatch_on_drift", pre_launch_verify_blocks_dispatch_on_drift);
  ("pre_launch_verify_falls_back_to_polling_when_socket_down",
    pre_launch_verify_falls_back_to_polling_when_socket_down);
  ("client_drift_overlay_carries_non_mux_paths_to_fix_action",
    client_drift_overlay_carries_non_mux_paths_to_fix_action);
  ("skill_launch_command_assembles_argv_for_every_skill_and_agent",
    skill_launch_command_assembles_argv_for_every_skill_and_agent);
  ("skill_launch_command_supports_file_payload_and_empty_payload",
    skill_launch_command_supports_file_payload_and_empty_payload);
  ("polarize_intent_ingests_prism_payload_and_renders_band_action",
    polarize_intent_ingests_prism_payload_and_renders_band_action);
  ("polarize_intent_prefers_canonical_band_action_over_score_fallback",
    polarize_intent_prefers_canonical_band_action_over_score_fallback);
  ("polarize_intent_discovery_skips_malformed_prisms_without_hiding_valid_intents",
    polarize_intent_discovery_skips_malformed_prisms_without_hiding_valid_intents);
  ("polarize_intent_discovery_does_not_follow_symlinked_directories",
    polarize_intent_discovery_does_not_follow_symlinked_directories)
].

Theorem console_tests_pass : failures console_tests = [].
Proof. by_compute. Qed.
