(* ===== verification/BoardTests.v ===== *)
(** * BoardTests: the contract tests of the operator console, run on the model

    The tests of [tui-agent/tests/state_contract.rs], each as a definition of its name:
    the run board that is loaded from a directory, the commands that are built, and what
    the surfaces offer. *)
From S2P Require Import Prelude Text Json Shared MuxState Paths Disk Ipc Summaries Wire.
From S2P Require Import Prisms Launch ConsoleConfig Scan Runs RunFiles ConsoleApp ConsoleView.
From S2P Require Import ConsoleLaunch Console Testing ConsoleTests.
From Stdlib Require Import Ascii.

#[local] Existing Instance reference_platform.

(** ** Times

    The times of the tests, [YYYY-MM-DDTHH:MM:SSZ], as nanoseconds since the epoch. *)
Definition digits_at (s : string) (i n : nat) : option Z := Z.of_N <$> parse_digits (String.substring i n s).
(** The days from 1970-01-01 to a date of the Gregorian calendar. *)
Definition days_from_civil (y m d : Z) : Z :=
  let y := if (m <=? 2)%Z then (y - 1)%Z else y in
  let yoe := (y mod 400)%Z in
  let doy := ((153 * (if (2 <? m)%Z then m - 3 else m + 9) + 2) / 5 + d - 1)%Z in
  ((y / 400) * 146097 + yoe * 365 + yoe / 4 - yoe / 100 + doy - 719468)%Z.
Definition rfc3339 (s : string) : option Z :=
  y ← digits_at s 0 4; m ← digits_at s 5 2; d ← digits_at s 8 2;
  hh ← digits_at s 11 2; mm ← digits_at s 14 2; ss ← digits_at s 17 2;
  Some ((((days_from_civil y m d * 24 + hh) * 60 + mm) * 60 + ss) * 1000000000)%Z.
Example rfc3339_reads : rfc3339 "2026-04-16T10:02:00Z" = Some (1776333720 * 1000000000)%Z.
Proof. by_compute. Qed.

(** ** Loading the board *)
Definition parse_run (text : string) : option RunSnapshot := json_parse text ≫= de_run.
Definition parse_event (text : string) : option RunEvent := json_parse text ≫= de_run_event.
Definition load_from (files links : list (string * string)) : result string ControlPlaneState :=
  load (fs_of (disk_of files links)) parse_run parse_event json_parse "/d".

Definition loads_runs_and_events_from_control_plane_state : bool :=
  let run := q "{
            'run_id': 'run-a',
            'agent': 'codex',
            'skill': 'workflow',
            'mode': 'implement',
            'state': 'active',
            'started_at': '2026-04-16T10:00:00Z',
            'updated_at': '2026-04-16T10:02:00Z',
            'operator_session': 'session-123',
            'latest_report': '/tmp/report.md'
        }" in
  let events := q "{'ts':'2026-04-16T10:02:01Z','run_id':'run-a','kind':'heartbeat','message':'still running'}"
                +:+ String newline "" in
  expect_ok (load_from [("/d/runs/run-a.json", run); ("/d/events.jsonl", events)] []) (λ st,
    assert_eq (run_id <$> cp_runs st) ["run-a"] && assert_eq (ev_kind <$> cp_events st) ["heartbeat"]).
Definition archived_run_markers_hide_runs_from_operator_board : bool :=
  let run id := q "{'run_id':'" +:+ id +:+ q "','state':'active','updated_at':'2026-04-16T10:00:00Z'}" in
  expect_ok (load_from [("/d/runs/run-a.json", run "run-a"); ("/d/runs/run-b.json", run "run-b");
                        ("/d/runs/.archived/run-a.json", q "{'run_id':'run-a'}")] []) (λ st,
    assert_eq (size (archived_run_ids st)) 1%nat && assert_eq (run_id <$> cp_runs st) ["run-b"]).
Definition ignores_symlink_escapes_in_control_plane_root : bool :=
  let escaped := q "{'run_id':'escape','state':'active','updated_at':'2026-04-16T10:00:00Z'}" in
  expect_ok (load_from [("/e/escaped.json", escaped)] [("/d/runs/symlink.json", "/e/escaped.json")]) (λ st,
    match cp_runs st with [] => true | _ => false end).

(** A run with the fields the tests give one. *)
Definition run_of (id session agent : option string) (st : string) (started updated beat : string)
    (rt operator report transcript : option string) : RunSnapshot :=
  mkRunSnapshot (default "" id) session agent (Some "workflow") (Some "implement") (Some st) None
    (Some started) (Some updated) (Some beat) rt operator report transcript None ∅.
Definition classifies_stale_active_runs_as_stalled : bool :=
  let s := run_of (Some "run-a") None (Some "codex") "active" "2026-04-16T09:00:00Z"
             "2026-04-16T09:05:00Z" "2026-04-16T09:06:00Z" None None None None in
  expect (rfc3339 "2026-04-16T10:30:00Z") (λ now,
    bool_decide (classify_run rfc3339 Some s now = RunKind.Stalled)).

(** ** Building commands *)
Definition DECK : string := "/usr/bin/vibecrafted".
Definition request (k : LaunchKind.LaunchKind) (agent prompt : string) (rt : LaunchRuntime.LaunchRuntime)
    (root zellij : string) (env : Env) (count depth : N) (session : option string) : LaunchRequest :=
  mkLaunchRequest k agent prompt rt (Some root) (Some zellij) env (Some count) (Some depth) session.
(** On a host with these files and, if given, [ZELLIJ_CONFIG_DIR]. *)
Definition command_on (dir : option string) (files : list string) (r : LaunchRequest) : LaunchCommand :=
  build_launch_command dir (λ p, bool_decide (p ∈ files)) DECK r.
Definition after_flag (flag : string) (l : list string) : option string := value_after flag l.
Definition index_of (a : string) (l : list string) : option nat := position (str_eqb a) l.
Definition has_arg (a : string) (l : list string) : bool := any (str_eqb a) l.

Definition builds_existing_command_deck_launches : bool :=
  let command := command_on None [] (request LaunchKind.Research "claude" "Investigate the state format."
    LaunchRuntime.Headless "/tmp/vibecrafted" "zellij" [] 3 3 None) in
  assert_eq (lc_program command) DECK &&
  match lc_args command with
  | a0 :: a1 :: _ :: a3 :: a4 :: a5 :: a6 :: _ =>
      assert_eq [a0; a1; a3; a4; a5; a6]
        ["research"; "--prompt"; "--runtime"; "headless"; "--root"; "/tmp/vibecrafted"]
  | _ => false
  end.
Definition marbles_launches_keep_runtime_root_and_loop_controls : bool :=
  let command := command_on None ["/d/config/zellij/config.kdl"] (request LaunchKind.Marbles "codex"
    "Converge on the operator surface." LaunchRuntime.Terminal "/d" "zellij" [] 4 7 None) in
  let args := lc_args command in
  let expected_deck_cmd := "exec '/usr/bin/vibecrafted' 'marbles' 'codex' '--count' '4' '--depth' '7' '--prompt' 'Converge on the operator surface.' '--runtime' 'terminal' '--root' '/d'" in
  assert_eq (lc_program command) "zellij" &&
  assert_eq (after_flag "--config-dir" args) (Some "/d/config/zellij") && has_arg "options" args &&
  expect (after_flag "--layout-string" args) (λ layout,
    contains layout (q "pane name='launch'") && contains layout (q "command='bash'") &&
    contains layout (q "cwd='/d'") && contains layout "export ZELLIJ_CONFIG_DIR=" &&
    contains layout expected_deck_cmd).

Definition workflow (zellij : string) (env : Env) (session : option string) : LaunchRequest :=
  request LaunchKind.Workflow "claude" "Ship the launcher." LaunchRuntime.Terminal "/tmp/workspace"
    zellij env 3 3 session.
Definition terminal_launches_preserve_explicit_zellij_config_dir : bool :=
  let command := command_on (Some "/tmp/custom-zellij") [] (request LaunchKind.Workflow "codex"
    "Ship the launcher." LaunchRuntime.Terminal "/tmp/workspace" "zellij" [] 3 3 None) in
  expect (after_flag "--layout-string" (lc_args command)) (λ layout,
    contains layout "export ZELLIJ_CONFIG_DIR='/tmp/custom-zellij'").
Definition terminal_launch_carries_named_session_before_subcommand : bool :=
  let args := lc_args (command_on None [] (workflow "zellij" [] (Some "vc-op-workflow-42"))) in
  assert_eq (after_flag "--session" args) (Some "vc-op-workflow-42") &&
  match index_of "--session" args, index_of "options" args with
  | Some s, Some o => bool_decide (s < o)%nat
  | _, _ => false
  end.
Definition terminal_launch_exposes_named_session_readiness_probe : bool :=
  let command := command_on None [] (workflow "/opt/bin/zellij" [] (Some "vc-op-workflow-42")) in
  expect (readiness_probe command) (λ probe,
    assert_eq (lp_program probe) "/opt/bin/zellij" &&
    assert_eq (lp_session_name probe) "vc-op-workflow-42" &&
    assert_eq (lp_args probe) ["list-sessions"; "--short"; "--no-formatting"]).
Definition terminal_launch_omits_session_flag_when_session_name_is_none : bool :=
  let command := command_on None [] (workflow "zellij" [] None) in
  negb (has_arg "--session" (lc_args command)) && is_none (readiness_probe command).
Definition terminal_launch_probe_inherits_config_dir_from_launch_command : bool :=
  let command := command_on None ["/tmp/workspace/config/zellij/config.kdl"]
                   (workflow "/opt/bin/zellij" [] (Some "vc-op-workflow-77")) in
  expect (after_flag "--config-dir" (lc_args command)) (λ launch_config_dir,
    expect (readiness_probe command) (λ probe,
      assert_eq (after_flag "--config-dir" (lp_args probe)) (Some launch_config_dir) &&
      contains launch_config_dir "/tmp/workspace/config/zellij" &&
      match index_of "--config-dir" (lp_args probe), index_of "list-sessions" (lp_args probe) with
      | Some c, Some l => bool_decide (c < l)%nat
      | _, _ => false
      end)).
Definition launch_commands_propagate_operator_env_and_custom_terminal_binary : bool :=
  let env := [("VIBECRAFTED_ROOT", "/tmp/repo"); ("VIBECRAFT_OPERATOR_STATE_ROOT", "/tmp/state")] in
  let command := command_on None [] (request LaunchKind.Workflow "codex" "Ship launch env."
    LaunchRuntime.Terminal "/tmp/repo" "/opt/bin/zellij" env 3 3 None) in
  assert_eq (lc_program command) "/opt/bin/zellij" &&
  any (λ kv, str_eqb kv.1 "VIBECRAFTED_ROOT" && str_eqb kv.2 "/tmp/repo") (lc_env command) &&
  expect (after_flag "--layout-string" (lc_args command)) (λ layout,
    contains layout "export VIBECRAFTED_ROOT='/tmp/repo'" && contains layout "starship init bash" &&
    contains layout "zoxide init bash" && contains layout "atuin init bash --disable-up-arrow").

(** ** The surfaces *)
Import SurfaceTests.

(** The state of these tests: [runs] on the board, nothing else set. *)
Definition app_of (rs : list RenderedRun) (tab : AppTab.AppTab) : App :=
  sample_app <| runs := rs |> <| launch_prompt := "Ship it" |> <| active_tab_index := tab_index tab |>.
Definition board_run (n rt : string) (report transcript : option string) : RenderedRun :=
  mkRenderedRun
    (run_of (Some ("run-" +:+ n)) (Some ("sess-" +:+ n)) (Some "codex") "running" "2026-04-16T10:00:00Z"
       "2026-04-16T10:02:00Z" "2026-04-16T10:03:00Z" (Some rt) (Some ("repo-run-" +:+ n))
       report transcript)
    RunKind.Active "1m ago" [].
Definition repo_run (n : string) : RenderedRun :=
  board_run n "/tmp/repo" (Some "/tmp/repo/report.md") (Some "/tmp/repo/transcript.log").
Definition summary_of (p text : string) : MuxSummary := from_path_and_result p (MuxTests.parsed text).
Definition two_summaries : list MuxSummary :=
  [summary_of "/tmp/memory.json" MuxTests.RUNNING_FIXTURE;
   summary_of "/tmp/brave.json" MuxTests.FAILED_FIXTURE].

Definition health_checks (a : App) : list string :=
  omap (λ act, match act with DeepAction.MuxHealth s => Some s | _ => None end) (deep_actions a).
Definition mux_health_deep_actions_surface_per_known_service : bool :=
  let app := app_of [board_run "7" "/tmp/repo" (Some "/tmp/repo/report.md") None] AppTab.Controls in
  let with_mux := app <| mux_summaries := two_summaries |> in
  assert_eq (health_checks app) [] &&
  assert_eq (health_checks with_mux) ["general-memory"; "brave-search"] &&
  expect (head (health_checks with_mux)) (λ s,
    let label := deep_action_label (DeepAction.MuxHealth s) in
    contains label "rust-mux health --service" && contains label "general-memory") &&
  assert_eq (length (health_checks (with_mux <| runs := [] |> <| selected := 0%nat |>))) 2%nat.

Definition mux_status_lines_render_healthy_and_attention_headers : bool :=
  let app := app_of [] AppTab.Monitor in
  let has lines mark text := any (λ l, contains l mark && contains l text) lines in
  let healthy := mux_status_lines (app <| mux_summaries :=
    [summary_of "/tmp/memory.json" MuxTests.RUNNING_FIXTURE;
     summary_of "/tmp/memory2.json" MuxTests.RUNNING_FIXTURE] |>) in
  let mixed := mux_status_lines (app <| mux_summaries :=
    two_summaries ++ [from_path_and_result "/tmp/loctree-broken.json" (Err "not json")] |>) in
  assert_eq (mux_status_lines app) [] &&
  assert_eq (head healthy) (Some "MCP daemons (2 healthy):") &&
  assert_eq (length (retain (λ l, contains l "• ") healthy)) 2%nat &&
  negb (any (λ l, contains l "! ") healthy) &&
  assert_eq (head mixed) (Some "MCP daemons (2/3 need attention):") &&
  has mixed "• " "Running" && has mixed "! " "Failed" && has mixed "! " "unreadable".

Definition is_action (a b : DeepAction.DeepAction) : bool :=
  match a, b with
  | DeepAction.AttachSession s, DeepAction.AttachSession s' => str_eqb s s'
  | DeepAction.ResumeSession x s, DeepAction.ResumeSession x' s' => str_eqb x x' && str_eqb s s'
  | DeepAction.OpenReport p, DeepAction.OpenReport p' => str_eqb p p'
  | DeepAction.OpenTranscript p, DeepAction.OpenTranscript p' => str_eqb p p'
  | DeepAction.OpenRoot p, DeepAction.OpenRoot p' => str_eqb p p'
  | _, _ => false
  end.
Definition deep_controls_expose_attach_resume_and_artifacts : bool :=
  let actions := deep_actions (app_of [repo_run "42"] AppTab.Monitor) in
  forallb (λ ab, is_action ab.1 ab.2) (zip actions
    [DeepAction.AttachSession "repo-run-42"; DeepAction.ResumeSession "codex" "sess-42";
     DeepAction.OpenReport "/tmp/repo/report.md"; DeepAction.OpenTranscript "/tmp/repo/transcript.log";
     DeepAction.OpenRoot "/tmp/repo"]) &&
  assert_eq (length actions) (5 + length CATALOG)%nat.
Definition native_artifact_viewer_reads_files_and_clipboard_payload_prefers_resume_command : bool :=
  let text := "line one" +:+ String newline ("line two" +:+ String newline "") in
  let app := (app_of [board_run "42" "/d" (Some "/d/report.md") None] AppTab.Controls)
               <| deep_selected := 2%nat |> in
  let o := {| disk := disk_of [("/d/report.md", text)] []; var := var empty_world; now := 0;
              create_dir_all := create_dir_all empty_world; write_file := write_file empty_world;
              mux_listens := false; mux_answers := mux_answers empty_world;
              spawn_detached := spawn_detached empty_world; suspension := suspension empty_world;
              clipboard := clipboard empty_world |} in
  let opened := open_artifact o (DeepAction.OpenReport "/d/report.md") app in
  assert_eq (clipboard_payload app) (Some "vibecrafted resume codex --session sess-42") &&
  succeeds opened.2 && bool_decide (focus opened.1 = LaunchFocus.Artifact) &&
  any (str_eqb "line one") (artifact_view_lines opened.1).

Definition empty_state_detail_lines_offer_human_quick_start : bool :=
  let lines := ConsoleView.detail_lines (app_of [] AppTab.Monitor) in
  forallb (λ t, any (λ l, contains l t) lines) ["Start here:"; "Workflow"; "Press ?"].
Definition prompt_lines_include_human_kind_copy_and_command_preview : bool :=
  let app := (app_of [] AppTab.Dispatch) <| launch_kind := LaunchKind.Research |>
               <| launch_agent := 1%nat |> <| launch_prompt := "Research the launcher surface." |>
               <| launch_runtime := LaunchRuntime.Visible |> in
  let lines := prompt_lines None (λ _, false) (Some 0%N) app in
  any (λ l, contains l "Research swarm") lines &&
  any (λ l, contains l "command:" && contains l "zellij" && contains l "research") lines &&
  any (λ l, contains l "Arrows:") lines.
Definition tab_navigation_wraps_and_dispatch_focus_tracks_selected_field : bool :=
  let app := app_of [] AppTab.Monitor in
  let app1 := previous_tab app in
  let app2 := next_tab app1 in
  let app3 := move_dispatch_selection app2 1 in
  let app4 := move_dispatch_selection app3 2 in
  tab_is app1 AppTab.Controls && tab_is app2 AppTab.Monitor && row_is app3 DispatchFocus.Agent &&
  row_is app4 DispatchFocus.Prompt.
Definition tab_labels_surface_monitor_dispatch_and_controls_context : bool :=
  let app := (app_of [repo_run "7"] AppTab.Monitor) <| launch_kind := LaunchKind.Marbles |>
               <| launch_agent := 2%nat |> <| launch_prompt := "Converge" |>
               <| launch_runtime := LaunchRuntime.Visible |>
               <| dispatch_selected := focus_index DispatchFocus.Runtime |> in
  assert_eq (tab_labels app)
    ["Monitor live 1"; "Dispatch marbles/gemini"; "Controls " +:+ nat_str (5 + length CATALOG)] &&
  assert_eq (tab_labels (app <| selected := 1%nat |>) !! 2%nat)
    (Some ("Controls " +:+ nat_str (length CATALOG))).
Definition changing_launch_kind_reorients_the_operator_into_dispatch : bool :=
  let app := (app_of [] AppTab.Controls) <| launch_agent := 2%nat |>
               <| launch_prompt := "custom prompt" |>
               <| dispatch_selected := focus_index DispatchFocus.Runtime |>
               <| focus := LaunchFocus.Help |> in
  let app := set_launch_kind app LaunchKind.Review in
  tab_is app AppTab.Dispatch && row_is app DispatchFocus.Kind && focus_is app LaunchFocus.Browse &&
  contains (launch_prompt app) "Review".

(** The console over a directory with an active and a finished run. *)
Definition board_world : Outside :=
  let now_text := "2026-05-01T00:00:00Z" in
  {| disk := disk_of
       [("/d/runs/active-codex.json",
         q "{ 'run_id':'active-codex', 'agent':'codex', 'state':'active', 'updated_at':'" +:+ now_text +:+
         q "', 'last_heartbeat':'" +:+ now_text +:+ q "' }");
        ("/d/runs/done-claude.json",
         q "{ 'run_id':'done-claude', 'agent':'claude', 'state':'completed', 'updated_at':'2026-04-16T10:00:00Z' }")] [];
     var := var empty_world; now := default 0%Z (rfc3339 now_text);
     create_dir_all := create_dir_all empty_world; write_file := write_file empty_world;
     mux_listens := false; mux_answers := mux_answers empty_world;
     spawn_detached := spawn_detached empty_world; suspension := suspension empty_world;
     clipboard := clipboard empty_world |}.
Definition board_console : Console :=
  mkConsole (new_app rfc3339 Some parse_run parse_event json_parse board_world
               (mkAppConfig "/d" "/usr/bin/vibecrafted" "/tmp/repo" LaunchRuntime.Terminal "zellij"
                  250 false)) [].
Definition toggled (s : Console) : Console :=
  toggle_filter rfc3339 Some parse_run parse_event json_parse (λ _, board_world) s.
Definition visible (s : Console) : list string := (λ r, run_id (snapshot r)) <$> runs (app s).
Definition scope_is (s : Console) (x : QueueScope.QueueScope) : bool :=
  match queue_scope (app s), x with
  | QueueScope.Live, QueueScope.Live | QueueScope.History, QueueScope.History
  | QueueScope.All, QueueScope.All => true
  | _, _ => false
  end.
Definition queue_scope_and_search_filter_the_visible_run_list : bool :=
  let s1 := toggled board_console in
  let s2 := set_search_query rfc3339 Some parse_run parse_event json_parse (λ _, board_world) "codex" s1 in
  let s3 := toggled s2 in
  assert_eq (visible board_console) ["active-codex"] &&
  scope_is s1 QueueScope.History && assert_eq (visible s1) ["done-claude"] &&
  assert_eq (visible s2) [] &&
  scope_is s3 QueueScope.All && assert_eq (visible s3) ["active-codex"].

(** ** The suite *)
Definition board_tests : list (string * bool) := [
  ("loads_runs_and_events_from_control_plane_state",
    loads_runs_and_events_from_control_plane_state);
  ("archived_run_markers_hide_runs_from_operator_board",
    archived_run_markers_hide_runs_from_operator_board);
  ("ignores_symlink_escapes_in_control_plane_root", ignores_symlink_escapes_in_control_plane_root);
  ("classifies_stale_active_runs_as_stalled", classifies_stale_active_runs_as_stalled);
  ("builds_existing_command_deck_launches", builds_existing_command_deck_launches);
  ("marbles_launches_keep_runtime_root_and_loop_controls",
    marbles_launches_keep_runtime_root_and_loop_controls);
  ("terminal_launches_preserve_explicit_zellij_config_dir",
    terminal_launches_preserve_explicit_zellij_config_dir);
  ("terminal_launch_carries_named_session_before_subcommand",
    terminal_launch_carries_named_session_before_subcommand);
  ("terminal_launch_exposes_named_session_readiness_probe",
    terminal_launch_exposes_named_session_readiness_probe);
  ("terminal_launch_omits_session_flag_when_session_name_is_none",
    terminal_launch_omits_session_flag_when_session_name_is_none);
  ("terminal_launch_probe_inherits_config_dir_from_launch_command",
    terminal_launch_probe_inherits_config_dir_from_launch_command);
  ("mux_health_deep_actions_surface_per_known_service",
    mux_health_deep_actions_surface_per_known_service);
  ("mux_status_lines_render_healthy_and_attention_headers",
    mux_status_lines_render_healthy_and_attention_headers);
  ("launch_commands_propagate_operator_env_and_custom_terminal_binary",
    launch_commands_propagate_operator_env_and_custom_terminal_binary);
  ("deep_controls_expose_attach_resume_and_artifacts",
    deep_controls_expose_attach_resume_and_artifacts);
  ("native_artifact_viewer_reads_files_and_clipboard_payload_prefers_resume_command",
    native_artifact_viewer_reads_files_and_clipboard_payload_prefers_resume_command);
  ("empty_state_detail_lines_offer_human_quick_start",
    empty_state_detail_lines_offer_human_quick_start);
  ("prompt_lines_include_human_kind_copy_and_command_preview",
    prompt_lines_include_human_kind_copy_and_command_preview);
  ("tab_navigation_wraps_and_dispatch_focus_tracks_selected_field",
    tab_navigation_wraps_and_dispatch_focus_tracks_selected_field);
  ("tab_labels_surface_monitor_dispatch_and_controls_context",
    tab_labels_surface_monitor_dispatch_and_controls_context);
  ("queue_scope_and_search_filter_the_visible_run_list",
    queue_scope_and_search_filter_the_visible_run_list);
  ("changing_launch_kind_reorients_the_operator_into_dispatch",
    changing_launch_kind_reorients_the_operator_into_dispatch)
].

Theorem board_tests_pass : failures board_tests = [].
Proof. by_compute. Qed.
