(* ===== verification/AgentTests.v ===== *)
(** * AgentTests: the tests of the tray and shell agents, run on the model

    The tests of [tray-agent/tests/ipc_client.rs], [tray-agent/src/handlers.rs] and
    [shell-agent/ffi/src/lib.rs], each as a definition of its name. *)
From S2P Require Import Prelude Text Json Shared Ipc Wire Tray Agents Testing.

(** To JSON text and back. *)
Definition sent_command (c : MuxControlCommand) : option Value := json_parse (json_print (ser_command c)).
Definition received (r : MuxControlResponse) : option MuxControlResponse :=
  json_parse (json_print (ser_response r)) ≫= de_response.
(** The command has this text, and reads back as itself. *)
Definition command_text (c : MuxControlCommand) (text : string) : bool :=
  expect (sent_command c) (λ v,
    bool_decide (Some v = json_parse (q text)) &&
    expect (de_command v) (λ c', bool_decide (ser_command c' = ser_command c))).

Definition serde_roundtrip_subscribe_command_matches_mux_agent_schema : bool :=
  command_text Subscribe "{'cmd':'Subscribe'}".
Definition serde_roundtrip_verify_command_with_client_kind : bool :=
  command_text (Verify ClientKind.Claude) "{'cmd':'Verify','args':{'client_kind':'claude'}}".
Definition decode_mux_event_state_change : bool :=
  match received (REvent (StateChange "test-service" "idle" "failed")) with
  | Some (REvent (StateChange _ _ to)) => assert_eq to "failed"
  | _ => false
  end.
Definition decode_mux_event_route_update_updates_tray : bool :=
  match received (REvent (RouteUpdate "claude" "test-server" 5 120)) with
  | Some (REvent (RouteUpdate client _ _ _)) => assert_eq client "claude"
  | _ => false
  end.
Definition decode_mux_event_client_drift_emits_tray_alert : bool :=
  match received (REvent (ClientDrift "codex" ["/path/to/bad/unix.sock"])) with
  | Some (REvent (ClientDrift client _)) => assert_eq client "codex"
  | _ => false
  end.
Definition verify_client_returns_drift_on_non_mux_servers : bool :=
  match received (RVerify (mkVerifyResult false [mkNonMuxEntry "gemini" "/tmp/old.sock" 42 "test"])) with
  | Some (RVerify res) => negb (vr_ok res) && assert_eq (length (vr_non_mux_servers res)) 1%nat
  | _ => false
  end.

Definition resolves_dynamic_menu_ids : bool :=
  let ids := mkMenuIds "show-dashboard" "open-logs" "copy-routing" "copy-diagnostics"
               (Some "onboarding") "settings" "help" "about" "quit" [("memex", "restart-memex")]
               [(ClientKind.Claude, "verify-claude")] in
  match resolve_menu_route "restart-memex" ids, resolve_menu_route "verify-claude" ids with
  | Some (RestartOf s), Some (VerifyOf ClientKind.Claude) => assert_eq s "memex"
  | _, _ => false
  end.

Definition test_client_kind_roundtrip : bool :=
  forallb (λ k, bool_decide (ser_client_kind (kind_of_ffi (ffi_of_kind k)) = ser_client_kind k))
    [ClientKind.Claude; ClientKind.Generic "test"].

(** ** The suite *)
Definition agent_tests : list (string * bool) := [
  ("serde_roundtrip_subscribe_command_matches_mux_agent_schema",
    serde_roundtrip_subscribe_command_matches_mux_agent_schema);
  ("serde_roundtrip_verify_command_with_client_kind", serde_roundtrip_verify_command_with_client_kind);
  ("decode_mux_event_state_change", decode_mux_event_state_change);
  ("decode_mux_event_route_update_updates_tray", decode_mux_event_route_update_updates_tray);
  ("decode_mux_event_client_drift_emits_tray_alert", decode_mux_event_client_drift_emits_tray_alert);
  ("verify_client_returns_drift_on_non_mux_servers", verify_client_returns_drift_on_non_mux_servers);
  ("resolves_dynamic_menu_ids", resolves_dynamic_menu_ids);
  ("test_client_kind_roundtrip", test_client_kind_roundtrip)
].

Theorem agent_tests_pass : failures agent_tests = [].
Proof. by_compute. Qed.
